(* ===== verification/_CoqProject ===== *)
-Q . S2P
Prelude.v
GoStrings.v
GoNumTime.v
TimeFacts.v
Json.v
JsonFacts.v
Domain.v
Config.v
ConfigLog.v
Topic.v
Protocol.v
MqttProxy.v
Services.v
Repository.v
Locators.v
StaleStore.v
TableTypes.v
ControlHandler.v
Identity.v
TestClients.v
AccountResolver.v
Inventory.v
MqttIngress.v
KafkaConsumer.v
GoUrl.v
Pagination.v
HttpApi.v
Middlewares.v
Api.v
ApiSystem.v
Deploy.v
Logger.v
MqttConsumer.v
Collectors.v
Tools.v
Server.v
NonInterference.v
Sources.v
System.v
EndToEnd.v
Updaters.v
Processes.v
Reports.v
UpdaterSystem.v
Interleaving.v
