(* ===== verification/Prelude.v ===== *)
(** * cloud-connector: a verification library (root)

    cloud-connector keeps MQTT connections to remote hosts ("clients").  Clients
    publish control messages; one process forwards them from MQTT to Kafka, a
    second one consumes them and keeps a table of connections in PostgreSQL, an
    API server looks the table up and publishes messages to the clients, and
    periodic jobs refresh or repair rows.  This library translates that code
    (the Go sources under src/) into executable definitions and proves what
    makes it correct.

    ** How the code is read

    A Go function with effects is a [M W A] of this file: a function of the state
    [W] that returns, panics or exits the process, and in each case has had the
    effects up to that point.  A component states what it needs of others as a
    class of operations over [W] (Domain.v: the Go interfaces); [Lens] and
    [zoom] put a component's state in a larger one.  [wp] is the weakest
    precondition of such a function, [wp_bind] and the other lemmas below are
    its rules.  Go integers are [Z] with their wrap-around written out
    ([wrap64]), strings are byte strings, [map[string]T] is [gmap string T],
    [interface{}] is [Json.value].

    ** The files, the code they model, and what they prove

    The parts of Go's standard library the program's behaviour hangs on:
    - GoStrings (strings, strconv, fmt), GoNumTime and TimeFacts (float64 text,
      RFC 3339 and the calendar; [ParseRFC3339_Format]), GoUrl (net/url), Json and JsonFacts (encoding/json as a push-down automaton,
      decoding into structs, marshalling; [Unmarshal_Marshal]).

    Data and configuration:
    - Domain: internal/domain, the error values, the interfaces as classes;
    - Config: internal/config/config.go, and ConfigLog: the text of it that every
      process logs when it starts, which does not depend on the secrets;
    - Deploy: what the configuration asks of the libraries that open connections
      (internal/platform/db, queue, utils/tls_utils, utils/jwt_utils);
    - Logger (internal/platform/logger): one line per entry, and the package's
      variables.

    From a client to the table (cmd/cloud-connector's mqtt_message_consumer and
    kafka_message_consumer):
    - Topic (internal/mqtt/topic.go): the verifier accepts exactly the incoming
      topics, the wildcards match exactly those, outgoing topics are apart;
    - MqttConsumer (mqtt_message_consumer.go, client_options.go): the connection is
      the configured one, early messages are handled like subscribed ones;
    - MqttIngress (internal/mqtt/message_handlers.go) and KafkaConsumer
      (kafka_message_consumer.go): only processed messages are committed, in order;
      a message crosses Kafka unchanged;
    - Protocol (internal/cloud_connector/protocol), ControlHandler
      (internal/cloud_connector): the effect of a message on the registry, progress,
      monotone timestamps, harmless redelivery, and the inputs that panic;
    - Repository (sql_connection_registrar.go and the migrations): the statements
      over a table of rows refine a partial map from client ids to connections;
    - Identity, AccountResolver, Inventory, Sources
      (internal/platform/utils/identity_utils, internal/controller): the services the
      handler calls;
    - System: the handler over all of these on one [World]; it discharges the
      interfaces' contracts, so the handler's theorems hold of the composition;
    - TestClients (internal/cloud_connector/protocol/types.go, cmd/auto_test_client,
      cmd/test_client): the other end of the wire; a client's message is read as it
      was meant.

    From the API to a client (api_server.go):
    - Locators (sql_connection_locator_v2.go): isolation of the lookups, pages
      that partition an org's connections;
    - Middlewares (internal/middlewares), HttpApi, Pagination, Api
      (internal/controller/api): authentication, bodies, links, handlers;
    - MqttProxy and Services (internal/mqtt/connector_client_proxy.go): each operation
      publishes exactly one message, or none;
    - ApiSystem, Server: handlers, lookups and proxies composed, then every route
      with its middlewares; whom a request can make the server talk to;
    - NonInterference: with strict lookups the v2 interface reveals nothing about
      other orgs (a two-run property);
    - EndToEnd: the clients of TestClients, the consumer of System and the API of
      ApiSystem on one database: a client that announces itself is reported as
      connected, one that is gone as disconnected; a client's messages are folded
      into its entry, so that the script of test_client has the effect its
      comments ask for ([test_client_script]).

    The processes (cmd/cloud-connector):
    - Processes: the Kafka consumer, the API server and the updaters from their
      start to their end, and the commands of main.go; both services connect
      before they serve and shut down in order.  [api_router_is_server] ties the
      API process to the theorems of Server.
    - Collectors (the metrics.go files): the metrics the packages register while a
      process starts; no registration fails, and what is counted is registered.

    The jobs:
    - StaleStore, Updaters, UpdaterSystem (stale_connection_locator.go,
      tenantless_connection_locator.go and the two updaters);
    - TableTypes (src/db/migrations): the columns' types, which every sequence of
      statements keeps ([table_stays_well_typed]);
    - Interleaving: the consumer and the updaters as threads that take turns on the
      table; the code takes no other steps ([code_runs_are_steps]), every org in
      the table comes from the resolver ([org_provenance]), and a tenant can be
      lost in between ([late_failure_takes_tenant]);
    - Reports (internal/pendo_transmitter, account_reporter.go, connection_counter.go);
    - Tools (connection_count.go, cmd/migrate_db, cmd/db_schema_dumper,
      cmd/stage_db_fixer, internal/platform/utils, what queue/types.go and
      broker_client.go log).

    ** Bounds and fuel

    The consumer's loops run on fuel: [consume_loop] takes one unit per message
    and the theorem quantifies over it; the commit retries take at most ten, the
    code's own bound.  The JSON scanner is structural in its input and rejects
    nesting deeper than 10000, as the library does.  Offsets, limits and delays
    are 64-bit ([is_int64]); [next_link_overflows] shows where that matters.

    ** Parameters

    Code outside src/ is a class: [Postgres] (column coercions, with
    [PostgresLaws]), [SqlText], [KafkaReader]/[KafkaWriter], [MqttClient] and
    [MqttLink], [HttpClient], [AuthGateway], [LRU], [XRHIDLib], [UUID], [Clock],
    [Viper], [Platform], [Mux], [ForeignHandlers], [IdentityMiddleware],
    [TenantidLib], [MigrateLib], [PushGateway], [Registerer], [KafkaWriterClose], [CloudWatchLib], [ClientHost].  Scripted
    instances ([Services.Env], [KEnv], [SEnv], ...) answer every call from
    arbitrary functions; properties quantify over the scripts, witnesses pick one.

    ** Not modelled

    What is observed with gauges and histograms (the counters appear as effects
    where they are incremented), cobra's parsing of the command
    line, net/http's listener goroutine, the profiler.  Real time is a script of
    clock readings; goroutines are sequences of their steps (the processes on the table
    are interleaved in Interleaving), and the [select]s of
    the processes are operations of the class [Supervisor].  Log entries are left
    out of the handlers; how an entry becomes a line is in Logger.  A call on the
    database that reports an error has had no effect there: a commit whose
    acknowledgement is lost is not modelled. *)

From Stdlib Require Ascii.
From stdpp Require Export base gmap strings list pretty sorting.
Export Stdlib.Strings.Ascii (ascii(..), ascii_of_N, N_of_ascii, ascii_N_embedding, N_ascii_embedding).
Export (notations) Stdlib.Strings.Ascii.
From stdpp Require Import options.

(** ** Effects of a Go function

    A Go call may return, panic (failed type assertion, nil dereference) or
    terminate the process (logrus' [Fatal] family calls [os.Exit]).  Whatever
    happens, the effects performed before that point have taken place, so the
    state is threaded through all three outcomes. *)

Declare Scope go_scope.
Delimit Scope go_scope with go.

Inductive outcome (A : Type) : Type :=
| Ret (a : A)
| Panic (why : string)
| Exit (why : string).
Arguments Ret {A} a.
Arguments Panic {A} why.
Arguments Exit {A} why.

Definition M (W A : Type) : Type := W → outcome A * W.

#[export] Instance M_ret {W} : MRet (M W) := λ A a w, (Ret a, w).
#[export] Instance M_bind {W} : MBind (M W) := λ A B k m w,
  match m w with
  | (Ret a, w') => k a w'
  | (Panic s, w') => (Panic s, w')
  | (Exit s, w') => (Exit s, w')
  end.

Definition panic {W A} (why : string) : M W A := λ w, (Panic why, w).
Definition exit_process {W A} (why : string) : M W A := λ w, (Exit why, w).
Definition get_state {W} : M W W := λ w, (Ret w, w).
Definition put_state {W} (w' : W) : M W unit := λ _, (Ret tt, w').
Definition modify {W} (f : W → W) : M W unit := λ w, (Ret tt, f w).

(** [for _, x := range l { body x }], without early exit. *)
Fixpoint for_each {W A} (l : list A) (body : A → M W unit) : M W unit :=
  match l with
  | [] => mret tt
  | x :: l' => body x;; for_each l' body
  end.

(** The result of a computation that returned, and the state it left. *)
Definition result_of {W A} (m : M W A) (w : W) : outcome A := (m w).1.
Definition state_of {W A} (m : M W A) (w : W) : W := (m w).2.

(** ** Lenses: a component works on its own part of a larger state *)

Class Lens (W S : Type) := {
  lget : W → S;
  lset : S → W → W;
  lget_lset (s : S) (w : W) : lget (lset s w) = s;
  lset_lget (w : W) : lset (lget w) w = w;
  lset_lset (s s' : S) (w : W) : lset s (lset s' w) = lset s w;
}.
#[global] Hint Mode Lens + + : typeclass_instances.

Definition zoom {W S A} `{!Lens W S} (m : M S A) : M W A := λ w,
  let '(o, s) := m (lget w) in (o, lset s w).

(** ** Weakest preconditions *)

Definition wp {W A} (m : M W A) (w : W) (Q : outcome A → W → Prop) : Prop :=
  Q (m w).1 (m w).2.

Section wp.
Context {W : Type}.
Implicit Types w : W.

Lemma wp_unfold {A} (m : M W A) w Q : wp m w Q ↔ Q (m w).1 (m w).2.
Proof. done. Qed.

Lemma wp_ret {A} (a : A) w (Q : outcome A → W → Prop) :
  Q (Ret a) w → wp (mret a : M W A) w Q.
Proof. done. Qed.

Lemma wp_bind {A B} (m : M W A) (k : A → M W B) w Q :
  wp m w (λ o w', match o with
                  | Ret a => wp (k a) w' Q
                  | Panic s => Q (Panic s) w'
                  | Exit s => Q (Exit s) w'
                  end) →
  wp (m ≫= k) w Q.
Proof.
  unfold wp, mbind, M_bind. destruct (m w) as [[a|s|s] w']; done.
Qed.

Lemma wp_mono {A} (m : M W A) w (Q Q' : outcome A → W → Prop) :
  wp m w Q → (∀ o w', Q o w' → Q' o w') → wp m w Q'.
Proof. unfold wp. auto. Qed.

Lemma wp_and {A} (m : M W A) w (Q Q' : outcome A → W → Prop) :
  wp m w Q → wp m w Q' → wp m w (λ o w', Q o w' ∧ Q' o w').
Proof. unfold wp. auto. Qed.

Lemma wp_modify (f : W → W) w Q : Q (Ret tt) (f w) → wp (modify f) w Q.
Proof. done. Qed.

Lemma wp_get w Q : Q (Ret w) w → wp get_state w Q.
Proof. done. Qed.

Lemma wp_panic {A} why w (Q : outcome A → W → Prop) :
  Q (Panic why) w → wp (panic why) w Q.
Proof. done. Qed.

Lemma wp_exit {A} why w (Q : outcome A → W → Prop) :
  Q (Exit why) w → wp (exit_process why) w Q.
Proof. done. Qed.

(** A loop whose body keeps [I], and never panics or exits, keeps [I]. *)
Lemma wp_for_each {A} (l : list A) (body : A → M W unit) (I : W → Prop) w
    (Q : outcome unit → W → Prop) :
  I w →
  (∀ x w, x ∈ l → I w → wp (body x) w (λ o w', o = Ret tt ∧ I w')) →
  (∀ w', I w' → Q (Ret tt) w') →
  wp (for_each l body) w Q.
Proof.
  revert w. induction l as [|x l IH]; intros w HI Hbody HQ; simpl.
  { by apply wp_ret, HQ. }
  apply wp_bind. eapply wp_mono; [apply Hbody; [left|done]|].
  intros o w' [-> HI']. simpl. apply IH; [done| |done].
  intros y w'' Hy. apply Hbody. by right.
Qed.
End wp.

Lemma wp_zoom {W S A} `{!Lens W S} (m : M S A) (w : W) Q :
  wp m (lget w) (λ o s, Q o (lset s w)) → wp (zoom m) w Q.
Proof. unfold wp, zoom. by destruct (m (lget w)) as [o s]. Qed.

(** [M]'s binds compute on a returned value. *)
Lemma bind_ret_l {W A B} (a : A) (k : A → M W B) w :
  ((mret a : M W A) ≫= k) w = k a w.
Proof. done. Qed.

(** If a computation is known to return [a] in [w'], so is its continuation. *)
Lemma bind_ret {W A B} (m : M W A) (k : A → M W B) w a w' :
  m w = (Ret a, w') → (m ≫= k) w = k a w'.
Proof. intros H. unfold mbind, M_bind. by rewrite H. Qed.

Lemma wp_bind_ret {W A B} (m : M W A) (k : A → M W B) w a w' (Q : outcome B → W → Prop) :
  m w = (Ret a, w') → wp (k a) w' Q → wp (m ≫= k) w Q.
Proof. intros H HQ. unfold wp. by rewrite (bind_ret _ _ _ _ _ H). Qed.

Lemma bind_panic {W A B} (m : M W A) (k : A → M W B) w s w' :
  m w = (Panic s, w') → (m ≫= k) w = (Panic s, w').
Proof. intros H. unfold mbind, M_bind. by rewrite H. Qed.

Lemma bind_exit {W A B} (m : M W A) (k : A → M W B) w s w' :
  m w = (Exit s, w') → (m ≫= k) w = (Exit s, w').
Proof. intros H. unfold mbind, M_bind. by rewrite H. Qed.

(** [m], a computation on the large state, is [m'] on the part the lens shows. *)
Definition zooms {W S A} `{!Lens W S} (m : M W A) (m' : M S A) : Prop := ∀ w, m w = zoom m' w.

Section zooms.
Context {W S : Type} `{!Lens W S}.

Lemma zooms_zoom {A} (m : M S A) : zooms (zoom m : M W A) m.
Proof. done. Qed.

Lemma zooms_ret {A} (a : A) : zooms (mret a : M W A) (mret a : M S A).
Proof. intros w. unfold zoom, mret, M_ret. by rewrite lset_lget. Qed.

Lemma zooms_panic {A} s : zooms (panic s : M W A) (panic s : M S A).
Proof. intros w. unfold zoom, panic. by rewrite lset_lget. Qed.

Lemma zooms_bind {A B} (m : M W A) (m' : M S A) (k : A → M W B) (k' : A → M S B) :
  zooms m m' → (∀ a, zooms (k a) (k' a)) → zooms (m ≫= k) (m' ≫= k').
Proof.
  intros Hm Hk w. unfold mbind, M_bind. rewrite Hm. unfold zoom.
  destruct (m' (lget w)) as [[a|s|s] st]; [|done..].
  rewrite Hk. unfold zoom. rewrite lget_lset. destruct (k' a st) as [o st'].
  by rewrite lset_lset.
Qed.

(** The run of the part, seen from the whole. *)
Lemma zooms_run {A} (m : M W A) (m' : M S A) w o st :
  zooms m m' → m' (lget w) = (o, st) → m w = (o, lset st w).
Proof. intros Hm Hr. rewrite Hm. unfold zoom. by rewrite Hr. Qed.

Lemma wp_zooms {A} (m : M W A) (m' : M S A) w Q :
  zooms m m' → wp m' (lget w) (λ o s, Q o (lset s w)) → wp m w Q.
Proof. intros Hz Hw. rewrite wp_unfold, Hz. by apply (wp_zoom m'). Qed.
End zooms.

(** ** Automation *)

Create HintDb go discriminated.
#[export] Hint Resolve wp_ret wp_modify wp_get wp_panic wp_exit : go.

(** One step of symbolic execution of a [wp] goal. *)
Ltac go_step :=
  lazymatch goal with
  | |- wp (mret _) _ _ => apply wp_ret
  | |- wp (_ ≫= _) _ _ => apply wp_bind
  | |- wp (modify _) _ _ => apply wp_modify
  | |- wp get_state _ _ => apply wp_get
  | |- wp (panic _) _ _ => apply wp_panic
  | |- wp (exit_process _) _ _ => apply wp_exit
  | |- wp (if ?b then _ else _) _ _ => destruct b eqn:?
  | |- wp (match ?x with _ => _ end) _ _ => destruct x eqn:?
  end.
Ltac go_steps := repeat (go_step; simpl); simpl.

(** Case analysis on the scrutinee of a match in the goal. *)
Ltac case_goal :=
  match goal with
  | |- context [ match ?x with _ => _ end ] => destruct x eqn:?
  end.

(** ** Lists *)

Lemma filter_all {A} (P : A → Prop) `{!∀ x, Decision (P x)} (l : list A) :
  Forall P l → filter P l = l.
Proof.
  induction 1 as [|x l Hx _ IH]; [done|].
  by rewrite filter_cons_True, IH.
Qed.

Lemma filter_none {A} (P : A → Prop) `{!∀ x, Decision (P x)} (l : list A) :
  Forall (λ x, ¬ P x) l → filter P l = [].
Proof.
  induction 1 as [|x l Hx _ IH]; [done|].
  by rewrite filter_cons_False, IH.
Qed.

(** Successive pages of a list are its consecutive slices. *)
Lemma take_drop_page {A} (l : list A) (o n : nat) :
  take o l ++ take n (drop o l) = take (o + n) l.
Proof. by rewrite take_take_drop. Qed.

(** ** Machine integers: Go's [int] is 64 bits, two's complement *)

Definition int64_min : Z := -9223372036854775808.
Definition int64_max : Z := 9223372036854775807.
Definition is_int64 (z : Z) : bool := (int64_min <=? z)%Z && (z <=? int64_max)%Z.
Definition wrap64 (z : Z) : Z :=
  ((z + 9223372036854775808) mod 18446744073709551616 - 9223372036854775808)%Z.

Lemma wrap64_id z : is_int64 z = true → wrap64 z = z.
Proof.
  unfold is_int64, wrap64, int64_min, int64_max. intros H.
  apply andb_true_iff in H as [H1%Z.leb_le H2%Z.leb_le].
  rewrite Z.mod_small; lia.
Qed.

Lemma wrap64_range z : is_int64 (wrap64 z) = true.
Proof.
  unfold is_int64, wrap64, int64_min, int64_max.
  pose proof (Z.mod_pos_bound (z + 9223372036854775808) 18446744073709551616 ltac:(lia)).
  apply andb_true_iff; split; apply Z.leb_le; lia.
Qed.

#[export] Hint Resolve wrap64_range : go.
#[export] Hint Rewrite @length_app @length_map @length_take @length_drop : go.
