(* ===== verification/GoStrings.v ===== *)
(** * The parts of Go's [strings], [strconv] and [fmt] packages the program uses

    Go strings are byte strings, as Rocq's [string] is.  Everything here is
    executable; the lemmas are the round trips and bounds the other files need. *)

From S2P Require Import Prelude.
From stdpp Require Import options.

(** ** Bytes *)

Definition byte_val (a : ascii) : Z := Z.of_N (N_of_ascii a).
Definition byte_of (z : Z) : ascii := ascii_of_N (Z.to_N z).
Definition char_eqb (a b : ascii) : bool := bool_decide (a = b).
Definition byte_in (lo hi : Z) (a : ascii) : bool :=
  (lo <=? byte_val a)%Z && (byte_val a <=? hi)%Z.

Definition dquote : ascii := "034"%char.
Definition backslash : ascii := "092"%char.

Definition str1 (a : ascii) : string := String a EmptyString.

Fixpoint string_mem (c : ascii) (s : string) : bool :=
  match s with
  | EmptyString => false
  | String a s' => char_eqb a c || string_mem c s'
  end.

Definition is_ascii_string (s : string) : bool :=
  (fix go s := match s with
               | EmptyString => true
               | String a s' => (byte_val a <? 128)%Z && go s'
               end) s.

Fixpoint string_forallb (f : ascii → bool) (s : string) : bool :=
  match s with
  | EmptyString => true
  | String a s' => f a && string_forallb f s'
  end.

Fixpoint drop_prefix (p s : string) : option string :=
  match p, s with
  | EmptyString, _ => Some s
  | String a p', String b s' => if char_eqb a b then drop_prefix p' s' else None
  | String _ _, EmptyString => None
  end.

Fixpoint rev_onto (s acc : string) : string :=
  match s with
  | EmptyString => acc
  | String a s' => rev_onto s' (String a acc)
  end.

(** ** [strings.Split] by a one-byte separator, and [strings.Join] *)

Fixpoint Split (s : string) (sep : ascii) : list string :=
  match s with
  | EmptyString => [EmptyString]
  | String a s' =>
      if char_eqb a sep then EmptyString :: Split s' sep
      else match Split s' sep with
           | [] => [str1 a]
           | h :: t => String a h :: t
           end
  end.

Fixpoint Join (l : list string) (sep : string) : string :=
  match l with
  | [] => EmptyString
  | [x] => x
  | x :: l' => x +:+ sep +:+ Join l' sep
  end.

Lemma string_app_cons a s1 s2 : String a s1 +:+ s2 = String a (s1 +:+ s2).
Proof. done. Qed.

Lemma string_app_nil_l s : EmptyString +:+ s = s.
Proof. done. Qed.

Lemma string_app_nil_r s : s +:+ EmptyString = s.
Proof. induction s as [|a s IH]; [done|]. by rewrite string_app_cons, IH. Qed.

Lemma string_app_assoc s1 s2 s3 : (s1 +:+ s2) +:+ s3 = s1 +:+ (s2 +:+ s3).
Proof. induction s1 as [|a s IH]; [done|]. by rewrite !string_app_cons, IH. Qed.

Lemma string_mem_app c s1 s2 :
  string_mem c (s1 +:+ s2) = string_mem c s1 || string_mem c s2.
Proof.
  induction s1 as [|a s IH]; [done|].
  rewrite string_app_cons. simpl. by rewrite IH, orb_assoc.
Qed.

Lemma char_eqb_refl a : char_eqb a a = true.
Proof. by apply bool_decide_eq_true. Qed.

Lemma char_eqb_eq a b : char_eqb a b = true ↔ a = b.
Proof. apply bool_decide_eq_true. Qed.

Lemma Split_ne s sep : Split s sep ≠ [].
Proof. destruct s; simpl; [done|]. repeat case_match; done. Qed.

Lemma Join_Split s sep : Join (Split s sep) (str1 sep) = s.
Proof.
  induction s as [|a s IH]; [done|]. simpl.
  destruct (char_eqb a sep) eqn:Ha.
  - apply char_eqb_eq in Ha as ->.
    destruct (Split s sep) eqn:Hs; [by apply Split_ne in Hs|].
    rewrite <-IH. done.
  - destruct (Split s sep) as [|h t] eqn:Hs; [by apply Split_ne in Hs|].
    simpl in *. destruct t; rewrite ?string_app_cons, ?string_app_nil_l; by rewrite <-IH.
Qed.

Lemma Split_no_sep s sep : string_mem sep s = false → Split s sep = [s].
Proof.
  induction s as [|a s IH]; [done|]. simpl.
  intros [Ha Hs]%orb_false_iff. by rewrite Ha, (IH Hs).
Qed.

Lemma Split_app x s sep :
  string_mem sep x = false →
  Split (x +:+ String sep s) sep = x :: Split s sep.
Proof.
  induction x as [|a x IH]; simpl.
  - by rewrite char_eqb_refl.
  - intros [Ha Hx]%orb_false_iff. by rewrite Ha, (IH Hx).
Qed.

Lemma Split_Join l sep :
  l ≠ [] → Forall (λ x, string_mem sep x = false) l →
  Split (Join l (str1 sep)) sep = l.
Proof.
  intros Hne Hl. induction Hl as [|x l Hx Hl IH]; [done|].
  destruct l as [|y l']; [by apply Split_no_sep|].
  change (Join (x :: y :: l') (str1 sep)) with
    (x +:+ String sep (Join (y :: l') (str1 sep))).
  rewrite Split_app by done. by rewrite IH.
Qed.

(** ** [len(strings.TrimSpace(s)) == 0]: every rune of [s] is white space
    ([unicode.IsSpace]: the ASCII blanks, U+0085, U+00A0, U+1680,
    U+2000-U+200A, U+2028, U+2029, U+202F, U+205F and U+3000). *)

Definition is_ascii_space (a : ascii) : bool :=
  let v := byte_val a in (v =? 32)%Z || ((9 <=? v)%Z && (v <=? 13)%Z).

Fixpoint TrimSpace_empty (s : string) : bool :=
  match s with
  | EmptyString => true
  | String a s1 =>
      if is_ascii_space a then TrimSpace_empty s1
      else match s1 with
           | String b s2 =>
               if (byte_val a =? 194)%Z then
                 ((byte_val b =? 133)%Z || (byte_val b =? 160)%Z) && TrimSpace_empty s2
               else match s2 with
                    | String c s3 =>
                        let va := byte_val a in let vb := byte_val b in
                        let vc := byte_val c in
                        ( ((va =? 225) && (vb =? 154) && (vc =? 128))
                          || ((va =? 226) && (vb =? 128) &&
                              (((128 <=? vc) && (vc <=? 138)) || (vc =? 168)
                               || (vc =? 169) || (vc =? 175)))
                          || ((va =? 226) && (vb =? 129) && (vc =? 159))
                          || ((va =? 227) && (vb =? 128) && (vc =? 128)) )%Z
                        && TrimSpace_empty s3
                    | EmptyString => false
                    end
           | EmptyString => false
           end
  end.

(** ** Decimal numbers: [strconv.Itoa] and [strconv.Atoi] *)

Definition Itoa (z : Z) : string := pretty z.

Definition digit_val (a : ascii) : option Z :=
  if byte_in 48 57 a then Some (byte_val a - 48)%Z else None.

Fixpoint digits_val (acc : Z) (s : string) : option Z :=
  match s with
  | EmptyString => Some acc
  | String a s' => d ← digit_val a; digits_val (acc * 10 + d)%Z s'
  end.

Inductive num_error := ErrSyntax | ErrRange.

Definition Atoi (s : string) : Z + num_error :=
  let '(neg, ds) := match s with
                    | String a s' =>
                        if char_eqb a "-" then (true, s')
                        else if char_eqb a "+" then (false, s')
                        else (false, s)
                    | EmptyString => (false, s)
                    end in
  match ds with
  | EmptyString => inr ErrSyntax
  | _ => match digits_val 0 ds with
         | None => inr ErrSyntax
         | Some n => let z := if neg : bool then (- n)%Z else n in
                     if is_int64 z then inl z else inr ErrRange
         end
  end.

Lemma digit_val_pretty (n : N) :
  (n < 10)%N → digit_val (pretty_N_char n) = Some (Z.of_N n).
Proof.
  intros Hn. assert (n = 0 ∨ n = 1 ∨ n = 2 ∨ n = 3 ∨ n = 4 ∨ n = 5 ∨ n = 6
    ∨ n = 7 ∨ n = 8 ∨ n = 9)%N as Hc by lia.
  destruct_or! Hc; subst n; reflexivity.
Qed.

Lemma digits_val_pretty_go (x : N) s :
  digits_val 0 (pretty_N_go x s) = digits_val (Z.of_N x) s.
Proof.
  revert s. induction (N.lt_wf_0 x) as [x _ IH]; intros s.
  destruct (decide (0 < x)%N) as [Hx|Hx].
  - rewrite pretty_N_go_step by done.
    rewrite IH by (by apply N.div_lt).
    cbn [digits_val]. rewrite digit_val_pretty by (by apply N.mod_lt).
    cbn. f_equal. rewrite N2Z.inj_div, N2Z.inj_mod.
    pose proof (Z.div_mod (Z.of_N x) 10 ltac:(lia)). lia.
  - assert (x = 0%N) as -> by lia. by rewrite pretty_N_go_0.
Qed.

Lemma digits_val_pretty (x : N) : digits_val 0 (pretty x) = Some (Z.of_N x).
Proof.
  unfold pretty, pretty_N. case_decide as H.
  - by subst.
  - by rewrite digits_val_pretty_go.
Qed.

(** The first byte of a natural number in decimal is a digit. *)
Lemma digits_val_first acc s v :
  digits_val acc s = Some v →
  match s with
  | EmptyString => True
  | String a _ => char_eqb a "-" = false ∧ char_eqb a "+" = false
  end.
Proof.
  destruct s as [|a s]; [done|]. simpl. unfold digit_val.
  destruct (byte_in 48 57 a) eqn:Ha; [|done]. intros _.
  unfold char_eqb; split; apply bool_decide_eq_false; intros ->; done.
Qed.

Lemma pretty_N_go_ne (x : N) a s : pretty_N_go x (String a s) ≠ EmptyString.
Proof.
  revert a s. induction (N.lt_wf_0 x) as [x _ IH]; intros a s.
  destruct (decide (0 < x)%N) as [Hx|Hx].
  - rewrite pretty_N_go_step by done. apply IH. by apply N.div_lt.
  - assert (x = 0%N) as -> by lia. by rewrite pretty_N_go_0.
Qed.

Lemma pretty_N_ne (x : N) : pretty x ≠ EmptyString.
Proof.
  unfold pretty, pretty_N. case_decide as Hx; [done|].
  rewrite pretty_N_go_step by lia. apply pretty_N_go_ne.
Qed.

Lemma Atoi_Itoa_N (x : N) :
  is_int64 (Z.of_N x) = true → Atoi (pretty x) = inl (Z.of_N x).
Proof.
  intros Hr. pose proof (digits_val_pretty x) as Hv.
  pose proof (pretty_N_ne x) as Hne.
  pose proof (digits_val_first _ _ _ Hv) as Hf.
  unfold Atoi. destruct (pretty x) as [|a s] eqn:Hp; [done|].
  destruct Hf as [-> ->]. by rewrite Hv, Hr.
Qed.

(** [Atoi] undoes [Itoa] on every Go [int]. *)
Lemma Atoi_Itoa (z : Z) : is_int64 z = true → Atoi (Itoa z) = inl z.
Proof.
  intros Hr. unfold Itoa, pretty, pretty_Z. destruct z as [|p|p].
  - reflexivity.
  - apply (Atoi_Itoa_N (Npos p)). exact Hr.
  - pose proof (digits_val_pretty (Npos p)) as Hv.
    pose proof (pretty_N_ne (Npos p)) as Hne.
    change (pretty p) with (pretty (Npos p)) in *.
    unfold Atoi. rewrite string_app_cons. rewrite char_eqb_refl.
    change (EmptyString +:+ pretty (Npos p)) with (pretty (Npos p)).
    destruct (pretty (Npos p)) as [|a s] eqn:Hp; [done|].
    rewrite Hv. cbv zeta. change (- Z.of_N (N.pos p))%Z with (Z.neg p). by rewrite Hr.
Qed.

(** ** [strconv.Quote], used in the text of [strconv]'s errors.  Runes beyond
    ASCII are taken as printable, and are copied. *)

Definition hex_digit (n : Z) : ascii :=
  byte_of (if (n <? 10)%Z then 48 + n else 87 + n)%Z.

Definition quote_byte (a : ascii) : string :=
  let v := byte_val a in
  if char_eqb a dquote || char_eqb a backslash then String backslash (str1 a)
  else if (v =? 7)%Z then String backslash (str1 "a")
  else if (v =? 8)%Z then String backslash (str1 "b")
  else if (v =? 12)%Z then String backslash (str1 "f")
  else if (v =? 10)%Z then String backslash (str1 "n")
  else if (v =? 13)%Z then String backslash (str1 "r")
  else if (v =? 9)%Z then String backslash (str1 "t")
  else if (v =? 11)%Z then String backslash (str1 "v")
  else if (v <? 32)%Z || (v =? 127)%Z
  then String backslash (String "x" (String (hex_digit (v / 16)) (str1 (hex_digit (v mod 16)))))
  else str1 a.

Fixpoint string_bind (f : ascii → string) (s : string) : string :=
  match s with
  | EmptyString => EmptyString
  | String a s' => f a +:+ string_bind f s'
  end.

Definition Quote (s : string) : string :=
  String dquote (string_bind quote_byte s +:+ str1 dquote).

(** ** [fmt.Sprintf] with one string argument

    [%s] prints the argument, [%%] a percent sign; further [%s] report a
    missing argument and an unused argument is reported at the end.  [None]:
    the format has a directive other than [%s] and [%%]. *)

Fixpoint sprintf_go (f : string) (arg : string) (used : bool) : option string :=
  match f with
  | EmptyString => Some (if used then EmptyString else "%!(EXTRA domain.ClientID=" +:+ arg +:+ ")")
  | String "%" f1 =>
      match f1 with
      | String "%" f2 => String "%" <$> sprintf_go f2 arg used
      | String "s" f2 =>
          (if used then String.append "%!s(MISSING)" else String.append arg)
            <$> sprintf_go f2 arg true
      | _ => None
      end
  | String a f1 => String a <$> sprintf_go f1 arg used
  end.
Definition Sprintf_s (f arg : string) : option string := sprintf_go f arg false.

Lemma sprintf_go_plain p f arg used :
  string_mem "%" p = false →
  sprintf_go (p +:+ f) arg used = String.append p <$> sprintf_go f arg used.
Proof.
  induction p as [|a p IH]; cbn [string_mem].
  - intros _. rewrite string_app_nil_l. by destruct (sprintf_go f arg used).
  - intros [Ha Hp]%orb_false_iff. rewrite string_app_cons.
    assert (sprintf_go (String a (p +:+ f)) arg used
            = String a <$> sprintf_go (p +:+ f) arg used) as ->.
    { destruct a as [[] [] [] [] [] [] [] []]; first [reflexivity | by vm_compute in Ha]. }
    rewrite (IH Hp). by destruct (sprintf_go f arg used).
Qed.

#[export] Hint Rewrite string_app_nil_r string_app_assoc string_app_cons : go_str.
