(* ===== verification/GoNumTime.v ===== *)
(** * Go's [float64] text forms and RFC 3339 timestamps

    - [ParseFloat]/[FormatFloat]: the conversions [encoding/json] applies to
      the numbers of an [interface{}] value (IEEE binary64 as [spec_float]).
    - [ParseRFC3339], [FormatRFC3339] (seconds) and [FormatRFC3339Nano]: the
      layouts used by [time.Time]'s JSON form, the inventory messages and the
      [date_received] Kafka header.  An instant is a number of nanoseconds
      since the Unix epoch. *)

From Stdlib Require Import SpecFloat.
From S2P Require Import Prelude GoStrings.
From stdpp Require Import options.

Abbreviation float64 := spec_float (only parsing).
Abbreviation time := Z (only parsing).

#[export] Instance spec_float_eq_dec : EqDecision spec_float.
Proof. solve_decision. Defined.

Definition prec64 : Z := 53.
Definition emax64 : Z := 1024.

(** ** Numbers *)

(** The exact decimal [(-1)^neg * m * 10^k], rounded to binary64 (ties to
    even); [None] when it overflows ([strconv.ErrRange]). *)
Definition round_decimal (neg : bool) (m : Z) (k : Z) : option float64 :=
  match m with
  | Z.pos p =>
      let r :=
        if (0 <=? k)%Z
        then binary_normalize prec64 emax64
               (if neg then Z.neg (p * Z.to_pos (10 ^ k)) else Z.pos (p * Z.to_pos (10 ^ k))) 0 neg
        else SFdiv prec64 emax64 (S754_finite neg p 0)
               (S754_finite false (Z.to_pos (10 ^ (- k))) 0) in
      match r with
      | S754_infinity _ | S754_nan => None
      | _ => Some r
      end
  | _ => Some (S754_zero neg)
  end.

(** Digits of a literal: value, number of digits, rest. *)
Fixpoint scan_digits (s : string) (acc n : Z) : Z * Z * string :=
  match s with
  | EmptyString => (acc, n, s)
  | String a s' => match digit_val a with
                   | Some d => scan_digits s' (acc * 10 + d) (n + 1)
                   | None => (acc, n, s)
                   end
  end.

(** A literal of JSON's number grammar, as sign, integer mantissa and power of ten. *)
Definition decimal_of_literal (lit : string) : bool * Z * Z :=
  let '(neg, s) := match lit with
                   | String "-" s' => (true, s')
                   | _ => (false, lit)
                   end in
  let '(ip, _, s1) := scan_digits s 0 0 in
  let '(m, nf, s2) := match s1 with
                      | String "." s' => scan_digits s' ip 0
                      | _ => (ip, 0%Z, s1)
                      end in
  let e := match s2 with
           | String a s' =>
               if char_eqb a "e" || char_eqb a "E" then
                 match s' with
                 | String "-" s'' => (- (scan_digits s'' 0 0).1.1)%Z
                 | String "+" s'' => (scan_digits s'' 0 0).1.1
                 | _ => (scan_digits s' 0 0).1.1
                 end
               else 0%Z
           | EmptyString => 0%Z
           end in
  (neg, m, e - nf)%Z.

(** Magnitudes out of every binary64's range are cut off before computing. *)
Definition ParseFloat (lit : string) : option float64 :=
  let '(neg, m, k) := decimal_of_literal lit in
  let digits := (Z.log2 m / 3 + 1)%Z in
  if (m =? 0)%Z then Some (S754_zero neg)
  else if (400 <? k)%Z then None
  else if (k + digits <? -400)%Z then Some (S754_zero neg)
  else round_decimal neg m k.

(** [round(num / den)], half to even. *)
Definition div_half_even (num den : Z) : Z :=
  let q := (num / den)%Z in
  let r := (num mod den)%Z in
  match (2 * r ?= den)%Z with
  | Lt => q
  | Gt => (q + 1)%Z
  | Eq => if Z.even q then q else (q + 1)%Z
  end.

(** [num/den * 10^k], rounded to an integer. *)
Definition scaled_round (num den k : Z) : Z :=
  if (0 <=? k)%Z then div_half_even (num * 10 ^ k) den
  else div_half_even num (den * 10 ^ (- k)).

(** Largest [k] with [10^k <= num/den], searched down from an upper bound. *)
Fixpoint floor_log10 (fuel : nat) (num den k : Z) : Z :=
  match fuel with
  | O => k
  | S f =>
      let ge := if (0 <=? k)%Z then (den * 10 ^ k <=? num)%Z
                else (den <=? num * 10 ^ (- k))%Z in
      if ge then k else floor_log10 f num den (k - 1)
  end.

Fixpoint shortest_digits (n : nat) (p : nat) (neg : bool) (f : float64)
    (num den e10 : Z) : Z * Z :=
  let k := (Z.of_nat p - 1 - e10)%Z in
  let d := scaled_round num den k in
  match n with
  | O => (d, (- k)%Z)
  | S n' =>
      if bool_decide (round_decimal neg d (- k) = Some f) then (d, (- k)%Z)
      else shortest_digits n' (S p) neg f num den e10
  end.

Fixpoint zeros (n : nat) : string :=
  match n with O => EmptyString | S n' => String "0" (zeros n') end.

Fixpoint strip_zeros (n : nat) (d k : Z) : Z * Z :=
  match n with
  | O => (d, k)
  | S n' => if (d mod 10 =? 0)%Z && negb (d =? 0)%Z
            then strip_zeros n' (d / 10) (k + 1) else (d, k)
  end.

Fixpoint split_at (n : nat) (s : string) : string * string :=
  match n, s with
  | S n', String a s' => let '(x, y) := split_at n' s' in (String a x, y)
  | _, _ => (EmptyString, s)
  end.

(** Decimal layout of [d * 10^k]; [x] is the exponent of the leading digit. *)
Definition layout_decimal (d k : Z) : string :=
  let ds := Itoa d in
  let n := Z.of_nat (String.length ds) in
  let x := (n + k - 1)%Z in
  if (x <? -6)%Z || (21 <=? x)%Z then
    let '(h, t) := split_at 1 ds in
    h +:+ (match t with EmptyString => EmptyString | _ => String "." t end) +:+
    (if (x <? 0)%Z then "e-" +:+ Itoa (- x) else "e+" +:+ Itoa x)
  else if (0 <=? k)%Z then ds +:+ zeros (Z.to_nat k)
  else if (0 <=? x)%Z then
    let '(h, t) := split_at (Z.to_nat (n + k)) ds in h +:+ String "." t
  else "0." +:+ zeros (Z.to_nat (- x - 1)) +:+ ds.

(** [encoding/json]'s text of a finite [float64]; [None]: NaN or infinity. *)
Definition FormatFloat (f : float64) : option string :=
  match f with
  | S754_zero s => Some (if s then "-0" else "0")
  | S754_infinity _ | S754_nan => None
  | S754_finite s m e =>
      let num := (Z.pos m * 2 ^ Z.max e 0)%Z in
      let den := (2 ^ Z.max (- e) 0)%Z in
      let e10 := floor_log10 800 num den ((Z.log2 (Z.pos m) + e + 3) * 30103 / 100000 + 2) in
      let '(d, k) := shortest_digits 16 1 s f num den e10 in
      let '(d, k) := strip_zeros 20 d k in
      Some ((if s then "-" else "") +:+ layout_decimal d k)
  end.

(** [strconv.ParseInt(lit, 10, 64)] on a JSON number literal. *)
Definition ParseInt (lit : string) : option Z :=
  match Atoi lit with
  | inl z => match lit with String "+" _ => None | _ => Some z end
  | inr _ => None
  end.

(** ** Dates *)

Definition days_from_civil (y m d : Z) : Z :=
  let y := if (m <=? 2)%Z then (y - 1)%Z else y in
  let era := (y / 400)%Z in
  let yoe := (y - era * 400)%Z in
  let mp := ((m + 9) mod 12)%Z in
  let doy := ((153 * mp + 2) / 5 + d - 1)%Z in
  let doe := (yoe * 365 + yoe / 4 - yoe / 100 + doy)%Z in
  (era * 146097 + doe - 719468)%Z.

Definition civil_from_days (z : Z) : Z * Z * Z :=
  let z := (z + 719468)%Z in
  let era := (z / 146097)%Z in
  let doe := (z - era * 146097)%Z in
  let yoe := ((doe - doe / 1460 + doe / 36524 - doe / 146096) / 365)%Z in
  let doy := (doe - (365 * yoe + yoe / 4 - yoe / 100))%Z in
  let mp := ((5 * doy + 2) / 153)%Z in
  let d := (doy - (153 * mp + 2) / 5 + 1)%Z in
  let m := (if mp <? 10 then mp + 3 else mp - 9)%Z in
  let y := (yoe + era * 400)%Z in
  ((if m <=? 2 then y + 1 else y)%Z, m, d).

Definition is_leap (y : Z) : bool :=
  (y mod 4 =? 0)%Z && (negb (y mod 100 =? 0)%Z || (y mod 400 =? 0)%Z).
Definition days_in (m y : Z) : Z :=
  if (m =? 2)%Z then (if is_leap y then 29 else 28)
  else if (m =? 4)%Z || (m =? 6)%Z || (m =? 9)%Z || (m =? 11)%Z then 30 else 31.

(** ** RFC 3339 *)

Fixpoint take_digits (n : nat) (s : string) (acc : Z) : option (Z * string) :=
  match n with
  | O => Some (acc, s)
  | S n' => match s with
            | String a s' => d ← digit_val a; take_digits n' s' (acc * 10 + d)
            | EmptyString => None
            end
  end.
Definition take_num (n : nat) (lo hi : Z) (s : string) : option (Z * string) :=
  p ← take_digits n s 0;
  if (lo <=? p.1)%Z && (p.1 <=? hi)%Z then Some p else None.
Definition expect (c : ascii) (s : string) : option string :=
  match s with
  | String a s' => if char_eqb a c then Some s' else None
  | EmptyString => None
  end.

(** Fractional seconds: nanoseconds from the first nine digits, rest skipped. *)
Fixpoint take_fraction (s : string) (acc scale : Z) : Z * string :=
  match s with
  | String a s' => match digit_val a with
                   | Some d => take_fraction s' (acc + d * scale) (scale / 10)
                   | None => (acc, s)
                   end
  | EmptyString => (acc, s)
  end.

Definition zone_offset (s : string) : option Z :=
  match s with
  | String a s' =>
      if char_eqb a "Z" then (if bool_decide (s' = EmptyString) then Some 0%Z else None)
      else if char_eqb a "+" || char_eqb a "-" then
        hh ← take_num 2 0 23 s'; s2 ← expect ":" hh.2;
        mm ← take_num 2 0 59 s2;
        if bool_decide (mm.2 = EmptyString)
        then let o := ((hh.1 * 60 + mm.1) * 60)%Z in
             Some (if char_eqb a "-" then (- o)%Z else o)
        else None
      else None
  | EmptyString => None
  end.

Definition ParseRFC3339 (s : string) : option time :=
  y ← take_num 4 0 9999 s; s ← expect "-" y.2;
  mo ← take_num 2 1 12 s; s ← expect "-" mo.2;
  d ← take_num 2 1 (days_in mo.1 y.1) s; s ← expect "T" d.2;
  h ← take_num 2 0 23 s; s ← expect ":" h.2;
  mi ← take_num 2 0 59 s; s ← expect ":" mi.2;
  se ← take_num 2 0 59 s;
  fr ← match se.2 with
       | String a s' =>
           if char_eqb a "." then
             match s' with
             | String b _ => match digit_val b with
                             | Some _ => Some (take_fraction s' 0 100000000)
                             | None => None
                             end
             | EmptyString => None
             end
           else Some (0%Z, se.2)
       | EmptyString => Some (0%Z, se.2)
       end;
  off ← zone_offset fr.2;
  Some (((days_from_civil y.1 mo.1 d.1 * 86400 + h.1 * 3600 + mi.1 * 60 + se.1 - off)
           * 1000000000 + fr.1)%Z).

(** The zero [time.Time]: year 1, January 1st, UTC. *)
Definition zero_time : time := -62135596800000000000.

Definition pad (n : nat) (z : Z) : string :=
  let s := Itoa z in zeros (n - String.length s) +:+ s.

Definition format_seconds (t : time) : string :=
  let secs := (t / 1000000000)%Z in
  let '(y, mo, d) := civil_from_days (secs / 86400) in
  let sod := (secs mod 86400)%Z in
  pad 4 y +:+ "-" +:+ pad 2 mo +:+ "-" +:+ pad 2 d +:+ "T" +:+
  pad 2 (sod / 3600) +:+ ":" +:+ pad 2 (sod / 60 mod 60) +:+ ":" +:+ pad 2 (sod mod 60).

(** [t.UTC().Format("2006-01-02T15:04:05Z07:00")] *)
Definition FormatRFC3339 (t : time) : string := format_seconds t +:+ "Z".

(** [t.UTC().Format(time.RFC3339Nano)] *)
Definition FormatRFC3339Nano (t : time) : string :=
  let ns := (t mod 1000000000)%Z in
  format_seconds t +:+
  (if (ns =? 0)%Z then "" else
     let '(d, k) := strip_zeros 9 ns 0 in
     "." +:+ pad (9 - Z.to_nat k) d) +:+ "Z".

(** Time comparisons of the [time] package. *)
Definition Before (t u : time) : bool := (t <? u)%Z.
