(* ===== verification/TimeFacts.v ===== *)
(** * Facts about RFC 3339 timestamps: what is formatted is read back

    [ParseRFC3339_Format]: [time.Time]'s JSON form undoes itself on every instant of
    the years 0 to 9999, to the nanosecond. *)

From S2P Require Import Prelude GoStrings GoNumTime.
From stdpp Require Import options.

(** ** Dates *)

(** The first day of a year that starts in March, within its era. *)
Definition year_start (yoe : Z) : Z := (365 * yoe + yoe / 4 - yoe / 100)%Z.

Lemma year_of_era doe :
  (0 ≤ doe < 146097)%Z →
  let yoe := ((doe - doe / 1460 + doe / 36524 - doe / 146096) / 365)%Z in
  (0 ≤ yoe < 400 ∧ year_start yoe ≤ doe ∧
   doe < year_start yoe + 365 + (if (yoe =? 399) || (((yoe + 1) mod 4 =? 0) && negb ((yoe + 1) mod 100 =? 0)) then 1 else 0))%Z.
Proof.
  intros Hdoe yoe. unfold year_start.
  assert (H1 := Z.div_mod doe 1460 ltac:(lia)). assert (H1' := Z.mod_pos_bound doe 1460 ltac:(lia)).
  assert (H2 := Z.div_mod doe 36524 ltac:(lia)). assert (H2' := Z.mod_pos_bound doe 36524 ltac:(lia)).
  assert (H3 := Z.div_mod doe 146096 ltac:(lia)). assert (H3' := Z.mod_pos_bound doe 146096 ltac:(lia)).
  set (q1 := (doe / 1460)%Z) in *. set (q2 := (doe / 36524)%Z) in *. set (q3 := (doe / 146096)%Z) in *.
  assert (H4 := Z.div_mod (doe - q1 + q2 - q3) 365 ltac:(lia)).
  assert (H4' := Z.mod_pos_bound (doe - q1 + q2 - q3) 365 ltac:(lia)).
  fold yoe in H4.
  assert (H5 := Z.div_mod yoe 4 ltac:(lia)). assert (H5' := Z.mod_pos_bound yoe 4 ltac:(lia)).
  assert (H6 := Z.div_mod yoe 100 ltac:(lia)). assert (H6' := Z.mod_pos_bound yoe 100 ltac:(lia)).
  assert (H7 := Z.div_mod (yoe + 1) 4 ltac:(lia)). assert (H7' := Z.mod_pos_bound (yoe + 1) 4 ltac:(lia)).
  assert (H8 := Z.div_mod (yoe + 1) 100 ltac:(lia)). assert (H8' := Z.mod_pos_bound (yoe + 1) 100 ltac:(lia)).
  set (r1 := (doe mod 1460)%Z) in *. set (r2 := (doe mod 36524)%Z) in *. set (r3 := (doe mod 146096)%Z) in *.
  set (r4 := ((doe - q1 + q2 - q3) mod 365)%Z) in *.
  set (a := (yoe / 4)%Z) in *. set (b := (yoe / 100)%Z) in *.
  set (ra := (yoe mod 4)%Z) in *. set (rb := (yoe mod 100)%Z) in *.
  set (c := ((yoe + 1) / 4)%Z) in *. set (d := ((yoe + 1) / 100)%Z) in *.
  set (rc := ((yoe + 1) mod 4)%Z) in *. set (rd := ((yoe + 1) mod 100)%Z) in *.
  clearbody q1 q2 q3 yoe r1 r2 r3 r4 a b ra rb c d rc rd.
  assert (q3 = 0 ∨ q3 = 1)%Z as Hq3 by lia.
  assert (q2 = 0 ∨ q2 = 1 ∨ q2 = 2 ∨ q2 = 3 ∨ q2 = 4)%Z as Hq2 by lia.
  split_and!; [lia|lia|destruct Hq3; destruct_or! Hq2; subst; lia|].
  destruct (Z.eqb_spec yoe 399); cbn [orb]; [destruct Hq3; destruct_or! Hq2; subst; lia|].
  destruct (Z.eqb_spec rc 0), (Z.eqb_spec rd 0); cbn [andb negb];
    destruct Hq3; destruct_or! Hq2; subst; lia.
Qed.

(** Month and day of the [doy]-th day of a year that starts in March, and back. *)
Definition month_ok (doy : Z) : bool :=
  let mp := ((5 * doy + 2) / 153)%Z in
  let d := (doy - (153 * mp + 2) / 5 + 1)%Z in
  let m := (if mp <? 10 then mp + 3 else mp - 9)%Z in
  (1 <=? m)%Z && (m <=? 12)%Z && (1 <=? d)%Z
  && (d <=? (if m =? 2 then (if doy =? 365 then 29 else 28) else days_in m 1))%Z
  && ((m + 9) mod 12 =? mp)%Z && ((153 * mp + 2) / 5 + d - 1 =? doy)%Z
  && eqb (m <=? 2)%Z (306 <=? doy)%Z.

Lemma month_of_year doy : (0 ≤ doy < 366)%Z → month_ok doy = true.
Proof.
  intros Hd. assert (Hin : doy ∈ seqZ 0 366) by (apply elem_of_seqZ; lia).
  revert doy Hin Hd. assert (Hall : forallb month_ok (seqZ 0 366) = true) by (vm_compute; reflexivity).
  rewrite forallb_forall in Hall. intros doy Hin _. by apply Hall, list_elem_of_In.
Qed.

Definition valid_date (y m d : Z) : bool :=
  (1 <=? m)%Z && (m <=? 12)%Z && (1 <=? d)%Z && (d <=? days_in m y)%Z.

Lemma leap_of_era yoe era :
  (yoe =? 399)%Z || (((yoe + 1) mod 4 =? 0)%Z && negb ((yoe + 1) mod 100 =? 0)%Z) = true →
  is_leap (yoe + era * 400 + 1) = true.
Proof.
  unfold is_leap. intros [H399%Z.eqb_eq|[H4 H100]%andb_true_iff]%orb_true_iff.
  - rewrite H399. replace (399 + era * 400 + 1)%Z with ((era + 1) * 400)%Z by lia.
    rewrite (Z.mod_mul (era + 1) 400) by lia.
    replace ((era + 1) * 400)%Z with ((era + 1) * 100 * 4)%Z by lia. rewrite Z.mod_mul by lia.
    apply andb_true_iff. split; [done|]. by rewrite orb_true_r.
  - replace (yoe + era * 400 + 1)%Z with (yoe + 1 + era * 100 * 4)%Z by lia.
    rewrite Z.mod_add by lia. rewrite H4.
    replace (yoe + 1 + era * 100 * 4)%Z with (yoe + 1 + era * 4 * 100)%Z by lia.
    rewrite Z.mod_add by lia. by rewrite H100.
Qed.

Lemma civil_roundtrip z :
  let '(y, m, d) := civil_from_days z in
  valid_date y m d = true ∧ days_from_civil y m d = z.
Proof.
  unfold civil_from_days. set (z0 := (z + 719468)%Z). set (era := (z0 / 146097)%Z).
  set (doe := (z0 - era * 146097)%Z).
  assert (Hdoe : (0 ≤ doe < 146097)%Z).
  { unfold doe, era. pose proof (Z.div_mod z0 146097 ltac:(lia)). pose proof (Z.mod_pos_bound z0 146097 ltac:(lia)). lia. }
  pose proof (year_of_era doe Hdoe) as Hy. cbv zeta in Hy.
  set (yoe := ((doe - doe / 1460 + doe / 36524 - doe / 146096) / 365)%Z) in *.
  destruct Hy as (Hyoe&Hlo&Hhi). unfold year_start in Hlo, Hhi.
  set (doy := (doe - (365 * yoe + yoe / 4 - yoe / 100))%Z).
  assert (Hdoy : (0 ≤ doy < 366)%Z).
  { unfold doy. destruct (_ || _) in Hhi; lia. }
  pose proof (month_of_year doy Hdoy) as Hm. unfold month_ok in Hm. cbv zeta in Hm.
  set (mp := ((5 * doy + 2) / 153)%Z) in *. set (d := (doy - (153 * mp + 2) / 5 + 1)%Z) in *.
  set (m := (if (mp <? 10)%Z then (mp + 3)%Z else (mp - 9)%Z)) in *.
  rewrite !andb_true_iff in Hm. destruct Hm as ((((((Hm1&Hm2)&Hd1)&Hd2)&Hmp)&Hback)&Hjan).
  apply Z.eqb_eq in Hmp, Hback. apply eqb_prop in Hjan.
  assert (Hyear : ((if (m <=? 2)%Z then (if (m <=? 2)%Z then yoe + era * 400 + 1 else yoe + era * 400) - 1
    else (if (m <=? 2)%Z then yoe + era * 400 + 1 else yoe + era * 400)) = yoe + era * 400)%Z)
    by (destruct (m <=? 2)%Z; lia).
  split.
  - unfold valid_date. rewrite Hm1, Hm2, Hd1. cbn [andb].
    destruct (Z.eqb_spec m 2) as [Em|Em]; [|].
    + rewrite Em. cbn [Z.leb Z.compare Pos.compare Pos.compare_cont]. unfold days_in. cbn [Z.eqb Pos.eqb].
      destruct (doy =? 365)%Z eqn:E365.
      * apply Z.eqb_eq in E365. assert (Hleap : is_leap (yoe + era * 400 + 1) = true).
        { apply leap_of_era. unfold doy in E365. destruct (_ || _) in Hhi |- *; [done|lia]. }
        by rewrite Hleap.
      * destruct (is_leap _); [|exact Hd2]. apply Z.leb_le in Hd2. apply Z.leb_le. lia.
    + assert (Hdi : ∀ y, days_in m y = days_in m 1) by (intros y; unfold days_in; destruct (Z.eqb_spec m 2); done).
      rewrite Hdi. exact Hd2.
  - unfold days_from_civil. cbv zeta. rewrite Hyear.
    assert (Hera : ((yoe + era * 400) / 400 = era)%Z) by (rewrite Z.div_add by lia; rewrite Z.div_small by lia; lia).
    rewrite Hera, Hmp, Hback. unfold doy, doe, z0.
    replace (yoe + era * 400 - era * 400)%Z with yoe by lia. lia.
Qed.

(** ** Numbers of a fixed width *)

Lemma take_digits_app n s rest acc v :
  digits_val acc s = Some v → String.length s = n → take_digits n (s +:+ rest) acc = Some (v, rest).
Proof.
  revert s acc. induction n as [|n IH]; intros [|a s] acc Hv Hn; try done.
  - cbn in Hv. by injection Hv as ->.
  - cbn [digits_val] in Hv. rewrite string_app_cons. cbn [take_digits].
    destruct (digit_val a) as [d|]; [|done]. cbn [mbind option_bind] in *. apply IH; [done|]. cbn in Hn. lia.
Qed.

Lemma digits_val_zeros k s : digits_val 0 (zeros k +:+ s) = digits_val 0 s.
Proof. induction k as [|k IH]; [done|]. exact IH. Qed.

Lemma length_zeros k s : String.length (zeros k +:+ s) = k + String.length s.
Proof.
  induction k as [|k IH]; [done|]. cbn [zeros]. rewrite string_app_cons. cbn [String.length].
  by rewrite IH.
Qed.

Lemma length_pretty_go n (x : N) s :
  (x < 10 ^ N.of_nat n)%N → String.length (pretty_N_go x s) ≤ n + String.length s.
Proof.
  revert x s. induction n as [|n IH]; intros x s Hx.
  - assert (x = 0%N) as -> by (cbn in Hx; lia). rewrite pretty_N_go_0. lia.
  - destruct (decide (0 < x)%N) as [H0|H0].
    + rewrite pretty_N_go_step by done. etrans; [apply IH|cbn; lia].
      rewrite Nat2N.inj_succ, N.pow_succ_r' in Hx. apply N.Div0.div_lt_upper_bound. lia.
    + assert (x = 0%N) as -> by lia. rewrite pretty_N_go_0. lia.
Qed.

Lemma Itoa_nonneg z : (0 ≤ z)%Z → Itoa z = pretty (Z.to_N z).
Proof. intros Hz. unfold Itoa. by destruct z. Qed.

Lemma length_Itoa n z : (0 ≤ z < 10 ^ Z.of_nat (S n))%Z → String.length (Itoa z) ≤ S n.
Proof.
  intros [Hz Hlt]. rewrite Itoa_nonneg by done. unfold pretty, pretty_N. case_decide as H0.
  - cbn. lia.
  - etrans; [apply (length_pretty_go (S n))|cbn; lia].
    apply N2Z.inj_lt. rewrite Z2N.id, N2Z.inj_pow by done. rewrite nat_N_Z. exact Hlt.
Qed.

Lemma pad_digits n z :
  (0 ≤ z < 10 ^ Z.of_nat (S n))%Z →
  digits_val 0 (pad (S n) z) = Some z ∧ String.length (pad (S n) z) = S n.
Proof.
  intros Hz. unfold pad. split.
  - rewrite digits_val_zeros, Itoa_nonneg, digits_val_pretty by lia. f_equal. lia.
  - rewrite length_zeros. pose proof (length_Itoa n z Hz). lia.
Qed.

Lemma take_num_pad n lo hi z rest :
  (0 ≤ z < 10 ^ Z.of_nat (S n))%Z → (lo ≤ z ≤ hi)%Z →
  take_num (S n) lo hi (pad (S n) z +:+ rest) = Some (z, rest).
Proof.
  intros Hz Hr. destruct (pad_digits n z Hz) as [Hv Hl]. unfold take_num.
  rewrite (take_digits_app (S n) _ rest 0 z) by done. cbn [mbind option_bind fst].
  rewrite (proj2 (Z.leb_le lo z)), (proj2 (Z.leb_le z hi)) by lia. done.
Qed.

(** ** The fraction of a second *)

Lemma strip_zeros_spec n d k :
  (0 < d)%Z → let '(d', k') := strip_zeros n d k in
  (k ≤ k' ∧ 0 < d' ∧ d = d' * 10 ^ (k' - k))%Z.
Proof.
  revert d k. induction n as [|n IH]; intros d k Hd; cbn [strip_zeros].
  { rewrite Z.sub_diag. lia. }
  destruct (_ && _) eqn:E; [|rewrite Z.sub_diag; lia].
  apply andb_true_iff in E as [E _]. apply Z.eqb_eq in E.
  pose proof (Z.div_mod d 10 ltac:(lia)) as Hdm.
  specialize (IH (d / 10)%Z (k + 1)%Z ltac:(lia)). destruct (strip_zeros n (d / 10) (k + 1)) as [d' k'].
  destruct IH as (Hk&Hd'&He). split_and!; [lia|done|].
  replace (k' - k)%Z with (Z.succ (k' - (k + 1)))%Z by lia. rewrite Z.pow_succ_r by lia. nia.
Qed.

Lemma take_fraction_digits s acc v rest m :
  digits_val acc s = Some v → (Z.of_nat (String.length s) ≤ m)%Z →
  (∀ a s', rest = String a s' → digit_val a = None) → ∀ total,
  take_fraction (s +:+ rest) total (10 ^ (m - 1))
  = (total + (v - acc * 10 ^ Z.of_nat (String.length s)) * 10 ^ (m - Z.of_nat (String.length s)), rest)%Z.
Proof.
  revert acc m. induction s as [|a s IH]; intros acc m Hv Hm Hrest total.
  - cbn in Hv. injection Hv as <-. rewrite string_app_nil_l. cbn [String.length Z.of_nat].
    rewrite Z.pow_0_r. replace (total + (acc - acc * 1) * _)%Z with total by lia.
    destruct rest as [|b rest]; [done|]. cbn. by rewrite (Hrest b rest eq_refl).
  - cbn [digits_val] in Hv. rewrite string_app_cons. cbn [take_fraction].
    destruct (digit_val a) as [d|]; [|done]. cbn [mbind option_bind] in Hv.
    cbn [String.length] in Hm |- *. rewrite Nat2Z.inj_succ in Hm |- *.
    set (l := Z.of_nat (String.length s)) in *.
    destruct (decide (l = 0%Z)) as [Hl|Hl].
    { destruct s; [|cbn in l; lia]. cbn in Hv. injection Hv as <-. cbn [String.length] in l.
      rewrite string_app_nil_l. rewrite Hl. change (Z.succ 0) with 1%Z. rewrite Z.pow_1_r.
      replace ((acc * 10 + d - acc * 10) * 10 ^ (m - 1))%Z with (d * 10 ^ (m - 1))%Z by ring.
      destruct rest as [|b rest]; [done|]. cbn [take_fraction]. by rewrite (Hrest b rest eq_refl). }
    assert (Hscale : (10 ^ (m - 1) / 10 = 10 ^ (m - 1 - 1))%Z).
    { replace (m - 1)%Z with (Z.succ (m - 1 - 1)) at 1 by lia. rewrite Z.pow_succ_r by lia.
      rewrite Z.mul_comm, Z.div_mul; lia. }
    rewrite Hscale. rewrite (IH (acc * 10 + d)%Z (m - 1)%Z Hv ltac:(lia) Hrest). fold l. f_equal.
    rewrite Z.pow_succ_r by lia. replace (m - Z.succ l)%Z with (m - 1 - l)%Z by lia.
    assert (Hp : (10 ^ (m - 1) = 10 ^ l * 10 ^ (m - 1 - l))%Z) by (rewrite <-Z.pow_add_r by lia; f_equal; lia).
    rewrite Hp. ring.
Qed.

(** ** The round trip *)

(** The instants of the years 0 to 9999. *)
Definition representable (t : time) : Prop := (0 ≤ (civil_from_days (t / 1000000000 / 86400)).1.1 ≤ 9999)%Z.

Lemma zone_Z : zone_offset "Z" = Some 0%Z.
Proof. reflexivity. Qed.

(** The clock of a second of the day. *)
Lemma clock_fields sod :
  (0 ≤ sod < 86400)%Z →
  (0 ≤ sod / 3600 < 24 ∧ 0 ≤ sod / 60 mod 60 < 60 ∧ 0 ≤ sod mod 60 < 60 ∧
   sod / 3600 * 3600 + (sod / 60 mod 60) * 60 + sod mod 60 = sod)%Z.
Proof.
  intros Hsod. pose proof (Z.mod_pos_bound (sod / 60) 60 ltac:(lia)).
  pose proof (Z.mod_pos_bound sod 60 ltac:(lia)).
  pose proof (Z.div_mod sod 60 ltac:(lia)). pose proof (Z.div_mod (sod / 60) 60 ltac:(lia)) as Hm.
  rewrite (Z.div_div sod 60 60) in Hm by lia. change (60 * 60)%Z with 3600%Z in Hm.
  split_and!; lia.
Qed.

(** The fraction without its trailing zeros is read back as the nanoseconds. *)
Lemma take_fraction_pad ns f k :
  (0 < ns < 1000000000)%Z → strip_zeros 9 ns 0 = (f, k) →
  ∃ b s, pad (9 - Z.to_nat k) f = String b s ∧ is_Some (digit_val b) ∧
    take_fraction (String b s +:+ "Z") 0 100000000 = (ns, "Z").
Proof.
  intros Hns Hstrip. pose proof (strip_zeros_spec 9 ns 0 ltac:(lia)) as Hs.
  rewrite Hstrip, Z.sub_0_r in Hs. destruct Hs as (Hk&Hf&Hnsf).
  assert (Hk9 : (k < 9)%Z).
  { destruct (decide (9 ≤ k)%Z) as [Hge|]; [|lia]. exfalso.
    assert (10 ^ 9 ≤ 10 ^ k)%Z by (apply Z.pow_le_mono_r; lia). change (10 ^ 9)%Z with 1000000000%Z in *. nia. }
  remember (9 - Z.to_nat k) as n eqn:Hn. destruct n as [|n]; [lia|].
  assert (Hpow : (10 ^ Z.of_nat (S n) * 10 ^ k = 1000000000)%Z).
  { rewrite <-Z.pow_add_r by lia. by replace (Z.of_nat (S n) + k)%Z with 9%Z by lia. }
  assert (Hfr : (0 ≤ f < 10 ^ Z.of_nat (S n))%Z).
  { split; [lia|]. assert (0 < 10 ^ k)%Z by (apply Z.pow_pos_nonneg; lia). nia. }
  destruct (pad_digits n f Hfr) as [Hdv Hlen].
  destruct (pad (S n) f) as [|b s]; [done|]. exists b, s. split; [done|]. split.
  { cbn [digits_val] in Hdv. by destruct (digit_val b). }
  change 100000000%Z with (10 ^ (9 - 1))%Z.
  rewrite (take_fraction_digits (String b s) 0 f "Z" 9 Hdv) by
    first [rewrite Hlen; lia | by intros ? ? [= <- <-]].
  rewrite Hlen, Z.mul_0_l, Z.sub_0_r, Z.add_0_l, Hnsf. do 3 f_equal. lia.
Qed.

Ltac parse_field lo hi :=
  rewrite (take_num_pad _ lo hi) by (cbn; lia); cbn [mbind option_bind fst snd];
  try (rewrite string_app_cons; cbn [expect]; rewrite char_eqb_refl, string_app_nil_l; cbn [mbind option_bind]).

Theorem ParseRFC3339_Format t : representable t → ParseRFC3339 (FormatRFC3339Nano t) = Some t.
Proof.
  unfold representable, FormatRFC3339Nano, format_seconds. set (secs := (t / 1000000000)%Z).
  set (ns := (t mod 1000000000)%Z). pose proof (civil_roundtrip (secs / 86400)) as Hc.
  destruct (civil_from_days (secs / 86400)) as [[y mo] d]. cbn [fst]. intros Hy. destruct Hc as [Hv Hdays].
  unfold valid_date in Hv. rewrite !andb_true_iff, !Z.leb_le in Hv. destruct Hv as [[[Hm1 Hm2] Hd1] Hd2].
  assert (Hd31 : (days_in mo y ≤ 31)%Z) by (unfold days_in; repeat case_match; lia).
  set (sod := (secs mod 86400)%Z).
  assert (Hns : (0 ≤ ns < 1000000000)%Z) by (apply Z.mod_pos_bound; lia).
  destruct (clock_fields sod) as (Hh&Hmi&Hse&Hsum); [apply Z.mod_pos_bound; lia|].
  assert (Ht : t = ((secs / 86400 * 86400 + sod) * 1000000000 + ns)%Z).
  { pose proof (Z.div_mod secs 86400 ltac:(lia)). pose proof (Z.div_mod t 1000000000 ltac:(lia)) as Hdm.
    unfold sod, ns. fold secs in Hdm. lia. }
  unfold ParseRFC3339. rewrite !string_app_assoc.
  parse_field 0%Z 9999%Z. parse_field 1%Z 12%Z. parse_field 1%Z (days_in mo y).
  parse_field 0%Z 23%Z. parse_field 0%Z 59%Z. parse_field 0%Z 59%Z.
  assert (Hfinal : ∀ f : Z, f = ns →
    Some ((days_from_civil y mo d * 86400 + sod / 3600 * 3600 + (sod / 60 mod 60) * 60 + sod mod 60 - 0) * 1000000000 + f)%Z
    = Some t) by (intros f ->; f_equal; rewrite Hdays, Ht; lia).
  destruct (Z.eqb_spec ns 0) as [E0|E0]; [cbn; by apply Hfinal|].
  destruct (strip_zeros 9 ns 0) as [f k] eqn:Hstrip.
  destruct (take_fraction_pad ns f k ltac:(lia) Hstrip) as (b&s&Hpad&[db Hb]&Hfraction).
  rewrite Hpad, !string_app_assoc, string_app_cons, string_app_nil_l, char_eqb_refl.
  rewrite string_app_cons, Hb, <-string_app_cons, Hfraction.
  cbn [mbind option_bind fst snd]. rewrite zone_Z. cbn [mbind option_bind]. by apply Hfinal.
Qed.
