(* ===== verification/Json.v ===== *)
(** * [encoding/json], as far as the program relies on it

    - [jdoc]: a JSON document as written (keys in order, duplicates kept,
      string literals as their raw text between the quotes).
    - [value]: a Go [interface{}] holding decoded JSON ([nil] is [VNull]).
    - [scan]: the decoder's scanner, a push-down automaton over the input;
      [Unmarshal] and [DecodeStream] are [json.Unmarshal] and
      [json.Decoder.Decode].
    - [decode_struct]: decoding into a struct, field by field, in document
      order, keys matched as [encoding/json] does (exactly, else by case folding).
    - [Marshal]: the encoder, with its HTML escaping switch. *)

From S2P Require Import Prelude GoStrings GoNumTime.
From Stdlib Require Import SpecFloat.
From stdpp Require Import options.

#[local] Set Warnings "-register-all".

Inductive jdoc : Type :=
| JNull
| JBool (b : bool)
| JNum (lit : string)
| JStr (raw : string)
| JArr (l : list jdoc)
| JObj (kvs : list (string * jdoc)).

Inductive value : Type :=
| VNull
| VBool (b : bool)
| VNumber (f : spec_float)
| VString (s : string)
| VArray (l : list value)
| VObject (m : gmap string value).

#[export] Instance value_eq_dec : EqDecision value.
Proof.
  refine (fix go (v1 v2 : value) :=
    match v1, v2 with
    | VNull, VNull => left eq_refl
    | VBool a, VBool b => cast_if (decide (a = b))
    | VNumber a, VNumber b => cast_if (decide (a = b))
    | VString a, VString b => cast_if (decide (a = b))
    | VArray a, VArray b => cast_if (@decide (a = b) (@list_eq_dec _ go a b))
    | VObject a, VObject b => cast_if (@decide (a = b) (@gmap_eq_dec _ _ _ _ go a b))
    | _, _ => right _
    end); clear go; abstract congruence.
Defined.

#[export] Instance value_inhabited : Inhabited value := populate VNull.

(** ** UTF-8 *)

Definition cont (a : ascii) : bool := byte_in 128 191 a.
Definition utf8_2 (a b : ascii) : bool := byte_in 194 223 a && cont b.
Definition utf8_3 (a b c : ascii) : bool :=
  ((byte_in 224 224 a && byte_in 160 191 b) || (byte_in 225 236 a && cont b)
   || (byte_in 237 237 a && byte_in 128 159 b) || (byte_in 238 239 a && cont b)) && cont c.
Definition utf8_4 (a b c d : ascii) : bool :=
  ((byte_in 240 240 a && byte_in 144 191 b) || (byte_in 241 243 a && cont b)
   || (byte_in 244 244 a && byte_in 128 143 b)) && cont c && cont d.

Definition encode_utf8 (r : Z) (k : string) : string :=
  if (r <? 128)%Z then String (byte_of r) k
  else if (r <? 2048)%Z then
    String (byte_of (192 + r / 64)) (String (byte_of (128 + r mod 64)) k)
  else if (r <? 65536)%Z then
    String (byte_of (224 + r / 4096)) (String (byte_of (128 + r / 64 mod 64))
      (String (byte_of (128 + r mod 64)) k))
  else
    String (byte_of (240 + r / 262144)) (String (byte_of (128 + r / 4096 mod 64))
      (String (byte_of (128 + r / 64 mod 64)) (String (byte_of (128 + r mod 64)) k))).

(** U+FFFD *)
Definition replacement (k : string) : string := encode_utf8 65533 k.

(** ** String literals *)

Definition hex_val (a : ascii) : option Z :=
  let v := byte_val a in
  if byte_in 48 57 a then Some (v - 48)%Z
  else if byte_in 97 102 a then Some (v - 87)%Z
  else if byte_in 65 70 a then Some (v - 55)%Z
  else None.
Definition is_hex (a : ascii) : bool := bool_decide (is_Some (hex_val a)).
Definition hex4 (a b c d : ascii) : Z :=
  let v x := default 0%Z (hex_val x) in
  (((v a * 16 + v b) * 16 + v c) * 16 + v d)%Z.

Definition unescape (e : ascii) : ascii :=
  if char_eqb e "b" then "008"%char
  else if char_eqb e "f" then "012"%char
  else if char_eqb e "n" then "010"%char
  else if char_eqb e "r" then "013"%char
  else if char_eqb e "t" then "009"%char
  else e.

(** The Go string a raw literal denotes.  Unpaired surrogates and invalid
    UTF-8 become U+FFFD. *)
Fixpoint unquote (s : string) : string :=
  match s with
  | EmptyString => EmptyString
  | String a s1 =>
    if char_eqb a backslash then
      match s1 with
      | EmptyString => EmptyString
      | String e s2 =>
        if char_eqb e "u" then
          match s2 with
          | String a1 (String a2 (String a3 (String a4 s6))) =>
            let r := hex4 a1 a2 a3 a4 in
            if (55296 <=? r)%Z && (r <? 57344)%Z then
              match s6 with
              | String x (String y (String b1 (String b2 (String b3 (String b4 s12))))) =>
                let r2 := hex4 b1 b2 b3 b4 in
                if char_eqb x backslash && char_eqb y "u" && (r <? 56320)%Z
                   && (56320 <=? r2)%Z && (r2 <? 57344)%Z
                then encode_utf8 ((r - 55296) * 1024 + (r2 - 56320) + 65536) (unquote s12)
                else replacement (unquote s6)
              | _ => replacement (unquote s6)
              end
            else encode_utf8 r (unquote s6)
          | _ => EmptyString
          end
        else String (unescape e) (unquote s2)
      end
    else if (byte_val a <? 128)%Z then String a (unquote s1)
    else
      match s1 with
      | String b s2 =>
        if utf8_2 a b then String a (String b (unquote s2)) else
        match s2 with
        | String c s3 =>
          if utf8_3 a b c then String a (String b (String c (unquote s3))) else
          match s3 with
          | String d s4 =>
            if utf8_4 a b c d
            then String a (String b (String c (String d (unquote s4))))
            else replacement (unquote s1)
          | EmptyString => replacement (unquote s1)
          end
        | EmptyString => replacement (unquote s1)
        end
      | EmptyString => replacement (unquote s1)
      end
  end.

Definition escape_u00 (v : Z) (k : string) : string :=
  String backslash (String "u" (String "0" (String "0"
    (String (hex_digit (v / 16)) (String (hex_digit (v mod 16)) k))))).

Definition escape_byte (html : bool) (a : ascii) (k : string) : string :=
  let v := byte_val a in
  if char_eqb a backslash || char_eqb a dquote then String backslash (String a k)
  else if (v =? 8)%Z then String backslash (String "b" k)
  else if (v =? 12)%Z then String backslash (String "f" k)
  else if (v =? 10)%Z then String backslash (String "n" k)
  else if (v =? 13)%Z then String backslash (String "r" k)
  else if (v =? 9)%Z then String backslash (String "t" k)
  else if (v <? 32)%Z then escape_u00 v k
  else if html && ((v =? 38)%Z || (v =? 60)%Z || (v =? 62)%Z) then escape_u00 v k
  else String a k.

(** The raw literal the encoder writes for a Go string. *)
Fixpoint quote (html : bool) (s : string) : string :=
  match s with
  | EmptyString => EmptyString
  | String a s1 =>
    if (byte_val a <? 128)%Z then escape_byte html a (quote html s1)
    else
      let bad := "\ufffd" +:+ quote html s1 in
      match s1 with
      | String b s2 =>
        if utf8_2 a b then String a (String b (quote html s2)) else
        match s2 with
        | String c s3 =>
          if utf8_3 a b c then
            if (byte_val a =? 226)%Z && (byte_val b =? 128)%Z
               && ((byte_val c =? 168)%Z || (byte_val c =? 169)%Z)
            then "\u202" +:+ String (hex_digit (byte_val c - 160)) (quote html s3)
            else String a (String b (String c (quote html s3)))
          else
          match s3 with
          | String d s4 =>
            if utf8_4 a b c d
            then String a (String b (String c (String d (quote html s4))))
            else bad
          | EmptyString => bad
          end
        | EmptyString => bad
        end
      | EmptyString => bad
      end
  end.

(** ** Decoding into [interface{}] *)

Fixpoint interface_of (d : jdoc) : value :=
  match d with
  | JNull => VNull
  | JBool b => VBool b
  | JNum lit => match ParseFloat lit with Some f => VNumber f | None => VNull end
  | JStr raw => VString (unquote raw)
  | JArr l => VArray (interface_of <$> l)
  | JObj kvs =>
      VObject (list_to_map (reverse
        ((λ kv : string * jdoc, (unquote kv.1, interface_of kv.2)) <$> kvs)))
  end.

(** A number out of [float64]'s range makes [Unmarshal] report an error. *)
Fixpoint interface_err (d : jdoc) : bool :=
  match d with
  | JNum lit => match ParseFloat lit with Some _ => false | None => true end
  | JArr l => existsb interface_err l
  | JObj kvs => existsb (λ kv : string * jdoc, interface_err kv.2) kvs
  | _ => false
  end.

(** ** The scanner *)

Definition is_space (c : ascii) : bool :=
  let v := byte_val c in (v =? 32)%Z || (v =? 9)%Z || (v =? 10)%Z || (v =? 13)%Z.

Inductive num_state := NNeg | NZero | NInt | NDot | NFrac | NExp | NExpSign | NExpDigits.

Definition is_digit (c : ascii) : bool := byte_in 48 57 c.
Definition is_exp (c : ascii) : bool := char_eqb c "e" || char_eqb c "E".

Definition num_next (n : num_state) (c : ascii) : option num_state :=
  match n with
  | NNeg => if char_eqb c "0" then Some NZero else if is_digit c then Some NInt else None
  | NZero => if char_eqb c "." then Some NDot else if is_exp c then Some NExp else None
  | NInt => if is_digit c then Some NInt else if char_eqb c "." then Some NDot
            else if is_exp c then Some NExp else None
  | NDot => if is_digit c then Some NFrac else None
  | NFrac => if is_digit c then Some NFrac else if is_exp c then Some NExp else None
  | NExp => if char_eqb c "+" || char_eqb c "-" then Some NExpSign
            else if is_digit c then Some NExpDigits else None
  | NExpSign | NExpDigits => if is_digit c then Some NExpDigits else None
  end.

Definition num_final (n : num_state) : bool :=
  match n with NZero | NInt | NFrac | NExpDigits => true | _ => false end.

(** [acc] fields hold what was read, last byte or element first. *)
Inductive mode :=
| MValue | MArrFirst | MObjFirst | MKey
| MStr (key : bool) (acc : string)
| MEsc (key : bool) (acc : string)
| MHex (key : bool) (acc : string) (n : nat)
| MColon (key : string)
| MAfter
| MNum (n : num_state) (acc : string)
| MLit (rest : string) (d : jdoc)
| MDone (d : jdoc).

Inductive frame :=
| FArr (acc : list jdoc)
| FObj (acc : list (string * jdoc)) (key : string).

Definition config : Type := mode * list frame.

Definition finish (d : jdoc) (st : list frame) : config :=
  match st with
  | [] => (MDone d, [])
  | FArr acc :: st' => (MAfter, FArr (d :: acc) :: st')
  | FObj acc k :: st' => (MAfter, FObj ((k, d) :: acc) k :: st')
  end.

Definition max_depth : nat := 10000.
Definition push (m : mode) (f : frame) (st : list frame) : option config :=
  if (Z.of_nat (length st) <? 10000)%Z then Some (m, f :: st) else None.

(** [stateBeginValue] *)
Definition begin_value (c : ascii) (st : list frame) : option config :=
  if is_space c then Some (MValue, st)
  else if char_eqb c "{" then push MObjFirst (FObj [] EmptyString) st
  else if char_eqb c "[" then push MArrFirst (FArr []) st
  else if char_eqb c dquote then Some (MStr false EmptyString, st)
  else if char_eqb c "-" then Some (MNum NNeg (str1 c), st)
  else if char_eqb c "0" then Some (MNum NZero (str1 c), st)
  else if is_digit c then Some (MNum NInt (str1 c), st)
  else if char_eqb c "t" then Some (MLit "rue" (JBool true), st)
  else if char_eqb c "f" then Some (MLit "alse" (JBool false), st)
  else if char_eqb c "n" then Some (MLit "ull" JNull, st)
  else None.

Definition close_string (key : bool) (acc : string) (st : list frame) : config :=
  let raw := rev_onto acc EmptyString in
  if key then (MColon raw, st) else finish (JStr raw) st.

(** [stateEndValue] inside an array or an object. *)
Definition after_value (c : ascii) (st : list frame) : option config :=
  if is_space c then Some (MAfter, st) else
  match st with
  | FArr acc :: st' =>
      if char_eqb c "," then Some (MValue, st)
      else if char_eqb c "]" then Some (finish (JArr (reverse acc)) st') else None
  | FObj acc k :: st' =>
      if char_eqb c "," then Some (MKey, st)
      else if char_eqb c "}" then Some (finish (JObj (reverse acc)) st') else None
  | [] => None
  end.

Definition step (m : mode) (st : list frame) (c : ascii) : option config :=
  match m with
  | MValue => begin_value c st
  | MArrFirst =>
      if is_space c then Some (MArrFirst, st)
      else if char_eqb c "]" then after_value c st else begin_value c st
  | MObjFirst =>
      if is_space c then Some (MObjFirst, st)
      else if char_eqb c dquote then Some (MStr true EmptyString, st)
      else if char_eqb c "}" then after_value c st else None
  | MKey =>
      if is_space c then Some (MKey, st)
      else if char_eqb c dquote then Some (MStr true EmptyString, st) else None
  | MStr key acc =>
      if char_eqb c dquote then Some (close_string key acc st)
      else if char_eqb c backslash then Some (MEsc key (String c acc), st)
      else if (byte_val c <? 32)%Z then None
      else Some (MStr key (String c acc), st)
  | MEsc key acc =>
      if char_eqb c "u" then Some (MHex key (String c acc) 4, st)
      else if existsb (char_eqb c) ["b"; "f"; "n"; "r"; "t"; backslash; "/"; dquote]%char
      then Some (MStr key (String c acc), st) else None
  | MHex key acc n =>
      if is_hex c then
        match n with
        | S (S n') => Some (MHex key (String c acc) (S n'), st)
        | _ => Some (MStr key (String c acc), st)
        end
      else None
  | MColon k =>
      if is_space c then Some (MColon k, st)
      else if char_eqb c ":" then
        match st with
        | FObj acc _ :: st' => Some (MValue, FObj acc k :: st')
        | _ => None
        end
      else None
  | MAfter => after_value c st
  | MLit rest d =>
      match rest with
      | String a EmptyString => if char_eqb a c then Some (finish d st) else None
      | String a rest' => if char_eqb a c then Some (MLit rest' d, st) else None
      | EmptyString => None
      end
  | MNum _ _ | MDone _ => None
  end.

(** The first value of the input, and what follows it. *)
Fixpoint scan (m : mode) (st : list frame) (s : string) : option (jdoc * string) :=
  match m with
  | MDone d => Some (d, s)
  | MNum n acc =>
      match s with
      | EmptyString =>
          if num_final n then
            match finish (JNum (rev_onto acc EmptyString)) st with
            | (MDone d, _) => Some (d, EmptyString)
            | _ => None
            end
          else None
      | String c s' =>
          match num_next n c with
          | Some n' => scan (MNum n' (String c acc)) st s'
          | None =>
              if num_final n then
                match finish (JNum (rev_onto acc EmptyString)) st with
                | (MDone d, _) => Some (d, s)
                | (m', st') =>
                    match step m' st' c with
                    | Some (m'', st'') => scan m'' st'' s'
                    | None => None
                    end
                end
              else None
          end
      end
  | _ =>
      match s with
      | EmptyString => None
      | String c s' =>
          match step m st c with
          | Some (m', st') => scan m' st' s'
          | None => None
          end
      end
  end.

(** [json.Decoder.Decode]: the next value of the stream, and the rest. *)
Definition DecodeStream (s : string) : option (jdoc * string) := scan MValue [] s.

(** [checkValid]: exactly one value, surrounded by white space. *)
Definition parse (s : string) : option jdoc :=
  match DecodeStream s with
  | Some (d, rest) => if string_forallb is_space rest then Some d else None
  | None => None
  end.

(** [dec.More()] after a top-level value. *)
Fixpoint More (rest : string) : bool :=
  match rest with
  | EmptyString => false
  | String c rest' =>
      if is_space c then More rest' else negb (char_eqb c "]" || char_eqb c "}")
  end.

(** [json.Unmarshal(data, &v)] with [var v interface{}]: the value stored and
    whether an error is reported.  A syntax error leaves [v] nil. *)
Definition UnmarshalInterface (s : string) : value * bool :=
  match parse s with
  | Some d => (interface_of d, interface_err d)
  | None => (VNull, true)
  end.

(** ** Decoding into structs *)

(** [foldName]: upper case, with the two non-ASCII runes that fold to ASCII
    letters (U+017F to S, U+212A to K). *)
Fixpoint fold_name (s : string) : string :=
  match s with
  | EmptyString => EmptyString
  | String a s1 =>
      let plain := if byte_in 97 122 a
                   then String (byte_of (byte_val a - 32)) (fold_name s1)
                   else String a (fold_name s1) in
      match s1 with
      | String b s2 =>
          if (byte_val a =? 197)%Z && (byte_val b =? 191)%Z then String "S" (fold_name s2)
          else match s2 with
               | String c s3 =>
                   if (byte_val a =? 226)%Z && (byte_val b =? 132)%Z && (byte_val c =? 170)%Z
                   then String "K" (fold_name s3) else plain
               | EmptyString => plain
               end
      | EmptyString => plain
      end
  end.

(** A field: its JSON name, and how it takes a document ([None]: type error). *)
Definition field (S : Type) : Type := string * (jdoc → S → option S).

Definition find_field {S} (fields : list (field S)) (key : string) : option (field S) :=
  match find (λ f, bool_decide (f.1 = key)) fields with
  | Some f => Some f
  | None => find (λ f, bool_decide (fold_name f.1 = fold_name key)) fields
  end.

Definition set_key {S} (fields : list (field S)) (acc : option S) (kv : string * jdoc) : option S :=
  s ← acc;
  match find_field fields (unquote kv.1) with
  | Some f => f.2 kv.2 s
  | None => Some s
  end.

(** [None] is any error: the callers never look at a struct that failed to decode. *)
Definition decode_struct {S} (fields : list (field S)) (s0 : S) (d : jdoc) : option S :=
  match d with
  | JNull => Some s0
  | JObj kvs => foldl (set_key fields) (Some s0) kvs
  | _ => None
  end.

(** [json.NewDecoder(resp.Body).Decode(&v)] on a body of which reading may break off:
    a value is complete at its closing bracket; a scalar at the end of what was
    read only when the body ended there. *)
Definition decode_body {S} (fields : list (field S)) (s0 : S) (body : string) (read_failed : bool) : option S :=
  match DecodeStream body with
  | Some (d, rest) =>
      match d with
      | JObj _ | JArr _ => decode_struct fields s0 d
      | _ => if read_failed && bool_decide (rest = EmptyString) then None
             else decode_struct fields s0 d
      end
  | None => None
  end.

Definition set_string {S} (f : string → S → S) (d : jdoc) (s : S) : option S :=
  match d with
  | JStr raw => Some (f (unquote raw) s)
  | JNull => Some s
  | _ => None
  end.
Definition set_int {S} (f : Z → S → S) (d : jdoc) (s : S) : option S :=
  match d with
  | JNum lit => z ← ParseInt lit; Some (f z s)
  | JNull => Some s
  | _ => None
  end.
Definition set_time {S} (f : Z → S → S) (d : jdoc) (s : S) : option S :=
  match d with
  | JStr raw => t ← ParseRFC3339 raw; Some (f t s)
  | JNull => Some s
  | _ => None
  end.
Definition set_interface {S} (f : value → S → S) (d : jdoc) (s : S) : option S :=
  if interface_err d then None else Some (f (interface_of d) s).

(** ** Encoding *)

Definition sort_keys {A} (kvs : list (string * A)) : list (string * A) :=
  merge_sort (λ p q : string * A, String.le p.1 q.1) kvs.

Fixpoint opt_all {A} (l : list (option A)) : option (list A) :=
  match l with
  | [] => Some []
  | o :: l' => x ← o; xs ← opt_all l'; Some (x :: xs)
  end.

(** The document of an [interface{}] tree; map keys are sorted.  [None]: a
    number that JSON cannot represent ([json.UnsupportedValueError]). *)
Fixpoint doc_of (html : bool) (v : value) : option jdoc :=
  match v with
  | VNull => Some JNull
  | VBool b => Some (JBool b)
  | VNumber f => JNum <$> FormatFloat f
  | VString s => Some (JStr (quote html s))
  | VArray l => JArr <$> opt_all (doc_of html <$> l)
  | VObject m =>
      JObj <$> opt_all ((λ kv : string * option jdoc, d ← kv.2; Some (quote html kv.1, d))
                          <$> sort_keys (map_to_list (doc_of html <$> m)))
  end.

Fixpoint render (d : jdoc) : string :=
  match d with
  | JNull => "null"
  | JBool b => if b then "true" else "false"
  | JNum lit => lit
  | JStr raw => String dquote (raw +:+ str1 dquote)
  | JArr l => String "[" (Join (render <$> l) "," +:+ "]")
  | JObj kvs =>
      String "{" (Join ((λ kv : string * jdoc,
        String dquote (kv.1 +:+ String dquote (String ":" (render kv.2)))) <$> kvs) "," +:+ "}")
  end.

(** [json.Marshal] of an [interface{}] tree. *)
Definition Marshal (v : value) : option string := render <$> doc_of true v.

(** The text of a Go string as a JSON document. *)
Definition jstring (s : string) : jdoc := JStr (quote true s).
Definition jint (z : Z) : jdoc := JNum (Itoa z).
Definition jkey (k : string) (d : jdoc) : string * jdoc := (k, d).

(** [omitempty] of a string-kinded field. *)
Definition omit_empty_string (k s : string) : list (string * jdoc) :=
  if bool_decide (s = EmptyString) then [] else [(k, jstring s)].
(** [omitempty] of an [interface{}] field: dropped when nil. *)
Definition omit_empty_value (k : string) (v : value) : list (string * value) :=
  match v with VNull => [] | _ => [(k, v)] end.
