(* ===== verification/JsonFacts.v ===== *)
(** * Facts about the JSON codec: what is written is read back

    - [parse_render]: the scanner reads back every well-formed document;
    - [unquote_quote]: string literals, for valid UTF-8;
    - [Unmarshal_Marshal]: [json.Unmarshal] undoes [json.Marshal] on every
      tree whose strings are valid UTF-8 and whose numbers [strconv] formats
      to a literal that reads back. *)

From S2P Require Import Prelude GoStrings GoNumTime Json.
From stdpp Require Import options.

(** ** Well-formedness, decidable *)

Fixpoint utf8_valid (s : string) : bool :=
  match s with
  | EmptyString => true
  | String a s1 =>
    if (byte_val a <? 128)%Z then utf8_valid s1
    else
      match s1 with
      | String b s2 =>
        if utf8_2 a b then utf8_valid s2 else
        match s2 with
        | String c s3 =>
          if utf8_3 a b c then utf8_valid s3 else
          match s3 with
          | String d s4 => utf8_4 a b c d && utf8_valid s4
          | EmptyString => false
          end
        | EmptyString => false
        end
      | EmptyString => false
      end
  end.

Definition simple_escapes : list ascii :=
  ["b"; "f"; "n"; "r"; "t"; backslash; "/"; dquote]%char.

Fixpoint raw_ok (s : string) : bool :=
  match s with
  | EmptyString => true
  | String a s1 =>
    if char_eqb a backslash then
      match s1 with
      | String e s2 =>
        if char_eqb e "u" then
          match s2 with
          | String a1 (String a2 (String a3 (String a4 s6))) =>
              is_hex a1 && is_hex a2 && is_hex a3 && is_hex a4 && raw_ok s6
          | _ => false
          end
        else existsb (char_eqb e) simple_escapes && raw_ok s2
      | EmptyString => false
      end
    else negb (char_eqb a dquote) && (32 <=? byte_val a)%Z && raw_ok s1
  end.

Definition num_start (c : ascii) : option num_state :=
  if char_eqb c "-" then Some NNeg
  else if char_eqb c "0" then Some NZero
  else if is_digit c then Some NInt else None.
Fixpoint num_run (n : num_state) (s : string) : option num_state :=
  match s with
  | EmptyString => Some n
  | String c s' => n' ← num_next n c; num_run n' s'
  end.
Definition num_ok (lit : string) : bool :=
  match lit with
  | String c s => match n ← num_start c; num_run n s with
                  | Some n => num_final n
                  | None => false
                  end
  | EmptyString => false
  end.

Fixpoint doc_ok (d : jdoc) : bool :=
  match d with
  | JNull | JBool _ => true
  | JNum lit => num_ok lit
  | JStr raw => raw_ok raw
  | JArr l => forallb doc_ok l
  | JObj kvs => forallb (λ kv : string * jdoc, raw_ok kv.1 && doc_ok kv.2) kvs
  end.

Fixpoint doc_depth (d : jdoc) : nat :=
  match d with
  | JArr l => S (foldr (λ x n, Nat.max (doc_depth x) n) 0 l)
  | JObj kvs => S (foldr (λ (kv : string * jdoc) n, Nat.max (doc_depth kv.2) n) 0 kvs)
  | _ => 0
  end.

(** ** Induction principles *)

Lemma string_length_ind (P : string → Prop) :
  (∀ s, (∀ s', String.length s' < String.length s → P s') → P s) → ∀ s, P s.
Proof.
  intros H s. remember (String.length s) as n eqn:Hn. revert s Hn.
  induction (Nat.lt_wf_0 n) as [n _ IH]. intros s ->. apply H. eauto.
Qed.

Lemma jdoc_ind' (P : jdoc → Prop) :
  P JNull → (∀ b, P (JBool b)) → (∀ lit, P (JNum lit)) → (∀ raw, P (JStr raw)) →
  (∀ l, Forall P l → P (JArr l)) →
  (∀ kvs, Forall (λ kv : string * jdoc, P kv.2) kvs → P (JObj kvs)) →
  ∀ d, P d.
Proof.
  intros Hn Hb Hl Hs Ha Ho. fix IH 1. intros [|b|lit|raw|l|kvs]; [done|auto|auto|auto| |].
  - apply Ha. induction l; constructor; auto.
  - apply Ho. induction kvs as [|kv kvs IH']; constructor; auto.
Qed.

(** ** String literals *)

Lemma existsb_simple e :
  existsb (char_eqb e) simple_escapes = true → char_eqb e "u" = false.
Proof. destruct e as [[] [] [] [] [] [] [] []]; done. Qed.

(** A mode that consumes one byte per step. *)
Definition stepping (m : mode) : bool :=
  match m with MDone _ | MNum _ _ => false | _ => true end.

Lemma scan_step m st c s m' st' :
  stepping m = true → step m st c = Some (m', st') →
  scan m st (String c s) = scan m' st' s.
Proof. destruct m; intros Hm Hs; try done; cbn [scan]; by rewrite Hs. Qed.

Lemma step_escape key acc st e :
  existsb (char_eqb e) simple_escapes = true →
  step (MEsc key acc) st e = Some (MStr key (String e acc), st).
Proof.
  intros He. cbn [step]. rewrite (existsb_simple _ He).
  change (existsb (char_eqb e) _) with (existsb (char_eqb e) simple_escapes). by rewrite He.
Qed.

Lemma step_hex key acc n st c :
  is_hex c = true →
  step (MHex key acc n) st c
  = Some (match n with S (S n') => MHex key (String c acc) (S n')
          | _ => MStr key (String c acc) end, st).
Proof. intros Hc. cbn [step]. rewrite Hc. by destruct n as [|[|n]]. Qed.

Lemma step_plain key acc st a :
  char_eqb a backslash = false → char_eqb a dquote = false → (32 ≤ byte_val a)%Z →
  step (MStr key acc) st a = Some (MStr key (String a acc), st).
Proof.
  intros Hb Hq Hv. cbn [step]. by rewrite Hq, Hb, (proj2 (Z.ltb_ge _ _)) by done.
Qed.

(** From inside a string, the scanner reads a well-formed literal to its end. *)
Lemma scan_raw key raw acc st rest :
  raw_ok raw = true →
  scan (MStr key acc) st (raw +:+ String dquote rest)
  = let '(m, st') := close_string key (rev_onto raw acc) st in scan m st' rest.
Proof.
  revert acc. induction raw as [s IH] using string_length_ind. intros acc Hok.
  destruct s as [|a s1].
  { rewrite string_app_nil_l. cbn [rev_onto].
    destruct (close_string key acc st) as [m st'] eqn:E.
    apply scan_step; [done|]. by rewrite <-E. }
  rewrite string_app_cons. cbn [raw_ok] in Hok.
  destruct (char_eqb a backslash) eqn:Hbs.
  - destruct s1 as [|e s2]; [done|]. rewrite string_app_cons.
    apply char_eqb_eq in Hbs as ->.
    rewrite (scan_step (MStr key acc) st backslash _ (MEsc key (String backslash acc)) st)
      by done.
    destruct (char_eqb e "u") eqn:Hu.
    + apply char_eqb_eq in Hu as ->.
      rewrite (scan_step (MEsc _ _) st "u" _ (MHex key (String "u" (String backslash acc)) 4) st)
        by done.
      destruct s2 as [|a1 [|a2 [|a3 [|a4 s6]]]]; try done.
      rewrite !andb_true_iff in Hok. destruct Hok as [[[[H1 H2] H3] H4] Hok].
      rewrite !string_app_cons.
      do 4 (erewrite scan_step; [|done|by apply step_hex]).
      rewrite IH by (done || simpl; lia). done.
    + apply andb_true_iff in Hok as [He Hok].
      erewrite scan_step; [|done|by apply step_escape].
      rewrite IH by (done || simpl; lia). done.
  - rewrite !andb_true_iff in Hok. destruct Hok as [[Hq Hge] Hok].
    apply negb_true_iff in Hq. apply Z.leb_le in Hge.
    erewrite scan_step; [|done|by apply step_plain].
    rewrite IH by (done || simpl; lia). done.
Qed.

Lemma raw_ok_escape e k :
  existsb (char_eqb e) simple_escapes = true → raw_ok (String backslash (String e k)) = raw_ok k.
Proof.
  intros He. change (raw_ok (String backslash (String e k)))
    with (if char_eqb e "u" then
            match k with
            | String a1 (String a2 (String a3 (String a4 s6))) =>
                is_hex a1 && is_hex a2 && is_hex a3 && is_hex a4 && raw_ok s6
            | _ => false
            end
          else existsb (char_eqb e) simple_escapes && raw_ok k).
  by rewrite (existsb_simple _ He), He.
Qed.

Lemma raw_ok_u00 v k : (0 ≤ v < 256)%Z → raw_ok (escape_u00 v k) = raw_ok k.
Proof.
  intros Hv.
  assert (Hd : ∀ d, (0 ≤ d < 16)%Z → is_hex (hex_digit d) = true).
  { intros d Hd. assert (d ∈ seqZ 0 16) as Hin by (apply elem_of_seqZ; lia).
    revert Hin. clear. revert d. apply (Forall_forall (λ d, is_hex (hex_digit d) = true)).
    by apply (bool_decide_unpack _). }
  change (raw_ok (escape_u00 v k))
    with (is_hex "0" && is_hex "0" && is_hex (hex_digit (v / 16))
          && is_hex (hex_digit (v mod 16)) && raw_ok k).
  rewrite !Hd; [done|apply Z.mod_pos_bound; lia|].
  split; [apply Z.div_pos; lia|apply Z.div_lt_upper_bound; lia].
Qed.

Lemma raw_ok_plain a k :
  char_eqb a backslash = false → char_eqb a dquote = false → (32 ≤ byte_val a)%Z →
  raw_ok (String a k) = raw_ok k.
Proof.
  intros Hb Hq Hv. cbn [raw_ok]. by rewrite Hb, Hq, (proj2 (Z.leb_le _ _)).
Qed.

Lemma escape_byte_raw_ok html a k :
  (byte_val a < 128)%Z → raw_ok (escape_byte html a k) = raw_ok k.
Proof.
  intros Ha. unfold escape_byte.
  assert (0 ≤ byte_val a)%Z by (unfold byte_val; lia).
  destruct (_ || _) eqn:Hq.
  { apply raw_ok_escape. apply orb_true_iff in Hq as [Hq|Hq]; apply char_eqb_eq in Hq as ->; done. }
  apply orb_false_iff in Hq as [Hb Hq].
  repeat match goal with
  | |- context [if (_ =? _)%Z then _ else _] => destruct (_ =? _)%Z; [by apply raw_ok_escape|]
  end.
  destruct (_ <? 32)%Z eqn:Hlt; [apply raw_ok_u00; lia|].
  destruct (html && _); [apply raw_ok_u00; lia|].
  apply raw_ok_plain; [done..|]. by apply Z.ltb_ge.
Qed.

Lemma high_byte_raw a s1 :
  (byte_val a <? 128)%Z = false → raw_ok (String a s1) = raw_ok s1.
Proof.
  intros Ha%Z.ltb_ge. simpl.
  assert (char_eqb a backslash = false) as ->.
  { apply bool_decide_eq_false. intros ->. exact (Ha eq_refl). }
  assert (char_eqb a dquote = false) as ->.
  { apply bool_decide_eq_false. intros ->. exact (Ha eq_refl). }
  by rewrite (proj2 (Z.leb_le _ _)) by lia.
Qed.

Lemma cont_high b : cont b = true → (byte_val b <? 128)%Z = false.
Proof. unfold cont, byte_in. intros [H _]%andb_true_iff. apply Z.leb_le in H. by apply Z.ltb_ge. Qed.

Lemma byte_in_high lo hi b : (128 ≤ lo)%Z → byte_in lo hi b = true → (byte_val b <? 128)%Z = false.
Proof. unfold byte_in. intros ? [H _]%andb_true_iff. apply Z.leb_le in H. apply Z.ltb_ge. lia. Qed.

Lemma utf8_2_high a b : utf8_2 a b = true → (byte_val b <? 128)%Z = false.
Proof. unfold utf8_2. intros [_ ?]%andb_true_iff. by apply cont_high. Qed.

Lemma utf8_3_high a b c :
  utf8_3 a b c = true → (byte_val b <? 128)%Z = false ∧ (byte_val c <? 128)%Z = false.
Proof.
  unfold utf8_3. rewrite !andb_true_iff, !orb_true_iff, !andb_true_iff. intros [Hb Hc].
  split; [|by apply cont_high].
  destruct Hb as [[[[_ Hb]|[_ Hb]]|[_ Hb]]|[_ Hb]]; eauto using cont_high, byte_in_high;
    by eapply byte_in_high; [|done].
Qed.

Lemma utf8_4_high a b c d :
  utf8_4 a b c d = true → (byte_val b <? 128)%Z = false ∧ (byte_val c <? 128)%Z = false
                          ∧ (byte_val d <? 128)%Z = false.
Proof.
  unfold utf8_4. rewrite !andb_true_iff, !orb_true_iff, !andb_true_iff. intros [[Hb Hc] Hd].
  repeat split; eauto using cont_high.
  destruct Hb as [[[_ Hb]|[_ Hb]]|[_ Hb]]; eauto using cont_high;
    by eapply byte_in_high; [|done].
Qed.

(** The encoder writes well-formed literals, whatever the string. *)
Lemma quote_raw_ok html s : raw_ok (quote html s) = true.
Proof.
  induction s as [s IH] using string_length_ind. destruct s as [|a s1]; [done|].
  assert (Hbad : raw_ok ("\ufffd" +:+ quote html s1) = true).
  { rewrite !string_app_cons, string_app_nil_l. simpl. apply IH. simpl. lia. }
  cbn [quote]. destruct (byte_val a <? 128)%Z eqn:Ha.
  { rewrite escape_byte_raw_ok by (by apply Z.ltb_lt). apply IH. simpl. lia. }
  destruct s1 as [|b s2]; [done|].
  destruct (utf8_2 a b) eqn:H2.
  { rewrite !high_byte_raw by eauto using utf8_2_high. apply IH. simpl. lia. }
  destruct s2 as [|c s3]; [done|].
  destruct (utf8_3 a b c) eqn:H3.
  { destruct (utf8_3_high _ _ _ H3) as [Hb Hc].
    destruct (_ && _) eqn:Hls.
    - rewrite !string_app_cons, string_app_nil_l.
      apply andb_true_iff in Hls as [_ Hls].
      assert (byte_val c = 168 ∨ byte_val c = 169)%Z as [->| ->]
        by (rewrite orb_true_iff, !Z.eqb_eq in Hls; done);
        simpl; apply IH; simpl; lia.
    - rewrite !high_byte_raw by done. apply IH. simpl. lia. }
  destruct s3 as [|d s4]; [done|].
  destruct (utf8_4 a b c d) eqn:H4; [|done].
  destruct (utf8_4_high _ _ _ _ H4) as (?&?&?).
  rewrite !high_byte_raw by done. apply IH. simpl. lia.
Qed.

Lemma unquote_escape_byte html a k :
  (byte_val a < 128)%Z → unquote (escape_byte html a k) = String a (unquote k).
Proof.
  intros Ha.
  destruct a as [[] [] [] [] [] [] [] []]; try (vm_compute in Ha; discriminate);
    destruct html; reflexivity.
Qed.

Lemma high_not_backslash a : (byte_val a <? 128)%Z = false → char_eqb a backslash = false.
Proof. intros Ha%Z.ltb_ge. apply bool_decide_eq_false. intros ->. exact (Ha eq_refl). Qed.

Lemma byte_val_inj a b : byte_val a = byte_val b → a = b.
Proof.
  unfold byte_val. intros H%N2Z.inj.
  by rewrite <-(ascii_N_embedding a), <-(ascii_N_embedding b), H.
Qed.

(** Decoding a literal the encoder wrote gives the string back. *)
Lemma unquote_quote html s : utf8_valid s = true → unquote (quote html s) = s.
Proof.
  induction s as [s IH] using string_length_ind. destruct s as [|a s1]; [done|].
  cbn [quote utf8_valid]. destruct (byte_val a <? 128)%Z eqn:Ha.
  { intros Hv. rewrite unquote_escape_byte by (by apply Z.ltb_lt).
    f_equal. apply IH; [simpl; lia|done]. }
  destruct s1 as [|b s2]; [done|].
  destruct (utf8_2 a b) eqn:H2.
  { intros Hv. cbn [unquote]. rewrite high_not_backslash, Ha, H2 by done.
    by rewrite IH by (done || simpl; lia). }
  destruct s2 as [|c s3]; [done|].
  destruct (utf8_3 a b c) eqn:H3.
  { intros Hv. destruct (_ && _) eqn:Hls.
    - rewrite !andb_true_iff, orb_true_iff, !Z.eqb_eq in Hls. destruct Hls as [[Ea Eb] Ec].
      assert (a = byte_of 226) as -> by (by apply byte_val_inj).
      assert (b = byte_of 128) as -> by (by apply byte_val_inj).
      destruct Ec as [Ec|Ec]; rewrite Ec.
      + assert (c = byte_of 168) as -> by (by apply byte_val_inj).
        rewrite !string_app_cons, string_app_nil_l. cbn. by rewrite IH by (done || simpl; lia).
      + assert (c = byte_of 169) as -> by (by apply byte_val_inj).
        rewrite !string_app_cons, string_app_nil_l. cbn. by rewrite IH by (done || simpl; lia).
    - cbn [unquote]. rewrite high_not_backslash, Ha, H2, H3 by done.
      by rewrite IH by (done || simpl; lia). }
  destruct s3 as [|d s4]; [done|].
  intros [H4 Hv]%andb_true_iff. rewrite H4.
  cbn [unquote]. rewrite high_not_backslash, Ha, H2, H3, H4 by done.
  by rewrite IH by (done || simpl; lia).
Qed.

(** ** The scanner reads back what [render] writes *)

(** A byte that cannot continue a number: the scanner's look-ahead. *)
Definition delim (c : ascii) : bool :=
  negb (is_digit c || char_eqb c "." || is_exp c || char_eqb c "+" || char_eqb c "-").
Definition stops (rest : string) : bool :=
  match rest with EmptyString => true | String c _ => delim c end.

Lemma num_next_delim n c : delim c = true → num_next n c = None.
Proof.
  unfold delim. rewrite negb_true_iff, !orb_false_iff. intros [[[[Hd Hp] He] Hplus] Hminus].
  assert (char_eqb c "0" = false) as H0 by (apply bool_decide_eq_false; by intros ->).
  destruct n; cbn [num_next]; by rewrite ?H0, ?Hd, ?Hp, ?He, ?Hplus, ?Hminus.
Qed.

(** Continue from a configuration. *)
Definition resume (c : config) (s : string) : option (jdoc * string) := scan c.1 c.2 s.

Lemma finish_cases d st : (∃ d', (finish d st).1 = MDone d') ∨ (finish d st).1 = MAfter.
Proof. destruct st as [|[]]; simpl; eauto. Qed.

Lemma scan_num_end n acc st rest :
  num_final n = true → stops rest = true →
  scan (MNum n acc) st rest = resume (finish (JNum (rev_onto acc EmptyString)) st) rest.
Proof.
  intros Hf Hs. unfold resume. destruct rest as [|c s]; cbn [scan]; rewrite Hf.
  - destruct st as [|[]]; done.
  - rewrite (num_next_delim n c Hs). by destruct st as [|[]].
Qed.

Lemma scan_num n acc lit n' st rest :
  num_run n lit = Some n' →
  scan (MNum n acc) st (lit +:+ rest) = scan (MNum n' (rev_onto lit acc)) st rest.
Proof.
  revert n acc. induction lit as [|c lit IH]; intros n acc Hr.
  { simpl in Hr. simplify_eq. by rewrite string_app_nil_l. }
  simpl in Hr. destruct (num_next n c) as [n1|] eqn:Hn; [|done].
  rewrite string_app_cons. cbn [scan]. rewrite Hn. by apply IH.
Qed.

(** The first byte of a document is neither space nor a closing bracket. *)
Definition opens (c : ascii) : bool := negb (is_space c) && negb (char_eqb c "]").

Lemma num_start_opens c n : num_start c = Some n → opens c = true.
Proof. destruct c as [[] [] [] [] [] [] [] []]; try done. Qed.

Lemma render_opens d : doc_ok d = true → ∃ c s, render d = String c s ∧ opens c = true.
Proof.
  destruct d as [|[]|lit|raw|l|kvs]; cbn; try (by eauto).
  destruct lit as [|c s]; [done|]. cbn. intros H. exists c, s. split; [done|].
  destruct (num_start c) eqn:E; [|done]. by eapply num_start_opens.
Qed.

Lemma scan_arr_first d st rest :
  doc_ok d = true → scan MArrFirst st (render d +:+ rest) = scan MValue st (render d +:+ rest).
Proof.
  intros (c&s&->&Ho)%render_opens. rewrite string_app_cons. cbn [scan step].
  apply andb_true_iff in Ho as [Hs Hb]. apply negb_true_iff in Hs, Hb. by rewrite Hs, Hb.
Qed.

Lemma rev_onto_app s1 s2 acc : rev_onto (s1 +:+ s2) acc = rev_onto s2 (rev_onto s1 acc).
Proof.
  revert acc. induction s1 as [|a s1 IH]; intros acc; [done|].
  rewrite string_app_cons. apply IH.
Qed.

Lemma rev_onto_acc s acc : rev_onto s acc = rev_onto s EmptyString +:+ acc.
Proof.
  revert acc. induction s as [|a s IH]; intros acc; [done|].
  cbn. rewrite (IH (String a acc)), (IH (String a EmptyString)), string_app_assoc. done.
Qed.

Lemma rev_onto_involutive s : rev_onto (rev_onto s EmptyString) EmptyString = s.
Proof.
  induction s as [|a s IH]; [done|]. cbn.
  rewrite (rev_onto_acc s (String a EmptyString)), rev_onto_app, IH. done.
Qed.

Definition reads (d : jdoc) : Prop := ∀ st rest,
  doc_ok d = true → (Z.of_nat (length st + doc_depth d) ≤ 10000)%Z → stops rest = true →
  scan MValue st (render d +:+ rest) = resume (finish d st) rest.

Lemma num_start_begin c n st :
  num_start c = Some n → begin_value c st = Some (MNum n (str1 c), st).
Proof. destruct c as [[] [] [] [] [] [] [] []]; intros [= <-]; done. Qed.

Lemma reads_num lit : reads (JNum lit).
Proof.
  intros st rest Hok _ Hs. destruct lit as [|c s]; [done|]. cbn in Hok |- *.
  destruct (num_start c) as [n|] eqn:Hc; [|done]. cbn in Hok.
  destruct (num_run n s) as [n'|] eqn:Hn; [|done].
  rewrite string_app_cons. cbn [scan step]. rewrite (num_start_begin c n st Hc).
  rewrite (scan_num n (str1 c) s n' st rest Hn), scan_num_end by done.
  change (rev_onto s (str1 c)) with (rev_onto (String c s) EmptyString).
  by rewrite rev_onto_involutive.
Qed.

Lemma reads_str raw : reads (JStr raw).
Proof.
  intros st rest Hok _ Hs. cbn [render]. rewrite string_app_cons.
  change (scan MValue st (String dquote ((raw +:+ str1 dquote) +:+ rest)))
    with (scan (MStr false EmptyString) st ((raw +:+ str1 dquote) +:+ rest)).
  rewrite string_app_assoc. cbn in Hok.
  change (str1 dquote +:+ rest) with (String dquote rest).
  rewrite scan_raw by done. unfold close_string. rewrite rev_onto_involutive.
  unfold resume. by destruct (finish (JStr raw) st).
Qed.

Lemma push_ok m f st :
  (Z.of_nat (length st) < 10000)%Z → push m f st = Some (m, f :: st).
Proof. intros H. unfold push. by rewrite (proj2 (Z.ltb_lt _ _)). Qed.

Definition list_depth (l : list jdoc) : nat := foldr (λ x n, Nat.max (doc_depth x) n) 0 l.

(** Elements of an array, after the first byte has been dealt with. *)
Lemma scan_elems x l acc st rest :
  Forall reads (x :: l) → forallb doc_ok (x :: l) = true →
  (Z.of_nat (length st + S (list_depth (x :: l))) ≤ 10000)%Z →
  scan MValue (FArr acc :: st) (Join (render <$> x :: l) "," +:+ String "]" rest)
  = resume (finish (JArr (reverse acc ++ x :: l)) st) rest.
Proof.
  revert x acc. induction l as [|y l IH]; intros x acc HF Hok Hd.
  - apply Forall_cons in HF as [Hx _]. cbn in Hok. apply andb_true_iff in Hok as [Hok _].
    cbn [fmap list_fmap Join]. cbn in Hd. rewrite Hx by (done || (simpl; lia)).
    unfold resume. cbn [finish fst snd scan step]. rewrite <-reverse_cons.
    change (after_value "]" (FArr (x :: acc) :: st))
      with (Some (finish (JArr (reverse (x :: acc))) st)).
    by destruct (finish _ st).
  - apply Forall_cons in HF as [Hx HF]. cbn [forallb] in Hok.
    apply andb_true_iff in Hok as [Hok1 Hok2].
    change (Join (render <$> x :: y :: l) ",") with
      (render x +:+ "," +:+ Join (render <$> y :: l) ",").
    rewrite !string_app_assoc. cbn [list_depth foldr] in Hd.
    rewrite Hx by (done || (simpl; lia)).
    change (resume (finish x (FArr acc :: st))
             ("," +:+ (Join (render <$> y :: l) "," +:+ String "]" rest)))
      with (scan MValue (FArr (x :: acc) :: st)
              (Join (render <$> y :: l) "," +:+ String "]" rest)).
    rewrite IH by (done || (cbn [list_depth foldr]; lia)).
    by rewrite reverse_cons, <-app_assoc.
Qed.

Lemma reads_arr l : Forall reads l → reads (JArr l).
Proof.
  intros HF st rest Hok Hd Hs. cbn [render]. rewrite string_app_cons.
  cbn in Hok, Hd.
  cbn [scan step]. change (begin_value "[" st) with (push MArrFirst (FArr []) st).
  rewrite push_ok by lia. destruct l as [|x l]; [by destruct st as [|[]]|].
  assert (Hx : doc_ok x = true) by (cbn in Hok; by apply andb_true_iff in Hok as [? _]).
  rewrite string_app_assoc. change ("]" +:+ rest) with (String "]" rest).
  assert (Hj : ∃ k, Join (render <$> x :: l) "," = render x +:+ k).
  { destruct l as [|y l]; [exists EmptyString; by rewrite string_app_nil_r|].
    by eexists. }
  destruct Hj as [k Hj]. rewrite Hj, string_app_assoc, scan_arr_first by done.
  rewrite <-string_app_assoc, <-Hj. rewrite (scan_elems x l [] st rest HF Hok Hd). done.
Qed.

Definition fields_depth (kvs : list (string * jdoc)) : nat :=
  foldr (λ (kv : string * jdoc) n, Nat.max (doc_depth kv.2) n) 0 kvs.
Definition render_member (kv : string * jdoc) : string :=
  String dquote (kv.1 +:+ String dquote (String ":" (render kv.2))).

Lemma scan_member kv acc k0 st rest :
  reads kv.2 → raw_ok kv.1 = true → doc_ok kv.2 = true →
  (Z.of_nat (length st + S (doc_depth kv.2)) ≤ 10000)%Z → stops rest = true →
  scan (MStr true EmptyString) (FObj acc k0 :: st)
    (kv.1 +:+ String dquote (String ":" (render kv.2)) +:+ rest)
  = scan MAfter (FObj (kv :: acc) kv.1 :: st) rest.
Proof.
  destruct kv as [k d]. cbn [fst snd]. intros Hr Hk Hd Hn Hs.
  change (String dquote (String ":" (render d)) +:+ rest)
    with (String dquote (String ":" (render d +:+ rest))).
  rewrite scan_raw by done. unfold close_string. rewrite rev_onto_involutive.
  change (scan (MColon k) (FObj acc k0 :: st) (String ":" (render d +:+ rest)))
    with (scan MValue (FObj acc k :: st) (render d +:+ rest)).
  rewrite Hr by (done || (simpl; lia)). done.
Qed.

(** Members of an object, once the quote of the first key has been read. *)
Lemma scan_members kv kvs acc k0 st rest :
  Forall (λ kv, reads kv.2) (kv :: kvs) →
  forallb (λ kv : string * jdoc, raw_ok kv.1 && doc_ok kv.2) (kv :: kvs) = true →
  (Z.of_nat (length st + S (fields_depth (kv :: kvs))) ≤ 10000)%Z →
  scan MKey (FObj acc k0 :: st) (Join (render_member <$> kv :: kvs) "," +:+ String "}" rest)
  = resume (finish (JObj (reverse acc ++ kv :: kvs)) st) rest.
Proof.
  revert kv acc k0. induction kvs as [|kv' kvs IH]; intros kv acc k0 HF Hok Hd;
    apply Forall_cons in HF as [Hx HF]; cbn [forallb] in Hok;
    apply andb_true_iff in Hok as [Hok1 Hok2]; apply andb_true_iff in Hok1 as [Hk Hok1];
    cbn [fields_depth foldr] in Hd.
  - change (Join (render_member <$> [kv]) ",") with (render_member kv).
    unfold render_member. rewrite string_app_cons, string_app_assoc.
    change (scan MKey ?st (String dquote ?s)) with (scan (MStr true EmptyString) st s).
    rewrite scan_member by (done || lia).
    unfold resume. cbn [scan step]. rewrite <-reverse_cons.
    change (after_value "}" (FObj (kv :: acc) kv.1 :: st))
      with (Some (finish (JObj (reverse (kv :: acc))) st)).
    by destruct (finish _ st).
  - change (Join (render_member <$> kv :: kv' :: kvs) ",") with
      (render_member kv +:+ "," +:+ Join (render_member <$> kv' :: kvs) ",").
    rewrite !string_app_assoc. unfold render_member at 1.
    rewrite string_app_cons, string_app_assoc.
    change (scan MKey ?st (String dquote ?s)) with (scan (MStr true EmptyString) st s).
    rewrite scan_member by (done || lia).
    change (scan MAfter (FObj (kv :: acc) kv.1 :: st) ("," +:+ ?s))
      with (scan MKey (FObj (kv :: acc) kv.1 :: st) s).
    rewrite IH by (done || (cbn [fields_depth foldr]; lia)).
    by rewrite reverse_cons, <-app_assoc.
Qed.

Lemma reads_obj kvs : Forall (λ kv : string * jdoc, reads kv.2) kvs → reads (JObj kvs).
Proof.
  intros HF st rest Hok Hd Hs. cbn [render]. rewrite string_app_cons. cbn in Hok, Hd.
  cbn [scan step]. change (begin_value "{" st) with (push MObjFirst (FObj [] EmptyString) st).
  rewrite push_ok by lia. destruct kvs as [|kv kvs]; [by destruct st as [|[]]|].
  rewrite string_app_assoc. change ("}" +:+ rest) with (String "}" rest).
  assert (Hj : ∃ k, Join (render_member <$> kv :: kvs) "," = String dquote k).
  { destruct kvs as [|kv' kvs]; by eexists. }
  destruct Hj as [k Hj]. fold (render_member kv).
  change (λ kv : string * jdoc, String dquote (kv.1 +:+ String dquote (String ":" (render kv.2))))
    with render_member.
  pose proof (scan_members kv kvs [] EmptyString st rest HF Hok Hd) as Hm.
  rewrite Hj in Hm |- *. exact Hm.
Qed.

Lemma reads_all d : reads d.
Proof.
  induction d using jdoc_ind'; auto using reads_num, reads_str, reads_arr, reads_obj.
  - intros st rest _ _ _. by destruct st as [|[]].
  - intros st rest _ _ _. destruct b; by destruct st as [|[]].
Qed.

(** A stream decoder reads a well-formed document and leaves the rest. *)
Lemma DecodeStream_render d rest :
  doc_ok d = true → (Z.of_nat (doc_depth d) ≤ 10000)%Z → stops rest = true →
  DecodeStream (render d +:+ rest) = Some (d, rest).
Proof.
  intros Hok Hd Hs. unfold DecodeStream. rewrite reads_all by done.
  unfold resume. cbn. by destruct rest.
Qed.

Lemma parse_render d :
  doc_ok d = true → (Z.of_nat (doc_depth d) ≤ 10000)%Z → parse (render d) = Some d.
Proof.
  intros Hok Hd. unfold parse. rewrite <-(string_app_nil_r (render d)).
  by rewrite DecodeStream_render.
Qed.

(** ** [Unmarshal] undoes [Marshal] *)

(** [strconv] formats the number to a JSON literal that reads back. *)
Definition number_ok (f : float64) : bool :=
  match FormatFloat f with
  | Some lit => num_ok lit && bool_decide (ParseFloat lit = Some f)
  | None => false
  end.

Fixpoint value_ok (v : value) : bool :=
  match v with
  | VNull | VBool _ => true
  | VNumber f => number_ok f
  | VString s => utf8_valid s
  | VArray l => forallb id (value_ok <$> l)
  | VObject m => forallb (λ kv : string * bool, utf8_valid kv.1 && kv.2)
                   (map_to_list (value_ok <$> m))
  end.

Fixpoint value_depth (v : value) : nat :=
  match v with
  | VArray l => S (max_list (value_depth <$> l))
  | VObject m => S (max_list (map_to_list (value_depth <$> m)).*2)
  | _ => 0
  end.

(** What the codec needs of a value, in terms of its document. *)
Definition codes (html : bool) (v : value) : Prop :=
  ∃ d, doc_of html v = Some d ∧ doc_ok d = true ∧ interface_of d = v ∧
       interface_err d = false ∧ doc_depth d ≤ value_depth v.

Lemma max_list_elem n l : n ∈ l → n ≤ max_list l.
Proof. induction 1; simpl; lia. Qed.

Lemma codes_array html l :
  Forall (codes html) l →
  ∃ ds, opt_all (doc_of html <$> l) = Some ds ∧ forallb doc_ok ds = true ∧
        interface_of <$> ds = l ∧ existsb interface_err ds = false ∧
        list_depth ds ≤ max_list (value_depth <$> l).
Proof.
  induction 1 as [|v l (d&Hd&Hok&Hi&He&Hn) _ (ds&Hds&Hoks&His&Hes&Hns)].
  { exists []. done. }
  exists (d :: ds). cbn [fmap list_fmap opt_all]. rewrite Hd. cbn.
  change (list_fmap _ _ ?f l) with (f <$> l). rewrite Hds. cbn.
  rewrite Hok, Hoks, He, Hes. repeat split; try done.
  - f_equal; [done|]. exact His.
  - cbn in Hns. unfold list_depth in Hns. change (list_fmap _ _ value_depth l) with (value_depth <$> l). lia.
Qed.

Lemma codes_members html (lm : list (string * value)) N :
  Forall (λ kv : string * value,
    utf8_valid kv.1 = true ∧ codes html kv.2 ∧ value_depth kv.2 ≤ N) lm →
  ∃ kvs,
    opt_all ((λ kv : string * option jdoc, d ← kv.2; Some (quote html kv.1, d))
      <$> (prod_map id (doc_of html) <$> lm)) = Some kvs ∧
    forallb (λ kv : string * jdoc, raw_ok kv.1 && doc_ok kv.2) kvs = true ∧
    (λ kv : string * jdoc, (unquote kv.1, interface_of kv.2)) <$> kvs = lm ∧
    existsb (λ kv : string * jdoc, interface_err kv.2) kvs = false ∧
    fields_depth kvs ≤ N.
Proof.
  induction 1 as [|[k v] lm (Hk&(d&Hd&Hok&Hi&He&Hn)&HN) _ (kvs&Hds&Hoks&His&Hes&Hns)].
  { exists []. split_and!; try done. simpl. lia. }
  exists ((quote html k, d) :: kvs). cbn [fst snd] in *.
  rewrite !fmap_cons. cbn [opt_all prod_map fst snd id]. rewrite Hd, Hds. cbn.
  rewrite Hok, Hoks, He, Hes, quote_raw_ok. split_and!; try done.
  - rewrite unquote_quote, Hi by done. f_equal. exact His.
  - unfold fields_depth in Hns. lia.
Qed.

Lemma codes_object html (m : gmap string value) :
  (∀ k v, m !! k = Some v → utf8_valid k = true ∧ codes html v) → codes html (VObject m).
Proof.
  intros Hm.
  assert (Hsort : sort_keys (map_to_list (doc_of html <$> m))
                  ≡ₚ map (prod_map id (doc_of html)) (map_to_list m)).
  { unfold sort_keys. rewrite merge_sort_Permutation. by rewrite map_to_list_fmap. }
  destruct (Permutation_map_inv _ _ Hsort) as (lm&Hlm&Hperm).
  destruct (codes_members html lm (max_list (map_to_list (value_depth <$> m)).*2))
    as (kvs&Hds&Hoks&His&Hes&Hns).
  { apply Forall_forall. intros [k v] Hin. rewrite <-Hperm in Hin.
    apply elem_of_map_to_list in Hin. cbn [fst snd].
    assert (Hd : value_depth v ≤ max_list (map_to_list (value_depth <$> m)).*2).
    { apply max_list_elem, list_elem_of_fmap. exists (k, value_depth v). split; [done|].
      apply elem_of_map_to_list. by rewrite lookup_fmap, Hin. }
    destruct (Hm k v Hin) as [??]. by split_and!. }
  exists (JObj kvs). cbn [doc_of].
  change (map (prod_map id (doc_of html)) lm) with (prod_map id (doc_of html) <$> lm) in Hlm.
  rewrite Hlm, Hds. cbn [fmap option_fmap option_map].
  split_and!; [done..| |done|cbn; unfold fields_depth in Hns; lia].
  cbn [interface_of]. f_equal.
  change (list_to_map (reverse ((λ kv : string * jdoc, (unquote kv.1, interface_of kv.2)) <$> kvs)) = m).
  rewrite His. trans (list_to_map (map_to_list m) : gmap string value);
    [|apply list_to_map_to_list]. apply list_to_map_proper.
  - rewrite reverse_Permutation, <-Hperm. apply NoDup_fst_map_to_list.
  - by rewrite reverse_Permutation, Hperm.
Qed.

Lemma codes_all html v : value_ok v = true → codes html v.
Proof.
  remember (value_depth v) as n eqn:Hn. revert v Hn.
  induction (Nat.lt_wf_0 n) as [n _ IH]. intros v -> Hok.
  assert (Hrec : ∀ v', value_depth v' < value_depth v → value_ok v' = true → codes html v') by eauto.
  clear IH. destruct v as [|b|f|s|l|m].
  1,2: eexists; split_and!; done.
  - cbn in Hok. unfold number_ok in Hok. destruct (FormatFloat f) as [lit|] eqn:Hf; [|done].
    apply andb_true_iff in Hok as [Hlit Hp%bool_decide_eq_true].
    exists (JNum lit). cbn. by rewrite Hf, Hp.
  - exists (JStr (quote html s)). cbn.
    by rewrite quote_raw_ok, unquote_quote by done.
  - destruct (codes_array html l) as (ds&Hds&Hoks&His&Hes&Hns).
    { apply Forall_forall. intros v Hv. apply Hrec.
      - cbn. apply Nat.lt_succ_r, max_list_elem, list_elem_of_fmap. eauto.
      - cbn in Hok. rewrite forallb_forall in Hok. apply (Hok (value_ok v)).
        apply list_elem_of_In, list_elem_of_fmap; eauto. }
    exists (JArr ds). cbn [doc_of]. rewrite Hds. cbn. unfold list_depth in Hns.
    split_and!; try done; [by f_equal|lia].
  - apply codes_object. intros k v Hin. cbn in Hok. rewrite forallb_forall in Hok.
    specialize (Hok (k, value_ok v)). cbn in Hok. apply andb_true_iff in Hok as [??].
    + split; [done|]. apply Hrec; [|done]. cbn. apply Nat.lt_succ_r, max_list_elem, list_elem_of_fmap.
      exists (k, value_depth v). split; [done|]. apply elem_of_map_to_list. by rewrite lookup_fmap, Hin.
    + apply list_elem_of_In, elem_of_map_to_list. by rewrite lookup_fmap, Hin.
Qed.

(** [json.Unmarshal(json.Marshal(v))] is [v], without an error. *)
Lemma Unmarshal_Marshal v :
  value_ok v = true → (Z.of_nat (value_depth v) ≤ 10000)%Z →
  ∃ s, Marshal v = Some s ∧ UnmarshalInterface s = (v, false).
Proof.
  intros (d&Hd&Hok&Hi&He&Hn)%(codes_all true) Hdep. exists (render d).
  unfold Marshal, UnmarshalInterface. rewrite Hd, parse_render by (done || lia).
  by rewrite Hi, He.
Qed.

(** ** Running the scanner over literal text *)

(** The configuration after the bytes of [p], none of which is part of a number. *)
Fixpoint run (m : mode) (st : list frame) (p : string) : option config :=
  match p with
  | EmptyString => Some (m, st)
  | String c p' =>
      if stepping m then
        match step m st c with
        | Some (m', st') => run m' st' p'
        | None => None
        end
      else None
  end.

Lemma scan_run m st p s m' st' :
  run m st p = Some (m', st') → scan m st (p +:+ s) = scan m' st' s.
Proof.
  revert m st. induction p as [|c p IH]; intros m st Hr.
  { cbn in Hr. simplify_eq. by rewrite string_app_nil_l. }
  cbn [run] in Hr. destruct (stepping m) eqn:Hs; [|done].
  destruct (step m st c) as [[m1 st1]|] eqn:Hst; [|done].
  rewrite string_app_cons, (scan_step m st c _ m1 st1) by done. by apply IH.
Qed.

(** A quoted literal in value position. *)
Lemma scan_quoted raw st s :
  raw_ok raw = true →
  scan MValue st (String dquote (raw +:+ str1 dquote) +:+ s) = resume (finish (JStr raw) st) s.
Proof.
  intros Hok. rewrite string_app_cons.
  rewrite (scan_step MValue st dquote _ (MStr false EmptyString) st) by done.
  rewrite string_app_assoc. change (str1 dquote +:+ s) with (String dquote s).
  rewrite scan_raw by done. unfold close_string. rewrite rev_onto_involutive.
  unfold resume. by destruct (finish (JStr raw) st).
Qed.

(** ** Members of a decoded object *)

(** A member is found under its key. *)
Definition object_map (kvs : list (string * jdoc)) : gmap string value :=
  list_to_map (reverse ((λ kv : string * jdoc, (unquote kv.1, interface_of kv.2)) <$> kvs)).

Lemma interface_of_object kvs : (interface_of (JObj kvs), false) = (VObject (object_map kvs), false).
Proof. done. Qed.

Lemma member_object kvs : Some (interface_of (JObj kvs)) = Some (VObject (object_map kvs)).
Proof. done. Qed.

Lemma object_map_lookup kvs k d :
  NoDup (unquote <$> kvs.*1) → unquote k = k → (k, d) ∈ kvs →
  object_map kvs !! k = Some (interface_of d).
Proof.
  intros Hn Hk Hin. apply elem_of_list_to_map.
  - rewrite fmap_reverse, reverse_Permutation, <-list_fmap_compose.
    by rewrite <-list_fmap_compose in Hn.
  - rewrite elem_of_reverse. apply list_elem_of_fmap. exists (k, d). cbn. by rewrite Hk.
Qed.

(** ** Texts that are valid UTF-8 *)

Lemma utf8_valid_app s t : utf8_valid s = true → utf8_valid (s +:+ t) = utf8_valid t.
Proof.
  induction s as [s IH] using string_length_ind.
  destruct s as [|a s1]; [by rewrite string_app_nil_l|].
  rewrite string_app_cons. cbn [utf8_valid]. destruct (byte_val a <? 128)%Z.
  { intros Hv. apply IH; [cbn; lia|done]. }
  destruct s1 as [|b s2]; [done|]. rewrite string_app_cons. destruct (utf8_2 a b).
  { intros Hv. apply IH; [cbn; lia|done]. }
  destruct s2 as [|c s3]; [done|]. rewrite string_app_cons. destruct (utf8_3 a b c).
  { intros Hv. apply IH; [cbn; lia|done]. }
  destruct s3 as [|d s4]; [done|]. rewrite string_app_cons.
  intros [-> Hv]%andb_true_iff. apply IH; [cbn; lia|done].
Qed.

Lemma digit_valid a s : is_Some (digit_val a) → utf8_valid (String a s) = utf8_valid s.
Proof.
  unfold digit_val, byte_in. intros [d Hd]. destruct (_ && _) eqn:E; [|done].
  apply andb_true_iff in E as [_ H%Z.leb_le]. cbn [utf8_valid].
  by rewrite (proj2 (Z.ltb_lt _ _)) by lia.
Qed.

Lemma digits_valid s acc v : digits_val acc s = Some v → utf8_valid s = true.
Proof.
  revert acc. induction s as [|a s IH]; intros acc; [done|]. cbn [digits_val].
  destruct (digit_val a) eqn:Ha; [|done]. cbn [mbind option_bind]. intros Hs.
  rewrite digit_valid by (by rewrite Ha). by eapply IH.
Qed.

Lemma Itoa_valid z : utf8_valid (Itoa z) = true.
Proof.
  assert (H : ∀ x : N, utf8_valid (pretty x) = true)
    by (intros x; by eapply digits_valid, digits_val_pretty).
  unfold Itoa. destruct z; [done|apply H|].
  change (utf8_valid (pretty (N.pos p)) = true). apply H.
Qed.

Lemma pad_valid n z : utf8_valid (pad n z) = true.
Proof.
  unfold pad. rewrite utf8_valid_app; [apply Itoa_valid|].
  induction (n - _) as [|k IH]; [done|exact IH].
Qed.

Lemma FormatRFC3339_valid t : utf8_valid (FormatRFC3339 t) = true.
Proof.
  unfold FormatRFC3339, format_seconds. destruct (civil_from_days _) as [[y mo] d].
  rewrite !string_app_assoc.
  repeat (rewrite utf8_valid_app; [|first [apply pad_valid|reflexivity]]). reflexivity.
Qed.

(** ** Well-formed objects *)

Lemma value_ok_object m :
  value_ok (VObject m) = true ↔
  ∀ k v, m !! k = Some v → utf8_valid k = true ∧ value_ok v = true.
Proof.
  cbn. rewrite forallb_forall. setoid_rewrite <-list_elem_of_In. split.
  - intros H k v Hk. apply andb_true_iff. apply (H (k, value_ok v)).
    apply elem_of_map_to_list. by rewrite lookup_fmap, Hk.
  - intros H [k b] Hin. apply elem_of_map_to_list in Hin. rewrite lookup_fmap in Hin.
    destruct (m !! k) as [v|] eqn:Hk; [|done]. cbn in Hin. injection Hin as <-.
    apply andb_true_iff. eauto.
Qed.

Lemma value_depth_object m n :
  (∀ k v, m !! k = Some v → value_depth v ≤ n) → value_depth (VObject m) ≤ S n.
Proof.
  intros H. cbn. apply le_n_S.
  assert (Hall : Forall (λ d, d ≤ n) (map_to_list (value_depth <$> m)).*2).
  { apply Forall_forall. intros d Hd. apply list_elem_of_fmap in Hd as ([k d']&->&Hin).
    apply elem_of_map_to_list in Hin. rewrite lookup_fmap in Hin.
    destruct (m !! k) eqn:Hk; [|done]. cbn in Hin. injection Hin as <-. by eapply H. }
  induction Hall; cbn; lia.
Qed.

Lemma value_depth_member m k v : m !! k = Some v → value_depth v < value_depth (VObject m).
Proof.
  intros Hk. cbn. apply Nat.lt_succ_r, max_list_elem, list_elem_of_fmap.
  exists (k, value_depth v). split; [done|]. apply elem_of_map_to_list.
  by rewrite lookup_fmap, Hk.
Qed.

Lemma value_ok_insert m k v :
  utf8_valid k = true → value_ok v = true → value_ok (VObject m) = true →
  value_ok (VObject (<[k := v]> m)) = true.
Proof.
  rewrite !value_ok_object. intros Hk Hv Hm k' v' [[<- <-]|[_ Hk']]%lookup_insert_Some; eauto.
Qed.

Lemma value_depth_insert m k v n :
  value_depth v ≤ n → value_depth (VObject m) ≤ S n →
  value_depth (VObject (<[k := v]> m)) ≤ S n.
Proof.
  intros Hv Hm. apply value_depth_object.
  intros k' v' [[<- <-]|[_ Hk']]%lookup_insert_Some; [done|].
  apply value_depth_member in Hk'. lia.
Qed.
