(* ===== verification/Domain.v ===== *)
(** * Domain types, errors and the interfaces between components

    [internal/domain/types.go], the error values of
    [internal/connection_repository/types.go] and
    [internal/controller/types.go], and the Go interfaces through which the
    components call each other, as classes of operations over a state [W]. *)

From S2P Require Import Prelude GoStrings GoNumTime Json.
From stdpp Require Import options.

(** ** Identifiers and connection state *)

Abbreviation Identity := string (only parsing).
Abbreviation ClientID := string (only parsing).
Abbreviation AccountID := string (only parsing).
Abbreviation OrgID := string (only parsing).

(** [Dispatchers], [CanonicalFacts] and [Tags] are [interface{}]. *)
Record MessageMetadata := {
  LatestMessageID : string;
  LatestTimestamp : time;
}.

Record ConnectorClientState := {
  ccAccount : AccountID;
  ccOrgID : OrgID;
  ccClientID : ClientID;
  ccCanonicalFacts : value;
  ccDispatchers : value;
  ccTags : value;
  ccMessageMetadata : MessageMetadata;
  ccTenantLookupTimestamp : time;
  ccTenantLookupFailureCount : Z;
}.

(** [var s domain.ConnectorClientState] *)
Definition zero_state : ConnectorClientState := {|
  ccAccount := EmptyString; ccOrgID := EmptyString; ccClientID := EmptyString;
  ccCanonicalFacts := VNull; ccDispatchers := VNull; ccTags := VNull;
  ccMessageMetadata := {| LatestMessageID := EmptyString; LatestTimestamp := zero_time |};
  ccTenantLookupTimestamp := zero_time;
  ccTenantLookupFailureCount := 0;
|}.

(** ** Errors *)

Inductive error :=
| ErrText (msg : string)            (** [errors.New], or an error of a library *)
| NotFoundError
| InvalidOrgIDError
| InvalidClientIDError
| errDuplicateOrOldMQTTMessage
| ErrUnableToSendMessage
| ErrDisconnectedNode
| ErrNoRows                         (** [sql.ErrNoRows] *)
| ErrCanceled                       (** [context.Canceled] *)
| ErrPq (code : string)             (** [*pq.Error] with this SQLSTATE *)
| FatalError (err : error)
| ErrNum (input : string) (kind : num_error)   (** [*strconv.NumError] of [Atoi] *)
| ErrPrefix (prefix : string) (err : error)    (** [errors.New(prefix + err.Error())] *)
| ErrWrap (prefix : string) (err : error).     (** [fmt.Errorf(prefix + "%w", err)] *)

#[export] Instance MessageMetadata_eq_dec : EqDecision MessageMetadata.
Proof. solve_decision. Defined.
#[export] Instance ConnectorClientState_eq_dec : EqDecision ConnectorClientState.
Proof. solve_decision. Defined.
#[export] Instance num_error_eq_dec : EqDecision num_error.
Proof. solve_decision. Defined.
#[export] Instance error_eq_dec : EqDecision error.
Proof. solve_decision. Defined.

Fixpoint Error (e : error) : string :=
  match e with
  | ErrText m => m
  | NotFoundError => "Not found"
  | InvalidOrgIDError => "Invalid OrgID"
  | InvalidClientIDError => "Invalid ClientID"
  | errDuplicateOrOldMQTTMessage => "duplicate or old message"
  | ErrUnableToSendMessage => "unable to send message"
  | ErrDisconnectedNode => "disconnected node"
  | ErrNoRows => "sql: no rows in result set"
  | ErrCanceled => "context canceled"
  | ErrPq code => "pq: " +:+ code
  | FatalError e' => "FATAL: " +:+ Error e'
  | ErrNum i k => "strconv.Atoi: parsing " +:+ Quote i +:+ ": " +:+
      match k with ErrSyntax => "invalid syntax" | ErrRange => "value out of range" end
  | ErrPrefix p e' => p +:+ Error e'
  | ErrWrap p e' => p +:+ Error e'
  end.

(** [errors.Is(err, target)] for a sentinel target: only [%w] unwraps. *)
Fixpoint errors_Is_e (e target : error) : bool :=
  bool_decide (e = target) ||
  match e with ErrWrap _ e' => errors_Is_e e' target | _ => false end.
Definition errors_Is (err : option error) (target : error) : bool :=
  match err with Some e => errors_Is_e e target | None => false end.

(** [errors.As(err, &FatalError{})] *)
Fixpoint is_fatal_e (e : error) : bool :=
  match e with FatalError _ => true | ErrWrap _ e' => is_fatal_e e' | _ => false end.
Definition errors_As_Fatal (err : option error) : bool :=
  match err with Some e => is_fatal_e e | None => false end.

(** ** Maps held in an [interface{}] *)

(** [v.(map[string]interface{})]: [None] is the failed assertion. *)
Definition as_map (v : value) : option (gmap string value) :=
  match v with VObject m => Some m | _ => None end.
Definition as_string (v : value) : option string :=
  match v with VString s => Some s | _ => None end.

(** Single-result type assertions: they panic when the dynamic type differs. *)
Definition assert_map {W} (v : value) : M W (gmap string value) :=
  match as_map v with
  | Some m => mret m
  | None => panic "interface conversion: interface {} is not map[string]interface {}"
  end.
Definition assert_string {W} (v : value) : M W string :=
  match as_string v with
  | Some s => mret s
  | None => panic "interface conversion: interface {} is not string"
  end.

(** ** Interfaces *)

(** Prometheus counters (durations and gauges are not modelled). *)
Class Metrics (W : Type) := { Inc : string → M W unit }.
#[global] Hint Mode Metrics + : typeclass_instances.

Class ConnectionRegistrar (W : Type) := {
  Register : ConnectorClientState → M W (option error);
  Unregister : ClientID → M W (option error);
  FindConnectionByClientID : ClientID → M W (ConnectorClientState * option error);
}.
#[global] Hint Mode ConnectionRegistrar + : typeclass_instances.

Class AccountIdResolver (W : Type) := {
  MapClientIdToAccountId : ClientID → M W (Identity * AccountID * OrgID * option error);
}.

Class ConnectedClientRecorder (W : Type) := {
  RecordConnectedClient : Identity → ConnectorClientState → M W (option error);
}.
#[global] Hint Mode ConnectedClientRecorder + : typeclass_instances.

Class SourcesRecorder (W : Type) := {
  RegisterWithSources : Identity → AccountID → OrgID → ClientID →
    string → string → string → string → M W (option error);
}.
#[global] Hint Mode SourcesRecorder + : typeclass_instances.

(** [controller.ConnectorClient]; a message id is a [*uuid.UUID], here the text of
    the uuid, [None] when nil. *)
Record ConnectorClient (W : Type) := {
  SendMessage : string → value → value → M W (option string * option error);
  Ping : M W (option error);
  Reconnect : string → Z → M W (option error);
  GetDispatchers : M W (value * option error);
  GetCanonicalFacts : M W (value * option error);
  GetTags : M W (value * option error);
  Disconnect : string → M W (option error);
}.
Arguments SendMessage {W} _ _ _ _.
Arguments Ping {W} _.
Arguments Reconnect {W} _ _ _.
Arguments GetDispatchers {W} _.
Arguments GetCanonicalFacts {W} _.
Arguments GetTags {W} _.
Arguments Disconnect {W} _ _.

Class ConnectorClientProxyFactory (W : Type) := {
  CreateProxy : OrgID → AccountID → ClientID → value → value → value →
    M W (ConnectorClient W + error);
}.
#[global] Hint Mode ConnectorClientProxyFactory + : typeclass_instances.

(** [tenantid.Translator] (a library interface): account number to org id. *)
Class Translator (W : Type) := { EANToOrgID : string → M W (string * option error) }.
#[global] Hint Mode Translator + : typeclass_instances.

(** ** Contracts

    What a client of an interface may rely on, whatever the implementation. *)

(** [m] leaves the observation [obs] of the state alone, however it ends. *)
Definition preserves {W A O} (obs : W → O) (m : M W A) : Prop :=
  ∀ w, obs (m w).2 = obs w.

Lemma preserves_ret {W A O} (obs : W → O) (a : A) : preserves obs (mret a : M W A).
Proof. done. Qed.

Lemma preserves_panic {W A O} (obs : W → O) s : preserves obs (panic s : M W A).
Proof. done. Qed.

Lemma preserves_exit {W A O} (obs : W → O) s : preserves obs (exit_process s : M W A).
Proof. done. Qed.

Lemma preserves_bind {W A B O} (obs : W → O) (m : M W A) (k : A → M W B) :
  preserves obs m → (∀ a, preserves obs (k a)) → preserves obs (m ≫= k).
Proof.
  intros Hm Hk w. unfold mbind, M_bind. specialize (Hm w).
  destruct (m w) as [[a|s|s] w'] eqn:E; simpl in *; [|done..].
  by rewrite (Hk a w').
Qed.

Lemma preserves_assert_map {W O} (obs : W → O) v : preserves obs (assert_map v).
Proof. unfold assert_map. by destruct (as_map v). Qed.

Lemma preserves_assert_string {W O} (obs : W → O) v : preserves obs (assert_string v).
Proof. unfold assert_string. by destruct (as_string v). Qed.

#[export] Hint Resolve preserves_ret preserves_panic preserves_exit preserves_bind
  preserves_assert_map preserves_assert_string : go.

(** Prove a [preserves] goal by following the code. *)
Ltac go_preserves :=
  repeat first
    [ progress intros
    | assumption
    | apply preserves_ret | apply preserves_panic | apply preserves_exit
    | apply preserves_assert_map | apply preserves_assert_string
    | progress eauto with go
    | apply preserves_bind
    | lazymatch goal with
      | |- preserves _ (match ?x with _ => _ end) => destruct x
      end ].

(** The registrar's contract.  The registry is a partial map from client ids to
    stored connections; every operation acts on its own client's entry only,
    and an error leaves the registry as it was.  [stored old c] is the form in
    which [c] is stored over the entry [old] already there. *)
Class RegistrarContract (W : Type) `{!ConnectionRegistrar W} := {
  registry : W → gmap string ConnectorClientState;
  registrar_inv : W → Prop;
  admissible : ConnectorClientState → Prop;
  stored : option ConnectorClientState → ConnectorClientState → ConnectorClientState;
  stored_message_id old c :
    LatestMessageID (ccMessageMetadata (stored old c)) = LatestMessageID (ccMessageMetadata c);
  stored_org old c : ccOrgID (stored old c) = ccOrgID c;
  (** storing does not take a client's timestamp back *)
  stored_timestamp w cid s c : registrar_inv w → registry w !! cid = Some s →
    (LatestTimestamp (ccMessageMetadata s) ≤ LatestTimestamp (ccMessageMetadata c))%Z →
    (LatestTimestamp (ccMessageMetadata s)
       ≤ LatestTimestamp (ccMessageMetadata (stored (Some s) c)))%Z;

  register_contract c w : registrar_inv w → admissible c →
    wp (Register c) w (λ o w', registrar_inv w' ∧
      match o with
      | Ret None => registry w' = <[ccClientID c := stored (registry w !! ccClientID c) c]> (registry w)
      | Ret (Some _) => registry w' = registry w
      | _ => False
      end);
  register_returns c (w : W) : ∃ err w', Register c w = (Ret err, w');
  unregister_contract cid w : registrar_inv w →
    wp (Unregister cid) w (λ o w', registrar_inv w' ∧
      match o with
      | Ret None => registry w' = delete cid (registry w)
      | Ret (Some e) => is_fatal_e e = true ∧ registry w' = registry w
      | _ => False
      end);
  find_contract cid w : registrar_inv w →
    wp (FindConnectionByClientID cid) w (λ o w', registrar_inv w' ∧
      registry w' = registry w ∧
      match o with
      | Ret (s, None) => registry w !! cid = Some s
      | Ret (_, Some e) => (e = NotFoundError ∧ registry w !! cid = None)
                           ∨ is_fatal_e e = true
      | _ => False
      end);
}.
