(* ===== verification/Config.v ===== *)
(** * Configuration ([internal/config/config.go])

    [Config] is the Go struct; [GetConfig] reads it from a viper instance
    (a library: its operations are the parameter [Viper]) and, on a Clowder
    platform, overrides the Kafka and database settings.  [Config.String]
    is in ConfigLog. *)

From S2P Require Import Prelude GoStrings GoNumTime Json Domain.
From stdpp Require Import options.

Local Open Scope Z_scope.

Definition second : Z := 1000000000.
Definition minute : Z := 60 * second.
Definition hour : Z := 60 * minute.

Record Config := {
  UrlAppName : string;
  UrlPathPrefix : string;
  UrlBasePath : string;
  OpenApiSpecFilePath : string;
  HttpShutdownTimeout : Z;
  ServiceToServiceCredentials : gmap string value;
  Profile : bool;
  MqttBrokerAddress : string;
  MqttClientId : string;
  MqttUseHostnameAsClientId : bool;
  MqttCleanSession : bool;
  MqttResumeSubs : bool;
  MqttBrokerTlsCertFile : string;
  MqttBrokerTlsKeyFile : string;
  MqttBrokerTlsCACertFile : string;
  MqttBrokerTlsSkipVerify : bool;
  MqttBrokerAuthType : string;
  MqttBrokerUsername : string;
  MqttBrokerPassword : string;
  MqttBrokerJwtGeneratorImpl : string;
  MqttBrokerJwtFile : string;
  MqttTopicPrefix : string;
  MqttControlSubscriptionQoS : Z;
  MqttControlPublishQoS : Z;
  MqttDataSubscriptionQoS : Z;
  MqttDataPublishQoS : Z;
  MqttDisconnectQuiesceTime : Z;
  MqttPublishTimeout : Z;
  MqttConsumerShutdownSleepTime : Z;
  ShutdownOnMqttConnectionLost : bool;
  InvalidHandshakeReconnectDelay : Z;
  KafkaBrokers : list string;
  KafkaCA : string;
  KafkaUsername : string;
  KafkaPassword : string;
  KafkaSASLMechanism : string;
  ClientIdToAccountIdImpl : string;
  ClientIdToAccountIdConfigFile : string;
  ClientIdToAccountIdDefaultAccountId : string;
  ClientIdToAccountIdDefaultOrgId : string;
  ClientIdToAccountIdCacheSize : Z;
  ClientIdToAccountIdCacheValidRespTTL : Z;
  ClientIdToAccountIdCacheErrorRespTTL : Z;
  ConnectionDatabaseImpl : string;
  ConnectionDatabaseHost : string;
  ConnectionDatabasePort : Z;
  ConnectionDatabaseUser : string;
  ConnectionDatabasePassword : string;
  ConnectionDatabaseName : string;
  ConnectionDatabaseSslMode : string;
  ConnectionDatabaseSslRootCert : string;
  ConnectionDatabaseQueryTimeout : Z;
  AuthGatewayUrl : string;
  AuthGatewayHttpClientTimeout : Z;
  ConnectedClientRecorderImpl : string;
  InventoryKafkaBrokers : list string;
  InventoryKafkaTopic : string;
  InventoryKafkaBatchSize : Z;
  InventoryKafkaBatchBytes : Z;
  InventoryStaleTimestampOffset : Z;
  InventoryStaleTimestampUpdaterChunkSize : Z;
  InventoryReporterName : string;
  SourcesRecorderImpl : string;
  SourcesBaseUrl : string;
  SourcesHttpClientTimeout : Z;
  JwtTokenExpiry : Z;
  JwtPrivateKeyFile : string;
  JwtPublicKeyFile : string;
  RhcMessageKafkaBrokers : list string;
  RhcMessageKafkaTopic : string;
  RhcMessageKafkaBatchSize : Z;
  RhcMessageKafkaBatchBytes : Z;
  RhcMessageKafkaConsumerGroup : string;
  PendoApiEndpoint : string;
  PendoRequestTimeout : Z;
  PendoIntegrationKey : string;
  PendoRequestSize : Z;
  PrometheusPushGateway : string;
  ApiServerConnectionLookupImpl : string;
  TenantTranslatorImpl : string;
  TenantTranslatorMockMapping : gmap string value;
  TenantTranslatorURL : string;
  TenantTranslatorTimeout : Z;
  PurgeConnectionOnFailedTenantLookupCount : Z;
  TenantlessConnectionTimestampOffset : Z;
  TenantlessConnectionUpdaterChunkSize : Z;
  TenantlessConnectionMaxLookupFailures : Z;
}.

(** ** Viper *)

(** What the program passes to [options.SetDefault]. *)
Inductive optval :=
| OString (s : string) | OInt (z : Z) | OBool (b : bool)
| ODuration (d : Z) | OStrings (l : list string).

(** The operations of [*viper.Viper] the program uses. *)
Class Viper (V : Type) := {
  New : V;
  SetDefault : V → string → optval → V;
  SetEnvPrefix : V → string → V;
  AutomaticEnv : V → V;
  vGetString : V → string → string;
  vGetInt : V → string → Z;
  vGetUint : V → string → Z;
  vGetBool : V → string → bool;
  vGetDuration : V → string → Z;
  vGetStringSlice : V → string → list string;
  vGetStringMap : V → string → gmap string value;
}.
#[global] Hint Mode Viper + : typeclass_instances.

(** The default [TENANT_TRANSLATOR_MOCK_MAPPING], a JSON text. *)
Definition TENANT_TRANSLATOR_MOCK_MAPPING_DEFAULT : string :=
  String "{" (Join ((λ p : string * string,
    String dquote (p.1 +:+ String dquote (": " +:+ String dquote (p.2 +:+ str1 dquote)))) <$>
    [("10001", "010101"); ("10000", "000000"); ("0002", "111000"); ("10002", "010102"); ("10003", "010103"); ("10004", "010104")]) ", " +:+ "}").

Definition MQTT_BROKER_ADDRESS_DEFAULT : string := "ssl://localhost:8883".
Definition DEFAULT_KAFKA_BROKER_ADDRESS : string := "kafka:29092".
Definition RHC_MESSAGE_KAFKA_TOPIC_DEFAULT : string :=
  "platform.cloud-connector.rhc-message-ingress".
Definition ENV_PREFIX : string := "CLOUD_CONNECTOR".

Definition default_options : list (string * optval) := [
  ("URL_Path_Prefix", OString "api");
  ("URL_App_Name", OString "cloud-connector");
  ("OpenAPI_Spec_File_Path", OString "/opt/app-root/src/api/api.spec.file");
  ("HTTP_Shutdown_Timeout", OInt 2);
  ("Service_To_Service_Credentials", OString EmptyString);
  ("Enable_Profile", OBool false);
  ("MQTT_Broker_Address", OString MQTT_BROKER_ADDRESS_DEFAULT);
  ("MQTT_Client_Id", OString EmptyString);
  ("MQTT_Clean_Session", OBool false);
  ("MQTT_Resume_Subs", OBool true);
  ("MQTT_Broker_Tls_Skip_Verify", OBool false);
  ("MQTT_Broker_Auth_Type", OString "jwt");
  ("MQTT_Broker_JWT_Generator_Impl", OString "jwt_file_reader");
  ("MQTT_Broker_JWT_File", OString "cloud-connector-mqtt-jwt.txt");
  ("MQTT_Topic_Prefix", OString "redhat");
  ("MQTT_Control_Subscription_QoS", OInt 1);
  ("MQTT_Control_Publish_QoS", OInt 1);
  ("MQTT_Data_Subscription_QoS", OInt 1);
  ("MQTT_Data_Publish_QoS", OInt 1);
  ("MQTT_Disconnect_Quiesce_Time", OInt 1000);
  ("MQTT_Publish_Timeout", OInt 2);
  ("MQTT_Consumer_Shutdown_Sleep_Time", OInt 2);
  ("Shutdown_On_MQTT_Connection_Lost", OBool false);
  ("Invalid_Handshake_Reconnect_Delay", OInt 60);
  ("Client_Id_To_Account_Id_Impl", OString "config_file_based");
  ("Client_Id_To_Account_Id_Config_File", OString "client_id_to_account_id_map.json");
  ("Client_Id_To_Account_Id_Default_Account_Id", OString "111000");
  ("Client_Id_To_Account_Id_Default_Org_Id", OString "10000");
  ("Client_Id_To_Account_Id_Cache_Size", OString "1000");
  ("Client_Id_To_Account_Id_Cache_Valid_Response_TTL", ODuration (10 * minute));
  ("Client_Id_To_Account_Id_Cache_Error_Response_TTL", ODuration (10 * second));
  ("Connection_Database_Impl", OString "postgres");
  ("Connection_Database_Host", OString "localhost");
  ("Connection_Database_Port", OInt 5432);
  ("Connection_Database_User", OString "insights");
  ("Connection_Database_Password", OString "insights");
  ("Connection_Database_Name", OString "cloud-connector");
  ("Connection_Database_SSL_Mode", OString "disable");
  ("Connection_Database_SSL_Root_Cert", OString "db_ssl_root_cert.pem");
  ("Connection_Database_Query_Timeout", OInt 5);
  ("Connected_Client_Recorder_Impl", OString "fake");
  ("Inventory_Kafka_Brokers", OStrings [DEFAULT_KAFKA_BROKER_ADDRESS]);
  ("Inventory_Kafka_Topic", OString "platform.inventory.host-ingress-p1");
  ("Inventory_Kafka_Batch_Size", OInt 1);
  ("Inventory_Kafka_Batch_Bytes", OInt 1048576);
  ("Inventory_Stale_Timestamp_Offset", OInt 26);
  ("Inventory_Stale_Timestamp_Updater_Chunk_Size", OInt 100);
  ("Inventory_Reporter_Name", OString "cloud-connector");
  ("Sources_Recorder_Impl", OString "fake");
  ("Sources_Base_Url", OString "http://sources-api.sources-ci.svc.cluster.local:8080");
  ("Sources_HTTP_Client_Timeout", OInt 5);
  ("JWT_Token_Expiry_Minutes", OInt 1);
  ("JWT_Private_Key_File", OString "/etc/jwt/mqtt-private-key.rsa");
  ("JWT_Public_Key_File", OString "/etc/jwt/mqtt-public-key.rsa");
  ("Auth_Gateway_Url", OString "http://gateway.3scale-stage.svc.cluster.local:8890/internal/certauth");
  ("Auth_Gateway_HTTP_Client_Timeout", OInt 15);
  ("RHC_Message_Kafka_Brokers", OStrings [DEFAULT_KAFKA_BROKER_ADDRESS]);
  ("RHC_Message_Kafka_Topic", OString RHC_MESSAGE_KAFKA_TOPIC_DEFAULT);
  ("RHC_Message_Kafka_Batch_Size", OInt 1);
  ("RHC_Message_Kafka_Batch_Bytes", OInt 1048576);
  ("RHC_Message_Kafka_Consumer_Group", OString "cloud-connector-rhc-message-consumer");
  ("Pendo_Api_Endpoint", OString "https://app.pendo.io/api/v1");
  ("Pendo_Request_Timeout", OInt 5);
  ("Pendo_Integration_Key", OString EmptyString);
  ("Pendo_Request_Size", OInt 100);
  ("API_Server_Connection_Lookup_Impl", OString "relaxed");
  ("Tenant_Translator_Impl", OString "mock");
  ("Tenant_Translator_Mock_Mapping", OString TENANT_TRANSLATOR_MOCK_MAPPING_DEFAULT);
  ("Tenant_Translator_URL", OString "http://gateway.3scale-dev.svc.cluster.local:8892");
  ("Tenant_Translator_Timeout", OInt 5);
  ("Prometheus_Push_Gateway", OString "prometheus-push.insights-push-stage.svc.cluster.local:9091");
  ("Purge_Connection_On_Failed_Tenant_Lookup_Count", OInt (6 * 24));
  ("Tenantless_Connection_Timestamp_Offset", OInt 30);
  ("Tenantless_Connection_Updater_Chunk_Size", OInt 100);
  ("Tenantless_Connection_Max_Lookup_Failures", OInt 30)
].

Definition buildUrlBasePath (pathPrefix appName : string) : string :=
  "/" +:+ pathPrefix +:+ "/" +:+ appName.

(** ** Clowder *)

(** Pointers are options: [None] is nil. *)
Record KafkaSASLConfig := {
  SaslUsername : option string;
  SaslPassword : option string;
  SaslMechanism : option string;
}.

Record BrokerConfig := {
  Authtype : option string;
  Sasl : option KafkaSASLConfig;
  Cacert : option string;
}.

Record DatabaseConfig := {
  dbHostname : string;
  dbPort : Z;
  dbName : string;
  dbUsername : string;
  dbPassword : string;
  dbSslMode : string;
  dbRdsCa : option string;
}.

(** What [clowder.LoadedConfig] and the package's variables provide; [clKafka] holds
    the slice of brokers, which may be nil too. *)
Record Clowder := {
  clKafka : option (option (list BrokerConfig));
  clKafkaServers : list string;
  clKafkaTopicName : string → string;
  clKafkaCa : BrokerConfig → string + error;
  clDatabase : option DatabaseConfig;
  clRdsCa : string + error;
}.

Definition zero_broker : BrokerConfig := {| Authtype := None; Sasl := None; Cacert := None |}.

(** The fields [GetConfig] overrides under Clowder; all others are kept. *)
Definition override_config (c : Clowder) (db : DatabaseConfig) (username password mechanism ca root : string)
    (config : Config) : Config := {|
  UrlAppName := UrlAppName config;
  UrlPathPrefix := UrlPathPrefix config;
  UrlBasePath := UrlBasePath config;
  OpenApiSpecFilePath := OpenApiSpecFilePath config;
  HttpShutdownTimeout := HttpShutdownTimeout config;
  ServiceToServiceCredentials := ServiceToServiceCredentials config;
  Profile := Profile config;
  MqttBrokerAddress := MqttBrokerAddress config;
  MqttClientId := MqttClientId config;
  MqttUseHostnameAsClientId := MqttUseHostnameAsClientId config;
  MqttCleanSession := MqttCleanSession config;
  MqttResumeSubs := MqttResumeSubs config;
  MqttBrokerTlsCertFile := MqttBrokerTlsCertFile config;
  MqttBrokerTlsKeyFile := MqttBrokerTlsKeyFile config;
  MqttBrokerTlsCACertFile := MqttBrokerTlsCACertFile config;
  MqttBrokerTlsSkipVerify := MqttBrokerTlsSkipVerify config;
  MqttBrokerAuthType := MqttBrokerAuthType config;
  MqttBrokerUsername := MqttBrokerUsername config;
  MqttBrokerPassword := MqttBrokerPassword config;
  MqttBrokerJwtGeneratorImpl := MqttBrokerJwtGeneratorImpl config;
  MqttBrokerJwtFile := MqttBrokerJwtFile config;
  MqttTopicPrefix := MqttTopicPrefix config;
  MqttControlSubscriptionQoS := MqttControlSubscriptionQoS config;
  MqttControlPublishQoS := MqttControlPublishQoS config;
  MqttDataSubscriptionQoS := MqttDataSubscriptionQoS config;
  MqttDataPublishQoS := MqttDataPublishQoS config;
  MqttDisconnectQuiesceTime := MqttDisconnectQuiesceTime config;
  MqttPublishTimeout := MqttPublishTimeout config;
  MqttConsumerShutdownSleepTime := MqttConsumerShutdownSleepTime config;
  ShutdownOnMqttConnectionLost := ShutdownOnMqttConnectionLost config;
  InvalidHandshakeReconnectDelay := InvalidHandshakeReconnectDelay config;
  KafkaBrokers := KafkaBrokers config;
  KafkaCA := ca;
  KafkaUsername := username;
  KafkaPassword := password;
  KafkaSASLMechanism := mechanism;
  ClientIdToAccountIdImpl := ClientIdToAccountIdImpl config;
  ClientIdToAccountIdConfigFile := ClientIdToAccountIdConfigFile config;
  ClientIdToAccountIdDefaultAccountId := ClientIdToAccountIdDefaultAccountId config;
  ClientIdToAccountIdDefaultOrgId := ClientIdToAccountIdDefaultOrgId config;
  ClientIdToAccountIdCacheSize := ClientIdToAccountIdCacheSize config;
  ClientIdToAccountIdCacheValidRespTTL := ClientIdToAccountIdCacheValidRespTTL config;
  ClientIdToAccountIdCacheErrorRespTTL := ClientIdToAccountIdCacheErrorRespTTL config;
  ConnectionDatabaseImpl := ConnectionDatabaseImpl config;
  ConnectionDatabaseHost := dbHostname db;
  ConnectionDatabasePort := dbPort db;
  ConnectionDatabaseUser := dbUsername db;
  ConnectionDatabasePassword := dbPassword db;
  ConnectionDatabaseName := dbName db;
  ConnectionDatabaseSslMode := dbSslMode db;
  ConnectionDatabaseSslRootCert := root;
  ConnectionDatabaseQueryTimeout := ConnectionDatabaseQueryTimeout config;
  AuthGatewayUrl := AuthGatewayUrl config;
  AuthGatewayHttpClientTimeout := AuthGatewayHttpClientTimeout config;
  ConnectedClientRecorderImpl := ConnectedClientRecorderImpl config;
  InventoryKafkaBrokers := clKafkaServers c;
  InventoryKafkaTopic := clKafkaTopicName c "platform.inventory.host-ingress-p1";
  InventoryKafkaBatchSize := InventoryKafkaBatchSize config;
  InventoryKafkaBatchBytes := InventoryKafkaBatchBytes config;
  InventoryStaleTimestampOffset := InventoryStaleTimestampOffset config;
  InventoryStaleTimestampUpdaterChunkSize := InventoryStaleTimestampUpdaterChunkSize config;
  InventoryReporterName := InventoryReporterName config;
  SourcesRecorderImpl := SourcesRecorderImpl config;
  SourcesBaseUrl := SourcesBaseUrl config;
  SourcesHttpClientTimeout := SourcesHttpClientTimeout config;
  JwtTokenExpiry := JwtTokenExpiry config;
  JwtPrivateKeyFile := JwtPrivateKeyFile config;
  JwtPublicKeyFile := JwtPublicKeyFile config;
  RhcMessageKafkaBrokers := clKafkaServers c;
  RhcMessageKafkaTopic := clKafkaTopicName c RHC_MESSAGE_KAFKA_TOPIC_DEFAULT;
  RhcMessageKafkaBatchSize := RhcMessageKafkaBatchSize config;
  RhcMessageKafkaBatchBytes := RhcMessageKafkaBatchBytes config;
  RhcMessageKafkaConsumerGroup := RhcMessageKafkaConsumerGroup config;
  PendoApiEndpoint := PendoApiEndpoint config;
  PendoRequestTimeout := PendoRequestTimeout config;
  PendoIntegrationKey := PendoIntegrationKey config;
  PendoRequestSize := PendoRequestSize config;
  PrometheusPushGateway := PrometheusPushGateway config;
  ApiServerConnectionLookupImpl := ApiServerConnectionLookupImpl config;
  TenantTranslatorImpl := TenantTranslatorImpl config;
  TenantTranslatorMockMapping := TenantTranslatorMockMapping config;
  TenantTranslatorURL := TenantTranslatorURL config;
  TenantTranslatorTimeout := TenantTranslatorTimeout config;
  PurgeConnectionOnFailedTenantLookupCount := PurgeConnectionOnFailedTenantLookupCount config;
  TenantlessConnectionTimestampOffset := TenantlessConnectionTimestampOffset config;
  TenantlessConnectionUpdaterChunkSize := TenantlessConnectionUpdaterChunkSize config;
  TenantlessConnectionMaxLookupFailures := TenantlessConnectionMaxLookupFailures config;
|}.

Section GetConfig.
Context {V : Type} `{!Viper V}.

Definition set_defaults : V :=
  AutomaticEnv (SetEnvPrefix
    (foldl (λ v kv, SetDefault v kv.1 kv.2) New default_options) ENV_PREFIX).

(** The struct literal of [GetConfig]. *)
Definition config_of_options (options : V) : Config :=
  let GetString := vGetString options in
  let GetInt := vGetInt options in
  let GetUint := vGetUint options in
  let GetBool := vGetBool options in
  let GetDuration := vGetDuration options in
  let GetStringSlice := vGetStringSlice options in
  let GetStringMap := vGetStringMap options in
{|
  UrlAppName := GetString "URL_App_Name";
  UrlPathPrefix := GetString "URL_Path_Prefix";
  UrlBasePath := buildUrlBasePath (GetString "URL_Path_Prefix") (GetString "URL_App_Name");
  OpenApiSpecFilePath := GetString "OpenAPI_Spec_File_Path";
  HttpShutdownTimeout := wrap64 (GetDuration "HTTP_Shutdown_Timeout" * second);
  ServiceToServiceCredentials := GetStringMap "Service_To_Service_Credentials";
  Profile := GetBool "Enable_Profile";
  MqttBrokerAddress := GetString "MQTT_Broker_Address";
  MqttClientId := GetString "MQTT_Client_Id";
  MqttUseHostnameAsClientId := GetBool "MQTT_Use_Hostname_As_Client_Id";
  MqttCleanSession := GetBool "MQTT_Clean_Session";
  MqttResumeSubs := GetBool "MQTT_Resume_Subs";
  MqttBrokerTlsCertFile := GetString "MQTT_Broker_Tls_Cert_File";
  MqttBrokerTlsKeyFile := GetString "MQTT_Broker_Tls_Key_File";
  MqttBrokerTlsCACertFile := GetString "MQTT_Broker_Tls_CA_Cert_File";
  MqttBrokerTlsSkipVerify := GetBool "MQTT_Broker_Tls_Skip_Verify";
  MqttBrokerAuthType := GetString "MQTT_Broker_Auth_Type";
  MqttBrokerUsername := GetString "MQTT_Broker_Username";
  MqttBrokerPassword := GetString "MQTT_Broker_Password";
  MqttBrokerJwtGeneratorImpl := GetString "MQTT_Broker_JWT_Generator_Impl";
  MqttBrokerJwtFile := GetString "MQTT_Broker_JWT_File";
  MqttTopicPrefix := GetString "MQTT_Topic_Prefix";
  MqttControlSubscriptionQoS := (GetInt "MQTT_Control_Subscription_QoS" mod 256)%Z;
  MqttControlPublishQoS := (GetInt "MQTT_Control_Publish_QoS" mod 256)%Z;
  MqttDataSubscriptionQoS := (GetInt "MQTT_Data_Subscription_QoS" mod 256)%Z;
  MqttDataPublishQoS := (GetInt "MQTT_Data_Publish_QoS" mod 256)%Z;
  MqttDisconnectQuiesceTime := GetUint "MQTT_Disconnect_Quiesce_Time";
  MqttPublishTimeout := wrap64 (GetDuration "MQTT_Publish_Timeout" * second);
  MqttConsumerShutdownSleepTime := wrap64 (GetDuration "MQTT_Consumer_Shutdown_Sleep_Time" * second);
  ShutdownOnMqttConnectionLost := GetBool "Shutdown_On_MQTT_Connection_Lost";
  InvalidHandshakeReconnectDelay := GetInt "Invalid_Handshake_Reconnect_Delay";
  KafkaBrokers := [];
  KafkaCA := GetString "Kafka_CA";
  KafkaUsername := GetString "Kafka_Username";
  KafkaPassword := GetString "Kafka_Password";
  KafkaSASLMechanism := GetString "Kafka_SASL_Mechanism";
  ClientIdToAccountIdImpl := GetString "Client_Id_To_Account_Id_Impl";
  ClientIdToAccountIdConfigFile := GetString "Client_Id_To_Account_Id_Config_File";
  ClientIdToAccountIdDefaultAccountId := GetString "Client_Id_To_Account_Id_Default_Account_Id";
  ClientIdToAccountIdDefaultOrgId := GetString "Client_Id_To_Account_Id_Default_Org_Id";
  ClientIdToAccountIdCacheSize := GetInt "Client_Id_To_Account_Id_Cache_Size";
  ClientIdToAccountIdCacheValidRespTTL := GetDuration "Client_Id_To_Account_Id_Cache_Valid_Response_TTL";
  ClientIdToAccountIdCacheErrorRespTTL := GetDuration "Client_Id_To_Account_Id_Cache_Error_Response_TTL";
  ConnectionDatabaseImpl := GetString "Connection_Database_Impl";
  ConnectionDatabaseHost := GetString "Connection_Database_Host";
  ConnectionDatabasePort := GetInt "Connection_Database_Port";
  ConnectionDatabaseUser := GetString "Connection_Database_User";
  ConnectionDatabasePassword := GetString "Connection_Database_Password";
  ConnectionDatabaseName := GetString "Connection_Database_Name";
  ConnectionDatabaseSslMode := GetString "Connection_Database_SSL_Mode";
  ConnectionDatabaseSslRootCert := GetString "Connection_Database_SSL_Root_Cert";
  ConnectionDatabaseQueryTimeout := wrap64 (GetDuration "Connection_Database_Query_Timeout" * second);
  AuthGatewayUrl := GetString "Auth_Gateway_Url";
  AuthGatewayHttpClientTimeout := wrap64 (GetDuration "Auth_Gateway_HTTP_Client_Timeout" * second);
  ConnectedClientRecorderImpl := GetString "Connected_Client_Recorder_Impl";
  InventoryKafkaBrokers := GetStringSlice "Inventory_Kafka_Brokers";
  InventoryKafkaTopic := GetString "Inventory_Kafka_Topic";
  InventoryKafkaBatchSize := GetInt "Inventory_Kafka_Batch_Size";
  InventoryKafkaBatchBytes := GetInt "Inventory_Kafka_Batch_Bytes";
  InventoryStaleTimestampOffset := wrap64 (GetDuration "Inventory_Stale_Timestamp_Offset" * hour);
  InventoryStaleTimestampUpdaterChunkSize := GetInt "Inventory_Stale_Timestamp_Updater_Chunk_Size";
  InventoryReporterName := GetString "Inventory_Reporter_Name";
  SourcesRecorderImpl := GetString "Sources_Recorder_Impl";
  SourcesBaseUrl := GetString "Sources_Base_Url";
  SourcesHttpClientTimeout := wrap64 (GetDuration "Sources_HTTP_Client_Timeout" * second);
  JwtTokenExpiry := GetInt "JWT_Token_Expiry_Minutes";
  JwtPrivateKeyFile := GetString "JWT_Private_Key_File";
  JwtPublicKeyFile := GetString "JWT_Public_Key_File";
  RhcMessageKafkaBrokers := GetStringSlice "RHC_Message_Kafka_Brokers";
  RhcMessageKafkaTopic := GetString "RHC_Message_Kafka_Topic";
  RhcMessageKafkaBatchSize := GetInt "RHC_Message_Kafka_Batch_Size";
  RhcMessageKafkaBatchBytes := GetInt "RHC_Message_Kafka_Batch_Bytes";
  RhcMessageKafkaConsumerGroup := GetString "RHC_Message_Kafka_Consumer_Group";
  PendoApiEndpoint := GetString "Pendo_Api_Endpoint";
  PendoRequestTimeout := wrap64 (GetDuration "Pendo_Request_Timeout" * second);
  PendoIntegrationKey := GetString "Pendo_Integration_Key";
  PendoRequestSize := GetInt "Pendo_Request_Size";
  PrometheusPushGateway := GetString "Prometheus_Push_Gateway";
  ApiServerConnectionLookupImpl := GetString "API_Server_Connection_Lookup_Impl";
  TenantTranslatorImpl := GetString "Tenant_Translator_Impl";
  TenantTranslatorMockMapping := GetStringMap "Tenant_Translator_Mock_Mapping";
  TenantTranslatorURL := GetString "Tenant_Translator_URL";
  TenantTranslatorTimeout := wrap64 (GetDuration "Tenant_Translator_Timeout" * second);
  PurgeConnectionOnFailedTenantLookupCount := GetInt "Purge_Connection_On_Failed_Tenant_Lookup_Count";
  TenantlessConnectionTimestampOffset := wrap64 (GetDuration "Tenantless_Connection_Timestamp_Offset" * minute);
  TenantlessConnectionUpdaterChunkSize := GetInt "Tenantless_Connection_Updater_Chunk_Size";
  TenantlessConnectionMaxLookupFailures := GetInt "Tenantless_Connection_Max_Lookup_Failures";
|}.

(** The next step of a function that may panic. *)
Definition and_next {A B} (o : outcome A) (k : A → outcome B) : outcome B :=
  match o with Ret a => k a | Panic why => Panic why | Exit why => Exit why end.

Definition deref {A} (p : option A) : outcome A :=
  match p with Some a => Ret a | None => Panic "invalid memory address or nil pointer dereference" end.

Definition broker_of (c : Clowder) : outcome BrokerConfig :=
  and_next (deref (clKafka c)) (λ brokers,
    match brokers with
    | None => Ret zero_broker
    | Some (b :: _) => Ret b
    | Some [] => Panic "index out of range"
    end).

(** User, password and mechanism, with those of the options where none are given. *)
Definition sasl_of (broker : BrokerConfig) (config : Config) : outcome (string * string * string) :=
  match Authtype broker with
  | None => Ret (KafkaUsername config, KafkaPassword config, KafkaSASLMechanism config)
  | Some _ =>
      and_next (deref (Sasl broker)) (λ sasl,
      and_next (deref (SaslUsername sasl)) (λ username,
      and_next (deref (SaslPassword sasl)) (λ password,
      and_next (deref (SaslMechanism sasl)) (λ mechanism, Ret (username, password, mechanism)))))
  end.

Definition ca_of (c : Clowder) (broker : BrokerConfig) (config : Config) : outcome string :=
  match Cacert broker with
  | None => Ret (KafkaCA config)
  | Some _ => match clKafkaCa c broker with
              | inl path => Ret path
              | inr _ => Panic "Kafka CA cert failed to write"
              end
  end.

Definition root_of (c : Clowder) (db : DatabaseConfig) (config : Config) : outcome string :=
  match dbRdsCa db with
  | None => Ret (ConnectionDatabaseSslRootCert config)
  | Some _ => match clRdsCa c with
              | inl path => Ret path
              | inr e => Panic (Error e)
              end
  end.

(** The overrides of a Clowderized environment, in the code's order. *)
Definition clowder_overrides (c : Clowder) (config : Config) : outcome Config :=
  and_next (broker_of c) (λ broker,
  and_next (sasl_of broker config) (λ '(username, password, mechanism),
  and_next (ca_of c broker config) (λ ca,
  and_next (deref (clDatabase c)) (λ db,
  and_next (root_of c db config) (λ root,
    Ret (override_config c db username password mechanism ca root config)))))).

Definition GetConfig (loaded : option Clowder) : outcome Config :=
  let config := config_of_options set_defaults in
  match loaded with
  | Some c => clowder_overrides c config
  | None => Ret config
  end.
End GetConfig.

(** ** A concrete store of options, for the witnesses *)

Definition alist_get (v : list (string * optval)) (key : string) : option optval :=
  snd <$> find (λ kv : string * optval, bool_decide (kv.1 = key)) v.

#[export] Instance alist_viper : Viper (list (string * optval)) := {
  New := [];
  SetDefault v k x := (k, x) :: v;
  SetEnvPrefix v _ := v;
  AutomaticEnv v := v;
  vGetString v k := match alist_get v k with Some (OString s) => s | _ => EmptyString end;
  vGetInt v k := match alist_get v k with Some (OInt z) => z | _ => 0%Z end;
  vGetUint v k := match alist_get v k with Some (OInt z) => z | _ => 0%Z end;
  vGetBool v k := match alist_get v k with Some (OBool b) => b | _ => false end;
  vGetDuration v k := match alist_get v k with Some (ODuration d) | Some (OInt d) => d | _ => 0%Z end;
  vGetStringSlice v k := match alist_get v k with Some (OStrings l) => l | _ => [] end;
  vGetStringMap v k := ∅;
}.

Definition default_config : Config := config_of_options (set_defaults (V := list (string * optval))).
