(* ===== verification/ConfigLog.v ===== *)
(** * The configuration in the log ([Config.String] of [internal/config/config.go])

    Every process writes its configuration to the log when it starts.  The text
    is made with [fmt]: [Duration_String] is [time.Duration]'s [String], [fmt_s]
    the verb [%s] on decoded JSON.  Whatever the secrets are, the text is the same. *)

From Stdlib Require Import Floats.SpecFloat.
From S2P Require Import Prelude GoStrings GoNumTime Json Domain Config.
From stdpp Require Import options.

(** ** [fmt] *)

(** [fmtFrac]: the fraction of [v / 10^prec] without trailing zeros (and without
    the point when nothing is left), and the integer part. *)
Fixpoint fmtFrac (prec : nat) (v : Z) (print : bool) (acc : string) : string * Z :=
  match prec with
  | O => ((if print then String "." acc else acc), v)
  | S prec' =>
      let digit := (v mod 10)%Z in
      let print := print || negb (digit =? 0)%Z in
      fmtFrac prec' (v / 10)%Z print (if print then Itoa digit +:+ acc else acc)
  end.

Definition Duration_String (d : Z) : string :=
  let u := Z.abs d in
  let sign := if (d <? 0)%Z then "-" else EmptyString in
  if (u =? 0)%Z then "0s"
  else if (u <? 1000000000)%Z then
    let '(prec, unit) :=
      if (u <? 1000)%Z then (0, "ns")
      else if (u <? 1000000)%Z then (3, String "194" (String "181" "s"))
      else (6, "ms") in
    let '(frac, u) := fmtFrac prec u false EmptyString in
    sign +:+ Itoa u +:+ frac +:+ unit
  else
    let '(frac, u) := fmtFrac 9 u false EmptyString in
    let seconds := Itoa (u mod 60) +:+ frac +:+ "s" in
    let u := (u / 60)%Z in
    if (0 <? u)%Z then
      let minutes := Itoa (u mod 60) +:+ "m" +:+ seconds in
      let u := (u / 60)%Z in
      sign +:+ (if (0 <? u)%Z then Itoa u +:+ "h" +:+ minutes else minutes)
    else sign +:+ seconds.

Definition fmt_t (b : bool) : string := if b then "true" else "false".
Definition fmt_strings (l : list string) : string := "[" +:+ Join l " " +:+ "]".

(** [strconv.FormatFloat(f, 'g', -1, 64)]: the shortest digits, in scientific
    notation when the exponent is below -4 or at least 6. *)
Definition layout_g (d k : Z) : string :=
  let ds := Itoa d in
  let n := Z.of_nat (String.length ds) in
  let x := (n + k - 1)%Z in
  if (x <? -4)%Z || (6 <=? x)%Z then
    let '(h, t) := split_at 1 ds in
    h +:+ (match t with EmptyString => EmptyString | _ => String "." t end) +:+
    (if (x <? 0)%Z then "e-" else "e+") +:+ pad 2 (Z.abs x)
  else layout_decimal d k.
Definition fmt_g (f : float64) : string :=
  match f with
  | S754_zero s => if s then "-0" else "0"
  | S754_infinity s => if s then "-Inf" else "+Inf"
  | S754_nan => "NaN"
  | S754_finite s m e =>
      let num := (Z.pos m * 2 ^ Z.max e 0)%Z in
      let den := (2 ^ Z.max (- e) 0)%Z in
      let e10 := floor_log10 800 num den ((Z.log2 (Z.pos m) + e + 3) * 30103 / 100000 + 2) in
      let '(d, k) := shortest_digits 16 1 s f num den e10 in
      let '(d, k) := strip_zeros 20 d k in
      (if s then "-" else "") +:+ layout_g d k
  end.

(** [%s] on an element of a map or slice of decoded JSON. *)
Fixpoint fmt_s (v : value) : string :=
  match v with
  | VNull => "<nil>"
  | VBool b => "%!s(bool=" +:+ fmt_t b +:+ ")"
  | VNumber f => "%!s(float64=" +:+ fmt_g f +:+ ")"
  | VString s => s
  | VArray l => "[" +:+ Join (fmt_s <$> l) " " +:+ "]"
  | VObject m =>
      "map[" +:+ Join ((λ kv : string * string, kv.1 +:+ ":" +:+ kv.2)
                         <$> sort_keys (map_to_list (fmt_s <$> m))) " " +:+ "]"
  end.
Definition fmt_map (m : gmap string value) : string := fmt_s (VObject m).

(** ** [Config.String] *)

Definition config_lines (config : Config) : list (string * string) := [
  ("URL_Path_Prefix", UrlPathPrefix config);
  ("URL_App_Name", UrlAppName config);
  ("URL_Base_Path", UrlBasePath config);
  ("OpenAPI_Spec_File_Path", OpenApiSpecFilePath config);
  ("HTTP_Shutdown_Timeout", Duration_String (HttpShutdownTimeout config));
  ("Enable_Profile", fmt_t (Profile config));
  ("MQTT_Broker_Address", MqttBrokerAddress config);
  ("MQTT_Client_Id", MqttClientId config);
  ("MQTT_Use_Hostname_As_Client_Id", fmt_t (MqttUseHostnameAsClientId config));
  ("MQTT_Clean_Session", fmt_t (MqttCleanSession config));
  ("MQTT_Resume_Subs", fmt_t (MqttResumeSubs config));
  ("MQTT_Broker_Tls_Cert_File", MqttBrokerTlsCertFile config);
  ("MQTT_Broker_Tls_Key_File", MqttBrokerTlsKeyFile config);
  ("MQTT_Broker_Tls_CA_Cert_File", MqttBrokerTlsCACertFile config);
  ("MQTT_Broker_Tls_Skip_Verify", fmt_t (MqttBrokerTlsSkipVerify config));
  ("MQTT_Broker_Auth_Type", MqttBrokerAuthType config);
  ("MQTT_Broker_Username", MqttBrokerUsername config);
  ("MQTT_Broker_JWT_Generator_Impl", MqttBrokerJwtGeneratorImpl config);
  ("MQTT_Broker_JWT_File", MqttBrokerJwtFile config);
  ("MQTT_Topic_Prefix", MqttTopicPrefix config);
  ("MQTT_Control_Subscription_QoS", Itoa (MqttControlSubscriptionQoS config));
  ("MQTT_Control_Publish_QoS", Itoa (MqttControlPublishQoS config));
  ("MQTT_Data_Subscription_QoS", Itoa (MqttDataSubscriptionQoS config));
  ("MQTT_Data_Publish_QoS", Itoa (MqttDataPublishQoS config));
  ("MQTT_Disconnect_Quiesce_Time", Itoa (MqttDisconnectQuiesceTime config));
  ("MQTT_Publish_Timeout", Duration_String (MqttPublishTimeout config));
  ("MQTT_Consumer_Shutdown_Sleep_Time", Duration_String (MqttConsumerShutdownSleepTime config));
  ("Shutdown_On_MQTT_Connection_Lost", fmt_t (ShutdownOnMqttConnectionLost config));
  ("Invalid_Handshake_Reconnect_Delay", Itoa (InvalidHandshakeReconnectDelay config));
  ("Client_Id_To_Account_Id_Impl", ClientIdToAccountIdImpl config);
  ("Client_Id_To_Account_Id_Config_File", ClientIdToAccountIdConfigFile config);
  ("Client_Id_To_Account_Id_Default_Account_Id", ClientIdToAccountIdDefaultAccountId config);
  ("Client_Id_To_Account_Id_Default_Org_Id", ClientIdToAccountIdDefaultOrgId config);
  ("Client_Id_To_Account_Id_Cache_Size", Itoa (ClientIdToAccountIdCacheSize config));
  ("Client_Id_To_Account_Id_Cache_Valid_Response_TTL", Duration_String (ClientIdToAccountIdCacheValidRespTTL config));
  ("Client_Id_To_Account_Id_Cache_Error_Response_TTL", Duration_String (ClientIdToAccountIdCacheErrorRespTTL config));
  ("Connection_Database_Impl", ConnectionDatabaseImpl config);
  ("Connection_Database_Host", ConnectionDatabaseHost config);
  ("Connection_Database_Port", Itoa (ConnectionDatabasePort config));
  ("Connection_Database_User", ConnectionDatabaseUser config);
  ("Connection_Database_Name", ConnectionDatabaseName config);
  ("Connection_Database_SSL_Mode", ConnectionDatabaseSslMode config);
  ("Connection_Database_SSL_Root_Cert", ConnectionDatabaseSslRootCert config);
  ("Connection_Database_Query_Timeout", Duration_String (ConnectionDatabaseQueryTimeout config));
  ("Connected_Client_Recorder_Impl", ConnectedClientRecorderImpl config);
  ("Kafka_CA", KafkaCA config);
  ("Kafka_SASL_Mechanism", KafkaSASLMechanism config);
  ("Inventory_Kafka_Brokers", fmt_strings (InventoryKafkaBrokers config));
  ("Inventory_Kafka_Topic", InventoryKafkaTopic config);
  ("Inventory_Kafka_Batch_Size", Itoa (InventoryKafkaBatchSize config));
  ("Inventory_Kafka_Batch_Bytes", Itoa (InventoryKafkaBatchBytes config));
  ("Inventory_Stale_Timestamp_Offset", Duration_String (InventoryStaleTimestampOffset config));
  ("Inventory_Stale_Timestamp_Updater_Chunk_Size", Itoa (InventoryStaleTimestampUpdaterChunkSize config));
  ("Inventory_Reporter_Name", InventoryReporterName config);
  ("Sources_Recorder_Impl", SourcesRecorderImpl config);
  ("Sources_Base_Url", SourcesBaseUrl config);
  ("Sources_HTTP_Client_Timeout", Duration_String (SourcesHttpClientTimeout config));
  ("JWT_Token_Expiry_Minutes", Itoa (JwtTokenExpiry config));
  ("JWT_Private_Key_File", JwtPrivateKeyFile config);
  ("JWT_Public_Key_File", JwtPublicKeyFile config);
  ("Auth_Gateway_Url", AuthGatewayUrl config);
  ("Auth_Gateway_HTTP_Client_Timeout", Duration_String (AuthGatewayHttpClientTimeout config));
  ("RHC_Message_Kafka_Brokers", fmt_strings (RhcMessageKafkaBrokers config));
  ("RHC_Message_Kafka_Topic", RhcMessageKafkaTopic config);
  ("RHC_Message_Kafka_Batch_Size", Itoa (RhcMessageKafkaBatchSize config));
  ("RHC_Message_Kafka_Batch_Bytes", Itoa (RhcMessageKafkaBatchBytes config));
  ("RHC_Message_Kafka_Consumer_Group", RhcMessageKafkaConsumerGroup config);
  ("API_Server_Connection_Lookup_Impl", ApiServerConnectionLookupImpl config);
  ("Tenant_Translator_Impl", TenantTranslatorImpl config);
  ("Tenant_Translator_Mock_Mapping", fmt_map (TenantTranslatorMockMapping config));
  ("Tenant_Translator_URL", TenantTranslatorURL config);
  ("Tenant_Translator_Timeout", Duration_String (TenantTranslatorTimeout config));
  ("Prometheus_Push_Gateway", PrometheusPushGateway config);
  ("Purge_Connection_On_Failed_Tenant_Lookup_Count", Itoa (PurgeConnectionOnFailedTenantLookupCount config));
  ("Tenantless_Connection_Timestamp_Offset", Duration_String (TenantlessConnectionTimestampOffset config));
  ("Tenantless_Connection_Updater_Chunk_Size", Itoa (TenantlessConnectionUpdaterChunkSize config));
  ("Tenantless_Connection_Max_Lookup_Failures", Itoa (TenantlessConnectionMaxLookupFailures config))
].

Definition newline : string := str1 "010".
Definition Config_String (config : Config) : string :=
  foldr (λ (kv : string * string) rest, kv.1 +:+ ": " +:+ kv.2 +:+ newline +:+ rest)
    EmptyString (config_lines config).

(** ** What the log does not show *)

(** The options whose values are secrets.  (The broker's Kafka user name is kept
    out of the log as well.) *)
Definition secret_options : list string := [
  "Service_To_Service_Credentials"; "MQTT_Broker_Password"; "Kafka_Username"; "Kafka_Password";
  "Connection_Database_Password"; "Pendo_Integration_Key"].

Definition public (k : string) : bool := negb (existsb (String.eqb k) secret_options).

Definition without_secrets (config : Config) : Config := {|
  UrlAppName := UrlAppName config;
  UrlPathPrefix := UrlPathPrefix config;
  UrlBasePath := UrlBasePath config;
  OpenApiSpecFilePath := OpenApiSpecFilePath config;
  HttpShutdownTimeout := HttpShutdownTimeout config;
  ServiceToServiceCredentials := ∅;
  Profile := Profile config;
  MqttBrokerAddress := MqttBrokerAddress config;
  MqttClientId := MqttClientId config;
  MqttUseHostnameAsClientId := MqttUseHostnameAsClientId config;
  MqttCleanSession := MqttCleanSession config;
  MqttResumeSubs := MqttResumeSubs config;
  MqttBrokerTlsCertFile := MqttBrokerTlsCertFile config;
  MqttBrokerTlsKeyFile := MqttBrokerTlsKeyFile config;
  MqttBrokerTlsCACertFile := MqttBrokerTlsCACertFile config;
  MqttBrokerTlsSkipVerify := MqttBrokerTlsSkipVerify config;
  MqttBrokerAuthType := MqttBrokerAuthType config;
  MqttBrokerUsername := MqttBrokerUsername config;
  MqttBrokerPassword := EmptyString;
  MqttBrokerJwtGeneratorImpl := MqttBrokerJwtGeneratorImpl config;
  MqttBrokerJwtFile := MqttBrokerJwtFile config;
  MqttTopicPrefix := MqttTopicPrefix config;
  MqttControlSubscriptionQoS := MqttControlSubscriptionQoS config;
  MqttControlPublishQoS := MqttControlPublishQoS config;
  MqttDataSubscriptionQoS := MqttDataSubscriptionQoS config;
  MqttDataPublishQoS := MqttDataPublishQoS config;
  MqttDisconnectQuiesceTime := MqttDisconnectQuiesceTime config;
  MqttPublishTimeout := MqttPublishTimeout config;
  MqttConsumerShutdownSleepTime := MqttConsumerShutdownSleepTime config;
  ShutdownOnMqttConnectionLost := ShutdownOnMqttConnectionLost config;
  InvalidHandshakeReconnectDelay := InvalidHandshakeReconnectDelay config;
  KafkaBrokers := KafkaBrokers config;
  KafkaCA := KafkaCA config;
  KafkaUsername := EmptyString;
  KafkaPassword := EmptyString;
  KafkaSASLMechanism := KafkaSASLMechanism config;
  ClientIdToAccountIdImpl := ClientIdToAccountIdImpl config;
  ClientIdToAccountIdConfigFile := ClientIdToAccountIdConfigFile config;
  ClientIdToAccountIdDefaultAccountId := ClientIdToAccountIdDefaultAccountId config;
  ClientIdToAccountIdDefaultOrgId := ClientIdToAccountIdDefaultOrgId config;
  ClientIdToAccountIdCacheSize := ClientIdToAccountIdCacheSize config;
  ClientIdToAccountIdCacheValidRespTTL := ClientIdToAccountIdCacheValidRespTTL config;
  ClientIdToAccountIdCacheErrorRespTTL := ClientIdToAccountIdCacheErrorRespTTL config;
  ConnectionDatabaseImpl := ConnectionDatabaseImpl config;
  ConnectionDatabaseHost := ConnectionDatabaseHost config;
  ConnectionDatabasePort := ConnectionDatabasePort config;
  ConnectionDatabaseUser := ConnectionDatabaseUser config;
  ConnectionDatabasePassword := EmptyString;
  ConnectionDatabaseName := ConnectionDatabaseName config;
  ConnectionDatabaseSslMode := ConnectionDatabaseSslMode config;
  ConnectionDatabaseSslRootCert := ConnectionDatabaseSslRootCert config;
  ConnectionDatabaseQueryTimeout := ConnectionDatabaseQueryTimeout config;
  AuthGatewayUrl := AuthGatewayUrl config;
  AuthGatewayHttpClientTimeout := AuthGatewayHttpClientTimeout config;
  ConnectedClientRecorderImpl := ConnectedClientRecorderImpl config;
  InventoryKafkaBrokers := InventoryKafkaBrokers config;
  InventoryKafkaTopic := InventoryKafkaTopic config;
  InventoryKafkaBatchSize := InventoryKafkaBatchSize config;
  InventoryKafkaBatchBytes := InventoryKafkaBatchBytes config;
  InventoryStaleTimestampOffset := InventoryStaleTimestampOffset config;
  InventoryStaleTimestampUpdaterChunkSize := InventoryStaleTimestampUpdaterChunkSize config;
  InventoryReporterName := InventoryReporterName config;
  SourcesRecorderImpl := SourcesRecorderImpl config;
  SourcesBaseUrl := SourcesBaseUrl config;
  SourcesHttpClientTimeout := SourcesHttpClientTimeout config;
  JwtTokenExpiry := JwtTokenExpiry config;
  JwtPrivateKeyFile := JwtPrivateKeyFile config;
  JwtPublicKeyFile := JwtPublicKeyFile config;
  RhcMessageKafkaBrokers := RhcMessageKafkaBrokers config;
  RhcMessageKafkaTopic := RhcMessageKafkaTopic config;
  RhcMessageKafkaBatchSize := RhcMessageKafkaBatchSize config;
  RhcMessageKafkaBatchBytes := RhcMessageKafkaBatchBytes config;
  RhcMessageKafkaConsumerGroup := RhcMessageKafkaConsumerGroup config;
  PendoApiEndpoint := PendoApiEndpoint config;
  PendoRequestTimeout := PendoRequestTimeout config;
  PendoIntegrationKey := EmptyString;
  PendoRequestSize := PendoRequestSize config;
  PrometheusPushGateway := PrometheusPushGateway config;
  ApiServerConnectionLookupImpl := ApiServerConnectionLookupImpl config;
  TenantTranslatorImpl := TenantTranslatorImpl config;
  TenantTranslatorMockMapping := TenantTranslatorMockMapping config;
  TenantTranslatorURL := TenantTranslatorURL config;
  TenantTranslatorTimeout := TenantTranslatorTimeout config;
  PurgeConnectionOnFailedTenantLookupCount := PurgeConnectionOnFailedTenantLookupCount config;
  TenantlessConnectionTimestampOffset := TenantlessConnectionTimestampOffset config;
  TenantlessConnectionUpdaterChunkSize := TenantlessConnectionUpdaterChunkSize config;
  TenantlessConnectionMaxLookupFailures := TenantlessConnectionMaxLookupFailures config |}.

(** The text is made of the rest. *)
Lemma log_without_secrets config : Config_String config = Config_String (without_secrets config).
Proof. reflexivity. Qed.

(** Two readings of the options that differ in secrets only. *)
Definition same_but_secrets {V V'} `{!Viper V, !Viper V'} (o : V) (o' : V') : Prop :=
  ∀ k, public k = true →
    vGetString o k = vGetString o' k ∧ vGetInt o k = vGetInt o' k ∧ vGetUint o k = vGetUint o' k ∧
    vGetBool o k = vGetBool o' k ∧ vGetDuration o k = vGetDuration o' k ∧
    vGetStringSlice o k = vGetStringSlice o' k ∧ vGetStringMap o k = vGetStringMap o' k.

(** Whether a secret is there is no secret. *)
Definition sasl_without_password (s : KafkaSASLConfig) : KafkaSASLConfig := {|
  SaslUsername := (λ _, EmptyString) <$> SaslUsername s; SaslPassword := (λ _, EmptyString) <$> SaslPassword s;
  SaslMechanism := SaslMechanism s |}.
Definition without_password (b : BrokerConfig) : BrokerConfig := {|
  Authtype := Authtype b; Sasl := sasl_without_password <$> Sasl b; Cacert := Cacert b |}.
Definition db_without_password (db : DatabaseConfig) : DatabaseConfig := {|
  dbHostname := dbHostname db; dbPort := dbPort db; dbName := dbName db; dbUsername := dbUsername db;
  dbPassword := EmptyString; dbSslMode := dbSslMode db; dbRdsCa := dbRdsCa db |}.

(** Two Clowder configurations that differ in secrets only. *)
Record same_platform (c c' : Clowder) : Prop := {
  sp_kafka : option_map (option_map (map without_password)) (clKafka c)
             = option_map (option_map (map without_password)) (clKafka c');
  sp_servers : clKafkaServers c = clKafkaServers c';
  sp_topics t : clKafkaTopicName c t = clKafkaTopicName c' t;
  sp_ca b b' : without_password b = without_password b' → clKafkaCa c b = clKafkaCa c' b';
  sp_database : option_map db_without_password (clDatabase c) = option_map db_without_password (clDatabase c');
  sp_rdsca : clRdsCa c = clRdsCa c';
}.

Inductive same_loaded : option Clowder → option Clowder → Prop :=
| same_plain : same_loaded None None
| same_clowder c c' : same_platform c c' → same_loaded (Some c) (Some c').

Definition log_of (r : outcome Config) : outcome string :=
  match r with
  | Ret config => Ret (Config_String config)
  | Panic why => Panic why
  | Exit why => Exit why
  end.

Section hiding.
Context {V V' : Type} `{!Viper V, !Viper V'}.

(** What the text is made of, of two readings that agree on it. *)
Lemma readings_agree (o : V) (o' : V') :
  same_but_secrets o o' →
  without_secrets (config_of_options o) = without_secrets (config_of_options o').
Proof.
  intros H. unfold without_secrets, config_of_options. cbn -[wrap64].
  assert (Hs := λ k (Hk : public k = true), proj1 (H k Hk)).
  assert (Hi := λ k (Hk : public k = true), proj1 (proj2 (H k Hk))).
  assert (Hu := λ k (Hk : public k = true), proj1 (proj2 (proj2 (H k Hk)))).
  assert (Hb := λ k (Hk : public k = true), proj1 (proj2 (proj2 (proj2 (H k Hk))))).
  assert (Hd := λ k (Hk : public k = true), proj1 (proj2 (proj2 (proj2 (proj2 (H k Hk)))))).
  assert (Hl := λ k (Hk : public k = true), proj1 (proj2 (proj2 (proj2 (proj2 (proj2 (H k Hk))))))).
  assert (Hm := λ k (Hk : public k = true), proj2 (proj2 (proj2 (proj2 (proj2 (proj2 (H k Hk))))))).
  f_equal; first [reflexivity | rewrite Hs by reflexivity | rewrite Hi by reflexivity | rewrite Hu by reflexivity
    | rewrite Hb by reflexivity | rewrite Hd by reflexivity | rewrite Hl by reflexivity | rewrite Hm by reflexivity];
    rewrite ?Hs by reflexivity; reflexivity.
Qed.

(** Two outcomes that return related values, or panic alike. *)
Definition alike {A B} (R : A → B → Prop) (o : outcome A) (o' : outcome B) : Prop :=
  match o, o' with
  | Ret a, Ret b => R a b
  | Panic why, Panic why' | Exit why, Exit why' => why = why'
  | _, _ => False
  end.

Lemma and_next_alike {A B C D} (R : A → B → Prop) (Q : C → D → Prop) o o' k k' :
  alike R o o' → (∀ a b, R a b → alike Q (k a) (k' b)) → alike Q (and_next o k) (and_next o' k').
Proof. intros Ho Hk. destruct o, o'; try done. by apply Hk. Qed.

Lemma alike_refl {A} (o : outcome A) : alike eq o o.
Proof. by destruct o. Qed.

Lemma deref_alike {A B} (f : A → B) (p p' : option A) :
  option_map f p = option_map f p' → alike (λ a b, f a = f b) (deref p) (deref p').
Proof. destruct p, p'; cbn; congruence. Qed.

Lemma broker_agrees c c' :
  same_platform c c' → alike (λ b b', without_password b = without_password b') (broker_of c) (broker_of c').
Proof.
  intros Hs. eapply and_next_alike; [exact (deref_alike (option_map (map without_password)) _ _ (sp_kafka _ _ Hs))|].
  intros [[|b l]|] [[|b' l']|]; cbn -[without_password]; intros; congruence.
Qed.

Lemma sasl_agrees b b' config config' :
  without_password b = without_password b' → without_secrets config = without_secrets config' →
  alike (λ x x', x.2 = x'.2) (sasl_of b config) (sasl_of b' config').
Proof.
  intros Hb Hc. injection Hb as Ha Hs _. unfold sasl_of. rewrite Ha. destruct (Authtype b').
  - eapply and_next_alike; [exact (deref_alike sasl_without_password _ _ Hs)|]. intros s0 s0' [= Hu Hp Hm].
    eapply and_next_alike; [exact (deref_alike (λ _, EmptyString) _ _ Hu)|]. intros u u' _.
    eapply and_next_alike; [exact (deref_alike (λ _, EmptyString) _ _ Hp)|]. intros p p' _.
    rewrite Hm. eapply and_next_alike; [apply alike_refl|]. by intros m m' ->.
  - exact (f_equal KafkaSASLMechanism Hc).
Qed.

Lemma overrides_agree c c' db db' u p m u' p' ca root config config' :
  same_platform c c' → db_without_password db = db_without_password db' →
  without_secrets config = without_secrets config' →
  without_secrets (override_config c db u p m ca root config)
  = without_secrets (override_config c' db' u' p' m ca root config').
Proof.
  intros Hs Hdb Hl.
  change (without_secrets (override_config c (db_without_password db) EmptyString EmptyString m ca root (without_secrets config))
    = without_secrets (override_config c' (db_without_password db') EmptyString EmptyString m ca root (without_secrets config'))).
  rewrite Hl, Hdb. unfold override_config. by rewrite (sp_servers _ _ Hs), !(sp_topics _ _ Hs).
Qed.
End hiding.

(** C28: The configuration a process logs when it starts does not depend on the
    secrets: two environments, on a Clowder platform or not, that differ only in
    passwords, the shared keys of other services and the Pendo key (and the name
    of the Kafka user) lead to the same text, or to the same panic. *)
Theorem startup_log_hides_secrets {V V'} `{!Viper V, !Viper V'} loaded loaded' :
  same_but_secrets (set_defaults : V) (set_defaults : V') → same_loaded loaded loaded' →
  log_of (GetConfig (V := V) loaded) = log_of (GetConfig (V := V') loaded').
Proof.
  intros Ho Hl. pose proof (readings_agree _ _ Ho) as Hr.
  set (r := config_of_options (set_defaults : V)) in *. set (r' := config_of_options (set_defaults : V')) in *.
  assert (Hlog : ∀ a a', without_secrets a = without_secrets a' → Config_String a = Config_String a').
  { intros a a' Ha. by rewrite (log_without_secrets a), Ha. }
  assert (Hout : alike (λ a a', without_secrets a = without_secrets a')
    (GetConfig (V := V) loaded) (GetConfig (V := V') loaded')).
  2:{ revert Hout. unfold log_of. destruct (GetConfig loaded), (GetConfig loaded'); cbn; try done; try congruence.
      intros Hs. f_equal. by apply Hlog. }
  unfold GetConfig. fold r r'. destruct Hl as [|c c' Hs]; [exact Hr|].
  eapply and_next_alike; [by apply broker_agrees|]. intros b b' Hb.
  eapply and_next_alike; [by apply sasl_agrees|]. intros [[u p] m] [[u' p'] m'] Hm. cbn [snd] in Hm. subst m'.
  eapply (and_next_alike eq).
  { unfold ca_of. rewrite (sp_ca _ _ Hs b b' Hb), (f_equal KafkaCA Hr : KafkaCA r = KafkaCA r').
    injection Hb as _ _ ->. apply alike_refl. }
  intros ca ca' <-. eapply and_next_alike; [exact (deref_alike db_without_password _ _ (sp_database _ _ Hs))|]. intros db db' Hdb.
  eapply (and_next_alike eq).
  { unfold root_of. rewrite (sp_rdsca _ _ Hs), (f_equal dbRdsCa Hdb : dbRdsCa db = dbRdsCa db'),
      (f_equal ConnectionDatabaseSslRootCert Hr : ConnectionDatabaseSslRootCert r = ConnectionDatabaseSslRootCert r').
    apply alike_refl. }
  intros root root' <-. by apply overrides_agree.
Qed.

Example durations :
  Duration_String <$> [0; 2000000000; 10000000000; 600000000000; 93600000000000; 1500000; 1100; 12; -90000000000; 1234567890]%Z
  = ["0s"; "2s"; "10s"; "10m0s"; "26h0m0s"; "1.5ms"; "1.1" +:+ String "194" (String "181" "s"); "12ns"; "-1m30s"; "1.23456789s"].
Proof. vm_compute. reflexivity. Qed.

(** ** Witness: an environment with another database password *)

Definition other_viper : Viper (list (string * optval)) := {|
  New := []; SetDefault := SetDefault (Viper := alist_viper); SetEnvPrefix v _ := v; AutomaticEnv v := v;
  vGetString v k := if bool_decide (k = "MQTT_Broker_Password") then "hunter2" else vGetString (Viper := alist_viper) v k;
  vGetInt := vGetInt (Viper := alist_viper); vGetUint := vGetUint (Viper := alist_viper);
  vGetBool := vGetBool (Viper := alist_viper); vGetDuration := vGetDuration (Viper := alist_viper);
  vGetStringSlice := vGetStringSlice (Viper := alist_viper); vGetStringMap := vGetStringMap (Viper := alist_viper) |}.

Definition test_clowder (password : string) : Clowder := {|
  clKafka := Some (Some [{| Authtype := Some "sasl"; Cacert := None;
    Sasl := Some {| SaslUsername := Some "u"; SaslPassword := Some password; SaslMechanism := Some "SCRAM-SHA-512" |} |}]);
  clKafkaServers := ["k1:9092"; "k2:9092"]; clKafkaTopicName t := t; clKafkaCa _ := inl EmptyString;
  clDatabase := Some {| dbHostname := "db"; dbPort := 5432%Z; dbName := "cc"; dbUsername := "cc";
    dbPassword := password; dbSslMode := "require"; dbRdsCa := None |};
  clRdsCa := inl EmptyString |}.

Definition passwords (r : outcome Config) : list string :=
  match r with
  | Ret c => [MqttBrokerPassword c; KafkaPassword c; ConnectionDatabasePassword c]
  | _ => []
  end.

Lemma startup_log_hides_secrets_witness :
  let r := GetConfig (Viper0 := alist_viper) (Some (test_clowder "one")) in
  let r' := GetConfig (Viper0 := other_viper) (Some (test_clowder "two")) in
  passwords r = [EmptyString; "one"; "one"] ∧ passwords r' = ["hunter2"; "two"; "two"] ∧ log_of r = log_of r'.
Proof.
  intros r r'. split; [vm_compute; reflexivity|]. split; [vm_compute; reflexivity|].
  apply (startup_log_hides_secrets (Viper0 := alist_viper) (Viper1 := other_viper)).
  - intros k Hk. split; [|split_and!; reflexivity].
    change (vGetString (Viper := other_viper) (set_defaults (Viper0 := other_viper)) k) with
      (if bool_decide (k = "MQTT_Broker_Password") then "hunter2"
       else vGetString (Viper := alist_viper) (set_defaults (Viper0 := alist_viper)) k).
    rewrite bool_decide_eq_false_2; [reflexivity|]. intros ->. vm_compute in Hk. discriminate.
  - constructor. split; try reflexivity.
Defined.
