(* ===== verification/Topic.v ===== *)
(** * MQTT topics ([internal/mqtt/topic.go])

    [TopicVerifier] recognises the topics clients publish on and extracts the
    client id; [TopicBuilder] builds the topics the server publishes on and
    the wildcard topics it subscribes to. *)

From S2P Require Import Prelude GoStrings GoNumTime Json Domain.
From stdpp Require Import options.

Definition defaultTopicPrefix : string := "redhat".
Definition controlMessageIncomingTopic : string := "insights/+/control/out".
Definition controlMessageOutgoingTopic : string := "insights/%s/control/in".
Definition dataMessageIncomingTopic : string := "insights/+/data/out".
Definition dataMessageOutgoingTopic : string := "insights/%s/data/in".

Inductive TopicType := ControlTopicType | DataTopicType.

#[export] Instance TopicType_eq_dec : EqDecision TopicType.
Proof. solve_decision. Defined.

Record TopicVerifier := { tvPrefix : string }.
Record TopicBuilder := { tbPrefix : string }.

Definition NewTopicVerifier (prefix : string) : TopicVerifier :=
  {| tvPrefix := if bool_decide (prefix ≠ EmptyString) then prefix else defaultTopicPrefix |}.

Definition NewTopicBuilder (prefix : string) : TopicBuilder :=
  {| tbPrefix := if bool_decide (prefix ≠ EmptyString) then prefix else defaultTopicPrefix |}.

Definition VerifyIncomingTopic (tv : TopicVerifier) (topic : string)
    : TopicType * ClientID * option error :=
  match Split topic "/" with
  | [i0; i1; i2; i3; i4] =>
      if bool_decide (i0 ≠ tvPrefix tv) || bool_decide (i1 ≠ "insights")
         || bool_decide (i4 ≠ "out")
      then (ControlTopicType, EmptyString,
            Some (ErrText ("MQTT topic needs to be " +:+ tvPrefix tv
                           +:+ "/insights/<clientID>/<type>/out")))
      else if bool_decide (i3 = "control") then (ControlTopicType, i2, None)
      else if bool_decide (i3 = "data") then (DataTopicType, i2, None)
      else (ControlTopicType, EmptyString, Some (ErrText "Invalid topic type"))
  | _ => (ControlTopicType, EmptyString,
          Some (ErrText ("MQTT topic requires 4 sections: " +:+ tvPrefix tv
                         +:+ ", insights, <clientID>, <type>, in " +:+ topic)))
  end.

(** [None]: the configured prefix has a formatting directive other than [%s]. *)
Definition BuildOutgoingDataTopic (tb : TopicBuilder) (clientID : ClientID) : option string :=
  Sprintf_s (tbPrefix tb +:+ "/" +:+ dataMessageOutgoingTopic) clientID.

Definition BuildOutgoingControlTopic (tb : TopicBuilder) (clientID : ClientID) : option string :=
  Sprintf_s (tbPrefix tb +:+ "/" +:+ controlMessageOutgoingTopic) clientID.

Definition BuildIncomingWildcardDataTopic (tb : TopicBuilder) : string :=
  tbPrefix tb +:+ "/" +:+ dataMessageIncomingTopic.

Definition BuildIncomingWildcardControlTopic (tb : TopicBuilder) : string :=
  tbPrefix tb +:+ "/" +:+ controlMessageIncomingTopic.

(** ** Specification *)

Definition type_name (ty : TopicType) : string :=
  match ty with ControlTopicType => "control" | DataTopicType => "data" end.

(** The topic a client publishes on, as the README gives it. *)
Definition client_out_topic (prefix : string) (ty : TopicType) (cid : ClientID) : string :=
  Join [prefix; "insights"; cid; type_name ty; "out"] "/".

(** MQTT's matching of a topic against a filter: [+] matches one level. *)
Definition topic_matches (filter topic : string) : bool :=
  let f := Split filter "/" in
  let t := Split topic "/" in
  bool_decide (length f = length t) &&
  forallb (λ p : string * string, bool_decide (p.1 = "+") || bool_decide (p.1 = p.2)) (zip f t).

(** ** Lemmas *)

Lemma Split_parts_no_sep s sep : Forall (λ x, string_mem sep x = false) (Split s sep).
Proof.
  induction s as [|a s IH]; [by constructor|]. simpl.
  destruct (char_eqb a sep) eqn:Ha; [by constructor|].
  destruct (Split s sep) as [|h t] eqn:Hs; [by apply Split_ne in Hs|].
  inversion IH; subst. constructor; [|done]. simpl. by rewrite Ha.
Qed.

(** A string splits into [l] exactly when it is [l] joined, for parts free of
    the separator. *)
Lemma Split_eq_iff s sep l :
  l ≠ [] → Split s sep = l ↔
    Forall (λ x, string_mem sep x = false) l ∧ s = Join l (str1 sep).
Proof.
  intros Hl. split.
  - intros <-. split; [apply Split_parts_no_sep|by rewrite Join_Split].
  - intros [Hf ->]. by apply Split_Join.
Qed.

Lemma type_name_no_slash ty : string_mem "/" (type_name ty) = false.
Proof. by destruct ty. Qed.

Lemma client_out_topic_split prefix ty cid :
  string_mem "/" prefix = false → string_mem "/" cid = false →
  Split (client_out_topic prefix ty cid) "/" = [prefix; "insights"; cid; type_name ty; "out"].
Proof.
  intros. apply (Split_Join _ "/"); [done|].
  repeat constructor; auto using type_name_no_slash.
Qed.

Lemma verify_spec tv topic ty cid :
  VerifyIncomingTopic tv topic = (ty, cid, None) ↔
  Split topic "/" = [tvPrefix tv; "insights"; cid; type_name ty; "out"].
Proof.
  unfold VerifyIncomingTopic. split.
  - destruct (Split topic "/") as [|i0 [|i1 [|i2 [|i3 [|i4 [|]]]]]]; try done.
    repeat case_bool_decide; simpl; try done; intros; simplify_eq; done.
  - intros ->. rewrite !bool_decide_eq_false_2 by tauto. simpl. by destruct ty.
Qed.

Lemma outgoing_topic_eq tb ty cid :
  string_mem "%" (tbPrefix tb) = false →
  match ty with
  | ControlTopicType => BuildOutgoingControlTopic tb cid
  | DataTopicType => BuildOutgoingDataTopic tb cid
  end = Some (Join [tbPrefix tb; "insights"; cid; type_name ty; "in"] "/").
Proof.
  intros Hp. unfold BuildOutgoingControlTopic, BuildOutgoingDataTopic, Sprintf_s.
  destruct ty; rewrite sprintf_go_plain by done; cbn -[String.append];
    repeat rewrite ?string_app_cons, ?string_app_nil_l; done.
Qed.

Lemma string_app_inj_l s1 s2 s3 : s1 +:+ s2 = s1 +:+ s3 → s2 = s3.
Proof. apply (inj _). Qed.

(** ** Properties *)

(** C15: The verifier accepts a topic exactly when a client with this id, free
    of slashes, publishes on it: it is [prefix/insights/<id>/<type>/out], it
    yields this id and type, and a prefix containing a slash accepts nothing. *)
Theorem VerifyIncomingTopic_correct tv topic ty cid :
  VerifyIncomingTopic tv topic = (ty, cid, None) ↔
  string_mem "/" (tvPrefix tv) = false ∧ string_mem "/" cid = false ∧
  topic = client_out_topic (tvPrefix tv) ty cid.
Proof.
  rewrite verify_spec, Split_eq_iff by done. unfold client_out_topic.
  rewrite !Forall_cons. pose proof (type_name_no_slash ty). split; [naive_solver|].
  intros (?&?&->). repeat split; done.
Qed.

(** The topics the server publishes on: for a prefix without formatting
    directives and slash-free client ids they are [prefix/insights/<id>/<type>/in],
    two of them are equal only for the same client and type (no crosstalk), and
    the server's verifier rejects every one of them. *)
Theorem outgoing_topics_separate tb tv ty1 ty2 cid1 cid2 t1 t2 :
  let build ty := match ty with
                  | ControlTopicType => BuildOutgoingControlTopic tb
                  | DataTopicType => BuildOutgoingDataTopic tb
                  end in
  string_mem "%" (tbPrefix tb) = false → string_mem "/" (tbPrefix tb) = false →
  string_mem "/" cid1 = false → string_mem "/" cid2 = false →
  build ty1 cid1 = Some t1 → build ty2 cid2 = Some t2 →
  (t1 = t2 → ty1 = ty2 ∧ cid1 = cid2) ∧ (VerifyIncomingTopic tv t1).2 ≠ None.
Proof.
  cbv zeta. intros Hp Hs H1 H2 E1 E2.
  pose proof (outgoing_topic_eq tb ty1 cid1 Hp) as O1.
  pose proof (outgoing_topic_eq tb ty2 cid2 Hp) as O2.
  assert (t1 = Join [tbPrefix tb; "insights"; cid1; type_name ty1; "in"] "/") as ->
    by (destruct ty1; congruence).
  assert (t2 = Join [tbPrefix tb; "insights"; cid2; type_name ty2; "in"] "/") as ->
    by (destruct ty2; congruence).
  assert (∀ ty cid, string_mem "/" cid = false →
    Split (Join [tbPrefix tb; "insights"; cid; type_name ty; "in"] "/") "/"
    = [tbPrefix tb; "insights"; cid; type_name ty; "in"]) as Hsp.
  { intros. apply (Split_Join _ "/"); [done|].
    repeat constructor; auto using type_name_no_slash. }
  split.
  - intros Heq%(f_equal (λ s, Split s "/")). rewrite !Hsp in Heq by done.
    destruct ty1, ty2; naive_solver.
  - intros Hv. destruct (VerifyIncomingTopic tv _) as [[ty cid] e] eqn:Hver.
    simpl in Hv. subst e. apply verify_spec in Hver. rewrite Hsp in Hver by done. naive_solver.
Qed.

Lemma outgoing_topics_separate_witness :
  BuildOutgoingControlTopic (NewTopicBuilder EmptyString) "c1" = Some "redhat/insights/c1/control/in" ∧
  ("redhat/insights/c1/control/in" = "redhat/insights/c2/data/in" →
     ControlTopicType = DataTopicType ∧ "c1" = "c2") ∧
  (VerifyIncomingTopic (NewTopicVerifier EmptyString) "redhat/insights/c1/control/in").2 ≠ None.
Proof.
  split; [reflexivity|].
  apply (outgoing_topics_separate (NewTopicBuilder EmptyString) (NewTopicVerifier EmptyString)
           ControlTopicType DataTopicType); reflexivity.
Defined.

(** A wildcard subscription matches the topics the verifier gives its type. *)
Lemma wildcard_matches prefix ty topic :
  string_mem "/" (tbPrefix (NewTopicBuilder prefix)) = false →
  tbPrefix (NewTopicBuilder prefix) ≠ "+" →
  topic_matches (match ty with
                 | ControlTopicType => BuildIncomingWildcardControlTopic (NewTopicBuilder prefix)
                 | DataTopicType => BuildIncomingWildcardDataTopic (NewTopicBuilder prefix)
                 end) topic = true ↔
  ∃ cid, VerifyIncomingTopic (NewTopicVerifier prefix) topic = (ty, cid, None).
Proof.
  intros Hs Hplus. set (p := tbPrefix (NewTopicBuilder prefix)) in *.
  setoid_rewrite verify_spec. change (tvPrefix (NewTopicVerifier prefix)) with p.
  assert (Split (match ty with
      | ControlTopicType => BuildIncomingWildcardControlTopic (NewTopicBuilder prefix)
      | DataTopicType => BuildIncomingWildcardDataTopic (NewTopicBuilder prefix)
      end) "/" = [p; "insights"; "+"; type_name ty; "out"]) as Hf.
  { transitivity (Split (Join [p; "insights"; "+"; type_name ty; "out"] "/") "/").
    - by destruct ty.
    - apply (Split_Join _ "/"); [done|]. repeat constructor; auto using type_name_no_slash. }
  unfold topic_matches. rewrite Hf, andb_true_iff, bool_decide_eq_true. split.
  - destruct (Split topic "/") as [|i0 [|i1 [|i2 [|i3 [|i4 [|]]]]]]; try (by intros [? ?]).
    intros [_ Hall]. cbn [zip zip_with forallb fst snd] in Hall.
    rewrite !andb_true_iff, !orb_true_iff, !bool_decide_eq_true in Hall.
    destruct Hall as ([|<-] & [|<-] & _ & [Hty|<-] & [|<-] & _); try done.
    + by destruct ty.
    + by exists i2.
  - intros [cid ->]. split; [done|]. cbn [zip zip_with forallb fst snd].
    repeat case_bool_decide; done.
Qed.

(** C16: The two wildcard subscriptions cover exactly the topics the verifier
    accepts: for a slash-free prefix other than [+], a topic matches the
    control (data) filter if and only if it verifies as a control (data)
    topic of some client. *)
Theorem wildcards_match_verifier prefix ty topic :
  string_mem "/" (tbPrefix (NewTopicBuilder prefix)) = false →
  tbPrefix (NewTopicBuilder prefix) ≠ "+" →
  topic_matches (match ty with
                 | ControlTopicType => BuildIncomingWildcardControlTopic (NewTopicBuilder prefix)
                 | DataTopicType => BuildIncomingWildcardDataTopic (NewTopicBuilder prefix)
                 end) topic = true ↔
  ∃ cid, VerifyIncomingTopic (NewTopicVerifier prefix) topic = (ty, cid, None).
Proof. apply wildcard_matches. Qed.

Lemma wildcards_match_verifier_witness :
  ∃ cid, VerifyIncomingTopic (NewTopicVerifier "redhat") "redhat/insights/client-a/control/out"
         = (ControlTopicType, cid, None).
Proof.
  apply (wildcards_match_verifier "redhat" ControlTopicType "redhat/insights/client-a/control/out").
  - vm_compute. reflexivity.
  - vm_compute. discriminate.
  - vm_compute. reflexivity.
Defined.
