(* ===== verification/Protocol.v ===== *)
(** * The client protocol ([internal/cloud_connector/protocol])

    Message types, their JSON forms, and the construction of the messages the
    server sends.  The uuid library and the clock are the parameters [UUID] and
    [Clock]. *)

From S2P Require Import Prelude GoStrings GoNumTime Json Domain.
From stdpp Require Import options.

(** ** Services *)

(** [uuid.NewRandom()], in text form. *)
Class UUID (W : Type) := { NewRandom : M W (string + error) }.
#[global] Hint Mode UUID + : typeclass_instances.

(** [time.Now()] *)
Class Clock (W : Type) := { Now : M W time }.
#[global] Hint Mode Clock + : typeclass_instances.

(** ** Messages *)

(** [ControlMessage]; [Content] is an [interface{}]: decoded JSON on the way
    in, a [*CommandMessageContent] on the way out. *)
Record ControlMessage (C : Type) := {
  MessageType : string;
  MessageID : string;
  Version : Z;
  Sent : time;
  Content : C;
}.
Arguments MessageType {C} _.
Arguments MessageID {C} _.
Arguments Version {C} _.
Arguments Sent {C} _.
Arguments Content {C} _.

Record CommandMessageContent := {
  Command : string;
  Arguments_ : value;
  Message : string;
}.

Record DataMessage := {
  dmMessageType : string;
  dmMessageID : string;
  dmResponseTo : string;
  dmVersion : Z;
  dmSent : time;
  dmDirective : string;
  dmMetadata : value;
  dmContent : value;
}.

(** ** Decoding a control message *)

Definition zero_control_message : ControlMessage value := {|
  MessageType := EmptyString; MessageID := EmptyString; Version := 0;
  Sent := zero_time; Content := VNull |}.

Definition ControlMessage_fields : list (field (ControlMessage value)) := [
  ("type", set_string (λ x m, {| MessageType := x; MessageID := MessageID m;
     Version := Version m; Sent := Sent m; Content := Content m |}));
  ("message_id", set_string (λ x m, {| MessageType := MessageType m; MessageID := x;
     Version := Version m; Sent := Sent m; Content := Content m |}));
  ("version", set_int (λ x m, {| MessageType := MessageType m; MessageID := MessageID m;
     Version := x; Sent := Sent m; Content := Content m |}));
  ("sent", set_time (λ x m, {| MessageType := MessageType m; MessageID := MessageID m;
     Version := Version m; Sent := x; Content := Content m |}));
  ("content", set_interface (λ x m, {| MessageType := MessageType m;
     MessageID := MessageID m; Version := Version m; Sent := Sent m; Content := x |}))
].

(** [json.Unmarshal([]byte(payload), &controlMsg)]; [None] is an error. *)
Definition unmarshal_ControlMessage (payload : string) : option (ControlMessage value) :=
  d ← parse payload; decode_struct ControlMessage_fields zero_control_message d.

(** ** connection_status.go *)

(** [data.(string)]: panics when the field is present with another type. *)
Definition getStringFromContentPayload {W} (fieldName : string) (payload : gmap string value)
    : M W (string * bool) :=
  match payload !! fieldName with
  | Some data => s ← assert_string data; mret (s, true)
  | None => mret (EmptyString, false)
  end.

Definition GetClientNameFromConnectionStatusContent {W} (payload : gmap string value)
    : M W (string * bool) :=
  getStringFromContentPayload "client_name" payload.

Definition GetClientVersionFromConnectionStatusContent {W} (payload : gmap string value)
    : M W (string * bool) :=
  getStringFromContentPayload "client_version" payload.

(** ** message_construction.go *)

Section construction.
Context {W : Type} `{!UUID W, !Clock W}.

(** The uuid, the message and the error; both pointers are nil on an error. *)
Definition BuildControlMessage {C} (messageType : string) (content : C)
    : M W (option string * option (ControlMessage C) * option error) :=
  r ← NewRandom;
  match r with
  | inr err => mret (None, None, Some err)
  | inl messageID =>
      sent ← Now;
      mret (Some messageID,
            Some {| MessageType := messageType; MessageID := messageID;
                    Version := 1; Sent := sent; Content := content |}, None)
  end.

Definition BuildReconnectMessage (delay : Z)
    : M W (option string * option (ControlMessage CommandMessageContent) * option error) :=
  let args := VObject {[ "delay" := VString (Itoa delay) ]} in
  BuildControlMessage "command"
    {| Command := "reconnect"; Arguments_ := args; Message := EmptyString |}.

Definition BuildDataMessage (directive : string) (metadata payload : value)
    : M W (option string * option DataMessage * option error) :=
  r ← NewRandom;
  match r with
  | inr err => mret (None, None, Some err)
  | inl messageID =>
      sent ← Now;
      mret (Some messageID,
            Some {| dmMessageType := "data"; dmMessageID := messageID;
                    dmResponseTo := EmptyString; dmVersion := 1; dmSent := sent;
                    dmDirective := directive; dmMetadata := metadata;
                    dmContent := payload |}, None)
  end.
End construction.

(** ** JSON forms of the outgoing messages (no HTML escaping; [time.Time] in UTC) *)

Definition text (s : string) : jdoc := JStr (quote false s).

Definition doc_CommandMessageContent (c : CommandMessageContent) : option jdoc :=
  args ← doc_of false (Arguments_ c);
  Some (JObj [("command", text (Command c)); ("arguments", args); ("message", text (Message c))]).

Definition doc_ControlMessage (m : ControlMessage CommandMessageContent) : option jdoc :=
  content ← doc_CommandMessageContent (Content m);
  Some (JObj [("type", text (MessageType m)); ("message_id", text (MessageID m));
              ("version", jint (Version m)); ("sent", text (FormatRFC3339Nano (Sent m)));
              ("content", content)]).

Definition doc_DataMessage (m : DataMessage) : option jdoc :=
  metadata ← doc_of false (dmMetadata m);
  content ← doc_of false (dmContent m);
  Some (JObj [("type", text (dmMessageType m)); ("message_id", text (dmMessageID m));
              ("response_to", text (dmResponseTo m)); ("version", jint (dmVersion m));
              ("sent", text (FormatRFC3339Nano (dmSent m)));
              ("directive", text (dmDirective m)); ("metadata", metadata);
              ("content", content)]).

(** A nil message pointer encodes as [null]. *)
Definition doc_pointer {A} (f : A → option jdoc) (p : option A) : option jdoc :=
  match p with Some a => f a | None => Some JNull end.
