(* ===== verification/MqttProxy.v ===== *)
(** * Sending messages to a client
    ([internal/mqtt/utils.go], [connector_client_proxy.go],
    [connector_client_proxy_factory.go])

    [ConnectorClientMQTTProxy] turns the operations of
    [controller.ConnectorClient] into messages published on the client's
    topics.  The MQTT client library is the parameter [MqttClient]. *)

From S2P Require Import Prelude GoStrings GoNumTime Json Domain Config Topic Protocol.
From stdpp Require Import options.

(** What the token of a publish reports within the publish timeout. *)
Inductive token_result :=
| TokenTimeout                       (** [WaitTimeout] returned false *)
| TokenDone (err : option error).

(** [mqttClient.Publish(topic, qos, retained, payload)] and the wait on its token. *)
Class MqttClient (W : Type) := {
  Publish : string → Z → bool → string → Z → M W token_result
}.
#[global] Hint Mode MqttClient + : typeclass_instances.

Definition messagePublishedFailureCounter : string :=
  "cloud_connector_mqtt_message_published_failure_count".
Definition messagePublishedSuccessCounter : string :=
  "cloud_connector_mqtt_message_published_success_count".
Definition sentMessageDirectiveCounter (directive : string) : string :=
  "cloud_connector_mqtt_sent_message_directive_count:" +:+ directive.

Record ConnectorClientMQTTProxy := {
  pConfig : Config;
  pOrgID : OrgID;
  pAccountID : AccountID;
  pClientID : ClientID;
  pTopicBuilder : TopicBuilder;
  pDispatchers : value;
  pCanonicalFacts : value;
  pTags : value;
}.

Section proxy.
Context {W : Type} `{!MqttClient W, !Metrics W, !UUID W, !Clock W}.

(** [message] is the encoder's result: [None] when encoding fails. *)
Definition sendMessage (topic : string) (qos : Z) (publishTimeout : Z)
    (message : option jdoc) : M W (option error) :=
  match message with
  | None => mret (Some (ErrText "json: unsupported value"))
  | Some d =>
      let payload := render d +:+ str1 "010" in
      token ← Publish topic qos false payload publishTimeout;
      match token with
      | TokenDone (Some e) =>
          Inc messagePublishedFailureCounter;; mret (Some e)
      | _ => Inc messagePublishedSuccessCounter;; mret None
      end
  end.

(** The topic builder's result, where the model covers it. *)
Definition topic_or_panic (t : option string) : M W string :=
  match t with
  | Some t => mret t
  | None => panic "topic prefix with formatting directives"
  end.

Definition SendReconnectMessageToClient (topicBuilder : TopicBuilder) (qos publishTimeout : Z)
    (clientID : ClientID) (delay : Z) : M W (option error) :=
  r ← BuildReconnectMessage delay;
  let '(_, message, err) := r in
  match err with
  | Some e => mret (Some e)
  | None =>
      topic ← topic_or_panic (BuildOutgoingControlTopic topicBuilder clientID);
      sendMessage topic qos publishTimeout (doc_pointer doc_ControlMessage message)
  end.

Definition sendControlMessage (topic : string) (qos publishTimeout : Z)
    (messageType : string) (content : CommandMessageContent)
    : M W (option string * option error) :=
  r ← BuildControlMessage messageType content;
  let '(messageID, message, err) := r in
  match err with
  | Some e => mret (None, Some e)
  | None =>
      err ← sendMessage topic qos publishTimeout (doc_pointer doc_ControlMessage message);
      mret (messageID, err)
  end.

(** The error of [BuildDataMessage] is overwritten before it is looked at. *)
Definition proxy_SendMessage (cc : ConnectorClientMQTTProxy) (directive : string)
    (metadata payload : value) : M W (option string * option error) :=
  Inc (sentMessageDirectiveCounter directive);;
  r ← BuildDataMessage directive metadata payload;
  let '(messageID, message, _) := r in
  topic ← topic_or_panic (BuildOutgoingDataTopic (pTopicBuilder cc) (pClientID cc));
  err ← sendMessage topic (MqttDataPublishQoS (pConfig cc)) (MqttPublishTimeout (pConfig cc))
          (doc_pointer doc_DataMessage message);
  mret (messageID, err).

Definition proxy_command (cc : ConnectorClientMQTTProxy) (command : string) : M W (option error) :=
  let content := {| Command := command; Arguments_ := VNull; Message := EmptyString |} in
  topic ← topic_or_panic (BuildOutgoingControlTopic (pTopicBuilder cc) (pClientID cc));
  let qos := MqttControlPublishQoS (pConfig cc) in
  r ← sendControlMessage topic qos (MqttPublishTimeout (pConfig cc)) "command" content;
  mret r.2.

Definition proxy_Ping (cc : ConnectorClientMQTTProxy) : M W (option error) :=
  proxy_command cc "ping".

Definition proxy_Disconnect (cc : ConnectorClientMQTTProxy) (message : string)
    : M W (option error) :=
  proxy_command cc "disconnect".

Definition proxy_Reconnect (cc : ConnectorClientMQTTProxy) (message : string) (delay : Z)
    : M W (option error) :=
  SendReconnectMessageToClient (pTopicBuilder cc) (MqttControlPublishQoS (pConfig cc))
    (MqttPublishTimeout (pConfig cc)) (pClientID cc) delay.

Definition proxy_client (cc : ConnectorClientMQTTProxy) : ConnectorClient W := {|
  SendMessage := proxy_SendMessage cc;
  Ping := proxy_Ping cc;
  Reconnect := proxy_Reconnect cc;
  GetDispatchers := mret (pDispatchers cc, None);
  GetCanonicalFacts := mret (pCanonicalFacts cc, None);
  GetTags := mret (pTags cc, None);
  Disconnect := proxy_Disconnect cc;
|}.

(** [ConnectorClientMQTTProxyFactory.CreateProxy] *)
Definition proxy_factory (cfg : Config) (tb : TopicBuilder) : ConnectorClientProxyFactory W := {|
  CreateProxy orgID account client_id canonicalFacts dispatchers tags :=
    mret (inl (proxy_client {|
      pConfig := cfg; pOrgID := orgID; pAccountID := account; pClientID := client_id;
      pTopicBuilder := tb; pDispatchers := dispatchers;
      pCanonicalFacts := canonicalFacts; pTags := tags |}))
|}.
End proxy.
