(* ===== verification/Services.v ===== *)
(** * A scripted environment for the services a client proxy uses

    [Env] answers the n-th call on the MQTT client, the uuid library and the
    clock from arbitrary scripts, and records what is published and counted.
    The properties of [ConnectorClientMQTTProxy] hold for every script. *)

From S2P Require Import Prelude GoStrings GoNumTime Json JsonFacts Domain Config Topic Protocol MqttProxy.
From stdpp Require Import options.

Record message := { msg_topic : string; msg_qos : Z; msg_retained : bool; msg_payload : string }.

Record Env := {
  published : list message;
  counted : list string;
  env_tick : nat;
  env_token : nat → token_result;
  env_uuid : nat → string + error;
  env_clock : nat → time;
}.

Definition env_step (f : Env → Env) (e : Env) : Env :=
  let e' := f e in
  {| published := published e'; counted := counted e'; env_tick := S (env_tick e);
     env_token := env_token e'; env_uuid := env_uuid e'; env_clock := env_clock e' |}.

Definition env_publish (m : message) (e : Env) : Env :=
  {| published := published e ++ [m]; counted := counted e; env_tick := env_tick e;
     env_token := env_token e; env_uuid := env_uuid e; env_clock := env_clock e |}.

Definition env_count (c : string) (e : Env) : Env :=
  {| published := published e; counted := counted e ++ [c]; env_tick := env_tick e;
     env_token := env_token e; env_uuid := env_uuid e; env_clock := env_clock e |}.

Section instances.
Context {W : Type} `{!Lens W Env}.

#[export] Instance env_mqtt : MqttClient W := {
  Publish topic qos retained payload _ := zoom (λ e,
    (Ret (env_token e (env_tick e)),
     env_step (env_publish {| msg_topic := topic; msg_qos := qos; msg_retained := retained;
                              msg_payload := payload |}) e)) }.
#[export] Instance env_uuids : UUID W := {
  NewRandom := zoom (λ e, (Ret (env_uuid e (env_tick e)), env_step id e)) }.
#[export] Instance env_time : Clock W := {
  Now := zoom (λ e, (Ret (env_clock e (env_tick e)), env_step id e)) }.
#[export] Instance env_metrics : Metrics W := {
  Inc c := zoom (λ e, (Ret tt, env_count c e)) }.
End instances.

#[export] Program Instance env_id : Lens Env Env := { lget := id; lset := λ s _, s }.
Solve All Obligations with done.

Definition test_env : Env := {|
  published := []; counted := []; env_tick := 0; env_token := λ _, TokenDone None;
  env_uuid := λ _, inl "6ba7b810-9dad-11d1-80b4-00c04fd430c8";
  env_clock := λ _, 1600000000000000000%Z |}.

(** ** The messages of the proxy *)

(** The data message a [SendMessage] builds. *)
Definition data_message (id : string) (now : time) (directive : string) (metadata payload : value)
    : DataMessage := {|
  dmMessageType := "data"; dmMessageID := id; dmResponseTo := EmptyString; dmVersion := 1;
  dmSent := now; dmDirective := directive; dmMetadata := metadata; dmContent := payload |}.

Definition payload_of (d : jdoc) : string := render d +:+ str1 "010".

(** The error a wait on a token leaves with the caller. *)
Definition token_error (t : token_result) : option error :=
  match t with TokenDone (Some e) => Some e | _ => None end.

Definition token_counter (t : token_result) : string :=
  match t with
  | TokenDone (Some _) => messagePublishedFailureCounter
  | _ => messagePublishedSuccessCounter
  end.

Lemma sendMessage_run topic qos t d (e : Env) :
  sendMessage (W := Env) topic qos t (Some d) e
  = (Ret (token_error (env_token e (env_tick e))),
     env_count (token_counter (env_token e (env_tick e)))
       (env_step (env_publish {| msg_topic := topic; msg_qos := qos; msg_retained := false;
                                 msg_payload := payload_of d |}) e)).
Proof.
  unfold sendMessage, mbind, M_bind. cbn -[env_step].
  by destruct (env_token e (env_tick e)) as [|[]].
Qed.

Definition test_proxy (cfg : Config) : ConnectorClientMQTTProxy := {|
  pConfig := cfg; pOrgID := "111000"; pAccountID := "540155"; pClientID := "client-a";
  pTopicBuilder := NewTopicBuilder "redhat"; pDispatchers := VNull; pCanonicalFacts := VNull;
  pTags := VNull |}.

(** A document followed by the encoder's newline reads back. *)
Lemma Unmarshal_payload d :
  doc_ok d = true → (Z.of_nat (doc_depth d) ≤ 10000)%Z → interface_err d = false →
  UnmarshalInterface (payload_of d) = (interface_of d, false).
Proof.
  intros Hok Hd He. unfold UnmarshalInterface, payload_of, parse.
  rewrite DecodeStream_render by done.
  change (string_forallb is_space (str1 "010")) with true. cbv beta iota. by rewrite He.
Qed.

Lemma data_topic_eq cc :
  string_mem "%" (tbPrefix (pTopicBuilder cc)) = false →
  BuildOutgoingDataTopic (pTopicBuilder cc) (pClientID cc)
  = Some (Join [tbPrefix (pTopicBuilder cc); "insights"; pClientID cc; "data"; "in"] "/").
Proof. apply (outgoing_topic_eq (pTopicBuilder cc) DataTopicType). Qed.

Lemma control_topic_eq cc :
  string_mem "%" (tbPrefix (pTopicBuilder cc)) = false →
  BuildOutgoingControlTopic (pTopicBuilder cc) (pClientID cc)
  = Some (Join [tbPrefix (pTopicBuilder cc); "insights"; pClientID cc; "control"; "in"] "/").
Proof. apply (outgoing_topic_eq (pTopicBuilder cc) ControlTopicType). Qed.

Lemma text_codes s : utf8_valid s = true → interface_of (text s) = VString s.
Proof. intros Hs. cbn. by rewrite unquote_quote. Qed.

Lemma version_reads : interface_err (jint 1) = false.
Proof. vm_compute. reflexivity. Qed.

(** The data message on the wire, seen by the client. *)
Lemma data_message_decodes m :
  utf8_valid (dmDirective m) = true → utf8_valid (dmMessageID m) = true →
  utf8_valid (dmMessageType m) = true → dmVersion m = 1%Z →
  value_ok (dmMetadata m) = true → value_ok (dmContent m) = true →
  (Z.of_nat (value_depth (dmMetadata m)) < 10000)%Z →
  (Z.of_nat (value_depth (dmContent m)) < 10000)%Z →
  ∃ d o, doc_DataMessage m = Some d ∧ UnmarshalInterface (payload_of d) = (VObject o, false) ∧
    o !! "type" = Some (VString (dmMessageType m)) ∧
    o !! "message_id" = Some (VString (dmMessageID m)) ∧
    o !! "directive" = Some (VString (dmDirective m)) ∧
    o !! "metadata" = Some (dmMetadata m) ∧ o !! "content" = Some (dmContent m).
Proof.
  intros Hdir Hid Hty Hver (dm&Hdm&Hm1&Hm2&Hm3&Hm4)%(codes_all false)
    (dc&Hdc&Hc1&Hc2&Hc3&Hc4)%(codes_all false) Hd1 Hd2.
  unfold doc_DataMessage. rewrite Hdm, Hdc. cbn [mbind option_bind].
  eexists _, (object_map _). split; [done|]. rewrite Unmarshal_payload.
  - split; [apply interface_of_object|].
    split_and!; (etrans; [eapply object_map_lookup;
      [apply (bool_decide_unpack _); exact I|reflexivity|repeat first [left|right]]|]);
      by rewrite ?text_codes, ?Hm2, ?Hc2.
  - cbn [doc_ok forallb snd fst text]. unfold text. cbn [doc_ok].
    rewrite !quote_raw_ok, Hm1, Hc1, Hver. done.
  - cbn. lia.
  - cbn [interface_err existsb snd fst text]. rewrite Hm3, Hc3, Hver. by rewrite version_reads.
Qed.

(** A control message on the wire, seen by the client. *)
Lemma control_message_decodes id sent command args msg :
  utf8_valid command = true → utf8_valid id = true → utf8_valid msg = true →
  value_ok args = true → (Z.of_nat (value_depth args) < 9000)%Z →
  let m := {| MessageType := "command"; MessageID := id; Version := 1; Sent := sent;
              Content := {| Command := command; Arguments_ := args; Message := msg |} |} in
  ∃ d o c, doc_ControlMessage m = Some d ∧
    UnmarshalInterface (payload_of d) = (VObject o, false) ∧
    o !! "type" = Some (VString "command") ∧ o !! "message_id" = Some (VString id) ∧
    o !! "content" = Some (VObject c) ∧ c !! "command" = Some (VString command) ∧
    c !! "arguments" = Some args ∧ c !! "message" = Some (VString msg).
Proof.
  intros Hc Hi Hms (da&Hda&Ha1&Ha2&Ha3&Ha4)%(codes_all false) Hd m.
  unfold doc_ControlMessage, doc_CommandMessageContent, m. cbn [Content Arguments_].
  rewrite Hda. cbn [mbind option_bind].
  eexists _, (object_map _),
    (object_map [("command", text command); ("arguments", da); ("message", text msg)]).
  split; [done|]. rewrite Unmarshal_payload.
  - split; [apply interface_of_object|].
    split_and!; (etrans; [eapply object_map_lookup;
      [apply (bool_decide_unpack _); exact I|reflexivity|repeat first [left|right]]|];
      first [apply member_object | by rewrite text_codes | by rewrite Ha2]).
  - cbn [doc_ok forallb snd fst text]. unfold text. cbn [doc_ok forallb fst snd].
    rewrite !quote_raw_ok, Ha1. done.
  - cbn. lia.
  - cbn [interface_err existsb snd fst text]. rewrite Ha3. cbn [Version]. by rewrite version_reads.
Qed.

Lemma Inc_run c (e : Env) : Inc c e = (Ret tt, env_count c e).
Proof. done. Qed.

Lemma BuildDataMessage_run directive metadata content (e : Env) id :
  env_uuid e (env_tick e) = inl id →
  BuildDataMessage (W := Env) directive metadata content e
  = (Ret (Some id, Some (data_message id (env_clock e (S (env_tick e))) directive metadata content),
          None), env_step Datatypes.id (env_step Datatypes.id e)).
Proof.
  intros Hid. unfold BuildDataMessage, mbind, M_bind. cbn -[env_step]. by rewrite Hid.
Qed.

(** ** Properties *)

(** The topic a client reads messages of a type from. *)
Definition client_in_topic (cc : ConnectorClientMQTTProxy) (ty : string) : string :=
  Join [tbPrefix (pTopicBuilder cc); "insights"; pClientID cc; ty; "in"] "/".

(** A successful run, in one piece. *)
Lemma SendMessage_run cc directive metadata content id e :
  string_mem "%" (tbPrefix (pTopicBuilder cc)) = false →
  env_uuid e (env_tick e) = inl id → utf8_valid id = true → utf8_valid directive = true →
  value_ok metadata = true → value_ok content = true →
  (Z.of_nat (value_depth metadata) < 10000)%Z → (Z.of_nat (value_depth content) < 10000)%Z →
  let token := env_token e (S (S (env_tick e))) in
  ∃ e' payload o,
    SendMessage (proxy_client (W := Env) cc) directive metadata content e
      = (Ret (Some id, token_error token), e') ∧
    published e' = published e ++ [{|
      msg_topic := client_in_topic cc "data"; msg_qos := MqttDataPublishQoS (pConfig cc);
      msg_retained := false; msg_payload := payload |}] ∧
    UnmarshalInterface payload = (VObject o, false) ∧
    o !! "type" = Some (VString "data") ∧ o !! "message_id" = Some (VString id) ∧
    o !! "directive" = Some (VString directive) ∧
    o !! "metadata" = Some metadata ∧ o !! "content" = Some content.
Proof.
  intros Hp Hid Hvid Hdir Hm Hc Hdm Hdc token.
  destruct (data_message_decodes (data_message id (env_clock e (S (env_tick e)))
    directive metadata content)) as (d&o&Hd&Hu&Hty&Hmid&Hdirv&Hmeta&Hcont); try done.
  eexists _, (payload_of d), o. split; [|split; [|done]].
  { cbn [proxy_client SendMessage]. unfold proxy_SendMessage.
    set (e1 := env_count (sentMessageDirectiveCounter directive) e).
    rewrite (bind_ret _ _ _ _ _ (Inc_run (sentMessageDirectiveCounter directive) e)). fold e1.
    rewrite (bind_ret _ _ _ _ _ (BuildDataMessage_run directive metadata content e1 id Hid)).
    rewrite data_topic_eq by done. cbn [topic_or_panic]. rewrite bind_ret_l.
    change (env_clock e1 (S (env_tick e1))) with (env_clock e (S (env_tick e))).
    cbn [doc_pointer]. rewrite Hd, (bind_ret _ _ _ _ _ (sendMessage_run _ _ _ _ _)).
    reflexivity. }
  done.
Qed.

(** [SendMessage] publishes exactly one message, on its own client's data
    topic and with the configured quality of service, whose payload decodes to
    a data message with the given directive, metadata and content and the
    returned message id; only a token that reports an error makes it fail, so a
    publish that is not acknowledged within the timeout counts as sent. *)
Theorem SendMessage_publishes cc directive metadata content id e :
  string_mem "%" (tbPrefix (pTopicBuilder cc)) = false →
  env_uuid e (env_tick e) = inl id → utf8_valid id = true → utf8_valid directive = true →
  value_ok metadata = true → value_ok content = true →
  (Z.of_nat (value_depth metadata) < 10000)%Z → (Z.of_nat (value_depth content) < 10000)%Z →
  let token := env_token e (S (S (env_tick e))) in
  ∃ e' payload o,
    SendMessage (proxy_client (W := Env) cc) directive metadata content e
      = (Ret (Some id, token_error token), e') ∧
    published e' = published e ++ [{|
      msg_topic := client_in_topic cc "data"; msg_qos := MqttDataPublishQoS (pConfig cc);
      msg_retained := false; msg_payload := payload |}] ∧
    UnmarshalInterface payload = (VObject o, false) ∧
    o !! "type" = Some (VString "data") ∧ o !! "message_id" = Some (VString id) ∧
    o !! "directive" = Some (VString directive) ∧
    o !! "metadata" = Some metadata ∧ o !! "content" = Some content.
Proof. exact (SendMessage_run cc directive metadata content id e). Qed.

Lemma SendMessage_publishes_witness :
  ∃ e' payload o,
    SendMessage (proxy_client (W := Env) (test_proxy default_config)) "playbook" VNull (VString "url") test_env
      = (Ret (Some "6ba7b810-9dad-11d1-80b4-00c04fd430c8", None), e') ∧
    msg_topic <$> published e' = ["redhat/insights/client-a/data/in"] ∧
    UnmarshalInterface payload = (VObject o, false) ∧ o !! "content" = Some (VString "url").
Proof.
  destruct (SendMessage_publishes (test_proxy default_config) "playbook" VNull (VString "url")
    "6ba7b810-9dad-11d1-80b4-00c04fd430c8" test_env) as (e'&p&o&H1&H2&H3&_&_&_&_&H4);
    [reflexivity|reflexivity|reflexivity|reflexivity|reflexivity|reflexivity|reflexivity|reflexivity|].
  exists e', p, o. split_and!; [exact H1| |exact H3|exact H4].
  rewrite H2. reflexivity.
Defined.

(** When no message id can be generated, [SendMessage] still publishes: the
    error is overwritten before it is looked at, the nil message is encoded as
    [null], and the caller gets a nil id together with the outcome of that
    publish. *)
Theorem SendMessage_without_uuid cc directive metadata content err e :
  string_mem "%" (tbPrefix (pTopicBuilder cc)) = false →
  env_uuid e (env_tick e) = inr err →
  ∃ e', SendMessage (proxy_client (W := Env) cc) directive metadata content e
      = (Ret (None, token_error (env_token e (S (env_tick e)))), e') ∧
    published e' = published e ++ [{|
      msg_topic := client_in_topic cc "data"; msg_qos := MqttDataPublishQoS (pConfig cc);
      msg_retained := false; msg_payload := "null" +:+ str1 "010" |}].
Proof.
  intros Hp Hid. cbn [proxy_client SendMessage]. unfold proxy_SendMessage.
  rewrite (bind_ret _ _ _ _ _ (Inc_run (sentMessageDirectiveCounter directive) e)).
  set (e1 := env_count (sentMessageDirectiveCounter directive) e).
  assert (Hb : BuildDataMessage (W := Env) directive metadata content e1
               = (Ret (None, None, Some err), env_step id e1)).
  { unfold BuildDataMessage, mbind, M_bind. cbn -[env_step]. by rewrite Hid. }
  rewrite (bind_ret _ _ _ _ _ Hb), data_topic_eq by done. cbn [topic_or_panic].
  rewrite bind_ret_l. cbn [doc_pointer].
  rewrite (bind_ret _ _ _ _ _ (sendMessage_run _ _ _ _ _)).
  eexists. split; [reflexivity|done].
Qed.

Lemma SendMessage_without_uuid_witness :
  let e := {| published := []; counted := []; env_tick := 0; env_token := λ _, TokenTimeout;
              env_uuid := λ _, inr (ErrText "entropy"); env_clock := λ _, 0%Z |} in
  ∃ e', SendMessage (proxy_client (W := Env) (test_proxy default_config)) "d" VNull VNull e
      = (Ret (None, None), e') ∧
    msg_payload <$> published e' = ["null" +:+ str1 "010"].
Proof.
  intros e. destruct (SendMessage_without_uuid (test_proxy default_config) "d" VNull VNull
    (ErrText "entropy") e) as (e'&H1&H2); [reflexivity|reflexivity|].
  exists e'. split; [exact H1|]. rewrite H2. reflexivity.
Defined.

Lemma BuildControlMessage_run {C} ty (content : C) (e : Env) id :
  env_uuid e (env_tick e) = inl id →
  BuildControlMessage (W := Env) ty content e
  = (Ret (Some id, Some {| MessageType := ty; MessageID := id; Version := 1;
                           Sent := env_clock e (S (env_tick e)); Content := content |}, None),
     env_step Datatypes.id (env_step Datatypes.id e)).
Proof.
  intros Hid. unfold BuildControlMessage, mbind, M_bind. cbn -[env_step]. by rewrite Hid.
Qed.

(** The control commands a proxy can send. *)
Inductive proxy_command_call :=
| CallPing
| CallDisconnect (message : string)
| CallReconnect (message : string) (delay : Z).

Definition call_proxy {W} (client : ConnectorClient W) (c : proxy_command_call) : M W (option error) :=
  match c with
  | CallPing => Ping client
  | CallDisconnect message => Disconnect client message
  | CallReconnect message delay => Reconnect client message delay
  end.

Definition call_name (c : proxy_command_call) : string :=
  match c with CallPing => "ping" | CallDisconnect _ => "disconnect" | CallReconnect _ _ => "reconnect" end.

Definition call_arguments (c : proxy_command_call) : value :=
  match c with
  | CallReconnect _ delay => VObject {[ "delay" := VString (Itoa delay) ]}
  | _ => VNull
  end.

(** C18: Ping, Disconnect and Reconnect each publish exactly one control message,
    on the client's control topic, carrying the command and its arguments; the
    caller's [message] is not sent: its field is empty.  The delay of a
    reconnect travels as a string. *)
Theorem proxy_commands_publish cc call id e :
  string_mem "%" (tbPrefix (pTopicBuilder cc)) = false →
  env_uuid e (env_tick e) = inl id → utf8_valid id = true →
  value_ok (call_arguments call) = true →
  let token := env_token e (S (S (env_tick e))) in
  ∃ e' payload o c,
    call_proxy (proxy_client (W := Env) cc) call e = (Ret (token_error token), e') ∧
    published e' = published e ++ [{|
      msg_topic := client_in_topic cc "control"; msg_qos := MqttControlPublishQoS (pConfig cc);
      msg_retained := false; msg_payload := payload |}] ∧
    UnmarshalInterface payload = (VObject o, false) ∧
    o !! "type" = Some (VString "command") ∧ o !! "message_id" = Some (VString id) ∧
    o !! "content" = Some (VObject c) ∧ c !! "command" = Some (VString (call_name call)) ∧
    c !! "arguments" = Some (call_arguments call) ∧ c !! "message" = Some (VString EmptyString).
Proof.
  intros Hp Hid Hv Harg token.
  destruct (control_message_decodes id (env_clock e (S (env_tick e))) (call_name call)
    (call_arguments call) EmptyString) as (d&o&c&Hd&Hu&H1&H2&H3&H4&H5&H6); try done.
  { by destruct call. } { by destruct call; vm_compute. }
  eexists _, (payload_of d), o, c. split; [|split; [|done]].
  { destruct call as [|m|m delay]; cbn [call_proxy proxy_client Ping Disconnect Reconnect];
      unfold proxy_Ping, proxy_Disconnect, proxy_Reconnect, proxy_command, sendControlMessage,
        SendReconnectMessageToClient, BuildReconnectMessage.
    1,2: rewrite control_topic_eq by done; cbn [topic_or_panic]; rewrite bind_ret_l;
      erewrite bind_ret; [|erewrite (bind_ret _ _ _ _ _ (BuildControlMessage_run _ _ _ _ Hid));
        cbn [doc_pointer]; cbn [call_name call_arguments] in Hd; rewrite Hd;
        rewrite (bind_ret _ _ _ _ _ (sendMessage_run _ _ _ _ _)); reflexivity]; reflexivity.
    rewrite (bind_ret _ _ _ _ _ (BuildControlMessage_run _ _ _ _ Hid)).
    rewrite control_topic_eq by done. cbn [topic_or_panic]. rewrite bind_ret_l.
    cbn [doc_pointer]. cbn [call_name call_arguments] in Hd. rewrite Hd, sendMessage_run. reflexivity. }
  by destruct call.
Qed.

Lemma proxy_commands_publish_witness :
  ∃ e' payload o c,
    Reconnect (proxy_client (W := Env) (test_proxy default_config)) "be back" 5 test_env
      = (Ret None, e') ∧
    msg_topic <$> published e' = ["redhat/insights/client-a/control/in"] ∧
    UnmarshalInterface payload = (VObject o, false) ∧ o !! "content" = Some (VObject c) ∧
    c !! "arguments" = Some (VObject {[ "delay" := VString "5" ]}).
Proof.
  destruct (proxy_commands_publish (test_proxy default_config) (CallReconnect "be back" 5)
    "6ba7b810-9dad-11d1-80b4-00c04fd430c8" test_env) as (e'&p&o&c&H1&H2&H3&_&_&H4&_&H5&_);
    [reflexivity|reflexivity|reflexivity|vm_compute; reflexivity|].
  exists e', p, o, c. split_and!; [exact H1| |exact H3|exact H4|exact H5].
  rewrite H2. reflexivity.
Defined.
