(* ===== verification/Repository.v ===== *)
(** * The connection repository: the [connections] table and the registrar
    ([internal/connection_repository]: sql_connection_registrar.go,
    deserialization.go, utils.go; db/migrations)

    - [Row], [Db]: the table and what surrounds it (the clocks, and the failures
      of the database, one per call);
    - [sql_Register], [sql_Unregister], [sql_FindConnectionByClientID]: the
      methods of [SqlConnectionRegistrar], statement by statement;
    - [sql_registrar_contract]: the table implements the partial map from client
      ids to connections that [RegistrarContract] describes.

    PostgreSQL itself is the class [Postgres]: what the code relies on is stated
    in [PostgresLaws]. *)

From S2P Require Import Prelude GoStrings GoNumTime Json JsonFacts Domain.
From stdpp Require Import options.

(** ** PostgreSQL and its driver *)

Class Postgres := {
  (** text accepted by a [jsonb] column, and how it reads back *)
  jsonb_in : string → option string;
  (** an instant stored in a [timestamptz] column *)
  timestamptz_in : time → time;
  (** a text stored in a [varchar(n)] column; [None] is an error *)
  varchar_in : nat → string → option string;
  (** the database's collation *)
  text_le : string → string → Prop;
  text_le_dec : RelDecision text_le;
  (** [pq.ErrorCode.Name] and [pgerrcode.IsConnectionException] *)
  pq_Name : string → string;
  IsConnectionException : string → bool;
}.
#[export] Existing Instance text_le_dec.

Class PostgresLaws `{!Postgres} := {
  (** [jsonb] keeps the meaning of a document, not its spelling *)
  jsonb_faithful s t : jsonb_in s = Some t → UnmarshalInterface t = UnmarshalInterface s;
  timestamptz_idemp t : timestamptz_in (timestamptz_in t) = timestamptz_in t;
  timestamptz_mono t t' : (t ≤ t')%Z → (timestamptz_in t ≤ timestamptz_in t')%Z;
  (** only the trailing spaces of a text that is too long are dropped *)
  varchar_fits n s s' : varchar_in n s = Some s' → String.length s ≤ n → s' = s;
  text_le_total :: Total text_le;
  text_le_trans :: Transitive text_le;
  text_le_antisym :: AntiSymm (=) text_le;
}.

(** ** The table *)

Record Row := {
  r_account : option string;
  r_org_id : string;
  r_client_id : string;
  r_dispatchers : string;            (* jsonb *)
  r_canonical_facts : string;        (* jsonb *)
  r_tags : option string;            (* jsonb *)
  r_created_at : time;
  r_updated_at : time;
  r_stale_timestamp : time;
  r_message_id : option string;
  r_message_sent : time;
  r_tenant_lookup_failure_count : option Z;
  r_tenant_lookup_timestamp : option time;
}.

(** The database as a component sees it.  [db_fault n] is the error of the n-th
    call on it, if it fails; [db_cut n] the number of rows the n-th query
    delivers before its iteration breaks off, if it does. *)
Record Db := {
  table : list Row;
  db_tick : nat;
  db_fault : nat → option error;
  db_cut : nat → option nat;
  db_clock : nat → time;             (* NOW() *)
  app_clock : nat → time;            (* time.Now() *)
}.

Definition set_table (rows : list Row) (db : Db) : Db := {|
  table := rows; db_tick := db_tick db; db_fault := db_fault db; db_cut := db_cut db;
  db_clock := db_clock db; app_clock := app_clock db |}.
Definition tick_db (db : Db) : Db := {|
  table := table db; db_tick := S (db_tick db); db_fault := db_fault db; db_cut := db_cut db;
  db_clock := db_clock db; app_clock := app_clock db |}.

(** [database.Prepare(...)] *)
Definition db_Prepare : M Db (option error) := λ db,
  (Ret (db_fault db (db_tick db)), tick_db db).

(** [statement.ExecContext(...)]: the statement runs on the table at the server's
    time; its own error leaves the table alone. *)
Definition db_Exec (stmt : time → list Row → list Row + error) : M Db (option error) := λ db,
  match db_fault db (db_tick db) with
  | Some e => (Ret (Some e), tick_db db)
  | None =>
      match stmt (db_clock db (db_tick db)) (table db) with
      | inl rows => (Ret None, set_table rows (tick_db db))
      | inr e => (Ret (Some e), tick_db db)
      end
  end.

(** [statement.QueryContext(...)] followed by [rows.Next()] until it is false.
    Nobody looks at [rows.Err()]. *)
Definition db_Query {A} (select : list Row → list A + error) : M Db (list A + error) := λ db,
  match db_fault db (db_tick db) with
  | Some e => (Ret (inr e), tick_db db)
  | None =>
      match select (table db) with
      | inl res =>
          (Ret (inl match db_cut db (db_tick db) with
                    | Some n => take n res
                    | None => res
                    end), tick_db db)
      | inr e => (Ret (inr e), tick_db db)
      end
  end.

(** [statement.QueryRowContext(...).Scan(...)]: the first row, or [sql.ErrNoRows]. *)
Definition db_QueryRow {A} (select : list Row → list A) : M Db (A + error) := λ db,
  match db_fault db (db_tick db) with
  | Some e => (Ret (inr e), tick_db db)
  | None =>
      match select (table db) with
      | a :: _ => (Ret (inl a), tick_db db)
      | [] => (Ret (inr ErrNoRows), tick_db db)
      end
  end.

Definition app_Now : M Db time := λ db, (Ret (app_clock db (db_tick db)), db).

(** ** utils.go, deserialization.go *)

Definition verifyOrgId (orgId : OrgID) : option error :=
  if bool_decide (orgId = EmptyString) then Some InvalidOrgIDError else None.

Definition verifyClientId (clientId : ClientID) : option error :=
  if bool_decide (clientId = EmptyString) then Some InvalidClientIDError else None.

(** What [json.Unmarshal] has stored by the time it reports an error stays. *)
Definition deserialize (serialized : option string) : value :=
  match serialized with
  | Some s => (UnmarshalInterface s).1
  | None => VNull
  end.
Definition deserializeDispatchers : option string → value := deserialize.
Definition deserializeCanonicalFacts : option string → value := deserialize.
Definition deserializeTags : option string → value := deserialize.

(** [sql.NullString.String] where it is valid, else the zero value *)
Definition null_string (s : option string) : string := default EmptyString s.

(** ** SqlConnectionRegistrar *)

Definition isTenantlessConnection (rhcClient : ConnectorClientState) : bool :=
  bool_decide (String.length (ccOrgID rhcClient) = 0).

Section registrar.
Context `{!Postgres}.

Definition too_long : error := ErrPq "22001".
Definition varchar (n : nat) (s : string) : string + error :=
  match varchar_in n s with Some s' => inl s' | None => inr too_long end.
Definition jsonb (s : string) : string + error :=
  match jsonb_in s with Some s' => inl s' | None => inr (ErrPq "22P02") end.

(** The bound parameters of the upsert. *)
Record upsert_args := {
  ua_account : string;
  ua_org_id : string;
  ua_client_id : string;
  ua_dispatchers : string;
  ua_canonical_facts : string;
  ua_tags : string;
  ua_message_id : string;
  ua_message_sent : time;
  ua_tenant_lookup_timestamp : option time;
  ua_reset_failure_count : bool;
}.

(** The values of the columns both branches write, after coercion. *)
Record columns := {
  col_dispatchers : string;
  col_tags : string;
  col_message_id : string;
  col_org_id : string;
  col_account : string;
}.

Definition coerce_columns (a : upsert_args) (dispatchers tags : string) : columns + error :=
  match varchar 40 (ua_message_id a), varchar 20 (ua_org_id a), varchar 10 (ua_account a) with
  | inl m, inl o, inl ac =>
      inl {| col_dispatchers := dispatchers; col_tags := tags; col_message_id := m;
             col_org_id := o; col_account := ac |}
  | _, _, _ => inr too_long
  end.

(** [UPDATE connections SET ...]; the failure count is reset only when the
    statement has that clause. *)
Definition update_row (a : upsert_args) (now : time) (c : columns) (r : Row) : Row := {|
  r_account := Some (col_account c);
  r_org_id := col_org_id c;
  r_client_id := r_client_id r;
  r_dispatchers := col_dispatchers c;
  r_canonical_facts := r_canonical_facts r;
  r_tags := Some (col_tags c);
  r_created_at := r_created_at r;
  r_updated_at := now;
  r_stale_timestamp := r_stale_timestamp r;
  r_message_id := Some (col_message_id c);
  r_message_sent := timestamptz_in (ua_message_sent a);
  r_tenant_lookup_failure_count :=
    if ua_reset_failure_count a then Some 0%Z else r_tenant_lookup_failure_count r;
  r_tenant_lookup_timestamp := timestamptz_in <$> ua_tenant_lookup_timestamp a;
|}.

(** [INSERT INTO connections (...) SELECT ...]; the other columns take their defaults. *)
Definition insert_row (a : upsert_args) (now : time) (c : columns) (client_id facts : string)
    : Row := {|
  r_account := Some (col_account c);
  r_org_id := col_org_id c;
  r_client_id := client_id;
  r_dispatchers := col_dispatchers c;
  r_canonical_facts := facts;
  r_tags := Some (col_tags c);
  r_created_at := now;
  r_updated_at := now;
  r_stale_timestamp := now;
  r_message_id := Some (col_message_id c);
  r_message_sent := timestamptz_in (ua_message_sent a);
  r_tenant_lookup_failure_count := Some 0%Z;
  r_tenant_lookup_timestamp := timestamptz_in <$> ua_tenant_lookup_timestamp a;
|}.

(** [WITH upsert AS (UPDATE ... RETURNING * ) INSERT ... WHERE NOT EXISTS (...)].
    All parameters are parsed before anything runs. *)
Definition upsert_statement (a : upsert_args) (now : time) (rows : list Row)
    : list Row + error :=
  match jsonb (ua_dispatchers a), jsonb (ua_canonical_facts a), jsonb (ua_tags a) with
  | inl dispatchers, inl facts, inl tags =>
      match coerce_columns a dispatchers tags with
      | inr e => inr e
      | inl c =>
          if existsb (λ r, bool_decide (r_client_id r = ua_client_id a)) rows then
            inl ((λ r, if bool_decide (r_client_id r = ua_client_id a)
                       then update_row a now c r else r) <$> rows)
          else
            match varchar 100 (ua_client_id a) with
            | inl cid => inl (rows ++ [insert_row a now c cid facts])
            | inr e => inr e
            end
      end
  | _, _, _ => inr (ErrPq "22P02")
  end.

Definition json_error : error := ErrText "json: unsupported value".

Definition sql_Register (rhcClient : ConnectorClientState) : M Db (option error) :=
  tenantLookupTimestamp ←
    (if isTenantlessConnection rhcClient
     then timestamp ← app_Now; mret (Some timestamp) else mret None);
  let reset := negb (isTenantlessConnection rhcClient) in
  perr ← db_Prepare;
  match perr with
  | Some err => mret (Some (FatalError err))
  | None =>
      match Marshal (ccDispatchers rhcClient) with
      | None => mret (Some json_error)
      | Some dispatchersString =>
      match Marshal (ccCanonicalFacts rhcClient) with
      | None => mret (Some json_error)
      | Some canonicalFactsString =>
      match Marshal (ccTags rhcClient) with
      | None => mret (Some json_error)
      | Some tagsString =>
          err ← db_Exec (upsert_statement {|
            ua_account := ccAccount rhcClient; ua_org_id := ccOrgID rhcClient;
            ua_client_id := ccClientID rhcClient; ua_dispatchers := dispatchersString;
            ua_canonical_facts := canonicalFactsString; ua_tags := tagsString;
            ua_message_id := LatestMessageID (ccMessageMetadata rhcClient);
            ua_message_sent := LatestTimestamp (ccMessageMetadata rhcClient);
            ua_tenant_lookup_timestamp := tenantLookupTimestamp;
            ua_reset_failure_count := reset |});
          mret match err with
               | None => None
               | Some e =>
                   match e with
                   | ErrPq code =>
                       if IsConnectionException (pq_Name code) then Some (FatalError e)
                       else Some e
                   | _ => Some e
                   end
               end
      end end end
  end.

Definition delete_statement (client_id : ClientID) (now : time) (rows : list Row)
    : list Row + error :=
  inl (filter (λ r, r_client_id r ≠ client_id) rows).

Definition sql_Unregister (client_id : ClientID) : M Db (option error) :=
  perr ← db_Prepare;
  match perr with
  | Some err => mret (Some (FatalError err))
  | None =>
      err ← db_Exec (delete_statement client_id);
      mret match err with Some e => Some (FatalError e) | None => None end
  end.

(** The state read from a row by [FindConnectionByClientID]. *)
Definition scan_state (r : Row) : ConnectorClientState := {|
  ccAccount := null_string (r_account r);
  ccOrgID := r_org_id r;
  ccClientID := r_client_id r;
  ccCanonicalFacts := deserializeCanonicalFacts (Some (r_canonical_facts r));
  ccDispatchers := deserializeDispatchers (Some (r_dispatchers r));
  ccTags := deserializeTags (r_tags r);
  ccMessageMetadata := {| LatestMessageID := null_string (r_message_id r);
                          LatestTimestamp := r_message_sent r |};
  ccTenantLookupTimestamp := zero_time;
  ccTenantLookupFailureCount := 0;
|}.

Definition sql_FindConnectionByClientID (client_id : ClientID)
    : M Db (ConnectorClientState * option error) :=
  perr ← db_Prepare;
  match perr with
  | Some err => mret (zero_state, Some (FatalError err))
  | None =>
      res ← db_QueryRow (filter (λ r, r_client_id r = client_id));
      mret match res with
           | inl r => (scan_state r, None)
           | inr err =>
               if errors_Is_e err ErrNoRows then (zero_state, Some NotFoundError)
               else (zero_state, Some (FatalError err))
           end
  end.

#[export] Instance sql_registrar {W} `{!Lens W Db} : ConnectionRegistrar W := {
  Register c := zoom (sql_Register c);
  Unregister cid := zoom (sql_Unregister cid);
  FindConnectionByClientID cid := zoom (sql_FindConnectionByClientID cid);
}.
End registrar.

(** ** The table as a map *)

Definition registry_of (rows : list Row) : gmap string ConnectorClientState :=
  list_to_map ((λ r, (r_client_id r, scan_state r)) <$> rows).

(** No two rows for a client (the schema has no such constraint), and the
    driver does not pass its own failures off as "no rows". *)
Definition unique_clients (rows : list Row) : Prop := NoDup (r_client_id <$> rows).
Definition db_ok (db : Db) : Prop :=
  unique_clients (table db) ∧
  ∀ n e, db_fault db n = Some e → errors_Is_e e ErrNoRows = false.

Section registry.
Implicit Types rows : list Row.

Lemma registry_lookup rows cid s :
  unique_clients rows →
  registry_of rows !! cid = Some s ↔ ∃ r, r ∈ rows ∧ r_client_id r = cid ∧ scan_state r = s.
Proof.
  intros Hu. unfold registry_of.
  rewrite <-elem_of_list_to_map
    by (rewrite <-list_fmap_compose; unfold compose; cbn; exact Hu).
  rewrite list_elem_of_fmap. naive_solver.
Qed.

Lemma registry_lookup_None rows cid :
  registry_of rows !! cid = None ↔ cid ∉ r_client_id <$> rows.
Proof.
  unfold registry_of. rewrite <-not_elem_of_list_to_map.
  rewrite <-list_fmap_compose. done.
Qed.

Lemma existsb_client rows cid :
  existsb (λ r, bool_decide (r_client_id r = cid)) rows = true ↔ cid ∈ r_client_id <$> rows.
Proof.
  rewrite existsb_exists, list_elem_of_fmap. setoid_rewrite bool_decide_eq_true.
  setoid_rewrite <-list_elem_of_In. naive_solver.
Qed.

Lemma row_unique rows r r' :
  unique_clients rows → r ∈ rows → r' ∈ rows → r_client_id r = r_client_id r' → r = r'.
Proof.
  unfold unique_clients. induction rows as [|x rows IH]; [by intros _ ?%elem_of_nil|].
  cbn. intros [Hx Hu]%NoDup_cons Hr Hr' Heq.
  apply elem_of_cons in Hr as [->|Hr], Hr' as [->|Hr']; auto.
  - destruct Hx. rewrite Heq. by apply list_elem_of_fmap_2.
  - destruct Hx. rewrite <-Heq. by apply list_elem_of_fmap_2.
Qed.

(** Rewriting a client's rows in place replaces its entry. *)
Lemma registry_update rows cid f r0 :
  (∀ r, r_client_id (f r) = r_client_id r) →
  unique_clients rows → r0 ∈ rows → r_client_id r0 = cid →
  let rows' := (λ r, if bool_decide (r_client_id r = cid) then f r else r) <$> rows in
  unique_clients rows' ∧ registry_of rows' = <[cid := scan_state (f r0)]> (registry_of rows).
Proof.
  intros Hf Hu Hr0 Hcid rows'.
  assert (Hu' : unique_clients rows').
  { unfold unique_clients, rows'. rewrite <-list_fmap_compose.
    erewrite list_fmap_ext; [exact Hu|]. intros i x _. cbn. by case_bool_decide. }
  split; [done|]. apply map_eq. intros k. apply option_eq. intros s.
  rewrite registry_lookup by done. unfold rows'. setoid_rewrite list_elem_of_fmap.
  destruct (decide (k = cid)) as [->|Hne].
  - rewrite lookup_insert_eq. split.
    + intros (r&(r1&->&Hr1)&Hk&Hs). case_bool_decide as Hc.
      * assert (r1 = r0) as -> by (apply (row_unique rows); congruence). by f_equal.
      * done.
    + intros [= <-]. exists (f r0). split; [|by rewrite Hf].
      exists r0. by rewrite bool_decide_eq_true_2.
  - rewrite lookup_insert_ne, registry_lookup by done. split.
    + intros (r&(r1&->&Hr1)&Hk&Hs). case_bool_decide as Hc; [|by eauto].
      rewrite Hf in Hk. congruence.
    + intros (r&Hr&Hk&Hs). exists r. split; [|done]. exists r.
      by rewrite bool_decide_eq_false_2 by congruence.
Qed.

Lemma registry_append rows r :
  unique_clients rows → r_client_id r ∉ r_client_id <$> rows →
  unique_clients (rows ++ [r]) ∧
  registry_of (rows ++ [r]) = <[r_client_id r := scan_state r]> (registry_of rows).
Proof.
  intros Hu Hnot.
  assert (Hu' : unique_clients (rows ++ [r])).
  { unfold unique_clients. rewrite fmap_app. apply NoDup_app. split_and!; [done| |].
    - intros x Hx ->%list_elem_of_singleton. done.
    - apply NoDup_singleton. }
  split; [done|]. apply map_eq. intros k. apply option_eq. intros s.
  rewrite registry_lookup by done. destruct (decide (k = r_client_id r)) as [->|Hne].
  - rewrite lookup_insert_eq. setoid_rewrite elem_of_app. split.
    + intros (r'&[Hr'|Hr'%list_elem_of_singleton]&Hk&Hs); [|naive_solver].
      destruct Hnot. rewrite <-Hk. by apply list_elem_of_fmap_2.
    + intros [= <-]. exists r. split; [|done]. right. by apply list_elem_of_singleton.
  - rewrite lookup_insert_ne, registry_lookup by done.
    setoid_rewrite elem_of_app. setoid_rewrite list_elem_of_singleton. naive_solver.
Qed.

Lemma registry_filter rows cid :
  unique_clients rows →
  let rows' := filter (λ r, r_client_id r ≠ cid) rows in
  unique_clients rows' ∧ registry_of rows' = delete cid (registry_of rows).
Proof.
  intros Hu rows'.
  assert (Hu' : unique_clients rows').
  { unfold unique_clients, rows'. eapply sublist_NoDup; [exact Hu|].
    apply fmap_sublist, sublist_filter. }
  split; [done|]. apply map_eq. intros k. apply option_eq. intros s.
  rewrite registry_lookup by done. unfold rows'. setoid_rewrite list_elem_of_filter.
  destruct (decide (k = cid)) as [->|Hne].
  - rewrite lookup_delete_eq. naive_solver.
  - rewrite lookup_delete_ne, registry_lookup by done. naive_solver.
Qed.
End registry.

(** ** The registrar implements the contract *)

Section contract.
#[local] Set Default Proof Using "Type*".
Context `{!Postgres, !PostgresLaws}.

(** The column widths of the schema. *)
Definition fits (c : ConnectorClientState) : bool :=
  (String.length (ccClientID c) <=? 100) && (String.length (ccOrgID c) <=? 20)
  && (String.length (ccAccount c) <=? 10)
  && (String.length (LatestMessageID (ccMessageMetadata c)) <=? 40).

(** A value as it comes back from a [jsonb] column. *)
Definition through_json (v : value) : value :=
  match Marshal v with Some s => (UnmarshalInterface s).1 | None => VNull end.

(** What a later lookup finds of a registered state: an update leaves the
    canonical facts of the first registration in place. *)
Definition store_form (old : option ConnectorClientState) (c : ConnectorClientState)
    : ConnectorClientState := {|
  ccAccount := ccAccount c;
  ccOrgID := ccOrgID c;
  ccClientID := ccClientID c;
  ccCanonicalFacts := match old with
                      | Some s => ccCanonicalFacts s
                      | None => through_json (ccCanonicalFacts c)
                      end;
  ccDispatchers := through_json (ccDispatchers c);
  ccTags := through_json (ccTags c);
  ccMessageMetadata := {|
    LatestMessageID := LatestMessageID (ccMessageMetadata c);
    LatestTimestamp := timestamptz_in (LatestTimestamp (ccMessageMetadata c)) |};
  ccTenantLookupTimestamp := zero_time;
  ccTenantLookupFailureCount := 0;
|}.

Lemma deserialize_jsonb v s t :
  Marshal v = Some s → jsonb_in s = Some t → deserialize (Some t) = through_json v.
Proof. intros Hm Hj. unfold deserialize, through_json. by rewrite Hm, (jsonb_faithful s t Hj). Qed.

Lemma varchar_inv n s s' : varchar n s = inl s' → String.length s ≤ n → s' = s.
Proof.
  unfold varchar. destruct (varchar_in n s) eqn:E; [|done]. intros [= <-].
  eauto using varchar_fits.
Qed.

(** The upsert statement, seen through the map. *)
Lemma upsert_registry c d f t ts reset now rows rows' :
  fits c = true → unique_clients rows →
  Marshal (ccDispatchers c) = Some d → Marshal (ccCanonicalFacts c) = Some f →
  Marshal (ccTags c) = Some t →
  upsert_statement {|
    ua_account := ccAccount c; ua_org_id := ccOrgID c; ua_client_id := ccClientID c;
    ua_dispatchers := d; ua_canonical_facts := f; ua_tags := t;
    ua_message_id := LatestMessageID (ccMessageMetadata c);
    ua_message_sent := LatestTimestamp (ccMessageMetadata c);
    ua_tenant_lookup_timestamp := ts; ua_reset_failure_count := reset |} now rows = inl rows' →
  unique_clients rows' ∧
  registry_of rows'
  = <[ccClientID c := store_form (registry_of rows !! ccClientID c) c]> (registry_of rows).
Proof.
  unfold fits. rewrite !andb_true_iff, !Nat.leb_le. intros [[[Hc Ho] Ha] Hm] Hu Hd Hf Ht.
  unfold upsert_statement, coerce_columns, jsonb. cbn -[existsb varchar].
  destruct (jsonb_in d) as [d'|] eqn:Hd'; [|done].
  destruct (jsonb_in f) as [f'|] eqn:Hf'; [|done].
  destruct (jsonb_in t) as [t'|] eqn:Ht'; [|done].
  destruct (varchar 40 _) as [m'|] eqn:Hm'; [|done].
  destruct (varchar 20 _) as [o'|] eqn:Ho'; [|done].
  destruct (varchar 10 _) as [a'|] eqn:Ha'; [|done].
  apply varchar_inv in Hm' as ->; [|done]. apply varchar_inv in Ho' as ->; [|done].
  apply varchar_inv in Ha' as ->; [|done].
  destruct (existsb _ rows) eqn:Hex.
  - intros [= <-]. apply existsb_client in Hex.
    apply list_elem_of_fmap in Hex as (r0&Hr0&Hin).
    edestruct (registry_update rows (ccClientID c)) as [Hu' Hreg];
      [|exact Hu|exact Hin|done|split; [exact Hu'|etrans; [exact Hreg|]]]; [done|].
    f_equal. rewrite (proj2 (registry_lookup rows _ (scan_state r0) Hu)) by eauto.
    unfold store_form, scan_state, deserializeDispatchers, deserializeTags. cbn -[deserialize].
    by rewrite Hr0, (deserialize_jsonb _ d d' Hd Hd'), (deserialize_jsonb _ t t' Ht Ht').
  - destruct (varchar 100 _) as [c'|] eqn:Hc'; [|done]. intros [= <-].
    apply varchar_inv in Hc' as ->; [|done].
    assert (Hnot : ccClientID c ∉ r_client_id <$> rows).
    { intros Hin%existsb_client. congruence. }
    rewrite (proj2 (registry_lookup_None rows _) Hnot).
    edestruct (registry_append rows) as [Hu' Hreg]; [exact Hu| |split;[exact Hu'|etrans;[exact Hreg|]]].
    { done. }
    f_equal.
    unfold store_form, scan_state, deserializeDispatchers, deserializeTags,
      deserializeCanonicalFacts. cbn -[deserialize].
    by rewrite (deserialize_jsonb _ d d' Hd Hd'), (deserialize_jsonb _ t t' Ht Ht'),
      (deserialize_jsonb _ f f' Hf Hf').
Qed.

Lemma db_ok_tick db : db_ok db → db_ok (tick_db db).
Proof. done. Qed.
Lemma db_ok_set rows db : unique_clients rows → db_ok db → db_ok (set_table rows db).
Proof. intros ? [_ ?]. done. Qed.

Lemma wp_Prepare db (Q : outcome (option error) → Db → Prop) :
  (∀ o, Q (Ret o) (tick_db db)) → wp db_Prepare db Q.
Proof. intros HQ. apply HQ. Qed.

Lemma wp_Exec stmt db (Q : outcome (option error) → Db → Prop) :
  (∀ e, Q (Ret (Some e)) (tick_db db)) →
  (∀ rows, stmt (db_clock db (db_tick db)) (table db) = inl rows →
           Q (Ret None) (set_table rows (tick_db db))) →
  wp (db_Exec stmt) db Q.
Proof.
  intros He Hr. unfold wp, db_Exec. destruct (db_fault db (db_tick db)); [apply He|].
  destruct (stmt _ _) eqn:E; [by apply Hr|apply He].
Qed.

Lemma wp_QueryRow {A} (select : list Row → list A) db (Q : outcome (A + error) → Db → Prop) :
  (∀ e, db_fault db (db_tick db) = Some e → Q (Ret (inr e)) (tick_db db)) →
  (select (table db) = [] → Q (Ret (inr ErrNoRows)) (tick_db db)) →
  (∀ a l, select (table db) = a :: l → Q (Ret (inl a)) (tick_db db)) →
  wp (db_QueryRow select) db Q.
Proof.
  intros He Hn Hr. unfold wp, db_QueryRow. destruct (db_fault _ _) eqn:Ef; [by apply He|].
  destruct (select _) eqn:E; [by apply Hn|by eapply Hr].
Qed.

Lemma sql_register_spec c db :
  db_ok db → fits c = true →
  wp (sql_Register c) db (λ o db', db_ok db' ∧
    match o with
    | Ret None => registry_of (table db')
        = <[ccClientID c := store_form (registry_of (table db) !! ccClientID c) c]>
            (registry_of (table db))
    | Ret (Some _) => table db' = table db
    | _ => False
    end).
Proof.
  intros Hok Hfit. unfold sql_Register. apply wp_bind.
  apply (wp_mono _ _ (λ o db', db' = db ∧ ∃ ts, o = Ret ts)).
  { destruct (isTenantlessConnection c); split; eauto. }
  intros o db' [-> [ts ->]]. apply wp_bind, wp_Prepare. intros [e|]; [by apply wp_ret|].
  destruct (Marshal (ccDispatchers c)) as [d|] eqn:Hd; [|by apply wp_ret].
  destruct (Marshal (ccCanonicalFacts c)) as [f|] eqn:Hf; [|by apply wp_ret].
  destruct (Marshal (ccTags c)) as [t|] eqn:Ht; [|by apply wp_ret].
  apply wp_bind, wp_Exec.
  - intros e. apply wp_ret. split; [done|]. destruct e; try done.
    cbn. by destruct (IsConnectionException _).
  - intros rows Hrows. apply wp_ret.
    destruct (upsert_registry _ _ _ _ _ _ _ _ _ Hfit (proj1 Hok) Hd Hf Ht Hrows) as [Hu Hreg].
    split; [by apply db_ok_set|done].
Qed.

Lemma sql_unregister_spec cid db :
  db_ok db →
  wp (sql_Unregister cid) db (λ o db', db_ok db' ∧
    match o with
    | Ret None => registry_of (table db') = delete cid (registry_of (table db))
    | Ret (Some e) => is_fatal_e e = true ∧ table db' = table db
    | _ => False
    end).
Proof.
  intros Hok. unfold sql_Unregister. apply wp_bind, wp_Prepare.
  intros [e|]; [by apply wp_ret|]. apply wp_bind, wp_Exec; [intros e; by apply wp_ret|].
  intros rows [= <-]. apply wp_ret.
  destruct (registry_filter (table db) cid (proj1 Hok)) as [Hu Hreg].
  split; [by apply db_ok_set|done].
Qed.

Lemma sql_find_spec cid db :
  db_ok db →
  wp (sql_FindConnectionByClientID cid) db (λ o db', db_ok db' ∧ table db' = table db ∧
    match o with
    | Ret (s, None) => registry_of (table db) !! cid = Some s
    | Ret (_, Some e) => (e = NotFoundError ∧ registry_of (table db) !! cid = None)
                         ∨ is_fatal_e e = true
    | _ => False
    end).
Proof.
  intros Hok. unfold sql_FindConnectionByClientID. apply wp_bind, wp_Prepare.
  intros [e|]; [apply wp_ret; eauto|]. apply wp_bind, wp_QueryRow.
  - intros e He. apply wp_ret. rewrite (proj2 Hok _ _ He). eauto.
  - intros Hnil. apply wp_ret. cbn. split_and!; [done..|]. left. split; [done|].
    apply registry_lookup_None. intros (r&->&Hr)%list_elem_of_fmap.
    assert (Hf : r ∈ filter (λ r', r_client_id r' = r_client_id r) (table db))
      by (by apply list_elem_of_filter). cbn in Hnil. rewrite Hnil in Hf. by apply elem_of_nil in Hf.
  - intros r l Hr. apply wp_ret. split_and!; [done..|].
    apply registry_lookup; [apply Hok|]. exists r.
    assert (Hin : r ∈ filter (λ r', r_client_id r' = cid) (table db)).
    { cbn in Hr. rewrite Hr. left. }
    apply list_elem_of_filter in Hin as [??]. done.
Qed.

(** Stored message times are as the column returns them. *)
Definition times_ok (rows : list Row) : Prop :=
  Forall (λ r, timestamptz_in (r_message_sent r) = r_message_sent r) rows.

Lemma upsert_times a now rows rows' :
  times_ok rows → upsert_statement a now rows = inl rows' → times_ok rows'.
Proof.
  intros Ht. unfold upsert_statement.
  destruct (jsonb (ua_dispatchers a)); [|done]. destruct (jsonb (ua_canonical_facts a)); [|done].
  destruct (jsonb (ua_tags a)); [|done]. destruct (coerce_columns _ _ _); [|done].
  destruct (existsb _ _); [|destruct (varchar 100 _); [|done]]; intros [= <-].
  - apply Forall_fmap. eapply Forall_impl; [exact Ht|]. intros r Hr. cbn.
    case_bool_decide; [apply timestamptz_idemp|done].
  - apply Forall_app. split; [done|]. apply Forall_singleton. apply timestamptz_idemp.
Qed.

Lemma sql_register_times c db :
  times_ok (table db) → wp (sql_Register c) db (λ _ db', times_ok (table db')).
Proof.
  intros Ht. unfold sql_Register. apply wp_bind.
  apply (wp_mono _ _ (λ o db', db' = db ∧ ∃ ts, o = Ret ts)).
  { destruct (isTenantlessConnection c); split; eauto. }
  intros o db' [-> [ts ->]]. apply wp_bind, wp_Prepare. intros [e|]; [by apply wp_ret|].
  destruct (Marshal (ccDispatchers c)); [|by apply wp_ret].
  destruct (Marshal (ccCanonicalFacts c)); [|by apply wp_ret].
  destruct (Marshal (ccTags c)); [|by apply wp_ret].
  apply wp_bind, wp_Exec; [intros e; by apply wp_ret|].
  intros rows Hrows. apply wp_ret. by eapply upsert_times.
Qed.

Lemma sql_unregister_times cid db :
  times_ok (table db) → wp (sql_Unregister cid) db (λ _ db', times_ok (table db')).
Proof.
  intros Ht. unfold sql_Unregister. apply wp_bind, wp_Prepare.
  intros [e|]; [by apply wp_ret|]. apply wp_bind, wp_Exec; [intros e; by apply wp_ret|].
  intros rows [= <-]. apply wp_ret. unfold times_ok in *. rewrite Forall_forall in Ht |- *.
  intros r [_ Hr]%list_elem_of_filter. by apply Ht.
Qed.

Lemma sql_register_returns c db : ∃ err db', sql_Register c db = (Ret err, db').
Proof.
  unfold sql_Register. unfold mbind at 1, M_bind at 1.
  destruct (isTenantlessConnection c); cbn [app_Now mret M_ret];
    unfold mbind, M_bind; cbn; destruct (db_fault db _); [by eexists _, _| |by eexists _, _|];
    do 3 (destruct (Marshal _); [|by eexists _, _]); unfold db_Exec; cbn;
    (destruct (db_fault db _); [|destruct (upsert_statement _ _ _)]); by eexists _, _.
Qed.

(** The registrar over any state that holds the database is an implementation
    of [RegistrarContract]. *)
#[export, program] Instance sql_registrar_contract {W} `{!Lens W Db} : RegistrarContract W := {
  registry w := registry_of (table (lget w));
  registrar_inv w := db_ok (lget w) ∧ times_ok (table (lget w));
  admissible c := fits c = true;
  stored := store_form;
}.
Next Obligation. done. Qed.
Next Obligation. done. Qed.
Next Obligation.
  intros W ? w cid s c [[Hu _] Ht] Hs Hle. apply registry_lookup in Hs as (r&Hr&_&<-); [|done].
  unfold times_ok in Ht. rewrite Forall_forall in Ht. specialize (Ht r Hr). cbn in Hle |- *.
  rewrite <-Ht. by apply timestamptz_mono.
Qed.
Next Obligation.
  intros W ? c w [Hok Ht] Hfit. apply wp_zoom.
  eapply wp_mono; [apply wp_and; [by apply sql_register_spec|by apply sql_register_times]|].
  cbn. intros [[e|]|s|s] db' [[Hok' Ho] Ht']; rewrite lget_lset; (split; [done|]); try done.
  by rewrite Ho.
Qed.
Next Obligation.
  intros W ? c w. destruct (sql_register_returns c (lget w)) as (err&db'&Hrun).
  exists err, (lset db' w). cbn. unfold zoom. by rewrite Hrun.
Qed.
Next Obligation.
  intros W ? cid w [Hok Ht]. apply wp_zoom.
  eapply wp_mono; [apply wp_and; [by apply sql_unregister_spec|by apply sql_unregister_times]|].
  cbn. intros [[e|]|s|s] db' [[Hok' Ho] Ht']; rewrite lget_lset; (split; [done|]); try done.
  destruct Ho as [? ->]. done.
Qed.
Next Obligation.
  intros W ? cid w [Hok Htm]. apply wp_zoom. eapply wp_mono; [by apply sql_find_spec|].
  cbn. intros o db' (Hok'&Ht&Ho). rewrite lget_lset, Ht. done.
Qed.
End contract.

(** ** A concrete database, for the witnesses *)

#[export] Program Instance simple_postgres : Postgres := {
  jsonb_in s := match parse s with Some _ => Some s | None => None end;
  timestamptz_in t := (t / 1000 * 1000)%Z;
  varchar_in n s := if String.length s <=? n then Some s else None;
  text_le := String.le;
  pq_Name code := if bool_decide (code = "08006") then "connection_failure" else "other";
  IsConnectionException code := bool_decide (code ∈ ["08000"; "08003"; "08006"; "08001"]);
}.

#[export] Instance simple_postgres_laws : PostgresLaws.
Proof.
  split; try apply _.
  - intros s t. cbn. by destruct (parse s); intros [= <-].
  - intros t. cbn. by rewrite Z.div_mul.
  - intros t t' Ht. cbn. apply Z.mul_le_mono_nonneg_r; [done|]. by apply Z.div_le_mono.
  - intros n s s'. cbn. by destruct (_ <=? _); intros [= <-].
Qed.

(** Consecutive instants, a second apart; no failures. *)
Definition test_db (rows : list Row) : Db := {|
  table := rows; db_tick := 0; db_fault := λ _, None; db_cut := λ _, None;
  db_clock := λ n, (Z.of_nat (1000 + n) * 1000000000)%Z;
  app_clock := λ n, (Z.of_nat (1000 + n) * 1000000000)%Z |}.

Definition test_row (org client : string) : Row := {|
  r_account := Some "540155"; r_org_id := org; r_client_id := client;
  r_dispatchers := "{}"; r_canonical_facts := "{}"; r_tags := None;
  r_created_at := 0; r_updated_at := 0; r_stale_timestamp := 0;
  r_message_id := Some "m0"; r_message_sent := 0;
  r_tenant_lookup_failure_count := Some 0%Z; r_tenant_lookup_timestamp := None |}.

Definition test_client (org client : string) : ConnectorClientState := {|
  ccAccount := "540155"; ccOrgID := org; ccClientID := client;
  ccCanonicalFacts := VObject {[ "insights_id" := VString "abc" ]};
  ccDispatchers := VObject {[ "rhc-worker-playbook" := VObject ∅ ]};
  ccTags := VNull;
  ccMessageMetadata := {| LatestMessageID := "m1"; LatestTimestamp := 5000000000 |};
  ccTenantLookupTimestamp := zero_time; ccTenantLookupFailureCount := 0 |}.

Lemma test_db_ok rows : NoDup (r_client_id <$> rows) → db_ok (test_db rows).
Proof. done. Qed.

(** ** Properties *)

(** The operations of the registrar, their results, and what the abstract map
    does: an operation takes effect or reports an error and has none. *)
Inductive registrar_op :=
| OpRegister (c : ConnectorClientState)
| OpUnregister (cid : ClientID)
| OpFind (cid : ClientID).

Inductive registrar_result :=
| RDone (err : option error)
| RFound (s : ConnectorClientState) (err : option error).

Definition run_op `{!Postgres} (op : registrar_op) : M Db registrar_result :=
  match op with
  | OpRegister c => e ← sql_Register c; mret (RDone e)
  | OpUnregister cid => e ← sql_Unregister cid; mret (RDone e)
  | OpFind cid => r ← sql_FindConnectionByClientID cid; mret (RFound r.1 r.2)
  end.

Fixpoint run_ops `{!Postgres} (ops : list registrar_op) : M Db (list registrar_result) :=
  match ops with
  | [] => mret []
  | op :: ops' => r ← run_op op; rs ← run_ops ops'; mret (r :: rs)
  end.

Inductive map_step `{!Postgres} (m : gmap string ConnectorClientState) :
    registrar_op → registrar_result → gmap string ConnectorClientState → Prop :=
| step_register c :
    map_step m (OpRegister c) (RDone None)
      (<[ccClientID c := store_form (m !! ccClientID c) c]> m)
| step_register_fails c e : map_step m (OpRegister c) (RDone (Some e)) m
| step_unregister cid : map_step m (OpUnregister cid) (RDone None) (delete cid m)
| step_unregister_fails cid e :
    is_fatal_e e = true → map_step m (OpUnregister cid) (RDone (Some e)) m
| step_find cid s : m !! cid = Some s → map_step m (OpFind cid) (RFound s None) m
| step_find_none cid s :
    m !! cid = None → map_step m (OpFind cid) (RFound s (Some NotFoundError)) m
| step_find_fails cid s e :
    is_fatal_e e = true → map_step m (OpFind cid) (RFound s (Some e)) m.

Inductive map_steps `{!Postgres} (m : gmap string ConnectorClientState) :
    list registrar_op → list registrar_result → gmap string ConnectorClientState → Prop :=
| steps_nil : map_steps m [] [] m
| steps_cons op r m' ops rs m'' :
    map_step m op r m' → map_steps m' ops rs m'' → map_steps m (op :: ops) (r :: rs) m''.

Definition op_fits (op : registrar_op) : bool :=
  match op with OpRegister c => fits c | _ => true end.

Section properties.
Context `{!Postgres, !PostgresLaws}.
#[local] Set Default Proof Using "Type*".

Lemma run_op_refines op db :
  db_ok db → op_fits op = true →
  wp (run_op op) db (λ o db', db_ok db' ∧
    ∃ r, o = Ret r ∧ map_step (registry_of (table db)) op r (registry_of (table db'))).
Proof.
  intros Hok Hfit. destruct op as [c|cid|cid]; cbn [run_op]; apply wp_bind.
  - eapply wp_mono; [by apply sql_register_spec|].
    intros [[e|]|s|s] db' [Hok' Ho]; try done; apply wp_ret; (split; [done|]); eexists;
      (split; [done|]); rewrite Ho; constructor.
  - eapply wp_mono; [by apply sql_unregister_spec|].
    intros [[e|]|s|s] db' [Hok' Ho]; try done; apply wp_ret; (split; [done|]); eexists;
      (split; [done|]).
    + destruct Ho as [He ->]. by constructor.
    + rewrite Ho. constructor.
  - eapply wp_mono; [by apply sql_find_spec|].
    intros [[s [e|]]|?|?] db' (Hok'&Ht&Ho); try done; apply wp_ret; (split; [done|]); eexists;
      (split; [done|]); rewrite Ht.
    + destruct Ho as [[-> Ho]|Ho]; by constructor.
    + by constructor.
Qed.

(** C1: Any sequence of registrar operations, whatever calls on the database
    fail, runs to the end without a panic, keeps one row per client, and
    behaves as the same sequence on a map from client ids to connections:
    each operation acts on its own client's entry, or reports an error and
    changes nothing. *)
Theorem registrar_refines_map ops db :
  db_ok db → forallb op_fits ops = true →
  wp (run_ops ops) db (λ o db', db_ok db' ∧
    ∃ rs, o = Ret rs ∧
          map_steps (registry_of (table db)) ops rs (registry_of (table db'))).
Proof.
  revert db. induction ops as [|op ops IH]; intros db Hok Hfit.
  { apply wp_ret. split; [done|]. eexists. split; [done|constructor]. }
  cbn in Hfit. apply andb_true_iff in Hfit as [Hop Hfit]. cbn [run_ops].
  apply wp_bind. eapply wp_mono; [by apply run_op_refines|].
  intros o db' (Hok'&r&->&Hstep). apply wp_bind. eapply wp_mono; [by apply IH|].
  intros o db'' (Hok''&rs&->&Hsteps). apply wp_ret.
  split; [done|]. eexists. split; [done|]. by econstructor.
Qed.

Lemma through_json_id v :
  value_ok v = true → (Z.of_nat (value_depth v) ≤ 10000)%Z → through_json v = v.
Proof.
  intros Hv Hd. destruct (Unmarshal_Marshal v Hv Hd) as (s&Hs&Hu).
  unfold through_json. by rewrite Hs, Hu.
Qed.

Definition json_ok (v : value) : bool := value_ok v && (Z.of_nat (value_depth v) <=? 10000)%Z.

Lemma through_json_ok v : json_ok v = true → through_json v = v.
Proof.
  unfold json_ok. rewrite andb_true_iff, Z.leb_le. intros [??]. by apply through_json_id.
Qed.

(** C19: Round trip through the database: after a successful [Register], a
    lookup that does not fail finds the client with the registered org,
    account, dispatchers, tags and message id, and the canonical facts of its
    first registration; every other client is as before. *)
Theorem register_find_roundtrip c db db' :
  db_ok db → fits c = true →
  json_ok (ccDispatchers c) = true → json_ok (ccTags c) = true →
  json_ok (ccCanonicalFacts c) = true →
  sql_Register c db = (Ret None, db') →
  db_fault db' (db_tick db') = None → db_fault db' (S (db_tick db')) = None →
  (∃ s, result_of (sql_FindConnectionByClientID (ccClientID c)) db' = Ret (s, None) ∧
    ccOrgID s = ccOrgID c ∧ ccAccount s = ccAccount c ∧ ccClientID s = ccClientID c ∧
    ccDispatchers s = ccDispatchers c ∧ ccTags s = ccTags c ∧
    LatestMessageID (ccMessageMetadata s) = LatestMessageID (ccMessageMetadata c) ∧
    ccCanonicalFacts s =
      match registry_of (table db) !! ccClientID c with
      | Some old => ccCanonicalFacts old
      | None => ccCanonicalFacts c
      end) ∧
  (∀ cid, cid ≠ ccClientID c →
    registry_of (table db') !! cid = registry_of (table db) !! cid).
Proof.
  intros Hok Hfit Hd Ht Hf Hreg H1 H2.
  pose proof (sql_register_spec c db Hok Hfit) as Hspec.
  rewrite wp_unfold, Hreg in Hspec. cbn in Hspec. destruct Hspec as [Hok' Heq].
  split; [|intros cid Hne; by rewrite Heq, lookup_insert_ne].
  pose proof (sql_find_spec (ccClientID c) db' Hok') as Hfind.
  assert (Hret : ∃ s, result_of (sql_FindConnectionByClientID (ccClientID c)) db' = Ret (s, None)).
  { unfold result_of. rewrite wp_unfold in Hfind. destruct Hfind as (_&_&Hfind). revert Hfind.
    unfold sql_FindConnectionByClientID, mbind, M_bind, db_Prepare, db_QueryRow. cbn.
    rewrite H1. cbn. rewrite H2. destruct (filter _ _) as [|r l]; cbn; [|by eauto].
    intros [[_ Hnone]|?]; [|done]. rewrite Heq, lookup_insert_eq in Hnone. done. }
  destruct Hret as [s Hret]. exists s. split; [done|].
  unfold result_of in Hret. rewrite wp_unfold, Hret in Hfind.
  destruct Hfind as (_&_&Hs). rewrite Heq, lookup_insert_eq in Hs. injection Hs as <-.
  unfold store_form. cbn. rewrite !through_json_ok by done.
  split_and!; try done.
Qed.
End properties.

Definition test_ops : list registrar_op := [
  OpRegister (test_client "111000" "client-a"); OpFind "client-a";
  OpUnregister "client-b"; OpFind "client-b"].

Lemma registrar_refines_map_witness :
  db_ok (test_db [test_row "111000" "client-b"]) ∧
  wp (run_ops test_ops) (test_db [test_row "111000" "client-b"]) (λ o db', db_ok db' ∧
    ∃ rs, o = Ret rs ∧
      map_steps (registry_of [test_row "111000" "client-b"]) test_ops rs
        (registry_of (table db'))).
Proof.
  assert (H : db_ok (test_db [test_row "111000" "client-b"])).
  { apply test_db_ok. apply NoDup_singleton. }
  split; [exact H|]. apply (registrar_refines_map test_ops _ H). vm_compute. reflexivity.
Defined.

Lemma register_find_roundtrip_witness :
  let db := test_db [] in
  let db' := (sql_Register (test_client "111000" "client-a") db).2 in
  ∃ s, result_of (sql_FindConnectionByClientID "client-a") db' = Ret (s, None) ∧
       ccOrgID s = "111000".
Proof.
  destruct (register_find_roundtrip (test_client "111000" "client-a") (test_db [])
    (sql_Register (test_client "111000" "client-a") (test_db [])).2)
    as [(s&Hs&Horg&_) _].
  - apply test_db_ok. apply NoDup_nil_2.
  - vm_compute. reflexivity.
  - vm_compute. reflexivity.
  - vm_compute. reflexivity.
  - vm_compute. reflexivity.
  - vm_compute. reflexivity.
  - vm_compute. reflexivity.
  - vm_compute. reflexivity.
  - exists s. split; [exact Hs|exact Horg].
Defined.

Section fatality.
Context `{!Postgres}.

(** [Register] reports a fatal error only when the statement cannot be
    prepared: [IsConnectionException] is asked about the error's condition
    name, while it recognises SQLSTATE codes of class 08, so a connection lost
    while the statement runs is reported as an ordinary error.  The other two
    operations report it as fatal. *)
Theorem register_exec_error_not_fatal c cid db code :
  (∀ code, String.prefix "08" (pq_Name code) = false) →
  (∀ s, IsConnectionException s = true → String.prefix "08" s = true) →
  is_Some (Marshal (ccDispatchers c)) → is_Some (Marshal (ccCanonicalFacts c)) →
  is_Some (Marshal (ccTags c)) →
  db_fault db (db_tick db) = None → db_fault db (S (db_tick db)) = Some (ErrPq code) →
  result_of (sql_Register c) db = Ret (Some (ErrPq code)) ∧
  result_of (sql_Unregister cid) db = Ret (Some (FatalError (ErrPq code))) ∧
  result_of (sql_FindConnectionByClientID cid) db
    = Ret (zero_state, Some (FatalError (ErrPq code))).
Proof.
  intros Hn Hi [d Hd] [f Hf] [t Ht] H0 H1. unfold result_of. split_and!.
  - assert (is_exec : IsConnectionException (pq_Name code) = false).
    { apply not_true_iff_false. intros Hx%Hi. by rewrite Hn in Hx. }
    unfold sql_Register. destruct (isTenantlessConnection c);
      unfold mbind, M_bind, db_Prepare, db_Exec; cbn;
      rewrite H0, Hd, Hf, Ht; cbn; rewrite H1; cbn; by rewrite is_exec.
  - unfold sql_Unregister, mbind, M_bind, db_Prepare, db_Exec. cbn.
    rewrite H0. cbn. by rewrite H1.
  - unfold sql_FindConnectionByClientID, mbind, M_bind, db_Prepare, db_QueryRow. cbn.
    rewrite H0. cbn. by rewrite H1.
Qed.
End fatality.

Lemma register_exec_error_not_fatal_witness :
  let db := {| table := []; db_tick := 0;
               db_fault := λ n, if n =? 1 then Some (ErrPq "08006") else None;
               db_cut := λ _, None; db_clock := λ _, 0%Z; app_clock := λ _, 0%Z |} in
  result_of (sql_Register (test_client "111000" "client-a")) db = Ret (Some (ErrPq "08006")).
Proof.
  intros db. refine (proj1 (register_exec_error_not_fatal
    (test_client "111000" "client-a") "client-a" db "08006" _ _ _ _ _ _ _)).
  - intros code. unfold pq_Name, simple_postgres. by case_bool_decide.
  - intros s. cbn. rewrite bool_decide_eq_true. clear. set_unfold.
    intros [->|[->|[->|[->|[]]]]]; done.
  - eexists. vm_compute. reflexivity.
  - eexists. vm_compute. reflexivity.
  - eexists. vm_compute. reflexivity.
  - reflexivity.
  - reflexivity.
Defined.
