(* ===== verification/Locators.v ===== *)
(** * Looking connections up ([internal/connection_repository/sql_connection_locator_v2.go])

    - [createGetConnectionByClientIDImpl] with the strict query and the relaxed
      one (the tenant's own connections, or those of a satellite);
    - [GetConnectionsByOrgID] and [GetAllConnections]: one page of the sorted
      selection, and the number of rows selected. *)

From S2P Require Import Prelude GoStrings GoNumTime Json Domain Repository.
From stdpp Require Import options.

Definition satelliteWorker : string := "foreman_rh_cloud".

(** The jsonb operator [?]: a key of an object, an element of an array, or the
    string itself. *)
Definition jsonb_exists (doc key : string) : bool :=
  match (UnmarshalInterface doc).1 with
  | VObject m => bool_decide (is_Some (m !! key))
  | VArray l => bool_decide (VString key ∈ l)
  | VString s => bool_decide (s = key)
  | _ => false
  end.

(** The WHERE clauses of the two lookups. *)
Definition strictConnectionLookupQuery (orgId : OrgID) (clientId : ClientID) (r : Row) : bool :=
  bool_decide (r_org_id r = orgId) && bool_decide (r_client_id r = clientId)
  && negb (bool_decide (r_org_id r = EmptyString)).

Definition relaxedConnectionLookupQuery (orgId : OrgID) (clientId : ClientID) (r : Row) : bool :=
  (bool_decide (r_org_id r = orgId) || jsonb_exists (r_dispatchers r) satelliteWorker)
  && negb (bool_decide (r_org_id r = EmptyString)) && bool_decide (r_client_id r = clientId).

(** The state the lookups build from a row; it carries no message metadata. *)
Definition located_state (clientId : ClientID) (r : Row) : ConnectorClientState := {|
  ccAccount := null_string (r_account r);
  ccOrgID := r_org_id r;
  ccClientID := clientId;
  ccCanonicalFacts := deserializeCanonicalFacts (Some (r_canonical_facts r));
  ccDispatchers := deserializeDispatchers (Some (r_dispatchers r));
  ccTags := deserializeTags (r_tags r);
  ccMessageMetadata := ccMessageMetadata zero_state;
  ccTenantLookupTimestamp := zero_time;
  ccTenantLookupFailureCount := 0;
|}.

Definition createGetConnectionByClientIDImpl (sqlQuery : OrgID → ClientID → Row → bool)
    (orgId : OrgID) (clientId : ClientID) : M Db (ConnectorClientState * option error) :=
  match verifyOrgId orgId with
  | Some err => mret (zero_state, Some err)
  | None =>
  match verifyClientId clientId with
  | Some err => mret (zero_state, Some err)
  | None =>
      perr ← db_Prepare;
      match perr with
      | Some err => mret (zero_state, Some err)
      | None =>
          res ← db_QueryRow (filter (λ r, sqlQuery orgId clientId r));
          mret match res with
               | inr err => (zero_state, Some (if bool_decide (err = ErrNoRows)
                                               then NotFoundError else err))
               | inl r => (located_state clientId r, None)
               end
      end
  end end.

Definition NewSqlGetConnectionByClientID : OrgID → ClientID → M Db (ConnectorClientState * option error) :=
  createGetConnectionByClientIDImpl strictConnectionLookupQuery.

(** The wrapper adds a log message when the access is relaxed. *)
Definition NewPermittedTenantSqlGetConnectionByClientID (orgId : OrgID) (clientId : ClientID)
    : M Db (ConnectorClientState * option error) :=
  r ← createGetConnectionByClientIDImpl relaxedConnectionLookupQuery orgId clientId;
  let '(clientState, err) := r in
  match err with
  | Some e => mret (clientState, Some e)
  | None => mret (clientState, err)
  end.

(** [OFFSET] and [LIMIT] *)
Definition page {A} (offset limit : Z) (l : list A) : list A + error :=
  if (offset <? 0)%Z then inr (ErrPq "2201X")
  else if (limit <? 0)%Z then inr (ErrPq "2201W")
  else
    let n := Z.of_nat (length l) in
    inl (take (Z.to_nat (Z.min limit n)) (drop (Z.to_nat (Z.min offset n)) l)).

Abbreviation connections := (gmap ClientID ConnectorClientState).

Section locator.
Context `{!Postgres}.

Definition before_client (r r' : Row) : Prop := text_le (r_client_id r) (r_client_id r').
#[export] Instance before_client_dec : RelDecision before_client.
Proof. intros r r'. apply text_le_dec. Defined.
Definition sort_by_client (rows : list Row) : list Row := merge_sort before_client rows.

Definition before_org_client (r r' : Row) : Prop :=
  if bool_decide (r_org_id r = r_org_id r') then text_le (r_client_id r) (r_client_id r')
  else text_le (r_org_id r) (r_org_id r').
#[export] Instance before_org_client_dec : RelDecision before_org_client.
Proof. intros r r'. unfold before_org_client. case_bool_decide; apply text_le_dec. Defined.
Definition sort_by_org_client (rows : list Row) : list Row :=
  merge_sort before_org_client rows.

(** [COUNT( * ) OVER()] *)
Definition with_total {A} (l : list A) : list (A * Z) :=
  (λ x, (x, Z.of_nat (length l))) <$> l.

Definition select_by_org (orgId : OrgID) (offset limit : Z) (rows : list Row)
    : list (Row * Z) + error :=
  page offset limit (with_total (sort_by_client (filter (λ r, r_org_id r = orgId) rows))).

Definition select_all (offset limit : Z) (rows : list Row) : list (Row * Z) + error :=
  page offset limit
    (with_total (sort_by_org_client (filter (λ r, r_org_id r ≠ EmptyString) rows))).

(** The loop over the rows: the map and [totalConnections]. *)
Definition collect_by_org (acc : connections * Z) (row : Row * Z) : connections * Z :=
  (<[r_client_id row.1 := located_state (r_client_id row.1) row.1]> acc.1, row.2).

Definition NewSqlGetConnectionsByOrgID (orgId : OrgID) (offset limit : Z)
    : M Db (option connections * Z * option error) :=
  match verifyOrgId orgId with
  | Some err => mret (None, 0%Z, Some err)
  | None =>
      perr ← db_Prepare;
      match perr with
      | Some err => mret (None, 0%Z, Some err)
      | None =>
          res ← db_Query (select_by_org orgId offset limit);
          mret match res with
               | inr err => (None, 0%Z, Some err)
               | inl rows => let '(m, total) := foldl collect_by_org (∅, 0%Z) rows in
                             (Some m, total, None)
               end
      end
  end.

(** The account is scanned into a string: a NULL account makes the scan fail on
    its first column, and the row is skipped. *)
Definition collect_all (acc : gmap AccountID connections * Z) (row : Row * Z)
    : gmap AccountID connections * Z :=
  match r_account row.1 with
  | None => acc
  | Some account =>
      let cid := r_client_id row.1 in
      (<[account := <[cid := located_state cid row.1]> (default ∅ (acc.1 !! account))]> acc.1,
       row.2)
  end.

Definition NewGetAllConnections (offset limit : Z)
    : M Db (option (gmap AccountID connections) * Z * option error) :=
  perr ← db_Prepare;
  match perr with
  | Some err => mret (None, 0%Z, Some err)
  | None =>
      res ← db_Query (select_all offset limit);
      mret match res with
           | inr err => (None, 0%Z, Some err)
           | inl rows => let '(m, total) := foldl collect_all (∅, 0%Z) rows in
                         (Some m, total, None)
           end
  end.
End locator.

(** ** Lemmas *)

Lemma create_lookup_spec q org cid db :
  db_ok db →
  wp (createGetConnectionByClientIDImpl q org cid) db (λ o db', table db' = table db ∧
    match o with
    | Ret (s, None) => org ≠ EmptyString ∧ cid ≠ EmptyString ∧
        ∃ r, r ∈ table db ∧ q org cid r = true ∧ s = located_state cid r
    | Ret (s, Some e) => s = zero_state ∧
        ((org = EmptyString ∧ e = InvalidOrgIDError) ∨
         (org ≠ EmptyString ∧ cid = EmptyString ∧ e = InvalidClientIDError) ∨
         (org ≠ EmptyString ∧ cid ≠ EmptyString ∧ e = NotFoundError ∧
            ∀ r, r ∈ table db → q org cid r = false) ∨
         ∃ n, db_fault db n = Some e)
    | _ => False
    end).
Proof.
  intros [_ Hok]. unfold createGetConnectionByClientIDImpl, verifyOrgId, verifyClientId.
  case_bool_decide as Ho; [apply wp_ret; naive_solver|].
  case_bool_decide as Hc; [apply wp_ret; naive_solver|].
  apply wp_bind. rewrite wp_unfold. unfold db_Prepare. cbn.
  destruct (db_fault db (db_tick db)) as [e|] eqn:Hf; [apply wp_ret; naive_solver|].
  apply wp_bind, wp_QueryRow.
  - intros e He. apply wp_ret. rewrite bool_decide_eq_false_2; [by eauto 8|].
    intros ->. specialize (Hok _ _ He). by vm_compute in Hok.
  - intros Hnil. apply wp_ret. rewrite bool_decide_eq_true_2 by done.
    split_and!; [done..|]. right; right; left. split_and!; [done..|].
    intros r Hr. apply not_true_iff_false. intros Hq.
    assert (Hin : r ∈ filter (λ r', q org cid r') (table db))
      by (apply list_elem_of_filter; split; [by rewrite Hq|done]).
    cbn in Hnil. rewrite Hnil in Hin. by apply elem_of_nil in Hin.
  - intros r l Hr. apply wp_ret. split_and!; [done..|]. exists r.
    assert (Hin : r ∈ filter (λ r', q org cid r') (table db)) by (cbn in Hr; rewrite Hr; left).
    apply list_elem_of_filter in Hin as [Hq%Is_true_true ?]. done.
Qed.

Definition client_map (rows : list Row) : connections :=
  list_to_map ((λ r, (r_client_id r, located_state (r_client_id r) r)) <$> rows).

Lemma client_map_app l1 l2 : client_map (l1 ++ l2) = client_map l1 ∪ client_map l2.
Proof. unfold client_map. by rewrite fmap_app, list_to_map_app. Qed.

Lemma client_map_None rows k : k ∉ r_client_id <$> rows → client_map rows !! k = None.
Proof.
  intros Hk. apply not_elem_of_list_to_map. by rewrite <-list_fmap_compose.
Qed.

Lemma client_map_disjoint l1 l2 :
  unique_clients (l1 ++ l2) → client_map l1 ##ₘ client_map l2.
Proof.
  unfold unique_clients. rewrite fmap_app. intros (_&Hd&_)%NoDup_app.
  apply map_disjoint_spec. intros k s1 s2 H1 H2.
  assert (k ∈ r_client_id <$> l1) as Hk1.
  { destruct (decide (k ∈ r_client_id <$> l1)) as [|Hn]; [done|].
    by rewrite client_map_None in H1. }
  rewrite client_map_None in H2 by (by apply Hd). done.
Qed.

Lemma client_map_perm l1 l2 : unique_clients l1 → l1 ≡ₚ l2 → client_map l1 = client_map l2.
Proof.
  intros Hu Hp. unfold client_map. apply list_to_map_proper.
  - by rewrite <-list_fmap_compose.
  - by rewrite Hp.
Qed.

Lemma foldl_collect_map (rows : list (Row * Z)) m t :
  unique_clients rows.*1 →
  (foldl collect_by_org (m, t) rows).1 = client_map rows.*1 ∪ m.
Proof.
  revert m t. induction rows as [|[r n] rows IH]; intros m t Hu.
  { cbn. unfold client_map. cbn. by rewrite (left_id_L ∅ (∪)). }
  cbn in Hu. apply NoDup_cons in Hu as [Hr Hu]. cbn [foldl]. change (collect_by_org (m, t) (r, n)) with
    (<[r_client_id r := located_state (r_client_id r) r]> m, n).
  cbn [fmap list_fmap fst]. rewrite IH by done. change (client_map (r :: rows.*1)) with
    (<[r_client_id r := located_state (r_client_id r) r]> (client_map rows.*1)).
  rewrite <-insert_union_r by (by apply client_map_None). by rewrite insert_union_l.
Qed.

Lemma foldl_collect_total (rows : list (Row * Z)) m t n :
  Forall (λ x, x.2 = n) rows →
  (foldl collect_by_org (m, t) rows).2 = if decide (rows = []) then t else n.
Proof.
  intros HF. revert m t. induction HF as [|x rows Hx HF IH]; intros m t; [done|].
  cbn [foldl]. destruct (collect_by_org (m, t) x) as [m' t'] eqn:E. rewrite IH.
  unfold collect_by_org in E. simplify_eq/=. by case_decide.
Qed.

Lemma unique_filter (P : Row → Prop) `{!∀ r, Decision (P r)} rows :
  unique_clients rows → unique_clients (filter P rows).
Proof.
  intros Hu. eapply sublist_NoDup; [exact Hu|]. apply fmap_sublist, sublist_filter.
Qed.

Lemma unique_sublist l1 l2 : l1 `sublist_of` l2 → unique_clients l2 → unique_clients l1.
Proof. intros Hs Hu. eapply sublist_NoDup; [exact Hu|]. by apply fmap_sublist. Qed.

Section paging.
Context `{!Postgres}.

Definition org_rows (org : OrgID) (rows : list Row) : list Row :=
  sort_by_client (filter (λ r, r_org_id r = org) rows).

Lemma org_rows_perm org rows : org_rows org rows ≡ₚ filter (λ r, r_org_id r = org) rows.
Proof. apply merge_sort_Permutation. Qed.

Lemma org_rows_unique org rows : unique_clients rows → unique_clients (org_rows org rows).
Proof.
  intros Hu. unfold unique_clients. rewrite org_rows_perm. by apply unique_filter.
Qed.

(** A page of a list, offsets and limits as natural numbers. *)
Definition slice {A} (offset limit : nat) (l : list A) : list A := take limit (drop offset l).

Lemma page_slice {A} offset limit (l : list A) :
  page (Z.of_nat offset) (Z.of_nat limit) l = inl (slice offset limit l).
Proof.
  unfold page, slice. rewrite !(proj2 (Z.ltb_ge _ _)) by lia. f_equal.
  rewrite <-!Nat2Z.inj_min, !Nat2Z.id.
  destruct (decide (offset ≤ length l)) as [Ho|Ho].
  - rewrite (Nat.min_l offset) by done.
    destruct (decide (limit ≤ length l)); [by rewrite Nat.min_l|].
    rewrite Nat.min_r, !take_ge; rewrite ?length_drop; lia || done.
  - rewrite (Nat.min_r offset), !drop_ge by lia. by rewrite !take_nil.
Qed.

Lemma slice_fmap {A B} (f : A → B) o n l : slice o n (f <$> l) = f <$> slice o n l.
Proof. unfold slice. by rewrite <-fmap_drop, <-fmap_take. Qed.

Lemma slice_sublist {A} o n (l : list A) : slice o n l `sublist_of` l.
Proof. unfold slice. etrans; [apply sublist_take|apply sublist_drop]. Qed.

(** No call fails and no iteration breaks off. *)
Definition healthy (db : Db) : Prop :=
  (∀ n, db_fault db n = None) ∧ (∀ n, db_cut db n = None).

Lemma list_by_org_spec org offset limit db :
  healthy db → unique_clients (table db) → org ≠ EmptyString →
  result_of (NewSqlGetConnectionsByOrgID org (Z.of_nat offset) (Z.of_nat limit)) db
  = Ret (Some (client_map (slice offset limit (org_rows org (table db)))),
         (if decide (slice offset limit (org_rows org (table db)) = []) then 0
          else Z.of_nat (length (org_rows org (table db))))%Z, None).
Proof.
  intros [Hf Hc] Hu Ho. unfold result_of, NewSqlGetConnectionsByOrgID, verifyOrgId.
  rewrite bool_decide_eq_false_2 by done.
  unfold mbind, M_bind, db_Prepare, db_Query. cbn. rewrite !Hf. cbn.
  unfold select_by_org. rewrite page_slice. cbn. rewrite Hf. cbn. rewrite Hc.
  fold (org_rows org (table db)). unfold with_total. rewrite slice_fmap.
  set (rs := slice offset limit (org_rows org (table db))).
  set (n := Z.of_nat (length (org_rows org (table db)))).
  assert (H1 : ((λ x, (x, n)) <$> rs).*1 = rs).
  { rewrite <-list_fmap_compose. by rewrite list_fmap_id. }
  pose proof (foldl_collect_map ((λ x, (x, n)) <$> rs) ∅ 0%Z) as Hm.
  pose proof (foldl_collect_total ((λ x, (x, n)) <$> rs) ∅ 0%Z n) as Ht.
  destruct (foldl _ _ _) as [m t]. cbn in Hm, Ht. cbn. rewrite Hm, Ht, H1.
  - rewrite (right_id_L ∅ (∪)). do 3 f_equal. by destruct rs.
  - apply Forall_fmap, Forall_true. done.
  - rewrite H1. eapply unique_sublist; [apply slice_sublist|by apply org_rows_unique].
Qed.

Lemma slices_concat {A} (l : list A) limit k :
  concat ((λ i, slice (i * limit) limit l) <$> seq 0 k) = take (k * limit) l.
Proof.
  induction k as [|k IH]; [done|].
  rewrite seq_S, fmap_app, concat_app, IH. cbn. rewrite app_nil_r.
  unfold slice. rewrite take_drop_page. f_equal. lia.
Qed.

Lemma client_map_concat (ls : list (list Row)) :
  client_map (concat ls) = ⋃ (client_map <$> ls).
Proof. induction ls as [|l ls IH]; [done|]. change (concat (l :: ls)) with (l ++ concat ls).
  by rewrite client_map_app, IH. Qed.
End paging.

(** ** Properties *)

(** C9: Tenant isolation of the strict lookup: whatever fails, it changes
    nothing and does not panic; a connection is returned only to the org it is
    registered under, with the state of its row; "Not found" means that the org
    has no such connection; empty ids are rejected before the database is asked. *)
Theorem strict_lookup_isolation org cid db :
  db_ok db →
  wp (NewSqlGetConnectionByClientID org cid) db (λ o db', table db' = table db ∧
    match o with
    | Ret (s, None) => org ≠ EmptyString ∧
        ∃ r, r ∈ table db ∧ r_org_id r = org ∧ r_client_id r = cid ∧
             s = located_state cid r ∧ ccOrgID s = org
    | Ret (_, Some e) =>
        (org = EmptyString ∧ e = InvalidOrgIDError) ∨
        (org ≠ EmptyString ∧ cid = EmptyString ∧ e = InvalidClientIDError) ∨
        (e = NotFoundError ∧ ∀ r, r ∈ table db → r_org_id r = org → r_client_id r ≠ cid) ∨
        ∃ n, db_fault db n = Some e
    | _ => False
    end).
Proof.
  intros Hok. eapply wp_mono; [by apply create_lookup_spec|].
  intros [[s [e|]]|?|?] db' [Ht Ho]; split; try done.
  - destruct Ho as (_&[?|[?|[(Ho&Hc&->&Hn)|?]]]); [by auto..| |by auto].
    right; right; left. split; [done|]. intros r Hr <- <-. specialize (Hn r Hr).
    unfold strictConnectionLookupQuery in Hn.
    rewrite !bool_decide_eq_true_2, bool_decide_eq_false_2 in Hn by done. done.
  - destruct Ho as (Ho&Hc&r&Hr&Hq&->). split; [done|]. exists r.
    unfold strictConnectionLookupQuery in Hq.
    apply andb_true_iff in Hq as [Hq _]. apply andb_true_iff in Hq as [H1 H2].
    apply bool_decide_eq_true in H1, H2. done.
Qed.

Lemma strict_lookup_isolation_witness :
  let db := test_db [test_row "111000" "client-a"] in
  db_ok db ∧ wp (NewSqlGetConnectionByClientID "222000" "client-a") db (λ o db', table db' = table db ∧
    match o with
    | Ret (s, None) => "222000" ≠ EmptyString ∧
        ∃ r, r ∈ table db ∧ r_org_id r = "222000" ∧ r_client_id r = "client-a" ∧
             s = located_state "client-a" r ∧ ccOrgID s = "222000"
    | Ret (_, Some e) =>
        ("222000" = EmptyString ∧ e = InvalidOrgIDError) ∨
        ("222000" ≠ EmptyString ∧ "client-a" = EmptyString ∧ e = InvalidClientIDError) ∨
        (e = NotFoundError ∧ ∀ r, r ∈ table db → r_org_id r = "222000" → r_client_id r ≠ "client-a") ∨
        ∃ n, db_fault db n = Some e
    | _ => False
    end).
Proof.
  intros db. assert (H : db_ok db) by (apply test_db_ok, NoDup_singleton).
  split; [exact H|]. apply (strict_lookup_isolation "222000" "client-a" db H).
Defined.

(** C10: The relaxed lookup gives access beyond the own org only to connections
    of a satellite (their dispatchers name the worker), never to a connection
    without a tenant, and never to another client id; and it answers "Not found"
    only when neither kind of connection exists. *)
Theorem relaxed_lookup_scope org cid db :
  db_ok db → (∀ n, db_fault db n ≠ Some NotFoundError) →
  wp (NewPermittedTenantSqlGetConnectionByClientID org cid) db (λ o db', table db' = table db ∧
    match o with
    | Ret (s, None) =>
        ∃ r, r ∈ table db ∧ r_client_id r = cid ∧ r_org_id r ≠ EmptyString ∧
             s = located_state cid r ∧
             (r_org_id r = org ∨ jsonb_exists (r_dispatchers r) satelliteWorker = true)
    | Ret (_, Some e) =>
        e = NotFoundError →
        ∀ r, r ∈ table db → r_client_id r = cid → r_org_id r ≠ EmptyString →
             r_org_id r ≠ org ∧ jsonb_exists (r_dispatchers r) satelliteWorker = false
    | _ => False
    end).
Proof.
  intros Hok Hnf. unfold NewPermittedTenantSqlGetConnectionByClientID. apply wp_bind.
  eapply wp_mono; [by apply create_lookup_spec|].
  intros [[s [e|]]|?|?] db' [Ht Ho]; try done.
  - apply wp_ret. destruct Ho as (_&[[_ ->]|[(_&_&->)|[(Ho&Hc&->&Hn)|[n Hf]]]]).
    + by split.
    + by split.
    + split; [done|]. intros _ r Hr Hcid Hne. specialize (Hn r Hr).
      unfold relaxedConnectionLookupQuery in Hn.
      rewrite (bool_decide_eq_true_2 (r_client_id r = cid)), andb_true_r in Hn by done.
      rewrite (bool_decide_eq_false_2 (r_org_id r = EmptyString)), andb_true_r in Hn by done.
      apply orb_false_iff in Hn as [Hn1%bool_decide_eq_false Hn2]. done.
    + split; [done|]. intros ->. by destruct (Hnf n).
  - apply wp_ret. split; [done|]. destruct Ho as (_&_&r&Hr&Hq&->). exists r.
    unfold relaxedConnectionLookupQuery in Hq. rewrite !andb_true_iff, orb_true_iff in Hq.
    rewrite negb_true_iff, bool_decide_eq_false, !bool_decide_eq_true in Hq. naive_solver.
Qed.

Definition satellite_row : Row := {|
  r_account := Some "540155"; r_org_id := "111000"; r_client_id := "client-a";
  r_dispatchers := String "{" (String dquote ("foreman_rh_cloud" +:+ String dquote ":{}}"));
  r_canonical_facts := "{}"; r_tags := None; r_created_at := 0; r_updated_at := 0;
  r_stale_timestamp := 0; r_message_id := None; r_message_sent := 0;
  r_tenant_lookup_failure_count := Some 0%Z; r_tenant_lookup_timestamp := None |}.

Lemma relaxed_lookup_scope_witness :
  let db := test_db [satellite_row] in
  ∃ s, result_of (NewPermittedTenantSqlGetConnectionByClientID "222000" "client-a") db
         = Ret (s, None) ∧ ccOrgID s = "111000" ∧
       jsonb_exists (r_dispatchers satellite_row) satelliteWorker = true.
Proof.
  intros db. assert (H : db_ok db) by (apply test_db_ok, NoDup_singleton).
  assert (Hn : ∀ n, db_fault db n ≠ Some NotFoundError) by discriminate.
  pose proof (relaxed_lookup_scope "222000" "client-a" db H Hn) as [_ Hs].
  eexists. split; [vm_compute; reflexivity|]. split; vm_compute; reflexivity.
Defined.

Section paging_properties.
Context `{!Postgres}.

Definition org_page (db : Db) (org : OrgID) (offset limit : nat) : connections :=
  match result_of (NewSqlGetConnectionsByOrgID org (Z.of_nat offset) (Z.of_nat limit)) db with
  | Ret (Some m, _, _) => m
  | _ => ∅
  end.

Lemma org_rows_sorted `{!PostgresLaws} org (rows : list Row) :
  StronglySorted (λ r r', text_le (r_client_id r) (r_client_id r')) (org_rows org rows).
Proof.
  change (StronglySorted before_client (org_rows org rows)). apply @StronglySorted_merge_sort.
  - intros r1 r2 r3 H1 H2. unfold before_client in *. by etrans.
  - intros r1 r2. apply text_le_total.
Qed.

(** C20: Paging through an org's connections.  There is one list of the org's rows,
    in the order of the client ids, of which every page, wherever it starts and
    however long it is, is exactly the rows from its offset on up to its limit,
    each under its client id, with the total number of rows (0 with an empty page).
    So consecutive pages are disjoint, and enough of them together are the org's
    connections. *)
Theorem list_pages_partition `{!PostgresLaws} org db :
  healthy db → unique_clients (table db) → org ≠ EmptyString →
  ∃ rows, rows ≡ₚ filter (λ r, r_org_id r = org) (table db) ∧
    StronglySorted (λ r r', text_le (r_client_id r) (r_client_id r')) rows ∧
    (∀ offset limit, result_of (NewSqlGetConnectionsByOrgID org (Z.of_nat offset) (Z.of_nat limit)) db
      = Ret (Some (client_map (take limit (drop offset rows))),
             if decide (take limit (drop offset rows) = []) then 0%Z else Z.of_nat (length rows), None)) ∧
    (∀ limit k, length rows ≤ k * limit →
       ⋃ ((λ i, org_page db org (i * limit) limit) <$> seq 0 k) = client_map rows) ∧
    (∀ limit i j, i < j → org_page db org (i * limit) limit ##ₘ org_page db org (j * limit) limit).
Proof.
  intros Hh Hu Ho. set (rows := org_rows org (table db)). pose proof (org_rows_unique org _ Hu) as Huo.
  assert (Hpage : ∀ limit i, org_page db org (i * limit) limit = client_map (slice (i * limit) limit rows)).
  { intros limit i. unfold org_page. by rewrite list_by_org_spec. }
  exists rows. split_and!.
  - apply org_rows_perm.
  - apply org_rows_sorted.
  - intros offset limit. by apply list_by_org_spec.
  - intros limit k Hk. trans (client_map (concat ((λ i, slice (i * limit) limit rows) <$> seq 0 k))).
    { rewrite client_map_concat, <-list_fmap_compose. f_equal. by apply list_fmap_ext. }
    by rewrite slices_concat, take_ge by lia.
  - intros limit i j Hij. rewrite !Hpage. apply client_map_disjoint.
    eapply unique_sublist; [|exact Huo]. fold rows.
    rewrite <-(take_drop (j * limit) rows) at 3.
    apply sublist_app; [|unfold slice; apply sublist_take].
    unfold slice. rewrite take_drop_commute. etrans; [apply sublist_drop|].
    assert (i * limit + limit ≤ j * limit) by nia.
    replace (take (i * limit + limit) rows) with (take (i * limit + limit) (take (j * limit) rows))
      by (rewrite take_take; f_equal; lia).
    apply sublist_take.
Qed.
End paging_properties.

Lemma list_pages_partition_witness :
  let db := test_db [test_row "111000" "c"; test_row "222000" "b"; test_row "111000" "a"] in
  ∃ rows, rows ≡ₚ [test_row "111000" "c"; test_row "111000" "a"] ∧
    result_of (NewSqlGetConnectionsByOrgID "111000" 0 1) db
      = Ret (Some (client_map (take 1 rows)), if decide (take 1 rows = []) then 0%Z else Z.of_nat (length rows), None) ∧
    result_of (NewSqlGetConnectionsByOrgID "111000" 0 1) db
      = Ret (Some (client_map [test_row "111000" "a"]), 2%Z, None) ∧
    ⋃ ((λ i, org_page db "111000" (i * 1) 1) <$> seq 0 2) = client_map rows.
Proof.
  intros db. destruct (list_pages_partition "111000" db) as (rows&Hp&_&Hpage&Hall&_).
  - split; reflexivity.
  - apply (bool_decide_unpack _). vm_compute. exact I.
  - discriminate.
  - exists rows. split; [exact Hp|]. split; [exact (Hpage 0 1)|]. split; [vm_compute; reflexivity|].
    apply Hall. apply Permutation_length in Hp. rewrite Hp. vm_compute. reflexivity.
Defined.

(** The entry of a client in the nested map of all connections. *)
Definition entry (m : gmap AccountID connections) (account : AccountID) (cid : ClientID)
  : option ConnectorClientState := c ← m !! account; c !! cid.

Lemma entry_insert m a c s a' c' :
  entry (<[a := <[c := s]> (default ∅ (m !! a))]> m) a' c'
  = if bool_decide (a = a' ∧ c = c') then Some s else entry m a' c'.
Proof.
  unfold entry. case_bool_decide as H.
  - destruct H as [-> ->]. rewrite lookup_insert_eq. cbn. by rewrite lookup_insert_eq.
  - destruct (decide (a = a')) as [->|Ha]; [|by rewrite lookup_insert_ne].
    rewrite lookup_insert_eq. cbn. rewrite lookup_insert_ne by naive_solver.
    by destruct (m !! a').
Qed.

Lemma foldl_collect_all (rows : list (Row * Z)) acc account cid s :
  unique_clients rows.*1 →
  entry (foldl collect_all acc rows).1 account cid = Some s ↔
  (∃ r, r ∈ rows.*1 ∧ r_account r = Some account ∧ r_client_id r = cid ∧ s = located_state cid r)
  ∨ (¬ (∃ r, r ∈ rows.*1 ∧ r_account r = Some account ∧ r_client_id r = cid)
     ∧ entry acc.1 account cid = Some s).
Proof.
  revert acc. induction rows as [|[x n] rows IH]; intros acc Hu.
  { cbn. setoid_rewrite elem_of_nil. naive_solver. }
  cbn in Hu. apply NoDup_cons in Hu as [Hx Hu]. cbn [foldl]. rewrite IH by done. clear IH.
  cbn [fmap list_fmap fst]. setoid_rewrite elem_of_cons.
  assert (Hfresh : ∀ r, r ∈ rows.*1 → r_client_id r ≠ r_client_id x).
  { intros r Hr Heq. apply Hx. rewrite <-Heq. by apply list_elem_of_fmap_2. }
  unfold collect_all. cbn [fst snd]. destruct (r_account x) as [a|] eqn:Ha; [|naive_solver].
  cbn [fst]. rewrite entry_insert. case_bool_decide as H; [|naive_solver].
  destruct H as [-> <-]. naive_solver.
Qed.

Section all_connections.
Context `{!Postgres}.

Definition all_rows (rows : list Row) : list Row :=
  sort_by_org_client (filter (λ r, r_org_id r ≠ EmptyString) rows).

(** C23: The listing of all connections: a page contains exactly the clients of
    its slice of the tenanted rows, each under its account; a row whose
    account is NULL appears under none: the account is scanned into a
    string, which fails, and the row is skipped. *)
Theorem get_all_connections_correct offset limit db :
  healthy db → unique_clients (table db) →
  ∃ m total,
    result_of (NewGetAllConnections (Z.of_nat offset) (Z.of_nat limit)) db
      = Ret (Some m, total, None) ∧
    ∀ account cid s,
      entry m account cid = Some s ↔
      ∃ r, r ∈ slice offset limit (all_rows (table db)) ∧ r_account r = Some account ∧
           r_client_id r = cid ∧ s = located_state cid r.
Proof.
  intros [Hf Hc] Hu. unfold result_of, NewGetAllConnections.
  unfold mbind, M_bind, db_Prepare, db_Query. cbn. rewrite !Hf. cbn.
  unfold select_all. rewrite page_slice. cbn. rewrite Hf. cbn. rewrite Hc.
  fold (all_rows (table db)). unfold with_total. rewrite slice_fmap.
  set (rs := slice offset limit (all_rows (table db))).
  set (n := Z.of_nat (length (all_rows (table db)))).
  assert (H1 : ((λ x, (x, n)) <$> rs).*1 = rs) by (by rewrite <-list_fmap_compose, list_fmap_id).
  pose proof (foldl_collect_all ((λ x, (x, n)) <$> rs) (∅, 0%Z)) as Hm.
  destruct (foldl _ _ _) as [m t]. exists m, t. split; [done|].
  intros account cid s. rewrite Hm, H1; [cbn; naive_solver|]. rewrite H1.
  eapply unique_sublist; [apply slice_sublist|]. unfold unique_clients, all_rows, sort_by_org_client.
  rewrite merge_sort_Permutation. by apply unique_filter.
Qed.
End all_connections.

Lemma get_all_connections_correct_witness :
  let db := test_db [test_row "111000" "c"; test_row EmptyString "b"] in
  healthy db ∧ ∃ m total, result_of (NewGetAllConnections 0 10) db = Ret (Some m, total, None) ∧
    is_Some (entry m "540155" "c").
Proof.
  intros db. assert (H : healthy db) by (split; reflexivity). split; [exact H|].
  destruct (get_all_connections_correct 0 10 db H) as (m&t&Hm&He).
  - apply (bool_decide_unpack _). vm_compute. exact I.
  - exists m, t. split; [exact Hm|]. exists (located_state "c" (test_row "111000" "c")).
    apply He. exists (test_row "111000" "c"). split_and!; [|reflexivity..].
    replace (slice _ _ _) with [test_row "111000" "c"] by (vm_compute; reflexivity).
    left.
Defined.
