(* ===== verification/StaleStore.v ===== *)
(** * Stale and tenantless connections
    ([internal/connection_repository]: stale_connection_locator.go,
    tenantless_connection_locator.go)

    The two chunked scans of the table, which hand each connection found to a
    callback, and the statements with which the callbacks record the outcome. *)

From S2P Require Import Prelude GoStrings GoNumTime Json Domain Repository Locators.
From stdpp Require Import options.

(** ** Selection *)

Definition is_empty_object (doc : string) : bool :=
  bool_decide ((UnmarshalInterface doc).1 = VObject ∅).

Section selection.
Context `{!Postgres}.

(** The WHERE clause of [ProcessStaleConnections]. *)
Definition is_stale (staleTimeCutoff : time) (r : Row) : bool :=
  negb (bool_decide (r_org_id r = EmptyString))
  && negb (is_empty_object (r_canonical_facts r))
  && (jsonb_exists (r_dispatchers r) "rhc-worker-playbook"
      || jsonb_exists (r_dispatchers r) "package-manager")
  && (r_stale_timestamp r <? timestamptz_in staleTimeCutoff)%Z.

Definition older_stale (r r' : Row) : Prop := (r_stale_timestamp r ≤ r_stale_timestamp r')%Z.
#[export] Instance older_stale_dec : RelDecision older_stale.
Proof. intros r r'. unfold older_stale. apply _. Defined.

Definition select_stale (staleTimeCutoff : time) (chunkSize : Z) (rows : list Row)
    : list Row + error :=
  page 0 chunkSize (merge_sort older_stale (filter (λ r, is_stale staleTimeCutoff r) rows)).

(** The WHERE clause of [ProcessTenantlessConnections]; comparisons with NULL do
    not hold. *)
Definition is_tenantless (staleTimeCutoff : time) (maxTenantLookupFailures : Z) (r : Row) : bool :=
  bool_decide (r_org_id r = EmptyString)
  && match r_tenant_lookup_timestamp r with
     | Some t => (t <? timestamptz_in staleTimeCutoff)%Z
     | None => false
     end
  && match r_tenant_lookup_failure_count r with
     | Some n => (n <? maxTenantLookupFailures)%Z
     | None => false
     end.

Definition lookup_time (r : Row) : time := default zero_time (r_tenant_lookup_timestamp r).
Definition older_lookup (r r' : Row) : Prop := (lookup_time r ≤ lookup_time r')%Z.
#[export] Instance older_lookup_dec : RelDecision older_lookup.
Proof. intros r r'. unfold older_lookup. apply _. Defined.

Definition select_tenantless (staleTimeCutoff : time) (chunkSize maxTenantLookupFailures : Z)
    (rows : list Row) : list Row + error :=
  page 0 chunkSize (merge_sort older_lookup
    (filter (λ r, is_tenantless staleTimeCutoff maxTenantLookupFailures r) rows)).
End selection.

(** The states handed to the callbacks; [None] when the row does not scan. *)
Definition stale_state (r : Row) : option ConnectorClientState :=
  match r_tenant_lookup_failure_count r with
  | None => None
  | Some count => Some {|
      ccAccount := null_string (r_account r);
      ccOrgID := r_org_id r;
      ccClientID := r_client_id r;
      ccCanonicalFacts := deserializeCanonicalFacts (Some (r_canonical_facts r));
      ccDispatchers := deserializeDispatchers (Some (r_dispatchers r));
      ccTags := deserializeTags (r_tags r);
      ccMessageMetadata := ccMessageMetadata zero_state;
      ccTenantLookupTimestamp := zero_time;
      ccTenantLookupFailureCount := count |}
  end.

Definition tenantless_state (r : Row) : option ConnectorClientState :=
  match r_tenant_lookup_timestamp r, r_tenant_lookup_failure_count r with
  | Some tenantLookupTimestamp, Some _ => Some {|
      ccAccount := null_string (r_account r);
      ccOrgID := r_org_id r;
      ccClientID := r_client_id r;
      ccCanonicalFacts := deserializeCanonicalFacts (Some (r_canonical_facts r));
      ccDispatchers := deserializeDispatchers (Some (r_dispatchers r));
      ccTags := deserializeTags (r_tags r);
      ccMessageMetadata := ccMessageMetadata zero_state;
      ccTenantLookupTimestamp := tenantLookupTimestamp;
      ccTenantLookupFailureCount := 0 |}
  | _, _ => None
  end.

(** ** The scans *)

Section process.
Context `{!Postgres} {W : Type} `{!Lens W Db}.

(** The loop of both scans: rows that do not scan are skipped, and the results
    of the callback are dropped. *)
Definition process_rows (scan : Row → option ConnectorClientState)
    (processConnection : ConnectorClientState → M W (option error)) (rows : list Row) : M W unit :=
  for_each rows (λ r, match scan r with
                      | None => mret tt
                      | Some c => processConnection c;; mret tt
                      end).

Definition ProcessStaleConnections (staleTimeCutoff : time) (chunkSize : Z)
    (processConnection : ConnectorClientState → M W (option error)) : M W (option error) :=
  perr ← zoom db_Prepare;
  match perr with
  | Some _ => exit_process "SQL Prepare failed"
  | None =>
      res ← zoom (db_Query (select_stale staleTimeCutoff chunkSize));
      match res with
      | inr _ => exit_process "SQL query failed"
      | inl rows => process_rows stale_state processConnection rows;; mret None
      end
  end.

Definition ProcessTenantlessConnections (staleTimeCutoff : time)
    (chunkSize maxTenantLookupFailures : Z)
    (processConnection : ConnectorClientState → M W (option error)) : M W (option error) :=
  perr ← zoom db_Prepare;
  match perr with
  | Some _ => exit_process "SQL Prepare failed"
  | None =>
      res ← zoom (db_Query (select_tenantless staleTimeCutoff chunkSize maxTenantLookupFailures));
      match res with
      | inr _ => exit_process "SQL query failed"
      | inl rows => process_rows tenantless_state processConnection rows;; mret None
      end
  end.
End process.

(** ** Recording the outcome *)

Definition int4_max : Z := 2147483647.

(** [UPDATE connections SET ... WHERE ...], for a row function that may fail *)
Fixpoint update_where (cond : Row → bool) (f : Row → Row + error) (rows : list Row)
    : list Row + error :=
  match rows with
  | [] => inl []
  | r :: rows' =>
      match (if cond r then f r else inl r), update_where cond f rows' with
      | inl r', inl rows'' => inl (r' :: rows'')
      | inr e, _ => inr e
      | _, inr e => inr e
      end
  end.

Definition refreshed_row (now : time) (r : Row) : Row := {|
  r_account := r_account r; r_org_id := r_org_id r; r_client_id := r_client_id r;
  r_dispatchers := r_dispatchers r; r_canonical_facts := r_canonical_facts r; r_tags := r_tags r;
  r_created_at := r_created_at r; r_updated_at := r_updated_at r;
  r_stale_timestamp := now;
  r_message_id := r_message_id r; r_message_sent := r_message_sent r;
  r_tenant_lookup_failure_count := Some 0%Z; r_tenant_lookup_timestamp := None |}.

Definition with_tenant (r : Row) (org account : string) (count : option Z) (ts : option time)
    : Row := {|
  r_account := Some account; r_org_id := org; r_client_id := r_client_id r;
  r_dispatchers := r_dispatchers r; r_canonical_facts := r_canonical_facts r; r_tags := r_tags r;
  r_created_at := r_created_at r; r_updated_at := r_updated_at r;
  r_stale_timestamp := r_stale_timestamp r;
  r_message_id := r_message_id r; r_message_sent := r_message_sent r;
  r_tenant_lookup_failure_count := count; r_tenant_lookup_timestamp := ts |}.

(** [tenant_lookup_failure_count + 1], in int4 arithmetic; NULL stays NULL. *)
Definition failed_row (now : time) (r : Row) : Row + error :=
  match r_tenant_lookup_failure_count r with
  | None => inl (with_tenant r EmptyString EmptyString None (Some now))
  | Some n =>
      if (n <? int4_max)%Z
      then inl (with_tenant r EmptyString EmptyString (Some (n + 1)%Z) (Some now))
      else inr (ErrPq "22003")
  end.

Section record.
Context `{!Postgres}.

Definition successful_row (org account : string) (r : Row) : Row + error :=
  match varchar 20 org, varchar 10 account with
  | inl org', inl account' => inl (with_tenant r org' account' (Some 0%Z) None)
  | _, _ => inr too_long
  end.

(** Every failure ends the process ([log.Fatal]). *)
Definition RecordUpdatedStaleTimestamp (rhcClient : ConnectorClientState) : M Db unit :=
  perr ← db_Prepare;
  match perr with
  | Some err => exit_process (Error err)
  | None =>
      err ← db_Exec (λ now, update_where
        (λ r, bool_decide (r_org_id r = ccOrgID rhcClient)
              && bool_decide (r_client_id r = ccClientID rhcClient))
        (λ r, inl (refreshed_row now r)));
      match err with
      | Some err => exit_process (Error err)
      | None => mret tt
      end
  end.

Definition RecordFailedTenantLookup (rhcClient : ConnectorClientState) : M Db (option error) :=
  perr ← db_Prepare;
  match perr with
  | Some err => mret (Some err)
  | None => db_Exec (λ now, update_where
              (λ r, bool_decide (r_client_id r = ccClientID rhcClient)) (failed_row now))
  end.

Definition RecordSuccessfulTenantLookup (rhcClient : ConnectorClientState) : M Db (option error) :=
  perr ← db_Prepare;
  match perr with
  | Some err => mret (Some err)
  | None => db_Exec (λ _, update_where
              (λ r, bool_decide (r_client_id r = ccClientID rhcClient))
              (successful_row (ccOrgID rhcClient) (ccAccount rhcClient)))
  end.
End record.

(** ** Lemmas *)

Lemma update_where_map cond f g rows :
  (∀ r, r ∈ rows → cond r = true → f r = inl (g r)) →
  update_where cond f rows = inl ((λ r, if cond r then g r else r) <$> rows).
Proof.
  induction rows as [|r rows IH]; intros Hf; [done|]. cbn.
  rewrite IH by (intros r' Hr'; apply Hf; by right).
  destruct (cond r) eqn:Hc; [|done]. rewrite Hf; [done|left|done].
Qed.

Lemma update_where_in cond f rows rows' r :
  update_where cond f rows = inl rows' → r ∈ rows → cond r = true → ∃ r', f r = inl r'.
Proof.
  revert rows'. induction rows as [|x rows IH]; intros rows' Hup Hr Hc;
    [by apply elem_of_nil in Hr|].
  cbn in Hup. destruct (if cond x then f x else inl x) as [x'|] eqn:Hx; [|done].
  destruct (update_where cond f rows) as [rows1|] eqn:Hrows; [|done].
  apply elem_of_cons in Hr as [->|Hr]; [|by eapply IH]. rewrite Hc in Hx. eauto.
Qed.

Lemma exec_healthy stmt rows db :
  healthy db → stmt (db_clock db (S (db_tick db))) (table db) = inl rows →
  ∃ db', db_Exec stmt (tick_db db) = (Ret None, db') ∧ table db' = rows ∧ healthy db' ∧
         db_clock db' = db_clock db ∧ db_tick db' = S (S (db_tick db)).
Proof.
  intros [Hf Hc] Hs. unfold db_Exec. cbn. rewrite Hf, Hs. by eexists.
Qed.

(** A page from the start of a sorted selection splits it at the chunk size. *)
Lemma select_chunk {A} (R : relation A) `{!RelDecision R, !Total R, !Transitive R}
    (chunk : nat) (l : list A) :
  ∃ sel rest, page 0 (Z.of_nat chunk) (merge_sort R l) = inl sel ∧ sel ++ rest ≡ₚ l ∧
    length sel = Nat.min chunk (length l) ∧ StronglySorted R sel ∧
    (∀ x y, x ∈ sel → y ∈ rest → R x y).
Proof.
  set (s := merge_sort R l). exists (take chunk s), (drop chunk s).
  assert (Hs : StronglySorted R s) by (by apply StronglySorted_merge_sort).
  split_and!.
  - rewrite (page_slice 0). unfold slice. by rewrite drop_0.
  - rewrite take_drop. apply merge_sort_Permutation.
  - rewrite length_take. f_equal. apply Permutation_length, merge_sort_Permutation.
  - rewrite <-(take_drop chunk s) in Hs. by apply StronglySorted_app in Hs as (_&?&_).
  - intros x y Hx Hy. rewrite <-(take_drop chunk s) in Hs.
    apply StronglySorted_app in Hs as (H&_&_). by apply H.
Qed.

Section stale_properties.
Context `{!Postgres} {W : Type} `{!Lens W Db}.

#[export] Instance older_stale_total : Total older_stale.
Proof. intros r r'. unfold older_stale. lia. Qed.
#[export] Instance older_stale_trans : Transitive older_stale.
Proof. intros r r' r''. unfold older_stale. lia. Qed.
#[export] Instance older_lookup_total : Total older_lookup.
Proof. intros r r'. unfold older_lookup. lia. Qed.
#[export] Instance older_lookup_trans : Transitive older_lookup.
Proof. intros r r' r''. unfold older_lookup. lia. Qed.

(** Both scans, on a healthy database, are a loop over the selected rows. *)
Lemma scan_unfold {A} (select : list Row → list A + error) (body : list A → M W (option error))
    sel w :
  healthy (lget w) → select (table (lget w)) = inl sel →
  (perr ← zoom (W := W) db_Prepare;
   match perr with
   | Some _ => exit_process "SQL Prepare failed"
   | None =>
       res ← zoom (db_Query select);
       match res with
       | inr _ => exit_process "SQL query failed"
       | inl rows => body rows
       end
   end) w = body sel (lset (tick_db (tick_db (lget w))) w).
Proof.
  intros [Hf Hc] Hsel. unfold mbind, M_bind, zoom, db_Prepare, db_Query. cbn.
  rewrite Hf. cbn. rewrite lget_lset. cbn. rewrite Hf, Hsel, Hc. cbn. by rewrite lset_lset.
Qed.

(** The stale scan hands to the callback, oldest first, at most a chunk of
    the stale connections (tenanted, with canonical facts, a playbook or
    package-manager dispatcher, and a stale timestamp before the cutoff); none
    that is left out for the size of the chunk is older than one handed over. *)
Theorem stale_scan_correct cutoff (chunk : nat) process (w : W) :
  healthy (lget w) →
  ∃ sel rest,
    ProcessStaleConnections cutoff (Z.of_nat chunk) process w
      = (process_rows stale_state process sel;; mret None)
          (lset (tick_db (tick_db (lget w))) w) ∧
    sel ++ rest ≡ₚ filter (λ r, is_stale cutoff r) (table (lget w)) ∧
    length sel = Nat.min chunk (length (filter (λ r, is_stale cutoff r) (table (lget w)))) ∧
    StronglySorted older_stale sel ∧
    (∀ r r', r ∈ sel → r' ∈ rest → (r_stale_timestamp r ≤ r_stale_timestamp r')%Z).
Proof.
  intros Hh.
  destruct (select_chunk older_stale chunk (filter (λ r, is_stale cutoff r) (table (lget w))))
    as (sel&rest&Hsel&Hp&Hl&Hs&Ho).
  exists sel, rest. split; [|done].
  unfold ProcessStaleConnections. by rewrite (scan_unfold _ _ sel).
Qed.

(** The tenantless scan, likewise: connections without an org, oldest
    lookup first, whose last lookup is before the cutoff and that have failed
    fewer times than the limit. *)
Theorem tenantless_scan_correct cutoff (chunk : nat) maxFailures process (w : W) :
  healthy (lget w) →
  ∃ sel rest,
    ProcessTenantlessConnections cutoff (Z.of_nat chunk) maxFailures process w
      = (process_rows tenantless_state process sel;; mret None)
          (lset (tick_db (tick_db (lget w))) w) ∧
    sel ++ rest ≡ₚ filter (λ r, is_tenantless cutoff maxFailures r) (table (lget w)) ∧
    length sel = Nat.min chunk
      (length (filter (λ r, is_tenantless cutoff maxFailures r) (table (lget w)))) ∧
    (∀ r r', r ∈ sel → r' ∈ rest → (lookup_time r ≤ lookup_time r')%Z) ∧
    (∀ r, r ∈ sel → ∃ c, tenantless_state r = Some c ∧ ccOrgID c = EmptyString ∧
                         ccClientID c = r_client_id r).
Proof.
  intros Hh.
  destruct (select_chunk older_lookup chunk
    (filter (λ r, is_tenantless cutoff maxFailures r) (table (lget w))))
    as (sel&rest&Hsel&Hp&Hl&Hs&Ho).
  exists sel, rest. split_and!; try done.
  - unfold ProcessTenantlessConnections. by rewrite (scan_unfold _ _ sel).
  - intros r Hr.
    assert (Hin : r ∈ filter (λ r, is_tenantless cutoff maxFailures r) (table (lget w))).
    { rewrite <-Hp. apply elem_of_app. by left. }
    apply list_elem_of_filter in Hin as [Ht%Is_true_true _].
    unfold is_tenantless in Ht. apply andb_true_iff in Ht as [Ht Hc].
    apply andb_true_iff in Ht as [Horg%bool_decide_eq_true Hts].
    unfold tenantless_state.
    destruct (r_tenant_lookup_timestamp r); [|done].
    destruct (r_tenant_lookup_failure_count r); [|done]. eexists. split; [done|]. by split.
Qed.
End stale_properties.

#[export] Program Instance lens_id (W : Type) : Lens W W := {
  lget := id; lset := λ s _, s }.
Solve All Obligations with done.

Lemma stale_scan_correct_witness :
  let db := test_db [test_row "111000" "c"] in
  ∃ sel rest,
    ProcessStaleConnections (W := Db) 5 (Z.of_nat 3) (λ _, mret None) db
      = (process_rows stale_state (λ _, mret None) sel;; mret None) (tick_db (tick_db db)) ∧
    sel ++ rest ≡ₚ [].
Proof.
  intros db. destruct (stale_scan_correct (W := Db) 5 3 (λ _, mret None) db)
    as (sel&rest&H1&H2&_); [split; reflexivity|].
  exists sel, rest. split; [exact H1|]. exact H2.
Defined.

Lemma tenantless_scan_correct_witness :
  let db := test_db [test_row "111000" "c"] in
  ∃ sel rest,
    ProcessTenantlessConnections (W := Db) 5 (Z.of_nat 3) 7 (λ _, mret None) db
      = (process_rows tenantless_state (λ _, mret None) sel;; mret None) (tick_db (tick_db db)) ∧
    sel ++ rest ≡ₚ [].
Proof.
  intros db. destruct (tenantless_scan_correct (W := Db) 5 3 7 (λ _, mret None) db)
    as (sel&rest&H1&H2&_); [split; reflexivity|].
  exists sel, rest. split; [exact H1|]. exact H2.
Defined.

Section lifecycle.
Context `{!Postgres}.

Fixpoint fail_times (k : nat) (c : ConnectorClientState) : M Db unit :=
  match k with
  | 0 => mret tt
  | S k => RecordFailedTenantLookup c;; fail_times k c
  end.

(** The rows of the other clients are those of before. *)
Definition others_kept (cid : ClientID) (rows rows' : list Row) : Prop :=
  ∀ r, r_client_id r ≠ cid → r ∈ rows' ↔ r ∈ rows.

Lemma map_client_rows cid g (rows : list Row) :
  (∀ r, r_client_id (g r) = r_client_id r) →
  let rows' := (λ r, if bool_decide (r_client_id r = cid) then g r else r) <$> rows in
  (unique_clients rows → unique_clients rows') ∧
  (∀ r, r ∈ rows → r_client_id r = cid → g r ∈ rows') ∧ others_kept cid rows rows'.
Proof.
  intros Hg rows'. split_and!.
  - intros Hu. unfold unique_clients, rows'. rewrite <-list_fmap_compose.
    erewrite list_fmap_ext; [exact Hu|]. intros i x _. cbn. by case_bool_decide.
  - intros r Hr Hc. apply list_elem_of_fmap. exists r. by rewrite bool_decide_eq_true_2.
  - intros r Hc. unfold rows'. rewrite list_elem_of_fmap. split.
    + intros (r'&->&Hr'). case_bool_decide; [|done]. by rewrite Hg in Hc.
    + intros Hr. exists r. by rewrite bool_decide_eq_false_2.
Qed.

Lemma failed_once c db r n :
  healthy db → unique_clients (table db) → r ∈ table db → r_client_id r = ccClientID c →
  r_tenant_lookup_failure_count r = Some n → (n < int4_max)%Z →
  ∃ db', RecordFailedTenantLookup c db = (Ret None, db') ∧ healthy db' ∧
    unique_clients (table db') ∧
    with_tenant r EmptyString EmptyString (Some (n + 1)%Z) (Some (db_clock db (S (db_tick db))))
      ∈ table db' ∧
    others_kept (ccClientID c) (table db) (table db').
Proof.
  intros Hh Hu Hr Hcid Hn Hlt.
  set (now := db_clock db (S (db_tick db))).
  set (g := λ r', with_tenant r' EmptyString EmptyString
    (Z.add 1 <$> r_tenant_lookup_failure_count r') (Some now)).
  assert (Hmap : update_where (λ r, bool_decide (r_client_id r = ccClientID c)) (failed_row now)
      (table db) = inl ((λ r, if bool_decide (r_client_id r = ccClientID c) then g r else r)
                          <$> table db)).
  { apply update_where_map. intros r' Hr' Hc'%bool_decide_eq_true.
    assert (r' = r) as -> by (apply (row_unique (table db)); congruence).
    unfold failed_row, g. rewrite Hn, (proj2 (Z.ltb_lt _ _)) by done. cbn. do 3 f_equal. lia. }
  destruct (map_client_rows (ccClientID c) g (table db)) as (H1&H2&H3); [done|].
  unfold RecordFailedTenantLookup, mbind, M_bind, db_Prepare.
  pose proof Hh as [Hf _]. cbn. rewrite Hf. cbn.
  destruct (exec_healthy (λ now, update_where
    (λ r, bool_decide (r_client_id r = ccClientID c)) (failed_row now)) _ db Hh Hmap) as (db'&->&Ht&Hh'&_).
  exists db'. rewrite Ht. split_and!; [done|done|by apply H1| |done].
  specialize (H2 r Hr Hcid). unfold g in H2. rewrite Hn in H2. cbn in H2.
  by rewrite Z.add_comm in H2.
Qed.

(** Retries are bounded: k failed lookups in a row leave the client without
    a tenant and with its failure count raised by k (short of the column's
    range), touch no other client, and from then on the tenantless scan takes
    the connection up again only while that count is below its limit. *)
Theorem failed_lookups_counted k c db r n :
  healthy db → unique_clients (table db) → r ∈ table db → r_client_id r = ccClientID c →
  r_tenant_lookup_failure_count r = Some n → (n + Z.of_nat (S k) ≤ int4_max)%Z →
  ∃ db' r', fail_times (S k) c db = (Ret tt, db') ∧ r' ∈ table db' ∧
    r_client_id r' = ccClientID c ∧ r_org_id r' = EmptyString ∧
    r_tenant_lookup_failure_count r' = Some (n + Z.of_nat (S k))%Z ∧
    others_kept (ccClientID c) (table db) (table db') ∧
    (∀ cutoff limit, is_tenantless cutoff limit r' = true → (n + Z.of_nat (S k) < limit)%Z).
Proof.
  revert db r n. induction k as [|k IH]; intros db r n Hh Hu Hr Hcid Hn Hle;
    destruct (failed_once c db r n) as (db1&Hf&Hh1&Hu1&Hr1&Ho1); try done; try lia.
  - eexists db1, _. split_and!; [|exact Hr1|done..|].
    + cbn. unfold mbind, M_bind. by rewrite Hf.
    + intros cutoff limit. unfold is_tenantless. cbn. rewrite !andb_true_iff. lia.
  - destruct (IH db1 _ (n + 1)%Z Hh1 Hu1 Hr1) as (db2&r2&Hf2&Hr2&Hc2&Horg2&Hn2&Ho2&Hl2);
      [done..|lia|].
    exists db2, r2. split_and!; try done.
    + change (fail_times (S (S k)) c) with (RecordFailedTenantLookup c;; fail_times (S k) c).
      unfold mbind at 1, M_bind at 1. by rewrite Hf.
    + rewrite Hn2. f_equal. lia.
    + intros r' Hr'. rewrite (Ho2 r' Hr'). by apply Ho1.
    + intros cutoff limit Ht. specialize (Hl2 _ _ Ht). lia.
Qed.

(** A successful lookup ends the retries: it stores org and account,
    clears the failure count and the lookup time, so no tenantless scan takes
    the connection up, and it touches no other client. *)
Theorem successful_lookup_settles `{!PostgresLaws} c db db' r :
  healthy db → unique_clients (table db) → r ∈ table db → r_client_id r = ccClientID c →
  String.length (ccOrgID c) ≤ 20 → String.length (ccAccount c) ≤ 10 →
  RecordSuccessfulTenantLookup c db = (Ret None, db') →
  with_tenant r (ccOrgID c) (ccAccount c) (Some 0%Z) None ∈ table db' ∧
  others_kept (ccClientID c) (table db) (table db') ∧
  (∀ r' cutoff limit, r' ∈ table db' → r_client_id r' = ccClientID c →
     is_tenantless cutoff limit r' = false).
Proof.
  intros Hh Hu Hr Hcid Ho Ha Hs.
  set (g := λ r', with_tenant r' (ccOrgID c) (ccAccount c) (Some 0%Z) None).
  destruct (map_client_rows (ccClientID c) g (table db)) as (H1&H2&H3); [done|].
  assert (Ht : table db' = (λ r, if bool_decide (r_client_id r = ccClientID c) then g r else r)
                             <$> table db).
  { unfold RecordSuccessfulTenantLookup, mbind, M_bind, db_Prepare in Hs.
    pose proof Hh as [Hf _]. cbn in Hs. rewrite Hf in Hs. cbn in Hs.
    unfold db_Exec in Hs. cbn in Hs. rewrite Hf in Hs.
    destruct (update_where _ _ _) as [rows|] eqn:Hup; [|done].
    injection Hs as <-. cbn.
    assert (Hsucc : varchar 20 (ccOrgID c) = inl (ccOrgID c) ∧
                    varchar 10 (ccAccount c) = inl (ccAccount c)).
    { destruct (update_where_in _ _ _ _ _ Hup Hr) as [r' Hr'];
        [by apply bool_decide_eq_true|].
      unfold successful_row in Hr'. destruct (varchar 20 _) eqn:E1; [|done].
      destruct (varchar 10 _) eqn:E2; [|done].
      by rewrite (varchar_inv _ _ _ E1), (varchar_inv _ _ _ E2). }
    destruct Hsucc as [E1 E2].
    rewrite (update_where_map _ _ g) in Hup; [by injection Hup|].
    intros r' _ _. unfold successful_row. by rewrite E1, E2. }
  rewrite Ht. split_and!; [by apply H2|done|].
  intros r' cutoff limit Hr' Hc'. apply list_elem_of_fmap in Hr' as (r0&->&_).
  revert Hc'. case_bool_decide; [intros _|done]. unfold is_tenantless. cbn.
  by rewrite andb_false_r.
Qed.
End lifecycle.

(** After a successful refresh of a connection's stale timestamp, no stale
    scan whose cutoff is not after that moment takes the connection up again,
    its failed lookups are forgotten, and only the rows of this client id under
    this org have changed; a refresh that cannot be recorded ends the process. *)
Theorem refresh_settles `{!Postgres} c db o db' :
  RecordUpdatedStaleTimestamp c db = (o, db') →
  match o with
  | Ret _ =>
      (∀ r, (r_org_id r ≠ ccOrgID c ∨ r_client_id r ≠ ccClientID c) →
            r ∈ table db' ↔ r ∈ table db) ∧
      (∀ r cutoff, r ∈ table db' → r_org_id r = ccOrgID c → r_client_id r = ccClientID c →
         (timestamptz_in cutoff ≤ db_clock db (S (db_tick db)))%Z →
         is_stale cutoff r = false ∧ r_tenant_lookup_failure_count r = Some 0%Z)
  | Exit _ => table db' = table db ∧
      (is_Some (db_fault db (db_tick db)) ∨ is_Some (db_fault db (S (db_tick db))))
  | Panic _ => False
  end.
Proof.
  unfold RecordUpdatedStaleTimestamp, mbind, M_bind, db_Prepare. cbn.
  destruct (db_fault db (db_tick db)) eqn:Hf; [intros [= <- <-]; eauto|]. cbn.
  unfold db_Exec. cbn. destruct (db_fault db (S _)) eqn:Hf'; [intros [= <- <-]; eauto|].
  set (now := db_clock db (S (db_tick db))).
  rewrite (update_where_map _ _ (refreshed_row now)) by done. intros [= <- <-]. cbn. split.
  - intros r Hne. rewrite list_elem_of_fmap. split.
    + intros (r'&->&Hr'). destruct (_ && _) eqn:E; [|done].
      rewrite andb_true_iff, !bool_decide_eq_true in E. cbn in Hne. naive_solver.
    + intros Hr. exists r. destruct (_ && _) eqn:E; [|done].
      rewrite andb_true_iff, !bool_decide_eq_true in E. naive_solver.
  - intros r cutoff (r'&->&Hr')%list_elem_of_fmap Ho Hc Hcut.
    revert Ho Hc. destruct (_ && _) eqn:E; [|intros; rewrite andb_false_iff,
      !bool_decide_eq_false in E; naive_solver].
    intros _ _. split; [|done]. unfold is_stale. cbn.
    rewrite (proj2 (Z.ltb_ge now _)) by done. by rewrite andb_false_r.
Qed.

Definition test_state : ConnectorClientState := test_client "111000" "c".

Lemma refresh_settles_witness :
  let db := test_db [test_row "111000" "c"] in
  match (RecordUpdatedStaleTimestamp test_state db).1 with Ret _ => True | _ => False end ∧
  ∀ r cutoff, r ∈ table (RecordUpdatedStaleTimestamp test_state db).2 →
    r_org_id r = "111000" → r_client_id r = "c" →
    (timestamptz_in cutoff ≤ 1001000000000)%Z → is_stale cutoff r = false.
Proof.
  intros db. split; [exact I|]. intros r cutoff Hr Ho Hc Hcut.
  apply (proj2 (refresh_settles test_state db (Ret tt)
    (RecordUpdatedStaleTimestamp test_state db).2 eq_refl) r cutoff Hr Ho Hc Hcut).
Defined.

Lemma failed_lookups_counted_witness :
  let db := test_db [test_row "111000" "c"] in
  ∃ db' r', fail_times 2 test_state db = (Ret tt, db') ∧ r' ∈ table db' ∧
    r_tenant_lookup_failure_count r' = Some 2%Z.
Proof.
  intros db.
  destruct (failed_lookups_counted 1 test_state db (test_row "111000" "c") 0)
    as (db'&r'&H1&H2&_&_&H3&_).
  - split; reflexivity.
  - apply NoDup_singleton.
  - left.
  - reflexivity.
  - reflexivity.
  - vm_compute. discriminate.
  - exists db', r'. split_and!; [exact H1|exact H2|exact H3].
Defined.

Lemma successful_lookup_settles_witness :
  let db := test_db [test_row EmptyString "c"] in
  let db' := (RecordSuccessfulTenantLookup test_state db).2 in
  with_tenant (test_row EmptyString "c") "111000" "540155" (Some 0%Z) None ∈ table db'.
Proof.
  intros db db'.
  refine (proj1 (successful_lookup_settles test_state db db' (test_row EmptyString "c")
    _ _ _ _ _ _ _)).
  - split; reflexivity.
  - apply NoDup_singleton.
  - left.
  - reflexivity.
  - vm_compute. lia.
  - vm_compute. lia.
  - vm_compute. reflexivity.
Defined.
