(* ===== verification/TableTypes.v ===== *)
(** * The table stays well typed

    The columns of [connections] as the migrations under src/db/migrations
    declare them, and the statements of the registrar and of the two updaters:
    whatever sequence of them runs, and whichever of them fail, every row keeps
    values of its columns' types, every stored document can be decoded, and no
    client has two rows. *)

From S2P Require Import Prelude GoStrings GoNumTime Json JsonFacts Domain Repository Locators StaleStore.
From stdpp Require Import options.

Section types.
Context `{!Postgres}.

(** A text that a [varchar(n)] column may hold, as it was stored or empty. *)
Definition varchar_value (n : nat) (s : string) : Prop := s = EmptyString ∨ ∃ s0, varchar_in n s0 = Some s.

(** A document in a [jsonb] column that the program can decode. *)
Definition json_value (s : string) : Prop := (UnmarshalInterface s).2 = false.

Definition nullable {A} (P : A → Prop) (o : option A) : Prop := from_option P True o.

(** An [int] column that counts. *)
Definition count_value (n : Z) : Prop := (0 ≤ n ≤ int4_max)%Z.

(** The columns' types after the last migration. *)
Record row_typed (r : Row) : Prop := {
  ty_account : nullable (varchar_value 10) (r_account r);
  ty_org_id : varchar_value 20 (r_org_id r);
  ty_client_id : varchar_value 100 (r_client_id r);
  ty_dispatchers : json_value (r_dispatchers r);
  ty_canonical_facts : json_value (r_canonical_facts r);
  ty_tags : nullable json_value (r_tags r);
  ty_message_id : nullable (varchar_value 40) (r_message_id r);
  ty_failures : nullable count_value (r_tenant_lookup_failure_count r);
}.

Definition well_typed (rows : list Row) : Prop := Forall row_typed rows ∧ unique_clients rows.

(** *** Statements that keep a property of the table *)

Definition stmt_keeps (P : list Row → Prop) (stmt : time → list Row → list Row + error) : Prop :=
  ∀ now rows rows', P rows → stmt now rows = inl rows' → P rows'.

Definition keeps (P : list Row → Prop) {A} (m : M Db A) : Prop := ∀ db, P (table db) → P (table (m db).2).

Lemma keeps_ret {A} P (a : A) : keeps P (mret a).
Proof. by intros db. Qed.
Lemma keeps_exit {A} P why : keeps P (exit_process why : M Db A).
Proof. by intros db. Qed.
Lemma keeps_app_Now P : keeps P app_Now.
Proof. by intros db. Qed.
Lemma keeps_prepare P : keeps P db_Prepare.
Proof. by intros db. Qed.

Lemma keeps_bind {A B} P (m : M Db A) (k : A → M Db B) : keeps P m → (∀ a, keeps P (k a)) → keeps P (m ≫= k).
Proof.
  intros Hm Hk db Hdb. specialize (Hm db Hdb). unfold mbind, M_bind.
  destruct (m db) as [[a|?|?] db']; [by apply Hk|done..].
Qed.

Lemma keeps_exec P stmt : stmt_keeps P stmt → keeps P (db_Exec stmt).
Proof.
  intros Hs db Hdb. unfold db_Exec. destruct (db_fault db (db_tick db)); [done|].
  destruct (stmt _ _) as [rows|] eqn:E; [|done]. by eapply Hs.
Qed.

Lemma keeps_for_each {A} P (l : list A) (body : A → M Db unit) :
  Forall (λ x, keeps P (body x)) l → keeps P (for_each l body).
Proof. induction 1; [apply keeps_ret|]. by apply keeps_bind. Qed.

(** An UPDATE whose row function keeps the type and the client. *)
Lemma update_typed cond (f : time → Row → Row + error) :
  (∀ now r r', row_typed r → f now r = inl r' → row_typed r' ∧ r_client_id r' = r_client_id r) →
  stmt_keeps well_typed (λ now, update_where cond (f now)).
Proof.
  intros Hf now rows rows' [Ht Hu] Hrun.
  assert (Hrows : Forall row_typed rows' ∧ r_client_id <$> rows' = r_client_id <$> rows).
  { clear Hu. revert rows' Hrun. induction Ht as [|r rows Hr _ IH]; intros rows' Hrun; [by injection Hrun as <-|].
    cbn [update_where] in Hrun.
    destruct (if cond r then f now r else inl r) as [r'|] eqn:E; [|done].
    destruct (update_where cond (f now) rows) as [rows1|]; [|done]. injection Hrun as <-.
    destruct (IH rows1 eq_refl) as [IH1 IH2].
    assert (Hr' : row_typed r' ∧ r_client_id r' = r_client_id r).
    { destruct (cond r); [by eapply Hf|by injection E as <-]. }
    destruct Hr' as [? Hc]. split; [by constructor|]. by rewrite !fmap_cons, Hc, IH2. }
  destruct Hrows as [? Hc]. split; [done|]. unfold unique_clients. by rewrite Hc.
Qed.

Lemma refreshed_typed now r r' :
  row_typed r → (inl (refreshed_row now r) : Row + error) = inl r' → row_typed r' ∧ r_client_id r' = r_client_id r.
Proof. intros [] [= <-]. split; [|done]. by split; cbn. Qed.

Lemma with_tenant_typed r org account count ts :
  row_typed r → varchar_value 20 org → varchar_value 10 account → nullable count_value count →
  row_typed (with_tenant r org account count ts) ∧ r_client_id (with_tenant r org account count ts) = r_client_id r.
Proof. intros [] Ho Ha Hc. split; [|done]. by split; cbn. Qed.

Lemma failed_typed now r r' : row_typed r → failed_row now r = inl r' → row_typed r' ∧ r_client_id r' = r_client_id r.
Proof.
  intros Hr. pose proof (ty_failures r Hr) as Hn. unfold failed_row.
  destruct (r_tenant_lookup_failure_count r) as [n|]; cbn in Hn.
  - destruct (n <? int4_max)%Z eqn:Hlt; [|done]. intros [= <-]. apply Z.ltb_lt in Hlt.
    apply with_tenant_typed; [done|by left|by left|]. cbn. unfold count_value in *. lia.
  - intros [= <-]. by apply with_tenant_typed; [|left|left|].
Qed.

Lemma varchar_typed n s s' : varchar n s = inl s' → varchar_value n s'.
Proof. unfold varchar. destruct (varchar_in n s) eqn:E; [|done]. intros [= <-]. right. by exists s. Qed.

Lemma successful_typed org account (now : time) r r' :
  row_typed r → successful_row org account r = inl r' → row_typed r' ∧ r_client_id r' = r_client_id r.
Proof.
  intros Hr. unfold successful_row. destruct (varchar 20 org) as [o|] eqn:Ho; [|done].
  destruct (varchar 10 account) as [a|] eqn:Ha; [|done]. intros [= <-].
  apply with_tenant_typed; [done|by eapply varchar_typed..|]. cbn. unfold count_value, int4_max. lia.
Qed.

End types.

Section typed.
Context `{!Postgres, !PostgresLaws}.
#[local] Set Default Proof Using "Type*".

Lemma jsonb_typed s t : jsonb s = inl t → json_value s → json_value t.
Proof.
  unfold jsonb, json_value. destruct (jsonb_in s) eqn:E; [|done]. intros [= <-].
  by rewrite (jsonb_faithful _ _ E).
Qed.

Lemma marshal_typed v s : json_ok v = true → Marshal v = Some s → json_value s.
Proof.
  unfold json_ok. rewrite andb_true_iff, Z.leb_le. intros [Hv Hd] Hs.
  destruct (Unmarshal_Marshal v Hv Hd) as (s'&Hs'&Hu). rewrite Hs in Hs'. injection Hs' as <-.
  unfold json_value. by rewrite Hu.
Qed.

Lemma upsert_typed a :
  json_value (ua_dispatchers a) → json_value (ua_canonical_facts a) → json_value (ua_tags a) →
  String.length (ua_client_id a) ≤ 100 → stmt_keeps well_typed (upsert_statement a).
Proof.
  intros Hd Hf Ht Hcid now rows rows' [Hrows Hu]. unfold upsert_statement, coerce_columns.
  destruct (jsonb (ua_dispatchers a)) as [d|] eqn:Ed; [|done].
  destruct (jsonb (ua_canonical_facts a)) as [f|] eqn:Ef; [|done].
  destruct (jsonb (ua_tags a)) as [t|] eqn:Et; [|done].
  destruct (varchar 40 _) as [m|] eqn:Em; [|done]. destruct (varchar 20 _) as [o|] eqn:Eo; [|done].
  destruct (varchar 10 _) as [ac|] eqn:Ea; [|done].
  apply jsonb_typed in Ed, Ef, Et; [|done..]. apply varchar_typed in Em, Eo, Ea.
  set (c := {| col_dispatchers := d |}).
  destruct (existsb _ rows) eqn:Eex.
  - intros [= <-]. split.
    + apply Forall_fmap. eapply Forall_impl; [exact Hrows|]. intros r Hr. cbn. case_bool_decide; [|done].
      destruct Hr. split; cbn; try done. destruct (ua_reset_failure_count a); cbn; [|done].
      unfold count_value, int4_max. lia.
    + unfold unique_clients. rewrite <-list_fmap_compose. refine (eq_ind_r NoDup Hu _).
      apply list_fmap_ext. intros i r _. cbn. by case_bool_decide.
  - destruct (varchar 100 (ua_client_id a)) as [cid|] eqn:Ec; [|done]. intros [= <-]. split.
    + apply Forall_app. split; [done|]. constructor; [|done]. apply varchar_typed in Ec.
      split; cbn; try done.
    + apply varchar_inv in Ec as ->; [|done]. unfold unique_clients. rewrite fmap_app. apply NoDup_app.
      split_and!; [done| |apply NoDup_singleton].
      intros k Hk Hin%list_elem_of_singleton. subst k. apply not_true_iff_false in Eex. apply Eex.
      by apply existsb_client.
Qed.

(** *** Every sequence of statements *)

Inductive table_op :=
| OpRegister (c : ConnectorClientState)
| OpUnregister (cid : ClientID)
| OpRefreshStale (c : ConnectorClientState)
| OpFailedLookup (c : ConnectorClientState)
| OpSuccessfulLookup (c : ConnectorClientState).

Definition run_table_op (op : table_op) : M Db unit :=
  match op with
  | OpRegister c => sql_Register c;; mret tt
  | OpUnregister cid => sql_Unregister cid;; mret tt
  | OpRefreshStale c => RecordUpdatedStaleTimestamp c
  | OpFailedLookup c => RecordFailedTenantLookup c;; mret tt
  | OpSuccessfulLookup c => RecordSuccessfulTenantLookup c;; mret tt
  end.

(** What is registered is decoded JSON under an id that fits its column. *)
Definition op_ok (op : table_op) : bool :=
  match op with
  | OpRegister c => json_ok (ccDispatchers c) && json_ok (ccCanonicalFacts c) && json_ok (ccTags c)
                    && (String.length (ccClientID c) <=? 100)
  | _ => true
  end.

Lemma register_typed c : op_ok (OpRegister c) = true → keeps well_typed (sql_Register c).
Proof.
  cbn. rewrite !andb_true_iff, Nat.leb_le. intros [[[Hd Hf] Ht] Hc]. unfold sql_Register.
  apply keeps_bind.
  { destruct (isTenantlessConnection c); [|apply keeps_ret]. apply keeps_bind; [apply keeps_app_Now|].
    intros ?. apply keeps_ret. }
  intros ts. apply keeps_bind; [apply keeps_prepare|]. intros [e|]; [apply keeps_ret|].
  destruct (Marshal (ccDispatchers c)) eqn:Ed; [|apply keeps_ret].
  destruct (Marshal (ccCanonicalFacts c)) eqn:Ef; [|apply keeps_ret].
  destruct (Marshal (ccTags c)) eqn:Et; [|apply keeps_ret].
  apply keeps_bind; [|intros ?; apply keeps_ret].
  apply keeps_exec, upsert_typed;
    [exact (marshal_typed _ _ Hd Ed)|exact (marshal_typed _ _ Hf Ef)|exact (marshal_typed _ _ Ht Et)|done].
Qed.

Lemma unregister_typed cid : keeps well_typed (sql_Unregister cid).
Proof.
  unfold sql_Unregister. apply keeps_bind; [apply keeps_prepare|]. intros [e|]; [apply keeps_ret|].
  apply keeps_bind; [|intros ?; apply keeps_ret]. apply keeps_exec. intros now rows rows' [Ht Hu] [= <-]. split.
  - rewrite Forall_forall in *. intros r [_ Hr]%list_elem_of_filter. by apply Ht.
  - eapply unique_sublist; [|exact Hu]. apply sublist_filter.
Qed.

Lemma op_typed op : op_ok op = true → keeps well_typed (run_table_op op).
Proof.
  assert (Hthen : ∀ A (m : M Db A), keeps well_typed m → keeps well_typed (m;; mret tt)).
  { intros A m Hm. apply keeps_bind; [done|]. intros ?. apply keeps_ret. }
  assert (Hupdate : ∀ cond (f : time → Row → Row + error),
    (∀ now r r', row_typed r → f now r = inl r' → row_typed r' ∧ r_client_id r' = r_client_id r) →
    keeps well_typed (db_Exec (λ now, update_where cond (f now)))) by (intros; by apply keeps_exec, update_typed).
  destruct op as [c|cid|c|c|c]; cbn [run_table_op]; intros Hok.
  - by apply Hthen, register_typed.
  - by apply Hthen, unregister_typed.
  - unfold RecordUpdatedStaleTimestamp. apply keeps_bind; [apply keeps_prepare|].
    intros [e|]; [apply keeps_exit|]. apply keeps_bind; [|intros [e|]; [apply keeps_exit|apply keeps_ret]].
    apply (Hupdate _ (λ now r, inl (refreshed_row now r))), refreshed_typed.
  - apply Hthen. unfold RecordFailedTenantLookup. apply keeps_bind; [apply keeps_prepare|].
    intros [e|]; [apply keeps_ret|]. apply (Hupdate _ failed_row), failed_typed.
  - apply Hthen. unfold RecordSuccessfulTenantLookup. apply keeps_bind; [apply keeps_prepare|].
    intros [e|]; [apply keeps_ret|].
    apply (Hupdate _ (λ _, successful_row (ccOrgID c) (ccAccount c))), successful_typed.
Qed.

(** ** Property *)

(** C24: The table stays well typed: whatever sequence of registrations,
    unregistrations and updater statements runs on it, and whatever the database
    answers to each, every row keeps values of its columns' types (the texts
    within their widths, the failure count within an [int]), there is one row
    per client, and each stored document decodes without an error, so that every
    lookup sees the whole of what was stored. *)
Theorem table_stays_well_typed ops db :
  Forall (λ op, op_ok op = true) ops → well_typed (table db) →
  let rows := table (for_each ops run_table_op db).2 in
  Forall row_typed rows ∧ unique_clients rows ∧
  ∀ r, r ∈ rows →
    UnmarshalInterface (r_dispatchers r) = (ccDispatchers (scan_state r), false) ∧
    UnmarshalInterface (r_canonical_facts r) = (ccCanonicalFacts (scan_state r), false) ∧
    (∀ tags, r_tags r = Some tags → UnmarshalInterface tags = (ccTags (scan_state r), false)).
Proof.
  intros Hops Hdb rows.
  assert (Hrows : well_typed rows).
  { apply (keeps_for_each well_typed ops run_table_op); [|done].
    eapply Forall_impl; [exact Hops|]. intros op. apply op_typed. }
  destruct Hrows as [Ht Hu]. split_and!; [done|done|]. intros r Hr.
  rewrite Forall_forall in Ht. destruct (Ht r Hr) as [_ _ _ Hd Hf Htags _ _].
  unfold json_value in *. cbn [scan_state ccDispatchers ccCanonicalFacts ccTags].
  unfold deserializeDispatchers, deserializeCanonicalFacts, deserializeTags, deserialize.
  split_and!.
  - rewrite <-Hd. apply surjective_pairing.
  - rewrite <-Hf. apply surjective_pairing.
  - intros tags Htg. rewrite Htg in *. cbn in Htags. rewrite <-Htags. apply surjective_pairing.
Qed.
End typed.

Lemma table_stays_well_typed_witness :
  let ops := [OpRegister (test_client "000001" "client-a"); OpFailedLookup (test_client "000001" "client-a");
              OpUnregister "client-b"] in
  let rows := table (for_each ops run_table_op (test_db [test_row "000002" "client-b"])).2 in
  Forall row_typed rows ∧ unique_clients rows ∧ r_client_id <$> rows = ["client-a"].
Proof.
  intros ops rows.
  destruct (table_stays_well_typed ops (test_db [test_row "000002" "client-b"])) as (H1&H2&_).
  - repeat constructor; vm_compute; reflexivity.
  - split; [|apply (bool_decide_unpack _); vm_compute; exact I]. constructor; [|constructor].
    split; cbn; try done.
    all: match goal with |- varchar_value _ ?s => right; exists s; vm_compute; reflexivity | _ => idtac end.
    all: vm_compute; split; congruence.
  - split; [exact H1|]. split; [exact H2|]. vm_compute. reflexivity.
Defined.
