(* ===== verification/ControlHandler.v ===== *)
(** * Handling control messages ([internal/cloud_connector]: message_handlers.go, utils.go)

    [HandleControlMessage] and the functions it dispatches to, over the
    interfaces of the registrar, the account resolver, the recorder and sources.
    The properties are proved against [RegistrarContract], so they hold for any
    registrar that implements it; Repository.v gives the SQL one. *)

From S2P Require Import Prelude GoStrings GoNumTime Json Domain Protocol.
From stdpp Require Import options.

Definition canonicalFactsKey : string := "canonical_facts".
Definition dispatchersKey : string := "dispatchers".
Definition tagsKey : string := "tags".
Definition catalogDispatcherKey : string := "catalog".
Definition catalogApplicationType : string := "ApplicationType".
Definition catalogSourceName : string := "SrcName".
Definition catalogSourceRef : string := "SourceRef".
Definition catalogSourceType : string := "SrcType".

Definition controlMessageReceivedCounter : string :=
  "cloud_connector_control_message_received_from_kafka_count".

(** [uuid.Parse(s)] succeeds. *)
Class UUIDParse := { uuid_Parse_ok : string → bool }.

(** A key that is absent from a map reads as nil. *)
Definition map_get (m : gmap string value) (key : string) : value := default VNull (m !! key).

Section handlers.
Context {W : Type} `{!ConnectionRegistrar W, !AccountIdResolver W,
  !ConnectedClientRecorder W, !SourcesRecorder W, !Metrics W, !UUIDParse}.

(** ** utils.go *)

Definition validUUID (s : string) : bool := uuid_Parse_ok s.

(** One iteration of the loop over the facts. *)
Definition sanitize_fact (sanitized : gmap string value) (kv : string * value)
    : M W (gmap string value) :=
  let '(key, value) := kv in
  if bool_decide (key = "insights_id") then
    s ← assert_string value;
    mret (if validUUID s then <[key := value]> sanitized else sanitized)
  else mret (<[key := value]> sanitized).

Fixpoint sanitize_facts (sanitized : gmap string value) (facts : list (string * value))
    : M W (gmap string value) :=
  match facts with
  | [] => mret sanitized
  | kv :: facts' => s ← sanitize_fact sanitized kv; sanitize_facts s facts'
  end.

Definition sanitizeCanonicalFacts (cf : value) : M W value :=
  match cf with
  | VNull => mret (VObject ∅)
  | _ =>
      canonicalFacts ← assert_map cf;
      sanitized ← sanitize_facts ∅ (map_to_list canonicalFacts);
      mret (VObject sanitized)
  end.

(** ** message_handlers.go *)

Definition isDuplicateOrOldMessage (currentConnectionState : ConnectorClientState)
    (incomingMsg : ControlMessage value) : bool :=
  bool_decide (LatestMessageID (ccMessageMetadata currentConnectionState) = MessageID incomingMsg)
  || Before (Sent incomingMsg) (LatestTimestamp (ccMessageMetadata currentConnectionState)).

Definition checkForDuplicateOnlineMessage (clientID : ClientID)
    (incomingMsg : ControlMessage value) : M W (option error) :=
  r ← FindConnectionByClientID clientID;
  let '(connectionState, err) := r in
  if errors_Is err NotFoundError then mret None
  else if errors_As_Fatal err then mret err
  else if isDuplicateOrOldMessage connectionState incomingMsg
       then mret (Some errDuplicateOrOldMQTTMessage)
       else mret None.

Definition processDispatchers (identity : Identity) (account : AccountID) (orgID : OrgID)
    (clientId : ClientID) (handshakePayload : gmap string value) : M W unit :=
  match handshakePayload !! dispatchersKey with
  | None => mret tt
  | Some dispatchers =>
      dispatchersMap ← assert_map dispatchers;
      match dispatchersMap !! catalogDispatcherKey with
      | None => mret tt
      | Some catalog =>
          catalogMap ← assert_map catalog;
          match catalogMap !! catalogApplicationType, catalogMap !! catalogSourceType,
                catalogMap !! catalogSourceRef, catalogMap !! catalogSourceName with
          | Some applicationType, Some sourceType, Some sourceRef, Some sourceName =>
              sourceRef ← assert_string sourceRef;
              sourceName ← assert_string sourceName;
              sourceType ← assert_string sourceType;
              applicationType ← assert_string applicationType;
              err ← RegisterWithSources identity account orgID clientId
                      sourceRef sourceName sourceType applicationType;
              mret tt
          | _, _, _, _ => mret tt
          end
      end
  end.

Definition online_state (clientID : ClientID) (msg : ControlMessage value)
    (account : AccountID) (orgID : OrgID) (handshakePayload : gmap string value)
    (canonicalFacts : value) : ConnectorClientState := {|
  ccAccount := account;
  ccOrgID := orgID;
  ccClientID := clientID;
  ccDispatchers := map_get handshakePayload dispatchersKey;
  ccCanonicalFacts := canonicalFacts;
  ccTags := map_get handshakePayload tagsKey;
  ccMessageMetadata := {| LatestMessageID := MessageID msg; LatestTimestamp := Sent msg |};
  ccTenantLookupTimestamp := zero_time;
  ccTenantLookupFailureCount := 0;
|}.

Definition handleOnlineMessage (clientID : ClientID) (msg : ControlMessage value)
    : M W (option error) :=
  err ← checkForDuplicateOnlineMessage clientID msg;
  match err with
  | Some _ => mret err
  | None =>
      r ← MapClientIdToAccountId clientID;
      let '(identity, account, orgID, _) := r in
      handshakePayload ← assert_map (Content msg);
      canonicalFacts ← sanitizeCanonicalFacts (map_get handshakePayload canonicalFactsKey);
      let rhcClient := online_state clientID msg account orgID handshakePayload canonicalFacts in
      err ← Register rhcClient;
      match err with
      | Some _ => if errors_As_Fatal err then mret err else mret None
      | None =>
          err ← RecordConnectedClient identity rhcClient;
          match err with
          | Some _ => mret None
          | None =>
              processDispatchers identity account orgID clientID handshakePayload;;
              mret None
          end
      end
  end.

Definition handleOfflineMessage (clientID : ClientID) (msg : ControlMessage value)
    : M W (option error) :=
  err ← Unregister clientID;
  if errors_As_Fatal err then mret err else mret None.

Definition handleEventMessage (clientID : ClientID) (msg : ControlMessage value)
    : M W (option error) := mret None.

Definition handleConnectionStatusMessage (clientID : ClientID) (msg : ControlMessage value)
    : M W (option error) :=
  handshakePayload ← assert_map (Content msg);
  match handshakePayload !! "state" with
  | None => mret None
  | Some connectionState =>
      (* the two getters are called for each other's variable *)
      clientName ← GetClientVersionFromConnectionStatusContent handshakePayload;
      clientVersion ← GetClientNameFromConnectionStatusContent handshakePayload;
      let finish (err : option error) : M W (option error) :=
        if bool_decide (err = Some errDuplicateOrOldMQTTMessage) then mret None else mret err in
      if bool_decide (connectionState = VString "online") then
        err ← handleOnlineMessage clientID msg; finish err
      else if bool_decide (connectionState = VString "offline") then
        err ← handleOfflineMessage clientID msg; finish err
      else mret None
  end.

Definition HandleControlMessage (clientID : ClientID) (payload : string) : M W (option error) :=
  Inc controlMessageReceivedCounter;;
  if bool_decide (String.length payload = 0) then mret None
  else
    match unmarshal_ControlMessage payload with
    | None => mret None
    | Some controlMsg =>
        if bool_decide (MessageType controlMsg = "connection-status")
        then handleConnectionStatusMessage clientID controlMsg
        else if bool_decide (MessageType controlMsg = "event")
        then handleEventMessage clientID controlMsg
        else mret None
    end.
End handlers.

(** ** Lemmas *)

(** [m] does not touch the state, however it ends. *)
Definition pure_state {W A} (m : M W A) : Prop := ∀ w, (m w).2 = w.

Lemma wp_pure {W A} (m : M W A) w (Q : outcome A → W → Prop) :
  pure_state m → (∀ o, o = (m w).1 → Q o w) → wp m w Q.
Proof. unfold wp. intros Hm HQ. rewrite Hm. by apply HQ. Qed.

Lemma pure_bind {W A B} (m : M W A) (k : A → M W B) :
  pure_state m → (∀ a, pure_state (k a)) → pure_state (m ≫= k).
Proof.
  intros Hm Hk w. unfold mbind, M_bind. specialize (Hm w).
  destruct (m w) as [[a|s|s] w']; cbn in *; subst; [apply Hk|done..].
Qed.

Lemma pure_assert_map {W} v : pure_state (W := W) (assert_map v).
Proof. intros w. unfold assert_map. by destruct (as_map v). Qed.
Lemma pure_assert_string {W} v : pure_state (W := W) (assert_string v).
Proof. intros w. unfold assert_string. by destruct (as_string v). Qed.
Lemma pure_ret {W A} (a : A) : pure_state (W := W) (mret a).
Proof. done. Qed.
#[export] Hint Resolve pure_bind pure_assert_map pure_assert_string pure_ret : go.

Section sanitize.
Context {W : Type} `{!UUIDParse}.

Lemma pure_sanitize_facts acc facts : pure_state (sanitize_facts (W := W) acc facts).
Proof.
  revert acc. induction facts as [|[k v] facts IH]; intros acc; cbn; [apply pure_ret|].
  apply pure_bind; [|done]. case_bool_decide; auto with go.
Qed.

Lemma pure_sanitize cf : pure_state (sanitizeCanonicalFacts (W := W) cf).
Proof.
  assert (Hpure : pure_state (canonicalFacts ← assert_map cf;
                          sanitized ← sanitize_facts ∅ (map_to_list canonicalFacts);
                          mret (VObject sanitized) : M W value)).
  { apply pure_bind; [apply pure_assert_map|intros m]. apply pure_bind; [|auto with go].
    apply pure_sanitize_facts. }
  by destruct cf.
Qed.

(** The loop keeps everything but an [insights_id] that is not a uuid. *)
Definition sanitized (m : gmap string value) : gmap string value :=
  match m !! "insights_id" with
  | Some (VString s) => if validUUID s then m else delete "insights_id" m
  | _ => m
  end.

Definition insights_id_ok (m : gmap string value) : bool :=
  match m !! "insights_id" with
  | Some (VString _) | None => true
  | _ => false
  end.

Lemma sanitize_facts_lookup (l : list (string * value)) acc (w : W) :
  NoDup l.*1 →
  (∀ v, ("insights_id", v) ∈ l → ∃ s, v = VString s) →
  ∃ m, sanitize_facts acc l w = (Ret m, w) ∧
    ∀ k, m !! k = match (list_to_map l : gmap string value) !! k with
                  | Some v => if bool_decide (k = "insights_id") &&
                                 negb (validUUID (default EmptyString (as_string v)))
                              then acc !! k else Some v
                  | None => acc !! k
                  end.
Proof.
  revert acc. induction l as [|[k0 v0] l IH]; intros acc Hn Hs.
  { exists acc. split; [done|]. intros k. cbn. by rewrite lookup_empty. }
  cbn in Hn. apply NoDup_cons in Hn as [Hk0 Hn].
  assert (Hstep : ∃ acc', sanitize_fact acc (k0, v0) w = (Ret acc', w) ∧
    ∀ k, acc' !! k = if bool_decide (k = k0) && negb (bool_decide (k0 = "insights_id")
                        && negb (validUUID (default EmptyString (as_string v0))))
                     then Some v0 else acc !! k).
  { unfold sanitize_fact. case_bool_decide as Hid.
    - subst k0. destruct (Hs v0) as [s ->]; [left|]. cbn. unfold assert_string. cbn.
      eexists. split; [done|]. intros k. destruct (validUUID s); cbn.
      + case_bool_decide; subst; [by rewrite lookup_insert_eq|by rewrite lookup_insert_ne].
      + by rewrite andb_false_r.
    - eexists. split; [done|]. intros k. cbn. rewrite andb_true_r.
      case_bool_decide; subst; [by rewrite lookup_insert_eq|by rewrite lookup_insert_ne]. }
  destruct Hstep as (acc'&Hstep&Hacc'). destruct (IH acc' Hn) as (m&Hm&Hlk).
  { intros v Hv. apply Hs. by right. }
  exists m. split.
  { cbn [sanitize_facts]. unfold mbind, M_bind. by rewrite Hstep. }
  intros k. rewrite Hlk, Hacc'. cbn [list_to_map]. change (list_to_map ((k0, v0) :: l))
    with (<[k0 := v0]> (list_to_map l : gmap string value)).
  destruct (decide (k = k0)) as [->|Hne].
  - rewrite lookup_insert_eq, (not_elem_of_list_to_map_1 l k0) by done.
    rewrite bool_decide_eq_true_2 by done. cbn.
    by destruct (bool_decide (k0 = "insights_id") && _).
  - rewrite lookup_insert_ne by done. rewrite (bool_decide_eq_false_2 (k = k0)) by done. done.
Qed.

Lemma sanitize_spec m (w : W) :
  insights_id_ok m = true →
  sanitizeCanonicalFacts (VObject m) w = (Ret (VObject (sanitized m)), w).
Proof.
  intros Hok. unfold sanitizeCanonicalFacts, assert_map. cbn [as_map].
  rewrite bind_ret_l.
  destruct (sanitize_facts_lookup (map_to_list m) ∅ w) as (m'&Hm'&Hlk).
  - apply NoDup_fst_map_to_list.
  - intros v Hv%elem_of_map_to_list. unfold insights_id_ok in Hok. rewrite Hv in Hok.
    destruct v; try done. eauto.
  - rewrite (bind_ret _ _ _ _ _ Hm'). unfold mret, M_ret. do 2 f_equal. f_equal.
    apply map_eq. intros k. rewrite Hlk, list_to_map_to_list. unfold sanitized.
    unfold insights_id_ok in Hok. destruct (decide (k = "insights_id")) as [->|Hne].
    + rewrite bool_decide_eq_true_2 by done.
      destruct (m !! "insights_id") as [[| | |s| |]|] eqn:Hv; try done; cbn.
      destruct (validUUID s); cbn; by rewrite ?Hv, ?lookup_delete_eq, ?lookup_empty.
    + rewrite bool_decide_eq_false_2 by done. cbn. rewrite lookup_empty.
      destruct (m !! "insights_id") as [[]|]; try (by destruct (m !! k)).
      destruct (validUUID s); [by destruct (m !! k)|].
      rewrite lookup_delete_ne by done. by destruct (m !! k).
Qed.

(** An [insights_id] that is not a string makes the loop panic. *)
Lemma sanitize_facts_panics (l : list (string * value)) acc v (w : W) :
  ("insights_id", v) ∈ l → as_string v = None → ∃ why, sanitize_facts acc l w = (Panic why, w).
Proof.
  intros Hin Hv. revert acc. induction l as [|[k0 v0] l IH]; intros acc; [by apply elem_of_nil in Hin|].
  cbn [sanitize_facts sanitize_fact]. case_bool_decide as Hk.
  - destruct (as_string v0) as [s|] eqn:Hv0.
    + apply elem_of_cons in Hin as [[= _ <-]|Hin]; [congruence|].
      unfold assert_string. rewrite Hv0. unfold mbind, M_bind, mret, M_ret. cbn. by apply IH.
    + unfold assert_string. rewrite Hv0. by eexists.
  - apply elem_of_cons in Hin as [[= <- <-]|Hin]; [done|].
    unfold mbind, M_bind, mret, M_ret. cbn. by apply IH.
Qed.

Lemma sanitize_panics cf (w : W) :
  match cf with VNull => False | VObject m => insights_id_ok m = false | _ => True end →
  ∃ why, sanitizeCanonicalFacts cf w = (Panic why, w).
Proof.
  destruct cf as [| | | | |m]; try done; try (intros _; by eexists).
  unfold insights_id_ok. intros Hm. destruct (m !! "insights_id") as [v|] eqn:Hv; [|done].
  destruct (sanitize_facts_panics (map_to_list m) ∅ v w) as [why Hp].
  - by apply elem_of_map_to_list.
  - by destruct v.
  - exists why. unfold sanitizeCanonicalFacts, assert_map. cbn [as_map]. rewrite bind_ret_l.
    by apply bind_panic.
Qed.
End sanitize.

(** ** The handler over a registrar that keeps its contract *)

Section framed.
Context {W : Type} `{!ConnectionRegistrar W, !RegistrarContract W}.

(** [m] keeps the registry and its invariant. *)
Definition frames {A} (m : M W A) : Prop := ∀ w, registrar_inv w →
  wp m w (λ _ w', registrar_inv w' ∧ registry w' = registry w).

Lemma wp_frames {A} (m : M W A) w (Q : outcome A → W → Prop) :
  frames m → registrar_inv w →
  (∀ o w', o = (m w).1 → w' = (m w).2 → registrar_inv w' → registry w' = registry w → Q o w') →
  wp m w Q.
Proof. intros Hm Hw HQ. destruct (Hm w Hw). by apply HQ. Qed.

Lemma frames_pure {A} (m : M W A) : pure_state m → frames m.
Proof. intros Hm w Hw. apply wp_pure; [done|]. done. Qed.

Lemma frames_bind {A B} (m : M W A) (k : A → M W B) :
  frames m → (∀ a, frames (k a)) → frames (m ≫= k).
Proof.
  intros Hm Hk w Hw. apply wp_bind. eapply wp_mono; [by apply Hm|].
  intros [a|s|s] w' [Hw' <-]; [by apply Hk|done..].
Qed.
End framed.

(** What the handlers need of the other services: they leave the registry alone. *)
Class ServicesFrame (W : Type) `{!ConnectionRegistrar W, !RegistrarContract W,
    !AccountIdResolver W, !ConnectedClientRecorder W, !SourcesRecorder W, !Metrics W} : Prop := {
  frame_inc c : frames (Inc c);
  inc_returns c (w : W) : (Inc c w).1 = Ret tt;
  frame_resolve cid : frames (MapClientIdToAccountId cid);
  frame_record identity c : frames (RecordConnectedClient identity c);
  frame_sources i a o c r n t ty : frames (RegisterWithSources i a o c r n t ty);
}.

Section handler_properties.
Context {W : Type} `{!ConnectionRegistrar W, !RegistrarContract W, !AccountIdResolver W,
  !ConnectedClientRecorder W, !SourcesRecorder W, !Metrics W, !ServicesFrame W, !UUIDParse}.
#[local] Set Default Proof Using "Type*".

Lemma frames_processDispatchers i a o c hp : frames (processDispatchers i a o c hp).
Proof.
  unfold processDispatchers. destruct (hp !! dispatchersKey); [|apply frames_pure; auto with go].
  apply frames_bind; [apply frames_pure; auto with go|intros dm].
  destruct (dm !! catalogDispatcherKey); [|apply frames_pure; auto with go].
  apply frames_bind; [apply frames_pure; auto with go|intros cm].
  do 4 (case_match; [|apply frames_pure; auto with go]).
  do 4 (apply frames_bind; [apply frames_pure; auto with go|intros ?]).
  apply frames_bind; [apply frame_sources|intros ?]. apply frames_pure. auto with go.
Qed.

(** The states an online message can register are storable. *)
Definition admissible_online (cid : ClientID) (msg : ControlMessage value) : Prop :=
  ∀ w identity account org err w',
    MapClientIdToAccountId cid w = (Ret (identity, account, org, err), w') →
    ∀ payload facts, admissible (W := W) (online_state cid msg account org payload facts).

(** The resolver may name this tenant for the client. *)
Definition may_resolve (cid : ClientID) (account : AccountID) (org : OrgID) : Prop :=
  ∃ (w : W) identity err w', MapClientIdToAccountId cid w = (Ret (identity, account, org, err), w').

(** The facts that are registered for a content. *)
Definition registered_facts (content : gmap string value) (facts : value) : Prop :=
  match default VNull (content !! "canonical_facts") with
  | VNull => facts = VObject ∅
  | VObject f => insights_id_ok f = true ∧ facts = VObject (sanitized f)
  | _ => False
  end.

(** [c] is the state that an online message with this content announces. *)
Definition announces (cid : ClientID) (msg : ControlMessage value) (content : gmap string value)
    (c : ConnectorClientState) : Prop :=
  ccClientID c = cid ∧ may_resolve cid (ccAccount c) (ccOrgID c) ∧
  ccDispatchers c = default VNull (content !! "dispatchers") ∧
  ccTags c = default VNull (content !! "tags") ∧
  registered_facts content (ccCanonicalFacts c) ∧
  LatestMessageID (ccMessageMetadata c) = MessageID msg ∧
  LatestTimestamp (ccMessageMetadata c) = Sent msg ∧
  ccTenantLookupTimestamp c = zero_time ∧ ccTenantLookupFailureCount c = 0%Z.

(** The message is neither a duplicate of the entry nor older than it. *)
Definition newer (msg : ControlMessage value) (s : ConnectorClientState) : Prop :=
  LatestMessageID (ccMessageMetadata s) ≠ MessageID msg ∧
  (LatestTimestamp (ccMessageMetadata s) ≤ Sent msg)%Z.

Lemma newer_iff msg s : isDuplicateOrOldMessage s msg = false ↔ newer msg s.
Proof.
  unfold isDuplicateOrOldMessage, newer, Before. rewrite orb_false_iff, bool_decide_eq_false, Z.ltb_ge. done.
Qed.

(** What an online message may do to its client's entry. *)
Definition online_effect (cid : ClientID) (msg : ControlMessage value) (content : gmap string value)
    (old new : option ConnectorClientState) : Prop :=
  new = old ∨
  (∀ s, old = Some s → newer msg s) ∧
  ∃ c, announces cid msg content c ∧ new = Some (stored (W := W) old c).

Lemma sanitize_registered content cf (w : W) :
  (sanitizeCanonicalFacts (map_get content canonicalFactsKey) w).1 = Ret cf → registered_facts content cf.
Proof.
  unfold registered_facts. change (default VNull (content !! "canonical_facts")) with (map_get content canonicalFactsKey).
  destruct (map_get content canonicalFactsKey) as [|b|f|s|l|m] eqn:Hm; try done.
  - by intros [= <-].
  - destruct (insights_id_ok m) eqn:Hok.
    + rewrite sanitize_spec by done. by intros [= <-].
    + destruct (sanitize_panics (VObject m) w Hok) as [why ->]. done.
Qed.

Definition only_fatal (o : outcome (option error)) : Prop :=
  match o with Ret (Some e) => is_fatal_e e = true | _ => True end.

Lemma check_duplicate_spec cid msg w :
  registrar_inv w →
  wp (checkForDuplicateOnlineMessage cid msg) w (λ o w', registrar_inv w' ∧
    registry w' = registry w ∧
    match o with
    | Ret None => ∀ s, registry w !! cid = Some s → isDuplicateOrOldMessage s msg = false
    | Ret (Some e) => is_fatal_e e = true ∨
        (e = errDuplicateOrOldMQTTMessage ∧
         ∃ s, registry w !! cid = Some s ∧ isDuplicateOrOldMessage s msg = true)
    | _ => False
    end).
Proof.
  intros Hw. unfold checkForDuplicateOnlineMessage. apply wp_bind.
  eapply wp_mono; [by apply find_contract|].
  intros [[s [e|]]|?|?] w' (Hw'&Hreg&Ho); try done.
  - destruct Ho as [[-> Hnone]|Hf].
    + apply wp_ret. split_and!; [done..|]. intros s' Hs'. congruence.
    + cbn [errors_Is errors_As_Fatal]. rewrite Hf.
      destruct (errors_Is_e e NotFoundError) eqn:Hnf; apply wp_ret; split_and!; try done; [|by left].
      intros s' Hs'. exfalso. clear -Hf Hnf. induction e; cbn in *; try done.
      apply IHe; [done|]. by apply orb_true_iff in Hnf as [Hnf%bool_decide_eq_true|].
  - cbn. destruct (isDuplicateOrOldMessage s msg) eqn:Hd; apply wp_ret; split_and!; try done.
    + right. eauto.
    + intros s' Hs'. congruence.
Qed.

Lemma online_spec cid msg content w :
  registrar_inv w → admissible_online cid msg → Content msg = VObject content →
  wp (handleOnlineMessage cid msg) w (λ o w', registrar_inv w' ∧
    (∀ k, k ≠ cid → registry w' !! k = registry w !! k) ∧
    online_effect cid msg content (registry w !! cid) (registry w' !! cid) ∧
    match o with
    | Ret (Some e) => is_fatal_e e = true ∨ e = errDuplicateOrOldMQTTMessage
    | _ => True
    end).
Proof.
  intros Hw Hadm Hcontent. unfold handleOnlineMessage. apply wp_bind.
  eapply wp_mono; [by apply check_duplicate_spec|].
  intros [[e|]|?|?] w1 (Hw1&Hr1&Ho); try done.
  { apply wp_ret. rewrite Hr1. split_and!; [done..|by left|]. naive_solver. }
  assert (Hsame : ∀ w', registry w' = registry w1 →
    (∀ k, k ≠ cid → registry w' !! k = registry w !! k) ∧
    online_effect cid msg content (registry w !! cid) (registry w' !! cid)).
  { intros w' ->. rewrite Hr1. split; [done|by left]. }
  apply wp_bind, wp_frames; [apply frame_resolve|done|].
  intros o w2 Heo Hew Hw2 Hr2. destruct o as [[[[identity account] org] err]|?|?];
    [|split; [done|]; destruct (Hsame w2 Hr2); done..].
  rewrite Hcontent. apply wp_bind, (wp_ret (W := W) content).
  apply wp_bind, wp_pure; [apply pure_sanitize|]. intros o Ho3.
  destruct o as [cf|?|?]; [|split; [done|]; destruct (Hsame w2 Hr2); done..].
  set (c := online_state cid msg account org content cf).
  assert (Hadm' : admissible c).
  { eapply (Hadm w1). rewrite (surjective_pairing (MapClientIdToAccountId cid w1)).
    f_equal; by symmetry. }
  apply wp_bind. eapply wp_mono; [by apply register_contract|].
  intros [[e|]|?|?] w3 [Hw3 Hreg]; try done.
  { destruct (Hsame w3 ltac:(congruence)) as [H1 H2].
    cbn [errors_As_Fatal]. destruct (is_fatal_e e) eqn:Hf; apply wp_ret; split_and!; auto. }
  assert (Hnew : ∀ w', registry w' = registry w3 →
    (∀ k, k ≠ cid → registry w' !! k = registry w !! k) ∧
    online_effect cid msg content (registry w !! cid) (registry w' !! cid)).
  { intros w' ->. rewrite Hreg, Hr2, Hr1. cbn [ccClientID c online_state]. split.
    - intros k Hk. by rewrite lookup_insert_ne.
    - right. rewrite lookup_insert_eq. split; [intros s Hs; by apply newer_iff, Ho|].
      exists c. split; [|done]. split_and!; try done; [|by eapply sanitize_registered; symmetry].
      exists w1, identity, err, w2. rewrite (surjective_pairing (MapClientIdToAccountId cid w1)).
      f_equal; by symmetry. }
  apply wp_bind, wp_frames; [apply frame_record|done|]. intros o w4 _ _ Hw4 Hr4.
  destruct (Hnew w4 Hr4) as [H1 H2].
  destruct o as [[e|]|?|?]; [apply wp_ret; done| |done..].
  apply wp_bind, wp_frames; [apply frames_processDispatchers|done|]. intros o w5 _ _ Hw5 Hr5.
  destruct (Hnew w5 ltac:(congruence)) as [H3 H4].
  destruct o as [[]|?|?]; [apply wp_ret|..]; done.
Qed.

Lemma offline_spec cid msg w :
  registrar_inv w →
  wp (handleOfflineMessage cid msg) w (λ o w', registrar_inv w' ∧
    (registry w' = registry w ∨ registry w' = delete cid (registry w)) ∧
    match o with
    | Ret (Some e) => is_fatal_e e = true ∧ registry w' = registry w
    | Ret None => registry w' = delete cid (registry w)
    | _ => False
    end).
Proof.
  intros Hw. unfold handleOfflineMessage. apply wp_bind.
  eapply wp_mono; [by apply unregister_contract|].
  intros [[e|]|?|?] w' [Hw' Ho]; try done; cbn [errors_As_Fatal].
  - destruct Ho as [Hf Hr]. rewrite Hf. apply wp_ret. split_and!; auto.
  - apply wp_ret. split_and!; auto.
Qed.

Lemma pure_getString fieldName m :
  pure_state (W := W) (getStringFromContentPayload fieldName m).
Proof.
  unfold getStringFromContentPayload. destruct (m !! fieldName); auto with go.
Qed.

(** The effect a payload may have on its client's entry. *)
Definition payload_effect (cid : ClientID) (payload : string)
    (old new : option ConnectorClientState) : Prop :=
  new = old ∨
  ∃ msg content, unmarshal_ControlMessage payload = Some msg ∧
    MessageType msg = "connection-status" ∧ Content msg = VObject content ∧
    ((content !! "state" = Some (VString "offline") ∧ new = None) ∨
     (content !! "state" = Some (VString "online") ∧ online_effect cid msg content old new)).

Lemma connection_status_spec cid msg w :
  registrar_inv w → admissible_online cid msg →
  wp (handleConnectionStatusMessage cid msg) w (λ o w', registrar_inv w' ∧
    (∀ k, k ≠ cid → registry w' !! k = registry w !! k) ∧ only_fatal o ∧
    (registry w' !! cid = registry w !! cid ∨
     ∃ content, Content msg = VObject content ∧
       ((content !! "state" = Some (VString "offline") ∧ registry w' !! cid = None) ∨
        (content !! "state" = Some (VString "online") ∧
         online_effect cid msg content (registry w !! cid) (registry w' !! cid))))).
Proof.
  intros Hw Hadm. unfold handleConnectionStatusMessage.
  apply wp_bind, wp_pure; [apply pure_assert_map|]. intros o Ho.
  destruct o as [content|?|?]; [|split_and!; auto; done..].
  assert (Hc : Content msg = VObject content).
  { unfold assert_map in Ho. by destruct (Content msg); simplify_eq/=. }
  destruct (content !! "state") as [state|] eqn:Hs; [|apply wp_ret; split_and!; auto; done].
  apply wp_bind, wp_pure; [apply pure_getString|]. intros [v|?|?] _; [|split_and!; auto; done..].
  apply wp_bind, wp_pure; [apply pure_getString|]. intros [v'|?|?] _; [|split_and!; auto; done..].
  case_bool_decide as Hon; [subst state|case_bool_decide as Hoff; [subst state|]].
  - apply wp_bind. eapply wp_mono; [by apply online_spec|].
    intros [err|?|?] w' (Hw'&Hk&He&Ho'); [|split_and!; [done..|right; eauto 10]..].
    case_bool_decide as Hd; apply wp_ret; split_and!; try done; try (right; by eauto 10).
    destruct err as [e|]; [|done]. destruct Ho' as [?| ->]; done.
  - apply wp_bind. eapply wp_mono; [by apply offline_spec|].
    intros o' w' (Hw'&Hr&Ho').
    assert (Hk : ∀ k, k ≠ cid → registry w' !! k = registry w !! k).
    { intros k Hk. destruct Hr as [->| ->]; [done|]. by rewrite lookup_delete_ne. }
    assert (He : registry w' !! cid = registry w !! cid ∨ registry w' !! cid = None).
    { destruct Hr as [->| ->]; [by left|right]. by rewrite lookup_delete_eq. }
    destruct o' as [[e|]|?|?]; try done; case_bool_decide as Hd; apply wp_ret;
      split_and!; try done; try (destruct He; [by left|right; by eauto 10]).
    by destruct Ho'.
  - apply wp_ret. split_and!; auto; done.
Qed.

Lemma handle_effect cid payload w :
  registrar_inv w →
  (∀ msg, unmarshal_ControlMessage payload = Some msg → admissible_online cid msg) →
  wp (HandleControlMessage cid payload) w (λ o w', registrar_inv w' ∧
    (∀ k, k ≠ cid → registry w' !! k = registry w !! k) ∧ only_fatal o ∧
    payload_effect cid payload (registry w !! cid) (registry w' !! cid)).
Proof.
  intros Hw Hadm. unfold HandleControlMessage.
  apply wp_bind, wp_frames; [apply frame_inc|done|]. intros o w1 _ _ Hw1 Hr1.
  unfold payload_effect. rewrite <-Hr1.
  destruct o as [[]|?|?]; [|split_and!; auto; done..].
  case_bool_decide; [apply wp_ret; split_and!; auto; done|].
  destruct (unmarshal_ControlMessage payload) as [msg|] eqn:Hmsg;
    [|apply wp_ret; split_and!; auto; done].
  case_bool_decide as Hty.
  - eapply wp_mono; [by apply connection_status_spec; auto|].
    intros o w' (Hw'&Hk&Ho&[?|(content&Hc&He)]); split_and!; try done; [by left|right; eauto 10].
  - case_bool_decide; apply wp_ret; split_and!; auto; done.
Qed.

(** C3: Whatever a client sends (as long as its ids and its tenant fit their
    columns), handling it keeps the registry well formed, changes the sender's own
    entry at most, reports only fatal errors to the Kafka consumer, and changes the
    entry only for a connection-status message: offline removes it; online, when
    the message is neither a duplicate of the entry nor older than it, replaces it
    by what the message announces: its dispatchers, its tags, its id and date, its
    canonical facts (with the insights_id only if it is a uuid) and the tenant the
    resolver names. *)
Theorem HandleControlMessage_effect cid payload w :
  registrar_inv w →
  (∀ msg, unmarshal_ControlMessage payload = Some msg → admissible_online cid msg) →
  wp (HandleControlMessage cid payload) w (λ o w', registrar_inv w' ∧
    (∀ k, k ≠ cid → registry w' !! k = registry w !! k) ∧ only_fatal o ∧
    payload_effect cid payload (registry w !! cid) (registry w' !! cid)).
Proof. by apply handle_effect. Qed.

(** C4: A client's timestamp never goes back: whatever it sends, as long as it
    stays registered the time of its stored message does not decrease. *)
Theorem HandleControlMessage_monotone cid payload w s o w' s' :
  registrar_inv w →
  (∀ msg, unmarshal_ControlMessage payload = Some msg → admissible_online cid msg) →
  HandleControlMessage cid payload w = (o, w') →
  registry w !! cid = Some s → registry w' !! cid = Some s' →
  (LatestTimestamp (ccMessageMetadata s) ≤ LatestTimestamp (ccMessageMetadata s'))%Z.
Proof.
  intros Hw Hadm Hrun Hs Hs'.
  pose proof (handle_effect cid payload w Hw Hadm) as Heff.
  rewrite wp_unfold, Hrun in Heff. destruct Heff as (_&_&_&Heff). cbn in Heff.
  rewrite Hs, Hs' in Heff.
  destruct Heff as [[= ->]|(msg&content&_&_&_&[[_ ?]|[_ Honl]])]; [done..|].
  destruct Honl as [[= ->]|(Hd&c&(_&_&_&_&_&_&Ht&_)&[= ->])]; [done|].
  eapply stored_timestamp; [exact Hw|exact Hs|]. rewrite Ht. by apply Hd.
Qed.

(** The same message handled some number of times, however each time ends.  In
    between, a restart say, the services may change; the registry does not. *)
Inductive deliveries (cid : ClientID) (payload : string) : W → W → Prop :=
| delivered_never w : deliveries cid payload w w
| delivered_again w w1 w2 o w3 : deliveries cid payload w w1 →
    registrar_inv w2 → registry w2 = registry w1 →
    HandleControlMessage cid payload w2 = (o, w3) → deliveries cid payload w w3.

Lemma deliveries_inv cid payload w w' :
  (∀ msg, unmarshal_ControlMessage payload = Some msg → admissible_online cid msg) →
  registrar_inv w → deliveries cid payload w w' → registrar_inv w'.
Proof.
  intros Hadm Hw. induction 1 as [w|w w1 w2 o w3 _ _ Hw2 _ Hrun]; [done|].
  pose proof (handle_effect cid payload w2 Hw2 Hadm) as Heff.
  rewrite wp_unfold, Hrun in Heff. apply Heff.
Qed.

(** Once a message has changed its client's entry it changes nothing more. *)
Lemma effect_once cid payload old new new' :
  payload_effect cid payload old new → new ≠ old → payload_effect cid payload new new' → new' = new.
Proof.
  intros [?|(msg&content&Hm&_&Hc&He)] Hne Heff2; [done|].
  destruct Heff2 as [?|(msg'&content'&Hm'&_&Hc'&He')]; [done|].
  assert (msg' = msg) as -> by congruence. assert (content' = content) as -> by congruence.
  destruct He as [[Hs He]|[Hs He]], He' as [[Hs' He']|[Hs' He']]; try congruence.
  destruct He as [?|(_&c&(_&_&_&_&_&Hid&_)&Hst)]; [done|]. destruct He' as [?|(Hd&_)]; [done|].
  destruct (Hd _ Hst) as [Hnid _]. by rewrite stored_message_id, Hid in Hnid.
Qed.

Lemma deliveries_effect cid payload w w' :
  (∀ msg, unmarshal_ControlMessage payload = Some msg → admissible_online cid msg) →
  registrar_inv w → deliveries cid payload w w' →
  (∀ k, k ≠ cid → registry w' !! k = registry w !! k) ∧
  payload_effect cid payload (registry w !! cid) (registry w' !! cid).
Proof.
  intros Hadm Hw. induction 1 as [w|w w1 w2 o w3 _ IH Hw2 Heq Hrun]; [split; [done|by left]|].
  destruct (IH Hw) as [Hk Heff].
  pose proof (handle_effect cid payload w2 Hw2 Hadm) as Heff2.
  rewrite wp_unfold, Hrun in Heff2. destruct Heff2 as (_&Hk2&_&Heff2). cbn in Hk2, Heff2.
  rewrite Heq in Heff2, Hk2. split; [intros k Hne; by rewrite Hk2, Hk|].
  destruct (decide (registry w1 !! cid = registry w !! cid)) as [Hsame|Hne].
  - by rewrite Hsame in Heff2.
  - by rewrite (effect_once _ _ _ _ _ Heff Hne Heff2).
Qed.

(** C6: A message takes effect once at most, however often it is delivered (the
    consumer commits after processing, so after a failure or a restart a message
    is handled again): handled any number of times, with any of the attempts
    failing, it has had on its client's entry the effect of one handling, or none;
    other entries are as before; and from the first delivery that changed the
    entry on, further ones leave the whole registry as it is. *)
Theorem redelivery_harmless cid payload w w1 w2 :
  registrar_inv w →
  (∀ msg, unmarshal_ControlMessage payload = Some msg → admissible_online cid msg) →
  deliveries cid payload w w1 → deliveries cid payload w1 w2 →
  (∀ k, k ≠ cid → registry w2 !! k = registry w !! k) ∧
  payload_effect cid payload (registry w !! cid) (registry w2 !! cid) ∧
  (registry w1 !! cid ≠ registry w !! cid → registry w2 = registry w1).
Proof.
  intros Hw Hadm H1 H2. pose proof (deliveries_inv _ _ _ _ Hadm Hw H1) as Hw1.
  destruct (deliveries_effect _ _ _ _ Hadm Hw H1) as [Hk1 He1].
  destruct (deliveries_effect _ _ _ _ Hadm Hw1 H2) as [Hk2 He2].
  assert (Hlater : registry w1 !! cid ≠ registry w !! cid → registry w2 !! cid = registry w1 !! cid).
  { intros Hne. by eapply effect_once. }
  split_and!.
  - intros k Hk. by rewrite Hk2, Hk1.
  - destruct (decide (registry w1 !! cid = registry w !! cid)) as [Hsame|Hne].
    + by rewrite Hsame in He2.
    + by rewrite Hlater.
  - intros Hne. apply map_eq. intros k. destruct (decide (k = cid)) as [->|]; [by apply Hlater|by apply Hk2].
Qed.

(** ** Panics *)

(** The shapes the unchecked type assertions rely on. *)
Definition string_or_absent (m : gmap string value) (key : string) : bool :=
  match m !! key with Some (VString _) | None => true | _ => false end.

Definition catalog_ok (catalogMap : gmap string value) : bool :=
  match catalogMap !! catalogApplicationType, catalogMap !! catalogSourceType,
        catalogMap !! catalogSourceRef, catalogMap !! catalogSourceName with
  | Some a, Some t, Some r, Some n =>
      forallb (λ v, bool_decide (is_Some (as_string v))) [a; t; r; n]
  | _, _, _, _ => true
  end.

Definition dispatchers_ok (m : gmap string value) : bool :=
  match m !! dispatchersKey with
  | None => true
  | Some (VObject d) =>
      match d !! catalogDispatcherKey with
      | None => true
      | Some (VObject c) => catalog_ok c
      | _ => false
      end
  | _ => false
  end.

Definition facts_ok (m : gmap string value) : bool :=
  match map_get m canonicalFactsKey with
  | VNull => true
  | VObject f => insights_id_ok f
  | _ => false
  end.

Definition shapes_ok (content : gmap string value) : bool :=
  string_or_absent content "client_name" && string_or_absent content "client_version"
  && facts_ok content && dispatchers_ok content.

(** The canonical facts that are registered. *)
Definition facts_of (m : gmap string value) : gmap string value :=
  match map_get m canonicalFactsKey with VObject f => sanitized f | _ => ∅ end.

Lemma sanitize_content m (w : W) :
  facts_ok m = true →
  sanitizeCanonicalFacts (map_get m canonicalFactsKey) w = (Ret (VObject (facts_of m)), w).
Proof.
  unfold facts_ok, facts_of. destruct (map_get m canonicalFactsKey); try done.
  apply sanitize_spec.
Qed.

Definition returns {A} (o : outcome A) : Prop := match o with Ret _ => True | _ => False end.

Lemma assert_string_returns v w :
  is_Some (as_string v) → ∃ s, (assert_string v : M W string) w = (Ret s, w).
Proof. intros [s Hs]. exists s. unfold assert_string. by rewrite Hs. Qed.

Lemma assert_map_object m (w : W) : assert_map (VObject m) w = (Ret m, w).
Proof. done. Qed.

Lemma processDispatchers_returns i a o c hp (w : W) :
  (∀ r n t ty (w : W), returns (RegisterWithSources i a o c r n t ty w).1) →
  dispatchers_ok hp = true → returns (processDispatchers i a o c hp w).1.
Proof.
  intros Hsrc Hok. unfold dispatchers_ok in Hok. unfold processDispatchers.
  destruct (hp !! dispatchersKey) as [[| | | | |d]|]; try done.
  rewrite (bind_ret _ _ _ _ _ (assert_map_object d w)).
  destruct (d !! catalogDispatcherKey) as [[| | | | |cm]|]; try done.
  rewrite (bind_ret _ _ _ _ _ (assert_map_object cm w)). unfold catalog_ok in Hok.
  repeat (case_match; [|done]). cbn [forallb] in Hok.
  rewrite !andb_true_iff, !bool_decide_eq_true in Hok. destruct Hok as (Ha&Ht&Hr&Hn&_).
  destruct (assert_string_returns _ w Hr) as [r' Er], (assert_string_returns _ w Hn) as [n' En],
    (assert_string_returns _ w Ht) as [t' Et], (assert_string_returns _ w Ha) as [a' Ea].
  rewrite (bind_ret _ _ _ _ _ Er), (bind_ret _ _ _ _ _ En), (bind_ret _ _ _ _ _ Et),
    (bind_ret _ _ _ _ _ Ea).
  specialize (Hsrc r' n' t' a' w). unfold mbind, M_bind.
  by destruct (RegisterWithSources _ _ _ _ _ _ _ _ w) as [[]?].
Qed.

Lemma string_answers f content (w : W) :
  string_or_absent content f = true → ∃ r, (getStringFromContentPayload f content : M W _) w = (Ret r, w).
Proof.
  intros Hsf. unfold string_or_absent in Hsf. unfold getStringFromContentPayload.
  destruct (content !! f) as [[]|]; try done; eexists; done.
Qed.

(** The shapes that every connection-status message is assumed to have. *)
Lemma status_shape_panics cid msg (w : W) :
  (as_map (Content msg) = None ∨
   ∃ content, Content msg = VObject content ∧ is_Some (content !! "state") ∧
     string_or_absent content "client_version" && string_or_absent content "client_name" = false) →
  ∃ why, handleConnectionStatusMessage cid msg w = (Panic why, w).
Proof.
  assert (Hbad : ∀ f content, string_or_absent content f = false →
    ∃ why, (getStringFromContentPayload f content : M W _) w = (Panic why, w)).
  { intros f content Hf. unfold string_or_absent in Hf. unfold getStringFromContentPayload.
    destruct (content !! f) as [x|]; [|done]. destruct x; try done; by eexists. }
  unfold handleConnectionStatusMessage. intros [Hn|(content&Hc&[v Hs]&Hv)].
  - unfold assert_map. rewrite Hn. eexists. by apply bind_panic.
  - rewrite Hc. unfold assert_map. cbn [as_map]. rewrite bind_ret_l, Hs.
    destruct (string_or_absent content "client_version") eqn:Hver.
    + destruct (string_answers _ _ w Hver) as [r E], (Hbad "client_name" content Hv) as [why Hp].
      exists why. unfold GetClientVersionFromConnectionStatusContent. rewrite (bind_ret _ _ _ _ _ E).
      by apply bind_panic.
    + destruct (Hbad "client_version" content Hver) as [why Hp]. exists why. by apply bind_panic.
Qed.

Lemma online_returns cid msg content w :
  registrar_inv w → Content msg = VObject content →
  facts_ok content = true → dispatchers_ok content = true →
  (∀ w : W, returns (MapClientIdToAccountId cid w).1) →
  (∀ i account org (w : W), returns (RecordConnectedClient i
     (online_state cid msg account org content (VObject (facts_of content))) w).1) →
  (∀ i a o c r n t ty (w : W), returns (RegisterWithSources i a o c r n t ty w).1) →
  wp (handleOnlineMessage cid msg) w (λ o _, returns o).
Proof.
  intros Hw1 Hc Hf Hd Hres Hrec Hsrc.
  unfold handleOnlineMessage. apply wp_bind.
  eapply wp_mono; [by apply check_duplicate_spec|].
  intros [[e|]|?|?] w2 (Hw2&_&Ho); try done.
  apply wp_bind, wp_frames; [apply frame_resolve|done|]. intros o w3 -> Hew3 Hw3 _.
  specialize (Hres w2). destruct (MapClientIdToAccountId cid w2) as [o w3'] eqn:Er.
  cbn in Hres, Hew3 |- *. subst w3'.
  destruct o as [[[[identity account] org] err]|?|?]; try done.
  apply wp_bind. rewrite Hc. apply (wp_ret (W := W) content).
  apply wp_bind, wp_pure; [apply pure_sanitize|]. intros o ->.
  rewrite (sanitize_content content w3 Hf). cbn [fst].
  set (cf := VObject (facts_of content)).
  destruct (register_returns (online_state cid msg account org content cf) w3) as (err'&w4&Hreg).
  eapply wp_bind_ret; [exact Hreg|]. destruct err' as [e|].
  { cbn [errors_As_Fatal]. by destruct (is_fatal_e e). }
  apply wp_bind. rewrite wp_unfold. specialize (Hrec identity account org w4).
  fold cf in Hrec.
  destruct (RecordConnectedClient _ _ w4) as [[[e|]|?|?] w5]; try done. cbn.
  pose proof (processDispatchers_returns identity account org cid content w5
    (Hsrc identity account org cid) Hd) as Hpd. unfold mbind, M_bind.
  rewrite wp_unfold. by destruct (processDispatchers _ _ _ _ _ w5) as [[]?].
Qed.

(** A message of the documented shape never makes the handler panic or exit, when
    the services it calls return. *)
Lemma handler_returns cid payload msg content w :
  registrar_inv w →
  unmarshal_ControlMessage payload = Some msg → Content msg = VObject content →
  shapes_ok content = true →
  (∀ w : W, returns (MapClientIdToAccountId cid w).1) →
  (∀ i account org (w : W), returns (RecordConnectedClient i
     (online_state cid msg account org content (VObject (facts_of content))) w).1) →
  (∀ i a o c r n t ty (w : W), returns (RegisterWithSources i a o c r n t ty w).1) →
  returns (HandleControlMessage cid payload w).1.
Proof.
  intros Hw Hm Hc [[[Hn Hv]%andb_true_iff Hf]%andb_true_iff Hd]%andb_true_iff Hres Hrec Hsrc.
  change (wp (HandleControlMessage cid payload) w (λ o _, returns o)).
  unfold HandleControlMessage.
  apply wp_bind, wp_frames; [apply frame_inc|done|]. intros o w1 Ho _ Hw1 _.
  rewrite inc_returns in Ho. subst o.
  case_bool_decide; [done|]. rewrite Hm. case_bool_decide; [|by case_bool_decide].
  unfold handleConnectionStatusMessage. apply wp_bind. rewrite Hc.
  apply (wp_ret (W := W) content). destruct (content !! "state") as [st|]; [|done].
  destruct (string_answers _ _ w1 Hn) as [r1 E1], (string_answers _ _ w1 Hv) as [r2 E2]. rewrite wp_unfold.
  unfold GetClientVersionFromConnectionStatusContent, GetClientNameFromConnectionStatusContent.
  rewrite (bind_ret _ _ _ _ _ E2), (bind_ret _ _ _ _ _ E1).
  case_bool_decide.
  - pose proof (online_returns cid msg content w1 Hw1 Hc Hf Hd Hres Hrec Hsrc) as Hon.
    unfold mbind, M_bind. rewrite wp_unfold in Hon.
    destruct (handleOnlineMessage cid msg w1) as [[err|?|?] ?]; try done.
    by case_bool_decide.
  - case_bool_decide; [|done].
    pose proof (offline_spec cid msg w1 Hw1) as Hoff. rewrite wp_unfold in Hoff.
    unfold mbind, M_bind.
    destruct (handleOfflineMessage cid msg w1) as [[[e|]|?|?] ?]; try (by destruct Hoff as (_&_&?));
      by case_bool_decide.
Qed.
End handler_properties.

(** ** Progress: what a handled message does when the services answer *)

(** A registrar that answers: no call on it fails while [up] holds. *)
Class RegistrarAvailable (W : Type) `{!ConnectionRegistrar W, !RegistrarContract W,
    !AccountIdResolver W, !ConnectedClientRecorder W, !SourcesRecorder W, !Metrics W} := {
  up : W → Prop;
  storable : ConnectorClientState → Prop;
  up_find cid w : registrar_inv w → up w → wp (FindConnectionByClientID cid) w (λ o w',
    up w' ∧ ∀ s e, o = Ret (s, Some e) → e = NotFoundError);
  up_register c w : registrar_inv w → up w → storable c →
    wp (Register c) w (λ o w', up w' ∧ o = Ret None);
  up_unregister cid w : registrar_inv w → up w →
    wp (Unregister cid) w (λ o w', up w' ∧ o = Ret None);
  up_inc c w : up w → up (Inc c w).2;
  up_resolve cid w : up w → up (MapClientIdToAccountId cid w).2;
  up_record identity c w : up w → up (RecordConnectedClient identity c w).2;
  up_sources i a o c r n t ty w : up w → up (RegisterWithSources i a o c r n t ty w).2;
  storable_admissible c : storable c → admissible (W := W) c;
}.

Section progress.
Context {W : Type} `{!ConnectionRegistrar W, !RegistrarContract W, !AccountIdResolver W,
  !ConnectedClientRecorder W, !SourcesRecorder W, !Metrics W, !ServicesFrame W, !UUIDParse,
  !RegistrarAvailable W}.
#[local] Set Default Proof Using "Type*".

(** The message is news for the entry. *)
Definition fresh (old : option ConnectorClientState) (msg : ControlMessage value) : bool :=
  match old with Some s => negb (isDuplicateOrOldMessage s msg) | None => true end.

(** [m] does not break the services. *)
Definition keeps_up {A} (m : M W A) : Prop := ∀ w, up w → up (m w).2.

Lemma keeps_up_pure {A} (m : M W A) : pure_state m → keeps_up m.
Proof. intros Hm w Hw. by rewrite Hm. Qed.

Lemma keeps_up_bind {A B} (m : M W A) (k : A → M W B) :
  keeps_up m → (∀ a, keeps_up (k a)) → keeps_up (m ≫= k).
Proof.
  intros Hm Hk w Hw. specialize (Hm w Hw). unfold mbind, M_bind.
  destruct (m w) as [[a|?|?] w']; [by apply Hk|done..].
Qed.

Lemma keeps_up_processDispatchers i a o c hp : keeps_up (processDispatchers i a o c hp).
Proof.
  unfold processDispatchers. destruct (hp !! dispatchersKey); [|apply keeps_up_pure; auto with go].
  apply keeps_up_bind; [apply keeps_up_pure; auto with go|intros dm].
  destruct (dm !! catalogDispatcherKey); [|apply keeps_up_pure; auto with go].
  apply keeps_up_bind; [apply keeps_up_pure; auto with go|intros cm].
  do 4 (case_match; [|apply keeps_up_pure; auto with go]).
  do 4 (apply keeps_up_bind; [apply keeps_up_pure; auto with go|intros ?]).
  apply keeps_up_bind; [intros w Hw; by apply up_sources|intros ?]. apply keeps_up_pure. auto with go.
Qed.

(** The check for duplicates passes the news and stops the rest. *)
Lemma check_progress cid msg w :
  registrar_inv w → up w →
  wp (checkForDuplicateOnlineMessage cid msg) w (λ o w',
    o = Ret (if fresh (registry w !! cid) msg then None else Some errDuplicateOrOldMQTTMessage) ∧
    registrar_inv w' ∧ up w' ∧ registry w' = registry w).
Proof.
  intros Hw Hup. unfold checkForDuplicateOnlineMessage. apply wp_bind.
  eapply wp_mono; [apply wp_and; [by apply find_contract|by apply up_find]|].
  intros [[s e]|?|?] w1 [(Hw1&Hr1&Ho) [Hup1 He]]; try done. destruct e as [e|].
  - rewrite (He s e eq_refl) in Ho |- *. destruct Ho as [[_ Hno]|Hf]; [|done]. rewrite Hno. by apply wp_ret.
  - cbn in Ho |- *. rewrite Ho. cbn [fresh].
    by destruct (isDuplicateOrOldMessage s msg); apply wp_ret.
Qed.

(** Old news changes nothing. *)
Lemma stale_progress cid msg w :
  registrar_inv w → up w → fresh (registry w !! cid) msg = false →
  wp (handleOnlineMessage cid msg) w (λ o w', o = Ret (Some errDuplicateOrOldMQTTMessage) ∧
    registrar_inv w' ∧ up w' ∧ registry w' = registry w).
Proof.
  intros Hw Hup Hfr. unfold handleOnlineMessage. apply wp_bind.
  eapply wp_mono; [by apply check_progress|]. intros o w1 (->&?&?&?). rewrite Hfr. by apply wp_ret.
Qed.

(** Facts that cannot be read stop the handler before it registers anything. *)
Lemma online_panics cid msg content w :
  registrar_inv w → up w → Content msg = VObject content → facts_ok content = false →
  (∀ w : W, returns (MapClientIdToAccountId cid w).1) → fresh (registry w !! cid) msg = true →
  wp (handleOnlineMessage cid msg) w (λ o w', (∃ why, o = Panic why) ∧ registry w' = registry w).
Proof.
  intros Hw Hup Hc Hf Hres Hfr. unfold handleOnlineMessage. apply wp_bind.
  eapply wp_mono; [by apply check_progress|]. intros o w1 (->&Hw1&Hup1&Hr1). rewrite Hfr. apply wp_bind.
  destruct (frame_resolve cid w1 Hw1) as [Hw2 Hr2].
  rewrite wp_unfold. specialize (Hres w1). destruct (MapClientIdToAccountId cid w1) as [o w2].
  cbn in Hres, Hr2 |- *. destruct o as [[[[identity account] org] err]|?|?]; try done.
  rewrite Hc. apply wp_bind, (wp_ret (W := W) content).
  destruct (sanitize_panics (map_get content canonicalFactsKey) w2) as [why Hp].
  { unfold facts_ok in Hf. by destruct (map_get content canonicalFactsKey). }
  rewrite wp_unfold, (bind_panic _ _ _ _ _ Hp). cbn. split; [by eexists|]. by rewrite Hr2, Hr1.
Qed.

Lemma online_progress cid msg content w identity account org err :
  registrar_inv w → up w → Content msg = VObject content →
  facts_ok content = true → dispatchers_ok content = true →
  (∀ w : W, (MapClientIdToAccountId cid w).1 = Ret (identity, account, org, err)) →
  let c := online_state cid msg account org content (VObject (facts_of content)) in
  storable c → fresh (registry w !! cid) msg = true →
  (∀ w : W, returns (RecordConnectedClient identity c w).1) →
  (∀ r n t ty (w : W), returns (RegisterWithSources identity account org cid r n t ty w).1) →
  wp (handleOnlineMessage cid msg) w (λ o w', o = Ret None ∧ registrar_inv w' ∧ up w' ∧
    registry w' = <[cid := stored (registry w !! cid) c]> (registry w)).
Proof.
  intros Hw Hup Hc Hf Hd Hres c Hst Hfr Hrec Hsrc. unfold handleOnlineMessage. apply wp_bind.
  eapply wp_mono; [by apply check_progress|]. intros o w1 (->&Hw1&Hup1&Hr1). rewrite Hfr. apply wp_bind.
  pose proof (frame_resolve cid w1 Hw1) as [Hw2 Hr2].
  rewrite wp_unfold. specialize (Hres w1). pose proof (up_resolve cid w1 Hup1) as Hup2.
  destruct (MapClientIdToAccountId cid w1) as [o w2]. cbn in Hres, Hup2, Hw2, Hr2 |- *. subst o.
  rewrite Hc. apply wp_bind, (wp_ret (W := W) content). apply wp_bind. rewrite wp_unfold.
  rewrite sanitize_content by done. cbn [fst snd].
  fold c. apply wp_bind.
  eapply wp_mono; [apply wp_and; [by apply register_contract, storable_admissible|by apply up_register]|].
  intros ? w3 [[Hw3 Hreg] [Hup3 ->]]. apply wp_bind.
  pose proof (frame_record identity c w3 Hw3) as [Hw4 Hr4]. pose proof (up_record identity c w3 Hup3) as Hup4.
  rewrite wp_unfold. specialize (Hrec w3).
  destruct (RecordConnectedClient identity c w3) as [[[e'|]|?|?] w4]; try done; cbn in Hw4, Hr4, Hup4 |- *.
  { apply wp_ret. split_and!; [done..|]. rewrite Hr4, Hreg. cbn. by rewrite Hr2, Hr1. }
  apply wp_bind. pose proof (frames_processDispatchers identity account org cid content w4 Hw4)
    as [Hw5 Hr5].
  pose proof (keeps_up_processDispatchers identity account org cid content w4 Hup4) as Hup5.
  pose proof (processDispatchers_returns identity account org cid content w4 Hsrc Hd) as Hret.
  rewrite wp_unfold.
  destruct (processDispatchers identity account org cid content w4) as [[[]|?|?] w5]; try done.
  cbn in Hw5, Hr5, Hup5 |- *. apply wp_ret. split_and!; [done..|].
  rewrite Hr5, Hr4, Hreg. cbn. by rewrite Hr2, Hr1.
Qed.

Lemma offline_progress cid msg w :
  registrar_inv w → up w →
  wp (handleOfflineMessage cid msg) w (λ o w', o = Ret None ∧ registrar_inv w' ∧ up w' ∧
    registry w' = delete cid (registry w)).
Proof.
  intros Hw Hup. unfold handleOfflineMessage. apply wp_bind.
  eapply wp_mono; [apply wp_and; [by apply unregister_contract|by apply up_unregister]|].
  intros ? w' [[Hw' Hr] [Hup' ->]]. by apply wp_ret.
Qed.

(** A connection-status message is handled as its state says. *)
Lemma status_progress cid payload msg content st (w : W) (P : W → Prop) :
  registrar_inv w → up w →
  unmarshal_ControlMessage payload = Some msg → MessageType msg = "connection-status" →
  Content msg = VObject content → content !! "state" = Some (VString st) →
  string_or_absent content "client_name" = true → string_or_absent content "client_version" = true →
  (∀ w1, registrar_inv w1 → up w1 → registry w1 = registry w →
     if bool_decide (st = "online")
     then wp (handleOnlineMessage cid msg) w1
            (λ o w', (o = Ret None ∨ o = Ret (Some errDuplicateOrOldMQTTMessage)) ∧ P w')
     else if bool_decide (st = "offline") then wp (handleOfflineMessage cid msg) w1 (λ o w', o = Ret None ∧ P w')
     else P w1) →
  ∃ w', HandleControlMessage cid payload w = (Ret None, w') ∧ P w'.
Proof.
  intros Hw Hup Hm Hty Hc Hs Hn Hv Hcont.
  assert (Hgoal : wp (HandleControlMessage cid payload) w (λ o w', o = Ret None ∧ P w')).
  2:{ destruct Hgoal as [Ho Hr]. exists (HandleControlMessage cid payload w).2.
      split; [|exact Hr]. rewrite <-Ho. apply surjective_pairing. }
  assert (Hne : payload ≠ EmptyString) by (by intros ->).
  unfold HandleControlMessage. apply wp_bind.
  pose proof (frame_inc controlMessageReceivedCounter w Hw) as [Hw1 Hr1].
  pose proof (up_inc controlMessageReceivedCounter w Hup) as Hup1.
  rewrite wp_unfold. pose proof (inc_returns controlMessageReceivedCounter w) as Hi.
  destruct (Inc controlMessageReceivedCounter w) as [o w1]. cbn in *. subst o.
  specialize (Hcont w1 Hw1 Hup1 Hr1).
  rewrite bool_decide_eq_false_2 by (by destruct payload).
  rewrite Hm, bool_decide_eq_true_2 by done.
  unfold handleConnectionStatusMessage. apply wp_bind. rewrite Hc.
  apply (wp_ret (W := W) content). rewrite Hs.
  destruct (string_answers _ _ w1 Hn) as [r1 E1], (string_answers _ _ w1 Hv) as [r2 E2].
  eapply wp_bind_ret; [exact E2|]. eapply wp_bind_ret; [exact E1|].
  destruct (decide (st = "online")) as [->|N1].
  { rewrite !bool_decide_eq_true_2 in * by done. apply wp_bind.
    eapply wp_mono; [exact Hcont|]. intros ? w2 [[->| ->] Hr]; by apply wp_ret. }
  rewrite (bool_decide_eq_false_2 (VString st = VString "online")) by congruence.
  rewrite (bool_decide_eq_false_2 (st = "online")) in Hcont by done.
  destruct (decide (st = "offline")) as [->|N2].
  { rewrite !bool_decide_eq_true_2 in * by done. apply wp_bind.
    eapply wp_mono; [exact Hcont|]. intros ? w2 (->&Hr). by apply wp_ret. }
  rewrite !bool_decide_eq_false_2 in * by congruence. by apply wp_ret.
Qed.

(** C34: Client-supplied JSON of another shape than the type assertions expect makes
    the handler panic.  A connection-status message whose content is not an object,
    or whose client_name or client_version is not a string, does so before anything
    but the counter is touched; an online message whose canonical facts are not an
    object (or whose insights_id is not a string) does so once the services have
    answered and it is news for its client's entry.  Nothing is registered. *)
Theorem malformed_status_panics cid payload msg (w : W) :
  unmarshal_ControlMessage payload = Some msg → MessageType msg = "connection-status" →
  ((as_map (Content msg) = None ∨
    ∃ content, Content msg = VObject content ∧ is_Some (content !! "state") ∧
      string_or_absent content "client_version" && string_or_absent content "client_name" = false) →
   ∃ why, HandleControlMessage cid payload w = (Panic why, (Inc controlMessageReceivedCounter w).2)) ∧
  (∀ content, Content msg = VObject content → content !! "state" = Some (VString "online") →
     match default VNull (content !! "canonical_facts") with
     | VNull => False
     | VObject facts => insights_id_ok facts = false
     | _ => True
     end →
     registrar_inv w → up w → fresh (registry w !! cid) msg = true →
     (∀ w : W, returns (MapClientIdToAccountId cid w).1) →
     ∃ why w', HandleControlMessage cid payload w = (Panic why, w') ∧ registry w' = registry w).
Proof.
  intros Hm Hty. assert (Hp : payload ≠ EmptyString) by (by intros ->).
  pose proof (inc_returns controlMessageReceivedCounter w) as Hinc.
  assert (Hstart : HandleControlMessage cid payload w
    = handleConnectionStatusMessage cid msg (Inc controlMessageReceivedCounter w).2).
  { unfold HandleControlMessage.
    rewrite (bind_ret _ _ w tt (Inc controlMessageReceivedCounter w).2)
      by (by rewrite <-Hinc, <-surjective_pairing).
    rewrite bool_decide_eq_false_2 by (by destruct payload). rewrite Hm.
    by rewrite bool_decide_eq_true_2. }
  rewrite Hstart. set (w1 := (Inc controlMessageReceivedCounter w).2). split.
  - apply status_shape_panics.
  - intros content Hc Hs Hf Hw Hup Hfr Hres. destruct (frame_inc controlMessageReceivedCounter w Hw) as [Hw1 Hr1].
    fold w1 in Hw1, Hr1.
    destruct (string_or_absent content "client_version" && string_or_absent content "client_name") eqn:Hn.
    2:{ destruct (status_shape_panics cid msg w1) as [why Hrun]; [right; exists content; by rewrite Hs|].
        by exists why, w1. }
    apply andb_true_iff in Hn as [Hv Hn]. unfold handleConnectionStatusMessage. rewrite Hc.
    unfold assert_map. cbn [as_map]. rewrite bind_ret_l, Hs.
    destruct (string_answers _ _ w1 Hn) as [r1 E1], (string_answers _ _ w1 Hv) as [r2 E2].
    rewrite (bind_ret _ _ _ _ _ E2), (bind_ret _ _ _ _ _ E1), bool_decide_eq_true_2 by done.
    pose proof (online_panics cid msg content w1 Hw1 (up_inc _ _ Hup) Hc) as Hon.
    rewrite wp_unfold in Hon. destruct Hon as [[why Ho] Hr]; [|done|by rewrite Hr1|].
    { unfold facts_ok. change (map_get content canonicalFactsKey) with (default VNull (content !! "canonical_facts")).
      by destruct (default VNull (content !! "canonical_facts")). }
    destruct (handleOnlineMessage cid msg w1) as [o w2] eqn:Hrun. cbn in Ho, Hr. subst o.
    exists why, w2. rewrite (bind_panic _ _ _ _ _ Hrun), Hr. done.
Qed.

(** C2: When the services answer, a well-formed connection-status message takes
    effect: an online message that is news for the client's entry stores
    exactly the state made of its content and the resolver's answer (its
    insights_id only if it is a uuid), even if the resolver failed, and one that
    is not changes nothing; an offline message removes the entry; and no other
    client's entry changes. *)
Theorem connection_status_takes_effect cid payload msg content st w identity account org err :
  registrar_inv w → up w →
  unmarshal_ControlMessage payload = Some msg → MessageType msg = "connection-status" →
  Content msg = VObject content → content !! "state" = Some (VString st) →
  shapes_ok content = true →
  (∀ w : W, (MapClientIdToAccountId cid w).1 = Ret (identity, account, org, err)) →
  let c := online_state cid msg account org content (VObject (facts_of content)) in
  storable c →
  (∀ w : W, returns (RecordConnectedClient identity c w).1) →
  (∀ r n t ty (w : W), returns (RegisterWithSources identity account org cid r n t ty w).1) →
  ∃ w', HandleControlMessage cid payload w = (Ret None, w') ∧
    registry w' = (if bool_decide (st = "online")
                   then if fresh (registry w !! cid) msg
                        then <[cid := stored (registry w !! cid) c]> (registry w) else registry w
                   else if bool_decide (st = "offline") then delete cid (registry w)
                   else registry w).
Proof.
  intros Hw Hup Hm Hty Hc Hs [[[Hn Hv]%andb_true_iff Hf]%andb_true_iff Hd]%andb_true_iff
    Hres c Hst Hrec Hsrc.
  eapply status_progress; [done..|]. intros w1 Hw1 Hup1 Hr1. rewrite <-Hr1.
  repeat case_bool_decide; [|..|done].
  - destruct (fresh (registry w1 !! cid) msg) eqn:Hfr.
    + eapply wp_mono; [by eapply online_progress|]. intros ? w2 (->&_&_&Hr). split; [by left|done].
    + eapply wp_mono; [by apply stale_progress|]. intros ? w2 (->&_&_&Hr). split; [by right|done].
  - eapply wp_mono; [by apply offline_progress|]. by intros ? w2 (->&_&_&Hr).
Qed.
End progress.
