(* ===== verification/Identity.v ===== *)
(** * Identities ([internal/platform/utils/identity_utils/identity.go])

    The [x-rh-identity] header is base64 of a JSON document.  [base64] is
    [encoding/base64]'s [StdEncoding], with its round trip. *)

From S2P Require Import Prelude GoStrings GoNumTime Json JsonFacts Domain.
From stdpp Require Import options.

(** ** encoding/base64 *)

Definition b64_digit (z : Z) : ascii :=
  if (z <? 26)%Z then byte_of (65 + z)
  else if (z <? 52)%Z then byte_of (71 + z)
  else if (z <? 62)%Z then byte_of (z - 4)
  else if (z =? 62)%Z then "+"%char else "/"%char.

Definition b64_value (c : ascii) : option Z :=
  let v := byte_val c in
  if byte_in 65 90 c then Some (v - 65)%Z
  else if byte_in 97 122 c then Some (v - 71)%Z
  else if byte_in 48 57 c then Some (v + 4)%Z
  else if char_eqb c "+" then Some 62%Z
  else if char_eqb c "/" then Some 63%Z else None.

Fixpoint EncodeToString (s : string) : string :=
  match s with
  | EmptyString => EmptyString
  | String a EmptyString =>
      let v := byte_val a in
      String (b64_digit (v / 4)) (String (b64_digit (v mod 4 * 16)) "==")
  | String a (String b EmptyString) =>
      let v := (byte_val a * 256 + byte_val b)%Z in
      String (b64_digit (v / 1024)) (String (b64_digit (v / 16 mod 64))
        (String (b64_digit (v mod 16 * 4)) "="))
  | String a (String b (String c s')) =>
      let v := ((byte_val a * 256 + byte_val b) * 256 + byte_val c)%Z in
      String (b64_digit (v / 262144)) (String (b64_digit (v / 4096 mod 64))
        (String (b64_digit (v / 64 mod 64)) (String (b64_digit (v mod 64)) (EncodeToString s'))))
  end.

(** The decoder skips line breaks. *)
Fixpoint strip_newlines (s : string) : string :=
  match s with
  | EmptyString => EmptyString
  | String a s' =>
      if char_eqb a "010" || char_eqb a "013" then strip_newlines s'
      else String a (strip_newlines s')
  end.

Fixpoint b64_decode (s : string) : option string :=
  match s with
  | EmptyString => Some EmptyString
  | String a (String b (String c (String d s'))) =>
      va ← b64_value a; vb ← b64_value b;
      match b64_value c, b64_value d with
      | Some vc, Some vd =>
          let v := (((va * 64 + vb) * 64 + vc) * 64 + vd)%Z in
          rest ← b64_decode s';
          Some (String (byte_of (v / 65536)) (String (byte_of (v / 256 mod 256))
            (String (byte_of (v mod 256)) rest)))
      | Some vc, None =>
          if char_eqb d "=" && bool_decide (s' = EmptyString) then
            let v := ((va * 64 + vb) * 64 + vc)%Z in
            Some (String (byte_of (v / 1024)) (str1 (byte_of (v / 4 mod 256))))
          else None
      | None, _ =>
          if char_eqb c "=" && char_eqb d "=" && bool_decide (s' = EmptyString)
          then Some (str1 (byte_of ((va * 64 + vb) / 16))) else None
      end
  | _ => None
  end.

(** [base64.StdEncoding.DecodeString] *)
Definition DecodeString (s : string) : option string := b64_decode (strip_newlines s).

(** ** identity.go *)

Definition err_base64 : error := ErrText "illegal base64 data".
Definition err_json : error := ErrText "invalid JSON".
Definition err_identity : error := ErrText "Unable to parse identity string".

(** [json.Unmarshal(idRaw, &jsonDataMap)] into a map: [null] gives the nil map. *)
Definition UnmarshalMap (s : string) : option (gmap string value) :=
  match parse s with
  | Some d =>
      match d with
      | JNull => Some ∅
      | JObj _ => if interface_err d then None else as_map (interface_of d)
      | _ => None
      end
  | None => None
  end.

Definition convertIdentityToMap (identity : Identity) : gmap string value + error :=
  match DecodeString identity with
  | None => inr err_base64
  | Some idRaw =>
      match UnmarshalMap idRaw with
      | None => inr err_json
      | Some jsonDataMap =>
          match jsonDataMap !! "identity" with
          | Some (VObject data) => inl data
          | _ => inr err_identity
          end
      end
  end.

Definition AuthenticatedWithCertificate (identity : Identity) : bool * option error :=
  match convertIdentityToMap identity with
  | inr err => (false, Some err)
  | inl identityMap => (bool_decide (identityMap !! "auth_type" = Some (VString "cert-auth")), None)
  end.

Definition GetAuthType (identity : Identity) : string * option error :=
  match convertIdentityToMap identity with
  | inr err => (EmptyString, Some err)
  | inl identityMap =>
      match identityMap !! "auth_type" with
      | Some (VString authType) => (authType, None)
      | _ => (EmptyString, None)
      end
  end.

Definition GetIdentityMap (identity : Identity) : gmap string value + error :=
  convertIdentityToMap identity.

(** ** The codec's round trip *)

Lemma byte_val_range a : (0 ≤ byte_val a < 256)%Z.
Proof. unfold byte_val. pose proof (Stdlib.Strings.Ascii.N_ascii_bounded a). lia. Qed.

Lemma byte_of_val a : byte_of (byte_val a) = a.
Proof. unfold byte_of, byte_val. rewrite N2Z.id. apply ascii_N_embedding. Qed.

Lemma b64_digits_ok :
  forallb (λ z, bool_decide (b64_value (b64_digit z) = Some z)
                && negb (char_eqb (b64_digit z) "010" || char_eqb (b64_digit z) "013")) (seqZ 0 64)
  = true.
Proof. vm_compute. reflexivity. Qed.

Lemma b64_digit_ok z :
  (0 ≤ z < 64)%Z →
  b64_value (b64_digit z) = Some z ∧ char_eqb (b64_digit z) "010" || char_eqb (b64_digit z) "013" = false.
Proof.
  intros Hz. pose proof b64_digits_ok as H. rewrite forallb_forall in H.
  specialize (H z). rewrite <-list_elem_of_In, elem_of_seqZ in H.
  specialize (H ltac:(lia)). apply andb_true_iff in H as [H1%bool_decide_eq_true H2%negb_true_iff].
  done.
Qed.

Lemma string3_ind (P : string → Prop) :
  P EmptyString → (∀ a, P (str1 a)) → (∀ a b, P (String a (str1 b))) →
  (∀ a b c s, P s → P (String a (String b (String c s)))) → ∀ s, P s.
Proof.
  intros H0 H1 H2 H3. fix IH 1. intros [|a [|b [|c s]]]; [done|apply H1|apply H2|].
  apply H3, IH.
Qed.

Ltac div_lia := Z.to_euclidean_division_equations; lia.

Ltac b64_bounds :=
  repeat match goal with
  | a : ascii |- _ =>
      lazymatch goal with
      | _ : (0 ≤ byte_val a < 256)%Z |- _ => fail
      | _ => pose proof (byte_val_range a)
      end
  end.

Lemma strip_digit z s :
  (0 ≤ z < 64)%Z →
  strip_newlines (String (b64_digit z) s) = String (b64_digit z) (strip_newlines s).
Proof. intros Hz. cbn [strip_newlines]. by rewrite (proj2 (b64_digit_ok z Hz)). Qed.

Section roundtrip.
Lemma b64_value_digit z : (0 ≤ z < 64)%Z → b64_value (b64_digit z) = Some z.
Proof. apply b64_digit_ok. Qed.

(** [DecodeString] undoes [EncodeToString]. *)
Lemma DecodeString_EncodeToString s : DecodeString (EncodeToString s) = Some s.
Proof.
  unfold DecodeString. induction s as [|a|a b|a b c s IH] using string3_ind; [done|..];
    cbn [EncodeToString str1]; b64_bounds; rewrite !strip_digit by div_lia.
  - change (strip_newlines "==") with "==". cbn [b64_decode].
    rewrite !b64_value_digit by div_lia. cbn [mbind option_bind].
    change (b64_value "=") with (@None Z). cbv beta iota.
    change (char_eqb "=" "=" && char_eqb "=" "=" && bool_decide (EmptyString = EmptyString))
      with true. cbv beta iota.
    replace (_ / 16)%Z with (byte_val a) by div_lia. by rewrite byte_of_val.
  - change (strip_newlines "=") with "=". cbn [b64_decode].
    rewrite !b64_value_digit by div_lia. cbn [mbind option_bind].
    change (b64_value "=") with (@None Z). cbv beta iota.
    change (char_eqb "=" "=" && bool_decide (EmptyString = EmptyString)) with true. cbv beta iota.
    replace (_ / 1024)%Z with (byte_val a) by div_lia.
    replace (_ / 4 mod 256)%Z with (byte_val b) by div_lia. by rewrite !byte_of_val.
  - cbn [b64_decode]. rewrite !b64_value_digit by div_lia. cbn [mbind option_bind].
    rewrite IH. cbn [mbind option_bind]. do 2 f_equal; [|do 2 f_equal; [|do 2 f_equal]];
      match goal with |- byte_of _ = ?x => etrans; [|apply (byte_of_val x)] | _ => idtac end;
      try (f_equal; div_lia).
Qed.
End roundtrip.
