(* ===== verification/TestClients.v ===== *)
(** * The client's side of the protocol
    ([internal/cloud_connector/protocol/types.go], [cmd/auto_test_client], [cmd/test_client])

    The types a client fills in, their JSON forms, and the simulated clients: how
    they register, what they make of the server's messages, and how the automatic
    one checks the server.  Of what they print only the verdicts, the name in the
    certificate and the reasons for dropping a message are kept.  The MQTT client,
    the HTTP client, certificates, the clock and the terminal are the class
    [ClientHost]; a goroutine is a run of its own, and a command line is a record
    of its values. *)

From S2P Require Import Prelude GoStrings GoNumTime TimeFacts Json JsonFacts Domain Protocol Identity.
From stdpp Require Import options.

(** ** types.go *)

Record CanonicalFacts := {
  InsightsID : string; MachineID : string; SubscriptionManagerID : string; SatelliteID : string;
  Fqdn : string; BiosID : string; IpAddresses : list string; MacAddresses : list string;
}.
Definition zero_facts : CanonicalFacts := {|
  InsightsID := EmptyString; MachineID := EmptyString; SubscriptionManagerID := EmptyString;
  SatelliteID := EmptyString; Fqdn := EmptyString; BiosID := EmptyString; IpAddresses := []; MacAddresses := [] |}.

(** Go maps; [None] is a nil map. *)
Definition Tags : Type := option (gmap string string).
Definition Dispatchers : Type := option (gmap string Tags).

Record ConnectionStatusMessageContent := {
  cs_CanonicalFacts : CanonicalFacts; cs_Dispatchers : Dispatchers; cs_ConnectionState : string;
  cs_Tags : Tags; cs_ClientName : string; cs_ClientVersion : string;
}.

Record EventMessage := {
  ev_MessageType : string; ev_MessageID : string; ev_ResponseTo : string; ev_Version : Z;
  ev_Sent : time; ev_Content : string;
}.

(** ** Their JSON forms ([json.Marshal]) *)

(** A map as the encoder sees it: like decoded JSON. *)
Definition value_of_tags (t : Tags) : value :=
  match t with Some m => VObject (VString <$> m) | None => VNull end.
Definition value_of_dispatchers (d : Dispatchers) : value :=
  match d with Some m => VObject (value_of_tags <$> m) | None => VNull end.

Definition omit_empty_strings (k : string) (l : list string) : list (string * jdoc) :=
  match l with [] => [] | _ => [(k, JArr (jstring <$> l))] end.

Definition doc_CanonicalFacts (c : CanonicalFacts) : jdoc :=
  JObj (omit_empty_string "insights_id" (InsightsID c) ++ omit_empty_string "machine_id" (MachineID c)
        ++ omit_empty_string "subscription_manager_id" (SubscriptionManagerID c)
        ++ omit_empty_string "satellite_id" (SatelliteID c) ++ omit_empty_string "fqdn" (Fqdn c)
        ++ omit_empty_string "bios_uuid" (BiosID c) ++ omit_empty_strings "ip_addresses" (IpAddresses c)
        ++ omit_empty_strings "mac_addresses" (MacAddresses c)).

(** A struct is never empty: [omitempty] does not drop the canonical facts. *)
Definition doc_ConnectionStatusMessageContent (c : ConnectionStatusMessageContent) : option jdoc :=
  dispatchers ← doc_of true (value_of_dispatchers (cs_Dispatchers c));
  tags ← doc_of true (value_of_tags (cs_Tags c));
  Some (JObj [("canonical_facts", doc_CanonicalFacts (cs_CanonicalFacts c)); ("dispatchers", dispatchers);
              ("state", jstring (cs_ConnectionState c)); ("tags", tags);
              ("client_name", jstring (cs_ClientName c)); ("client_version", jstring (cs_ClientVersion c))]).

(** [json.Marshal] of a [ControlMessage] with that content. *)
Definition marshal_status (m : ControlMessage ConnectionStatusMessageContent) : option string :=
  content ← doc_ConnectionStatusMessageContent (Content m);
  Some (render (JObj [("type", jstring (MessageType m)); ("message_id", jstring (MessageID m));
                      ("version", jint (Version m)); ("sent", jstring (FormatRFC3339Nano (Sent m)));
                      ("content", content)])).

Definition marshal_event (m : EventMessage) : string :=
  render (JObj [("type", jstring (ev_MessageType m)); ("message_id", jstring (ev_MessageID m));
                ("response_to", jstring (ev_ResponseTo m)); ("version", jint (ev_Version m));
                ("sent", jstring (FormatRFC3339Nano (ev_Sent m))); ("content", jstring (ev_Content m))]).

(** ** The host of a simulated client *)

Record http_get := { hg_Method : string; hg_URL : string; hg_Header : list (string * string); hg_Body : string }.

(** [MQTT.ClientOptions] as the clients set them. *)
Record link_options := {
  lo_Broker : string; lo_ClientID : string; lo_AutoReconnect : bool;
  lo_WillTopic : string; lo_WillPayload : string; lo_WillQos : Z; lo_WillRetained : bool;
  lo_Subscriptions : list (string * Z);
}.

Class ClientHost (W : Type) := {
  (** the common name of the certificate's leaf *)
  LoadLeaf : string → string → M W (string + error);
  (** connects and then subscribes, as the connect handler does *)
  ConnectLink : link_options → M W (option error);
  PublishLink : string → Z → bool → string → M W unit;
  DisconnectLink : Z → M W unit;
  ClientTime : M W time;
  generateUUID : M W string;
  HttpDo : http_get → M W (string + error);
  (** a message id from the channel, within ten seconds *)
  ReceiveMessageId : M W (option string);
  (** a send on the channel *)
  SendMessageId : string → M W unit;
  Println : string → M W unit;
  SleepSeconds : Z → M W unit;
  (** [uuid.Parse]; the zero uuid and an error are not told apart by the callers *)
  uuid_Parse : string → string;
}.
#[global] Hint Mode ClientHost + : typeclass_instances.

(** ** auto_test_client *)

Definition quoted (s : string) : string := String dquote (s +:+ str1 dquote).

Section auto_client.
Context {W : Type} `{!ClientHost W}.

Definition buildIdentityHeader (orgId accountNumber : string) : string :=
  let q := quoted in
  EncodeToString ("{" +:+ q "identity" +:+ ": {" +:+ q "account_number" +:+ ": " +:+ q accountNumber +:+ ", "
    +:+ q "org_id" +:+ ": " +:+ q orgId +:+ ", " +:+ q "internal" +:+ ": {}, " +:+ q "service_account" +:+ ": {"
    +:+ q "client_id" +:+ ": " +:+ q "0000" +:+ ", " +:+ q "username" +:+ ": " +:+ q "jdoe" +:+ "}, "
    +:+ q "type" +:+ ": " +:+ q "Associate" +:+ "}}").

(** The header the API's own tests use ([internal/controller/api/test_utils.go]). *)
Definition api_buildIdentityHeader (account identityType : string) : string :=
  let q := quoted in
  EncodeToString ("{ " +:+ q "identity" +:+ ": {" +:+ q "account_number" +:+ ": " +:+ q account +:+ ", "
    +:+ q "type" +:+ ": " +:+ q identityType +:+ ", " +:+ q "internal" +:+ ": { " +:+ q "org_id" +:+ ": "
    +:+ q "1979710" +:+ " } } }").

(** The common name; [panic(err)] when the files cannot be loaded. *)
Definition NewTLSConfig (certFile keyFile : string) : M W string :=
  leaf ← LoadLeaf certFile keyFile;
  match leaf with
  | inr err => panic (Error err)
  | inl name => Println name;; mret name
  end.

Definition controlReadTopic (clientID : string) : string := "redhat/insights/" +:+ clientID +:+ "/control/in".
Definition controlWriteTopic (clientID : string) : string := "redhat/insights/" +:+ clientID +:+ "/control/out".
Definition dataReadTopic (clientID : string) : string := "redhat/insights/" +:+ clientID +:+ "/data/in".

(** The last will: what the broker publishes when the connection breaks. *)
Definition lastWillMsg (id : string) (now : time) : ControlMessage ConnectionStatusMessageContent := {|
  MessageType := "connection-status"; MessageID := id; Version := 1; Sent := now;
  Content := {| cs_CanonicalFacts := zero_facts; cs_Dispatchers := None; cs_ConnectionState := "offline";
                cs_Tags := None; cs_ClientName := EmptyString; cs_ClientVersion := EmptyString |} |}.

Definition or_panic {A} (r : option A) : M W A :=
  match r with Some a => mret a | None => panic "json: unsupported value" end.

Definition onlineMsg (messageID : string) (cf : CanonicalFacts) (dispatchers : Dispatchers) (tags : Tags)
    (sentTime : time) : ControlMessage ConnectionStatusMessageContent := {|
  MessageType := "connection-status"; MessageID := messageID; Version := 1; Sent := sentTime;
  Content := {| cs_CanonicalFacts := cf; cs_Dispatchers := dispatchers; cs_ConnectionState := "online";
                cs_Tags := tags; cs_ClientName := "fred.flintstone"; cs_ClientVersion := "11.0.2" |} |}.

Definition publishConnectionStatusMessage (topic : string) (qos : Z) (retained : bool) (messageID : string)
    (cf : CanonicalFacts) (dispatchers : Dispatchers) (tags : Tags) (sentTime : time) : M W unit :=
  payload ← or_panic (marshal_status (onlineMsg messageID cf dispatchers tags sentTime));
  PublishLink topic qos retained payload.

Definition startProducer (certFile keyFile broker : string) : M W string :=
  clientID ← NewTLSConfig certFile keyFile;
  willId ← generateUUID;
  now ← ClientTime;
  payload ← or_panic (marshal_status (lastWillMsg willId now));
  let retained := false in
  let qos := 1%Z in
  err ← ConnectLink {|
    lo_Broker := broker; lo_ClientID := clientID; lo_AutoReconnect := false;
    lo_WillTopic := controlWriteTopic clientID; lo_WillPayload := payload; lo_WillQos := qos;
    lo_WillRetained := retained;
    lo_Subscriptions := [(controlReadTopic clientID, 0%Z); (dataReadTopic clientID, 0%Z)] |};
  match err with
  | Some e => panic (Error e)
  | None =>
      sentTime ← ClientTime;
      insights ← generateUUID; machine ← generateUUID; bios ← generateUUID;
      subscription ← generateUUID; satellite ← generateUUID;
      let cf := {| InsightsID := insights; MachineID := machine; SubscriptionManagerID := subscription;
                   SatelliteID := satellite; Fqdn := "fred.flintstone.com"; BiosID := bios;
                   IpAddresses := ["192.168.68.101"]; MacAddresses := ["54:54:45:45:62:26"] |} in
      id ← generateUUID;
      publishConnectionStatusMessage (controlWriteTopic clientID) qos retained id cf (Some ∅) (Some ∅) sentTime;;
      mret clientID
  end.

(** What the clients read of a data message. *)
Definition dataMessageID_fields : list (field string) := [("message_id", set_string (λ x _, x))].

Definition notifyOnMessageReceived (payload : string) : M W unit :=
  if bool_decide (payload = EmptyString) then Println "empty payload"
  else
    match d ← parse payload; decode_struct dataMessageID_fields EmptyString d with
    | None => panic "unmarshal of message failed"
    | Some id => SendMessageId id
    end.

Definition verifyMessageWasReceived (expectedMessageId : string) : M W unit :=
  r ← ReceiveMessageId;
  match r with
  | Some receivedMessageId =>
      if bool_decide (receivedMessageId ≠ expectedMessageId)
      then Println "Epic fail...got wrong message!" else mret tt
  | None => Println "Epic Fail...did not get message after 10 second"
  end.

(** [json.NewDecoder(body).Decode(&s)] for a struct of one string field, whose
    error is not looked at: a member of another type leaves the field alone. *)
Definition decode_one (key body : string) : string :=
  let fields : list (field string) := [(key, set_string (λ x _, x))] in
  match DecodeStream body with
  | Some (JObj kvs, _) => foldl (λ acc kv, default acc (set_key fields (Some acc) kv)) EmptyString kvs
  | _ => EmptyString
  end.

Definition client_url (cloudConnectorUrl clientId path : string) : string :=
  cloudConnectorUrl +:+ "/api/cloud-connector/v2/connections/" +:+ clientId +:+ path.

Definition client_headers (identityHeader : string) (now : time) : list (string * string) :=
  [("x-rh-identity", identityHeader); ("x-rh-insights-request-id", Itoa (now / 1000000000))].

Definition getClientStatusFromCloudConnector (cloudConnectorUrl clientId identityHeader : string) : M W string :=
  now ← ClientTime;
  res ← HttpDo {| hg_Method := "GET"; hg_URL := client_url cloudConnectorUrl clientId "/status";
                  hg_Header := client_headers identityHeader now; hg_Body := EmptyString |};
  match res with
  | inr err => SleepSeconds 2;; panic (Error err)
  | inl body => mret (decode_one "status" body)
  end.

Definition verifyClientIsRegistered (cloudConnectorUrl clientId identityHeader : string) : M W unit :=
  status ← getClientStatusFromCloudConnector cloudConnectorUrl clientId identityHeader;
  if bool_decide (status ≠ "connected") then Println "***  ERROR:  status should have been connected" else mret tt.

Definition verifyClientIsUnregistered (cloudConnectorUrl clientId identityHeader : string) : M W unit :=
  status ← getClientStatusFromCloudConnector cloudConnectorUrl clientId identityHeader;
  if bool_decide (status ≠ "disconnected") then Println "***  ERROR:  status should have been disconnected"
  else mret tt.

Definition message_json : string :=
  "{" +:+ quoted "directive" +:+ ": " +:+ quoted "imadirective" +:+ ", "
  +:+ quoted "payload" +:+ ": " +:+ quoted "imapayload" +:+ "}".

Definition sendMessageToClient (cloudConnectorUrl clientId identityHeader : string) : M W string :=
  now ← ClientTime;
  res ← HttpDo {| hg_Method := "POST"; hg_URL := client_url cloudConnectorUrl clientId "/message";
                  hg_Header := client_headers identityHeader now; hg_Body := message_json |};
  match res with
  | inr err => SleepSeconds 2;; panic (Error err)
  | inl body => mret (uuid_Parse (W := W) (decode_one "id" body))
  end.

(** One turn of the endless loop, with the client and the number of messages sent. *)
Definition test_turn (certFile keyFile broker url identityHeader : string) (state : string * Z)
    : M W (string * Z) :=
  let '(clientId, numMessagesSent) := state in
  SleepSeconds 10;;
  state ← (if (10 <? numMessagesSent)%Z then
             DisconnectLink 1000;;
             SleepSeconds 1;;
             verifyClientIsUnregistered url clientId identityHeader;;
             clientId ← startProducer certFile keyFile broker;
             SleepSeconds 1;;
             verifyClientIsRegistered url clientId identityHeader;;
             mret (clientId, 0%Z)
           else mret (clientId, numMessagesSent));
  let '(clientId, numMessagesSent) := state in
  messageId ← sendMessageToClient url clientId identityHeader;
  verifyMessageWasReceived messageId;;
  mret (clientId, (numMessagesSent + 1)%Z).

Fixpoint test_turns (n : nat) (certFile keyFile broker url identityHeader : string) (state : string * Z)
    : M W (string * Z) :=
  match n with
  | O => mret state
  | S n' =>
      state ← test_turn certFile keyFile broker url identityHeader state;
      test_turns n' certFile keyFile broker url identityHeader state
  end.

(** [startTestClient], for [n] turns of its loop. *)
Definition startTestClient (n : nat) (certFile keyFile broker url identityHeader : string) : M W unit :=
  clientId ← startProducer certFile keyFile broker;
  SleepSeconds 1;;
  verifyClientIsRegistered url clientId identityHeader;;
  test_turns n certFile keyFile broker url identityHeader (clientId, 0%Z);;
  mret tt.

(** The command line, with its defaults. *)
Record auto_flags := {
  af_connection_count : Z; af_broker : string; af_cert : string; af_key : string;
  af_cloud_connector : string; af_org_id : string; af_account : string;
}.
Definition default_auto_flags : auto_flags := {|
  af_connection_count := 1; af_broker := "tcp://eclipse-mosquitto:1883"; af_cert := "cert.pem"; af_key := "key.pem";
  af_cloud_connector := "http://localhost:10000"; af_org_id := "10001"; af_account := "010101" |}.

(** [main]: the goroutines it starts before it waits for a signal, each for [n]
    turns. *)
Definition auto_main (n : nat) (flags : auto_flags) : list (M W unit) :=
  let identityHeader := buildIdentityHeader (af_org_id flags) (af_account flags) in
  replicate (Z.to_nat (af_connection_count flags))
    (startTestClient n (af_cert flags) (af_key flags) (af_broker flags) (af_cloud_connector flags) identityHeader).
End auto_client.

(** ** test_client *)

Section test_client.
Context {W : Type} `{!ClientHost W}.

(** What [onMessageReceived] reads of a control message. *)
Definition onMessageReceived (payload : string) : M W unit :=
  if bool_decide (payload = EmptyString) then Println "empty payload"
  else
    match unmarshal_ControlMessage payload with
    | None => panic "unmarshal of message failed"
    | Some connMsg =>
        if bool_decide (MessageType connMsg = "command") then
          commandPayload ← assert_map (Content connMsg);
          if bool_decide (commandPayload !! "command" = Some (VString "ping")) then
            messageID ← generateUUID;
            now ← ClientTime;
            let pongMessage := {| ev_MessageType := "event"; ev_MessageID := messageID; ev_ResponseTo := EmptyString;
                                  ev_Version := 1; ev_Sent := now; ev_Content := "pong" |} in
            (* the topic is that of a fixed client *)
            PublishLink "redhat/insights/client-1/control/out" 0 false (marshal_event pongMessage)
          else mret tt
        else Println "Invalid message type!"
    end.

(** Nothing sends it. *)
Definition buildDisconnectMessage (clientID : string) : string :=
  render (JObj [("type", jstring "disconnect"); ("message_id", jstring "4321"); ("version", jint 1);
                ("sent", jstring (FormatRFC3339Nano zero_time)); ("content", JNull)]).

Definition some_map (l : list (string * string)) : Tags := Some (list_to_map l).

(** The dispatchers of the second message. *)
Definition test_dispatchers : Dispatchers := Some (list_to_map [
  ("rhc-worker-playbook", some_map [("ansible-runner-version", "1.2.3")]);
  ("package-manager", some_map []); ("echo", some_map []);
  ("catalog", some_map [
     ("ApplicationType", "/insights/platform/catalog"); ("SourceRef", "df2bac3e-c7b4-4a8b-8226-b943b9a12eaf");
     ("SrcName", "dehort Testing Bulk Create"); ("SrcType", "ansible-tower");
     ("WorkerBuild", "2021-02-19 10:18:24"); ("WorkerSHA", "48d28791e3b59f7334d2671c07978113b0d40374");
     ("WorkerVersion", "v0.1.0")]);
  ("foreman_rh_cloud", some_map [("version", "6.11")])]).

(** The messages a client publishes after it has connected, with the seconds it
    waits: [sentTime] is the time of the first, [later] that of the second.  The
    third, from the past, and the fourth, a duplicate, are to be ignored. *)
Definition test_messages (cf : CanonicalFacts) (sentTime later : time)
    : list (Z * ControlMessage ConnectionStatusMessageContent) := [
  (0%Z, onlineMsg "1234" cf (Some ∅) (Some ∅) sentTime);
  (10%Z, onlineMsg "1235" cf test_dispatchers (some_map [("key1", "value1"); ("key2", "value2")]) later);
  (20%Z, onlineMsg "1233" cf (Some ∅) (Some ∅) (sentTime - 10 * 1000000000)%Z);
  (50%Z, onlineMsg "1235" cf (Some {[ "IGNORE" := some_map [] ]}) (some_map [("IGNORE", "value1")]) later)].

(** The pending publications of a client that has started: seconds to wait and the
    message, given the time at which the second one is made. *)
Definition pending : Type := time → list (Z * ControlMessage ConnectionStatusMessageContent).

(** [startProducer] of this client; its two goroutines are what is still pending. *)
Definition test_startProducer (certFile keyFile broker : string) : M W (string * pending) :=
  clientID ← NewTLSConfig certFile keyFile;
  now ← ClientTime;
  payload ← or_panic (marshal_status (lastWillMsg "5678" now));
  err ← ConnectLink {|
    lo_Broker := broker; lo_ClientID := clientID; lo_AutoReconnect := true;
    lo_WillTopic := controlWriteTopic clientID; lo_WillPayload := payload; lo_WillQos := 1%Z;
    lo_WillRetained := false;
    lo_Subscriptions := [(controlReadTopic clientID, 0%Z); (dataReadTopic clientID, 0%Z)] |};
  match err with
  | Some e => panic (Error e)
  | None =>
      sentTime ← ClientTime;
      machine ← generateUUID; bios ← generateUUID;
      subscription ← generateUUID; satellite ← generateUUID;
      let cf := {| InsightsID := String "000" (str1 "000"); MachineID := machine;
                   SubscriptionManagerID := subscription; SatelliteID := satellite; Fqdn := "fred.flintstone.com";
                   BiosID := bios; IpAddresses := ["192.168.68.101"]; MacAddresses := ["54:54:45:45:62:26"] |} in
      publishConnectionStatusMessage (controlWriteTopic clientID) 1 false "1234" cf (Some ∅) (Some ∅) sentTime;;
      mret (clientID, λ later, tail (test_messages cf sentTime later))
  end.

Record test_flags := { tf_connection_count : Z; tf_broker : string; tf_cert : string; tf_key : string }.
Definition default_test_flags : test_flags := {|
  tf_connection_count := 1; tf_broker := "tcp://eclipse-mosquitto:1883"; tf_cert := "cert.pem"; tf_key := "key.pem" |}.

Definition test_main (flags : test_flags) : list (M W (string * pending)) :=
  replicate (Z.to_nat (tf_connection_count flags)) (test_startProducer (tf_cert flags) (tf_key flags) (tf_broker flags)).
End test_client.

(** ** What a status message decodes to *)

(** The texts a client fills in are valid UTF-8. *)
Definition tags_valid (t : Tags) : bool := value_ok (value_of_tags t).
Definition facts_valid (c : CanonicalFacts) : bool :=
  utf8_valid (InsightsID c) && utf8_valid (MachineID c) && utf8_valid (SubscriptionManagerID c)
  && utf8_valid (SatelliteID c) && utf8_valid (Fqdn c) && utf8_valid (BiosID c)
  && forallb utf8_valid (IpAddresses c) && forallb utf8_valid (MacAddresses c).
Definition content_valid (c : ConnectionStatusMessageContent) : bool :=
  facts_valid (cs_CanonicalFacts c) && value_ok (value_of_dispatchers (cs_Dispatchers c))
  && tags_valid (cs_Tags c) && utf8_valid (cs_ConnectionState c) && utf8_valid (cs_ClientName c)
  && utf8_valid (cs_ClientVersion c).

(** The canonical facts as the server sees them. *)
Definition omit_string (k s : string) : list (string * value) :=
  if bool_decide (s = EmptyString) then [] else [(k, VString s)].
Definition omit_strings (k : string) (l : list string) : list (string * value) :=
  match l with [] => [] | _ => [(k, VArray (VString <$> l))] end.
Definition facts_members (c : CanonicalFacts) : list (string * value) :=
  omit_string "insights_id" (InsightsID c) ++ omit_string "machine_id" (MachineID c)
  ++ omit_string "subscription_manager_id" (SubscriptionManagerID c)
  ++ omit_string "satellite_id" (SatelliteID c) ++ omit_string "fqdn" (Fqdn c)
  ++ omit_string "bios_uuid" (BiosID c) ++ omit_strings "ip_addresses" (IpAddresses c)
  ++ omit_strings "mac_addresses" (MacAddresses c).
Definition facts_value (c : CanonicalFacts) : gmap string value := list_to_map (reverse (facts_members c)).

Definition content_value (c : ConnectionStatusMessageContent) : gmap string value :=
  list_to_map [("canonical_facts", VObject (facts_value (cs_CanonicalFacts c)));
    ("dispatchers", value_of_dispatchers (cs_Dispatchers c)); ("state", VString (cs_ConnectionState c));
    ("tags", value_of_tags (cs_Tags c)); ("client_name", VString (cs_ClientName c));
    ("client_version", VString (cs_ClientVersion c))].

(** [d] is read back as [v]: a document of known depth without escapes of its own. *)
Definition reads_as (d : jdoc) (v : value) (n : nat) : Prop :=
  doc_ok d = true ∧ interface_of d = v ∧ interface_err d = false ∧ doc_depth d ≤ n.

Lemma jstring_reads s : utf8_valid s = true → reads_as (jstring s) (VString s) 0.
Proof. intros Hs. split_and!; cbn; [apply quote_raw_ok|by rewrite unquote_quote|done|lia]. Qed.

Lemma strings_read l : forallb utf8_valid l = true → reads_as (JArr (jstring <$> l)) (VArray (VString <$> l)) 1.
Proof.
  intros Hl. assert (H : Forall (λ s, reads_as (jstring s) (VString s) 0) l).
  { apply Forall_forall. intros s Hs. apply jstring_reads. rewrite forallb_forall in Hl.
    by apply Hl, list_elem_of_In. }
  clear Hl. unfold reads_as. cbn [doc_ok interface_of interface_err doc_depth].
  induction H as [|s l (H1&H2&H3&H4) _ (IH1&IH2&IH3&IH4)]; [done|].
  rewrite !fmap_cons. cbn [forallb existsb foldr]. rewrite H1, H3. split_and!.
  - done.
  - injection IH2 as IH2. cbn [fmap list_fmap]. rewrite H2. f_equal. f_equal. exact IH2.
  - done.
  - cbn in IH4 |- *. lia.
Qed.

(** Members whose keys need no escaping, one by one. *)
Definition members_read (kvs : list (string * jdoc)) (l : list (string * value)) (n : nat) : Prop :=
  forallb (λ kv : string * jdoc, raw_ok kv.1 && doc_ok kv.2) kvs = true ∧
  (λ kv : string * jdoc, (unquote kv.1, interface_of kv.2)) <$> kvs = l ∧
  existsb (λ kv : string * jdoc, interface_err kv.2) kvs = false ∧
  foldr (λ (kv : string * jdoc) n, Nat.max (doc_depth kv.2) n) 0 kvs ≤ n.

Lemma members_nil n : members_read [] [] n.
Proof. split_and!; cbn; (done || lia). Qed.

Lemma members_app kvs kvs' l l' n :
  members_read kvs l n → members_read kvs' l' n → members_read (kvs ++ kvs') (l ++ l') n.
Proof.
  intros (H1&H2&H3&H4) (H1'&H2'&H3'&H4'). split_and!.
  - by rewrite forallb_app, H1, H1'.
  - by rewrite fmap_app, H2, H2'.
  - by rewrite existsb_app, H3, H3'.
  - clear -H4 H4'. induction kvs as [|kv kvs IH]; [done|]. cbn in *. lia.
Qed.

Lemma members_one k d v n :
  raw_ok k = true → unquote k = k → reads_as d v n → members_read [(k, d)] [(k, v)] n.
Proof.
  intros Hk Hu (H1&H2&H3&H4). split_and!; cbn; [by rewrite Hk, H1|by rewrite Hu, H2|by rewrite H3|lia].
Qed.

Lemma object_reads kvs l n : members_read kvs l n → reads_as (JObj kvs) (VObject (list_to_map (reverse l))) (S n).
Proof.
  intros (H1&H2&H3&H4). split_and!; cbn [doc_ok interface_of interface_err doc_depth]; [done| |done|lia].
  by rewrite H2.
Qed.

Lemma value_reads v : value_ok v = true → ∃ d, doc_of true v = Some d ∧ reads_as d v (value_depth v).
Proof. intros (d&Hd&H1&H2&H3&H4)%(codes_all true). exists d. by split_and!. Qed.

(** ** Texts that the encoder leaves as they are *)

Definition plain_char (a : ascii) : bool :=
  (43 <=? byte_val a)%Z && (byte_val a <=? 90)%Z && negb (byte_val a =? 60)%Z && negb (byte_val a =? 62)%Z.
Fixpoint plain (s : string) : bool :=
  match s with EmptyString => true | String a s' => plain_char a && plain s' end.

Lemma plain_app s t : plain (s +:+ t) = plain s && plain t.
Proof. induction s as [|a s IH]; [done|]. rewrite string_app_cons. cbn. by rewrite IH, andb_assoc. Qed.

Lemma quote_plain html s : plain s = true → quote html s = s.
Proof.
  induction s as [|a s IH]; [done|]. cbn [plain quote]. unfold plain_char.
  rewrite !andb_true_iff, !negb_true_iff, !Z.leb_le, !Z.eqb_neq. intros [[[[H1 H2] H3] H4] Hs].
  rewrite (proj2 (Z.ltb_lt _ _)) by lia. rewrite IH by done. unfold escape_byte.
  assert (Hb : char_eqb a backslash = false).
  { unfold char_eqb. apply bool_decide_eq_false. intros ->. vm_compute in H2. by apply H2. }
  assert (Hq : char_eqb a dquote = false).
  { unfold char_eqb. apply bool_decide_eq_false. intros ->. vm_compute in H1. by apply H1. }
  rewrite Hb, Hq. cbn [orb].
  repeat match goal with
  | |- context [(byte_val a =? ?n)%Z] => rewrite (proj2 (Z.eqb_neq (byte_val a) n)) by lia
  end.
  rewrite (proj2 (Z.ltb_ge _ _)) by lia. by rewrite andb_false_r.
Qed.

Lemma plain_digits s acc v : digits_val acc s = Some v → plain s = true.
Proof.
  revert acc. induction s as [|a s IH]; intros acc; [done|]. cbn [digits_val plain].
  destruct (digit_val a) eqn:Ha; [|done]. cbn. intros Hs. rewrite (IH _ Hs), andb_true_r.
  unfold digit_val, byte_in in Ha. destruct (_ && _) eqn:E; [|done]. unfold plain_char.
  rewrite andb_true_iff, !Z.leb_le in E. rewrite !andb_true_iff, !negb_true_iff, !Z.leb_le, !Z.eqb_neq. lia.
Qed.

Lemma plain_Itoa z : plain (Itoa z) = true.
Proof.
  assert (H : ∀ x : N, plain (pretty x) = true) by (intros x; by eapply plain_digits, digits_val_pretty).
  unfold Itoa. destruct z; [done|apply H|]. change (plain (pretty (N.pos p)) = true). apply H.
Qed.

Lemma plain_pad n z : plain (pad n z) = true.
Proof. unfold pad. rewrite plain_app, plain_Itoa, andb_true_r. by induction (n - _). Qed.

Lemma plain_time t : plain (FormatRFC3339Nano t) = true.
Proof.
  unfold FormatRFC3339Nano, format_seconds. destruct (civil_from_days _) as [[y mo] d].
  rewrite !plain_app, !plain_pad. cbn [andb]. destruct (_ =? 0)%Z; [done|].
  destruct (strip_zeros _ _ _) as [f k]. by rewrite plain_app, plain_pad.
Qed.

Lemma ParseInt_Itoa v : is_int64 v = true → ParseInt (Itoa v) = Some v.
Proof.
  intros Hv. unfold ParseInt. rewrite Atoi_Itoa by done.
  assert (Hp : ∀ x : N, match pretty x with String "+" _ => None | _ => Some v end = Some v).
  { intros x. pose proof (digits_val_first _ _ _ (digits_val_pretty x)) as Hf.
    destruct (pretty x) as [|a s]; [done|]. destruct Hf as [_ Hf].
    destruct a as [[] [] [] [] [] [] [] []]; try done. }
  unfold Itoa. destruct v; [done|apply (Hp (N.pos p))|done].
Qed.

(** An integer is a JSON number. *)
Lemma num_run_digit n s : (n < 10)%N → num_run NInt (String (pretty_N_char n) s) = num_run NInt s.
Proof.
  intros Hn. assert (n = 0 ∨ n = 1 ∨ n = 2 ∨ n = 3 ∨ n = 4 ∨ n = 5 ∨ n = 6 ∨ n = 7 ∨ n = 8 ∨ n = 9)%N as Hc by lia.
  destruct_or! Hc; subst n; reflexivity.
Qed.

Lemma num_start_digit n : (0 < n < 10)%N → num_start (pretty_N_char n) = Some NInt.
Proof.
  intros Hn. assert (n = 1 ∨ n = 2 ∨ n = 3 ∨ n = 4 ∨ n = 5 ∨ n = 6 ∨ n = 7 ∨ n = 8 ∨ n = 9)%N as Hc by lia.
  destruct_or! Hc; subst n; reflexivity.
Qed.

Lemma num_pretty_go (x : N) s :
  (0 < x)%N → num_run NInt s = Some NInt →
  ∃ c rest, pretty_N_go x s = String c rest ∧ num_start c = Some NInt ∧ num_run NInt rest = Some NInt.
Proof.
  revert s. induction (N.lt_wf_0 x) as [x _ IH]; intros s Hx Hs. rewrite pretty_N_go_step by done.
  assert (Hm : (x mod 10 < 10)%N) by (by apply N.mod_lt).
  destruct (decide (0 < x / 10)%N) as [Hd|Hd].
  - apply IH; [by apply N.div_lt|done|]. by rewrite num_run_digit.
  - assert (x / 10 = 0)%N as Hz by (by apply N.le_0_r, N.nlt_ge). rewrite Hz, pretty_N_go_0. eexists _, s. split; [reflexivity|].
    split; [|done]. apply num_start_digit. pose proof (N.div_mod x 10 ltac:(done)) as Hdm. rewrite Hz in Hdm. lia.
Qed.

Lemma num_ok_Itoa z : num_ok (Itoa z) = true.
Proof.
  assert (H : ∀ p, ∃ c rest, pretty (N.pos p) = String c rest ∧ num_start c = Some NInt ∧ num_run NInt rest = Some NInt).
  { intros p. unfold pretty, pretty_N. rewrite decide_False by done. by apply num_pretty_go. }
  unfold Itoa. destruct z as [|p|p]; [done|..].
  - change (num_ok (pretty (N.pos p)) = true). destruct (H p) as (c&rest&->&Hs&Hr).
    unfold num_ok. rewrite Hs. cbn [mbind option_bind]. by rewrite Hr.
  - change (num_ok (String "-" (pretty (N.pos p))) = true). destruct (H p) as (c&rest&->&Hs&Hr).
    unfold num_ok. change (num_start "-") with (Some NNeg). cbn [mbind option_bind num_run].
    assert (Hn : num_next NNeg c = Some NInt).
    { unfold num_start in Hs. cbn [num_next]. repeat case_match; simplify_eq; done. }
    rewrite Hn. cbn [mbind option_bind]. by rewrite Hr.
Qed.

(** ** A status message crosses the wire *)

Lemma omit_string_reads k s n :
  raw_ok k = true → unquote k = k → utf8_valid s = true →
  members_read (omit_empty_string k s) (omit_string k s) n.
Proof.
  intros Hk Hu Hs. unfold omit_empty_string, omit_string. case_bool_decide; [apply members_nil|].
  apply members_one; [done..|]. destruct (jstring_reads s Hs) as (?&?&?&?). split_and!; (done || lia).
Qed.

Lemma omit_strings_reads k l n :
  raw_ok k = true → unquote k = k → forallb utf8_valid l = true → 1 ≤ n →
  members_read (omit_empty_strings k l) (omit_strings k l) n.
Proof.
  intros Hk Hu Hl Hn. destruct l as [|s l]; [apply members_nil|]. apply members_one; [done..|].
  destruct (strings_read (s :: l) Hl) as (?&?&?&?). split_and!; (done || lia).
Qed.

Lemma facts_read c : facts_valid c = true → reads_as (doc_CanonicalFacts c) (VObject (facts_value c)) 2.
Proof.
  unfold facts_valid. rewrite !andb_true_iff. intros [[[[[[[H1 H2] H3] H4] H5] H6] H7] H8].
  apply object_reads. unfold facts_members.
  repeat (apply members_app; [by apply omit_string_reads|]).
  apply members_app; apply omit_strings_reads; (done || lia).
Qed.

Lemma tags_depth t : value_depth (value_of_tags t) ≤ 1.
Proof.
  destruct t as [m|]; cbn [value_of_tags]; [|cbn; lia]. apply (value_depth_object _ 0).
  intros k v. rewrite lookup_fmap. destruct (m !! k); [|done]. intros [= <-]. cbn. lia.
Qed.

Lemma dispatchers_depth d : value_depth (value_of_dispatchers d) ≤ 2.
Proof.
  destruct d as [m|]; cbn [value_of_dispatchers]; [|cbn; lia]. apply (value_depth_object _ 1).
  intros k v. rewrite lookup_fmap. destruct (m !! k) as [t|]; [|done]. intros [= <-]. apply tags_depth.
Qed.

Lemma reads_weaken d v n n' : reads_as d v n → n ≤ n' → reads_as d v n'.
Proof. intros (?&?&?&?) Hn. split_and!; (done || lia). Qed.

Lemma content_read c :
  content_valid c = true →
  ∃ d, doc_ConnectionStatusMessageContent c = Some d ∧ reads_as d (VObject (content_value c)) 3.
Proof.
  unfold content_valid, tags_valid. rewrite !andb_true_iff. intros [[[[[Hf Hd] Ht] Hs] Hn] Hv].
  destruct (value_reads _ Hd) as (dd&Hdd&Hdr), (value_reads _ Ht) as (td&Htd&Htr).
  unfold doc_ConnectionStatusMessageContent. rewrite Hdd, Htd. cbn [mbind option_bind].
  eexists. split; [reflexivity|]. unfold content_value.
  match goal with |- reads_as _ (VObject (list_to_map ?l)) _ =>
    assert (Hrev : (list_to_map l : gmap string value) = list_to_map (reverse l)) end.
  { apply list_to_map_proper; [apply (bool_decide_unpack _); vm_compute; exact I|by rewrite reverse_Permutation]. }
  rewrite Hrev. apply object_reads.
  repeat match goal with |- members_read (?x :: ?y :: ?l) (?v :: ?w :: ?l') _ =>
    apply (members_app [x] (y :: l) [v] (w :: l')) end;
    (apply members_one; [reflexivity|reflexivity|]).
  - by apply facts_read.
  - eapply reads_weaken; [exact Hdr|apply dispatchers_depth].
  - eapply reads_weaken; [by apply jstring_reads|lia].
  - eapply reads_weaken; [exact Htr|]. etrans; [apply tags_depth|lia].
  - eapply reads_weaken; [by apply jstring_reads|lia].
  - eapply reads_weaken; [by apply jstring_reads|lia].
Qed.

Lemma set_key_at {S} (fields : list (field S)) s k d f :
  find_field fields k = Some f → unquote k = k → set_key fields (Some s) (k, d) = f.2 d s.
Proof. intros Hf Hk. unfold set_key. cbn [mbind option_bind fst snd]. by rewrite Hk, Hf. Qed.

(** What the server makes of a message. *)
Definition understood (m : ControlMessage ConnectionStatusMessageContent) : ControlMessage value := {|
  MessageType := MessageType m; MessageID := MessageID m; Version := Version m; Sent := Sent m;
  Content := VObject (content_value (Content m)) |}.

Definition message_valid (m : ControlMessage ConnectionStatusMessageContent) : bool :=
  utf8_valid (MessageType m) && utf8_valid (MessageID m) && is_int64 (Version m) && content_valid (Content m).

Lemma status_read m :
  message_valid m = true → representable (Sent m) →
  ∃ payload, marshal_status m = Some payload ∧ unmarshal_ControlMessage payload = Some (understood m).
Proof.
  unfold message_valid. rewrite !andb_true_iff. intros [[[Hty Hid] Hve] Hc] Hsent.
  destruct (content_read _ Hc) as (content&Hcd&Hok&Hi&Herr&Hd).
  unfold marshal_status. rewrite Hcd. cbn [mbind option_bind]. eexists. split; [reflexivity|].
  unfold unmarshal_ControlMessage. rewrite parse_render.
  - cbn [mbind option_bind decode_struct foldl].
    erewrite set_key_at by reflexivity. cbn [snd]. unfold set_string at 1, jstring at 1. rewrite unquote_quote by done.
    erewrite set_key_at by reflexivity. cbn [snd]. unfold set_string at 1, jstring at 1. rewrite unquote_quote by done.
    erewrite set_key_at by reflexivity. cbn [snd]. unfold set_int at 1, jint at 1. rewrite ParseInt_Itoa by done.
    cbn [mbind option_bind].
    erewrite set_key_at by reflexivity. cbn [snd]. unfold set_time at 1, jstring at 1.
    rewrite quote_plain by apply plain_time. rewrite ParseRFC3339_Format by done. cbn [mbind option_bind].
    erewrite set_key_at by reflexivity. cbn [snd]. unfold set_interface at 1. rewrite Herr, Hi. done.
  - cbn [doc_ok forallb fst snd]. rewrite Hok. unfold jstring, jint. cbn [doc_ok]. rewrite !quote_raw_ok.
    assert (Hn : num_ok (Itoa (Version m)) = true).
    { apply num_ok_Itoa. }
    by rewrite Hn.
  - cbn [doc_depth foldr fst snd jstring jint]. lia.
Qed.

(** ** Property *)

(** C26: A client's status message crosses the wire: for texts in UTF-8 and a time
    of a four digit year, the published payload decodes to a control message with
    the client's type, id, version and time to the nanosecond, whose content is
    an object with exactly the members the handler looks up, each as the client
    filled it in; facts that are empty are absent. *)
Theorem client_message_roundtrip m :
  message_valid m = true → representable (Sent m) →
  ∃ payload msg content, marshal_status m = Some payload ∧ unmarshal_ControlMessage payload = Some msg ∧
    MessageType msg = MessageType m ∧ MessageID msg = MessageID m ∧ Version msg = Version m ∧ Sent msg = Sent m ∧
    Content msg = VObject content ∧
    content !! "state" = Some (VString (cs_ConnectionState (Content m))) ∧
    content !! "client_name" = Some (VString (cs_ClientName (Content m))) ∧
    content !! "client_version" = Some (VString (cs_ClientVersion (Content m))) ∧
    content !! "dispatchers" = Some (value_of_dispatchers (cs_Dispatchers (Content m))) ∧
    content !! "tags" = Some (value_of_tags (cs_Tags (Content m))) ∧
    content !! "canonical_facts" = Some (VObject (facts_value (cs_CanonicalFacts (Content m)))) ∧
    dom content = list_to_set ["state"; "client_name"; "client_version"; "dispatchers"; "tags"; "canonical_facts"].
Proof.
  intros Hm Hs. destruct (status_read m Hm Hs) as (payload&Hp&Hu).
  exists payload, (understood m), (content_value (Content m)). split_and!; try done.
Qed.

Definition sample_message : ControlMessage ConnectionStatusMessageContent :=
  onlineMsg "1235" {| InsightsID := "6ba7b810-9dad-11d1-80b4-00c04fd430c8"; MachineID := EmptyString;
      SubscriptionManagerID := EmptyString; SatelliteID := EmptyString; Fqdn := "fred.flintstone.com";
      BiosID := EmptyString; IpAddresses := ["192.168.68.101"]; MacAddresses := [] |}
    test_dispatchers (some_map [("key1", "value1")]) 1704067200123000000%Z.

Lemma client_message_roundtrip_witness :
  ∃ payload msg, marshal_status sample_message = Some payload ∧ unmarshal_ControlMessage payload = Some msg ∧
    Sent msg = 1704067200123000000%Z.
Proof.
  assert (Hv : message_valid sample_message = true) by (vm_compute; reflexivity).
  assert (Hr : representable (Sent sample_message)) by (apply (bool_decide_unpack _); vm_compute; exact I).
  destruct (client_message_roundtrip sample_message Hv Hr) as (payload&msg&_&H1&H2&_&_&_&H3&_).
  exists payload, msg. split; [exact H1|]. split; [exact H2|exact H3].
Defined.
