(* ===== verification/AccountResolver.v ===== *)
(** * Resolving a client id to its tenant ([internal/controller/account_resolver.go])

    - [ConfigurableAccountIdResolver]: a map read from a JSON file, a default for
      every other client;
    - [BOPAccountIdResolver]: one HTTP request to the auth gateway;
    - [ExpirableCachedAccountIdResolver]: a cache in front of either.

    The HTTP client and the identity struct of the platform's middleware library
    are the classes [AuthGateway] and [XRHIDLib]; the LRU cache is [LRU]. *)

From S2P Require Import Prelude GoStrings GoNumTime Json JsonFacts Domain Config Protocol Identity.
From stdpp Require Import options.

(** ** ConfigurableAccountIdResolver *)

Record account_entry := {
  ae_AccountId : AccountID;
  ae_OrgId : OrgID;
  ae_Error : string;
}.
Definition zero_entry : account_entry :=
  {| ae_AccountId := EmptyString; ae_OrgId := EmptyString; ae_Error := EmptyString |}.

Definition account_entry_fields : list (field account_entry) := [
  ("accountId", set_string (λ x e, {| ae_AccountId := x; ae_OrgId := ae_OrgId e; ae_Error := ae_Error e |}));
  ("orgId", set_string (λ x e, {| ae_AccountId := ae_AccountId e; ae_OrgId := x; ae_Error := ae_Error e |}));
  ("error", set_string (λ x e, {| ae_AccountId := ae_AccountId e; ae_OrgId := ae_OrgId e; ae_Error := x |}))].

Definition add_account_entry (acc : option (gmap ClientID account_entry)) (kv : string * jdoc)
    : option (gmap ClientID account_entry) :=
  m ← acc;
  e ← decode_struct account_entry_fields zero_entry kv.2;
  Some (<[unquote kv.1 := e]> m).

(** [json.Unmarshal(jsonBytes, &bar.clientIdToAccountIdMap)] *)
Definition unmarshal_account_map (jsonBytes : string) : option (gmap ClientID account_entry) :=
  match parse jsonBytes with
  | Some JNull => Some ∅
  | Some (JObj kvs) => foldl add_account_entry (Some ∅) kvs
  | _ => None
  end.

Record ConfigurableAccountIdResolver := {
  clientIdToAccountIdMap : gmap ClientID account_entry;
  defaultAccountId : AccountID;
  defaultOrgId : OrgID;
}.

(** [file] is the content of the configured file, or the error of reading it. *)
Definition loadAccountIdMapFromFile (file : string + error) : gmap ClientID account_entry + error :=
  match file with
  | inr err => inr err
  | inl jsonBytes =>
      match unmarshal_account_map jsonBytes with
      | Some m => inl m
      | None => inr err_json
      end
  end.

Definition configurable_init (cfg : Config) (file : string + error)
    : ConfigurableAccountIdResolver * option error :=
  match loadAccountIdMapFromFile file with
  | inr err => ({| clientIdToAccountIdMap := ∅; defaultAccountId := EmptyString;
                   defaultOrgId := EmptyString |}, Some err)
  | inl m => ({| clientIdToAccountIdMap := m;
                 defaultAccountId := ClientIdToAccountIdDefaultAccountId cfg;
                 defaultOrgId := ClientIdToAccountIdDefaultOrgId cfg |}, None)
  end.

Definition nl : string := str1 "010".
Definition q (s : string) : string := String dquote (s +:+ str1 dquote).

(** The template of [createIdentityHeader], cut at its three verbs. *)
Definition identity_json_1 : string :=
  nl +:+ "        {" +:+ q "identity" +:+ ":" +:+ nl +:+ "            {" +:+ nl +:+
  "            " +:+ q "type" +:+ ": " +:+ q "User" +:+ "," +:+ nl +:+
  "            " +:+ q "auth_type" +:+ ": " +:+ q "cert-auth" +:+ "," +:+ nl +:+
  "            " +:+ q "account_number" +:+ ": ".
Definition identity_json_2 : string :=
  "," +:+ nl +:+ "            " +:+ q "org_id" +:+ ": ".
Definition identity_json_3 : string :=
  "," +:+ nl +:+ "            " +:+ q "internal" +:+ ":" +:+ nl +:+
  "                {" +:+ q "org_id" +:+ ": ".
Definition identity_json_4 : string :=
  "}," +:+ nl +:+ "            " +:+ q "user" +:+ ":" +:+ nl +:+
  "                {" +:+ q "email" +:+ ": " +:+ q "fred@flintstone.com" +:+ ", " +:+
  q "is_org_admin" +:+ ": true}" +:+ nl +:+ "            }" +:+ nl +:+ "        }".

(** [fmt.Sprintf(template, account, org_id, org_id)]: nothing is escaped. *)
Definition identityJson (account : AccountID) (org_id : OrgID) : string :=
  identity_json_1 +:+ q account +:+ identity_json_2 +:+ q org_id +:+
  identity_json_3 +:+ q org_id +:+ identity_json_4.

Definition createIdentityHeader (account : AccountID) (org_id : OrgID) : Identity :=
  EncodeToString (identityJson account org_id).

Definition resolver_result : Type := Identity * AccountID * OrgID * option error.

Definition configurable_MapClientIdToAccountId (bar : ConfigurableAccountIdResolver)
    (clientID : ClientID) : resolver_result :=
  let default_result :=
    (createIdentityHeader (defaultAccountId bar) (defaultOrgId bar),
     defaultAccountId bar, defaultOrgId bar, None) in
  match clientIdToAccountIdMap bar !! clientID with
  | Some account =>
      if bool_decide (ae_OrgId account ≠ EmptyString) then
        (createIdentityHeader (ae_AccountId account) (ae_OrgId account),
         ae_AccountId account, ae_OrgId account, None)
      else if bool_decide (ae_Error account ≠ EmptyString) then
        (EmptyString, EmptyString, EmptyString, Some (ErrText (ae_Error account)))
      else default_result
  | None => default_result
  end.

(** ** BOPAccountIdResolver *)

(** [identity.XRHID] of platform-go-middlewares. *)
Class XRHIDLib := {
  XRHID : Type;
  xrhid_Unmarshal : string → option XRHID;
  xrhid_Marshal : XRHID → option string;
  xrhid_AccountNumber : XRHID → string;
  xrhid_InternalOrgID : XRHID → string;
  xrhid_AuthType : XRHID → string;
  xrhid_set_AuthType : string → XRHID → XRHID;
}.

(** [resp_ReadFailed]: reading the body breaks off after [resp_Body]. *)
Record http_response := { resp_StatusCode : Z; resp_Body : string; resp_ReadFailed : bool }.

(** [http.NewRequest] followed by [client.Do], with the client's timeout. *)
Class AuthGateway (W : Type) := {
  gateway_NewRequest : string → option error;
  gateway_Do : string → list (string * string) → Z → M W (http_response + error);
}.
#[global] Hint Mode AuthGateway + : typeclass_instances.

Record gateway_error := { ge_ResponseBy : string; ge_Status : Z; ge_Detail : string }.
Definition zero_gateway_error : gateway_error :=
  {| ge_ResponseBy := EmptyString; ge_Status := 0; ge_Detail := EmptyString |}.

Definition meta_fields : list (field string) := [("response_by", set_string (λ x _, x))].

Definition gateway_error_fields : list (field gateway_error) := [
  ("meta", λ d e, m ← decode_struct meta_fields (ge_ResponseBy e) d;
     Some {| ge_ResponseBy := m; ge_Status := ge_Status e; ge_Detail := ge_Detail e |});
  ("status", set_int (λ x e, {| ge_ResponseBy := ge_ResponseBy e; ge_Status := x; ge_Detail := ge_Detail e |}));
  ("detail", set_string (λ x e, {| ge_ResponseBy := ge_ResponseBy e; ge_Status := ge_Status e; ge_Detail := x |}))].

(** The [errors] field; elements are decoded from zero values. *)
Definition authGwErrorResponse_fields : list (field (list gateway_error)) := [
  ("errors", λ d l, match d with
                    | JNull => Some []
                    | JArr ds => opt_all (decode_struct gateway_error_fields zero_gateway_error <$> ds)
                    | _ => None
                    end)].

Definition authGwErrorResponse_String (errs : list gateway_error) : string :=
  "Gateway returned an error: " +:+
  String.concat EmptyString ((λ e, " (response_by: " +:+ ge_ResponseBy e +:+ ", status: "
    +:+ Itoa (ge_Status e) +:+ ", detail: " +:+ ge_Detail e +:+ ")") <$> errs).

Definition AuthGwResp_fields : list (field string) := [("x-rh-identity", set_string (λ x _, x))].

Definition failed (err : error) : resolver_result := (EmptyString, EmptyString, EmptyString, Some err).

Section resolvers.
Context {W : Type} `{!AuthGateway W, !XRHIDLib, !Metrics W, !UUID W, !Clock W}.

(** What is made of the gateway's answer. *)
Definition bop_response (r : http_response) : resolver_result :=
  if bool_decide (resp_StatusCode r ≠ 200%Z) then
    match decode_body authGwErrorResponse_fields [] (resp_Body r) (resp_ReadFailed r) with
    | None => failed (ErrWrap "Unable to find account: " err_json)
    | Some errs => failed (ErrText ("Unable to find account: " +:+ authGwErrorResponse_String errs))
    end
  else
    match decode_body AuthGwResp_fields EmptyString (resp_Body r) (resp_ReadFailed r) with
    | None => failed err_json
    | Some identity =>
        match DecodeString identity with
        | None => failed err_base64
        | Some idRaw =>
            match xrhid_Unmarshal idRaw with
            | None => failed err_json
            | Some jsonData =>
                if bool_decide (xrhid_AuthType jsonData = EmptyString) then
                  let jsonData := xrhid_set_AuthType "cert-auth" jsonData in
                  match xrhid_Marshal jsonData with
                  | None => failed err_json
                  | Some updatedIdentity =>
                      (EncodeToString updatedIdentity, xrhid_AccountNumber jsonData,
                       xrhid_InternalOrgID jsonData, None)
                  end
                else (identity, xrhid_AccountNumber jsonData, xrhid_InternalOrgID jsonData, None)
            end
        end
    end.

Definition authGatewayStatusCounter (code : Z) : string :=
  "cloud_connector_auth_gateway_account_lookup_status_code_counter:" +:+ Itoa code.

(** [uuid.NewString] panics where [NewRandom] fails. *)
Definition bop_MapClientIdToAccountId (cfg : Config) (clientID : ClientID) : M W resolver_result :=
  id ← NewRandom;
  match id with
  | inr err => panic (Error err)
  | inl requestID =>
      match gateway_NewRequest (W := W) (AuthGatewayUrl cfg) with
      | Some err => mret (failed err)
      | None =>
          r ← gateway_Do (AuthGatewayUrl cfg)
                [("accept", "application/json"); ("x-rh-certauth-cn", "/CN=" +:+ clientID);
                 ("x-rh-insights-request-id", requestID)]
                (AuthGatewayHttpClientTimeout cfg);
          match r with
          | inr err => mret (failed err)
          | inl resp =>
              Inc (authGatewayStatusCounter (resp_StatusCode resp));;
              mret (bop_response resp)
          end
      end
  end.
End resolvers.

(** ** ExpirableCachedAccountIdResolver *)

Record cachedResult := {
  cr_identity : Identity;
  cr_accountID : AccountID;
  cr_orgID : OrgID;
  cr_timestamp : time;
  cr_err : option error;
}.

(** [expirable_lru.LRU]: entries disappear when they expire or are evicted. *)
Class LRU (W : Type) := {
  lru_Get : ClientID → M W (option cachedResult);
  lru_Add : ClientID → cachedResult → M W unit;
}.
#[global] Hint Mode LRU + : typeclass_instances.

Definition accountLookupCacheHit : string := "cloud_connector_account_lookup_cache_hit".
Definition accountLookupCacheMiss : string := "cloud_connector_account_lookup_cache_miss".

Section cache.
Context {W : Type} `{!LRU W, !Metrics W, !Clock W}.

(** Not in the cache, or expired: ask the wrapped resolver and keep its answer. *)
Definition cached_miss (base : ClientID → M W resolver_result) (clientID : ClientID)
    : M W resolver_result :=
  Inc accountLookupCacheMiss;;
  r ← base clientID;
  let '(identity, accountID, orgID, err) := r in
  now ← Now;
  lru_Add clientID {| cr_identity := identity; cr_accountID := accountID; cr_orgID := orgID;
                      cr_timestamp := now; cr_err := err |};;
  mret (identity, accountID, orgID, err).

Definition cached_MapClientIdToAccountId (errorTTL : Z)
    (base : ClientID → M W resolver_result) (clientID : ClientID) : M W resolver_result :=
  hit ← lru_Get clientID;
  match hit with
  | None => cached_miss base clientID
  | Some result =>
      match cr_err result with
      | None =>
          Inc accountLookupCacheHit;;
          mret (cr_identity result, cr_accountID result, cr_orgID result, None)
      | Some err =>
          now ← Now;
          if (now - cr_timestamp result <? errorTTL)%Z
          then Inc accountLookupCacheHit;; mret (failed err)
          else cached_miss base clientID
      end
  end.
End cache.

(** ** NewAccountIdResolver *)

Inductive resolver_impl :=
| UseConfigurable (r : ConfigurableAccountIdResolver)
| UseCachedConfigurable (r : ConfigurableAccountIdResolver) (errorTTL : Z)
| UseBOP
| UseCachedBOP (errorTTL : Z).

(** [cache_ok]: whether the LRU of that size could be created.  The plain file
    based resolver is returned together with its error. *)
Definition NewAccountIdResolver (accountIdResolverImpl : string) (cfg : Config)
    (file : string + error) (cache_ok : Z → bool) : option resolver_impl * option error :=
  let cached (r : resolver_impl) :=
    if cache_ok (ClientIdToAccountIdCacheSize cfg) then (Some r, None)
    else (None, Some (ErrText "Unable to create LRU cache for caching AccountIdResolver results")) in
  if bool_decide (accountIdResolverImpl = "config_file_based") then
    let '(resolver, err) := configurable_init cfg file in (Some (UseConfigurable resolver), err)
  else if bool_decide (accountIdResolverImpl = "config_file_based_with_cache") then
    let '(resolver, err) := configurable_init cfg file in
    match err with
    | Some e => (None, Some e)
    | None => cached (UseCachedConfigurable resolver (ClientIdToAccountIdCacheErrorRespTTL cfg))
    end
  else if bool_decide (accountIdResolverImpl = "bop") then (Some UseBOP, None)
  else if bool_decide (accountIdResolverImpl = "bop_with_cache") then
    cached (UseCachedBOP (ClientIdToAccountIdCacheErrorRespTTL cfg))
  else (None, Some (ErrText "Invalid AccountIdResolver impl requested")).

Section resolve.
Context {W : Type} `{!AuthGateway W, !XRHIDLib, !Metrics W, !UUID W, !Clock W, !LRU W}.

Definition resolve_with (impl : resolver_impl) (cfg : Config) (clientID : ClientID)
    : M W resolver_result :=
  match impl with
  | UseConfigurable r => mret (configurable_MapClientIdToAccountId r clientID)
  | UseCachedConfigurable r ttl =>
      cached_MapClientIdToAccountId ttl
        (λ c, mret (configurable_MapClientIdToAccountId r c)) clientID
  | UseBOP => bop_MapClientIdToAccountId cfg clientID
  | UseCachedBOP ttl => cached_MapClientIdToAccountId ttl (bop_MapClientIdToAccountId cfg) clientID
  end.
End resolve.

(** ** Lemmas *)

(** What the identity document says. *)
Definition identity_doc (account : AccountID) (org_id : OrgID) : jdoc :=
  JObj [("identity", JObj [
    ("type", JStr "User"); ("auth_type", JStr "cert-auth"); ("account_number", JStr account);
    ("org_id", JStr org_id); ("internal", JObj [("org_id", JStr org_id)]);
    ("user", JObj [("email", JStr "fred@flintstone.com"); ("is_org_admin", JBool true)])])].

Lemma parse_identityJson account org_id :
  raw_ok account = true → raw_ok org_id = true →
  parse (identityJson account org_id) = Some (identity_doc account org_id).
Proof.
  intros Ha Ho. unfold parse, DecodeStream, identityJson, q.
  erewrite scan_run by (vm_compute; reflexivity).
  rewrite scan_quoted by done. unfold resume. cbn [finish fst snd].
  erewrite scan_run by (vm_compute; reflexivity).
  rewrite scan_quoted by done. unfold resume. cbn [finish fst snd].
  erewrite scan_run by (vm_compute; reflexivity).
  rewrite scan_quoted by done. unfold resume. cbn [finish fst snd].
  rewrite <-(string_app_nil_r identity_json_4).
  erewrite scan_run by (vm_compute; reflexivity). reflexivity.
Qed.

(** A text that can stand inside a JSON string as it is. *)
Definition plain_text (s : string) : bool := raw_ok s && bool_decide (unquote s = s).

Lemma identity_map account org_id :
  plain_text account = true → plain_text org_id = true →
  ∃ m internal, convertIdentityToMap (createIdentityHeader account org_id) = inl m ∧
    m !! "auth_type" = Some (VString "cert-auth") ∧
    m !! "account_number" = Some (VString account) ∧ m !! "org_id" = Some (VString org_id) ∧
    m !! "internal" = Some (VObject internal) ∧ internal !! "org_id" = Some (VString org_id).
Proof.
  unfold plain_text. rewrite !andb_true_iff, !bool_decide_eq_true. intros [Ha Hua] [Ho Huo].
  set (inner := [("type", JStr "User"); ("auth_type", JStr "cert-auth");
    ("account_number", JStr account); ("org_id", JStr org_id);
    ("internal", JObj [("org_id", JStr org_id)]);
    ("user", JObj [("email", JStr "fred@flintstone.com"); ("is_org_admin", JBool true)])]).
  exists (object_map inner), (object_map [("org_id", JStr org_id)]). split.
  { unfold convertIdentityToMap, createIdentityHeader. rewrite DecodeString_EncodeToString.
    unfold UnmarshalMap. rewrite parse_identityJson by done. unfold identity_doc. fold inner.
    change (interface_err (JObj [("identity", JObj inner)])) with false. cbv iota beta.
    change (interface_of (JObj [("identity", JObj inner)]))
      with (VObject (object_map [("identity", JObj inner)])).
    cbn [as_map]. rewrite (object_map_lookup _ "identity" (JObj inner)); [done| |done|left].
    apply (bool_decide_unpack _). exact I. }
  split_and!; (etrans; [eapply object_map_lookup;
    [apply (bool_decide_unpack _); exact I|reflexivity|repeat first [left|right]]|];
    cbn [interface_of]; rewrite ?Hua, ?Huo; reflexivity).
Qed.

(** ** Properties *)

(** The identity header made up by the file based resolver decodes to the
    account and org it was made for and counts as certificate authentication,
    for ids that need no escaping in JSON (nothing is escaped). *)
Theorem createIdentityHeader_decodes account org_id :
  plain_text account = true → plain_text org_id = true →
  AuthenticatedWithCertificate (createIdentityHeader account org_id) = (true, None) ∧
  GetAuthType (createIdentityHeader account org_id) = ("cert-auth", None) ∧
  ∃ m internal, GetIdentityMap (createIdentityHeader account org_id) = inl m ∧
    m !! "account_number" = Some (VString account) ∧ m !! "org_id" = Some (VString org_id) ∧
    m !! "internal" = Some (VObject internal) ∧ internal !! "org_id" = Some (VString org_id).
Proof.
  intros Ha Ho. destruct (identity_map account org_id Ha Ho) as (m&i&Hm&Hat&Hrest).
  unfold AuthenticatedWithCertificate, GetAuthType, GetIdentityMap. rewrite Hm, Hat.
  split_and!; [by rewrite bool_decide_eq_true_2|reflexivity|]. exists m, i. exact (conj eq_refl Hrest).
Qed.

Lemma createIdentityHeader_decodes_witness :
  AuthenticatedWithCertificate (createIdentityHeader "010101" "000001") = (true, None).
Proof. apply (createIdentityHeader_decodes "010101" "000001"); vm_compute; reflexivity. Defined.

(** What the cache may hand out. *)
Class LRUView (W : Type) `{!LRU W, !Metrics W, !Clock W} := {
  lru_content : W → gmap ClientID cachedResult;
  lru_Get_spec cid w : ∃ r w', lru_Get cid w = (Ret r, w') ∧ lru_content w' ⊆ lru_content w ∧
    ∀ x, r = Some x → lru_content w !! cid = Some x;
  lru_Add_spec cid x w : ∃ w', lru_Add cid x w = (Ret tt, w') ∧
    lru_content w' ⊆ <[cid := x]> (lru_content w);
  lru_Inc_spec c (w : W) : ∃ w', Inc c w = (Ret tt, w') ∧ lru_content w' = lru_content w;
  lru_Now_spec (w : W) : ∃ t w', Now w = (Ret t, w') ∧ lru_content w' = lru_content w;
}.

Section transparency.
Context {W : Type} `{!LRU W, !Metrics W, !Clock W, !LRUView W}.
#[local] Set Default Proof Using "Type*".

(** Every entry is an answer of [f]. *)
Definition cache_of (f : ClientID → resolver_result) (w : W) : Prop :=
  ∀ cid x, lru_content w !! cid = Some x →
    f cid = (cr_identity x, cr_accountID x, cr_orgID x, cr_err x).

Definition fails_empty (r : resolver_result) : Prop :=
  match r.2 with Some e => r = failed e | None => True end.

Lemma cache_of_subseteq f w w' :
  lru_content w' ⊆ lru_content w → cache_of f w → cache_of f w'.
Proof. intros Hs Hc cid x Hx. eapply Hc, lookup_weaken; done. Qed.

(** C30: In front of a resolver that gives each client a fixed answer, the cache
    is invisible: every lookup returns that answer, whatever the cache drops
    and whatever the clock says, and every entry stays an answer of the
    resolver. *)
Theorem cached_resolver_transparent ttl f cid w :
  (∀ c, fails_empty (f c)) → cache_of f w →
  ∃ w', cached_MapClientIdToAccountId ttl (λ c, mret (f c)) cid w = (Ret (f cid), w') ∧
        cache_of f w'.
Proof.
  intros Hf Hc. unfold cached_MapClientIdToAccountId.
  assert (Hmiss : ∀ w, cache_of f w →
    ∃ w', cached_miss (λ c, mret (f c)) cid w = (Ret (f cid), w') ∧ cache_of f w').
  { intros w0 Hw0. unfold cached_miss.
    destruct (lru_Inc_spec accountLookupCacheMiss w0) as (w1&E1&C1).
    rewrite (bind_ret _ _ _ _ _ E1), bind_ret_l.
    destruct (f cid) as [[[i a] o] err] eqn:Hfc.
    destruct (lru_Now_spec w1) as (t&w2&E2&C2). rewrite (bind_ret _ _ _ _ _ E2).
    destruct (lru_Add_spec cid {| cr_identity := i; cr_accountID := a; cr_orgID := o;
      cr_timestamp := t; cr_err := err |} w2) as (w3&E3&C3).
    rewrite (bind_ret _ _ _ _ _ E3). exists w3. split; [done|].
    intros c x Hx. eapply lookup_weaken in Hx; [|exact C3].
    apply lookup_insert_Some in Hx as [[<- <-]|[_ Hx]]; [done|].
    apply Hw0. by rewrite <-C1, <-C2. }
  destruct (lru_Get_spec cid w) as (r&w1&E1&C1&Hr). rewrite (bind_ret _ _ _ _ _ E1).
  assert (Hc1 : cache_of f w1) by (by eapply cache_of_subseteq).
  destruct r as [x|]; [|by apply Hmiss].
  specialize (Hc cid x (Hr x eq_refl)). destruct (cr_err x) as [e|] eqn:Hx.
  - destruct (lru_Now_spec w1) as (t&w2&E2&C2). rewrite (bind_ret _ _ _ _ _ E2).
    assert (Hc2 : cache_of f w2) by (apply (cache_of_subseteq f w1); [rewrite C2; reflexivity|done]).
    case_match; [|by apply Hmiss].
    destruct (lru_Inc_spec accountLookupCacheHit w2) as (w3&E3&C3).
    rewrite (bind_ret _ _ _ _ _ E3). exists w3. split.
    + specialize (Hf cid). unfold fails_empty in Hf. rewrite Hc in Hf |- *. cbn in Hf.
      by rewrite <-Hf.
    + apply (cache_of_subseteq f w2); [rewrite C3; reflexivity|done].
  - destruct (lru_Inc_spec accountLookupCacheHit w1) as (w3&E3&C3).
    rewrite (bind_ret _ _ _ _ _ E3). exists w3. split; [by rewrite Hc|].
    apply (cache_of_subseteq f w1); [rewrite C3; reflexivity|done].
Qed.
End transparency.

(** A cache without eviction, for the witness. *)
Record CacheWorld := { cw_cache : gmap ClientID cachedResult; cw_now : time }.

#[export] Instance cache_lru : LRU CacheWorld := {
  lru_Get cid w := (Ret (cw_cache w !! cid), w);
  lru_Add cid x w := (Ret tt, {| cw_cache := <[cid := x]> (cw_cache w); cw_now := cw_now w |});
}.
#[export] Instance cache_metrics : Metrics CacheWorld := { Inc _ w := (Ret tt, w) }.
#[export] Instance cache_clock : Clock CacheWorld := {
  Now w := (Ret (cw_now w), {| cw_cache := cw_cache w; cw_now := (cw_now w + 1)%Z |}) }.
#[export] Instance cache_view : LRUView CacheWorld.
Proof.
  refine {| lru_content := cw_cache |}.
  - intros cid w. eexists _, w. split; [done|]. split; [done|]. by intros x [= ->].
  - intros cid x w. eexists. split; [done|]. done.
  - intros c w. by eexists.
  - intros w. by eexists _, _.
Defined.

Definition test_resolver : ConfigurableAccountIdResolver := {|
  clientIdToAccountIdMap := {[ "bad" := {| ae_AccountId := EmptyString; ae_OrgId := EmptyString;
                                           ae_Error := "no such client" |} ]};
  defaultAccountId := "010101"; defaultOrgId := "000001" |}.

Lemma configurable_fails_empty r c : fails_empty (configurable_MapClientIdToAccountId r c).
Proof.
  unfold fails_empty, configurable_MapClientIdToAccountId. repeat case_match; by simplify_eq/=.
Qed.

Lemma cached_resolver_transparent_witness :
  let f := configurable_MapClientIdToAccountId test_resolver in
  let w := {| cw_cache := ∅; cw_now := 0 |} in
  ∃ w', cached_MapClientIdToAccountId 60 (λ c, mret (f c)) "bad" w
        = (Ret (failed (ErrText "no such client")), w') ∧ cache_of f w'.
Proof.
  intros f w.
  apply (cached_resolver_transparent 60 f "bad" w (configurable_fails_empty test_resolver)).
  intros cid x Hx. exfalso. apply (lookup_empty_Some cid x). exact Hx.
Defined.
