(* ===== verification/Inventory.v ===== *)
(** * Reporting connected hosts to Inventory ([internal/controller/connected_client_recorder.go])

    [InventoryBasedConnectedClientRecorder.RecordConnectedClient] decides
    whether a host is reported and builds the [add_host] message.  The Kafka
    writer is the class [KafkaWriter]. *)

From S2P Require Import Prelude GoStrings GoNumTime Json JsonFacts Domain Config Protocol Identity.
From stdpp Require Import options.

(** [kafka.Message] *)
Record kafka_message := {
  km_Headers : list (string * string);
  km_Key : string;
  km_Value : string;
}.

Class KafkaWriter (W : Type) := { WriteMessages : kafka_message → M W (option error) }.
#[global] Hint Mode KafkaWriter + : typeclass_instances.

(** [uuid.NewUUID()] as the code uses it: its error is dropped, leaving the zero uuid. *)
Class UUIDv1 (W : Type) := { NewUUID : M W string }.
#[global] Hint Mode UUIDv1 + : typeclass_instances.

Definition playbookWorkerDispatcherKey : string := "rhc-worker-playbook".
Definition packageManagerDispatcherKey : string := "package-manager".
Definition convert2RhelWorkerDispatcherKey : string := "rhc-worker-script".
Definition inventoryTagNamespace : string := "rhc_client".

Definition inventoryKafkaWriterFailureCounter : string :=
  "cloud_connector_inventory_kafka_writer_failure_count".
Definition inventoryKafkaWriterSuccessCounter : string :=
  "cloud_connector_inventory_kafka_writer_success_count".

Record InventoryBasedConnectedClientRecorder := {
  StaleTimestampOffset : Z;
  ReporterName : string;
}.

(** ** Decisions *)

Definition isIdentityValid (identity : Identity) : bool := bool_decide (0 < String.length identity).

Definition doesHostHaveCanonicalFacts {W} (connectorClient : ConnectorClientState) : M W bool :=
  match ccCanonicalFacts connectorClient with
  | VNull => mret false
  | v => canonicalFactMap ← assert_map v; mret (bool_decide (canonicalFactMap ≠ ∅))
  end.

Definition doesHostHaveDispatcher {W} (connectorClient : ConnectorClientState)
    (dispatcherName : string) : M W bool :=
  match ccDispatchers connectorClient with
  | VNull => mret false
  | v => dispatchersMap ← assert_map v;
         mret (bool_decide (is_Some (dispatchersMap !! dispatcherName)))
  end.

(** [&&] and [||] stop as soon as the answer is known. *)
Definition and_then {W} (a b : M W bool) : M W bool :=
  x ← a; if x : bool then b else mret false.
Definition or_else {W} (a b : M W bool) : M W bool :=
  x ← a; if x : bool then mret true else b.

Definition shouldHostBeRegisteredWithInventory {W} (connectorClient : ConnectorClientState)
    (identity : Identity) : M W bool :=
  and_then (mret (isIdentityValid identity))
    (and_then (doesHostHaveCanonicalFacts connectorClient)
      (or_else (doesHostHaveDispatcher connectorClient playbookWorkerDispatcherKey)
        (or_else (doesHostHaveDispatcher connectorClient packageManagerDispatcherKey)
          (doesHostHaveDispatcher connectorClient convert2RhelWorkerDispatcherKey)))).

(** ** The message *)

(** Only non-empty arrays and strings go to Inventory. *)
Definition keep_fact (v : value) : bool :=
  match v with
  | VArray l => bool_decide (l ≠ [])
  | VString s => bool_decide (s ≠ EmptyString)
  | _ => false
  end.
Definition cleanupCanonicalFacts (canonicalFacts : gmap string value) : gmap string value :=
  filter (λ kv, keep_fact kv.2) canonicalFacts.

(** The loop over the tags; a tag that is not a string makes it panic. *)
Fixpoint convert_tags {W} (tags : list (string * value)) : M W (gmap string value) :=
  match tags with
  | [] => mret ∅
  | (k, v) :: tags' =>
      s ← assert_string v;
      m ← convert_tags tags';
      mret (<[k := VArray [VString s]]> m)
  end.

(** [None] is the nil map. *)
Definition convertRHCTagsToInventoryTags {W} (rhcTags : value) : M W (option value) :=
  match rhcTags with
  | VObject tags =>
      if bool_decide (tags = ∅) then mret (Some (VObject ∅))
      else m ← convert_tags (map_to_list tags);
           mret (Some (VObject {[ inventoryTagNamespace := VObject m ]}))
  | _ => mret None
  end.

Definition envelope_doc (request_id : string) (identity : Identity) (hostData : gmap string value)
    : option jdoc :=
  data ← doc_of true (VObject hostData);
  Some (JObj [
    ("operation", jstring "add_host");
    ("platform_metadata", JObj [("request_id", jstring request_id);
                                ("b64_identity", jstring identity)]);
    ("data", data)]).

(** [hostData]; the system profile is a map shared with [hostData], to which the
    owner id is added afterwards. *)
Definition host_data (ibccr : InventoryBasedConnectedClientRecorder)
    (rhcClient : ConnectorClientState) (facts : gmap string value) (staleTimestamp : time)
    (certAuth : bool) (tags : option value) : gmap string value :=
  let systemProfile : gmap string value :=
    if certAuth
    then {[ "rhc_client_id" := VString (ccClientID rhcClient);
            "owner_id" := VString (ccClientID rhcClient) ]}
    else {[ "rhc_client_id" := VString (ccClientID rhcClient) ]} in
  let hostData :=
    <["system_profile" := VObject systemProfile]>
    (<["reporter" := VString (ReporterName ibccr)]>
    (<["stale_timestamp" := VString (FormatRFC3339 staleTimestamp)]>
    (<["org_id" := VString (ccOrgID rhcClient)]>
    (<["account" := VString (ccAccount rhcClient)]> (cleanupCanonicalFacts facts))))) in
  match tags with
  | Some t => <["tags" := t]> hostData
  | None => hostData
  end.

Section recorder.
Context {W : Type} `{!KafkaWriter W, !UUIDv1 W, !Clock W, !Metrics W}.

(** The producer made by [BuildInventoryMessageProducer]. *)
Definition InventoryMessageProducer (key msg : string) : M W (option error) :=
  err ← WriteMessages {| km_Headers := []; km_Key := key; km_Value := msg |};
  match err with
  | Some e =>
      (if errors_Is_e e ErrCanceled then mret tt else Inc inventoryKafkaWriterFailureCounter);;
      mret (Some e)
  | None => Inc inventoryKafkaWriterSuccessCounter;; mret None
  end.

Definition inventory_RecordConnectedClient (ibccr : InventoryBasedConnectedClientRecorder)
    (identity : Identity) (rhcClient : ConnectorClientState) : M W (option error) :=
  should ← shouldHostBeRegisteredWithInventory rhcClient identity;
  if negb should then mret None
  else
    now ← Now;
    let staleTimestamp := (now + StaleTimestampOffset ibccr)%Z in
    originalHostData ← assert_map (ccCanonicalFacts rhcClient);
    let '(certAuth, err) := AuthenticatedWithCertificate identity in
    match err with
    | Some _ => mret None
    | None =>
        tags ← convertRHCTagsToInventoryTags (ccTags rhcClient);
        requestID ← NewUUID;
        let hostData := host_data ibccr rhcClient originalHostData staleTimestamp certAuth tags in
        match envelope_doc requestID identity hostData with
        | None => mret (Some (ErrText "json: unsupported value"))
        | Some d => InventoryMessageProducer (ccOrgID rhcClient) (render d)
        end
    end.
End recorder.

Definition fake_RecordConnectedClient {W} (identity : Identity) (rhcClient : ConnectorClientState)
    : M W (option error) := mret None.

(** ** A scripted Kafka writer *)

Record KEnv := {
  written : list kafka_message;
  k_counted : list string;
  k_tick : nat;
  k_err : nat → option error;
  k_uuid : nat → string;
  k_now : nat → time;
}.

Definition k_write (m : kafka_message) (e : KEnv) : KEnv := {|
  written := written e ++ [m]; k_counted := k_counted e; k_tick := S (k_tick e);
  k_err := k_err e; k_uuid := k_uuid e; k_now := k_now e |}.
Definition k_step (e : KEnv) : KEnv := {|
  written := written e; k_counted := k_counted e; k_tick := S (k_tick e);
  k_err := k_err e; k_uuid := k_uuid e; k_now := k_now e |}.
Definition k_count (c : string) (e : KEnv) : KEnv := {|
  written := written e; k_counted := k_counted e ++ [c]; k_tick := k_tick e;
  k_err := k_err e; k_uuid := k_uuid e; k_now := k_now e |}.

#[export] Instance kenv_writer : KafkaWriter KEnv := {
  WriteMessages m e := (Ret (k_err e (k_tick e)), k_write m e) }.
#[export] Instance kenv_uuid : UUIDv1 KEnv := {
  NewUUID e := (Ret (k_uuid e (k_tick e)), k_step e) }.
#[export] Instance kenv_clock : Clock KEnv := { Now e := (Ret (k_now e (k_tick e)), k_step e) }.
#[export] Instance kenv_metrics : Metrics KEnv := { Inc c e := (Ret tt, k_count c e) }.

(** ** Lemmas *)

Lemma run_producer key msg (e : KEnv) :
  ∃ e', InventoryMessageProducer (W := KEnv) key msg e = (Ret (k_err e (k_tick e)), e') ∧
        written e' = written e ++ [{| km_Headers := []; km_Key := key; km_Value := msg |}].
Proof.
  unfold InventoryMessageProducer, mbind, M_bind. cbn.
  destruct (k_err e (k_tick e)) as [x|]; [destruct (errors_Is_e x ErrCanceled)|];
    cbn; by eexists.
Qed.

(** The decision, without its effects: it has none. *)
Definition reported (c : ConnectorClientState) (facts dispatchers : gmap string value)
    (identity : Identity) : bool :=
  isIdentityValid identity && bool_decide (facts ≠ ∅) &&
  (bool_decide (is_Some (dispatchers !! playbookWorkerDispatcherKey))
   || bool_decide (is_Some (dispatchers !! packageManagerDispatcherKey))
   || bool_decide (is_Some (dispatchers !! convert2RhelWorkerDispatcherKey))).

(** [v] is read as the map [m]: nil as the empty one. *)
Definition as_object (v : value) (m : gmap string value) : Prop := v = VObject m ∨ v = VNull ∧ m = ∅.

(** The host qualifies. *)
Definition qualifies (identity : Identity) (facts dispatchers : gmap string value) : Prop :=
  identity ≠ EmptyString ∧ facts ≠ ∅ ∧
  (is_Some (dispatchers !! "rhc-worker-playbook") ∨ is_Some (dispatchers !! "package-manager") ∨
   is_Some (dispatchers !! "rhc-worker-script")).

Lemma reported_qualifies c facts dispatchers identity :
  reported c facts dispatchers identity = true ↔ qualifies identity facts dispatchers.
Proof.
  unfold reported, qualifies, isIdentityValid. rewrite !andb_true_iff, !orb_true_iff, !bool_decide_eq_true.
  change playbookWorkerDispatcherKey with "rhc-worker-playbook".
  change packageManagerDispatcherKey with "package-manager".
  change convert2RhelWorkerDispatcherKey with "rhc-worker-script".
  assert (Hi : 0 < String.length identity ↔ identity ≠ EmptyString) by (destruct identity; cbn; split; (done || lia)).
  rewrite Hi. tauto.
Qed.

Lemma has_facts {W} c facts (w : W) :
  as_object (ccCanonicalFacts c) facts →
  doesHostHaveCanonicalFacts c w = (Ret (bool_decide (facts ≠ ∅)), w).
Proof.
  unfold doesHostHaveCanonicalFacts. intros [-> |[-> ->]]; [done|]. by rewrite bool_decide_eq_false_2 by tauto.
Qed.

Lemma has_dispatcher {W} c dispatchers name (w : W) :
  as_object (ccDispatchers c) dispatchers →
  doesHostHaveDispatcher c name w = (Ret (bool_decide (is_Some (dispatchers !! name))), w).
Proof.
  unfold doesHostHaveDispatcher. intros [-> |[-> ->]]; [done|].
  rewrite bool_decide_eq_false_2; [done|]. rewrite lookup_empty. by intros [? ?].
Qed.

Lemma should_register {W} c facts dispatchers identity (w : W) :
  as_object (ccCanonicalFacts c) facts → as_object (ccDispatchers c) dispatchers →
  shouldHostBeRegisteredWithInventory c identity w = (Ret (reported c facts dispatchers identity), w).
Proof.
  intros Hf Hd. unfold shouldHostBeRegisteredWithInventory, and_then, or_else, reported.
  rewrite bind_ret_l. destruct (isIdentityValid identity); cbn [andb]; [|done].
  rewrite (bind_ret _ _ _ _ _ (has_facts c facts w Hf)). case_bool_decide; cbn [andb]; [|done].
  rewrite (bind_ret _ _ _ _ _ (has_dispatcher c dispatchers playbookWorkerDispatcherKey w Hd)).
  case_bool_decide; cbn [orb]; [done|].
  rewrite (bind_ret _ _ _ _ _ (has_dispatcher c dispatchers packageManagerDispatcherKey w Hd)).
  case_bool_decide; cbn [orb]; [done|]. by apply has_dispatcher.
Qed.

(** Tags in the form the loop accepts: nil, or an object of strings. *)
Definition tags_ok (t : value) : bool :=
  match t with
  | VObject m => forallb (λ kv : string * value, bool_decide (is_Some (as_string kv.2)))
                   (map_to_list m)
  | _ => true
  end.

Definition inventory_tag (v : value) : value :=
  VArray [VString (default EmptyString (as_string v))].

(** The tags of the message. *)
Definition inventory_tags (t : value) : option value :=
  match t with
  | VObject m =>
      Some (VObject (if bool_decide (m = ∅) then ∅
                     else {[ inventoryTagNamespace := VObject (inventory_tag <$> m) ]}))
  | _ => None
  end.

Lemma convert_tags_run {W} (l : list (string * value)) (w : W) :
  forallb (λ kv : string * value, bool_decide (is_Some (as_string kv.2))) l = true →
  convert_tags l w = (Ret (list_to_map (prod_map id inventory_tag <$> l)), w).
Proof.
  induction l as [|[k v] l IH]; [done|]. cbn [forallb].
  intros [Hv%bool_decide_eq_true Hl]%andb_true_iff. destruct Hv as [s Hs]. cbn in Hs.
  cbn [convert_tags]. unfold assert_string. rewrite Hs, bind_ret_l.
  rewrite (bind_ret _ _ _ _ _ (IH Hl)). unfold mret, M_ret.
  cbn [fmap list_fmap prod_map list_to_map fst snd id]. unfold inventory_tag at 2.
  by rewrite Hs.
Qed.

Lemma convert_tags_ok {W} t (w : W) :
  tags_ok t = true → convertRHCTagsToInventoryTags t w = (Ret (inventory_tags t), w).
Proof.
  destruct t as [| | | | |m]; try done. intros Hm. unfold convertRHCTagsToInventoryTags, inventory_tags.
  case_bool_decide; [done|]. rewrite (bind_ret _ _ _ _ _ (convert_tags_run _ w Hm)).
  unfold mret, M_ret. rewrite <-map_to_list_fmap, list_to_map_to_list. done.
Qed.

Lemma inventory_tags_spec m :
  tags_ok (VObject m) = true →
  inventory_tags (VObject m)
  = Some (VObject (if bool_decide (m = ∅) then ∅
                   else {[ "rhc_client" := VObject ((λ v, VArray [v]) <$> m) ]})).
Proof.
  intros Ht. unfold inventory_tags, inventoryTagNamespace. do 2 f_equal. case_bool_decide; [done|].
  do 2 f_equal. apply map_fmap_ext. intros k v Hk. cbn [tags_ok] in Ht. rewrite forallb_forall in Ht.
  specialize (Ht (k, v)). rewrite <-list_elem_of_In, elem_of_map_to_list in Ht.
  apply bool_decide_eq_true in Ht; [|done]. destruct Ht as [s Hs]. by destruct v; simplify_eq/=.
Qed.

Lemma cleanup_ok facts :
  value_ok (VObject facts) = true → value_ok (VObject (cleanupCanonicalFacts facts)) = true.
Proof.
  rewrite !value_ok_object. intros H k v [Hk _]%map_lookup_filter_Some. eauto.
Qed.

Lemma cleanup_depth facts n :
  value_depth (VObject facts) ≤ S n → value_depth (VObject (cleanupCanonicalFacts facts)) ≤ S n.
Proof.
  intros Hn. apply value_depth_object. intros k v [Hk _]%map_lookup_filter_Some.
  apply value_depth_member in Hk. lia.
Qed.

Lemma tag_ok v : value_ok v = true → is_Some (as_string v) → value_ok (inventory_tag v) = true.
Proof. intros Hv [s Hs]. destruct v; simplify_eq/=. by rewrite Hv. Qed.

Lemma tags_value_ok t t' :
  tags_ok t = true → value_ok t = true → inventory_tags t = Some t' →
  value_ok t' = true ∧ value_depth t' ≤ 4.
Proof.
  destruct t as [| | | | |m]; try done. intros Ht Hv [= <-]. case_bool_decide; [split; [done|vm_compute; lia]|].
  cbn [tags_ok] in Ht. rewrite forallb_forall in Ht.
  assert (Hm : ∀ k v, m !! k = Some v →
    utf8_valid k = true ∧ value_ok v = true ∧ is_Some (as_string v)).
  { intros k v Hk. rewrite value_ok_object in Hv. destruct (Hv k v Hk). split_and!; [done..|].
    specialize (Ht (k, v)). rewrite <-list_elem_of_In, elem_of_map_to_list in Ht.
    by apply bool_decide_eq_true in Ht. }
  split.
  - apply value_ok_object. intros k v [<- <-]%lookup_singleton_Some. split; [done|].
    apply value_ok_object. intros k v Hk. rewrite lookup_fmap in Hk.
    destruct (m !! k) as [v0|] eqn:Hk0; [|done]. cbn in Hk. simplify_eq.
    destruct (Hm k v0 Hk0) as (?&?&?). split; [done|by apply tag_ok].
  - apply value_depth_object. intros k v [<- <-]%lookup_singleton_Some.
    apply value_depth_object. intros k v Hk. rewrite lookup_fmap in Hk.
    destruct (m !! k); [|done]. cbn in Hk. simplify_eq. cbn. lia.
Qed.

Section message.
Context (ibccr : InventoryBasedConnectedClientRecorder) (c : ConnectorClientState).

(** The strings that go into the message are valid UTF-8. *)
Definition texts_ok : bool :=
  utf8_valid (ccAccount c) && utf8_valid (ccOrgID c) && utf8_valid (ccClientID c)
  && utf8_valid (ReporterName ibccr).

Lemma host_data_ok facts t cert :
  texts_ok = true → value_ok (VObject facts) = true →
  (Z.of_nat (value_depth (VObject facts)) < 9000)%Z →
  tags_ok (ccTags c) = true → value_ok (ccTags c) = true →
  let d := VObject (host_data ibccr c facts t cert (inventory_tags (ccTags c))) in
  value_ok d = true ∧ (Z.of_nat (value_depth d) < 9900)%Z.
Proof.
  unfold texts_ok. rewrite !andb_true_iff. intros [[[Ha Ho] Hc] Hr] Hf Hdep Ht Htv. cbv zeta.
  assert (Hbase : ∀ cert, let b := VObject (host_data ibccr c facts t cert None) in
    value_ok b = true ∧ value_depth b ≤ S (value_depth (VObject facts) + 4)).
  { intros cert'. cbv zeta. unfold host_data. split.
    - repeat apply value_ok_insert; try done; try apply FormatRFC3339_valid;
        [destruct cert'; repeat apply value_ok_insert; done|by apply cleanup_ok].
    - repeat apply value_depth_insert; try (cbn; lia).
      + trans 1; [|lia]. destruct cert'; apply value_depth_object;
          intros k v Hk; rewrite ?lookup_insert_Some, ?lookup_singleton_Some in Hk;
          destruct_or?; destruct_and?; subst; cbn; lia.
      + apply cleanup_depth. lia. }
  destruct (Hbase cert) as [Hb1 Hb2].
  destruct (inventory_tags (ccTags c)) as [t'|] eqn:Htags; [|split; [done|lia]].
  destruct (tags_value_ok _ _ Ht Htv Htags) as [H1 H2].
  unfold host_data in *. split; [by apply value_ok_insert|].
  assert (Hd : value_depth (VObject (host_data ibccr c facts t cert (Some t')))
               ≤ S (value_depth (VObject facts) + 4)).
  { apply value_depth_insert; [lia|done]. }
  unfold host_data in Hd. lia.
Qed.
End message.

(** The envelope on the wire, seen by Inventory. *)
Lemma envelope_decodes id identity hostData :
  utf8_valid id = true → utf8_valid identity = true → value_ok (VObject hostData) = true →
  (Z.of_nat (value_depth (VObject hostData)) < 9900)%Z →
  ∃ d o meta, envelope_doc id identity hostData = Some d ∧
    UnmarshalInterface (render d) = (VObject o, false) ∧
    o !! "operation" = Some (VString "add_host") ∧
    o !! "platform_metadata" = Some (VObject meta) ∧ o !! "data" = Some (VObject hostData) ∧
    meta !! "request_id" = Some (VString id) ∧ meta !! "b64_identity" = Some (VString identity).
Proof.
  intros Hid Hi Hh Hdep. destruct (codes_all true _ Hh) as (d&Hd&Hok&Hof&Herr&Hle).
  unfold envelope_doc. rewrite Hd. cbn [mbind option_bind].
  eexists _, (object_map _),
    (object_map [("request_id", jstring id); ("b64_identity", jstring identity)]).
  split; [done|].
  assert (Hstr : ∀ s, utf8_valid s = true → interface_of (jstring s) = VString s).
  { intros s Hs. cbn. by rewrite unquote_quote. }
  unfold UnmarshalInterface. rewrite parse_render.
  - split.
    { cbn [interface_err existsb fst snd jstring]. rewrite Herr. apply interface_of_object. }
    split_and!; (etrans; [eapply object_map_lookup;
      [apply (bool_decide_unpack _); exact I|reflexivity|repeat first [left|right]]|];
      first [by rewrite Hstr | by rewrite Hof | apply member_object]).
  - cbn [doc_ok forallb fst snd]. unfold jstring. cbn [doc_ok]. rewrite !quote_raw_ok, Hok. done.
  - cbn. lia.
Qed.

(** ** Properties *)

(** The facts of the message that are the server's, whatever the client reports. *)
Definition reserved_facts : list string :=
  ["account"; "org_id"; "stale_timestamp"; "reporter"; "system_profile"; "tags"].

Lemma host_data_reserved ibccr c facts t cert tags key :
  key ∈ ["account"; "org_id"; "stale_timestamp"; "reporter"; "system_profile"] →
  host_data ibccr c facts t cert tags !! key = host_data ibccr c ∅ t cert None !! key.
Proof.
  intros Hk. unfold host_data.
  assert (key ≠ "tags").
  { intros ->. repeat (apply elem_of_cons in Hk as [Hk|Hk]; [discriminate|]).
    by apply elem_of_nil in Hk. }
  destruct tags; rewrite ?lookup_insert_ne by done;
    repeat (apply elem_of_cons in Hk as [->|Hk];
      [repeat (rewrite lookup_insert_ne by done); by rewrite !lookup_insert_eq|]);
    by apply elem_of_nil in Hk.
Qed.

(** Inventory takes it as a fact: it is a non-empty string or list. *)
Definition worth_sending (v : value) : Prop :=
  match v with VString s => s ≠ EmptyString | VArray l => l ≠ [] | _ => False end.

Lemma cleanup_lookup facts k v :
  cleanupCanonicalFacts facts !! k = Some v ↔ facts !! k = Some v ∧ worth_sending v.
Proof.
  unfold cleanupCanonicalFacts. rewrite map_lookup_filter_Some. cbn [snd].
  rewrite Is_true_true. destruct v; cbn; rewrite ?bool_decide_eq_true; naive_solver.
Qed.

Lemma host_data_facts ibccr c facts t cert tags k v :
  k ∉ reserved_facts →
  host_data ibccr c facts t cert tags !! k = Some v ↔ facts !! k = Some v ∧ worth_sending v.
Proof.
  unfold reserved_facts. rewrite !not_elem_of_cons. intros (?&?&?&?&?&?&_). unfold host_data.
  destruct tags; rewrite !lookup_insert_ne by done; apply cleanup_lookup.
Qed.

Lemma host_data_tags ibccr c facts t cert :
  tags_ok (ccTags c) = true →
  let data := host_data ibccr c facts t cert (inventory_tags (ccTags c)) in
  match ccTags c with
  | VObject m => data !! "tags" = Some (VObject (if bool_decide (m = ∅) then ∅
      else {[ "rhc_client" := VObject ((λ v, VArray [v]) <$> m) ]}))
  | _ => ∀ v, data !! "tags" = Some v ↔ facts !! "tags" = Some v ∧ worth_sending v
  end.
Proof.
  intros Ht. cbv zeta. destruct (ccTags c) as [| | | | |m] eqn:Hm;
    try (intros v; unfold host_data; cbn [inventory_tags]; rewrite !lookup_insert_ne by done; apply cleanup_lookup).
  rewrite inventory_tags_spec by done. unfold host_data. by rewrite lookup_insert_eq.
Qed.

(** C25: A connected host is reported exactly when it qualifies (an identity that
    can be decoded, canonical facts, one of the three dispatchers); otherwise
    nothing is written, and no error returned.  A host that qualifies is reported
    with exactly one Kafka message, keyed by its org.  The message is an [add_host]
    envelope carrying the identity; account, org, reporter, stale timestamp (now
    plus the offset) and the client id are the server's even where the client
    reports facts of those names, the owner id is present exactly with certificate
    authentication, the tags are the client's, each as a list of one in the
    namespace [rhc_client], and the other facts are the non-empty strings and lists
    the client reported (a fact named tags too, when the client has no tags). *)
Theorem inventory_message_correct ibccr identity c facts dispatchers cert err (e : KEnv) :
  as_object (ccCanonicalFacts c) facts → as_object (ccDispatchers c) dispatchers →
  AuthenticatedWithCertificate identity = (cert, err) →
  (¬ qualifies identity facts dispatchers ∨ is_Some err →
   ∃ e', inventory_RecordConnectedClient ibccr identity c e = (Ret None, e') ∧ written e' = written e) ∧
  (qualifies identity facts dispatchers → err = None →
   texts_ok ibccr c = true → utf8_valid identity = true →
   utf8_valid (k_uuid e (S (k_tick e))) = true →
   value_ok (VObject facts) = true → (Z.of_nat (value_depth (VObject facts)) < 9000)%Z →
   tags_ok (ccTags c) = true → value_ok (ccTags c) = true →
   ∃ payload o meta data profile e',
    inventory_RecordConnectedClient ibccr identity c e = (Ret (k_err e (S (S (k_tick e)))), e') ∧
    written e' = written e ++ [{| km_Headers := []; km_Key := ccOrgID c; km_Value := payload |}] ∧
    UnmarshalInterface payload = (VObject o, false) ∧
    o !! "operation" = Some (VString "add_host") ∧
    o !! "platform_metadata" = Some (VObject meta) ∧
    meta !! "b64_identity" = Some (VString identity) ∧
    o !! "data" = Some (VObject data) ∧
    data !! "account" = Some (VString (ccAccount c)) ∧
    data !! "org_id" = Some (VString (ccOrgID c)) ∧
    data !! "reporter" = Some (VString (ReporterName ibccr)) ∧
    data !! "stale_timestamp"
      = Some (VString (FormatRFC3339 (k_now e (k_tick e) + StaleTimestampOffset ibccr))) ∧
    data !! "system_profile" = Some (VObject profile) ∧
    profile !! "rhc_client_id" = Some (VString (ccClientID c)) ∧
    profile !! "owner_id" = (if cert then Some (VString (ccClientID c)) else None) ∧
    match ccTags c with
    | VObject m => data !! "tags" = Some (VObject (if bool_decide (m = ∅) then ∅
        else {[ "rhc_client" := VObject ((λ v, VArray [v]) <$> m) ]}))
    | _ => ∀ v, data !! "tags" = Some v ↔ facts !! "tags" = Some v ∧ worth_sending v
    end ∧
    (∀ k v, k ∉ reserved_facts → data !! k = Some v ↔ facts !! k = Some v ∧ worth_sending v)).
Proof.
  intros Hf Hd Hauth. pose proof (should_register c facts dispatchers identity e Hf Hd) as Hshould.
  split.
  - intros Hno. unfold inventory_RecordConnectedClient. rewrite (bind_ret _ _ _ _ _ Hshould).
    destruct (reported c facts dispatchers identity) eqn:Hrep; [|by exists e].
    apply reported_qualifies in Hrep. destruct Hno as [Hno|[x ->]]; [done|]. cbn [negb].
    rewrite (bind_ret _ _ e (k_now e (k_tick e)) (k_step e) eq_refl).
    destruct Hf as [-> |[_ ->]]; [|by destruct Hrep as (_&?&_)].
    unfold assert_map. cbn [as_map]. rewrite bind_ret_l, Hauth. by exists (k_step e).
  - intros Hq -> Htx Hid Huuid Hfv Hfd Ht Htv. apply (reported_qualifies c) in Hq as Hrep.
    assert (ccCanonicalFacts c = VObject facts) as Hfacts
      by (destruct Hf as [|[_ ->]]; [done|by destruct Hq as (_&?&_)]).
    set (t := (k_now e (k_tick e) + StaleTimestampOffset ibccr)%Z).
    destruct (host_data_ok ibccr c facts t cert Htx Hfv Hfd Ht Htv) as [Hho Hhd].
    set (hd := host_data ibccr c facts t cert (inventory_tags (ccTags c))) in *.
    destruct (envelope_decodes (k_uuid e (S (k_tick e))) identity hd Huuid Hid Hho Hhd)
      as (d&o&meta&Hdoc&Hu&Hop&Hmeta&Hdata&_&Hb64).
    destruct (run_producer (ccOrgID c) (render d) (k_step (k_step e))) as (e'&He'&Hw).
    eexists (render d), o, meta, hd, _, e'. split.
    { unfold inventory_RecordConnectedClient. rewrite (bind_ret _ _ _ _ _ Hshould), Hrep.
      cbn [negb]. rewrite (bind_ret _ _ e (k_now e (k_tick e)) (k_step e) eq_refl), Hfacts.
      unfold assert_map. cbn [as_map]. rewrite bind_ret_l, Hauth.
      rewrite (bind_ret _ _ _ _ _ (convert_tags_ok _ (k_step e) Ht)).
      rewrite (bind_ret _ _ (k_step e) (k_uuid e (S (k_tick e))) (k_step (k_step e)) eq_refl).
      fold t. fold hd. rewrite Hdoc. exact He'. }
    split_and!; [exact Hw|exact Hu|exact Hop|exact Hmeta|exact Hb64|exact Hdata|..].
    1-5: unfold hd; rewrite host_data_reserved by (repeat first [left|right]); reflexivity.
    + by destruct cert.
    + by destruct cert.
    + by apply host_data_tags.
    + intros k v Hk. by apply host_data_facts.
Qed.

Definition quoted (s : string) : string := String dquote (s +:+ str1 dquote).

(** {"identity":{"auth_type":"cert-auth"}} *)
Definition test_identity : Identity := EncodeToString
  ("{" +:+ quoted "identity" +:+ ":{" +:+ quoted "auth_type" +:+ ":" +:+ quoted "cert-auth" +:+ "}}").

Definition test_kenv : KEnv := {|
  written := []; k_counted := []; k_tick := 0; k_err := λ _, None;
  k_uuid := λ _, "6ba7b810-9dad-11d1-80b4-00c04fd430c8"; k_now := λ _, 1600000000000000000%Z |}.

Definition test_host : ConnectorClientState := {|
  ccAccount := "540155"; ccOrgID := "111000"; ccClientID := "client-a";
  ccCanonicalFacts := VObject {[ "org_id" := VString "999"; "fqdn" := VString "host.example" ]};
  ccDispatchers := VObject {[ "rhc-worker-playbook" := VObject ∅ ]};
  ccTags := VObject {[ "env" := VString "prod" ]};
  ccMessageMetadata := {| LatestMessageID := "m1"; LatestTimestamp := 0 |};
  ccTenantLookupTimestamp := zero_time; ccTenantLookupFailureCount := 0 |}.

Lemma inventory_message_correct_witness :
  ∃ payload o data e',
    inventory_RecordConnectedClient {| StaleTimestampOffset := 1000000000; ReporterName := "cloud-connector" |}
      test_identity test_host test_kenv = (Ret None, e') ∧
    written e' = [{| km_Headers := []; km_Key := "111000"; km_Value := payload |}] ∧
    UnmarshalInterface payload = (VObject o, false) ∧ o !! "data" = Some (VObject data) ∧
    data !! "org_id" = Some (VString "111000") ∧ data !! "fqdn" = Some (VString "host.example") ∧
    data !! "tags" = Some (VObject {[ "rhc_client" := VObject {[ "env" := VArray [VString "prod"] ]} ]}).
Proof.
  destruct (proj2 (inventory_message_correct
    {| StaleTimestampOffset := 1000000000; ReporterName := "cloud-connector" |} test_identity test_host
    {[ "org_id" := VString "999"; "fqdn" := VString "host.example" ]}
    {[ "rhc-worker-playbook" := VObject ∅ ]} true None test_kenv
    (or_introl eq_refl) (or_introl eq_refl) ltac:(vm_compute; reflexivity)))
    as (payload&o&meta&data&profile&e'&H1&H2&H3&_&_&_&H4&_&H5&_&_&_&_&_&H6&H7);
    [|reflexivity|vm_compute; reflexivity..|].
  { split; [vm_compute; discriminate|]. split; [apply (bool_decide_unpack _); vm_compute; exact I|].
    left. by eexists. }
  exists payload, o, data, e'. split_and!; [exact H1|exact H2|exact H3|exact H4|exact H5| |].
  - apply H7; [|split; [reflexivity|discriminate]].
    apply (bool_decide_unpack _). vm_compute. exact I.
  - etrans; [exact H6|]. vm_compute. reflexivity.
Defined.
