(* ===== verification/MqttIngress.v ===== *)
(** * From MQTT to Kafka ([internal/mqtt/message_handlers.go])

    The handlers registered with the MQTT client: control messages are written
    to Kafka, keyed by client id; data messages are only counted. *)

From S2P Require Import Prelude GoStrings GoNumTime Json Domain Topic Protocol Inventory.
From stdpp Require Import options.

Definition TopicKafkaHeaderKey : string := "topic".
Definition MessageIDKafkaHeaderKey : string := "mqtt_message_id".
Definition DateReceivedHeaderKey : string := "date_received".

(** [MQTT.Message] *)
Record mqtt_message := {
  mqtt_MessageID : Z;
  mqtt_Topic : string;
  mqtt_Payload : string;
  mqtt_Duplicate : bool;
}.

Definition controlMessageReceived : string := "cloud_connector_mqtt_control_message_received_count".
Definition dataMessageReceived : string := "cloud_connector_mqtt_data_message_received_count".

Section ingress.
Context {W : Type} `{!KafkaWriter W, !Clock W, !Metrics W}.

(** A failed write ends the process, so that the broker gets no acknowledgement;
    unless the context was cancelled. *)
Definition ControlMessageHandler (topicVerifier : TopicVerifier) (message : mqtt_message) : M W unit :=
  Inc controlMessageReceived;;
  let mqttMessageID := Itoa (mqtt_MessageID message) in
  let '(_, clientID, err) := VerifyIncomingTopic topicVerifier (mqtt_Topic message) in
  match err with
  | Some _ => mret tt
  | None =>
      if bool_decide (mqtt_Payload message = EmptyString) then mret tt
      else
        now ← Now;
        err ← WriteMessages {|
          km_Headers := [(TopicKafkaHeaderKey, mqtt_Topic message);
                         (MessageIDKafkaHeaderKey, mqttMessageID);
                         (DateReceivedHeaderKey, FormatRFC3339Nano now)];
          km_Key := clientID;
          km_Value := mqtt_Payload message |};
        match err with
        | None => mret tt
        | Some e => if errors_Is_e e ErrCanceled then mret tt
                    else exit_process "Failed writing to kafka"
        end
  end.

Definition DataMessageHandler (message : mqtt_message) : M W unit := Inc dataMessageReceived.

Definition DefaultMessageHandler (topicVerifier : TopicVerifier)
    (controlMessageHandler dataMessageHandler : mqtt_message → M W unit)
    (message : mqtt_message) : M W unit :=
  let '(topicType, _, err) := VerifyIncomingTopic topicVerifier (mqtt_Topic message) in
  match err with
  | Some _ => mret tt
  | None =>
      match topicType with
      | ControlTopicType => controlMessageHandler message
      | DataTopicType => dataMessageHandler message
      end
  end.
End ingress.
