(* ===== verification/KafkaConsumer.v ===== *)
(** * The Kafka consumer ([cmd/cloud-connector/kafka_message_consumer.go])

    [handleMessage] turns a Kafka message into a call of the control message
    handler; [consumeMqttMessagesFromKafka] is the loop that fetches, processes
    and commits.  The Kafka reader is the class [KafkaReader]. *)

From S2P Require Import Prelude GoStrings GoNumTime Json Domain Config Topic Protocol Inventory MqttIngress ControlHandler.
From stdpp Require Import options.

Fixpoint getHeaderValueAsString (headers : list (string * string)) (headerName : string) : string :=
  match headers with
  | [] => EmptyString
  | (key, val) :: headers' =>
      if bool_decide (key = headerName) then val else getHeaderValueAsString headers' headerName
  end.

Section handleMessage.
Context {W : Type} `{!ConnectionRegistrar W, !AccountIdResolver W, !ConnectedClientRecorder W, !SourcesRecorder W, !Metrics W, !UUIDParse}.

(** Only a histogram is fed with the latency. *)
Definition recordMessageProcessingLatency (messageReceivedTime : string) : M W unit := mret tt.

Definition handleMessage (topicVerifier : TopicVerifier) (msg : kafka_message)
    : M W (option error) :=
  match km_Headers msg with
  | [] => mret None
  | headers =>
      let topic := getHeaderValueAsString headers TopicKafkaHeaderKey in
      let dateReceived := getHeaderValueAsString headers DateReceivedHeaderKey in
      recordMessageProcessingLatency dateReceived;;
      if bool_decide (topic = EmptyString) then mret None
      else
        let payload := km_Value msg in
        let '(topicType, clientID, err) := VerifyIncomingTopic topicVerifier topic in
        match err with
        | Some _ => mret None
        | None =>
            if bool_decide (topicType ≠ ControlTopicType) then mret None
            else HandleControlMessage clientID payload
        end
  end.
End handleMessage.

(** ** The loop *)

Class KafkaReader (W : Type) := {
  FetchMessage : M W (kafka_message + error);
  CommitMessages : kafka_message → M W (option error);
  (** the backoff: true when the timer fired, false when the context was done *)
  Backoff : M W bool;
  (** the send on [fatalProcessingError] *)
  NotifyFatal : M W unit;
  CloseReader : M W (option error);
}.
#[global] Hint Mode KafkaReader + : typeclass_instances.

Definition maxConsecutiveFetchErrors : Z := 10.
Definition maxConsecutiveCommitErrors : Z := 10.
Definition kafkaMessageReceivedCounter : string := "cloud_connector_kafka_message_received_count".

(** How one turn of a loop ends: again, with the counter of consecutive errors,
    or out of the outer loop. *)
Inductive turn := Again (errors : Z) | Stop.

Section loop.
Context {W : Type} `{!KafkaReader W, !Metrics W}.
Context (process : kafka_message → M W (option error)).

(** The inner loop; [Again] means the message is committed.  [fuel] is the number
    of turns: there are at most [maxConsecutiveCommitErrors] of them. *)
Fixpoint commit_loop (fuel : nat) (m : kafka_message) (consecutiveCommitErrors : Z) : M W turn :=
  match fuel with
  | O => panic "out of fuel"
  | S fuel' =>
      err ← CommitMessages m;
      match err with
      | None => mret (Again 0)
      | Some e =>
          if errors_Is_e e ErrCanceled then mret Stop
          else
            let consecutiveCommitErrors := (consecutiveCommitErrors + 1)%Z in
            if (maxConsecutiveCommitErrors <=? consecutiveCommitErrors)%Z
            then NotifyFatal;; mret Stop
            else
              fired ← Backoff;
              if fired : bool then commit_loop fuel' m consecutiveCommitErrors else mret Stop
      end
  end.

(** One turn of the outer loop; the two counters of the next turn, or [None] to
    leave the loop. *)
Definition consume_turn (fetchErrors commitErrors : Z) : M W (option (Z * Z)) :=
  r ← FetchMessage;
  match r with
  | inr e =>
      if errors_Is_e e ErrCanceled then mret None
      else
        let fetchErrors := (fetchErrors + 1)%Z in
        if (maxConsecutiveFetchErrors <=? fetchErrors)%Z then NotifyFatal;; mret None
        else
          fired ← Backoff;
          if fired : bool then mret (Some (fetchErrors, commitErrors)) else mret None
  | inl m =>
      Inc kafkaMessageReceivedCounter;;
      err ← process m;
      match err with
      | Some _ => NotifyFatal;; mret None
      | None =>
          t ← commit_loop 10 m commitErrors;
          match t with
          | Again errors => mret (Some (0%Z, errors))
          | Stop => mret None
          end
      end
  end.

(** [fuel] turns of the outer loop, which is endless: the result says whether the
    loop was left. *)
Fixpoint consume_loop (fuel : nat) (fetchErrors commitErrors : Z) : M W bool :=
  match fuel with
  | O => mret false
  | S fuel' =>
      r ← consume_turn fetchErrors commitErrors;
      match r with
      | Some (fe, ce) => consume_loop fuel' fe ce
      | None => mret true
      end
  end.

Definition consumeMqttMessagesFromKafka (fuel : nat) : M W bool :=
  left_loop ← consume_loop fuel 0 0;
  if left_loop : bool then err ← CloseReader; mret true else mret false.
End loop.

(** ** A scripted reader, which logs what happens to it *)

Inductive event :=
| EFetched (m : kafka_message)
| EFetchError (e : error)
| EProcessed (m : kafka_message) (ok : bool)
| ECommitted (m : kafka_message)
| ECommitError (m : kafka_message) (e : error)
| EBackoff (fired : bool)
| EFatal
| EClosed.

Record REnv := {
  log : list event;
  r_tick : nat;
  r_fetch : nat → kafka_message + error;
  r_process : nat → outcome (option error);
  r_commit : nat → option error;
  r_backoff : nat → bool;
}.

Definition r_add (l : list event) (e : REnv) : REnv := {|
  log := log e ++ l; r_tick := S (r_tick e); r_fetch := r_fetch e; r_process := r_process e;
  r_commit := r_commit e; r_backoff := r_backoff e |}.

#[export] Instance renv_reader : KafkaReader REnv := {
  FetchMessage e :=
    let r := r_fetch e (r_tick e) in
    (Ret r, r_add [match r with inl m => EFetched m | inr x => EFetchError x end] e);
  CommitMessages m e :=
    let r := r_commit e (r_tick e) in
    (Ret r, r_add [match r with None => ECommitted m | Some x => ECommitError m x end] e);
  Backoff e :=
    let fired := r_backoff e (r_tick e) in (Ret fired, r_add [EBackoff fired] e);
  NotifyFatal e := (Ret tt, r_add [EFatal] e);
  CloseReader e := (Ret None, r_add [EClosed] e);
}.
#[export] Instance renv_metrics : Metrics REnv := { Inc _ e := (Ret tt, e) }.

Definition scripted_process (m : kafka_message) : M REnv (option error) := λ e,
  let r := r_process e (r_tick e) in
  (r, r_add [EProcessed m (match r with Ret None => true | _ => false end)] e).

Definition fetched (l : list event) : list kafka_message :=
  omap (λ x, match x with EFetched m => Some m | _ => None end) l.
Definition committed (l : list event) : list kafka_message :=
  omap (λ x, match x with ECommitted m => Some m | _ => None end) l.
Definition processed (l : list event) : list kafka_message :=
  omap (λ x, match x with EProcessed m true => Some m | _ => None end) l.
Definition fatal_count (l : list event) : nat :=
  length (omap (λ x, match x with EFatal => Some tt | _ => None end) l).

(** Consecutive errors, as the log shows them. *)
Definition fetch_failures (l : list event) : nat :=
  fold_left (λ n x, match x with EFetchError _ => S n | EFetched _ => 0 | _ => n end) l 0.
Definition commit_failures (l : list event) : nat :=
  fold_left (λ n x, match x with ECommitError _ _ => S n | EFetched _ => 0 | _ => n end) l 0.
(** How often a fetch was tried. *)
Definition attempts (l : list event) : nat :=
  length (omap (λ x, match x with EFetched _ | EFetchError _ => Some tt | _ => None end) l).

(** An event after which the loop goes on, given the events before it: no
    cancellation, no failed processing, and less than ten failures in a row. *)
Definition goes_on (l : list event) (x : event) : Prop :=
  match x with
  | EFetchError e => errors_Is_e e ErrCanceled = false ∧ S (fetch_failures l) < 10
  | ECommitError _ e => errors_Is_e e ErrCanceled = false ∧ S (commit_failures l) < 10
  | EProcessed _ ok => ok = true
  | EBackoff fired => fired = true
  | EFatal | EClosed => False
  | EFetched _ | ECommitted _ => True
  end.

(** The log of a loop that has not been left. *)
Inductive live : list event → Prop :=
| live_nil : live []
| live_snoc l x : live l → goes_on l x → live (l ++ [x]).

(** The last events of a loop that is left: a cancellation, or a failure of the
    handler or the tenth failure in a row, and the fatal signal. *)
Definition leaves (l tail : list event) : Prop :=
  match tail with
  | [EFetchError e] | [ECommitError _ e] => errors_Is_e e ErrCanceled = true
  | [EBackoff fired] => fired = false
  | [EFetchError e; EFatal] => errors_Is_e e ErrCanceled = false ∧ S (fetch_failures l) = 10
  | [ECommitError _ e; EFatal] => errors_Is_e e ErrCanceled = false ∧ S (commit_failures l) = 10
  | [EProcessed _ ok; EFatal] => ok = false
  | _ => False
  end.

Definition ending (l : list event) : Prop := ∃ l0 tail, l = l0 ++ tail ∧ live l0 ∧ leaves l0 tail.

(** The handler has ended the goroutine, or the process. *)
Definition broke_off (l : list event) : Prop := ∃ l0 m, l = l0 ++ [EProcessed m false] ∧ live l0.

(** ** Lemmas *)

(** Everything fetched has been processed and committed, in order. *)
Definition settled (l : list event) : Prop :=
  processed l = fetched l ∧ committed l = fetched l ∧ fatal_count l = 0.

(** At any moment: commits follow successful processing, in the order of
    fetching, and at most the last message fetched is not committed. *)
Definition orderly (l : list event) : Prop :=
  committed l `prefix_of` processed l ∧ processed l `prefix_of` fetched l ∧
  length (fetched l) ≤ S (length (committed l)) ∧ fatal_count l ≤ 1.

Lemma settled_orderly l : settled l → orderly l.
Proof. intros (Hp&Hc&Hf). unfold orderly. rewrite Hp, Hc, Hf. split_and!; [done..|lia|lia]. Qed.

Lemma fetched_app l1 l2 : fetched (l1 ++ l2) = fetched l1 ++ fetched l2.
Proof. apply omap_app. Qed.
Lemma committed_app l1 l2 : committed (l1 ++ l2) = committed l1 ++ committed l2.
Proof. apply omap_app. Qed.
Lemma processed_app l1 l2 : processed (l1 ++ l2) = processed l1 ++ processed l2.
Proof. apply omap_app. Qed.
Lemma fatal_count_app l1 l2 : fatal_count (l1 ++ l2) = fatal_count l1 + fatal_count l2.
Proof. unfold fatal_count. rewrite omap_app. apply length_app. Qed.

#[local] Hint Rewrite fetched_app committed_app processed_app fatal_count_app : log_db.

(** Events of the commit loop that are neither commits nor fetches. *)
Definition quiet (l : list event) : Prop :=
  processed l = [] ∧ fetched l = [] ∧ committed l = [].

Lemma settled_quiet l extra :
  settled l → quiet extra → fatal_count extra = 0 → settled (l ++ extra).
Proof.
  intros (Hp&Hc&Hf) (H1&H2&H3) H4. unfold settled. autorewrite with log_db.
  by rewrite Hp, Hc, Hf, H1, H2, H3, H4.
Qed.

Lemma quiet_orderly l extra :
  settled l → quiet extra → fatal_count extra ≤ 1 → orderly (l ++ extra).
Proof.
  intros (Hp&Hc&Hf) (H1&H2&H3) H4. unfold orderly. autorewrite with log_db.
  rewrite Hp, Hc, Hf, H1, H2, H3, !app_nil_r. split_and!; [done..|lia|lia].
Qed.

(** One message beyond a settled log, at its various stages. *)
Lemma stage_orderly l m ok extra :
  settled l → quiet extra → fatal_count extra ≤ 1 →
  orderly (l ++ [EFetched m; EProcessed m ok] ++ extra).
Proof.
  intros (Hp&Hc&Hf) (H1&H2&H3) H4. unfold orderly. autorewrite with log_db.
  rewrite Hp, Hc, Hf, H1, H2, H3. cbn -[committed processed]. rewrite !app_nil_r, length_app. cbn.
  destruct ok; cbn; rewrite ?app_nil_r; split_and!; try done; try by apply prefix_app_r.
  all: lia.
Qed.

Lemma settled_commit l m extra :
  settled l → quiet extra → fatal_count extra = 0 →
  settled (l ++ [EFetched m; EProcessed m true] ++ extra ++ [ECommitted m]).
Proof.
  intros (Hp&Hc&Hf) (H1&H2&H3) H4. unfold settled. autorewrite with log_db.
  by rewrite Hp, Hc, Hf, H1, H2, H3, H4.
Qed.

Lemma quiet_app l1 l2 : quiet l1 → quiet l2 → quiet (l1 ++ l2).
Proof.
  unfold quiet. intros (H1&H2&H3) (H4&H5&H6). autorewrite with log_db.
  by rewrite H1, H2, H3, H4, H5, H6.
Qed.

Lemma attempts_app l1 l2 : attempts (l1 ++ l2) = attempts l1 + attempts l2.
Proof. unfold attempts. rewrite omap_app. apply length_app. Qed.

(** The scripts do not change. *)
Definition same_scripts (e e' : REnv) : Prop :=
  r_fetch e' = r_fetch e ∧ r_process e' = r_process e ∧ r_commit e' = r_commit e ∧
  r_backoff e' = r_backoff e.

Definition logged (e e' : REnv) (l : list event) : Prop :=
  same_scripts e e' ∧ log e' = log e ++ l.

Lemma logged_nil e : logged e e [].
Proof. unfold logged. by rewrite app_nil_r. Qed.

Lemma logged_add e l : logged e (r_add l e) l.
Proof. done. Qed.

Lemma logged_trans e1 e2 e3 l1 l2 :
  logged e1 e2 l1 → logged e2 e3 l2 → logged e1 e3 (l1 ++ l2).
Proof.
  intros [(H1&H2&H3&H4) Hl] [(H5&H6&H7&H8) Hl']. unfold logged, same_scripts.
  rewrite H5, H6, H7, H8, Hl', Hl, <-app_assoc. done.
Qed.

Lemma fetch_failures_snoc l x :
  fetch_failures (l ++ [x])
  = match x with EFetchError _ => S (fetch_failures l) | EFetched _ => 0 | _ => fetch_failures l end.
Proof. unfold fetch_failures. by rewrite fold_left_app. Qed.

Lemma commit_failures_snoc l x :
  commit_failures (l ++ [x])
  = match x with ECommitError _ _ => S (commit_failures l) | EFetched _ => 0
    | _ => commit_failures l end.
Proof. unfold commit_failures. by rewrite fold_left_app. Qed.

Lemma fetch_failures_quiet l1 l2 :
  attempts l2 = 0 → fetch_failures (l1 ++ l2) = fetch_failures l1.
Proof.
  induction l2 as [|x l2 IH] using rev_ind; [by rewrite app_nil_r|].
  rewrite attempts_app, app_assoc, fetch_failures_snoc. intros H.
  destruct x; cbn in H; try lia; apply IH; lia.
Qed.

#[local] Ltac log_snoc :=
  repeat (rewrite fetch_failures_snoc || rewrite commit_failures_snoc).

(** The scripted steps. *)
Lemma CommitMessages_run m (e : REnv) :
  ∃ e', CommitMessages m e = (Ret (r_commit e (r_tick e)), e') ∧
    logged e e' [match r_commit e (r_tick e) with
                 | None => ECommitted m | Some x => ECommitError m x end].
Proof. by eexists. Qed.
Lemma Backoff_run (e : REnv) :
  ∃ fired e', Backoff e = (Ret fired, e') ∧ logged e e' [EBackoff fired].
Proof. by eexists _, _. Qed.
Lemma NotifyFatal_run (e : REnv) : ∃ e', NotifyFatal e = (Ret tt, e') ∧ logged e e' [EFatal].
Proof. by eexists. Qed.

Lemma logged_log e e' l : logged e e' l → log e' = log e ++ l.
Proof. by intros [_ ?]. Qed.

Lemma live_logged (e e' : REnv) x : logged e e' [x] → live (log e) → goes_on (log e) x → live (log e').
Proof. intros Hl. rewrite (logged_log _ _ _ Hl). apply live_snoc. Qed.

Lemma ending_intro (e e' : REnv) tail :
  logged e e' tail → live (log e) → leaves (log e) tail → ending (log e').
Proof. intros Hl. rewrite (logged_log _ _ _ Hl). by eexists _, _. Qed.

Lemma commit_loop_spec fuel m (e : REnv) :
  10 ≤ fuel + commit_failures (log e) → fuel ≠ 0 → commit_failures (log e) < 10 → live (log e) →
  ∃ extra o e', quiet extra ∧ attempts extra = 0 ∧
    commit_loop fuel m (Z.of_nat (commit_failures (log e))) e = (Ret o, e') ∧
    match o with
    | Again n => n = 0%Z ∧ fatal_count extra = 0 ∧ logged e e' (extra ++ [ECommitted m]) ∧ live (log e')
    | Stop => fatal_count extra ≤ 1 ∧ logged e e' extra ∧ ending (log e')
    end.
Proof.
  revert e. induction fuel as [|fuel IH]; intros e Hfuel Hne Hlt Hlive; [done|].
  cbn [commit_loop]. destruct (CommitMessages_run m e) as (e1&Hc&Hl1).
  rewrite (bind_ret _ _ _ _ _ Hc). destruct (r_commit e (r_tick e)) as [x|] eqn:Hx.
  2:{ exists [], (Again 0), e1. split_and!; try done. by eapply live_logged. }
  destruct (errors_Is_e x ErrCanceled) eqn:Hcan.
  { exists [ECommitError m x], Stop, e1. split_and!; try done; try (cbn; lia).
    by apply (ending_intro _ _ _ Hl1). }
  assert (Hcf : commit_failures (log e1) = S (commit_failures (log e))).
  { rewrite (logged_log _ _ _ Hl1). by log_snoc. }
  destruct (maxConsecutiveCommitErrors <=? _)%Z eqn:Hmax.
  { destruct (NotifyFatal_run e1) as (e2&Hn&Hl2). rewrite (bind_ret _ _ _ _ _ Hn).
    exists ([ECommitError m x] ++ [EFatal]), Stop, e2. split_and!; try done.
    - by eapply logged_trans.
    - apply (ending_intro _ _ _ (logged_trans _ _ _ _ _ Hl1 Hl2)); [done|]. split; [done|].
      apply Z.leb_le in Hmax. unfold maxConsecutiveCommitErrors in Hmax. lia. }
  apply Z.leb_gt in Hmax. unfold maxConsecutiveCommitErrors in Hmax.
  destruct (Backoff_run e1) as (fired&e2&Hb&Hl2). rewrite (bind_ret _ _ _ _ _ Hb).
  pose proof (logged_trans _ _ _ _ _ Hl1 Hl2) as Hl12.
  assert (Hlive1 : live (log e1)) by (apply (live_logged _ _ _ Hl1); [done|split; [done|lia]]).
  destruct fired.
  - assert (Hcf2 : commit_failures (log e2) = S (commit_failures (log e))).
    { rewrite (logged_log _ _ _ Hl2). log_snoc. done. }
    destruct (IH e2) as (extra&o&e'&Hq&Ha&Hrun&Ho); [lia..|by eapply live_logged|].
    replace (Z.of_nat (commit_failures (log e)) + 1)%Z with (Z.of_nat (commit_failures (log e2))) by lia.
    exists (([ECommitError m x] ++ [EBackoff true]) ++ extra), o, e'.
    split; [by apply quiet_app|]. split; [by rewrite attempts_app, Ha|]. split; [done|].
    destruct o; [destruct Ho as (?&?&Hl&?)|destruct Ho as (?&Hl&?)]; rewrite fatal_count_app.
    + split_and!; [done|done| |done]. rewrite <-app_assoc. by eapply logged_trans.
    + split_and!; [done| |done]. by eapply logged_trans.
  - exists ([ECommitError m x] ++ [EBackoff false]), Stop, e2. split_and!; try done; try (cbn; lia).
    by apply (ending_intro _ _ _ Hl2).
Qed.

Lemma FetchMessage_run (e : REnv) :
  ∃ r e', FetchMessage e = (Ret r, e') ∧
    logged e e' [match r with inl m => EFetched m | inr x => EFetchError x end].
Proof. by eexists _, _. Qed.

Lemma process_run m (e : REnv) :
  ∃ r e', scripted_process m e = (r, e') ∧ (∃ n, r_process e n = r) ∧
    logged e e' [EProcessed m (match r with Ret None => true | _ => false end)].
Proof. unfold scripted_process. eexists _, _. split; [done|]. split; [by eexists|done]. Qed.

Lemma attempts_logged (e e' : REnv) l :
  logged e e' l → attempts (log e') = attempts (log e) + attempts l.
Proof. intros Hl. by rewrite (logged_log _ _ _ Hl), attempts_app. Qed.

(** What one turn promises. *)
Definition turn_post (e : REnv) (o : outcome (option (Z * Z))) (e' : REnv) : Prop :=
  same_scripts e e' ∧ orderly (log e') ∧ attempts (log e') = S (attempts (log e)) ∧
  match o with
  | Ret (Some (fe, ce)) => settled (log e') ∧ live (log e') ∧ ce = 0%Z ∧
      fe = Z.of_nat (fetch_failures (log e')) ∧ fetch_failures (log e') < 10
  | Ret None => ending (log e')
  | Panic s => broke_off (log e') ∧ ∃ n, r_process e n = Panic s
  | Exit s => broke_off (log e') ∧ ∃ n, r_process e n = Exit s
  end.

(** A turn whose fetch failed. *)
Lemma fetch_error_turn x (e e1 : REnv) o e' :
  settled (log e) → live (log e) → fetch_failures (log e) < 10 →
  FetchMessage e = (Ret (inr x), e1) → logged e e1 [EFetchError x] →
  consume_turn scripted_process (Z.of_nat (fetch_failures (log e))) 0 e = (o, e') →
  turn_post e o e'.
Proof.
  intros Hs Hlive Hff Hf Hl1. unfold consume_turn. rewrite (bind_ret _ _ _ _ _ Hf).
  assert (Hff1 : fetch_failures (log e1) = S (fetch_failures (log e))).
  { rewrite (logged_log _ _ _ Hl1). by log_snoc. }
  assert (Hq : ∀ e2 l, logged e e2 (EFetchError x :: l) → quiet l → fatal_count l ≤ 1 →
             attempts l = 0 → same_scripts e e2 ∧ orderly (log e2) ∧
             attempts (log e2) = S (attempts (log e))).
  { intros e2 l Hl Hq Hc Ha. split_and!.
    - apply Hl.
    - rewrite (logged_log _ _ _ Hl). apply quiet_orderly; done.
    - rewrite (attempts_logged _ _ _ Hl). cbn. fold (attempts l). lia. }
  destruct (errors_Is_e x ErrCanceled) eqn:Hcan.
  { intros [= <- <-]. edestruct (Hq e1 []) as (?&?&?); [done|done|cbn; lia|done|].
    split_and!; [done..|]. by eapply ending_intro. }
  destruct (maxConsecutiveFetchErrors <=? _)%Z eqn:Hmax.
  { destruct (NotifyFatal_run e1) as (e2&Hn&Hl2). rewrite (bind_ret _ _ _ _ _ Hn).
    intros [= <- <-]. pose proof (logged_trans _ _ _ _ _ Hl1 Hl2) as Hl.
    edestruct (Hq e2 [EFatal]) as (?&?&?); [done|done|cbn; lia|done|].
    split_and!; [done..|]. apply (ending_intro _ _ _ Hl); [done|]. split; [done|].
    apply Z.leb_le in Hmax. unfold maxConsecutiveFetchErrors in Hmax. lia. }
  apply Z.leb_gt in Hmax. unfold maxConsecutiveFetchErrors in Hmax.
  destruct (Backoff_run e1) as (fired&e2&Hb&Hl2). rewrite (bind_ret _ _ _ _ _ Hb).
  pose proof (logged_trans _ _ _ _ _ Hl1 Hl2) as Hl.
  edestruct (Hq e2 [EBackoff fired]) as (?&?&?); [done|done|cbn; lia|done|].
  assert (Hff2 : fetch_failures (log e2) = S (fetch_failures (log e))).
  { rewrite (logged_log _ _ _ Hl2). by log_snoc. }
  assert (Hlive1 : live (log e1)) by (apply (live_logged _ _ _ Hl1); [done|split; [done|lia]]).
  destruct fired; intros [= <- <-]; split_and!; try done; try lia.
  - rewrite (logged_log _ _ _ Hl). by apply settled_quiet.
  - by eapply live_logged.
  - by apply (ending_intro _ _ _ Hl2).
Qed.

Lemma stage_done m (e e' : REnv) ok l :
  settled (log e) → logged e e' ([EFetched m; EProcessed m ok] ++ l) → quiet l →
  fatal_count l ≤ 1 → attempts l = 0 →
  same_scripts e e' ∧ orderly (log e') ∧ attempts (log e') = S (attempts (log e)).
Proof.
  intros Hs Hl Hq Hc Ha. split_and!.
  - apply Hl.
  - rewrite (logged_log _ _ _ Hl). by apply stage_orderly.
  - rewrite (attempts_logged _ _ _ Hl), attempts_app, Ha. cbn. lia.
Qed.

(** The commits of a message that was processed. *)
Lemma committing_turn m (e e2 : REnv) o e' :
  settled (log e) → live (log e) → logged e e2 ([EFetched m] ++ [EProcessed m true]) →
  (t ← commit_loop 10 m 0;
   match t with Again errors => mret (Some (0%Z, errors)) | Stop => mret None end : M REnv _) e2 = (o, e') →
  turn_post e o e'.
Proof.
  intros Hs Hlive Hl12. assert (Hcf : commit_failures (log e2) = 0).
  { rewrite (logged_log _ _ _ Hl12), app_assoc. by log_snoc. }
  assert (Hlive2 : live (log e2)).
  { rewrite (logged_log _ _ _ Hl12), app_assoc. by repeat apply live_snoc. }
  destruct (commit_loop_spec 10 m e2) as (extra&t&e3&Hqe&Ha&Hrun&Ht); [lia..|done|].
  rewrite Hcf in Hrun. rewrite (bind_ret _ _ _ _ _ Hrun). destruct t as [k|].
  - destruct Ht as (->&Hfc&Hl3&Hlive3). intros [= <- <-].
    pose proof (logged_trans _ _ _ _ _ Hl12 Hl3) as Hl.
    assert (Hset : settled (log e3)).
    { rewrite (logged_log _ _ _ Hl). by apply settled_commit. }
    assert (Hff : fetch_failures (log e3) = 0).
    { rewrite (logged_log _ _ _ Hl), !app_assoc, fetch_failures_snoc, fetch_failures_quiet by done.
      by log_snoc. }
    split_and!; try done; [apply Hl|by apply settled_orderly| |by rewrite Hff|lia].
    rewrite (attempts_logged _ _ _ Hl), !attempts_app, Ha. cbn. lia.
  - destruct Ht as (Hfc&Hl3&He). intros [= <- <-].
    by destruct (stage_done m e e3 true extra Hs (logged_trans _ _ _ _ _ Hl12 Hl3)) as (?&?&?).
Qed.

(** A turn that fetched a message. *)
Lemma fetched_turn m (e e1 : REnv) o e' :
  settled (log e) → live (log e) →
  FetchMessage e = (Ret (inl m), e1) → logged e e1 [EFetched m] →
  consume_turn scripted_process (Z.of_nat (fetch_failures (log e))) 0 e = (o, e') →
  turn_post e o e'.
Proof.
  intros Hs Hlive Hf Hl1. unfold consume_turn. rewrite (bind_ret _ _ _ _ _ Hf).
  assert (Hlive1 : live (log e1)) by by eapply live_logged.
  rewrite (bind_ret _ _ e1 tt e1) by done.
  destruct (process_run m e1) as (r&e2&Hp&[n Hr]&Hl2).
  pose proof (logged_trans _ _ _ _ _ Hl1 Hl2) as Hl12.
  assert (Hbroken : ∀ s, r = Panic s ∨ r = Exit s → same_scripts e e2 ∧ orderly (log e2) ∧
             attempts (log e2) = S (attempts (log e)) ∧ broke_off (log e2) ∧ ∃ n, r_process e n = r).
  { intros s Hrs. destruct (stage_done m e e2 false [] Hs) as (?&?&?);
      [destruct Hrs as [Hrs|Hrs]; rewrite Hrs in Hl12; exact Hl12|done|cbn; lia|done|].
    split_and!; [done..| |].
    - exists (log e1), m. split; [|done].
      rewrite (logged_log _ _ _ Hl2). by destruct Hrs as [-> | ->].
    - destruct Hl1 as [(_&<-&_) _]. by exists n. }
  destruct r as [[err|]|s|s].
  - rewrite (bind_ret _ _ _ _ _ Hp). destruct (NotifyFatal_run e2) as (e3&Hn&Hl3).
    rewrite (bind_ret _ _ _ _ _ Hn). intros [= <- <-].
    destruct (stage_done m e e3 false [EFatal] Hs (logged_trans _ _ _ _ _ Hl12 Hl3)) as (?&?&?);
      [done|cbn; lia|done|].
    split_and!; [done..|].
    by apply (ending_intro _ _ _ (logged_trans _ _ _ _ _ Hl2 Hl3)).
  - rewrite (bind_ret _ _ _ _ _ Hp). by apply committing_turn.
  - rewrite (bind_panic _ _ _ _ _ Hp). intros [= <- <-]. apply (Hbroken s). by left.
  - unfold mbind at 1, M_bind. rewrite Hp. intros [= <- <-]. apply (Hbroken s). by right.
Qed.

Lemma consume_turn_spec (e : REnv) o e' :
  settled (log e) → live (log e) → fetch_failures (log e) < 10 →
  consume_turn scripted_process (Z.of_nat (fetch_failures (log e))) 0 e = (o, e') →
  turn_post e o e'.
Proof.
  intros Hs Hlive Hff. destruct (FetchMessage_run e) as ([m|x]&e1&Hf&Hl1).
  - by eapply fetched_turn.
  - by eapply fetch_error_turn.
Qed.

(** What the loop promises after some turns. *)
Definition loop_post (e : REnv) (n : nat) (o : outcome bool) (e' : REnv) : Prop :=
  same_scripts e e' ∧ orderly (log e') ∧
  match o with
  | Ret false => settled (log e') ∧ live (log e') ∧ attempts (log e') = attempts (log e) + n
  | Ret true => ending (log e')
  | Panic s => broke_off (log e') ∧ ∃ k, r_process e k = Panic s
  | Exit s => broke_off (log e') ∧ ∃ k, r_process e k = Exit s
  end.

Lemma consume_loop_spec n (e : REnv) o e' :
  settled (log e) → live (log e) → fetch_failures (log e) < 10 →
  consume_loop scripted_process n (Z.of_nat (fetch_failures (log e))) 0 e = (o, e') →
  loop_post e n o e'.
Proof.
  revert e. induction n as [|n IH]; intros e Hs Hlive Hff; cbn [consume_loop].
  { intros [= <- <-]. unfold loop_post. split_and!; try done; try lia. by apply settled_orderly. }
  destruct (consume_turn scripted_process (Z.of_nat (fetch_failures (log e))) 0 e)
    as [ot e1] eqn:Ht.
  destruct (consume_turn_spec e ot e1 Hs Hlive Hff Ht) as (Hsc&Hor&Ha&Ho).
  destruct ot as [[[fe ce]|]|s|s].
  - rewrite (bind_ret _ _ _ _ _ Ht). destruct Ho as (Hs1&Hlive1&->&->&Hff1). intros Hrun.
    destruct (IH e1 Hs1 Hlive1 Hff1 Hrun) as (Hsc'&Hor'&Ho'). destruct Hsc as (H1&H2&H3&H4).
    unfold loop_post, same_scripts in *. rewrite H1, H2, H3, H4, Ha in *.
    split_and!; [apply Hsc'..|done|]. destruct o as [[]|?|?]; try done.
    destruct Ho' as (?&?&->). split_and!; [done..|lia].
  - rewrite (bind_ret _ _ _ _ _ Ht). intros [= <- <-]. done.
  - rewrite (bind_panic _ _ _ _ _ Ht). intros [= <- <-]. done.
  - unfold mbind, M_bind. rewrite Ht. intros [= <- <-]. done.
Qed.

Lemma orderly_closed l : orderly l → orderly (l ++ [EClosed]).
Proof. unfold orderly. autorewrite with log_db. cbn -[fetched]. by rewrite !app_nil_r, Nat.add_0_r. Qed.

(** ** Properties *)

(** C11: Whatever the reader and the handler answer, the consumer commits only
    messages it has processed without an error, in the order it fetched them,
    with at most one message not committed and at most one fatal signal.  It goes
    on as long as nothing is cancelled, the handler does not fail and less than
    ten fetches, or commits of a message, have failed in a row, with all earlier
    messages settled and one fetch a turn; and it is left, with the reader closed,
    at the first event that is otherwise: a cancellation, which is not signalled,
    or a failed message or the tenth failure in a row, which is.  A panic or an
    exit is the handler's. *)
Theorem consumer_commits_processed n (e : REnv) :
  log e = [] →
  ∃ o e', consumeMqttMessagesFromKafka scripted_process n e = (o, e') ∧
    orderly (log e') ∧
    match o with
    | Ret true => ∃ l, log e' = l ++ [EClosed] ∧ ending l
    | Ret false => settled (log e') ∧ live (log e') ∧ attempts (log e') = n
    | Panic s => broke_off (log e') ∧ ∃ k, r_process e k = Panic s
    | Exit s => broke_off (log e') ∧ ∃ k, r_process e k = Exit s
    end.
Proof.
  intros He. unfold consumeMqttMessagesFromKafka.
  destruct (consume_loop scripted_process n 0 0 e) as [o e1] eqn:Hrun.
  destruct (consume_loop_spec n e o e1) as (_&Hor&Ho);
    [by rewrite He|rewrite He; constructor|rewrite He; cbn; lia|by rewrite He|].
  destruct o as [[]|s|s].
  - rewrite (bind_ret _ _ _ _ _ Hrun). eexists _, _. split; [done|]. cbn.
    split; [by apply orderly_closed|by eexists].
  - rewrite (bind_ret _ _ _ _ _ Hrun). rewrite He in Ho. by eexists _, _.
  - rewrite (bind_panic _ _ _ _ _ Hrun). by eexists _, _.
  - unfold mbind, M_bind. rewrite Hrun. by eexists _, _.
Qed.

Definition test_message (i : nat) : kafka_message := {|
  km_Headers := [(TopicKafkaHeaderKey, "redhat/insights/client-a/control/out")];
  km_Key := "client-a"; km_Value := pretty i |}.

(** Two messages; a failing commit between them; then the broker goes away. *)
Definition test_renv : REnv := {|
  log := []; r_tick := 0;
  r_fetch := λ n, if decide (n < 6) then inl (test_message n) else inr (ErrText "broker");
  r_process := λ n, Ret None;
  r_commit := λ n, if decide (n = 2) then Some (ErrText "commit") else None;
  r_backoff := λ n, true |}.

Lemma consumer_commits_processed_witness :
  ∃ e', consumeMqttMessagesFromKafka scripted_process 13 test_renv = (Ret true, e') ∧
    km_Value <$> committed (log e') = ["0"; "5"] ∧ fatal_count (log e') = 1 ∧
    orderly (log e').
Proof.
  destruct (consumer_commits_processed 13 test_renv eq_refl) as (o&e'&Hrun&Hor&_).
  exists e'. assert (Ho : (o, e') = consumeMqttMessagesFromKafka scripted_process 13 test_renv)
    by (symmetry; exact Hrun).
  clear Hrun. revert Ho Hor. vm_compute (consumeMqttMessagesFromKafka _ _ _).
  intros [= -> ->] Hor. split_and!; [reflexivity|reflexivity|reflexivity|exact Hor].
Defined.

(** ** From the broker to the handler *)

(** The Kafka message the ingress writes for an MQTT message. *)
Definition ingress_message (clientID : string) (message : mqtt_message) (now : time) : kafka_message := {|
  km_Headers := [(TopicKafkaHeaderKey, mqtt_Topic message);
                 (MessageIDKafkaHeaderKey, Itoa (mqtt_MessageID message));
                 (DateReceivedHeaderKey, FormatRFC3339Nano now)];
  km_Key := clientID; km_Value := mqtt_Payload message |}.

Section pipeline.
Context {W : Type} `{!ConnectionRegistrar W, !AccountIdResolver W, !ConnectedClientRecorder W, !SourcesRecorder W, !Metrics W, !UUIDParse}.

(** The consumer's view of a record that the ingress handler wrote. *)
Lemma handle_ingress tv (message : mqtt_message) ty cid (w : W) now :
  VerifyIncomingTopic tv (mqtt_Topic message) = (ty, cid, None) →
  handleMessage tv (ingress_message cid message now) w
  = match ty with
    | ControlTopicType => HandleControlMessage cid (mqtt_Payload message) w
    | DataTopicType => (Ret None, w)
    end.
Proof.
  intros Hv. assert (Ht : mqtt_Topic message ≠ EmptyString) by (intros Ht; by rewrite Ht in Hv).
  unfold handleMessage. cbn [ingress_message km_Headers].
  replace (getHeaderValueAsString _ TopicKafkaHeaderKey) with (mqtt_Topic message) by done.
  rewrite (bind_ret _ _ w tt w) by done. rewrite bool_decide_false by done.
  rewrite Hv. by destruct ty.
Qed.

(** A control message that client [cid] publishes crosses Kafka unchanged:
    the ingress handler writes exactly one record, keyed by the client id, and
    ends the process when that write fails (unless cancelled); the consumer
    handles that record exactly as a control message with this payload from
    this client, and it drops the record of any other topic type. *)
Theorem control_message_pipeline tv (message : mqtt_message) ty cid :
  VerifyIncomingTopic tv (mqtt_Topic message) = (ty, cid, None) →
  mqtt_Payload message ≠ EmptyString →
  (∀ e : KEnv, ∃ e' now,
    written e' = written e ++ [ingress_message cid message now] ∧
    ControlMessageHandler (W := KEnv) tv message e
    = (match k_err e (S (k_tick e)) with
       | Some x => if errors_Is_e x ErrCanceled then Ret tt else Exit "Failed writing to kafka"
       | None => Ret tt
       end, e')) ∧
  (∀ (w : W) now,
    handleMessage tv (ingress_message cid message now) w
    = match ty with
      | ControlTopicType => HandleControlMessage cid (mqtt_Payload message) w
      | DataTopicType => (Ret None, w)
      end).
Proof.
  intros Hv Hp.
  split.
  - intros e. unfold ControlMessageHandler. rewrite Hv.
    rewrite bool_decide_false by done.
    set (e1 := k_step (k_count controlMessageReceived e)).
    rewrite (bind_ret _ _ e tt (k_count controlMessageReceived e)) by done.
    rewrite (bind_ret _ _ _ (k_now e (k_tick e)) e1) by done.
    set (m := ingress_message cid message (k_now e (k_tick e))).
    rewrite (bind_ret _ _ _ (k_err e (S (k_tick e))) (k_write m e1)) by done.
    exists (k_write m e1), (k_now e (k_tick e)). split; [done|].
    by destruct (k_err e (S (k_tick e))) as [x|]; [destruct (errors_Is_e x ErrCanceled)|].
  - intros w now. by apply handle_ingress.
Qed.
End pipeline.
