(* ===== verification/GoUrl.v ===== *)
(** * Query strings: what the program uses of Go's [net/url]

    [QueryEscape], [QueryUnescape] and [ParseQuery] (whose errors the program
    never looks at: a pair that does not parse is dropped). *)

From S2P Require Import Prelude GoStrings Json JsonFacts.
From stdpp Require Import options.

(** Bytes that [QueryEscape] leaves alone. *)
Definition unreserved (a : ascii) : bool :=
  byte_in 97 122 a || byte_in 65 90 a || byte_in 48 57 a
  || char_eqb a "-" || char_eqb a "_" || char_eqb a "." || char_eqb a "~".

Definition upper_hex (n : Z) : ascii :=
  byte_of (if (n <? 10)%Z then 48 + n else 55 + n).

Definition percent (a : ascii) (k : string) : string :=
  String "%" (String (upper_hex (byte_val a / 16)) (String (upper_hex (byte_val a mod 16)) k)).

Fixpoint QueryEscape (s : string) : string :=
  match s with
  | EmptyString => EmptyString
  | String a s' =>
      if char_eqb a " " then String "+" (QueryEscape s')
      else if unreserved a then String a (QueryEscape s')
      else percent a (QueryEscape s')
  end.

(** [None]: [EscapeError] *)
Fixpoint QueryUnescape (s : string) : option string :=
  match s with
  | EmptyString => Some EmptyString
  | String a s' =>
      if char_eqb a "%" then
        match s' with
        | String h (String l s'') =>
            x ← hex_val h; y ← hex_val l; r ← QueryUnescape s'';
            Some (String (byte_of (x * 16 + y)) r)
        | _ => None
        end
      else if char_eqb a "+" then String " " <$> QueryUnescape s'
      else String a <$> QueryUnescape s'
  end.

(** [strings.Cut] at a byte: what is before the first occurrence, what is after it. *)
Fixpoint Cut (s : string) (sep : ascii) : string * string :=
  match s with
  | EmptyString => (EmptyString, EmptyString)
  | String a s' =>
      if char_eqb a sep then (EmptyString, s')
      else let '(before, after) := Cut s' sep in (String a before, after)
  end.

Definition parse_pair (p : string) : option (string * string) :=
  if string_mem ";" p || bool_decide (p = EmptyString) then None
  else let '(k, v) := Cut p "=" in
       key ← QueryUnescape k; value ← QueryUnescape v; Some (key, value).

(** The pairs in order; [url.Values] groups them by key. *)
Definition ParseQuery (q : string) : list (string * string) := omap parse_pair (Split q "&").

(** [values[key]]: all values of a key. *)
Definition query_values (q : list (string * string)) (key : string) : list string :=
  snd <$> filter (λ kv : string * string, kv.1 = key) q.
(** [values.Get(key)] *)
Definition query_get (q : list (string * string)) (key : string) : string :=
  default EmptyString (head (query_values q key)).

(** ** Facts *)

Lemma hex_roundtrip (a : ascii) :
  hex_val (upper_hex (byte_val a / 16)) = Some (byte_val a / 16)%Z ∧
  hex_val (upper_hex (byte_val a mod 16)) = Some (byte_val a mod 16)%Z ∧
  byte_of (byte_val a / 16 * 16 + byte_val a mod 16) = a.
Proof. destruct a as [[] [] [] [] [] [] [] []]; vm_compute; done. Qed.

(** Nothing in an escaped text separates or comments. *)
Lemma QueryEscape_clean c s :
  unreserved c = false → c ≠ "%"%char → c ≠ "+"%char →
  string_mem c (QueryEscape s) = false.
Proof.
  intros Hc H1 H2. induction s as [|a s IH]; [done|]. cbn.
  destruct (char_eqb a " "); cbn.
  { rewrite IH. unfold char_eqb. by rewrite bool_decide_eq_false_2 by congruence. }
  destruct (unreserved a) eqn:Ha; cbn.
  { rewrite IH. unfold char_eqb. by rewrite bool_decide_eq_false_2 by congruence. }
  rewrite IH. unfold char_eqb. rewrite bool_decide_eq_false_2 by congruence.
  assert (Hhex : ∀ n, (0 ≤ n < 16)%Z → unreserved (upper_hex n) = true).
  { intros n Hn.
    assert (n = 0 ∨ n = 1 ∨ n = 2 ∨ n = 3 ∨ n = 4 ∨ n = 5 ∨ n = 6 ∨ n = 7 ∨ n = 8 ∨ n = 9 ∨
            n = 10 ∨ n = 11 ∨ n = 12 ∨ n = 13 ∨ n = 14 ∨ n = 15)%Z as Hcases by lia.
    destruct_or! Hcases; subst; reflexivity. }
  assert (Hb : (0 ≤ byte_val a < 256)%Z).
  { destruct a as [[] [] [] [] [] [] [] []]; vm_compute; done. }
  rewrite !bool_decide_eq_false_2; [done|..]; intros E; rewrite <-E in Hc;
    (rewrite Hhex in Hc; [done|]);
    [apply Z.mod_pos_bound; lia|split; [apply Z.div_pos; lia|apply Z.div_lt_upper_bound; lia]].
Qed.

Lemma unescape_escape s : QueryUnescape (QueryEscape s) = Some s.
Proof.
  induction s as [|a s IH]; [done|]. cbn [QueryEscape].
  destruct (char_eqb a " ") eqn:Hsp.
  { apply char_eqb_eq in Hsp as ->. cbn. by rewrite IH. }
  destruct (unreserved a) eqn:Ha.
  - cbn [QueryUnescape].
    replace (char_eqb a "%") with false by (destruct a as [[] [] [] [] [] [] [] []]; done).
    replace (char_eqb a "+") with false by (destruct a as [[] [] [] [] [] [] [] []]; done).
    by rewrite IH.
  - unfold percent. cbn [QueryUnescape]. rewrite char_eqb_refl.
    destruct (hex_roundtrip a) as (->&->&Hb). cbn. by rewrite IH; cbn; rewrite Hb.
Qed.

Lemma Cut_app k v : string_mem "=" k = false → Cut (k +:+ String "=" v) "=" = (k, v).
Proof.
  induction k as [|a k IH]; [done|]. cbn. intros [H1 H2]%orb_false_iff.
  rewrite string_app_cons. cbn. rewrite H1. by rewrite IH.
Qed.

(** A query of one escaped pair reads back. *)
Lemma ParseQuery_pair k v :
  k ≠ EmptyString → string_forallb unreserved k = true →
  ParseQuery (k +:+ "=" +:+ QueryEscape v) = [(k, v)].
Proof.
  intros Hk Hu.
  assert (Hclean : ∀ c, unreserved c = false → string_mem c k = false).
  { intros c Hc. clear Hk. induction k as [|a k IH]; [done|]. cbn in *.
    apply andb_true_iff in Hu as [Ha Hu]. rewrite IH by done.
    unfold char_eqb. by rewrite bool_decide_eq_false_2 by congruence. }
  assert (Hid : QueryUnescape k = Some k).
  { clear Hk Hclean. induction k as [|a k IH]; [done|]. cbn in *.
    apply andb_true_iff in Hu as [Ha Hu].
    replace (char_eqb a "%") with false by (destruct a as [[] [] [] [] [] [] [] []]; done).
    replace (char_eqb a "+") with false by (destruct a as [[] [] [] [] [] [] [] []]; done).
    by rewrite IH. }
  unfold ParseQuery. rewrite string_app_cons, string_app_nil_l, Split_no_sep.
  - cbn [omap list_omap]. unfold parse_pair. rewrite string_mem_app, Hclean by done.
    cbn [string_mem orb]. rewrite QueryEscape_clean by done. cbn [char_eqb orb].
    rewrite bool_decide_eq_false_2 by (by destruct k).
    rewrite Cut_app by (by apply Hclean). rewrite Hid, unescape_escape. done.
  - rewrite string_mem_app, Hclean by done. cbn [string_mem orb].
    by rewrite QueryEscape_clean.
Qed.

(** ** [url.Values] and [url.URL] *)

(** [values.Set(k, v)] *)
Definition values_Set (q : list (string * string)) (k v : string) : list (string * string) :=
  filter (λ kv : string * string, kv.1 ≠ k) q ++ [(k, v)].

(** The pairs grouped by key, keys in order. *)
Definition sort_by_key (q : list (string * string)) : list (string * string) :=
  concat ((λ k, filter (λ kv : string * string, kv.1 = k) q)
            <$> merge_sort String.le (remove_dups q.*1)).

Definition encode_pair (kv : string * string) : string :=
  QueryEscape kv.1 +:+ String "=" (QueryEscape kv.2).

(** [values.Encode()] *)
Definition Encode (q : list (string * string)) : string :=
  Join (encode_pair <$> sort_by_key q) "&".

(** A URL without scheme and host, as a request has it after routing; [Path] and
    [Fragment] are kept in their escaped form. *)
Record URL := { u_Path : string; u_RawQuery : string; u_Fragment : string }.

Definition url_String (u : URL) : string :=
  u_Path u +:+ (if bool_decide (u_RawQuery u = EmptyString) then EmptyString
                else String "?" (u_RawQuery u))
           +:+ (if bool_decide (u_Fragment u = EmptyString) then EmptyString
                else String "#" (u_Fragment u)).

Definition url_Parse (s : string) : URL :=
  let '(rest, fragment) := Cut s "#" in
  let '(path, query) := Cut rest "?" in
  {| u_Path := path; u_RawQuery := query; u_Fragment := fragment |}.

(** [u.Query()] *)
Definition url_Query (u : URL) : list (string * string) := ParseQuery (u_RawQuery u).

(** ** Facts *)

Lemma parse_encode_pair kv : parse_pair (encode_pair kv) = Some kv.
Proof.
  destruct kv as [k v]. unfold parse_pair, encode_pair. cbn [fst snd].
  rewrite string_mem_app. cbn [string_mem]. rewrite !QueryEscape_clean by done.
  rewrite bool_decide_eq_false_2 by (by destruct (QueryEscape k)).
  change (char_eqb ";" "=") with false. cbn [orb].
  rewrite Cut_app by (by apply QueryEscape_clean). by rewrite !unescape_escape.
Qed.

Lemma parse_encode_pairs (q : list (string * string)) : omap parse_pair (encode_pair <$> q) = q.
Proof.
  induction q as [|kv q IH]; [done|]. cbn [fmap list_fmap omap list_omap].
  by rewrite parse_encode_pair, IH.
Qed.

Lemma ParseQuery_Encode q : ParseQuery (Encode q) = sort_by_key q.
Proof.
  unfold Encode, ParseQuery. destruct (sort_by_key q) as [|kv s] eqn:Hs; [done|].
  change "&" with (str1 "&"). rewrite Split_Join; [apply parse_encode_pairs|done|].
  apply Forall_fmap, Forall_true. intros [k v]. unfold encode_pair. cbn.
  rewrite string_mem_app. cbn. by rewrite !QueryEscape_clean.
Qed.

Lemma filter_groups (q : list (string * string)) k ks :
  NoDup ks →
  filter (λ kv : string * string, kv.1 = k)
    (concat ((λ k', filter (λ kv : string * string, kv.1 = k') q) <$> ks))
  = if decide (k ∈ ks) then filter (λ kv : string * string, kv.1 = k) q else [].
Proof.
  induction 1 as [|k' ks Hk' _ IH]; [done|]. cbn [fmap list_fmap concat].
  rewrite filter_app, IH, list_filter_filter.
  destruct (decide (k = k')) as [<-|Hne].
  - rewrite decide_False, app_nil_r, decide_True by (done || left).
    apply list_filter_iff. naive_solver.
  - rewrite filter_none.
    + apply decide_ext. rewrite elem_of_cons. naive_solver.
    + apply Forall_true. intros x [? ?]. congruence.
Qed.

(** Encoding keeps the values of every key, in order. *)
Lemma values_of_encoded q k : query_values (ParseQuery (Encode q)) k = query_values q k.
Proof.
  rewrite ParseQuery_Encode. unfold query_values, sort_by_key. rewrite filter_groups.
  - case_decide as Hk; [done|].
    rewrite filter_none; [done|]. apply Forall_forall. intros x Hx Hxk. apply Hk.
    rewrite merge_sort_Permutation, elem_of_remove_dups, <-Hxk. by apply list_elem_of_fmap_2.
  - rewrite merge_sort_Permutation. apply NoDup_remove_dups.
Qed.

Lemma values_of_set q k v : query_values (values_Set q k v) k = [v].
Proof.
  unfold query_values, values_Set. rewrite filter_app, list_filter_filter, filter_none.
  - cbn. by rewrite decide_True.
  - apply Forall_true. naive_solver.
Qed.

Lemma values_of_set_other q k k' v :
  k' ≠ k → query_values (values_Set q k v) k' = query_values q k'.
Proof.
  intros Hne. unfold query_values, values_Set. rewrite filter_app, list_filter_filter. cbn.
  rewrite decide_False, app_nil_r by congruence. f_equal. apply list_filter_iff. naive_solver.
Qed.

Lemma Cut_none s sep : string_mem sep s = false → Cut s sep = (s, EmptyString).
Proof.
  induction s as [|a s IH]; [done|]. cbn. intros [Ha Hs]%orb_false_iff.
  unfold char_eqb in *. rewrite bool_decide_eq_false in Ha.
  rewrite bool_decide_eq_false_2 by congruence. by rewrite IH.
Qed.

Lemma Cut_sep k v sep : string_mem sep k = false → Cut (k +:+ String sep v) sep = (k, v).
Proof.
  induction k as [|a k IH].
  { intros _. rewrite string_app_nil_l. cbn [Cut]. by rewrite char_eqb_refl. }
  cbn. intros [H1 H2]%orb_false_iff. rewrite string_app_cons. cbn.
  unfold char_eqb in *. rewrite bool_decide_eq_false in H1.
  rewrite bool_decide_eq_false_2 by congruence. by rewrite IH.
Qed.
