(* ===== verification/Pagination.v ===== *)
(** * Pages and their navigation links ([internal/controller/api/pagination.go])
    and the query parameters they are made of ([utils.go]).

    Go computes the offset of the last page in [float64]: [float64_of_int],
    [float64_quotient] round as IEEE 754 does (to 53 bits, ties to even). *)

From S2P Require Import Prelude GoStrings GoNumTime Json JsonFacts GoUrl Domain.
From stdpp Require Import options.

(** ** float64 *)

(** [float64(n)] for [n ≥ 0], an integer again: beyond 2^53 it is rounded. *)
Definition float64_of_int (n : Z) : Z :=
  if (n <? 2 ^ 53)%Z then n
  else let k := (Z.log2 n - 52)%Z in (div_half_even n (2 ^ k) * 2 ^ k)%Z.

(** [m * 2^-k], the quotient of the integers [a ≥ 0] and [b > 0]. *)
Definition float64_quotient (a b : Z) : Z * Z :=
  if (a =? 0)%Z then (0, 0)%Z
  else
    let k0 := (52 - (Z.log2 a - Z.log2 b))%Z in
    let k := if (a * 2 ^ Z.max k0 0 <? b * 2 ^ (52 + Z.max (- k0) 0))%Z
             then (k0 + 1)%Z else k0 in
    (div_half_even (a * 2 ^ Z.max k 0) (b * 2 ^ Z.max (- k) 0), k).

(** [math.Floor] *)
Definition float64_floor (x : Z * Z) : Z :=
  let '(m, k) := x in if (0 <=? k)%Z then (m / 2 ^ k)%Z else (m * 2 ^ (- k))%Z.

(** ** pagination.go *)

(** A division by zero gives NaN or an infinity, whose conversion to an integer
    is up to the implementation: [int_of_nan]. *)
Definition calculateOffsetOfLastPage (int_of_nan total limit : Z) : Z :=
  let a := float64_of_int (Z.max (wrap64 (total - 1)) 0) in
  let lastPage := if (limit =? 0)%Z then int_of_nan
                  else wrap64 (float64_floor (float64_quotient a (float64_of_int limit))) in
  wrap64 (lastPage * limit).

Definition buildNavigationLink (originalUrl : URL) (offset limit : Z) : string :=
  let copiedUrl := url_Parse (url_String originalUrl) in
  let values := values_Set (values_Set (url_Query copiedUrl) "offset" (Itoa offset))
                  "limit" (Itoa limit) in
  url_String {| u_Path := u_Path copiedUrl; u_RawQuery := Encode values;
                u_Fragment := u_Fragment copiedUrl |}.

Record navigationLinks := { First : string; Last : string; Next : string; Prev : string }.

Definition buildNavigationLinks (int_of_nan : Z) (u : URL) (offset limit total : Z)
    : navigationLinks :=
  let lastOffset := calculateOffsetOfLastPage int_of_nan total limit in
  let nextOffset := wrap64 (offset + limit) in
  let previousOffset := let p := wrap64 (offset - limit) in if (p <? 0)%Z then 0%Z else p in
  if (total =? 0)%Z
  then {| First := EmptyString; Last := EmptyString; Next := EmptyString; Prev := EmptyString |}
  else {|
    First := buildNavigationLink u 0 limit;
    Last := buildNavigationLink u lastOffset limit;
    Next := if (nextOffset <? total)%Z then buildNavigationLink u nextOffset limit
            else EmptyString;
    Prev := if (0 <? offset)%Z then buildNavigationLink u previousOffset limit
            else EmptyString |}.

Definition doc_navigationLinks (l : navigationLinks) : jdoc :=
  JObj (omit_empty_string "first" (First l) ++ omit_empty_string "last" (Last l)
        ++ omit_empty_string "next" (Next l) ++ omit_empty_string "prev" (Prev l)).

(** [data] is the document of the page. *)
Definition buildPaginatedResponse (int_of_nan : Z) (u : URL) (offset limit total : Z) (data : jdoc)
    : jdoc :=
  JObj [("meta", JObj [("count", jint total)]);
        ("links", doc_navigationLinks (buildNavigationLinks int_of_nan u offset limit total));
        ("data", data)].

(** ** utils.go: offset and limit of a request *)

Definition getIntFromQueryParams (u : URL) (paramName : string) (defaultValue : Z) : Z * option error :=
  let value := query_get (url_Query u) paramName in
  if bool_decide (value = EmptyString) then (defaultValue, None)
  else match Atoi value with
       | inl z => (z, None)
       | inr e => (0%Z, Some (ErrNum value e))
       end.

Definition getLimitFromQueryParams (u : URL) : Z * option error :=
  let '(limit, err) := getIntFromQueryParams u "limit" 1000 in
  match err with
  | Some e => (0%Z, Some (ErrPrefix "limit: " e))
  | None => if (limit <? 0)%Z then (0%Z, Some (ErrText "limit: must be > 0")) else (limit, None)
  end.

Definition getOffsetFromQueryParams (u : URL) : Z * option error :=
  let '(offset, err) := getIntFromQueryParams u "offset" 0 in
  match err with
  | Some e => (0%Z, Some (ErrPrefix "offset: " e))
  | None => if (offset <? 0)%Z then (0%Z, Some (ErrText "offset: must be >= 0")) else (offset, None)
  end.

Definition getOffsetAndLimitFromQueryParams (u : URL) : Z * Z * option error :=
  let '(limit, err) := getLimitFromQueryParams u in
  match err with
  | Some _ => (0, 0, err)%Z
  | None =>
      let '(offset, err) := getOffsetFromQueryParams u in
      match err with
      | Some _ => (0, 0, err)%Z
      | None => (offset, limit, None)
      end
  end.

(** ** Lemmas *)

Lemma div_half_even_bounds num den :
  (0 < den)%Z → (num / den <= div_half_even num den <= num / den + 1)%Z.
Proof.
  intros Hd. unfold div_half_even. destruct (_ ?= _)%Z; [destruct (Z.even _)|..]; lia.
Qed.

(** Below the middle the quotient is not rounded up. *)
Lemma div_half_even_down num den :
  (0 < den)%Z → (2 * (num mod den) < den)%Z → div_half_even num den = (num / den)%Z.
Proof. intros Hd Hr. unfold div_half_even. by rewrite (proj2 (Z.compare_lt_iff _ _) Hr). Qed.

Lemma float64_of_int_exact n : (n < 2 ^ 53)%Z → float64_of_int n = n.
Proof. intros Hn. unfold float64_of_int. by rewrite (proj2 (Z.ltb_lt _ _) Hn). Qed.

(** A rounded integer of 2^53 or more stays at 2^53 or more. *)
Lemma float64_of_int_big n : (2 ^ 53 <= n)%Z → (2 ^ 53 <= float64_of_int n)%Z.
Proof.
  intros Hn. unfold float64_of_int. rewrite (proj2 (Z.ltb_ge _ _) Hn).
  assert (Hl : (53 <= Z.log2 n)%Z) by (apply Z.log2_le_pow2; lia).
  set (k := (Z.log2 n - 52)%Z). assert (Hk : (1 <= k)%Z) by lia.
  destruct (Z.log2_spec n ltac:(lia)) as [Hlo _].
  assert (Hp : (2 ^ Z.log2 n = 2 ^ 52 * 2 ^ k)%Z).
  { rewrite <-Z.pow_add_r by lia. f_equal. lia. }
  assert (H2k : (0 < 2 ^ k)%Z) by (apply Z.pow_pos_nonneg; lia).
  assert (Hq : (2 ^ 52 <= n / 2 ^ k)%Z) by (apply Z.div_le_lower_bound; lia).
  pose proof (div_half_even_bounds n (2 ^ k) H2k).
  assert (H2k' : (2 <= 2 ^ k)%Z).
  { change 2%Z with (2 ^ 1)%Z at 1. apply Z.pow_le_mono_r; lia. }
  nia.
Qed.

(** The mantissa of the quotient is normalised, which bounds the divisor. *)
Lemma quotient_scale a b (k0 := (52 - (Z.log2 a - Z.log2 b))%Z) :
  (0 < a < 2 ^ 53)%Z → (0 < b)%Z →
  ∃ k, (0 <= k)%Z ∧ (b < 2 ^ (k + 1))%Z ∧
    float64_quotient a b = (div_half_even (a * 2 ^ k) b, k).
Proof.
  intros Ha Hb. unfold float64_quotient. rewrite (proj2 (Z.eqb_neq a 0%Z)) by lia. cbv zeta. fold k0.
  assert (Hla : (Z.log2 a <= 52)%Z).
  { destruct (Z.le_gt_cases (Z.log2 a) 52%Z); [done|].
    pose proof (Z.log2_spec a ltac:(lia)) as [? _].
    assert (2 ^ 53 <= 2 ^ Z.log2 a)%Z by (apply Z.pow_le_mono_r; lia). lia. }
  pose proof (Z.log2_nonneg a). pose proof (Z.log2_nonneg b).
  assert (Hk0 : (0 <= k0)%Z) by (unfold k0; lia).
  rewrite (Z.max_l k0 0%Z), (Z.max_r (- k0)%Z 0%Z), Z.add_0_r by lia.
  assert (Hgen : ∀ k, (0 <= k)%Z → (b * 2 ^ 52 <= a * 2 ^ k)%Z → (b < 2 ^ (k + 1))%Z).
  { intros k Hk Hle. rewrite Z.pow_add_r by lia.
    assert (0 < 2 ^ k)%Z by (apply Z.pow_pos_nonneg; lia). nia. }
  destruct (a * 2 ^ k0 <? b * 2 ^ 52)%Z eqn:Htest.
  - exists (k0 + 1)%Z. rewrite Z.max_l, Z.max_r, Z.pow_0_r, Z.mul_1_r by lia.
    split_and!; [lia| |done]. apply Hgen; [lia|].
    pose proof (Z.log2_spec a ltac:(lia)) as [Hlo _].
    pose proof (Z.log2_spec b ltac:(lia)) as [_ Hhi].
    assert (Hp : (2 ^ Z.log2 a * 2 ^ (k0 + 1) = 2 ^ 52 * 2 ^ Z.succ (Z.log2 b))%Z).
    { rewrite <-!Z.pow_add_r by lia. f_equal. unfold k0. lia. }
    assert (0 < 2 ^ (k0 + 1))%Z by (apply Z.pow_pos_nonneg; lia). nia.
  - apply Z.ltb_ge in Htest. exists k0.
    rewrite Z.max_l, Z.max_r, Z.pow_0_r, Z.mul_1_r by lia.
    split_and!; [lia|by apply Hgen|done].
Qed.

(** The quotient of integers below 2^53 is rounded, but not across an integer. *)
Lemma floor_quotient a b :
  (0 <= a < 2 ^ 53)%Z → (0 < b)%Z → float64_floor (float64_quotient a b) = (a / b)%Z.
Proof.
  intros Ha Hb. destruct (Z.eq_dec a 0%Z) as [->|Hne].
  { unfold float64_quotient. cbn. by rewrite Z.div_0_l by lia. }
  destruct (quotient_scale a b) as (k&Hk&Hbk&->); [lia..|]. cbn [float64_floor].
  rewrite (proj2 (Z.leb_le 0%Z k)) by lia.
  assert (H2k : (0 < 2 ^ k)%Z) by (apply Z.pow_pos_nonneg; lia).
  rewrite Z.pow_add_r in Hbk by lia. change (2 ^ 1)%Z with 2%Z in Hbk.
  set (q := (a / b)%Z). set (p := (2 ^ k)%Z) in *. set (N := (a * p)%Z).
  pose proof (Z.div_mod a b ltac:(lia)) as Hdm. pose proof (Z.mod_pos_bound a b Hb) as Hr.
  fold q in Hdm.
  assert (Hlo : (q * p <= N / b)%Z) by (apply Z.div_le_lower_bound; nia).
  assert (Hhi : (N / b < (q + 1) * p)%Z) by (apply Z.div_lt_upper_bound; nia).
  pose proof (div_half_even_bounds N b Hb) as [Hm1 Hm2].
  assert (Hm : (div_half_even N b < (q + 1) * p)%Z).
  { destruct (Z.eq_dec (N / b)%Z ((q + 1) * p - 1)%Z) as [Heq|]; [|lia].
    rewrite div_half_even_down; [lia|done|].
    pose proof (Z.div_mod N b ltac:(lia)) as HN. rewrite Heq in HN.
    assert (N mod b = N - b * ((q + 1) * p - 1))%Z by lia. nia. }
  symmetry. apply (Z.div_unique_pos _ _ _ (div_half_even N b - q * p)); lia.
Qed.

(** The offset of the last page, as integer arithmetic. *)
Lemma last_offset_eq nan total limit :
  (0 <= total <= 2 ^ 53)%Z → (0 < limit)%Z → is_int64 limit = true →
  calculateOffsetOfLastPage nan total limit = (Z.max (total - 1) 0 / limit * limit)%Z.
Proof.
  intros Ht Hl Hi. unfold calculateOffsetOfLastPage.
  assert (Hrange : ∀ z, (-1 <= z <= 2 ^ 53)%Z → wrap64 z = z).
  { intros z Hz. apply wrap64_id. unfold is_int64, int64_min, int64_max.
    apply andb_true_iff; split; apply Z.leb_le; lia. }
  rewrite (Hrange (total - 1)%Z) by lia.
  rewrite (proj2 (Z.eqb_neq limit 0%Z)) by lia. set (a := Z.max (total - 1) 0%Z).
  rewrite (float64_of_int_exact a) by lia.
  assert (Hq : (float64_floor (float64_quotient a (float64_of_int limit)) = a / limit)%Z).
  { destruct (Z.lt_ge_cases limit (2 ^ 53)%Z) as [Hlt|Hge].
    - rewrite (float64_of_int_exact limit) by done. apply floor_quotient; lia.
    - pose proof (float64_of_int_big limit Hge). rewrite floor_quotient by lia.
      rewrite !Z.div_small; lia. }
  rewrite Hq.
  assert (Hd : (0 <= a / limit <= a)%Z).
  { split; [apply Z.div_pos; lia|]. apply Z.div_le_upper_bound; nia. }
  rewrite (Hrange (a / limit)%Z) by lia.
  assert ((0 <= a / limit * limit <= a)%Z).
  { pose proof (Z.mul_div_le a limit ltac:(lia)). nia. }
  apply Hrange. lia.
Qed.

(** ** Following a link *)

(** What the API reads from a link: the page it asks for. *)
Definition page_of_link (link : string) : Z * Z * option error :=
  getOffsetAndLimitFromQueryParams (url_Parse link).

(** A URL as a request carries it: nothing in it is cut off when it is parsed again. *)
Definition request_url (u : URL) : bool :=
  negb (string_mem "#" (u_Path u)) && negb (string_mem "?" (u_Path u))
  && negb (string_mem "#" (u_RawQuery u)) && bool_decide (u_Fragment u = EmptyString).

Lemma parse_string u :
  request_url u = true → url_Parse (url_String u) = u.
Proof.
  unfold request_url. rewrite !andb_true_iff, !negb_true_iff, bool_decide_eq_true.
  intros (((Hp1&Hp2)&Hq)&Hf). destruct u as [p q f]. cbn in *. subst f.
  unfold url_String, url_Parse. cbn [u_Path u_RawQuery u_Fragment].
  rewrite (bool_decide_eq_true_2 (EmptyString = EmptyString)) by done. rewrite string_app_nil_r.
  case_bool_decide as Hnil.
  - subst. rewrite string_app_nil_r, (Cut_none p "#"), (Cut_none p "?") by done. done.
  - rewrite (Cut_none _ "#"), Cut_sep; [done|done|]. rewrite string_mem_app, Hp1. cbn. by rewrite Hq.
Qed.

Lemma Encode_clean q : string_mem "#" (Encode q) = false.
Proof.
  unfold Encode. generalize (sort_by_key q) as l. intros l.
  assert (Hp : ∀ kv, string_mem "#" (encode_pair kv) = false).
  { intros [k v]. unfold encode_pair. cbn. rewrite string_mem_app. cbn. by rewrite !QueryEscape_clean. }
  induction l as [|kv l IH]; [done|]. cbn. destruct (encode_pair <$> l) as [|x xs] eqn:E; [apply Hp|].
  rewrite !string_mem_app, Hp. cbn. exact IH.
Qed.

Lemma Itoa_ne z : Itoa z ≠ EmptyString.
Proof.
  unfold Itoa, pretty, pretty_Z. destruct z as [|p|p]; [done| |done].
  apply (pretty_N_ne (Npos p)).
Qed.

(** What a link says of the page, and of everything else. *)
Lemma link_values u offset limit :
  request_url u = true →
  let q := url_Query (url_Parse (buildNavigationLink u offset limit)) in
  query_get q "offset" = Itoa offset ∧ query_get q "limit" = Itoa limit ∧
  u_Path (url_Parse (buildNavigationLink u offset limit)) = u_Path u ∧
  ∀ k, k ≠ "offset" → k ≠ "limit" → query_values q k = query_values (url_Query u) k.
Proof.
  intros Hu. cbv zeta. unfold buildNavigationLink. rewrite (parse_string u) by done.
  set (q := values_Set _ _ _).
  assert (Hu' : request_url {| u_Path := u_Path u; u_RawQuery := Encode q; u_Fragment := u_Fragment u |} = true).
  { unfold request_url in *. cbn. rewrite Encode_clean.
    rewrite !andb_true_iff in Hu |- *. naive_solver. }
  rewrite parse_string by done. unfold url_Query, query_get. cbn [u_RawQuery u_Path].
  rewrite !values_of_encoded. unfold q.
  rewrite values_of_set, values_of_set_other, values_of_set by discriminate.
  split_and!; [done..|]. intros k H1 H2. rewrite values_of_encoded.
  by rewrite !values_of_set_other by done.
Qed.

Lemma getInt_Itoa u name default z :
  query_get (url_Query u) name = Itoa z → is_int64 z = true →
  getIntFromQueryParams u name default = (z, None).
Proof.
  intros Hq Hz. unfold getIntFromQueryParams. rewrite Hq.
  by rewrite (bool_decide_eq_false_2 _ (Itoa_ne z)), Atoi_Itoa.
Qed.

(** A link reads back as the page it was made for. *)
Lemma link_page u offset limit :
  request_url u = true → (0 <= limit)%Z → is_int64 offset = true → is_int64 limit = true →
  page_of_link (buildNavigationLink u offset limit)
  = if (offset <? 0)%Z then (0%Z, 0%Z, Some (ErrText "offset: must be >= 0"))
    else (offset, limit, None).
Proof.
  intros Hu Hl Ho Hi. destruct (link_values u offset limit Hu) as (H1&H2&_).
  unfold page_of_link, getOffsetAndLimitFromQueryParams, getLimitFromQueryParams,
    getOffsetFromQueryParams.
  rewrite (getInt_Itoa _ _ _ _ H2 Hi), (proj2 (Z.ltb_ge _ _)) by lia.
  rewrite (getInt_Itoa _ _ _ _ H1 Ho). by destruct (offset <? 0)%Z.
Qed.

Lemma int64_between z : (int64_min <= z <= int64_max)%Z → is_int64 z = true.
Proof. intros [??]. unfold is_int64. apply andb_true_iff; split; by apply Z.leb_le. Qed.

(** ** Properties *)

(** C39: The navigation links of a non-empty listing lead where they say, as read
    by the API's own parser: the first page; the last page, whose offset is the
    multiple of the limit under which the last connection falls (in spite of
    the detour through [float64]); the next and the previous page, which are
    offered exactly when there is one.  Path and other parameters are kept. *)
Theorem navigation_links_correct nan u offset limit total :
  request_url u = true → (0 <= offset)%Z → (0 < limit)%Z → (offset + limit <= int64_max)%Z →
  (0 < total <= 2 ^ 53)%Z →
  let l := buildNavigationLinks nan u offset limit total in
  page_of_link (First l) = (0%Z, limit, None) ∧
  (∃ last, page_of_link (Last l) = (last, limit, None) ∧
     (last mod limit = 0)%Z ∧ (last < total <= last + limit)%Z) ∧
  (if (offset + limit <? total)%Z
   then page_of_link (Next l) = ((offset + limit)%Z, limit, None) else Next l = EmptyString) ∧
  (if (0 <? offset)%Z
   then page_of_link (Prev l) = (Z.max 0 (offset - limit), limit, None) else Prev l = EmptyString) ∧
  u_Path (url_Parse (First l)) = u_Path u ∧
  ∀ k, k ≠ "offset" → k ≠ "limit" →
    query_values (url_Query (url_Parse (First l))) k = query_values (url_Query u) k.
Proof.
  intros Hu Ho Hl Hsum Ht. unfold int64_max in Hsum.
  assert (Hi : ∀ z, (- (2 ^ 62) <= z <= 2 ^ 62)%Z ∨ (0 <= z <= offset + limit)%Z ∨ (- limit <= z <= offset)%Z → is_int64 z = true).
  { intros z Hz. apply int64_between. unfold int64_min, int64_max. lia. }
  assert (Hlim : is_int64 limit = true) by (apply Hi; lia).
  set (last := (Z.max (total - 1) 0 / limit * limit)%Z).
  assert (Hlast : (0 <= last < total)%Z ∧ (total <= last + limit)%Z ∧ (last mod limit = 0)%Z).
  { unfold last. rewrite Z.max_l by lia. split_and!.
    - pose proof (Z.div_pos (total - 1) limit ltac:(lia) ltac:(lia)). nia.
    - pose proof (Z.mul_div_le (total - 1) limit ltac:(lia)). lia.
    - pose proof (Z.mul_succ_div_gt (total - 1) limit ltac:(lia)). lia.
    - by apply Z.mod_mul, Z.neq_sym, Z.lt_neq. }
  destruct Hlast as ([Hl0 Hl1]&Hl2&Hl3).
  unfold buildNavigationLinks. rewrite (proj2 (Z.eqb_neq total 0%Z)) by lia.
  rewrite last_offset_eq by (done || lia). fold last. cbn [First Last Next Prev].
  rewrite !wrap64_id by (apply Hi; lia).
  assert (Hpage : ∀ o, (0 <= o)%Z → is_int64 o = true →
            page_of_link (buildNavigationLink u o limit) = (o, limit, None)).
  { intros o Ho0 Hoi. rewrite link_page by (done || lia). by rewrite (proj2 (Z.ltb_ge _ _)) by lia. }
  split_and!.
  - by apply Hpage.
  - exists last. split_and!; [apply Hpage; [lia|apply Hi; lia]|done..].
  - destruct (offset + limit <? total)%Z; [|done]. apply Hpage; [lia|apply Hi; lia].
  - destruct (0 <? offset)%Z; [|done].
    replace (if (offset - limit <? 0)%Z then 0%Z else (offset - limit)%Z)
      with (Z.max 0 (offset - limit)).
    + apply Hpage; [lia|apply Hi; lia].
    + destruct (offset - limit <? 0)%Z eqn:E; [apply Z.ltb_lt in E|apply Z.ltb_ge in E]; lia.
  - apply (link_values u 0 limit Hu).
  - apply (link_values u 0 limit Hu).
Qed.

Definition test_url : URL := {|
  u_Path := "/api/cloud-connector/v2/connections"; u_RawQuery := "offset=20&limit=10&x=a%26b";
  u_Fragment := EmptyString |}.

Lemma navigation_links_correct_witness :
  page_of_link (Next (buildNavigationLinks 0 test_url 20 10 45)) = (30%Z, 10%Z, None) ∧
  Last (buildNavigationLinks 0 test_url 20 10 45)
  = "/api/cloud-connector/v2/connections?limit=10&offset=40&x=a%26b".
Proof.
  destruct (navigation_links_correct 0 test_url 20 10 45) as (_&_&H&_);
    [reflexivity|discriminate|reflexivity|discriminate|split; [reflexivity|discriminate]|].
  split; [exact H|]. vm_compute. reflexivity.
Defined.

(** C40: Where offset and limit are each valid but their sum exceeds a 64-bit
    integer, the next link is offered although there is no such page, and it
    carries the wrapped, negative offset, which the API rejects. *)
Theorem next_link_overflows nan u offset limit total :
  request_url u = true → (0 <= offset <= int64_max)%Z → (0 <= limit <= int64_max)%Z →
  (int64_max < offset + limit)%Z → (0 < total)%Z →
  page_of_link (Next (buildNavigationLinks nan u offset limit total))
  = (0%Z, 0%Z, Some (ErrText "offset: must be >= 0")).
Proof.
  unfold int64_max. intros Hu Ho Hl Hs Ht. unfold buildNavigationLinks.
  rewrite (proj2 (Z.eqb_neq total 0%Z)) by lia. cbn [Next].
  assert (Hw : wrap64 (offset + limit) = (offset + limit - 18446744073709551616)%Z).
  { unfold wrap64. rewrite (Z.mod_eq _ 18446744073709551616) by lia.
    replace ((offset + limit + 9223372036854775808) / 18446744073709551616)%Z with 1%Z; [lia|].
    apply (Z.div_unique_pos _ _ _ (offset + limit - 9223372036854775808)); lia. }
  rewrite Hw, (proj2 (Z.ltb_lt _ _)) by lia.
  rewrite link_page; [|done|lia|apply int64_between; unfold int64_min, int64_max; lia..].
  by rewrite (proj2 (Z.ltb_lt _ _)) by lia.
Qed.

Lemma next_link_overflows_witness :
  page_of_link (Next (buildNavigationLinks 0 test_url 9223372036854775807 10 45))
  = (0%Z, 0%Z, Some (ErrText "offset: must be >= 0")).
Proof.
  apply (next_link_overflows 0 test_url 9223372036854775807 10 45);
    [reflexivity|split; discriminate|split; discriminate|reflexivity|reflexivity].
Defined.
