(* ===== verification/HttpApi.v ===== *)
(** * Requests and responses of the REST API ([internal/controller/api/utils.go])

    A handler works on a state that holds the [response] being written.  The
    request's context carries the principal the authentication put there
    ([Middlewares]). *)

From S2P Require Import Prelude GoStrings GoNumTime Json JsonFacts GoUrl Domain Pagination.
From stdpp Require Import options.

(** ** The response writer of [net/http] *)

Record response := {
  rs_header : list (string * string);
  rs_status : option Z;              (** once written, on the wire *)
  rs_reported : Z;                   (** of the last [WriteHeader]: what the metrics see *)
  rs_body : string;
}.

Definition empty_response : response := {|
  rs_header := []; rs_status := None; rs_reported := 200; rs_body := EmptyString |}.

(** [w.Header().Set(k, v)]; no effect once the header is written. *)
Definition Header_Set (k v : string) : M response unit := modify (λ r,
  match rs_status r with
  | None => {| rs_header := filter (λ kv : string * string, kv.1 ≠ k) (rs_header r) ++ [(k, v)];
               rs_status := None; rs_reported := rs_reported r; rs_body := rs_body r |}
  | Some _ => r
  end).

(** [w.WriteHeader(status)]; superfluous calls are ignored. *)
Definition WriteHeader (status : Z) : M response unit := modify (λ r, {|
  rs_header := rs_header r;
  rs_status := Some (default status (rs_status r));
  rs_reported := status;
  rs_body := rs_body r |}).

(** [w.Write(bytes)] *)
Definition Write (bytes : string) : M response unit := modify (λ r,
  {| rs_header := rs_header r; rs_status := Some (default 200%Z (rs_status r));
     rs_reported := rs_reported r; rs_body := rs_body r +:+ bytes |}).

(** [http.Error(w, error, code)] *)
Definition http_Error (error : string) (code : Z) : M response unit :=
  Header_Set "Content-Type" "text/plain; charset=utf-8";;
  Header_Set "X-Content-Type-Options" "nosniff";;
  WriteHeader code;;
  Write (error +:+ str1 "010").

(** ** Writing JSON *)

(** A payload: nil, or what encodes to a document ([None]: it cannot be encoded). *)
Inductive payload := NoPayload | Payload (d : option jdoc).

Definition writeJSONResponse (status : Z) (p : payload) : M response unit :=
  Header_Set "Content-Type" "application/json; charset=UTF-8";;
  WriteHeader status;;
  match p with
  | NoPayload => mret tt
  | Payload (Some d) => Write (render d +:+ str1 "010")
  | Payload None => http_Error "Unable to encode payload!" 422
  end.

Definition doc_errorResponse (title : string) (status : Z) (detail : string) : jdoc :=
  JObj [("title", jstring title); ("status", jint status); ("detail", jstring detail)].

(** The pattern of every error path: an [errorResponse], written with its status. *)
Definition writeErrorResponse (title : string) (status : Z) (detail : string) : M response unit :=
  writeJSONResponse status (Payload (Some (doc_errorResponse title status detail))).

Definition writeInvalidInputResponse (err : error) : M response unit :=
  writeErrorResponse "Unable to process input parameters" 400 (Error err).

(** ** Reading JSON *)

(** [http.MaxBytesReader(w, body, n)]: the bytes it lets through, and whether the
    body is longer. *)
Fixpoint MaxBytesReader (body : string) (n : Z) : string * bool :=
  match body with
  | EmptyString => (EmptyString, false)
  | String a body' =>
      if (n <=? 0)%Z then (EmptyString, true)
      else let '(s, more) := MaxBytesReader body' (n - 1) in (String a s, more)
  end.

Definition max_body : Z := 1048576.

Definition malformed_json : error := ErrText "Request body includes malformed json".
Definition missing_fields : error := ErrText "Request body is missing required fields".
Definition extra_json : error := ErrText "Request body must only contain one json object".

(** [decodeJSON(body, &data)] for a struct with these fields, [valid] being its
    validation tags.  The document [null] makes [data] itself nil, and the
    validator's error is then not of the type the code asserts. *)
Definition decodeJSON {W S} (fields : list (field S)) (s0 : S) (valid : S → bool) (body : string)
    : M W (S + error) :=
  let '(bytes, cut) := MaxBytesReader body max_body in
  match DecodeStream bytes with
  | None => mret (inr malformed_json)
  | Some (d, rest) =>
      match d with
      | JObj _ =>
          match decode_struct fields s0 d with
          | None => mret (inr malformed_json)
          | Some s => mret (if valid s then (if More rest then inr extra_json else inl s)
                            else inr missing_fields)
          end
      | JNull =>
          if cut && bool_decide (rest = EmptyString) then mret (inr malformed_json)
          else panic "interface conversion: error is *validator.InvalidValidationError"
      | _ => mret (inr malformed_json)
      end
  end.

(** [validate:"required"] on a string and on an int *)
Definition required (s : string) : bool := negb (bool_decide (s = EmptyString)).
Definition required_int (z : Z) : bool := negb (bool_decide (z = 0%Z)).

(** ** Principals ([internal/middlewares/principal.go]) *)

Inductive Principal :=
| serviceToServicePrincipal (account clientID orgID : string)
| identityPrincipal (account orgID : string).

Definition principal_account (p : Principal) : string :=
  match p with serviceToServicePrincipal a _ _ | identityPrincipal a _ => a end.
Definition principal_org (p : Principal) : string :=
  match p with serviceToServicePrincipal _ _ o | identityPrincipal _ o => o end.

(** What the authentication leaves in a request's context. *)
Record context := {
  ctx_principal : option (string * string * string);   (** account, client id, org id *)
  ctx_identity : option (string * string);             (** account number, org id *)
  ctx_identity_type : string;
}.
Definition empty_context : context :=
  {| ctx_principal := None; ctx_identity := None; ctx_identity_type := EmptyString |}.

(** [identity.GetIdentity] of an empty context is the zero identity. *)
Definition GetPrincipal (ctx : context) : option Principal :=
  match ctx_principal ctx with
  | Some (account, clientID, orgID) => Some (serviceToServicePrincipal account clientID orgID)
  | None =>
      let '(account, orgID) := default (EmptyString, EmptyString) (ctx_identity ctx) in
      if bool_decide (orgID = EmptyString) then None else Some (identityPrincipal account orgID)
  end.

(** The handlers call methods on the principal without looking whether there is one. *)
Definition the_principal {W} (ctx : context) : M W Principal :=
  match GetPrincipal ctx with
  | Some p => mret p
  | None => panic "invalid memory address or nil pointer dereference"
  end.

(** A request, as the router hands it over. *)
Record request := {
  rq_header : list (string * string);
  rq_url : URL;
  rq_vars : gmap string string;
  rq_body : string;
  rq_ctx : context;
}.
