(* ===== verification/Middlewares.v ===== *)
(** * Authentication and metrics of the REST API ([internal/middlewares])

    - [Authenticate]: identity header or pre-shared key (auth.go,
      service_credentials.go);
    - [EnforceTurnpikeAuthentication] (turnpike_auth.go);
    - [RecordHTTPMetrics] (metrics_middleware.go).

    The identity middleware of the platform library is the class
    [IdentityMiddleware]. *)

From S2P Require Import Prelude GoStrings GoNumTime Json GoUrl Domain Pagination HttpApi.
From stdpp Require Import options.

Definition authErrorMessage : string := "Authentication failed".
Definition authErrorLogHeader : string := "Authentication error: ".
Definition identityHeader : string := "x-rh-identity".
Definition PSKClientIdHeader : string := "x-rh-cloud-connector-client-id".
Definition PSKOrgIdHeader : string := "x-rh-cloud-connector-org-id".
Definition PSKAccountHeader : string := "x-rh-cloud-connector-account".
Definition PSKHeader : string := "x-rh-cloud-connector-psk".

(** Names of header fields are compared without regard to case. *)
Fixpoint lower (s : string) : string :=
  match s with
  | EmptyString => EmptyString
  | String a s' => String (if byte_in 65 90 a then byte_of (byte_val a + 32) else a) (lower s')
  end.

(** [r.Header.Get(name)] *)
Fixpoint Header_Get (header : list (string * string)) (name : string) : string :=
  match header with
  | [] => EmptyString
  | (k, v) :: header' =>
      if bool_decide (lower k = lower name) then v else Header_Get header' name
  end.

Inductive RequiredTenantIdentifier := RequireAccount | RequireOrgID.
#[export] Instance required_eq_dec : EqDecision RequiredTenantIdentifier.
Proof. solve_decision. Defined.

(** [(value, err)] *)
Definition verifyHeader (r : request) (header : string) (required : bool) : string * option error :=
  let value := Header_Get (rq_header r) header in
  if required && bool_decide (value = EmptyString)
  then (EmptyString, Some (ErrText (authErrorLogHeader +:+ "Missing " +:+ header +:+ " header")))
  else (value, None).

(** [(clientID, orgID, account, psk, err)]; what precedes an error is never used. *)
Definition retrieveHeaderValues (r : request) (requiredTenant : RequiredTenantIdentifier)
    : (string * string * string * string) + error :=
  match verifyHeader r PSKClientIdHeader true with
  | (_, Some err) => inr err
  | (clientID, None) =>
      match verifyHeader r PSKOrgIdHeader (bool_decide (requiredTenant = RequireOrgID)) with
      | (_, Some err) => inr err
      | (orgID, None) =>
          match verifyHeader r PSKAccountHeader (bool_decide (requiredTenant = RequireAccount)) with
          | (_, Some err) => inr err
          | (account, None) =>
              match verifyHeader r PSKHeader true with
              | (_, Some err) => inr err
              | (psk, None) => inl (clientID, orgID, account, psk)
              end
          end
      end
  end.

Record serviceCredentials := {
  sc_clientID : string; sc_orgID : string; sc_account : string; sc_psk : string }.

(** The known keys come from the configuration, as any JSON values. *)
Definition validate (knownServiceCredentials : gmap string value) (sc : serviceCredentials)
    : option error :=
  match knownServiceCredentials !! sc_clientID sc with
  | None | Some VNull =>
      Some (ErrText (authErrorLogHeader +:+ "Provided ClientID not attached to any known keys"))
  | Some known =>
      if bool_decide (VString (sc_psk sc) ≠ known)
      then Some (ErrText (authErrorLogHeader +:+ "Provided PSK does not match known key for this client"))
      else None
  end.

Definition with_context (ctx : context) (r : request) : request := {|
  rq_header := rq_header r; rq_url := rq_url r; rq_vars := rq_vars r; rq_body := rq_body r;
  rq_ctx := ctx |}.

Definition with_principal (account clientID orgID : string) (r : request) : request :=
  with_context {|
    ctx_principal := Some (account, clientID, orgID); ctx_identity := ctx_identity (rq_ctx r);
    ctx_identity_type := ctx_identity_type (rq_ctx r) |} r.

(** A handler. *)
Definition Handler (W : Type) : Type := request → M W unit.

Class IdentityMiddleware (W : Type) := { EnforceIdentity : Handler W → Handler W }.
#[global] Hint Mode IdentityMiddleware + : typeclass_instances.

Section middlewares.
Context {W : Type} `{!Lens W response, !Metrics W}.

Definition handlePSKAuthentication (next : Handler W) (secrets : gmap string value)
    (requiredTenant : RequiredTenantIdentifier) (r : request) : M W unit :=
  match retrieveHeaderValues r requiredTenant with
  | inr err => zoom (http_Error authErrorMessage 401)
  | inl (clientID, orgID, account, psk) =>
      let sr := {| sc_clientID := clientID; sc_orgID := orgID; sc_account := account; sc_psk := psk |} in
      match validate secrets sr with
      | Some err => zoom (http_Error authErrorMessage 401)
      | None => next (with_principal (sc_account sr) (sc_clientID sr) (sc_orgID sr) r)
      end
  end.

Definition Authenticate (secrets : gmap string value) (identityAuth : Handler W → Handler W)
    (required : RequiredTenantIdentifier) (next : Handler W) : Handler W := λ r,
  if bool_decide (Header_Get (rq_header r) identityHeader ≠ EmptyString)
  then identityAuth next r
  else handlePSKAuthentication next secrets required r.

Definition EnforceTurnpikeAuthentication (next : Handler W) : Handler W := λ r,
  if bool_decide (ctx_identity_type (rq_ctx r) ≠ "Associate")
  then zoom (http_Error authErrorMessage 401)
  else next r.

Definition status_code_counter (status : Z) : string :=
  "cloud_connector_http_status_code_counter:" +:+ Itoa status.

(** The counter is fed with what the last [WriteHeader] said, 200 without one. *)
Definition RecordHTTPMetrics (next : Handler W) : Handler W := λ r,
  next r;;
  resp ← zoom get_state;
  Inc (status_code_counter (rs_reported resp)).
End middlewares.

(** ** Lemmas *)

(** The headers a pre-shared key request must have. *)
Definition headers_present (required : RequiredTenantIdentifier) (r : request) : bool :=
  let present name := negb (bool_decide (Header_Get (rq_header r) name = EmptyString)) in
  present PSKClientIdHeader
  && present (match required with RequireAccount => PSKAccountHeader | RequireOrgID => PSKOrgIdHeader end)
  && present PSKHeader.

Lemma retrieve_spec r required :
  ∃ e, retrieveHeaderValues r required
  = if headers_present required r
    then inl (Header_Get (rq_header r) PSKClientIdHeader, Header_Get (rq_header r) PSKOrgIdHeader,
              Header_Get (rq_header r) PSKAccountHeader, Header_Get (rq_header r) PSKHeader)
    else inr e.
Proof.
  unfold retrieveHeaderValues, verifyHeader, headers_present.
  generalize (Header_Get (rq_header r)). intros get.
  destruct required;
    [rewrite (bool_decide_eq_false_2 (RequireAccount = RequireOrgID)), (bool_decide_eq_true_2 (RequireAccount = RequireAccount)) by done
    |rewrite (bool_decide_eq_false_2 (RequireOrgID = RequireAccount)), (bool_decide_eq_true_2 (RequireOrgID = RequireOrgID)) by done];
    cbn [andb]; repeat (destruct (bool_decide (get _ = EmptyString)); cbn [andb negb]);
    first [by exists NotFoundError | by eexists].
Qed.

Lemma validate_None secrets sc :
  validate secrets sc = None ↔ secrets !! sc_clientID sc = Some (VString (sc_psk sc)).
Proof.
  unfold validate. destruct (secrets !! sc_clientID sc) as [[]|];
    repeat case_bool_decide; naive_solver.
Qed.

(** ** Properties *)

(** What a request must carry to be let through with a pre-shared key. *)
Definition psk_accepts (secrets : gmap string value) (required : RequiredTenantIdentifier)
    (r : request) : bool :=
  headers_present required r
  && bool_decide (secrets !! Header_Get (rq_header r) PSKClientIdHeader
                  = Some (VString (Header_Get (rq_header r) PSKHeader))).

Section properties.
Context {W : Type} `{!Lens W response, !Metrics W}.

Lemma psk_run secrets required (next : Handler W) r w :
  let get := Header_Get (rq_header r) in
  handlePSKAuthentication next secrets required r w
  = if psk_accepts secrets required r
    then next (with_principal (get PSKAccountHeader) (get PSKClientIdHeader) (get PSKOrgIdHeader) r) w
    else zoom (http_Error authErrorMessage 401) w.
Proof.
  unfold handlePSKAuthentication, psk_accepts.
  destruct (retrieve_spec r required) as [e ->].
  destruct (headers_present required r); [|done]. cbn [andb].
  set (sc := {| sc_clientID := _ |}). pose proof (validate_None secrets sc) as Hv.
  cbn in Hv. destruct (validate secrets sc) as [err|].
  - rewrite bool_decide_eq_false_2; [done|]. intros Hk. by apply Hv in Hk.
  - rewrite bool_decide_eq_true_2; [done|]. by apply Hv.
Qed.

(** C14: A request without an identity header reaches the handler exactly when it
    names a client whose configured key is the (non-empty) key it presents and
    carries the required tenant identifier; the handler then sees precisely the
    account, client and org of the headers.  Every other request is answered
    with 401, and nothing else happens. *)
Theorem psk_authentication secrets identityAuth required (next : Handler W) r w :
  Header_Get (rq_header r) identityHeader = EmptyString →
  let get := Header_Get (rq_header r) in
  let r' := with_principal (get PSKAccountHeader) (get PSKClientIdHeader) (get PSKOrgIdHeader) r in
  Authenticate secrets identityAuth required next r w
  = (if psk_accepts secrets required r then next r' w
     else zoom (http_Error authErrorMessage 401) w) ∧
  GetPrincipal (rq_ctx r')
  = Some (serviceToServicePrincipal (get PSKAccountHeader) (get PSKClientIdHeader) (get PSKOrgIdHeader)).
Proof.
  intros Hid get r'. split; [|done]. unfold Authenticate.
  rewrite bool_decide_eq_false_2 by (intros Hx; exact (Hx Hid)). apply psk_run.
Qed.
End properties.

(** ** A state for the examples *)

Record ApiState := { as_response : response; as_counted : list string; as_served : list request }.
#[export] Program Instance api_response : Lens ApiState response := {
  lget := as_response;
  lset r w := {| as_response := r; as_counted := as_counted w; as_served := as_served w |}; }.
Next Obligation. done. Qed.
Next Obligation. by intros []. Qed.
Next Obligation. done. Qed.
#[export] Instance api_metrics : Metrics ApiState := {
  Inc c w := (Ret tt, {| as_response := as_response w; as_counted := as_counted w ++ [c];
                         as_served := as_served w |}) }.

Definition test_handler : Handler ApiState := λ r,
  modify (λ w, {| as_response := as_response w; as_counted := as_counted w;
                  as_served := as_served w ++ [r] |}).

Definition psk_request (psk : string) : request := {|
  rq_header := [("X-Rh-Cloud-Connector-Client-Id", "svc"); ("X-Rh-Cloud-Connector-Org-Id", "111000");
                ("X-Rh-Cloud-Connector-Psk", psk)];
  rq_url := {| u_Path := "/v2/connections"; u_RawQuery := EmptyString; u_Fragment := EmptyString |};
  rq_vars := ∅; rq_body := EmptyString; rq_ctx := empty_context |}.

Lemma psk_authentication_witness :
  let secrets : gmap string value := {[ "svc" := VString "s3cret" ]} in
  let w := {| as_response := empty_response; as_counted := []; as_served := [] |} in
  let run psk := (Authenticate secrets id RequireOrgID test_handler (psk_request psk) w).2 in
  length (as_served (run "s3cret")) = 1 ∧ length (as_served (run "guess")) = 0 ∧
  rs_status (as_response (run "guess")) = Some 401%Z.
Proof.
  intros secrets w run. unfold run.
  rewrite (proj1 (psk_authentication secrets id RequireOrgID test_handler (psk_request "s3cret") w eq_refl)).
  rewrite (proj1 (psk_authentication secrets id RequireOrgID test_handler (psk_request "guess") w eq_refl)).
  vm_compute. split_and!; reflexivity.
Defined.
