(* ===== verification/Api.v ===== *)
(** * The REST handlers ([internal/controller/api])

    - [MessageReceiver]: the v1 interface (message_receiver.go);
    - [ConnectionMediatorV2]: the v2 interface (connection_mediator_v2.go);
    - [ManagementServer]: the management interface (management.go).

    The lookups of the connection repository, the tenant translator and the
    proxy factory are parameters; a Go map is iterated in the order of
    [map_to_list], Go's own being unspecified. *)

From S2P Require Import Prelude GoStrings GoNumTime Json JsonFacts GoUrl Domain Repository Locators Pagination HttpApi Middlewares.
From stdpp Require Import options.

Definition accountMismatchErrorMsg : string := "Account mismatch".
Definition emptyDirectictiveErrorMsg : string := "Directive field is empty".
Definition CONNECTED_STATUS : string := "connected".
Definition DISCONNECTED_STATUS : string := "disconnected".
Definition DECODE_ERROR : string := "Unable to process json input".
Definition NEGATIVE_DELAY_ERROR : string := "Delay field cannot be negative".
Definition PING_ERROR : string := "Ping failed".

(** ** Requests *)

Record messageRequest := {
  mr_Account : string; mr_Recipient : string; mr_Payload : value; mr_Metadata : value;
  mr_Directive : string }.
Definition zero_messageRequest : messageRequest := {|
  mr_Account := EmptyString; mr_Recipient := EmptyString; mr_Payload := VNull;
  mr_Metadata := VNull; mr_Directive := EmptyString |}.
Definition messageRequest_fields : list (field messageRequest) := [
  ("account", set_string (λ x m, {| mr_Account := x; mr_Recipient := mr_Recipient m;
     mr_Payload := mr_Payload m; mr_Metadata := mr_Metadata m; mr_Directive := mr_Directive m |}));
  ("recipient", set_string (λ x m, {| mr_Account := mr_Account m; mr_Recipient := x;
     mr_Payload := mr_Payload m; mr_Metadata := mr_Metadata m; mr_Directive := mr_Directive m |}));
  ("payload", set_interface (λ x m, {| mr_Account := mr_Account m; mr_Recipient := mr_Recipient m;
     mr_Payload := x; mr_Metadata := mr_Metadata m; mr_Directive := mr_Directive m |}));
  ("metadata", set_interface (λ x m, {| mr_Account := mr_Account m; mr_Recipient := mr_Recipient m;
     mr_Payload := mr_Payload m; mr_Metadata := x; mr_Directive := mr_Directive m |}));
  ("directive", set_string (λ x m, {| mr_Account := mr_Account m; mr_Recipient := mr_Recipient m;
     mr_Payload := mr_Payload m; mr_Metadata := mr_Metadata m; mr_Directive := x |}))].
Definition messageRequest_valid (m : messageRequest) : bool :=
  required (mr_Account m) && required (mr_Recipient m) && required (mr_Directive m).

Record messageRequestV2 := { m2_Payload : value; m2_Metadata : value; m2_Directive : string }.
Definition zero_messageRequestV2 : messageRequestV2 :=
  {| m2_Payload := VNull; m2_Metadata := VNull; m2_Directive := EmptyString |}.
Definition messageRequestV2_fields : list (field messageRequestV2) := [
  ("payload", set_interface (λ x m, {| m2_Payload := x; m2_Metadata := m2_Metadata m;
     m2_Directive := m2_Directive m |}));
  ("metadata", set_interface (λ x m, {| m2_Payload := m2_Payload m; m2_Metadata := x;
     m2_Directive := m2_Directive m |}));
  ("directive", set_string (λ x m, {| m2_Payload := m2_Payload m; m2_Metadata := m2_Metadata m;
     m2_Directive := x |}))].
Definition messageRequestV2_valid (m : messageRequestV2) : bool := required (m2_Directive m).

Record connectionID := { ci_Account : string; ci_NodeID : string }.
Definition zero_connectionID : connectionID := {| ci_Account := EmptyString; ci_NodeID := EmptyString |}.
Definition connectionID_fields : list (field connectionID) := [
  ("account", set_string (λ x c, {| ci_Account := x; ci_NodeID := ci_NodeID c |}));
  ("node_id", set_string (λ x c, {| ci_Account := ci_Account c; ci_NodeID := x |}))].
Definition connectionID_valid (c : connectionID) : bool :=
  required (ci_Account c) && required (ci_NodeID c).

Record disconnectRequest := { dr_Account : string; dr_NodeID : string; dr_Message : string }.
Definition zero_disconnectRequest : disconnectRequest :=
  {| dr_Account := EmptyString; dr_NodeID := EmptyString; dr_Message := EmptyString |}.
Definition disconnectRequest_fields : list (field disconnectRequest) := [
  ("account", set_string (λ x d, {| dr_Account := x; dr_NodeID := dr_NodeID d; dr_Message := dr_Message d |}));
  ("node_id", set_string (λ x d, {| dr_Account := dr_Account d; dr_NodeID := x; dr_Message := dr_Message d |}));
  ("message", set_string (λ x d, {| dr_Account := dr_Account d; dr_NodeID := dr_NodeID d; dr_Message := x |}))].
Definition disconnectRequest_valid (d : disconnectRequest) : bool :=
  required (dr_Account d) && required (dr_NodeID d).

Record reconnectRequest := {
  rr_Account : string; rr_NodeID : string; rr_Delay : Z; rr_Message : string }.
Definition zero_reconnectRequest : reconnectRequest :=
  {| rr_Account := EmptyString; rr_NodeID := EmptyString; rr_Delay := 0; rr_Message := EmptyString |}.
Definition reconnectRequest_fields : list (field reconnectRequest) := [
  ("account", set_string (λ x d, {| rr_Account := x; rr_NodeID := rr_NodeID d; rr_Delay := rr_Delay d;
     rr_Message := rr_Message d |}));
  ("node_id", set_string (λ x d, {| rr_Account := rr_Account d; rr_NodeID := x; rr_Delay := rr_Delay d;
     rr_Message := rr_Message d |}));
  ("delay", set_int (λ x d, {| rr_Account := rr_Account d; rr_NodeID := rr_NodeID d; rr_Delay := x;
     rr_Message := rr_Message d |}));
  ("message", set_string (λ x d, {| rr_Account := rr_Account d; rr_NodeID := rr_NodeID d;
     rr_Delay := rr_Delay d; rr_Message := x |}))].
Definition reconnectRequest_valid (d : reconnectRequest) : bool :=
  required (rr_Account d) && required (rr_NodeID d) && required_int (rr_Delay d).

(** ** Responses *)

(** The members that hold [interface{}] values. *)
Definition doc_members (l : list (string * value)) : option (list (string * jdoc)) :=
  opt_all ((λ kv : string * value, d ← doc_of true kv.2; Some (kv.1, d)) <$> l).

Definition doc_messageResponse (JobID : string) : jdoc := JObj [("id", jstring JobID)].

Record connectionStatusResponse := {
  csr_Status : string; csr_Dispatchers : value; csr_CanonicalFacts : value; csr_Tags : value }.
Definition doc_connectionStatusResponse (r : connectionStatusResponse) : option jdoc :=
  l ← doc_members (omit_empty_value "dispatchers" (csr_Dispatchers r)
                   ++ omit_empty_value "canonical_facts" (csr_CanonicalFacts r)
                   ++ omit_empty_value "tags" (csr_Tags r));
  Some (JObj (("status", jstring (csr_Status r)) :: l)).

Definition doc_connectionPingResponse (Status : string) (Payload : value) : option jdoc :=
  p ← doc_of true Payload; Some (JObj [("status", jstring Status); ("payload", p)]).

Record connectionResponseV2 := {
  cr2_Account : AccountID; cr2_OrgID : OrgID; cr2_ClientID : ClientID;
  cr2_CanonicalFacts : value; cr2_Dispatchers : value; cr2_Tags : value }.
Definition members_connectionResponseV2 (r : connectionResponseV2) : option (list (string * jdoc)) :=
  l ← doc_members (omit_empty_value "canonical_facts" (cr2_CanonicalFacts r)
                   ++ omit_empty_value "dispatchers" (cr2_Dispatchers r)
                   ++ omit_empty_value "tags" (cr2_Tags r));
  Some (omit_empty_string "account" (cr2_Account r) ++ omit_empty_string "org_id" (cr2_OrgID r)
        ++ omit_empty_string "client_id" (cr2_ClientID r) ++ l).
(** The embedded struct's members follow the status. *)
Definition doc_connectionStatusResponseV2 (Status : string) (r : connectionResponseV2) : option jdoc :=
  l ← members_connectionResponseV2 r; Some (JObj (("status", jstring Status) :: l)).

Definition zero_connectionResponseV2 : connectionResponseV2 := {|
  cr2_Account := EmptyString; cr2_OrgID := EmptyString; cr2_ClientID := EmptyString;
  cr2_CanonicalFacts := VNull; cr2_Dispatchers := VNull; cr2_Tags := VNull |}.

Definition convertConnectorClientStateToConnectionResponseV2 (clientState : ConnectorClientState)
    : connectionResponseV2 := {|
  cr2_Account := ccAccount clientState; cr2_OrgID := ccOrgID clientState;
  cr2_ClientID := ccClientID clientState; cr2_CanonicalFacts := ccCanonicalFacts clientState;
  cr2_Dispatchers := ccDispatchers clientState; cr2_Tags := ccTags clientState |}.

(** ** Handlers *)

Section handlers.
Context {W : Type} `{!Lens W response, !Translator W, !ConnectorClientProxyFactory W}.
Context (getConnectionByClientID : OrgID → ClientID → M W (ConnectorClientState * option error)).
Context (getConnectionsByOrgID : OrgID → Z → Z → M W (option connections * Z * option error)).
Context (getAllConnections : Z → Z → M W (option (gmap AccountID connections) * Z * option error)).
(** What a conversion of NaN gives ([calculateOffsetOfLastPage] with limit 0). *)
Context (int_of_nan : Z).

Definition respond (status : Z) (p : payload) : M W unit := zoom (writeJSONResponse status p).
Definition respond_error (title : string) (status : Z) (detail : string) : M W unit :=
  zoom (writeErrorResponse title status detail).

Definition createConnectorClientProxy (account : AccountID) (clientId : ClientID)
    : M W (ConnectorClient W + error) :=
  r ← EANToOrgID account;
  let '(resolvedOrgId, err) := r in
  match err with
  | Some e => mret (inr e)
  | None =>
      r ← getConnectionByClientID resolvedOrgId clientId;
      let '(clientState, err) := r in
      match err with
      | Some e => mret (inr e)
      | None => CreateProxy (ccOrgID clientState) (ccAccount clientState) (ccClientID clientState)
                  (ccCanonicalFacts clientState) (ccDispatchers clientState) (ccTags clientState)
      end
  end.

Definition writeConnectionFailureResponse : M W unit :=
  respond_error "No connection to the rhc client" 404 "No connection to the rhc client".

(** The end of both message handlers: send, and report. *)
Definition send_and_respond (client : ConnectorClient W) (directive : string) (metadata payload : value)
    : M W unit :=
  r ← SendMessage client directive metadata payload;
  let '(jobID, err) := r in
  if bool_decide (err = Some ErrDisconnectedNode) then writeConnectionFailureResponse
  else match err with
       | Some e => respond_error "Error passing message to rhc client" 500 (Error e)
       | None =>
           match jobID with
           | Some id => respond 201 (Payload (Some (doc_messageResponse id)))
           | None => panic "invalid memory address or nil pointer dereference"
           end
       end.

(** [MessageReceiver.handleJob] *)
Definition handleJob : Handler W := λ req,
  principal ← the_principal (rq_ctx req);
  r ← decodeJSON messageRequest_fields zero_messageRequest messageRequest_valid (rq_body req);
  match r with
  | inr err => respond_error "Unable to process json input" 400 (Error err)
  | inl msgRequest =>
      if bool_decide (principal_account principal ≠ mr_Account msgRequest)
      then respond_error accountMismatchErrorMsg 403 accountMismatchErrorMsg
      else if TrimSpace_empty (mr_Directive msgRequest)
      then respond_error emptyDirectictiveErrorMsg 400 emptyDirectictiveErrorMsg
      else
        c ← createConnectorClientProxy (mr_Account msgRequest) (mr_Recipient msgRequest);
        match c with
        | inr err => writeConnectionFailureResponse
        | inl client => send_and_respond client (mr_Directive msgRequest) (mr_Metadata msgRequest)
                          (mr_Payload msgRequest)
        end
  end.

Definition getConnectionStatus (verifyInput : request → connectionID → M W (option error))
    : Handler W := λ req,
  principal ← the_principal (rq_ctx req);
  r ← decodeJSON connectionID_fields zero_connectionID connectionID_valid (rq_body req);
  match r with
  | inr err => respond_error "Unable to process json input" 400 (Error err)
  | inl connID =>
      verr ← verifyInput req connID;
      match verr with
      | Some err => respond_error (Error err) 403 (Error err)
      | None =>
          r ← EANToOrgID (ci_Account connID);
          let '(resolvedOrgId, err) := r in
          match err with
          | Some e => respond_error "Unable to translate account to org_id" 400 (Error e)
          | None =>
              r ← getConnectionByClientID resolvedOrgId (ci_NodeID connID);
              let '(clientState, err) := r in
              respond 200 (Payload (doc_connectionStatusResponse match err with
                | None => {| csr_Status := CONNECTED_STATUS;
                             csr_Dispatchers := ccDispatchers clientState;
                             csr_CanonicalFacts := ccCanonicalFacts clientState;
                             csr_Tags := ccTags clientState |}
                | Some _ => {| csr_Status := DISCONNECTED_STATUS; csr_Dispatchers := VNull;
                               csr_CanonicalFacts := VNull; csr_Tags := VNull |}
                end))
          end
      end
  end.

(** [MessageReceiver.handleConnectionStatus] *)
Definition v1_handleConnectionStatus : Handler W :=
  getConnectionStatus (λ req connID,
    principal ← the_principal (rq_ctx req);
    mret (if bool_decide (principal_account principal ≠ ci_Account connID)
          then Some (ErrText accountMismatchErrorMsg) else None)).

(** *** ConnectionMediatorV2 *)

Definition getClientIDFromRequestPath (req : request) : ClientID := default EmptyString (rq_vars req !! "id").

Definition handleSendMessage : Handler W := λ req,
  principal ← the_principal (rq_ctx req);
  let recipient := getClientIDFromRequestPath req in
  r ← decodeJSON messageRequestV2_fields zero_messageRequestV2 messageRequestV2_valid (rq_body req);
  match r with
  | inr err => respond_error "Unable to process json input" 400 (Error err)
  | inl msgRequest =>
      if TrimSpace_empty (m2_Directive msgRequest)
      then respond_error emptyDirectictiveErrorMsg 400 emptyDirectictiveErrorMsg
      else
        r ← getConnectionByClientID (principal_org principal) recipient;
        let '(clientState, err) := r in
        match err with
        | Some _ => writeConnectionFailureResponse
        | None =>
            c ← CreateProxy (ccOrgID clientState) (ccAccount clientState) (ccClientID clientState)
                  (ccCanonicalFacts clientState) (ccDispatchers clientState) (ccTags clientState);
            match c with
            | inr err => writeConnectionFailureResponse
            | inl client => send_and_respond client (m2_Directive msgRequest) (m2_Metadata msgRequest)
                              (m2_Payload msgRequest)
            end
        end
  end.

Definition v2_handleConnectionStatus : Handler W := λ req,
  principal ← the_principal (rq_ctx req);
  let recipient := getClientIDFromRequestPath req in
  r ← getConnectionByClientID (principal_org principal) recipient;
  let '(clientState, err) := r in
  match err with
  | Some e =>
      if bool_decide (e = NotFoundError)
      then respond 200 (Payload (doc_connectionStatusResponseV2 DISCONNECTED_STATUS zero_connectionResponseV2))
      else writeConnectionFailureResponse
  | None =>
      respond 200 (Payload (doc_connectionStatusResponseV2 "connected"
        (convertConnectorClientStateToConnectionResponseV2 clientState)))
  end.

Definition doc_connections_v2 (accountConnections : connections) : option jdoc :=
  JArr <$> opt_all ((λ kv : ClientID * ConnectorClientState,
    JObj <$> members_connectionResponseV2 (convertConnectorClientStateToConnectionResponseV2 kv.2))
    <$> map_to_list accountConnections).

(** After a failed lookup the handler writes its error and goes on. *)
Definition handleConnectionListByOrgId : Handler W := λ req,
  principal ← the_principal (rq_ctx req);
  let '(offset, limit, err) := getOffsetAndLimitFromQueryParams (rq_url req) in
  match err with
  | Some e => respond_error "Invalid request" 400 (Error e)
  | None =>
      r ← getConnectionsByOrgID (principal_org principal) offset limit;
      let '(accountConnections, totalConnections, err) := r in
      (match err with
       | Some e => respond_error "Error looking up connections by org_id" 500 (Error e)
       | None => mret tt
       end);;
      respond 200 (Payload (buildPaginatedResponse int_of_nan (rq_url req) offset limit totalConnections
                              <$> doc_connections_v2 (default ∅ accountConnections)))
  end.

(** *** ManagementServer *)

Definition no_connection_found (account node : string) : string :=
  "No connection found for node (" +:+ account +:+ ":" +:+ node +:+ ")".

Definition handleDisconnect : Handler W := λ req,
  principal ← the_principal (rq_ctx req);
  r ← decodeJSON disconnectRequest_fields zero_disconnectRequest disconnectRequest_valid (rq_body req);
  match r with
  | inr err => respond_error DECODE_ERROR 400 (Error err)
  | inl disconnectReq =>
      c ← createConnectorClientProxy (dr_Account disconnectReq) (dr_NodeID disconnectReq);
      match c with
      | inr err => let errMsg := no_connection_found (dr_Account disconnectReq) (dr_NodeID disconnectReq) in
                   respond_error errMsg 400 errMsg
      | inl client =>
          err ← Disconnect client (dr_Message disconnectReq);
          respond 200 (Payload (Some (JObj [])))
      end
  end.

Definition handleReconnect : Handler W := λ req,
  principal ← the_principal (rq_ctx req);
  r ← decodeJSON reconnectRequest_fields zero_reconnectRequest reconnectRequest_valid (rq_body req);
  match r with
  | inr err => respond_error DECODE_ERROR 400 (Error err)
  | inl reconnectReq =>
      if (rr_Delay reconnectReq <? 0)%Z
      then respond_error NEGATIVE_DELAY_ERROR 400 NEGATIVE_DELAY_ERROR
      else
        c ← createConnectorClientProxy (rr_Account reconnectReq) (rr_NodeID reconnectReq);
        match c with
        | inr err => let errMsg := no_connection_found (rr_Account reconnectReq) (rr_NodeID reconnectReq) in
                     respond_error errMsg 400 errMsg
        | inl client =>
            err ← Reconnect client (rr_Message reconnectReq) (rr_Delay reconnectReq);
            respond 200 NoPayload
        end
  end.

Definition mgmt_handleConnectionStatus : Handler W := getConnectionStatus (λ _ _, mret None).

Definition connections_per_account (m : gmap AccountID connections) : jdoc :=
  JArr ((λ kv : AccountID * connections,
    JObj [("account", jstring kv.1);
          ("connections", JArr ((λ c : ClientID * ConnectorClientState, jstring c.1) <$> map_to_list kv.2))])
    <$> map_to_list m).

(** [getConnectionListingParams]: (offset, limit) *)
Definition getConnectionListingParams (req : request) : Z * Z + error :=
  match getLimitFromQueryParams (rq_url req) with
  | (_, Some e) => inr e
  | (limit, None) =>
      match getOffsetFromQueryParams (rq_url req) with
      | (_, Some e) => inr e
      | (offset, None) => inl (offset, limit)
      end
  end.

(** The error of the lookup is dropped. *)
Definition handleConnectionListing : Handler W := λ req,
  principal ← the_principal (rq_ctx req);
  match getConnectionListingParams req with
  | inr err => zoom (writeInvalidInputResponse err)
  | inl (offset, limit) =>
      r ← getAllConnections offset limit;
      let '(allReceptorConnections, totalConnections, _) := r in
      respond 200 (Payload (Some (buildPaginatedResponse int_of_nan (rq_url req) offset limit
        totalConnections (connections_per_account (default ∅ allReceptorConnections)))))
  end.

Definition handleConnectionListingByAccount : Handler W := λ req,
  principal ← the_principal (rq_ctx req);
  match getConnectionListingParams req with
  | inr err => zoom (writeInvalidInputResponse err)
  | inl (offset, limit) =>
      let account := default EmptyString (rq_vars req !! "id") in
      r ← EANToOrgID account;
      let '(resolvedOrgId, err) := r in
      match err with
      | Some e => zoom (writeInvalidInputResponse e)
      | None =>
          r ← getConnectionsByOrgID resolvedOrgId offset limit;
          let '(accountConnections, totalConnections, _) := r in
          respond 200 (Payload (Some (buildPaginatedResponse int_of_nan (rq_url req) offset limit
            totalConnections
            (JArr ((λ kv : ClientID * ConnectorClientState, jstring kv.1)
                     <$> map_to_list (default ∅ accountConnections))))))
      end
  end.

Definition handleConnectionPing : Handler W := λ req,
  principal ← the_principal (rq_ctx req);
  r ← decodeJSON connectionID_fields zero_connectionID connectionID_valid (rq_body req);
  match r with
  | inr err => respond_error DECODE_ERROR 400 (Error err)
  | inl connID =>
      c ← createConnectorClientProxy (ci_Account connID) (ci_NodeID connID);
      match c with
      | inr err => respond 200 (Payload (doc_connectionPingResponse DISCONNECTED_STATUS VNull))
      | inl client =>
          pingErr ← Ping client;
          match pingErr with
          | Some e => respond_error PING_ERROR 400 (Error e)
          | None => respond 200 (Payload (doc_connectionPingResponse CONNECTED_STATUS VNull))
          end
      end
  end.
End handlers.
