(* ===== verification/ApiSystem.v ===== *)
(** * The API server, composed ([cmd/cloud-connector/api_server.go])

    The REST handlers of [Api] over the SQL lookups of [Locators] and the MQTT
    proxies of [MqttProxy], on one [ApiWorld].  The properties say to whom a
    request can make the server talk, and what it answers. *)

From S2P Require Import Prelude GoStrings GoNumTime Json JsonFacts GoUrl Domain Config Topic Protocol MqttProxy Services Repository Locators Pagination HttpApi Middlewares Api.
From stdpp Require Import options.

(** ** api_server.go *)

(** [buildConnectionLookupInstances] *)
Definition buildConnectionLookupInstances (cfg : Config)
    : OrgID → ClientID → M Db (ConnectorClientState * option error) :=
  if bool_decide (ApiServerConnectionLookupImpl cfg = "relaxed")
  then NewPermittedTenantSqlGetConnectionByClientID
  else NewSqlGetConnectionByClientID.

(** [buildTenantTranslatorMockMapping]: an empty org is the nil pointer, a value
    that is not a string panics. *)
Fixpoint mock_mapping {W} (l : list (string * value)) : M W (gmap string (option string)) :=
  match l with
  | [] => mret ∅
  | (k, v) :: l' =>
      value ← assert_string v;
      m ← mock_mapping l';
      mret (<[k := if bool_decide (value = EmptyString) then None else Some value]> m)
  end.
Definition buildTenantTranslatorMockMapping {W} (mappingFromConfig : gmap string value)
    : M W (gmap string (option string)) := mock_mapping (map_to_list mappingFromConfig).

(** ** The world of the API server *)

Record ApiWorld := {
  aw_db : Db;
  aw_env : Env;
  aw_response : response;
  aw_translate : string → string + error;
}.

#[export] Program Instance aw_db_lens : Lens ApiWorld Db := {
  lget := aw_db;
  lset x w := {| aw_db := x; aw_env := aw_env w; aw_response := aw_response w;
                 aw_translate := aw_translate w |}; }.
Next Obligation. done. Qed.
Next Obligation. by intros []. Qed.
Next Obligation. done. Qed.
#[export] Program Instance aw_env_lens : Lens ApiWorld Env := {
  lget := aw_env;
  lset x w := {| aw_db := aw_db w; aw_env := x; aw_response := aw_response w;
                 aw_translate := aw_translate w |}; }.
Next Obligation. done. Qed.
Next Obligation. by intros []. Qed.
Next Obligation. done. Qed.
#[export] Program Instance aw_response_lens : Lens ApiWorld response := {
  lget := aw_response;
  lset x w := {| aw_db := aw_db w; aw_env := aw_env w; aw_response := x;
                 aw_translate := aw_translate w |}; }.
Next Obligation. done. Qed.
Next Obligation. by intros []. Qed.
Next Obligation. done. Qed.

(** The tenant translator answers the same for the same account. *)
#[export] Instance aw_translator : Translator ApiWorld := {
  EANToOrgID account w := (Ret match aw_translate w account with
                               | inl org => (org, None)
                               | inr e => (EmptyString, Some e)
                               end, w) }.

Class ApiDeployment := { api_config : Config }.
#[export] Instance aw_factory `{!ApiDeployment} : ConnectorClientProxyFactory ApiWorld :=
  proxy_factory api_config (NewTopicBuilder (MqttTopicPrefix api_config)).

(** The endpoints that talk to clients. *)
Inductive endpoint := V1Message | V2Message | MgmtDisconnect | MgmtReconnect | MgmtPing.

Section server.
Context `{!ApiDeployment}.

(** The lookup an endpoint is built with. *)
Definition lookup_of (e : endpoint) : OrgID → ClientID → M ApiWorld (ConnectorClientState * option error) :=
  λ org cid, zoom (match e with
                   | V1Message | V2Message => buildConnectionLookupInstances api_config org cid
                   | _ => NewSqlGetConnectionByClientID org cid
                   end).

Definition handler_of (e : endpoint) : Handler ApiWorld :=
  match e with
  | V1Message => handleJob (lookup_of e)
  | V2Message => handleSendMessage (lookup_of e)
  | MgmtDisconnect => handleDisconnect (lookup_of e)
  | MgmtReconnect => handleReconnect (lookup_of e)
  | MgmtPing => handleConnectionPing (lookup_of e)
  end.
End server.

(** ** Lemmas: a proxy publishes on its client's topics only *)

Section proxies.
Context {W : Type} `{!Lens W Env}.

Lemma zooms_env {A} (m : M Env A) : zooms (zoom m : M W A) (zoom m : M Env A).
Proof. intros w. unfold zoom. cbn. by destruct (m (lget w)). Qed.

Lemma zooms_sendMessage topic qos t d :
  zooms (sendMessage (W := W) topic qos t d) (sendMessage (W := Env) topic qos t d).
Proof.
  unfold sendMessage. destruct d; [|apply zooms_ret]. apply zooms_bind; [apply zooms_env|].
  intros [|[]]; (apply zooms_bind; [apply zooms_env|intros; apply zooms_ret]).
Qed.

Lemma zooms_topic t : zooms (topic_or_panic (W := W) t) (topic_or_panic (W := Env) t).
Proof. destruct t; [apply zooms_ret|apply zooms_panic]. Qed.

Lemma zooms_build_data d m p :
  zooms (BuildDataMessage (W := W) d m p) (BuildDataMessage (W := Env) d m p).
Proof.
  unfold BuildDataMessage. apply zooms_bind; [apply zooms_env|]. intros []; [|apply zooms_ret].
  apply zooms_bind; [apply zooms_env|intros; apply zooms_ret].
Qed.

Lemma zooms_build_control {C} ty (c : C) :
  zooms (BuildControlMessage (W := W) ty c) (BuildControlMessage (W := Env) ty c).
Proof.
  unfold BuildControlMessage. apply zooms_bind; [apply zooms_env|]. intros []; [|apply zooms_ret].
  apply zooms_bind; [apply zooms_env|intros; apply zooms_ret].
Qed.

Lemma zooms_SendMessage cc d m p :
  zooms (proxy_SendMessage (W := W) cc d m p) (proxy_SendMessage (W := Env) cc d m p).
Proof.
  unfold proxy_SendMessage. apply zooms_bind; [apply zooms_env|intros _].
  apply zooms_bind; [apply zooms_build_data|]. intros [[id msg] err].
  apply zooms_bind; [apply zooms_topic|intros topic].
  apply zooms_bind; [apply zooms_sendMessage|intros; apply zooms_ret].
Qed.

Lemma zooms_command cc c :
  zooms (proxy_command (W := W) cc c) (proxy_command (W := Env) cc c).
Proof.
  unfold proxy_command. apply zooms_bind; [apply zooms_topic|intros topic].
  apply zooms_bind; [|intros; apply zooms_ret]. unfold sendControlMessage.
  apply zooms_bind; [apply zooms_build_control|]. intros [[id msg] [e|]]; [apply zooms_ret|].
  apply zooms_bind; [apply zooms_sendMessage|intros; apply zooms_ret].
Qed.

Lemma zooms_Reconnect cc m d :
  zooms (proxy_Reconnect (W := W) cc m d) (proxy_Reconnect (W := Env) cc m d).
Proof.
  unfold proxy_Reconnect, SendReconnectMessageToClient, BuildReconnectMessage.
  apply zooms_bind; [apply zooms_build_control|]. intros [[id msg] [e|]]; [apply zooms_ret|].
  apply zooms_bind; [apply zooms_topic|intros topic]. apply zooms_sendMessage.
Qed.
End proxies.

(** At most one message, on the given topic; and one if there is no error. *)
Definition sends {A} (topic : string) (e : Env) (err : A → option error) (o : outcome A) (e' : Env) : Prop :=
  ∃ r sent, o = Ret r ∧ published e' = published e ++ option_list sent ∧
    (∀ m, sent = Some m → msg_topic m = topic) ∧ (err r = None → is_Some sent).

Lemma sendMessage_sends topic qos t d (e : Env) :
  wp (sendMessage (W := Env) topic qos t d) e (sends topic e id).
Proof.
  destruct d as [d|].
  - rewrite wp_unfold, sendMessage_run. eexists _, (Some _). split; [done|].
    split; [done|]. split; [|by eexists]. by intros m [= <-].
  - eexists _, None. cbn. rewrite app_nil_r. done.
Qed.

Lemma env_frame {A} (m : M Env A) topic (err : A → option error) (e1 e2 : Env) o e' :
  published e2 = published e1 → sends topic e2 err o e' → sends topic e1 err o e'.
Proof. unfold sends. by intros ->. Qed.

Lemma build_control_quiet {C} ty (c : C) (e : Env) :
  ∃ id msg err e', BuildControlMessage (W := Env) ty c e = (Ret (id, msg, err), e') ∧
    published e' = published e.
Proof.
  unfold BuildControlMessage, mbind, M_bind. cbn -[env_step].
  destruct (env_uuid e (env_tick e)); cbn -[env_step]; by eexists _, _, _, _.
Qed.

Lemma build_data_quiet d m p (e : Env) :
  ∃ id msg err e', BuildDataMessage (W := Env) d m p e = (Ret (id, msg, err), e') ∧
    published e' = published e.
Proof.
  unfold BuildDataMessage, mbind, M_bind. cbn -[env_step].
  destruct (env_uuid e (env_tick e)); cbn -[env_step]; by eexists _, _, _, _.
Qed.

Section topics.
Context (cc : ConnectorClientMQTTProxy).
Hypothesis Hprefix : string_mem "%" (tbPrefix (pTopicBuilder cc)) = false.

Lemma SendMessage_sends d m p (e : Env) :
  wp (proxy_SendMessage (W := Env) cc d m p) e (sends (client_in_topic cc "data") e snd).
Proof using Hprefix.
  unfold proxy_SendMessage. apply wp_bind. rewrite wp_unfold, Inc_run. cbn [fst snd].
  set (e1 := env_count _ e). destruct (build_data_quiet d m p e1) as (id&msg&err&e2&Hb&Hq).
  eapply wp_bind_ret; [exact Hb|]. rewrite data_topic_eq by done. cbn [topic_or_panic].
  apply wp_bind, (wp_ret (W := Env)). apply wp_bind.
  eapply wp_mono; [apply sendMessage_sends|]. intros o e3 (r&sent&->&Hp&Ht&Hs).
  apply wp_ret. exists (id, r), sent. split_and!; [done| |done|done]. by rewrite Hp, Hq.
Qed.

Lemma command_sends c (e : Env) :
  wp (proxy_command (W := Env) cc c) e (sends (client_in_topic cc "control") e id).
Proof using Hprefix.
  unfold proxy_command. rewrite control_topic_eq by done. cbn [topic_or_panic].
  apply wp_bind, (wp_ret (W := Env)). apply wp_bind. unfold sendControlMessage. apply wp_bind.
  set (content := {| Command := c |}).
  destruct (build_control_quiet "command" content e) as (id&msg&err&e2&Hb&Hq).
  rewrite wp_unfold, Hb. cbn [fst snd]. destruct err as [err|].
  - apply wp_ret, wp_ret. exists (Some err), None. rewrite Hq, app_nil_r. done.
  - apply wp_bind. eapply wp_mono; [apply sendMessage_sends|]. intros o e3 (r&sent&->&Hp&Ht&Hs).
    apply wp_ret, wp_ret. exists r, sent. split_and!; [done| |done|done]. by rewrite Hp, Hq.
Qed.

Lemma Reconnect_sends m d (e : Env) :
  wp (proxy_Reconnect (W := Env) cc m d) e (sends (client_in_topic cc "control") e id).
Proof using Hprefix.
  unfold proxy_Reconnect, SendReconnectMessageToClient, BuildReconnectMessage. apply wp_bind.
  set (content := {| Command := "reconnect" |}).
  destruct (build_control_quiet "command" content e) as (id&msg&err&e2&Hb&Hq).
  rewrite wp_unfold, Hb. cbn [fst snd]. destruct err as [err|].
  - apply wp_ret. exists (Some err), None. rewrite Hq, app_nil_r. done.
  - rewrite control_topic_eq by done. cbn [topic_or_panic]. apply wp_bind, (wp_ret (W := Env)).
    eapply wp_mono; [apply sendMessage_sends|]. intros o e3 (r&sent&->&Hp&Ht&Hs).
    exists r, sent. split_and!; [done| |done|done]. by rewrite Hp, Hq.
Qed.
End topics.

(** ** Lemmas: a request reaches one client at most *)

(** The body of a request, where the handler gets past it. *)
Definition decoded {S} (fields : list (field S)) (s0 : S) (valid : S → bool) (body : string) : option S :=
  match (decodeJSON (W := unit) fields s0 valid body tt).1 with Ret (inl s) => Some s | _ => None end.

Lemma decodeJSON_cases {W S} (fields : list (field S)) s0 valid body (w : W) :
  (∃ s, decodeJSON fields s0 valid body w = (Ret (inl s), w) ∧
        decoded fields s0 valid body = Some s) ∨
  (∃ e, decodeJSON fields s0 valid body w = (Ret (inr e), w) ∧
        decoded fields s0 valid body = None) ∨
  (∃ why, decodeJSON fields s0 valid body w = (Panic why, w) ∧
        decoded fields s0 valid body = None).
Proof.
  unfold decoded, decodeJSON. destruct (MaxBytesReader body max_body) as [bytes cut].
  destruct (DecodeStream bytes) as [[d rest]|]; [|right; left; by eexists].
  destruct d; try (right; left; by eexists).
  - case_match; [right; left|right; right]; by eexists.
  - destruct (decode_struct fields s0 _) as [s|]; [|right; left; by eexists].
    destruct (valid s); [|right; left; by eexists].
    destruct (More rest); [right; left|left]; by eexists.
Qed.

Section requests.
Context `{!ApiDeployment}.

(** Whom a request asks for: the org it is looked up under, and the client.  The
    v1 interface refuses another account than the caller's; the management
    interface takes any. *)
Definition request_target (ep : endpoint) (req : request) (p : Principal)
    (translate : string → string + error) : option (OrgID * ClientID) :=
  let of_account account cid :=
    match translate account with inl org => Some (org, cid) | inr _ => None end in
  match ep with
  | V1Message =>
      m ← decoded messageRequest_fields zero_messageRequest messageRequest_valid (rq_body req);
      if bool_decide (principal_account p = mr_Account m)
      then of_account (principal_account p) (mr_Recipient m) else None
  | V2Message => Some (principal_org p, getClientIDFromRequestPath req)
  | MgmtDisconnect =>
      d ← decoded disconnectRequest_fields zero_disconnectRequest disconnectRequest_valid (rq_body req);
      of_account (dr_Account d) (dr_NodeID d)
  | MgmtReconnect =>
      d ← decoded reconnectRequest_fields zero_reconnectRequest reconnectRequest_valid (rq_body req);
      of_account (rr_Account d) (rr_NodeID d)
  | MgmtPing =>
      d ← decoded connectionID_fields zero_connectionID connectionID_valid (rq_body req);
      of_account (ci_Account d) (ci_NodeID d)
  end.

(** The rows an endpoint may reach for an org: its own, and satellites where the
    relaxed lookup is configured for the message interfaces. *)
Definition may_reach (ep : endpoint) (org : OrgID) (cid : ClientID) (r : Row) : Prop :=
  r_client_id r = cid ∧ r_org_id r ≠ EmptyString ∧
  (r_org_id r = org ∨
   ApiServerConnectionLookupImpl api_config = "relaxed" ∧ (ep = V1Message ∨ ep = V2Message) ∧
   jsonb_exists (r_dispatchers r) satelliteWorker = true).

Definition channel (ep : endpoint) : string :=
  match ep with V1Message | V2Message => "data" | _ => "control" end.

Definition topic_of (ep : endpoint) (cid : ClientID) : string :=
  Join [tbPrefix (NewTopicBuilder (MqttTopicPrefix api_config)); "insights"; cid; channel ep; "in"] "/".

(** What a request may change beside its response. *)
Definition observed (w : ApiWorld) : list Row * list message := (table (aw_db w), published (aw_env w)).

(** At most one message is sent, to the client the request asks for. *)
Definition reaches (ep : endpoint) (req : request) (w : ApiWorld) (o : outcome unit) (w' : ApiWorld) : Prop :=
  table (aw_db w') = table (aw_db w) ∧
  ∃ sent, published (aw_env w') = published (aw_env w) ++ option_list sent ∧
    ∀ m, sent = Some m → ∃ p org cid r,
      GetPrincipal (rq_ctx req) = Some p ∧ request_target ep req p (aw_translate w) = Some (org, cid) ∧
      r ∈ table (aw_db w) ∧ may_reach ep org cid r ∧ msg_topic m = topic_of ep cid.

Lemma reaches_from ep req (m : M ApiWorld unit) w w1 :
  preserves observed m → observed w1 = observed w → wp m w1 (reaches ep req w).
Proof.
  intros Hm Ho. rewrite wp_unfold. specialize (Hm w1). rewrite Ho in Hm. injection Hm as Ht Hp.
  split; [done|]. exists None. by rewrite app_nil_r.
Qed.

Lemma reaches_quiet ep req (m : M ApiWorld unit) w : preserves observed m → wp m w (reaches ep req w).
Proof. intros Hm. by apply reaches_from. Qed.

Lemma reaches_then {A} ep req (m : M ApiWorld A) (k : A → M ApiWorld unit) w w1 :
  (∀ a, preserves observed (k a)) →
  wp m w1 (λ o w', reaches ep req w (Ret tt) w') → wp (m ≫= k) w1 (reaches ep req w).
Proof.
  intros Hk Hm. apply wp_bind. eapply wp_mono; [exact Hm|].
  intros [a|?|?] w' Hr; [|exact Hr..]. rewrite wp_unfold. specialize (Hk a w').
  injection Hk as Ht Hp. destruct Hr as [Ht1 Hs]. split; [congruence|]. by rewrite Hp.
Qed.

Lemma respond_quiet (m : M response unit) : preserves observed (zoom m : M ApiWorld unit).
Proof. intros w. unfold zoom. by destruct (m (lget w)). Qed.

(** An answer of the lookup is a connection the endpoint may reach. *)
Definition located (rows : list Row) (ep : endpoint) (org : OrgID) (cid : ClientID)
    (o : outcome (ConnectorClientState * option error)) : Prop :=
  match o with
  | Ret (s, None) => ccClientID s = cid ∧ ∃ r, r ∈ rows ∧ may_reach ep org cid r
  | Ret (_, Some _) => True
  | _ => False
  end.

Lemma strict_located ep org cid db :
  db_ok db → wp (NewSqlGetConnectionByClientID org cid) db
    (λ o db', table db' = table db ∧ located (table db) ep org cid o).
Proof.
  intros Hok. eapply wp_mono; [by apply create_lookup_spec|].
  intros [[s [e|]]|?|?] db' [Ht Ho]; try done. split; [done|].
  destruct Ho as (Ho&_&r&Hr&Hq&->). split; [done|]. exists r. split; [done|].
  unfold strictConnectionLookupQuery in Hq.
  rewrite !andb_true_iff, negb_true_iff, bool_decide_eq_false, !bool_decide_eq_true in Hq.
  unfold may_reach. naive_solver.
Qed.

Lemma relaxed_located ep org cid db :
  db_ok db → ApiServerConnectionLookupImpl api_config = "relaxed" → ep = V1Message ∨ ep = V2Message →
  wp (NewPermittedTenantSqlGetConnectionByClientID org cid) db
    (λ o db', table db' = table db ∧ located (table db) ep org cid o).
Proof.
  intros Hok Hrel Hep. unfold NewPermittedTenantSqlGetConnectionByClientID. apply wp_bind.
  eapply wp_mono; [by apply create_lookup_spec|]. intros [[s [e|]]|?|?] db' [Ht Ho]; try done.
  apply wp_ret. split; [done|]. destruct Ho as (Ho&_&r&Hr&Hq&->). split; [done|].
  exists r. split; [done|]. unfold relaxedConnectionLookupQuery in Hq.
  rewrite !andb_true_iff, orb_true_iff, negb_true_iff, bool_decide_eq_false, !bool_decide_eq_true in Hq.
  unfold may_reach. naive_solver.
Qed.

Lemma lookup_reach ep org cid w :
  db_ok (aw_db w) →
  wp (lookup_of ep org cid) w (λ o w', observed w' = observed w ∧ aw_translate w' = aw_translate w ∧
    located (table (aw_db w)) ep org cid o).
Proof.
  intros Hok. unfold lookup_of. apply wp_zoom.
  eapply wp_mono with (Q := λ o db', table db' = table (aw_db w) ∧ located (table (aw_db w)) ep org cid o).
  - unfold buildConnectionLookupInstances.
    case_bool_decide; destruct ep; first [by apply strict_located | apply relaxed_located; auto].
  - intros o db' [Ht Ho]. unfold observed. cbn. by rewrite Ht.
Qed.

#[local] Set Default Proof Using "All".
Hypothesis Hprefix : string_mem "%" (tbPrefix (NewTopicBuilder (MqttTopicPrefix api_config))) = false.

(** The proxies of the server's factory. *)
Definition our_proxy (cid : ClientID) (cc : ConnectorClientMQTTProxy) : Prop :=
  pClientID cc = cid ∧ pTopicBuilder cc = NewTopicBuilder (MqttTopicPrefix api_config).

(** A request that asks for a connection it may reach. *)
Definition granted (ep : endpoint) (req : request) (w : ApiWorld) (cid : ClientID) : Prop :=
  ∃ p org r, GetPrincipal (rq_ctx req) = Some p ∧
    request_target ep req p (aw_translate w) = Some (org, cid) ∧
    r ∈ table (aw_db w) ∧ may_reach ep org cid r.

Lemma operation_reaches {A} ep req w w1 cid (m : M ApiWorld A) (m' : M Env A) err :
  granted ep req w cid → observed w1 = observed w → zooms m m' →
  (∀ e, wp m' e (sends (topic_of ep cid) e err)) →
  wp m w1 (λ o w', reaches ep req w (Ret tt) w').
Proof.
  intros (p&org&r&Hp&Ht&Hr&Hm) Ho Hz Hs. apply (wp_zooms _ _ _ _ Hz).
  eapply wp_mono; [apply Hs|]. intros o e' (a&sent&->&Hpub&Htop&_).
  injection Ho as Ho1 Ho2. split; [exact Ho1|]. exists sent. split.
  { cbn. rewrite Hpub. cbn. by rewrite Ho2. }
  intros m0 Hm0. exists p, org, cid, r. split_and!; try done. by apply Htop.
Qed.

Lemma respond_preserves status p : preserves observed (respond (W := ApiWorld) status p).
Proof. apply respond_quiet. Qed.
Lemma respond_error_preserves t status d : preserves observed (respond_error (W := ApiWorld) t status d).
Proof. apply respond_quiet. Qed.
Lemma failure_preserves : preserves observed (writeConnectionFailureResponse (W := ApiWorld)).
Proof. apply respond_quiet. Qed.
#[local] Hint Resolve respond_preserves respond_error_preserves failure_preserves respond_quiet : go.

Lemma control_reaches {A} ep req w w1 cid cc (m : M ApiWorld A) (m' : M Env A) err
    (k : A → M ApiWorld unit) :
  granted ep req w cid → observed w1 = observed w → our_proxy cid cc → zooms m m' →
  (∀ e, wp m' e (sends (client_in_topic cc (channel ep)) e err)) →
  (∀ a, preserves observed (k a)) → wp (m ≫= k) w1 (reaches ep req w).
Proof.
  intros Hg Ho [Hcid Htb] Hz Hs Hk. apply reaches_then; [done|].
  eapply operation_reaches; [done..|]. intros e.
  replace (topic_of ep cid) with (client_in_topic cc (channel ep)); [apply Hs|].
  unfold topic_of, client_in_topic. by rewrite Hcid, Htb.
Qed.

Lemma send_reaches ep req w w1 cid cc directive metadata content :
  channel ep = "data" → granted ep req w cid → observed w1 = observed w → our_proxy cid cc →
  wp (send_and_respond (proxy_client (W := ApiWorld) cc) directive metadata content) w1 (reaches ep req w).
Proof.
  intros Hep Hg Ho Hcc. unfold send_and_respond.
  eapply control_reaches with (err := snd); [done|done|exact Hcc|apply zooms_SendMessage| |].
  - intros e. rewrite Hep. apply SendMessage_sends. by rewrite (proj2 Hcc).
  - intros [jobID err]. case_bool_decide; [auto with go|]. go_preserves.
Qed.

(** The way through the tenant translator. *)
Lemma via_account ep req w account cid (k : ConnectorClient ApiWorld + error → M ApiWorld unit) :
  db_ok (aw_db w) →
  (∀ e, preserves observed (k (inr e))) →
  (∀ org r cc w1, aw_translate w account = inl org → r ∈ table (aw_db w) → may_reach ep org cid r →
     our_proxy cid cc → observed w1 = observed w → wp (k (inl (proxy_client cc))) w1 (reaches ep req w)) →
  wp (createConnectorClientProxy (lookup_of ep) account cid ≫= k) w (reaches ep req w).
Proof.
  intros Hok Herr Hk. unfold createConnectorClientProxy. apply wp_bind, wp_bind.
  rewrite wp_unfold. unfold EANToOrgID, aw_translator. cbn [fst snd].
  destruct (aw_translate w account) as [org|e] eqn:Ht.
  - apply wp_bind. eapply wp_mono; [by apply lookup_reach|].
    intros [[s [e|]]|?|?] w1 (Ho&_&Hl); try done.
    + apply wp_ret. apply reaches_from; auto.
    + destruct Hl as (Hc&r&Hr&Hm). rewrite wp_unfold. cbn. by eapply Hk.
  - apply wp_ret. by apply reaches_quiet.
Qed.

Lemma panic_reaches ep req w why : reaches ep req w (Panic why) w.
Proof. exact (reaches_quiet ep req (panic why) w (preserves_panic _ _)). Qed.

(** How every handler starts: the principal, then the body. *)
Lemma with_principal_reaches ep req w (k : Principal → M ApiWorld unit) :
  (∀ p, GetPrincipal (rq_ctx req) = Some p → wp (k p) w (reaches ep req w)) →
  wp (the_principal (rq_ctx req) ≫= k) w (reaches ep req w).
Proof.
  intros Hk. unfold the_principal. destruct (GetPrincipal (rq_ctx req)) as [p|] eqn:Hp.
  - apply wp_bind, wp_ret. by apply Hk.
  - apply wp_bind, wp_panic. apply panic_reaches.
Qed.

Lemma with_body_reaches {S} ep req w (fields : list (field S)) s0 valid body
    (k : S + error → M ApiWorld unit) :
  (∀ e, preserves observed (k (inr e))) →
  (∀ s, decoded fields s0 valid body = Some s → wp (k (inl s)) w (reaches ep req w)) →
  wp (decodeJSON fields s0 valid body ≫= k) w (reaches ep req w).
Proof.
  intros He Hk. apply wp_bind. rewrite wp_unfold.
  destruct (decodeJSON_cases fields s0 valid body w) as [(s&->&Hs)|[(e&->&_)|(why&->&_)]]; cbn.
  - by apply Hk.
  - by apply reaches_quiet.
  - apply panic_reaches.
Qed.

Lemma respond_reaches ep req w w1 (m : M response unit) :
  observed w1 = observed w → wp (zoom m) w1 (reaches ep req w).
Proof. intros Ho. apply reaches_from; [apply respond_quiet|done]. Qed.

(** Isolation of the handlers: whatever the request and whatever the database,
    the broker and the translator answer, handling it on any endpoint leaves the
    connections alone and publishes at most one message; a message is published
    only for an authenticated principal, on the topic of the client the request
    names, and only if that client is registered under the org the request
    stands for (the caller's own on v2, the translation of the caller's own
    account on v1, of the named account on the management interface), or is a
    satellite and the message interfaces are configured for relaxed lookups. *)
Lemma handler_reaches ep req w :
  db_ok (aw_db w) → wp (handler_of ep req) w (reaches ep req w).
Proof.
  intros Hok. unfold handler_of; destruct ep; apply with_principal_reaches; intros p Hp.
  - apply with_body_reaches; [intros; apply respond_quiet|]. intros m Hm.
    destruct (bool_decide (principal_account p ≠ mr_Account m)) eqn:Hacc; [by apply respond_reaches|].
    apply bool_decide_eq_false, dec_stable in Hacc.
    case_match; [by apply respond_reaches|]. apply via_account; [done|auto with go|].
    intros org r cc w1 Ht Hr Hreach Hcc Ho. eapply send_reaches; [done| |done|done].
    exists p, org, r. cbn. rewrite Hm. cbn. rewrite bool_decide_eq_true_2, Hacc, Ht by done. done.
  - apply with_body_reaches; [intros; apply respond_quiet|]. intros m Hm.
    case_match; [by apply respond_reaches|]. apply wp_bind.
    eapply wp_mono; [by apply lookup_reach|].
    intros [[s [e|]]|?|?] w1 (Ho&_&Hl); try done; [by apply respond_reaches|].
    destruct Hl as (Hc&r&Hr&Hreach). apply wp_bind, wp_ret.
    eapply send_reaches; [done| |done|by split]. by exists p, (principal_org p), r.
  - apply with_body_reaches; [intros; apply respond_quiet|]. intros m Hm.
    apply via_account; [done|intros; apply respond_quiet|].
    intros org r cc w1 Ht Hr Hreach Hcc Ho.
    eapply (control_reaches _ _ _ _ _ cc); [|done|done|apply zooms_command| |intros; apply respond_quiet].
    + exists p, org, r. cbn. rewrite Hm. cbn. by rewrite Ht.
    + intros e. apply command_sends. by rewrite (proj2 Hcc).
  - apply with_body_reaches; [intros; apply respond_quiet|]. intros m Hm.
    case_match; [by apply respond_reaches|].
    apply via_account; [done|intros; apply respond_quiet|].
    intros org r cc w1 Ht Hr Hreach Hcc Ho.
    eapply (control_reaches _ _ _ _ _ cc); [|done|done|apply zooms_Reconnect| |intros; apply respond_quiet].
    + exists p, org, r. cbn. rewrite Hm. cbn. by rewrite Ht.
    + intros e. apply Reconnect_sends. by rewrite (proj2 Hcc).
  - apply with_body_reaches; [intros; apply respond_quiet|]. intros m Hm.
    apply via_account; [done|intros; apply respond_quiet|].
    intros org r cc w1 Ht Hr Hreach Hcc Ho.
    eapply (control_reaches _ _ _ _ _ cc); [|done|done|apply zooms_command| |].
    + exists p, org, r. cbn. rewrite Hm. cbn. by rewrite Ht.
    + intros e. apply command_sends. by rewrite (proj2 Hcc).
    + intros []; apply respond_quiet.
Qed.

(** ** Properties *)

(** A response nothing has been written to. *)
Definition answer_written (status : Z) (d : jdoc) (r : response) : response :=
  ((writeJSONResponse status (Payload (Some d))) r).2.

Lemma answer_fresh status d r :
  rs_status r = None →
  rs_status (answer_written status d r) = Some status ∧
  rs_body (answer_written status d r) = rs_body r +:+ (render d +:+ str1 "010").
Proof using Type. destruct r as [h st rep b]. cbn. by intros ->. Qed.

Lemma respond_run status d (w : ApiWorld) :
  respond status (Payload (Some d)) w = (Ret tt, lset (answer_written status d (aw_response w)) w).
Proof using Type. done. Qed.

(** The query behind the lookup of an endpoint. *)
Definition query_of (ep : endpoint) : OrgID → ClientID → Row → bool :=
  match ep with
  | V1Message | V2Message =>
      if bool_decide (ApiServerConnectionLookupImpl api_config = "relaxed")
      then relaxedConnectionLookupQuery else strictConnectionLookupQuery
  | _ => strictConnectionLookupQuery
  end.

Lemma lookup_of_query ep org cid w :
  lookup_of ep org cid w = zoom (createGetConnectionByClientIDImpl (query_of ep) org cid) w.
Proof using Type.
  assert (Hrel : ∀ db, NewPermittedTenantSqlGetConnectionByClientID org cid db
                       = createGetConnectionByClientIDImpl relaxedConnectionLookupQuery org cid db).
  { intros db. unfold NewPermittedTenantSqlGetConnectionByClientID, mbind, M_bind.
    by destruct (createGetConnectionByClientIDImpl _ _ _ _) as [[[s [e|]]|?|?] ?]. }
  unfold lookup_of, query_of, buildConnectionLookupInstances, zoom.
  destruct ep; try done; case_bool_decide; by rewrite ?Hrel.
Qed.

Lemma query_client ep org cid r : query_of ep org cid r = true → r_client_id r = cid.
Proof using Type.
  unfold query_of, relaxedConnectionLookupQuery, strictConnectionLookupQuery.
  destruct ep; try (destruct (bool_decide (ApiServerConnectionLookupImpl api_config = _)));
    rewrite !andb_true_iff, !bool_decide_eq_true; tauto.
Qed.

Lemma query_own ep org r : r_org_id r = org → org ≠ EmptyString → query_of ep org (r_client_id r) r = true.
Proof using Type.
  intros Ho Hne. unfold query_of, relaxedConnectionLookupQuery, strictConnectionLookupQuery.
  assert (Hn : bool_decide (r_org_id r = EmptyString) = false) by (by apply bool_decide_eq_false_2; rewrite Ho).
  destruct ep; try (destruct (bool_decide (ApiServerConnectionLookupImpl api_config = _))); by rewrite Hn, (bool_decide_eq_true_2 _ Ho), (bool_decide_eq_true_2 _ (eq_refl (r_client_id r))).
Qed.

(** The lookup answers when it can. *)
Lemma lookup_answers ep org cid w :
  db_ok (aw_db w) → (∀ n, db_fault (aw_db w) n = None) → org ≠ EmptyString → cid ≠ EmptyString →
  ∃ res db', lookup_of ep org cid w = (Ret res, lset db' w) ∧ table db' = table (aw_db w) ∧
    ((∃ r, r ∈ table (aw_db w) ∧ query_of ep org cid r = true ∧ res = (located_state cid r, None)) ∨
     ((∀ r, r ∈ table (aw_db w) → query_of ep org cid r = false) ∧ res = (zero_state, Some NotFoundError))).
Proof using Type.
  intros Hok Hf Hone Hcne. rewrite lookup_of_query. unfold zoom. cbn [lget aw_db_lens].
  destruct (create_lookup_spec (query_of ep) org cid (aw_db w) Hok) as [Ht Hs].
  destruct (createGetConnectionByClientIDImpl (query_of ep) org cid (aw_db w)) as [o db']. cbn in Ht, Hs.
  destruct o as [[s [e|]]|?|?]; [|..|done|done].
  - destruct Hs as (->&[[? _]|[(_&?&_)|[(_&_&->&Hn)|[n Hn]]]]); [done..| |by rewrite Hf in Hn]. eauto 10.
  - destruct Hs as (_&_&r&Hr&Hq&->). eauto 10.
Qed.

Lemma lookup_found ep org cid w r :
  db_ok (aw_db w) → (∀ n, db_fault (aw_db w) n = None) →
  r ∈ table (aw_db w) → r_org_id r = org → r_client_id r = cid → org ≠ EmptyString → cid ≠ EmptyString →
  ∃ db', lookup_of ep org cid w = (Ret (located_state cid r, None), lset db' w) ∧ table db' = table (aw_db w).
Proof using Type.
  intros Hok Hf Hr Ho <- Hone Hcne.
  destruct (lookup_answers ep org (r_client_id r) w Hok Hf Hone Hcne)
    as (res&db'&Hl&Ht&[(r'&Hr'&Hq&->)|[Hno _]]).
  - apply query_client in Hq. rewrite (row_unique _ r' r (proj1 Hok) Hr' Hr Hq) in Hl. by exists db'.
  - specialize (Hno r Hr). by rewrite (query_own ep org r Ho Hone) in Hno.
Qed.

Lemma lookup_missing ep org cid w :
  db_ok (aw_db w) → (∀ n, db_fault (aw_db w) n = None) → org ≠ EmptyString → cid ≠ EmptyString →
  (∀ r, r ∈ table (aw_db w) → r_client_id r ≠ cid) →
  ∃ db', lookup_of ep org cid w = (Ret (zero_state, Some NotFoundError), lset db' w) ∧ table db' = table (aw_db w).
Proof using Type.
  intros Hok Hf Hone Hcne Hno.
  destruct (lookup_answers ep org cid w Hok Hf Hone Hcne) as (res&db'&Hl&Ht&[(r'&Hr'&Hq&_)|[_ ->]]).
  - by apply query_client, Hno in Hq.
  - by exists db'.
Qed.

(** C17: Delivery on the v2 interface: when the services answer, a message for a
    client registered under the caller's org is published, exactly once, on that
    client's data topic, with the request's directive, metadata and payload
    under a fresh message id, and the caller is answered 201 with that id. *)
Theorem v2_message_delivered req w p r m id :
  db_ok (aw_db w) → (∀ n, db_fault (aw_db w) n = None) → rs_status (aw_response w) = None →
  GetPrincipal (rq_ctx req) = Some p → principal_org p ≠ EmptyString →
  r ∈ table (aw_db w) → r_org_id r = principal_org p →
  r_client_id r = getClientIDFromRequestPath req → r_client_id r ≠ EmptyString →
  decoded messageRequestV2_fields zero_messageRequestV2 messageRequestV2_valid (rq_body req) = Some m →
  TrimSpace_empty (m2_Directive m) = false → utf8_valid (m2_Directive m) = true →
  value_ok (m2_Metadata m) = true → value_ok (m2_Payload m) = true →
  (Z.of_nat (value_depth (m2_Metadata m)) < 10000)%Z → (Z.of_nat (value_depth (m2_Payload m)) < 10000)%Z →
  let e := aw_env w in
  env_uuid e (env_tick e) = inl id → utf8_valid id = true →
  token_error (env_token e (S (S (env_tick e)))) = None →
  ∃ w' payload o, handler_of V2Message req w = (Ret tt, w') ∧
    table (aw_db w') = table (aw_db w) ∧
    published (aw_env w') = published e ++ [{|
      msg_topic := topic_of V2Message (r_client_id r); msg_qos := MqttDataPublishQoS api_config;
      msg_retained := false; msg_payload := payload |}] ∧
    UnmarshalInterface payload = (VObject o, false) ∧
    o !! "message_id" = Some (VString id) ∧ o !! "directive" = Some (VString (m2_Directive m)) ∧
    o !! "metadata" = Some (m2_Metadata m) ∧ o !! "content" = Some (m2_Payload m) ∧
    rs_status (aw_response w') = Some 201%Z ∧
    rs_body (aw_response w')
      = rs_body (aw_response w) +:+ (render (doc_messageResponse id) +:+ str1 "010").
Proof.
  intros Hok Hf Hrs Hp Hone Hr Ho Hc Hcne Hm Htrim Hdir Hmd Hpl Hdm Hdp e Hid Hvid Htok.
  unfold handler_of, handleSendMessage, the_principal. rewrite Hp, bind_ret_l.
  destruct (decodeJSON_cases messageRequestV2_fields zero_messageRequestV2 messageRequestV2_valid
    (rq_body req) w) as [(m'&Hrun&Hm')|[(?&_&Hm')|(?&_&Hm')]]; rewrite Hm in Hm'; [|done..].
  injection Hm' as <-. rewrite (bind_ret _ _ _ _ _ Hrun), Htrim.
  destruct (lookup_found V2Message (principal_org p) (getClientIDFromRequestPath req) w r)
    as (db'&Hl&Ht); try done; [by rewrite <-Hc|].
  rewrite (bind_ret _ _ _ _ _ Hl). set (s := located_state _ r). set (w1 := lset db' w). set (cc := {|
    pConfig := api_config; pOrgID := ccOrgID s; pAccountID := ccAccount s; pClientID := ccClientID s;
    pTopicBuilder := NewTopicBuilder (MqttTopicPrefix api_config); pDispatchers := ccDispatchers s;
    pCanonicalFacts := ccCanonicalFacts s; pTags := ccTags s |}).
  change (CreateProxy _ _ _ _ _ _) with (mret (inl (proxy_client cc)) : M ApiWorld (ConnectorClient ApiWorld + error)).
  rewrite bind_ret_l. unfold send_and_respond.
  destruct (SendMessage_run cc (m2_Directive m) (m2_Metadata m) (m2_Payload m) id e)
    as (e'&payload&o&Hsend&Hpub&Hu&_&Hmid&Hd&Hme&Hco); try done.
  assert (Hsend' : SendMessage (proxy_client (W := ApiWorld) cc) (m2_Directive m) (m2_Metadata m)
    (m2_Payload m) w1 = (Ret (Some id, None), lset e' w1)).
  { rewrite <-Htok. eapply zooms_run; [apply zooms_SendMessage|]. exact Hsend. }
  rewrite (bind_ret _ _ _ _ _ Hsend'). rewrite bool_decide_eq_false_2 by done.
  rewrite respond_run. destruct (answer_fresh 201 (doc_messageResponse id) (aw_response w) Hrs) as [H1 H2].
  eexists _, payload, o. split; [reflexivity|]. split; [exact Ht|]. split; [|done].
  cbn. rewrite Hpub. unfold client_in_topic, topic_of. cbn. by rewrite Hc.
Qed.
End requests.

Section answers.
Context `{!ApiDeployment} (int_of_nan : Z).

(** [ConnectionMediatorV2]'s listing over the SQL lookup, behind the metrics. *)
Definition v2_listing : Handler ApiWorld :=
  handleConnectionListByOrgId (λ org offset limit, zoom (NewSqlGetConnectionsByOrgID org offset limit)) int_of_nan.

(** After a failed lookup the v2 listing does not stop: the client gets
    status 500 with two JSON documents, the error and an empty page, and since
    the second [WriteHeader] says 200 the metrics count a success. *)
Theorem v2_list_error_answers_twice req w p offset limit total e db' :
  rs_status (aw_response w) = None →
  GetPrincipal (rq_ctx req) = Some p →
  getOffsetAndLimitFromQueryParams (rq_url req) = (offset, limit, None) →
  NewSqlGetConnectionsByOrgID (principal_org p) offset limit (aw_db w) = (Ret (None, total, Some e), db') →
  ∃ w', RecordHTTPMetrics v2_listing req w = (Ret tt, w') ∧
    rs_status (aw_response w') = Some 500%Z ∧
    counted (aw_env w') = counted (aw_env w) ++ [status_code_counter 200] ∧
    rs_body (aw_response w') = rs_body (aw_response w)
      +:+ (render (doc_errorResponse "Error looking up connections by org_id" 500 (Error e)) +:+ str1 "010")
      +:+ (render (buildPaginatedResponse int_of_nan (rq_url req) offset limit total (JArr [])) +:+ str1 "010").
Proof.
  intros Hrs Hp Hq Hl. unfold RecordHTTPMetrics, v2_listing, handleConnectionListByOrgId, the_principal.
  rewrite Hp. cbn [mbind M_bind]. unfold mbind, M_bind. cbn [mret M_ret]. unfold mret, M_ret. rewrite Hq.
  unfold zoom at 1. cbn [lget aw_db_lens]. rewrite Hl. destruct w as [db env [h st rep b] tr].
  cbn in Hrs. subst st. eexists. split; [reflexivity|]. split; [reflexivity|]. split; [reflexivity|].
  cbn -[render buildPaginatedResponse doc_errorResponse]. by rewrite string_app_assoc.
Qed.

(** The JSON document [null] as a body makes every endpoint that reads one
    panic once the caller is known, before anything else happens: the decoder
    leaves a nil in place of the request, which the validator rejects with an
    error of another type than the one asserted. *)
Theorem null_body_panics ep req w p rest :
  GetPrincipal (rq_ctx req) = Some p →
  (MaxBytesReader (rq_body req) max_body).2 = false →
  DecodeStream (MaxBytesReader (rq_body req) max_body).1 = Some (JNull, rest) →
  ∃ why, handler_of ep req w = (Panic why, w).
Proof.
  intros Hp Hcut Hd. eexists.
  assert (Hdec : ∀ S (fields : list (field S)) s0 valid, decodeJSON fields s0 valid (rq_body req) w
    = (Panic "interface conversion: error is *validator.InvalidValidationError", w)).
  { intros. unfold decodeJSON. destruct (MaxBytesReader (rq_body req) max_body) as [b cut].
    cbn [fst snd] in Hcut, Hd. by rewrite Hd, Hcut. }
  unfold handler_of. destruct ep; unfold handleJob, handleSendMessage, handleDisconnect,
    handleReconnect, handleConnectionPing, the_principal; rewrite Hp, bind_ret_l;
    exact (bind_panic _ _ _ _ _ (Hdec _ _ _ _)).
Qed.
End answers.

(** ** Witnesses: a server with the default configuration *)

Definition test_api : ApiDeployment := {| api_config := default_config |}.

Definition test_apiworld (db : Db) : ApiWorld := {|
  aw_db := db; aw_env := test_env; aw_response := empty_response;
  aw_translate := λ account, if bool_decide (account = "010101") then inl "000001" else inr (ErrText "unknown") |}.

Definition org_context (org : string) : context := {|
  ctx_principal := None; ctx_identity := Some ("010101", org); ctx_identity_type := "User" |}.

Definition api_request (body : string) : request := {|
  rq_header := []; rq_url := test_url; rq_vars := {[ "id" := "client-a" ]}; rq_body := body;
  rq_ctx := org_context "000001" |}.

Definition message_body : string := render (JObj [("directive", jstring "play"); ("payload", jstring "x")]).

Definition api_row : Row := test_row "000001" "client-a".
Definition api_world : ApiWorld := test_apiworld (test_db [api_row; test_row "000002" "client-b"]).

Lemma api_world_ok : db_ok (aw_db api_world).
Proof. apply test_db_ok. apply (bool_decide_unpack _). vm_compute. exact I. Qed.

Lemma v2_message_delivered_witness :
  ∃ w', handler_of (H := test_api) V2Message (api_request message_body) api_world = (Ret tt, w') ∧
    rs_status (aw_response w') = Some 201%Z ∧
    msg_topic <$> published (aw_env w') = ["redhat/insights/client-a/data/in"].
Proof.
  destruct (v2_message_delivered (H := test_api) eq_refl (api_request message_body) api_world
    (identityPrincipal "010101" "000001") api_row
    {| m2_Payload := VString "x"; m2_Metadata := VNull; m2_Directive := "play" |}
    "6ba7b810-9dad-11d1-80b4-00c04fd430c8" api_world_ok)
    as (w'&payload&o&Hrun&_&Hpub&_&_&_&_&_&Hst&_);
    try (first [reflexivity | vm_compute; reflexivity | discriminate]).
  - left.
  - exists w'. split; [exact Hrun|]. split; [exact Hst|]. rewrite Hpub. vm_compute. reflexivity.
Defined.

Lemma v2_list_error_answers_twice_witness :
  let db := {| table := []; db_tick := 0; db_fault := λ _, Some (ErrText "connection refused");
               db_cut := λ _, None; db_clock := λ _, 0%Z; app_clock := λ _, 0%Z |} in
  ∃ w', RecordHTTPMetrics (v2_listing 0) (api_request EmptyString) (test_apiworld db) = (Ret tt, w') ∧
    rs_status (aw_response w') = Some 500%Z ∧
    counted (aw_env w') = ["cloud_connector_http_status_code_counter:200"].
Proof.
  intros db. destruct (v2_list_error_answers_twice 0 (api_request EmptyString) (test_apiworld db)
    (identityPrincipal "010101" "000001") 20 10 0 (ErrText "connection refused") (tick_db db))
    as (w'&Hrun&Hst&Hc&_); [vm_compute; reflexivity..|].
  exists w'. split; [exact Hrun|]. split; [exact Hst|]. rewrite Hc. vm_compute. reflexivity.
Defined.

Lemma null_body_panics_witness :
  ∃ why, handler_of (H := test_api) MgmtPing (api_request "null") api_world = (Panic why, api_world).
Proof.
  apply (null_body_panics (H := test_api) MgmtPing (api_request "null") api_world
    (identityPrincipal "010101" "000001") EmptyString); vm_compute; reflexivity.
Defined.
