(* ===== verification/Deploy.v ===== *)
(** * Connections to the outside, as the configuration asks for them

    - [InitializeDatabaseConnection] ([internal/platform/db/connection.go]);
    - [NewTlsConfig] and its options ([internal/platform/utils/tls_utils]);
    - [StartProducer], [StartConsumer], [createDialer] and what they are given
      ([internal/platform/queue], and the [build...KafkaConfig] functions of
      [cmd/cloud-connector] and [controller]);
    - [NewRSABasedJwtGenerator], [NewFileBasedJwtGenerator]
      ([internal/platform/utils/jwt_utils]).

    What they produce is a description of the connection; the libraries that open
    it (lib/pq, crypto/tls, kafka-go, golang-jwt) and the file system are
    parameters. *)

From S2P Require Import Prelude GoStrings GoNumTime Json Domain Config Protocol Middlewares.
From stdpp Require Import options.

(** ** [path/filepath.Clean] *)

(** [acc]: the elements kept so far, the last one first. *)
Fixpoint clean_elements (rooted : bool) (acc elements : list string) : list string :=
  match elements with
  | [] => reverse acc
  | e :: elements' =>
      clean_elements rooted
        (if bool_decide (e = EmptyString) || bool_decide (e = ".") then acc
         else if bool_decide (e = "..") then
           match acc with
           | [] => if rooted then [] else [".."]
           | x :: acc' => if bool_decide (x = "..") then ".." :: acc else acc'
           end
         else e :: acc) elements'
  end.
Definition filepath_Clean (path : string) : string :=
  match path with
  | EmptyString => "."
  | String a _ =>
      let rooted := char_eqb a "/" in
      let cleaned := Join (clean_elements rooted [] (Split path "/")) "/" in
      if rooted then String "/" cleaned
      else if bool_decide (cleaned = EmptyString) then "." else cleaned
  end.

(** ** Parameters *)

Class Platform := {
  ReadFile : string → string + error;
  Hostname : string + error;
  (** lib/pq: the error [sql.Open] reports for a connection string *)
  sql_Open : string → string → option error;
  (** crypto/tls, crypto/x509 *)
  certificate : Type;
  LoadX509KeyPair : string → string → certificate + error;
  certpool : Type;
  CertPoolFromPEM : string → certpool;
  (** kafka-go: [scram.Mechanism(algorithm, username, password)] *)
  scram_error : string → string → string → option error;
  (** kafka-go: what [NewWriter] and [NewReader] panic with, from brokers, topic,
      batch limits, and from brokers, topic, group, offset *)
  writer_invalid : list string → string → Z → Z → option string;
  reader_invalid : list string → string → string → Z → option string;
  (** golang-jwt *)
  rsa_key : Type;
  ParseRSAPrivateKeyFromPEM : string → rsa_key + error;
  SignedString : list (string * string) → jdoc → rsa_key → string + error;
}.

(** The error wrapping of [fmt.Errorf("...: %w", err)]. *)
Definition wrapped (text : string) (e : error) : error := ErrText (text +:+ ": " +:+ Error e).

Section deploy.
Context `{!Platform}.

(** ** Database *)

Definition buildPostgresSslConfigString (cfg : Config) : string + error :=
  if bool_decide (ConnectionDatabaseSslMode cfg = "disable") then inl "sslmode=disable"
  else if bool_decide (ConnectionDatabaseSslMode cfg = "verify-full") then
    inl ("sslmode=verify-full sslrootcert=" +:+ ConnectionDatabaseSslRootCert cfg)
  else inr (ErrText ("Invalid SSL configuration for database connection: "
                     +:+ ConnectionDatabaseSslMode cfg)).

(** The connection string of the opened pool. *)
Definition initializePostgresConnection (cfg : Config) : string + error :=
  let psqlConnectionInfo :=
    "host=" +:+ ConnectionDatabaseHost cfg +:+ " port=" +:+ Itoa (ConnectionDatabasePort cfg)
    +:+ " user=" +:+ ConnectionDatabaseUser cfg +:+ " password=" +:+ ConnectionDatabasePassword cfg
    +:+ " dbname=" +:+ ConnectionDatabaseName cfg +:+ " TimeZone=UTC" in
  match buildPostgresSslConfigString cfg with
  | inr err => inr err
  | inl sslSettings =>
      let info := psqlConnectionInfo +:+ " " +:+ sslSettings in
      match sql_Open "postgres" info with
      | Some err => inr err
      | None => inl info
      end
  end.

Definition InitializeDatabaseConnection (cfg : Config) : string + error :=
  if bool_decide (ConnectionDatabaseImpl cfg = "postgres") then initializePostgresConnection cfg
  else inr (ErrText "Invalid SQL database impl requested").

(** ** TLS *)

Record TlsConfig := {
  tls_MinVersion : Z;
  tls_Certificates : list certificate;
  tls_RootCAs : option certpool;         (** [None]: those of the host *)
  tls_InsecureSkipVerify : bool;
}.
Definition VersionTLS12 : Z := 771.

Definition TlsConfigFunc : Type := TlsConfig → TlsConfig + error.

Definition WithCert (certFilePath certKeyPath : string) : TlsConfigFunc := λ c,
  match LoadX509KeyPair certFilePath certKeyPath with
  | inr err => inr err
  | inl cert => inl {| tls_MinVersion := tls_MinVersion c; tls_Certificates := [cert];
                       tls_RootCAs := tls_RootCAs c; tls_InsecureSkipVerify := tls_InsecureSkipVerify c |}
  end.

Definition WithCACerts (caCertFilePath : string) : TlsConfigFunc := λ c,
  match ReadFile (filepath_Clean caCertFilePath) with
  | inr err => inr err
  | inl pemCerts =>
      inl {| tls_MinVersion := tls_MinVersion c; tls_Certificates := tls_Certificates c;
             tls_RootCAs := Some (CertPoolFromPEM pemCerts);
             tls_InsecureSkipVerify := tls_InsecureSkipVerify c |}
  end.

Definition WithSkipVerify : TlsConfigFunc := λ c,
  inl {| tls_MinVersion := tls_MinVersion c; tls_Certificates := tls_Certificates c;
         tls_RootCAs := tls_RootCAs c; tls_InsecureSkipVerify := true |}.

(** The options in order, up to the first error. *)
Fixpoint apply_options {O : Type} (opts : list (O → O + error)) (o : O) : O + error :=
  match opts with
  | [] => inl o
  | f :: opts' => match f o with inl o' => apply_options opts' o' | inr err => inr err end
  end.

Definition NewTlsConfig (configOpts : list TlsConfigFunc) : TlsConfig + error :=
  apply_options configOpts {| tls_MinVersion := VersionTLS12; tls_Certificates := [];
                              tls_RootCAs := None; tls_InsecureSkipVerify := false |}.

(** ** Kafka *)

Record SaslConfig := {
  sasl_Mechanism : string; sasl_Username : string; sasl_Password : string; sasl_KafkaCA : string }.

Record ProducerConfig := {
  pc_Brokers : list string;
  pc_SaslConfig : option SaslConfig;
  pc_Topic : string;
  pc_BatchSize : Z;
  pc_BatchBytes : Z;
  pc_Balancer : string;
}.

Record ConsumerConfig := {
  cc_Brokers : list string;
  cc_SaslConfig : option SaslConfig;
  cc_Topic : string;
  cc_GroupID : string;
  cc_ConsumerOffset : Z;
}.

Inductive sasl_mechanism :=
| PlainMechanism (username password : string)
| ScramMechanism (algorithm username password : string).

(** [strings.ToLower], as far as names in ASCII can tell: beside the capitals,
    U+0130 and U+212A are lowered to an ASCII letter. *)
Fixpoint ToLower (s : string) : string :=
  match s with
  | EmptyString => EmptyString
  | String a s' =>
      match s' with
      | String b s'' =>
          if bool_decide (byte_val a = 196%Z) && bool_decide (byte_val b = 176%Z) then String "i" (ToLower s'')
          else match s'' with
               | String c s''' =>
                   if bool_decide (byte_val a = 226%Z) && bool_decide (byte_val b = 132%Z)
                      && bool_decide (byte_val c = 170%Z)
                   then String "k" (ToLower s''')
                   else String (if byte_in 65 90 a then byte_of (byte_val a + 32) else a) (ToLower s')
               | EmptyString => String (if byte_in 65 90 a then byte_of (byte_val a + 32) else a) (ToLower s')
               end
      | EmptyString => String (if byte_in 65 90 a then byte_of (byte_val a + 32) else a) EmptyString
      end
  end.

Definition createSaslMechanism (saslMechanismName username password : string)
    : sasl_mechanism + error :=
  let name := ToLower saslMechanismName in
  if bool_decide (name = "plain") then inl (PlainMechanism username password)
  else if bool_decide (name = "scram-sha-512") then
    match scram_error "SHA-512" username password with
    | Some err => inr (wrapped "unable to create scram-sha-512 mechanism" err)
    | None => inl (ScramMechanism "SHA-512" username password)
    end
  else if bool_decide (name = "scram-sha-256") then
    match scram_error "SHA-256" username password with
    | Some err => inr (wrapped "unable to create scram-sha-256 mechanism" err)
    | None => inl (ScramMechanism "SHA-256" username password)
    end
  else inr (ErrText ("unable to configure sasl mechanism (" +:+ saslMechanismName +:+ ")")).

(** A failure ends the process. *)
Definition createTLSConfig {W} (pathToCert : string) : M W TlsConfig :=
  match NewTlsConfig (if bool_decide (pathToCert ≠ EmptyString) then [WithCACerts pathToCert] else []) with
  | inr err => exit_process "Unable to configure TLS for Kafka Broker connection"
  | inl tlsConfig => mret tlsConfig
  end.

(** [None]: kafka-go's default dialer. *)
Record Dialer := { dial_Timeout : Z; dial_SASLMechanism : sasl_mechanism; dial_TLS : TlsConfig }.

Definition createDialer {W} (cfg : option SaslConfig) : M W (option Dialer + error) :=
  match cfg with
  | None => mret (inl None)
  | Some cfg =>
      tlsConfig ← createTLSConfig (sasl_KafkaCA cfg);
      mret match createSaslMechanism (sasl_Mechanism cfg) (sasl_Username cfg) (sasl_Password cfg) with
           | inr err => inr err
           | inl saslMechanism =>
               inl (Some {| dial_Timeout := 10 * second; dial_SASLMechanism := saslMechanism;
                            dial_TLS := tlsConfig |})
           end
  end.

(** [None]: kafka-go's default, round robin. *)
Inductive balancer := Hash | CRC32Balancer.
Record WriterConfig := {
  wc_Brokers : list string; wc_Topic : string; wc_BatchSize : Z; wc_BatchBytes : Z;
  wc_Dialer : option Dialer; wc_Balancer : option balancer }.
Record ReaderConfig := {
  rd_Brokers : list string; rd_Topic : string; rd_GroupID : string; rd_StartOffset : Z;
  rd_Dialer : option Dialer }.

(** kafka-go's constructors, as what they are given or the panic. *)
Definition NewWriter {W} (c : WriterConfig) : M W (WriterConfig + error) :=
  match writer_invalid (wc_Brokers c) (wc_Topic c) (wc_BatchSize c) (wc_BatchBytes c) with
  | Some why => panic why
  | None => mret (inl c)
  end.
Definition NewReader {W} (c : ReaderConfig) : M W (ReaderConfig + error) :=
  match reader_invalid (rd_Brokers c) (rd_Topic c) (rd_GroupID c) (rd_StartOffset c) with
  | Some why => panic why
  | None => mret (inl c)
  end.

Definition StartProducer {W} (cfg : ProducerConfig) : M W (WriterConfig + error) :=
  kafkaDialer ← createDialer (pc_SaslConfig cfg);
  match kafkaDialer with
  | inr err => mret (inr (wrapped "unable to create kafka dialer" err))
  | inl kafkaDialer =>
      NewWriter {|
        wc_Brokers := pc_Brokers cfg; wc_Topic := pc_Topic cfg; wc_BatchSize := pc_BatchSize cfg;
        wc_BatchBytes := pc_BatchBytes cfg; wc_Dialer := kafkaDialer;
        wc_Balancer := if bool_decide (pc_Balancer cfg = "hash") then Some Hash
                       else if bool_decide (pc_Balancer cfg = "crc32") then Some CRC32Balancer else None |}
  end.

Definition StartConsumer {W} (cfg : ConsumerConfig) : M W (ReaderConfig + error) :=
  kafkaDialer ← createDialer (cc_SaslConfig cfg);
  match kafkaDialer with
  | inr err => mret (inr (wrapped "unable to create kafka dialer" err))
  | inl kafkaDialer =>
      NewReader {|
        rd_Brokers := cc_Brokers cfg; rd_Topic := cc_Topic cfg; rd_GroupID := cc_GroupID cfg;
        rd_StartOffset := cc_ConsumerOffset cfg; rd_Dialer := kafkaDialer |}
  end.

(** The block that every use of Kafka starts with. *)
Definition kafkaSaslCfg (cfg : Config) : option SaslConfig :=
  if bool_decide (KafkaSASLMechanism cfg ≠ EmptyString) then
    Some {| sasl_Mechanism := KafkaSASLMechanism cfg; sasl_Username := KafkaUsername cfg;
            sasl_Password := KafkaPassword cfg; sasl_KafkaCA := KafkaCA cfg |}
  else None.

(** mqtt_message_consumer.go *)
Definition buildRhcMessageKafkaProducerConfig (cfg : Config) : ProducerConfig := {|
  pc_Brokers := RhcMessageKafkaBrokers cfg; pc_SaslConfig := kafkaSaslCfg cfg;
  pc_Topic := RhcMessageKafkaTopic cfg; pc_BatchSize := RhcMessageKafkaBatchSize cfg;
  pc_BatchBytes := RhcMessageKafkaBatchBytes cfg; pc_Balancer := "hash" |}.

(** kafka_message_consumer.go *)
Definition buildRhcMessageKafkaConsumerConfig (cfg : Config) : ConsumerConfig := {|
  cc_Brokers := RhcMessageKafkaBrokers cfg; cc_SaslConfig := kafkaSaslCfg cfg;
  cc_Topic := RhcMessageKafkaTopic cfg; cc_GroupID := RhcMessageKafkaConsumerGroup cfg;
  cc_ConsumerOffset := 0 |}.

(** The inventory producer of [NewConnectedClientRecorder] *)
Definition recorderKafkaProducerCfg (cfg : Config) : ProducerConfig := {|
  pc_Brokers := InventoryKafkaBrokers cfg; pc_SaslConfig := kafkaSaslCfg cfg;
  pc_Topic := InventoryKafkaTopic cfg; pc_BatchSize := InventoryKafkaBatchSize cfg;
  pc_BatchBytes := InventoryKafkaBatchBytes cfg; pc_Balancer := "crc32" |}.

(** and that of [startInventoryStaleTimestampUpdater], which names no balancer *)
Definition updaterKafkaProducerCfg (cfg : Config) : ProducerConfig := {|
  pc_Brokers := InventoryKafkaBrokers cfg; pc_SaslConfig := kafkaSaslCfg cfg;
  pc_Topic := InventoryKafkaTopic cfg; pc_BatchSize := InventoryKafkaBatchSize cfg;
  pc_BatchBytes := InventoryKafkaBatchBytes cfg; pc_Balancer := EmptyString |}.

(** [String] of [SaslConfig], which leaves the credentials out. *)
Definition SaslConfig_String (c : SaslConfig) : string :=
  "SaslMechanism: " +:+ sasl_Mechanism c +:+ str1 "010".

(** ** JSON web tokens *)

Definition RsaTokenGenerator : string := "jwt_rsa_generator".
Definition FileTokenGenerator : string := "jwt_file_reader".

Definition JwtGenerator (W : Type) : Type := M W (string + error).

(** [exp] in seconds, truncated as Unix times are. *)
Definition createRsaToken (client group : string) (exp : time) (signKey : rsa_key) : string + error :=
  let seconds := (exp / 1000000000)%Z in
  SignedString [("alg", "RS256"); ("typ", "JWT"); ("kid", "rhcloud-connector")]
    (JObj ((if bool_decide (seconds = 0%Z) then [] else [("exp", jint seconds)])
           ++ [("client-id", jstring client); ("auth-group", jstring group)])) signKey.

Definition NewFileBasedJwtGenerator {W} (jwtFilename : string) : JwtGenerator W + error :=
  match ReadFile (filepath_Clean jwtFilename) with
  | inr err => inr err
  | inl jwtText => inl (mret (inl jwtText))
  end.

Definition NewRSABasedJwtGenerator {W} `{!Clock W} (privateKeyFile clientId : string) (tokenExpiry : Z)
    : JwtGenerator W + error :=
  match ReadFile (filepath_Clean privateKeyFile) with
  | inr err => inr err
  | inl signBytes =>
      match ParseRSAPrivateKeyFromPEM signBytes with
      | inr err => inr err
      | inl signKey =>
          inl (now ← Now;
               let expiryDate := (now + wrap64 (minute * tokenExpiry))%Z in
               mret (createRsaToken clientId "admin" expiryDate signKey))
      end
  end.
End deploy.
