(* ===== verification/Logger.v ===== *)
(** * The logger ([internal/platform/logger])

    - [Format]: one log entry as a line of JSON (logger.go), with what is logged of
      a request (access_logger.go);
    - [InitLogger] and [FlushLogger]: the package's variables, and the service's
      [main] around them;
    - the helpers for errors.

    logrus itself, the CloudWatch hook of the platform's middleware library and the
    AWS client are parameters. *)

From Stdlib Require Import SpecFloat.
From S2P Require Import Prelude GoStrings GoNumTime Json JsonFacts Domain Config Deploy.
From stdpp Require Import options.

(** ** Entries *)

Inductive Level := PanicLevel | FatalLevel | ErrorLevel | WarnLevel | InfoLevel | DebugLevel | TraceLevel.
Definition Level_String (l : Level) : string :=
  match l with
  | PanicLevel => "panic" | FatalLevel => "fatal" | ErrorLevel => "error" | WarnLevel => "warning"
  | InfoLevel => "info" | DebugLevel => "debug" | TraceLevel => "trace"
  end.

(** A field's value, as the type switch of [Format] tells them apart. *)
Inductive field_value :=
| FError (e : error)
| FMarshaler (m : gmap string value)
| FOther (v : value).

Record Entry := {
  en_Message : string;
  en_Level : Level;
  en_Caller : option string;
  en_Data : gmap string field_value;
}.

Record CustomCloudwatch := { cw_Hostname : string }.

Definition MarshalLog (v : field_value) : value :=
  match v with
  | FError e => VString (Error e)
  | FMarshaler m => VObject m
  | FOther v => v
  end.

(** The host's time zone: its offset from UTC in seconds at an instant. *)
Class LocalZone := { utc_offset : time → Z }.

(** [now.Format("2006-01-02T15:04:05.999Z")]: the local time, to the millisecond,
    followed by the letter Z. *)
Definition FormatLocalMillis `{!LocalZone} (now : time) : string :=
  let t := (now + utc_offset now * 1000000000)%Z in
  let ms := (t mod 1000000000 / 1000000)%Z in
  format_seconds t +:+
  (if (ms =? 0)%Z then EmptyString else
     let '(d, k) := strip_zeros 3 ms 0 in
     "." +:+ pad (3 - Z.to_nat k) d) +:+ "Z".

Section format.
Context `{!Platform, !LocalZone}.

Definition NewCloudwatchFormatter : CustomCloudwatch :=
  {| cw_Hostname := match Hostname with inl h => h | inr _ => "unknown" end |}.

(** The fields of the entry replace the standard ones of the same name. *)
Definition log_data (now : time) (hostname caller : string) (entry : Entry) : gmap string value :=
  (MarshalLog <$> en_Data entry) ∪
  list_to_map [
    ("@timestamp", VString (FormatLocalMillis now));
    ("@version", VNumber (S754_finite false 4503599627370496 (-52)));
    ("message", VString (en_Message entry));
    ("levelname", VString (Level_String (en_Level entry)));
    ("source_host", VString hostname);
    ("app", VString "cloud-connector");
    ("caller", VString caller)].

Definition newline : ascii := "010".

(** [None]: [json.Marshal] failed. *)
Definition Format (now : time) (entry : Entry) : M CustomCloudwatch (option string) :=
  match Hostname with
  | inl hostname => put_state {| cw_Hostname := hostname |}
  | inr _ => mret tt
  end;;
  f ← get_state;
  match en_Caller entry with
  | None => panic "invalid memory address or nil pointer dereference"
  | Some caller =>
      mret (j ← Marshal (VObject (log_data now (cw_Hostname f) caller entry)); Some (j +:+ str1 newline))
  end.

(** What logrus writes of entries, one after the other: an entry that cannot be
    formatted is dropped. *)
Fixpoint write_entries (l : list (time * Entry)) : M CustomCloudwatch string :=
  match l with
  | [] => mret EmptyString
  | (now, entry) :: l' =>
      r ← Format now entry;
      rest ← write_entries l';
      mret (default EmptyString r +:+ rest)
  end.
End format.

(** ** The access log *)

Record LogFormatterParams := {
  lp_Method : string; lp_URL : string; lp_Proto : string; lp_RequestID : string;
  lp_RemoteAddr : string; lp_StatusCode : float64; lp_Size : float64;
}.

Definition logrusAccessLogAdapter (params : LogFormatterParams) : string * gmap string field_value :=
  let request := lp_Method params +:+ " " +:+ lp_URL params +:+ " " +:+ lp_Proto params in
  ("access", list_to_map [
     ("remote_addr", FOther (VString (lp_RemoteAddr params)));
     ("request", FOther (VString request));
     ("request_id", FOther (VString (lp_RequestID params)));
     ("status", FOther (VNumber (lp_StatusCode params)));
     ("size", FOther (VNumber (lp_Size params)))]).

(** ** The package's variables *)

Inductive Formatter := TextFormatter | CloudwatchFormatter (f : CustomCloudwatch).

Definition ToUpper (s : string) : string :=
  string_bind (λ a, str1 (if byte_in 97 122 a then byte_of (byte_val a - 32) else a)) s.

Definition buildFormatter `{!Platform} (format : string) : Formatter :=
  if bool_decide (ToUpper format = "TEXT") then TextFormatter
  else CloudwatchFormatter NewCloudwatchFormatter.

Record LogrusHook := { hook_group : string; hook_stream : string; hook_batchFrequency : Z }.

Record LogrusLogger := {
  lg_Level : Level; lg_Formatter : Formatter; lg_Hooks : list LogrusHook; lg_ReportCaller : bool;
}.

(** [Log], [logLevel], [initializeLogger], [cloudWatchHook]. *)
Record LogVars := {
  v_Log : option LogrusLogger; v_logLevel : Level; v_initialized : bool; v_cloudWatchHook : option LogrusHook;
}.
Definition zero_vars : LogVars := {|
  v_Log := None; v_logLevel := PanicLevel; v_initialized := false; v_cloudWatchHook := None |}.

Record CloudWatchConfig := {
  cwc_AccessKeyId : string; cwc_SecretAccessKey : string; cwc_Region : string; cwc_LogGroup : string;
}.

(** The CloudWatch library: a writer for a group and a stream, opened with
    credentials; and the hook's [Flush]. *)
Class CloudWatchLib (L : Type) := {
  NewBatchWriterWithDuration : string → string → string → string → string → Z → M L (option error);
  Flush : LogrusHook → M L unit;
}.
#[global] Hint Mode CloudWatchLib + : typeclass_instances.

Section variables.
Context {V : Type} `{!Viper V, !Platform} {L : Type} `{!CloudWatchLib L}.

(** The package's variables and the library's state. *)
Definition LogWorld : Type := LogVars * L.

Definition set_vars (v : LogVars) : M LogWorld unit := λ w, (Ret tt, (v, w.2)).
Definition lib {A} (m : M L A) : M LogWorld A := λ w, let '(o, l) := m w.2 in (o, (w.1, l)).

Definition log_options : V :=
  let hostname := match Hostname with inl h => h | inr _ => EmptyString end in
  AutomaticEnv (SetEnvPrefix (foldl (λ v kv, SetDefault v kv.1 kv.2) New [
    ("LOG_LEVEL", OString "DEBUG"); ("LOG_GROUP", OString "platform-dev");
    ("AWS_REGION", OString "us-east-1"); ("LOG_STREAM", OString hostname);
    ("LOG_FORMAT", OString "text"); ("LOG_BATCH_FREQUENCY", ODuration (10 * second))]) "CLOUD_CONNECTOR").

Definition level_of (name : string) : Level :=
  let name := ToUpper name in
  if bool_decide (name = "TRACE") then TraceLevel
  else if bool_decide (name = "DEBUG") then DebugLevel
  else if bool_decide (name = "ERROR") then ErrorLevel
  else InfoLevel.

(** Key, secret, region and group: the options', or those of a Clowder platform; the
    inner [None] is the nil pointer of a platform that has none. *)
Definition cloudwatch_settings (clowder : option (option CloudWatchConfig))
    : M LogWorld (string * string * string * string) :=
  let GetString := vGetString log_options in
  match clowder with
  | None => mret (GetString "CW_AWS_ACCESS_KEY_ID", GetString "CW_AWS_SECRET_ACCESS_KEY",
                  GetString "AWS_REGION", GetString "LOG_GROUP")
  | Some None => panic "invalid memory address or nil pointer dereference"
  | Some (Some c) => mret (cwc_AccessKeyId c, cwc_SecretAccessKey c, cwc_Region c, cwc_LogGroup c)
  end.

(** The rest of the body; [testing] is the test binary's flag. *)
Definition build_logger (testing : bool) (settings : string * string * string * string) : M LogWorld unit :=
  let '(key, secret, region, group) := settings in
  let GetString := vGetString log_options in
  let batchFrequency := vGetDuration log_options "LOG_BATCH_FREQUENCY" in
  let stream := GetString "LOG_STREAM" in
  let level := if testing then FatalLevel else level_of (GetString "LOG_LEVEL") in
  let log hooks := {| lg_Level := level; lg_Formatter := buildFormatter (GetString "LOG_FORMAT");
                      lg_Hooks := hooks; lg_ReportCaller := true |} in
  w ← get_state;
  let vars hooks := {| v_Log := Some (log hooks); v_logLevel := level; v_initialized := v_initialized w.1;
                       v_cloudWatchHook := v_cloudWatchHook w.1 |} in
  set_vars (vars []);;
  if bool_decide (key ≠ EmptyString) then
    (* [cloudWatchHook := ...] declares a variable of the block; the error is only logged *)
    lib (NewBatchWriterWithDuration group stream region key secret batchFrequency);;
    let cloudWatchHook := {| hook_group := group; hook_stream := stream; hook_batchFrequency := batchFrequency |} in
    set_vars (vars [cloudWatchHook])
  else mret tt.

Definition InitLogger_body (clowder : option (option CloudWatchConfig)) (testing : bool) : M LogWorld unit :=
  settings ← cloudwatch_settings clowder;
  build_logger testing settings.

(** [initializeLogger.Do]: once, also when the body panics. *)
Definition InitLogger (clowder : option (option CloudWatchConfig)) (testing : bool) : M LogWorld unit :=
  w ← get_state;
  if v_initialized w.1 then mret tt
  else set_vars {| v_Log := v_Log w.1; v_logLevel := v_logLevel w.1; v_initialized := true;
                   v_cloudWatchHook := v_cloudWatchHook w.1 |};;
       InitLogger_body clowder testing.

Definition FlushLogger : M LogWorld unit :=
  w ← get_state;
  match v_cloudWatchHook w.1 with
  | Some hook => lib (Flush hook)
  | None => mret tt
  end.

(** *** main *)

(** [defer d]: [d] also runs when the function panics, not when the process exits. *)
Definition deferred {W A} (d : M W unit) (m : M W A) : M W A := λ w,
  match m w with
  | (Exit why, w') => (Exit why, w')
  | (o, w') => match d w' with
               | (Ret _, w'') => (o, w'')
               | (Panic why, w'') => (Panic why, w'')
               | (Exit why, w'') => (Exit why, w'')
               end
  end.

(** [main] of the service; [Execute] is that of its root command. *)
Definition main (clowder : option (option CloudWatchConfig)) (testing : bool)
    (Execute : M LogWorld (option error)) : M LogWorld unit :=
  InitLogger clowder testing;;
  deferred FlushLogger
    (err ← Execute;
     match err with
     | Some _ => FlushLogger;; exit_process "exit status 1"
     | None => mret tt
     end).
End variables.

(** ** The helpers for errors

    What they do to the entries written so far: a logger writes those of its own
    level and of the levels before it, and [Fatal] ends the process in any case.
    The fields of a given entry stay, but for the error. *)

Definition Level_uint (l : Level) : nat :=
  match l with
  | PanicLevel => 0 | FatalLevel => 1 | ErrorLevel => 2 | WarnLevel => 3
  | InfoLevel => 4 | DebugLevel => 5 | TraceLevel => 6
  end.

Section helpers.
Context (Log : LogrusLogger).

Definition emit (level : Level) (caller : option string) (msg : string) (fields : gmap string field_value)
    : M (list Entry) unit :=
  if bool_decide (Level_uint level ≤ Level_uint (lg_Level Log)) then
    modify (λ l, l ++ [{| en_Message := msg; en_Level := level; en_Caller := caller; en_Data := fields |}])
  else mret tt.

Definition LogFatalError (caller : option string) (msg : string) (err : error) : M (list Entry) unit :=
  emit FatalLevel caller msg {[ "error" := FError err ]};;
  exit_process msg.
Definition LogError (caller : option string) (msg : string) (err : error) : M (list Entry) unit :=
  emit ErrorLevel caller msg {[ "error" := FError err ]}.
Definition LogWithError (log : gmap string field_value) (caller : option string) (msg : string) (err : error)
    : M (list Entry) unit :=
  emit ErrorLevel caller msg (<["error" := FError err]> log).
Definition LogErrorWithAccountAndClientId (caller : option string) (msg : string) (err : error)
    (account org_id client_id : string) : M (list Entry) unit :=
  emit ErrorLevel caller msg
    {[ "error" := FError err; "account" := FOther (VString account);
       "org_id" := FOther (VString org_id); "client_id" := FOther (VString client_id) ]}.
End helpers.

(** ** Log lines *)

Fixpoint printable (s : string) : bool :=
  match s with
  | EmptyString => true
  | String a s' => (32 <=? byte_val a)%Z && printable s'
  end.

Lemma printable_app s t : printable (s +:+ t) = printable s && printable t.
Proof.
  induction s as [|a s IH]; [done|]. rewrite string_app_cons. cbn. by rewrite IH, andb_assoc.
Qed.

Lemma printable_no_newline s : printable s = true → string_mem newline s = false.
Proof.
  induction s as [|a s IH]; [done|]. cbn. intros [Ha Hs]%andb_true_iff. rewrite IH by done.
  unfold char_eqb. rewrite bool_decide_eq_false_2; [done|]. by intros ->.
Qed.

Lemma printable_digits s acc v : digits_val acc s = Some v → printable s = true.
Proof.
  revert acc. induction s as [|a s IH]; intros acc; [done|]. cbn [digits_val].
  destruct (digit_val a) eqn:Ha; [|done]. cbn. intros Hs. rewrite (IH _ Hs), andb_true_r.
  unfold digit_val, byte_in in Ha. destruct (_ && _) eqn:E; [|done].
  apply andb_true_iff in E as [H%Z.leb_le _]. apply Z.leb_le. lia.
Qed.

Lemma printable_Itoa z : printable (Itoa z) = true.
Proof.
  assert (H : ∀ x : N, printable (pretty x) = true)
    by (intros x; by eapply printable_digits, digits_val_pretty).
  unfold Itoa. destruct z; [done|apply H|]. change (printable (pretty (N.pos p)) = true). apply H.
Qed.

Lemma printable_zeros n : printable (zeros n) = true.
Proof. by induction n. Qed.

Lemma printable_split n s : printable s = true →
  printable (split_at n s).1 = true ∧ printable (split_at n s).2 = true.
Proof.
  revert s. induction n as [|n IH]; intros [|a s]; try done. cbn. intros [Ha Hs]%andb_true_iff.
  destruct (IH s Hs) as [H1 H2]. destruct (split_at n s). cbn in *. by rewrite Ha.
Qed.

Lemma printable_float f s : FormatFloat f = Some s → printable s = true.
Proof.
  assert (Hl : ∀ d k, printable (layout_decimal d k) = true).
  { intros d k. unfold layout_decimal.
    set (ds := Itoa d). assert (Hds : printable ds = true) by apply printable_Itoa.
    assert (Hsp := λ n, printable_split n ds Hds).
    destruct (_ || _).
    - specialize (Hsp 1). destruct (split_at 1 ds) as [h t]. destruct Hsp as [Hh Ht]. cbn [fst snd] in *.
      assert (He : ∀ x : Z, printable (if (x <? 0)%Z then "e-" +:+ Itoa (- x) else "e+" +:+ Itoa x) = true)
        by (intros x; destruct (x <? 0)%Z; apply printable_Itoa).
      rewrite !printable_app, Hh, He. by destruct t; cbn in Ht |- *; rewrite ?Ht.
    - destruct (_ <=? _)%Z; [by rewrite printable_app, Hds, printable_zeros|].
      destruct (_ <=? _)%Z.
      + specialize (Hsp (Z.to_nat (Z.of_nat (String.length ds) + k))). destruct (split_at _ ds) as [h t].
        destruct Hsp as [Hh Ht]. cbn [fst snd] in *. rewrite printable_app, Hh. exact Ht.
      + change (printable (zeros (Z.to_nat (- (Z.of_nat (String.length ds) + k - 1) - 1)) +:+ ds) = true).
        by rewrite !printable_app, printable_zeros, Hds. }
  unfold FormatFloat. destruct f as [b|b| |b m e]; [by destruct b; intros [= <-]|done..|].
  destruct (shortest_digits _ _ _ _ _ _ _) as [d k], (strip_zeros _ d k) as [d' k'].
  intros [= <-]. rewrite printable_app, Hl. by destruct b.
Qed.

Lemma printable_raw s : raw_ok s = true → printable s = true.
Proof.
  induction s as [s IH] using string_length_ind. destruct s as [|a s]; [done|]. cbn [raw_ok].
  assert (Hhex : ∀ c, is_hex c = true → (32 <=? byte_val c)%Z = true).
  { intros c [v Hv]%bool_decide_eq_true. apply Z.leb_le. unfold hex_val, byte_in in Hv.
    repeat (destruct (_ && _) eqn:E in Hv; [apply andb_true_iff in E as [H%Z.leb_le _]; lia|clear E]). done. }
  destruct (char_eqb a backslash) eqn:Ha.
  - apply char_eqb_eq in Ha as ->. destruct s as [|e s]; [done|]. destruct (char_eqb e "u") eqn:He.
    + apply char_eqb_eq in He as ->. destruct s as [|a1 [|a2 [|a3 [|a4 s]]]]; try done.
      rewrite !andb_true_iff. intros [[[[H1 H2] H3] H4] Hs]. cbn.
      rewrite (Hhex a1 H1), (Hhex a2 H2), (Hhex a3 H3), (Hhex a4 H4). apply (IH s); [cbn; lia|done].
    + intros [Hs Hk]%andb_true_iff. cbn. rewrite (IH s) by (done || (cbn; lia)). rewrite andb_true_r.
      apply existsb_exists in Hs as (x&Hx&->%char_eqb_eq). clear -Hx.
      repeat (destruct Hx as [<-|Hx]; [vm_compute; reflexivity|]). destruct Hx.
  - rewrite !andb_true_iff. intros [[_ H] Hs]. cbn. rewrite H. apply (IH s); [cbn; lia|done].
Qed.

Lemma printable_join l sep : Forall (λ s, printable s = true) l → printable sep = true → printable (Join l sep) = true.
Proof.
  intros Hl Hs. induction Hl as [|x l Hx Hl IH]; [done|]. destruct l as [|y l]; [done|].
  change (Join (x :: y :: l) sep) with (x +:+ sep +:+ Join (y :: l) sep). by rewrite !printable_app, Hx, Hs, IH.
Qed.

(** The documents that contain no control character. *)
Fixpoint doc_clean (d : jdoc) : bool :=
  match d with
  | JNull | JBool _ => true
  | JNum s | JStr s => printable s
  | JArr l => forallb doc_clean l
  | JObj kvs => forallb (λ kv : string * jdoc, printable kv.1 && doc_clean kv.2) kvs
  end.

Lemma render_clean d : doc_clean d = true → printable (render d) = true.
Proof.
  induction d as [|b|s|s|l IH|kvs IH] using jdoc_ind'; cbn [doc_clean render].
  - done.
  - by destruct b.
  - done.
  - intros Hs. cbn. rewrite printable_app, Hs. done.
  - intros Hc. cbn. rewrite printable_app, printable_join; [done| |done].
    apply Forall_fmap. rewrite forallb_forall in Hc. rewrite Forall_forall in IH |- *.
    intros x Hx. apply IH; [done|]. by apply Hc, list_elem_of_In.
  - intros Hc. cbn. rewrite printable_app, printable_join; [done| |done].
    apply Forall_fmap. rewrite forallb_forall in Hc. rewrite Forall_forall in IH |- *.
    intros x Hx. specialize (Hc x (proj1 (list_elem_of_In _ _) Hx)). apply andb_true_iff in Hc as [Hk Hd].
    cbn. rewrite printable_app, Hk. cbn. by apply IH.
Qed.

Lemma opt_all_elem {A} (l : list (option A)) xs : opt_all l = Some xs → ∀ x, x ∈ xs → Some x ∈ l.
Proof.
  revert xs. induction l as [|o l IH]; intros xs; cbn.
  { intros [= <-] x Hx. by apply not_elem_of_nil in Hx. }
  destruct o as [y|]; [|done]. cbn. destruct (opt_all l) as [ys|]; [|done]. intros [= <-] x.
  rewrite !elem_of_cons. intros [->|Hx]; [by left|right; eauto].
Qed.

Lemma doc_of_clean html v : ∀ d, doc_of html v = Some d → doc_clean d = true.
Proof.
  remember (value_depth v) as n eqn:Hn. revert v Hn.
  induction (Nat.lt_wf_0 n) as [n _ IH]. intros v -> d.
  assert (Hrec : ∀ v', value_depth v' < value_depth v → ∀ d, doc_of html v' = Some d → doc_clean d = true) by eauto.
  clear IH. destruct v as [|b|f|s|l|m]; cbn [doc_of].
  - by intros [= <-].
  - by intros [= <-].
  - destruct (FormatFloat f) as [lit|] eqn:Hf; [|done]. intros [= <-]. by apply printable_float in Hf.
  - intros [= <-]. apply printable_raw, quote_raw_ok.
  - destruct (opt_all _) as [ds|] eqn:Hds; [|done]. intros [= <-]. cbn [doc_clean].
    apply forallb_forall. intros x Hx%list_elem_of_In.
    apply (opt_all_elem _ _ Hds), list_elem_of_fmap in Hx as (v&Hv&Hin).
    eapply Hrec; [|symmetry; exact Hv]. cbn. apply Nat.lt_succ_r, max_list_elem, list_elem_of_fmap. eauto.
  - destruct (opt_all _) as [kvs|] eqn:Hds; [|done]. intros [= <-]. cbn [doc_clean].
    apply forallb_forall. intros x Hx%list_elem_of_In.
    apply (opt_all_elem _ _ Hds), list_elem_of_fmap in Hx as ([k o]&Ho&Hin). cbn [fst snd] in Ho.
    destruct o as [d|]; [|done]. cbn in Ho. injection Ho as ->. cbn [fst snd].
    rewrite printable_raw by apply quote_raw_ok. cbn.
    unfold sort_keys in Hin. rewrite merge_sort_Permutation in Hin. apply elem_of_map_to_list in Hin.
    rewrite lookup_fmap in Hin. destruct (m !! k) as [v|] eqn:Hk; [|done]. cbn in Hin.
    eapply Hrec; [by eapply value_depth_member|]. congruence.
Qed.

(** ** Properties *)

Section properties.
Context `{!Platform, !LocalZone}.

(** The name of the host, and the line of an entry without its end. *)
Definition host_of (f : CustomCloudwatch) : string :=
  match Hostname with inl h => h | inr _ => cw_Hostname f end.
Definition entry_line (f : CustomCloudwatch) (e : time * Entry) : option string :=
  caller ← en_Caller e.2; Marshal (VObject (log_data e.1 (host_of f) caller e.2)).

Lemma entry_line_newline f e s : entry_line f e = Some s → string_mem newline s = false.
Proof.
  unfold entry_line, Marshal. destruct (en_Caller e.2) as [caller|]; [|done].
  cbn [mbind option_bind]. destruct (doc_of true _) as [d|] eqn:Hd; [|done]. intros [= <-].
  by apply printable_no_newline, render_clean, (doc_of_clean _ _ _ Hd).
Qed.

Lemma Format_run now entry f caller :
  en_Caller entry = Some caller →
  ∃ f', host_of f' = host_of f ∧
    Format now entry f = (Ret ((λ s, s +:+ str1 newline) <$> entry_line f (now, entry)), f').
Proof.
  intros Hc. unfold Format, entry_line, host_of. cbn [fst snd]. rewrite Hc.
  destruct Hostname as [h|e]; eexists; (split; [|reflexivity]); done.
Qed.

(** Whatever is logged, the log is one line per entry: its lines are the JSON
    documents of the entries, in order (entries with a number that JSON does not
    have are dropped), and nothing an entry holds, a client's text for instance,
    can start a line of its own; each line decodes to the fields of its entry
    and the standard ones the entry does not replace. *)
Theorem log_lines_separate entries f :
  Forall (λ e : time * Entry, is_Some (en_Caller e.2)) entries →
  ∃ out f', write_entries entries f = (Ret out, f') ∧
    Split out newline = omap (entry_line f) entries ++ [EmptyString] ∧
    ∀ now entry caller line, (now, entry) ∈ entries → en_Caller entry = Some caller →
      entry_line f (now, entry) = Some line →
      let data := log_data now (host_of f) caller entry in
      value_ok (VObject data) = true → (Z.of_nat (value_depth (VObject data)) ≤ 10000)%Z →
      UnmarshalInterface line = (VObject data, false).
Proof.
  intros Hall. 
  assert (Hrun : ∃ out f', write_entries entries f = (Ret out, f') ∧
    Split out newline = omap (entry_line f) entries ++ [EmptyString]).
  { revert f. induction Hall as [|[now entry] l [caller Hc] _ IH]; intros f; [by eexists _, _|].
    cbn [snd] in Hc. destruct (Format_run now entry f caller Hc) as (f1&Hh&Hf).
    destruct (IH f1) as (out&f'&Hr&Hs). cbn [write_entries].
    assert (He : omap (entry_line f1) l = omap (entry_line f) l).
    { unfold entry_line. by rewrite Hh. }
    rewrite (bind_ret _ _ _ _ _ Hf), (bind_ret _ _ _ _ _ Hr).
    cbn [omap list_omap]. destruct (entry_line f (now, entry)) as [s|] eqn:Hl;
      eexists _, f'; (split; [reflexivity|]); cbn [fmap option_fmap option_map default].
    - change (Split ((s +:+ str1 newline) +:+ out) newline = s :: (omap (entry_line f) l ++ [EmptyString])).
      rewrite <-He, string_app_assoc. change (str1 newline +:+ out) with (String newline out).
      rewrite Split_app by (by eapply entry_line_newline). by rewrite Hs.
    - change (Split out newline = omap (entry_line f) l ++ [EmptyString]). by rewrite <-He. }
  destruct Hrun as (out&f'&Hr&Hs). exists out, f'. split; [exact Hr|]. split; [exact Hs|].
  intros now entry caller line _ Hc Hl data Hok Hd. unfold entry_line in Hl. cbn [fst snd] in Hl.
  rewrite Hc in Hl. cbn [mbind option_bind] in Hl. fold data in Hl.
  destruct (Unmarshal_Marshal (VObject data) Hok Hd) as (s&Hs'&Hu). congruence.
Qed.
End properties.

Section flushing.
Context {V : Type} `{!Viper V, !Platform} {L : Type} `{!CloudWatchLib L}.

(** What a process does with the package: its calls, in any order. *)
Inductive log_call :=
| CallInit (clowder : option (option CloudWatchConfig)) (testing : bool)
| CallFlush.
Definition run_call (c : log_call) : M (LogWorld (L := L)) unit :=
  match c with
  | CallInit clowder testing => InitLogger (V := V) clowder testing
  | CallFlush => FlushLogger
  end.
(** A call that panics ends the goroutine, not what the others do afterwards. *)
Definition run_calls (l : list log_call) (w : LogWorld (L := L)) : LogWorld (L := L) :=
  foldl (λ w c, state_of (run_call c) w) w l.

Definition unhooked (w : LogWorld (L := L)) : Prop := v_cloudWatchHook w.1 = None.

Lemma lib_vars {A} (m : M L A) (w : LogWorld) : ((lib m w).2).1 = w.1.
Proof. unfold lib. by destruct (m w.2). Qed.

Lemma build_unhooked testing settings w :
  unhooked w → wp (build_logger (V := V) testing settings) w (λ _ w', unhooked w').
Proof.
  intros Hw. destruct settings as [[[key secret] region] group]. unfold build_logger.
  apply wp_bind, wp_get, wp_bind. rewrite wp_unfold. cbn [set_vars fst snd].
  case_bool_decide; [|exact Hw]. apply wp_bind. rewrite wp_unfold.
  unfold lib. destruct (NewBatchWriterWithDuration _ _ _ _ _ _ _) as [[?|?|?] ?]; exact Hw.
Qed.

Lemma init_body_unhooked clowder testing w :
  unhooked w → wp (InitLogger_body (V := V) clowder testing) w (λ _ w', unhooked w').
Proof.
  intros Hw. unfold InitLogger_body. apply wp_bind. unfold cloudwatch_settings.
  destruct clowder as [[c|]|]; [apply wp_ret|exact Hw|apply wp_ret]; by apply build_unhooked.
Qed.

Lemma call_unhooked c w : unhooked w → unhooked (state_of (run_call c) w).
Proof.
  intros Hw. destruct c as [clowder testing|]; cbn [run_call].
  - unfold state_of. change (wp (InitLogger (V := V) clowder testing) w (λ _ w', unhooked w')).
    unfold InitLogger. apply wp_bind, wp_get. destruct (v_initialized w.1); [exact Hw|].
    apply wp_bind, init_body_unhooked. exact Hw.
  - unfold FlushLogger, state_of, unhooked, mbind, M_bind, get_state in *. by rewrite Hw.
Qed.

(** FlushLogger never flushes.  After any calls of InitLogger and FlushLogger
    the package's hook variable is unset, so that FlushLogger does nothing, even
    though InitLogger gave the logger a CloudWatch hook when it found a key: the
    entries still buffered when a process ends are lost. *)
Theorem FlushLogger_does_nothing calls l :
  let w := run_calls calls (zero_vars, l) in
  FlushLogger w = (Ret tt, w) ∧
  ∀ config w', cwc_AccessKeyId config ≠ EmptyString →
    InitLogger (V := V) (Some (Some config)) false (zero_vars, l) = (Ret tt, w') →
    ∃ log hook, v_Log w'.1 = Some log ∧ lg_Hooks log = [hook] ∧ hook_group hook = cwc_LogGroup config ∧
      FlushLogger w' = (Ret tt, w').
Proof.
  assert (Hflush : ∀ w, unhooked w → FlushLogger w = (Ret tt, w)).
  { intros w Hw. unfold FlushLogger, mbind, M_bind, get_state, unhooked in *. by rewrite Hw. }
  split.
  - apply Hflush. assert (H0 : unhooked (zero_vars, l)) by done. revert H0.
    generalize (zero_vars, l). induction calls as [|c calls IH]; intros w Hw; [exact Hw|].
    apply IH, call_unhooked, Hw.
  - intros config w' Hkey Hrun.
    assert (Hw : unhooked w').
    { pose proof (call_unhooked (CallInit (Some (Some config)) false) (zero_vars, l) eq_refl) as Hu.
      unfold state_of in Hu. cbn [run_call] in Hu. by rewrite Hrun in Hu. }
    unfold InitLogger, InitLogger_body, cloudwatch_settings, build_logger, mbind, M_bind, get_state, set_vars, lib in Hrun. cbn in Hrun.
    rewrite bool_decide_eq_true_2 in Hrun by done.
    destruct (NewBatchWriterWithDuration _ _ _ _ _ _ _) as [[?|?|?] ?]; simplify_eq.
    cbn. eexists _, _. split_and!; [done..|]. by apply Hflush.
Qed.
End flushing.

(** ** Witnesses *)

Definition log_platform : Platform := {|
  ReadFile _ := inr (ErrText "no such file"); Hostname := inl "pod-1"; sql_Open _ _ := None;
  writer_invalid brokers _ _ _ := if bool_decide (brokers = []) then Some "no brokers" else None;
  reader_invalid brokers _ _ _ := if bool_decide (brokers = []) then Some "no brokers" else None;
  certificate := unit; LoadX509KeyPair _ _ := inl tt; certpool := unit; CertPoolFromPEM _ := tt;
  scram_error _ _ _ := None; rsa_key := unit; ParseRSAPrivateKeyFromPEM _ := inl tt; SignedString _ _ _ := inl "" |}.
#[local] Existing Instance log_platform.
Definition log_zone : LocalZone := {| utc_offset _ := 7200%Z |}.
#[local] Existing Instance log_zone.

(** A client that tries to write a line of its own, and one that replaces a field. *)
Definition test_entries : list (time * Entry) := [
  (1704067200500000000%Z,
   {| en_Message := "offline" +:+ str1 newline +:+ "{}"; en_Level := InfoLevel; en_Caller := Some "main.f"; en_Data := ∅ |});
  (1704067201000000000%Z,
   {| en_Message := "x"; en_Level := ErrorLevel; en_Caller := Some "main.g";
      en_Data := {[ "error" := FError (ErrText "boom"); "app" := FOther (VString "other") ]} |})].

Lemma log_lines_separate_witness :
  ∃ out f', write_entries test_entries {| cw_Hostname := EmptyString |} = (Ret out, f') ∧
    length (Split out newline) = 3 ∧
    UnmarshalInterface (default EmptyString (Split out newline !! 0%nat))
    = (VObject (log_data 1704067200500000000%Z "pod-1" "main.f"
         {| en_Message := "offline" +:+ str1 newline +:+ "{}"; en_Level := InfoLevel;
            en_Caller := Some "main.f"; en_Data := ∅ |}), false).
Proof.
  destruct (log_lines_separate test_entries {| cw_Hostname := EmptyString |}) as (out&f'&Hr&Hs&Hd).
  { repeat constructor; by eexists. }
  exists out, f'. split; [exact Hr|]. rewrite Hs. split; [vm_compute; reflexivity|].
  refine (Hd _ _ "main.f" _ (list_elem_of_here _ _) eq_refl _ _ _).
  - vm_compute. reflexivity.
  - vm_compute. reflexivity.
  - vm_compute. intros Hx. discriminate Hx.
Defined.

#[local] Instance test_cloudwatch : CloudWatchLib (list string) := {
  NewBatchWriterWithDuration group stream _ _ _ _ := modify (λ l, l ++ [group +:+ "/" +:+ stream]);; mret None;
  Flush h := modify (λ l, l ++ ["flush"]) }.

Lemma FlushLogger_does_nothing_witness :
  let config := {| cwc_AccessKeyId := "key"; cwc_SecretAccessKey := "secret"; cwc_Region := "us-east-1";
                   cwc_LogGroup := "cloud-connector" |} in
  let w' := (InitLogger (V := list (string * optval)) (Some (Some config)) false (zero_vars, [])).2 in
  w'.2 = ["cloud-connector/pod-1"] ∧ FlushLogger w' = (Ret tt, w').
Proof.
  intros config w'. split; [vm_compute; reflexivity|].
  destruct (proj2 (FlushLogger_does_nothing (V := list (string * optval)) [] ([] : list string)) config w')
    as (log&hook&_&_&_&Hf).
  - discriminate.
  - vm_compute. reflexivity.
  - exact Hf.
Defined.
