(* ===== verification/MqttConsumer.v ===== *)
(** * The MQTT message consumer ([cmd/cloud-connector/mqtt_message_consumer.go])

    - the options of the MQTT connection ([internal/mqtt/client_options.go]) and
      the functions that choose them from the configuration (api_server.go,
      mqtt_message_consumer.go);
    - [startMqttMessageConsumer], until it waits for the connection's end, and
      its shutdown.

    The MQTT client is the class [MqttLink]; an option is recorded as the setter it
    calls, of which the last one counts.  [logBrokerNode] only writes to the log. *)

From S2P Require Import Prelude GoStrings GoNumTime Json Domain Config Topic Protocol Inventory MqttIngress Deploy.
From stdpp Require Import options.

Definition mqttConnectionFailureCounter : string := "cloud_connector_mqtt_connection_failure_count".
Definition akamaiTokenHeader : string := "X-Akamai-DCP-Token".

(** [http.Header] as the options use it: [Add] and [Set] on one canonical name. *)
Definition header_set (k v : string) (h : list (string * string)) : list (string * string) :=
  filter (λ kv : string * string, kv.1 ≠ k) h ++ [(k, v)].

(** The setters of [MQTT.ClientOptions]. *)
Inductive setting (W : Type) `{!Platform} :=
| AddBroker (url : string)
| SetTLSConfig (c : TlsConfig)
| SetClientID (id : string)
| SetCredentials (username password : string)
| SetHTTPHeaders (h : list (string * string))
| SetReconnectingHandler (h : list (string * string) → M W (list (string * string)))
| SetCleanSession (b : bool)
| SetResumeSubs (b : bool)
| SetProtocolVersion (v : Z)
| SetAutoReconnect (b : bool)
| SetDefaultPublishHandler (h : mqtt_message → M W unit)
| SetOnConnectHandler (h : M W unit)
| SetConnectionLostHandler (h : error → M W unit).
Arguments AddBroker {W _}.
Arguments SetTLSConfig {W _}.
Arguments SetClientID {W _}.
Arguments SetCredentials {W _}.
Arguments SetHTTPHeaders {W _}.
Arguments SetReconnectingHandler {W _}.
Arguments SetCleanSession {W _}.
Arguments SetResumeSubs {W _}.
Arguments SetProtocolVersion {W _}.
Arguments SetAutoReconnect {W _}.
Arguments SetDefaultPublishHandler {W _}.
Arguments SetOnConnectHandler {W _}.
Arguments SetConnectionLostHandler {W _}.

(** [MQTT.ClientOptions]: what was set, the latest last. *)
Definition ClientOptions (W : Type) `{!Platform} : Type := list (setting W).

Class MqttLink (W : Type) `{!Platform} := {
  Connect : ClientOptions W → M W (option error);
  Subscribe : string → Z → (mqtt_message → M W unit) → M W (option error);
  Disconnect_link : Z → M W unit;
}.

(** The channels the handlers write to, and the rest of the process. *)
Class ProcessEvents (W : Type) := {
  NotifyConnected : M W unit;
  NotifyConnectionFailed : error → M W unit;
  StartHTTPServer : string → M W unit;
  ShutdownHTTPServer : Z → M W unit;
  WaitForSignalOrLostConnection : M W unit;
  CloseProducer : M W unit;
  FlushLogger : M W unit;
  Sleep : Z → M W unit;
}.
#[global] Hint Mode ProcessEvents + : typeclass_instances.

Section options.
Context {W : Type} `{!Platform, !MqttLink W, !ProcessEvents W, !Metrics W, !Clock W, !KafkaWriter W}.

Definition MqttClientOptionsFunc : Type := ClientOptions W → M W (ClientOptions W + error).

(** An option that only sets something. *)
Definition sets (s : setting W) : MqttClientOptionsFunc := λ opts, mret (inl (opts ++ [s])).

Definition WithJwtAsHttpHeader (tokenGenerator : JwtGenerator W) : MqttClientOptionsFunc := λ opts,
  jwtToken ← tokenGenerator;
  mret match jwtToken with
       | inr err => inr err
       | inl jwtToken => inl (opts ++ [SetHTTPHeaders [(akamaiTokenHeader, jwtToken)]])
       end.

(** The handler keeps the old token when there is no new one. *)
Definition WithJwtReconnectingHandler (tokenGenerator : JwtGenerator W) : MqttClientOptionsFunc :=
  sets (SetReconnectingHandler (λ headers,
    jwtToken ← tokenGenerator;
    mret match jwtToken with
         | inr _ => headers
         | inl jwtToken => header_set akamaiTokenHeader jwtToken headers
         end)).

Definition WithTlsConfig (tlsConfig : TlsConfig) : MqttClientOptionsFunc := sets (SetTLSConfig tlsConfig).
Definition WithClientID (clientID : string) : MqttClientOptionsFunc := sets (SetClientID clientID).
Definition WithUsernameAndPassword (username password : string) : MqttClientOptionsFunc :=
  sets (SetCredentials username password).
Definition WithCleanSession (cleanSession : bool) : MqttClientOptionsFunc := sets (SetCleanSession cleanSession).
Definition WithResumeSubs (resumeSubs : bool) : MqttClientOptionsFunc := sets (SetResumeSubs resumeSubs).
Definition WithDefaultPublishHandler (msgHdlr : mqtt_message → M W unit) : MqttClientOptionsFunc :=
  sets (SetDefaultPublishHandler msgHdlr).
Definition WithProtocolVersion (protocolVersion : Z) : MqttClientOptionsFunc :=
  sets (SetProtocolVersion protocolVersion).
Definition WithAutoReconnect (autoReconnect : bool) : MqttClientOptionsFunc := sets (SetAutoReconnect autoReconnect).
Definition WithOnConnectHandler (handler : M W unit) : MqttClientOptionsFunc := sets (SetOnConnectHandler handler).
Definition WithConnectionLostHandler (handler : error → M W unit) : MqttClientOptionsFunc :=
  sets (SetConnectionLostHandler (λ e, Inc mqttConnectionFailureCounter;; handler e)).

Fixpoint apply_all (funcs : list MqttClientOptionsFunc) (opts : ClientOptions W)
    : M W (ClientOptions W + error) :=
  match funcs with
  | [] => mret (inl opts)
  | f :: funcs' =>
      r ← f opts;
      match r with
      | inl opts' => apply_all funcs' opts'
      | inr err => mret (inr err)
      end
  end.

Definition NewBrokerOptions (brokerUrl : string) (funcs : list MqttClientOptionsFunc)
    : M W (ClientOptions W + error) := apply_all funcs [AddBroker brokerUrl].

Definition CreateBrokerConnection (brokerUrl : string) (funcs : list MqttClientOptionsFunc)
    : M W (option error) :=
  r ← NewBrokerOptions brokerUrl funcs;
  match r with
  | inr err => mret (Some err)
  | inl connOpts => Connect connOpts
  end.

(** ** The choices of the configuration *)

Definition buildJwtGenerator (cfg : Config) (mqttClientId : string) : JwtGenerator W + error :=
  if bool_decide (MqttBrokerJwtGeneratorImpl cfg = RsaTokenGenerator) then
    NewRSABasedJwtGenerator (JwtPrivateKeyFile cfg) mqttClientId (JwtTokenExpiry cfg)
  else if bool_decide (MqttBrokerJwtGeneratorImpl cfg = FileTokenGenerator) then
    NewFileBasedJwtGenerator (MqttBrokerJwtFile cfg)
  else inr (ErrText "Invalid JWT generator configured for the MQTT connection").

Definition buildMqttClientId (cfg : Config) : string + error :=
  if MqttUseHostnameAsClientId cfg then Hostname
  else if bool_decide (MqttClientId cfg ≠ EmptyString) then inl (MqttClientId cfg)
  else inr (ErrText "Unable to determine what to use as the client_id for MQTT connection").

Definition logMqttConnectionLostHandler (err : error) : M W unit := mret tt.

Definition buildDefaultMqttBrokerConfigFuncList (tlsConfig : option TlsConfig) (cfg : Config)
    : list MqttClientOptionsFunc + error :=
  let tls := match tlsConfig with Some c => [WithTlsConfig c] | None => [] end in
  match buildMqttClientId cfg with
  | inr err => inr err
  | inl mqttClientId =>
      let auth :=
        if bool_decide (MqttBrokerAuthType cfg = "jwt") then
          match buildJwtGenerator cfg mqttClientId with
          | inr err => inr err
          | inl jwtGenerator =>
              inl [WithJwtAsHttpHeader jwtGenerator; WithJwtReconnectingHandler jwtGenerator]
          end
        else if bool_decide (MqttBrokerAuthType cfg = "password") then
          inl [WithUsernameAndPassword (MqttBrokerUsername cfg) (MqttBrokerPassword cfg)]
        else inl [] in
      match auth with
      | inr err => inr err
      | inl auth =>
          inl (tls ++ [WithClientID mqttClientId] ++ auth
               ++ [WithProtocolVersion 4; WithConnectionLostHandler logMqttConnectionLostHandler])
      end
  end.

Definition buildMessageHandlerMqttBrokerConfigFuncList (tlsConfig : option TlsConfig) (cfg : Config)
    : list MqttClientOptionsFunc + error :=
  match buildDefaultMqttBrokerConfigFuncList tlsConfig cfg with
  | inr err => inr err
  | inl funcs => inl (funcs ++ [WithCleanSession (MqttCleanSession cfg); WithResumeSubs (MqttResumeSubs cfg)])
  end.

Definition buildBrokerTlsConfigFuncList (cfg : Config) : list TlsConfigFunc + error :=
  let cert := MqttBrokerTlsCertFile cfg in
  let key := MqttBrokerTlsKeyFile cfg in
  let rest :=
    (if bool_decide (MqttBrokerTlsCACertFile cfg ≠ EmptyString) then [WithCACerts (MqttBrokerTlsCACertFile cfg)] else [])
    ++ (if MqttBrokerTlsSkipVerify cfg then [WithSkipVerify] else []) in
  if bool_decide (cert ≠ EmptyString) && bool_decide (key ≠ EmptyString) then inl (WithCert cert key :: rest)
  else if bool_decide (cert ≠ EmptyString) || bool_decide (key ≠ EmptyString) then
    inr (ErrText "Cert or key file specified without the other")
  else inl rest.

Definition notifyOnMqttConnectionLostHandler (err : error) : M W unit :=
  Disconnect_link 1000;; NotifyConnectionFailed err.

Definition buildOnConnectionLostMqttOptions (cfg : Config) (brokerOptions : list MqttClientOptionsFunc)
    : list MqttClientOptionsFunc :=
  let '(autoReconnect, handler) :=
    if ShutdownOnMqttConnectionLost cfg then (false, notifyOnMqttConnectionLostHandler)
    else (true, logMqttConnectionLostHandler) in
  brokerOptions ++ [WithAutoReconnect autoReconnect; WithConnectionLostHandler handler].

Record Subscriber := { sub_Topic : string; sub_EntryPoint : mqtt_message → M W unit; sub_Qos : Z }.

Definition subscribeOnMqttConnectHandler (subscribers : list Subscriber) : M W unit :=
  for_each subscribers (λ subscriber,
    err ← Subscribe (sub_Topic subscriber) (sub_Qos subscriber) (sub_EntryPoint subscriber);
    match err with
    | Some _ => exit_process "Subscribing to MQTT topic failed"
    | None => mret tt
    end).

(** ** startMqttMessageConsumer *)

Definition consumer_subscribers (cfg : Config) : list Subscriber :=
  [{| sub_Topic := BuildIncomingWildcardControlTopic (NewTopicBuilder (MqttTopicPrefix cfg));
      sub_EntryPoint := ControlMessageHandler (NewTopicVerifier (MqttTopicPrefix cfg));
      sub_Qos := MqttControlSubscriptionQoS cfg |};
   {| sub_Topic := BuildIncomingWildcardDataTopic (NewTopicBuilder (MqttTopicPrefix cfg));
      sub_EntryPoint := DataMessageHandler; sub_Qos := MqttDataSubscriptionQoS cfg |}].

Definition consumer_default_handler (cfg : Config) : mqtt_message → M W unit :=
  DefaultMessageHandler (NewTopicVerifier (MqttTopicPrefix cfg))
    (ControlMessageHandler (NewTopicVerifier (MqttTopicPrefix cfg))) DataMessageHandler.

(** What follows once the connection is there: the monitoring server, the wait,
    and the shutdown. *)
Definition serve_until_stopped (cfg : Config) (mgmtAddr : string) : M W unit :=
  StartHTTPServer mgmtAddr;;
  WaitForSignalOrLostConnection;;
  ShutdownHTTPServer (HttpShutdownTimeout cfg);;
  Disconnect_link (MqttDisconnectQuiesceTime cfg);;
  CloseProducer;;
  FlushLogger;;
  Sleep (MqttConsumerShutdownSleepTime cfg).

Definition startMqttMessageConsumer (cfg : Config) (mgmtAddr : string) : M W unit :=
  match buildBrokerTlsConfigFuncList cfg with
  | inr _ => exit_process "TLS configuration error for MQTT Broker connection"
  | inl tlsConfigFuncs =>
  match NewTlsConfig tlsConfigFuncs with
  | inr _ => exit_process "Unable to configure TLS for MQTT Broker connection"
  | inl tlsConfig =>
      kafkaProducer ← StartProducer (buildRhcMessageKafkaProducerConfig cfg);
      match kafkaProducer with
      | inr _ => exit_process "Unable to start kafka producer"
      | inl _ =>
          match buildMessageHandlerMqttBrokerConfigFuncList (Some tlsConfig) cfg with
          | inr _ => exit_process "Unable to configure MQTT Broker connection"
          | inl brokerOptions =>
              let brokerOptions := buildOnConnectionLostMqttOptions cfg brokerOptions
                ++ [WithOnConnectHandler (subscribeOnMqttConnectHandler (consumer_subscribers cfg));
                    WithDefaultPublishHandler (consumer_default_handler cfg)] in
              err ← CreateBrokerConnection (MqttBrokerAddress cfg) brokerOptions;
              match err with
              | Some _ => exit_process "Failed to connect to MQTT broker"
              | None => serve_until_stopped cfg mgmtAddr
              end
          end
      end
  end end.
End options.

(** ** Lemmas: what options amount to *)

(** The last setting of a kind is the one that counts. *)
Definition latest {W A} `{!Platform} (get : setting W → option A) (opts : ClientOptions W) : option A :=
  last (omap get opts).

Section getters.
Context {W : Type} `{!Platform}.
Definition get_Broker (s : setting W) := match s with AddBroker url => Some url | _ => None end.
Definition get_TLS (s : setting W) := match s with SetTLSConfig c => Some c | _ => None end.
Definition get_ClientID (s : setting W) := match s with SetClientID i => Some i | _ => None end.
Definition get_Credentials (s : setting W) := match s with SetCredentials u p => Some (u, p) | _ => None end.
Definition get_Headers (s : setting W) := match s with SetHTTPHeaders h => Some h | _ => None end.
Definition get_Reconnecting (s : setting W) := match s with SetReconnectingHandler h => Some h | _ => None end.
Definition get_CleanSession (s : setting W) := match s with SetCleanSession b => Some b | _ => None end.
Definition get_ResumeSubs (s : setting W) := match s with SetResumeSubs b => Some b | _ => None end.
Definition get_AutoReconnect (s : setting W) := match s with SetAutoReconnect b => Some b | _ => None end.
Definition get_ProtocolVersion (s : setting W) := match s with SetProtocolVersion v => Some v | _ => None end.
Definition get_OnConnect (s : setting W) := match s with SetOnConnectHandler h => Some h | _ => None end.
Definition get_DefaultPublish (s : setting W) := match s with SetDefaultPublishHandler h => Some h | _ => None end.
Definition get_ConnectionLost (s : setting W) := match s with SetConnectionLostHandler h => Some h | _ => None end.
End getters.

Section startup.
Context {W : Type} `{!Platform, !MqttLink W, !ProcessEvents W, !Metrics W, !Clock W, !KafkaWriter W}.

Lemma start_producer_cases c (w : W) :
  (∃ why, StartProducer c w = (Exit why, w)) ∨
  (∃ why, StartProducer c w = (Panic why, w) ∧
     writer_invalid (pc_Brokers c) (pc_Topic c) (pc_BatchSize c) (pc_BatchBytes c) = Some why) ∨
  ∃ r, StartProducer c w = (Ret r, w).
Proof.
  assert (Hd : (∃ why, createDialer (pc_SaslConfig c) w = (Exit why, w)) ∨
    ∃ r, createDialer (pc_SaslConfig c) w = (Ret r, w)).
  { unfold createDialer, createTLSConfig. destruct (pc_SaslConfig c) as [s|]; [|right; by eexists].
    destruct (NewTlsConfig _); [right|left]; by eexists. }
  unfold StartProducer. destruct Hd as [[why Hd]|[[d|e] Hd]].
  - left. exists why. by rewrite (bind_exit _ _ _ _ _ Hd).
  - right. rewrite (bind_ret _ _ _ _ _ Hd). unfold NewWriter. cbn.
    destruct (writer_invalid _ _ _ _) as [why|]; [left|right]; by eexists.
  - right; right. rewrite (bind_ret _ _ _ _ _ Hd). by eexists.
Qed.

(** The TLS configuration [cfg] describes: its certificate and key when both are
    named, the CA certificates of its file when one is named. *)
Definition describes_tls (cfg : Config) (tls : TlsConfig) : Prop :=
  tls_MinVersion tls = VersionTLS12 ∧
  tls_InsecureSkipVerify tls = MqttBrokerTlsSkipVerify cfg ∧
  (MqttBrokerTlsCACertFile cfg = EmptyString ∧ tls_RootCAs tls = None ∨
   MqttBrokerTlsCACertFile cfg ≠ EmptyString ∧
   ∃ pem, Deploy.ReadFile (filepath_Clean (MqttBrokerTlsCACertFile cfg)) = inl pem ∧
          tls_RootCAs tls = Some (CertPoolFromPEM pem)) ∧
  (MqttBrokerTlsCertFile cfg = EmptyString ∧ MqttBrokerTlsKeyFile cfg = EmptyString ∧ tls_Certificates tls = [] ∨
   MqttBrokerTlsCertFile cfg ≠ EmptyString ∧ MqttBrokerTlsKeyFile cfg ≠ EmptyString ∧
   ∃ cert, LoadX509KeyPair (MqttBrokerTlsCertFile cfg) (MqttBrokerTlsKeyFile cfg) = inl cert ∧
           tls_Certificates tls = [cert]).

(** The options beside the certificate, on a configuration made so far. *)
Lemma tls_rest ca (skip : bool) t0 tls :
  tls_RootCAs t0 = None → tls_InsecureSkipVerify t0 = false →
  apply_options ((if bool_decide (ca ≠ EmptyString) then [WithCACerts ca] else [])
                 ++ (if skip then [WithSkipVerify] else [])) t0 = inl tls ↔
  tls_MinVersion tls = tls_MinVersion t0 ∧ tls_Certificates tls = tls_Certificates t0 ∧
  tls_InsecureSkipVerify tls = skip ∧
  (ca = EmptyString ∧ tls_RootCAs tls = None ∨
   ca ≠ EmptyString ∧ ∃ pem, Deploy.ReadFile (filepath_Clean ca) = inl pem ∧
                             tls_RootCAs tls = Some (CertPoolFromPEM pem)).
Proof.
  intros Hr Hs. destruct t0 as [v certs r0 s0], tls as [v' certs' r' s']; cbn in *; subst r0 s0.
  case_bool_decide as Hca; cbn; unfold WithCACerts.
  - destruct (Deploy.ReadFile _) as [pem|e]; [|split; [done|naive_solver]].
    destruct skip; cbn; (split; [intros [= <- <- <- <-]; eauto 10|naive_solver]).
  - destruct skip; cbn; (split; [intros [= <- <- <- <-]; eauto 10|naive_solver]).
Qed.

(** What a broker connection is asked for. *)
Lemma broker_tls cfg tls :
  describes_tls cfg tls ↔ ∃ funcs, buildBrokerTlsConfigFuncList cfg = inl funcs ∧ NewTlsConfig funcs = inl tls.
Proof.
  unfold describes_tls, buildBrokerTlsConfigFuncList, NewTlsConfig.
  set (rest := (if bool_decide _ then _ else _) ++ _).
  case_bool_decide as Hc; case_bool_decide as Hk; cbn [andb orb].
  - transitivity (∃ cert, LoadX509KeyPair (MqttBrokerTlsCertFile cfg) (MqttBrokerTlsKeyFile cfg) = inl cert ∧
      apply_options rest {| tls_MinVersion := VersionTLS12; tls_Certificates := [cert]; tls_RootCAs := None;
                            tls_InsecureSkipVerify := false |} = inl tls).
    + unfold rest. setoid_rewrite tls_rest; [|done..]. cbn. naive_solver.
    + split; [intros (cert&Hl&Ht)|intros (funcs&[= <-]&Ht)].
      * eexists. split; [done|]. cbn. unfold WithCert. by rewrite Hl.
      * cbn in Ht. unfold WithCert in Ht. destruct (LoadX509KeyPair _ _) as [cert|]; [by exists cert|done].
  - split; [naive_solver|intros (?&?&_); done].
  - split; [naive_solver|intros (?&?&_); done].
  - transitivity (apply_options rest {| tls_MinVersion := VersionTLS12; tls_Certificates := []; tls_RootCAs := None;
                                        tls_InsecureSkipVerify := false |} = inl tls); [|naive_solver].
    unfold rest. rewrite tls_rest by done. cbn. naive_solver.
Qed.

(** The clock of the host answers, and to read it does nothing that [outside]
    shows: whatever of the world the process may have changed. *)
Context {O : Type} (outside : W → O).
Hypothesis clock_answers : ∀ w : W, ∃ t w', Now w = (Ret t, w') ∧ outside w' = outside w.

(** The configured generator's token for the client, at the state [w] (which tells
    the time). *)
Definition issued (cfg : Config) (id : string) (w : W) (token : string) : Prop :=
  (MqttBrokerJwtGeneratorImpl cfg = FileTokenGenerator ∧
   Deploy.ReadFile (filepath_Clean (MqttBrokerJwtFile cfg)) = inl token) ∨
  (MqttBrokerJwtGeneratorImpl cfg = RsaTokenGenerator ∧
   ∃ pem key now w', Deploy.ReadFile (filepath_Clean (JwtPrivateKeyFile cfg)) = inl pem ∧
     ParseRSAPrivateKeyFromPEM pem = inl key ∧ Now w = (Ret now, w') ∧
     createRsaToken id "admin" (now + wrap64 (minute * JwtTokenExpiry cfg)) key = inl token).

Lemma jwt_answers cfg id (g : JwtGenerator W) :
  buildJwtGenerator cfg id = inl g →
  ∀ w, ∃ r w', g w = (Ret r, w') ∧ outside w' = outside w ∧ ∀ token, r = inl token ↔ issued cfg id w token.
Proof using clock_answers.
  unfold issued, buildJwtGenerator, NewRSABasedJwtGenerator, NewFileBasedJwtGenerator. intros Hg w.
  case_bool_decide as Hrsa; [|case_bool_decide as Hfile; [|done]].
  - rewrite Hrsa. destruct (Deploy.ReadFile _) as [pem|] eqn:Hp; [|done].
    destruct (ParseRSAPrivateKeyFromPEM pem) as [key|] eqn:Hk; [|done]. injection Hg as <-.
    destruct (clock_answers w) as (t&w'&Hn&Ho). rewrite (bind_ret _ _ _ _ _ Hn). eexists _, w'.
    split; [done|]. split; [done|]. intros token. split.
    + intros Ht. right. split; [done|]. by exists pem, key, t, w'.
    + intros [[Hx _]|(_&pem'&key'&now&w2&[= <-]&Hk'&Hn'&Ht)]; [discriminate Hx|]. rewrite Hk in Hk'.
      injection Hk' as <-. rewrite Hn in Hn'. injection Hn' as <- <-. exact Ht.
  - rewrite Hfile. destruct (Deploy.ReadFile _) as [text|] eqn:Ht; [|done]. injection Hg as <-. eexists _, w.
    split; [done|]. split; [done|]. intros token. split; [intros [= ->]; by left|].
    intros [[_ [= ->]]|[Hx _]]; [done|discriminate Hx].
Qed.

Lemma jwt_refused cfg id err (w : W) token : buildJwtGenerator (W := W) cfg id = inr err → ¬ issued cfg id w token.
Proof using.
  unfold issued, buildJwtGenerator, NewRSABasedJwtGenerator, NewFileBasedJwtGenerator.
  intros Hg [[Hi Hr]|(Hi&pem&key&now&w'&Hr&Hk&_)]; rewrite Hi in Hg; cbn in Hg; rewrite Hr in Hg; [done|].
  by rewrite Hk in Hg.
Qed.

(** The headers a reconnection is made with: those of the one before it, with a
    token issued now, when there is one. *)
Definition reconnects_with (cfg : Config) (id : string) (h : list (string * string) → M W (list (string * string))) : Prop :=
  ∀ headers w, ∃ headers' w', h headers w = (Ret headers', w') ∧ outside w' = outside w ∧
    ((∃ token, issued cfg id w token ∧ headers' = header_set akamaiTokenHeader token headers) ∨
     (∀ token, ¬ issued cfg id w token) ∧ headers' = headers).

(** The connection a configuration stands for, at the state [w]. *)
Definition agreed (cfg : Config) (w : W) (opts : ClientOptions W) : Prop :=
  omap get_Broker opts = [MqttBrokerAddress cfg] ∧
  (∃ id, latest get_ClientID opts = Some id ∧ buildMqttClientId cfg = inl id ∧
     if bool_decide (MqttBrokerAuthType cfg = "jwt")
     then (∃ token, latest get_Headers opts = Some [(akamaiTokenHeader, token)] ∧ issued cfg id w token) ∧
          (∃ h, latest get_Reconnecting opts = Some h ∧ reconnects_with cfg id h)
     else latest get_Headers opts = None ∧ latest get_Reconnecting opts = None) ∧
  (∃ tls, latest get_TLS opts = Some tls ∧ describes_tls cfg tls) ∧
  latest get_Credentials opts
    = (if bool_decide (MqttBrokerAuthType cfg = "password")
       then Some (MqttBrokerUsername cfg, MqttBrokerPassword cfg) else None) ∧
  latest get_ProtocolVersion opts = Some 4%Z ∧
  latest get_CleanSession opts = Some (MqttCleanSession cfg) ∧
  latest get_ResumeSubs opts = Some (MqttResumeSubs cfg) ∧
  latest get_AutoReconnect opts = Some (negb (ShutdownOnMqttConnectionLost cfg)) ∧
  latest get_ConnectionLost opts = Some (λ e, Inc mqttConnectionFailureCounter;;
    if ShutdownOnMqttConnectionLost cfg then notifyOnMqttConnectionLostHandler e
    else logMqttConnectionLostHandler e) ∧
  latest get_OnConnect opts = Some (subscribeOnMqttConnectHandler (consumer_subscribers cfg)) ∧
  latest get_DefaultPublish opts = Some (consumer_default_handler cfg).

(** The configuration describes no connection, at the state [w]: no TLS
    configuration, no client id, no token, or no Kafka producer. *)
Definition unusable (cfg : Config) (w : W) : Prop :=
  (∀ tls, ¬ describes_tls cfg tls) ∨
  (∃ err, buildMqttClientId cfg = inr err) ∨
  (MqttBrokerAuthType cfg = "jwt" ∧ ∀ id token, buildMqttClientId cfg = inl id → ¬ issued cfg id w token) ∨
  (∀ writer w', StartProducer (buildRhcMessageKafkaProducerConfig cfg) w ≠ (Ret (inl writer), w')).

(** The options of the consumer, when all of them can be made. *)
Lemma consumer_options cfg tls funcs (w : W) :
  describes_tls cfg tls →
  buildMessageHandlerMqttBrokerConfigFuncList (Some tls) cfg = inl funcs →
  let all := buildOnConnectionLostMqttOptions cfg funcs
    ++ [WithOnConnectHandler (subscribeOnMqttConnectHandler (consumer_subscribers cfg));
        WithDefaultPublishHandler (consumer_default_handler cfg)] in
  ∃ r w', NewBrokerOptions (MqttBrokerAddress cfg) all w = (Ret r, w') ∧ outside w' = outside w ∧
    match r with inl opts => agreed cfg w opts | inr _ => unusable cfg w end.
Proof using clock_answers.
  intros Hb Hfuncs all.
  unfold buildMessageHandlerMqttBrokerConfigFuncList, buildDefaultMqttBrokerConfigFuncList in Hfuncs.
  destruct (buildMqttClientId cfg) as [id|] eqn:Hid; [|done].
  destruct (bool_decide (MqttBrokerAuthType cfg = "jwt")) eqn:Hjwt.
  - pose proof Hjwt as Ha. apply bool_decide_eq_true in Ha.
    assert (bool_decide (MqttBrokerAuthType cfg = "password") = false) as Hpw by (by rewrite Ha).
    destruct (buildJwtGenerator cfg id) as [g|] eqn:Hg; [|done]. injection Hfuncs as <-.
    pose proof (jwt_answers cfg id g Hg) as Hgen.
    assert (Hre : reconnects_with cfg id (λ headers, jwtToken ← g;
      mret match jwtToken with
           | inr _ => headers
           | inl jwtToken => header_set akamaiTokenHeader jwtToken headers
           end)).
    { intros headers w0. destruct (Hgen w0) as (r&w'&Hrun&Ho&Hr). rewrite (bind_ret _ _ _ _ _ Hrun).
      eexists _, w'. split; [done|]. split; [done|]. destruct r as [token|e]; [left|right].
      - exists token. split; [by apply Hr|done].
      - split; [|done]. intros token Ht%Hr. done. }
    unfold all, buildOnConnectionLostMqttOptions, NewBrokerOptions. destruct (Hgen w) as (r&w'&Hrun&Ho&Hr).
    destruct (ShutdownOnMqttConnectionLost cfg) eqn:Hsd; cbn;
      unfold WithTlsConfig, WithClientID, WithJwtAsHttpHeader, sets, mbind, M_bind, mret, M_ret; rewrite Hrun; cbn;
      (destruct r as [token|e]; eexists _, w'; (split; [reflexivity|]); (split; [done|]);
       [unfold agreed; rewrite Hid, Hjwt, Hpw, Hsd; cbn; split_and!; try done; eexists; split_and!; try done;
          [exists token; split; [done|by apply Hr]|eexists; done]
       |right; right; left; split; [done|]; intros id' token Hid' Ht; rewrite Hid in Hid'; injection Hid' as <-;
        by apply Hr in Ht]).
  - destruct (bool_decide (MqttBrokerAuthType cfg = "password")) eqn:Hpw; injection Hfuncs as <-;
      unfold all, buildOnConnectionLostMqttOptions, NewBrokerOptions;
      (destruct (ShutdownOnMqttConnectionLost cfg) eqn:Hsd; cbn; eexists _, w; (split; [reflexivity|]); (split; [done|]);
       unfold agreed; rewrite Hid, Hjwt, Hpw, Hsd; cbn; naive_solver).
Qed.

(** No options can be made only from a configuration that describes no connection. *)
Lemma options_refused cfg tls err (w : W) :
  buildMessageHandlerMqttBrokerConfigFuncList (W := W) (Some tls) cfg = inr err → unusable cfg w.
Proof using.
  unfold buildMessageHandlerMqttBrokerConfigFuncList, buildDefaultMqttBrokerConfigFuncList. intros Hf.
  destruct (buildMqttClientId cfg) as [id|] eqn:Hid; [|right; left; eauto].
  case_bool_decide as Hjwt; [|by case_bool_decide].
  destruct (buildJwtGenerator cfg id) as [g|e] eqn:Hg; [done|].
  right; right; left. split; [done|]. intros id' token Hid'. rewrite Hid in Hid'. injection Hid' as <-.
  by eapply jwt_refused.
Qed.

(** ** Properties *)

(** C31: The MQTT consumer asks the broker for exactly the connection its
    configuration describes: at the configured address and no other; under the
    configured client id and credentials; TLS 1.2 or later, with the certificate of
    the configured files, the CA certificates of the configured file (otherwise the
    host's) and verification skipped only when configured; with the jwt
    authentication, the token of the configured generator, and a fresh one for
    every reconnection (the old one when there is none); the session settings of
    the configuration; reconnection unless it is to stop on a lost connection; and
    handlers that subscribe to both wildcard topics on every connect and count
    every lost connection once.  It ends before that only when the configuration
    describes no connection or no Kafka producer can be made from it, and then it
    has done nothing to the outside. *)
Theorem consumer_connects_as_configured cfg mgmtAddr w :
  (∃ o w', startMqttMessageConsumer cfg mgmtAddr w = (o, w') ∧ o ≠ Ret tt ∧ outside w' = outside w ∧
     unusable cfg w) ∨
  (∃ opts w1, agreed cfg w opts ∧ outside w1 = outside w ∧
     startMqttMessageConsumer cfg mgmtAddr w
     = (err ← Connect opts;
        match err with
        | Some _ => exit_process "Failed to connect to MQTT broker"
        | None => serve_until_stopped cfg mgmtAddr
        end) w1).
Proof using clock_answers.
  unfold startMqttMessageConsumer. pose proof (broker_tls cfg) as Hb.
  destruct (buildBrokerTlsConfigFuncList cfg) as [tfuncs|] eqn:Htf; [destruct (NewTlsConfig tfuncs) as [tls|] eqn:Htls|].
  2-3: left; eexists _, w; split_and!; try done; left; intros tls (fs&Hfs&Hnew)%Hb; congruence.
  assert (Hno : (∀ p w', StartProducer (buildRhcMessageKafkaProducerConfig cfg) w ≠ (Ret (inl p), w')) → unusable cfg w)
    by (intros; by right; right; right).
  destruct (start_producer_cases (buildRhcMessageKafkaProducerConfig cfg) w) as [[why Hp]|[(why&Hp&_)|[[prod|e] Hp]]].
  - rewrite (bind_exit _ _ _ _ _ Hp). left. eexists _, w. split_and!; try done. apply Hno. intros. by rewrite Hp.
  - rewrite (bind_panic _ _ _ _ _ Hp). left. eexists _, w. split_and!; try done. apply Hno. intros. by rewrite Hp.
  - rewrite (bind_ret _ _ _ _ _ Hp).
    destruct (buildMessageHandlerMqttBrokerConfigFuncList (Some tls) cfg) as [funcs|e] eqn:Hf.
    2:{ left. eexists _, w. split_and!; try done. by eapply options_refused. }
    destruct (consumer_options cfg tls funcs w) as (r&w'&Hrun&Ho&Hr); [apply Hb; by exists tfuncs|done|].
    unfold CreateBrokerConnection. set (all := buildOnConnectionLostMqttOptions _ _ ++ _) in *.
    assert (Hbind : ∀ k : option error → M W unit, ((r ← NewBrokerOptions (MqttBrokerAddress cfg) all;
      match r with inr err => mret (Some err) | inl connOpts => Connect connOpts end) ≫= k) w
      = (match r with inr err => mret (Some err) | inl connOpts => Connect connOpts end ≫= k) w').
    { intros k. unfold mbind, M_bind. by rewrite Hrun. }
    rewrite Hbind. destruct r as [opts|err].
    + right. by exists opts, w'.
    + left. by eexists _, w'.
  - rewrite (bind_ret _ _ _ _ _ Hp). left. eexists _, w. split_and!; try done. apply Hno. intros. by rewrite Hp.
Qed.

(** Messages that arrive before the subscriptions are set up are treated as
    they are afterwards: on any topic one of the two subscriptions matches, the
    default handler does what the subscription's handler does; on any other it
    does nothing. *)
Theorem early_messages_handled_alike cfg m :
  string_mem "/" (tbPrefix (NewTopicBuilder (MqttTopicPrefix cfg))) = false →
  tbPrefix (NewTopicBuilder (MqttTopicPrefix cfg)) ≠ "+" →
  (∀ s : Subscriber (W := W), s ∈ consumer_subscribers cfg → topic_matches (sub_Topic s) (mqtt_Topic m) = true →
     consumer_default_handler (W := W) cfg m = sub_EntryPoint s m) ∧
  ((∀ s : Subscriber (W := W), s ∈ consumer_subscribers cfg → topic_matches (sub_Topic s) (mqtt_Topic m) = false) →
     consumer_default_handler (W := W) cfg m = mret tt).
Proof using.
  intros Hslash Hplus. pose proof (λ ty, wildcard_matches _ ty (mqtt_Topic m) Hslash Hplus) as Hmatch. split.
  - intros s Hs Ht. unfold consumer_subscribers in Hs. set_unfold in Hs. unfold consumer_default_handler, DefaultMessageHandler.
    destruct Hs as [->|[->|[]]]; cbn [sub_Topic sub_EntryPoint] in *.
    + destruct (proj1 (Hmatch ControlTopicType) Ht) as [cid ->]. done.
    + destruct (proj1 (Hmatch DataTopicType) Ht) as [cid ->]. done.
  - intros Hno. unfold consumer_default_handler, DefaultMessageHandler.
    destruct (VerifyIncomingTopic _ (mqtt_Topic m)) as [[ty cid] [e|]] eqn:Hv; [done|].
    assert (Ht := proj2 (Hmatch ty) (ex_intro _ cid eq_refl)). unfold consumer_subscribers in Hno.
    destruct ty; [specialize (Hno _ (list_elem_of_here _ _))|
      specialize (Hno _ (list_elem_of_further _ _ _ (list_elem_of_here _ _)))]; cbn in Hno; by rewrite Ht in Hno.
Qed.
End startup.

(** ** Witnesses: a scripted process *)

Record MEnv := { m_events : list string; m_counted : list string }.
Definition m_log (s : string) : M MEnv unit :=
  modify (λ e, {| m_events := m_events e ++ [s]; m_counted := m_counted e |}).

#[export] Instance test_platform : Platform := {|
  ReadFile p := if bool_decide (p = "/etc/ca.pem") then inl "PEM"
                else if bool_decide (p = "cloud-connector-mqtt-jwt.txt") then inl "token"
                else inr (ErrText "no such file");
  Hostname := inl "pod-1"; sql_Open _ _ := None;
  certificate := string * string; LoadX509KeyPair c k := inl (c, k);
  certpool := string; CertPoolFromPEM := id; scram_error _ _ _ := None;
  writer_invalid brokers _ _ _ := if bool_decide (brokers = []) then Some "no brokers" else None;
  reader_invalid brokers _ _ _ := if bool_decide (brokers = []) then Some "no brokers" else None;
  rsa_key := string; ParseRSAPrivateKeyFromPEM := inl; SignedString _ d k := inl (render d +:+ k) |}.

(** The broker accepts, and the client then calls its connect handler. *)
#[export] Instance menv_link : MqttLink MEnv := {
  Connect opts := m_log "connect";; default (mret tt) (latest get_OnConnect opts);; mret None;
  Subscribe topic _ _ := m_log ("subscribe " +:+ topic);; mret None;
  Disconnect_link _ := m_log "disconnect" }.
#[export] Instance menv_events : ProcessEvents MEnv := {
  NotifyConnected := m_log "connected"; NotifyConnectionFailed _ := m_log "connection failed";
  StartHTTPServer _ := m_log "serve"; ShutdownHTTPServer _ := m_log "shutdown";
  WaitForSignalOrLostConnection := m_log "wait"; CloseProducer := m_log "close producer";
  FlushLogger := m_log "flush"; Sleep _ := m_log "sleep" }.
#[export] Instance menv_metrics : Metrics MEnv := {
  Inc c := modify (λ e, {| m_events := m_events e; m_counted := m_counted e ++ [c] |}) }.
#[export] Instance menv_clock : Clock MEnv := { Now := mret 0%Z }.
#[export] Instance menv_kafka : KafkaWriter MEnv := { WriteMessages _ := m_log "write";; mret None }.

Definition consumer_config : Config := config_of_options
  (SetDefault (SetDefault (set_defaults (V := list (string * optval)))
     "MQTT_Client_Id" (OString "consumer-1")) "MQTT_Broker_Tls_CA_Cert_File" (OString "/etc//ca.pem")).

Lemma consumer_connects_as_configured_witness :
  let w := {| m_events := []; m_counted := [] |} in
  (∃ opts w1, agreed m_events consumer_config w opts ∧ m_events w1 = [] ∧
    startMqttMessageConsumer consumer_config ":8081" w
    = (err ← Connect opts;
       match err with
       | Some _ => exit_process "Failed to connect to MQTT broker"
       | None => serve_until_stopped consumer_config ":8081"
       end) w1) ∧
  m_events (startMqttMessageConsumer consumer_config ":8081" w).2
  = ["connect"; "subscribe redhat/insights/+/control/out"; "subscribe redhat/insights/+/data/out";
     "serve"; "wait"; "shutdown"; "disconnect"; "close producer"; "flush"; "sleep"].
Proof.
  intros w. split; [|vm_compute; reflexivity].
  destruct (consumer_connects_as_configured (W := MEnv) m_events
    ltac:(intros w0; exists 0%Z, w0; split; reflexivity) consumer_config ":8081" w) as [(o&w'&Hrun&Ho&_)|H].
  - exfalso. apply Ho. apply (f_equal fst) in Hrun. cbn [fst] in Hrun. rewrite <-Hrun. vm_compute. reflexivity.
  - exact H.
Defined.

Lemma early_messages_handled_alike_witness :
  let m := {| mqtt_MessageID := 1; mqtt_Topic := "redhat/insights/client-a/data/out"; mqtt_Payload := "x";
              mqtt_Duplicate := false |} in
  consumer_default_handler (W := MEnv) consumer_config m = DataMessageHandler m.
Proof.
  intros m. refine (proj1 (early_messages_handled_alike (W := MEnv) consumer_config m _ _)
    {| sub_Topic := BuildIncomingWildcardDataTopic (NewTopicBuilder (MqttTopicPrefix consumer_config));
       sub_EntryPoint := DataMessageHandler; sub_Qos := MqttDataSubscriptionQoS consumer_config |} _ _).
  - vm_compute. reflexivity.
  - intros Hx. vm_compute in Hx. discriminate.
  - right. left.
  - vm_compute. reflexivity.
Defined.

