(* ===== verification/Collectors.v ===== *)
(** * The metrics of the processes
    (the metrics.go files, [internal/middlewares/metrics_middleware.go],
    [cmd/cloud-connector/kafka_message_consumer.go])

    Each package registers its metrics with the default Prometheus registry while
    the process starts, before [main]; a registration that fails panics.  The
    registry is the class [Registerer].  [startup_registers]: none of them fails;
    [counters_registered]: what the handlers increment has been registered, with
    the labels it is given. *)

From S2P Require Import Prelude GoStrings GoNumTime Domain MqttProxy ControlHandler AccountResolver Inventory MqttIngress KafkaConsumer MqttConsumer Middlewares.
From stdpp Require Import options.

(** ** Metrics *)

(** The kinds of collectors, the vectors with the names of their labels. *)
Inductive collector :=
| Counter
| CounterVec (labels : list string)
| Gauge
| Histogram
| HistogramVec (labels : list string).

Record metric := { m_Collector : collector; m_Name : string; m_Help : string }.

Definition m_labels (m : metric) : list string :=
  match m_Collector m with CounterVec l | HistogramVec l => l | _ => [] end.

(** ** The registry *)

Definition name_start (a : ascii) : bool :=
  let n := N_of_ascii a in
  ((65 <=? n) && (n <=? 90) || (97 <=? n) && (n <=? 122) || (n =? 95))%N.
Definition name_char (a : ascii) : bool :=
  let n := N_of_ascii a in name_start a || ((48 <=? n) && (n <=? 57))%N.
Fixpoint all_chars (p : ascii → bool) (s : string) : bool :=
  match s with EmptyString => true | String a s' => p a && all_chars p s' end.

(** Names of metrics and of labels as every version of the library takes them; a
    histogram keeps [le] for itself. *)
Definition plain_name (s : string) : bool :=
  match s with EmptyString => false | String a s' => name_start a && all_chars name_char s' end.
Definition plain_metric (m : metric) : bool :=
  plain_name (m_Name m)
  && forallb (λ l, plain_name l && negb (String.prefix "__" l) && negb (bool_decide (l = "le"))) (m_labels m)
  && bool_decide (NoDup (m_labels m)).

Class Registerer (W : Type) := {
  (** [promauto.NewCounter] and its siblings *)
  promauto_New : metric → M W unit;
  (** what the default registry holds *)
  Registered : W → list metric;
  (** a metric whose name is plain and new is registered *)
  registers m (w : W) : plain_metric m = true → m_Name m ∉ m_Name <$> Registered w →
    ∃ w', promauto_New m w = (Ret tt, w') ∧ Registered w' = Registered w ++ [m];
}.
#[export] Instance collector_eq_dec : EqDecision collector.
Proof. solve_decision. Defined.
#[global] Hint Mode Registerer + : typeclass_instances.

Definition metric_of (c : collector) (name help : string) : metric :=
  {| m_Collector := c; m_Name := name; m_Help := help |}.

(** ** What the packages register *)

(** [internal/connection_repository] *)
Definition connectionRepositoryMetrics : list metric := [
  metric_of Histogram "cloud_connector_sql_lookup_connection_by_account_or_permitted_account_and_client_id_duration"
    "The amount of time the it took to lookup a connection using (account or permitted accont) and client id ";
  metric_of Histogram "cloud_connector_sql_lookup_connection_by_account_and_client_id_duration"
    "The amount of time the it took to lookup a connection using account and client id ";
  metric_of Histogram "cloud_connector_sql_lookup_connections_by_account"
    "The amount of time the it took to lookup a connection using account";
  metric_of Histogram "cloud_connector_sql_lookup_all_connections"
    "The amount of time the it took to lookup all connections";
  metric_of Histogram "cloud_connector_sql_register_connection_duration"
    "The amount of time the it took to register a connection in the db";
  metric_of Histogram "cloud_connector_sql_unregister_connection_duration"
    "The amount of time the it took to unregister a connection in the db";
  metric_of Histogram "cloud_connector_sql_lookup_connection_by_client_id_duration"
    "The amount of time the it took to register a connection in the db"].

(** [internal/controller] *)
Definition controllerMetrics : list metric := [
  metric_of Gauge "cloud_connector_inventory_kafka_writer_go_routine_count"
    "The total number of active kafka response writer go routines";
  metric_of Counter inventoryKafkaWriterSuccessCounter "The number of responses were sent to the kafka topic";
  metric_of Counter inventoryKafkaWriterFailureCounter
    "The number of responses that failed to get produced to kafka topic";
  metric_of (CounterVec ["status_code"]) "cloud_connector_auth_gateway_account_lookup_status_code_counter"
    "The number of http status codes received from the auth gateway account lookup";
  metric_of Histogram "cloud_connector_auth_gateway_account_lookup_duration"
    "The amount of time the auth gateway account lookup took";
  metric_of Counter accountLookupCacheHit "The number of account lookup cache hits";
  metric_of Counter accountLookupCacheMiss "The number of account lookup cache misses"].

(** [internal/cloud_connector] *)
Definition kafkaMetrics : list metric := [
  metric_of Counter controlMessageReceivedCounter "The number of control messages received from the kafka topic"].

(** [internal/mqtt] *)
Definition mqttMetrics : list metric := [
  metric_of Counter mqttConnectionFailureCounter "The number of mqtt connection failures";
  metric_of Counter controlMessageReceived "The number of control messages received";
  metric_of Counter dataMessageReceived "The number of data messages received";
  metric_of (CounterVec ["directive"]) "cloud_connector_mqtt_sent_message_directive_count"
    "The number of messages recieved by the receptor controller per directive";
  metric_of Counter messagePublishedSuccessCounter "The number of messages published successfully";
  metric_of Counter messagePublishedFailureCounter "The number of messages published failures";
  metric_of Gauge "cloud_connector_mqtt_message_consumer_kafka_writer_go_routine_count"
    "The total number of active kafka writer go routines for the mqtt message consumer";
  metric_of Histogram "cloud_connector_mqtt_message_consumer_kafka_writer_publish_duration"
    "The amount of time the mqtt consumer spends waiting on a kafka write"].

(** [internal/middlewares] *)
Definition statusCodeCounter : metric :=
  metric_of (CounterVec ["status_code"]) "cloud_connector_http_status_code_counter"
    "The number of http status codes per interface".
Definition httpResponseDuration : metric :=
  metric_of (HistogramVec ["status_code"]) "cloud_connector_http_response_duration"
    "The amount of time the http request took to process".
Definition middlewareMetrics : list metric := [statusCodeCounter; httpResponseDuration].

(** [cmd/cloud-connector] *)
Definition consumerMetrics : list metric := [
  metric_of Counter kafkaMessageReceivedCounter "The number of kafka messages received";
  metric_of Histogram "cloud_connector_kafka_message_wait_time"
    "The amount of time messages are setting in kafka waiting to be processed"].

Definition package_metrics : list (list metric) :=
  [connectionRepositoryMetrics; controllerMetrics; kafkaMetrics; mqttMetrics; middlewareMetrics; consumerMetrics].
Definition process_metrics : list metric := concat package_metrics.

Section startup.
Context {W : Type} `{!Registerer W}.

Definition register_all (l : list metric) : M W unit := for_each l promauto_New.

(** The packages' variables, one package after the other in some order. *)
Definition init_packages (order : list (list metric)) : M W unit := for_each order register_all.

Lemma register_all_app l1 l2 (w : W) : register_all (l1 ++ l2) w = (register_all l1;; register_all l2) w.
Proof using.
  revert w. induction l1 as [|m l1 IH]; intros w; [done|]. cbn. unfold mbind, M_bind.
  destruct (promauto_New m w) as [[[]|?|?] w']; [|done..]. exact (IH w').
Qed.

Lemma register_all_run l (w : W) :
  forallb plain_metric l = true → NoDup (m_Name <$> l) →
  (∀ m, m ∈ l → m_Name m ∉ m_Name <$> Registered w) →
  ∃ w', register_all l w = (Ret tt, w') ∧ Registered w' = Registered w ++ l.
Proof using.
  revert w. induction l as [|m l IH]; intros w; cbn.
  { intros _ _ _. exists w. by rewrite app_nil_r. }
  intros [Hm Hl]%andb_true_iff [Hn Hnd]%NoDup_cons Hnew.
  destruct (registers m w Hm) as (w1&Hr&Hreg); [apply Hnew; left|].
  destruct (IH w1 Hl Hnd) as (w2&Hr2&Hreg2).
  { intros m' Hm'. rewrite Hreg, fmap_app, not_elem_of_app. split; [apply Hnew; by right|].
    intros Hin%list_elem_of_singleton. destruct Hn. rewrite <-Hin. apply list_elem_of_fmap. by exists m'. }
  exists w2. unfold register_all in *. cbn [for_each]. rewrite (bind_ret _ _ _ _ _ Hr). split; [exact Hr2|].
  by rewrite Hreg2, Hreg, <-app_assoc.
Qed.

Lemma init_concat order (w : W) : init_packages order w = register_all (concat order) w.
Proof using.
  revert w. induction order as [|l order IH]; intros w; [done|]. cbn [concat]. rewrite register_all_app.
  unfold init_packages in *. cbn [for_each]. unfold mbind, M_bind.
  destruct (register_all l w) as [[[]|?|?] w']; [apply IH|done..].
Qed.

(** A process starts: in whatever order its packages are initialized, no
    registration fails, as long as nobody else has registered a metric under the
    prefix of the program (a second metric of a name, or a name the library does
    not take, would panic before [main]). *)
Theorem startup_registers order (w : W) :
  order ≡ₚ package_metrics →
  (∀ m, m ∈ Registered w → String.prefix "cloud_connector_" (m_Name m) = false) →
  ∃ w', init_packages order w = (Ret tt, w') ∧ Registered w' ≡ₚ Registered w ++ process_metrics.
Proof using.
  intros Horder Hw.
  assert (Hl : concat order ≡ₚ process_metrics) by (unfold process_metrics; by rewrite Horder).
  assert (Hall : forallb (λ m, plain_metric m && String.prefix "cloud_connector_" (m_Name m)) (concat order) = true).
  { rewrite forallb_forall. intros m Hm%list_elem_of_In. rewrite Hl in Hm.
    assert (Hp : forallb (λ m, plain_metric m && String.prefix "cloud_connector_" (m_Name m)) process_metrics = true)
      by (vm_compute; reflexivity).
    rewrite forallb_forall in Hp. by apply Hp, list_elem_of_In. }
  rewrite forallb_forall in Hall.
  destruct (register_all_run (concat order) w) as (w'&Hr&Hreg).
  - rewrite forallb_forall. intros m Hm. by apply Hall, andb_true_iff in Hm as [? _].
  - rewrite Hl. apply (bool_decide_unpack _). vm_compute. exact I.
  - intros m Hm (m'&He&Hm')%list_elem_of_fmap. specialize (Hw m' Hm').
    apply list_elem_of_In, Hall, andb_true_iff in Hm as [_ Hp]. congruence.
  - exists w'. rewrite init_concat. split; [exact Hr|]. by rewrite Hreg, Hl.
Qed.
End startup.

(** ** What the handlers count *)

(** The counters the handlers increment; the label of a vector follows a colon. *)
Inductive counted_name : string → string → list string → Prop :=
| counts_plain c :
    c ∈ [inventoryKafkaWriterSuccessCounter; inventoryKafkaWriterFailureCounter; accountLookupCacheHit;
         accountLookupCacheMiss; controlMessageReceivedCounter; mqttConnectionFailureCounter;
         controlMessageReceived; dataMessageReceived; messagePublishedSuccessCounter;
         messagePublishedFailureCounter; kafkaMessageReceivedCounter] →
    counted_name c c []
| counts_gateway code name : authGatewayStatusCounter code = name +:+ ":" +:+ Itoa code →
    counted_name (authGatewayStatusCounter code) name ["status_code"]
| counts_directive d name : sentMessageDirectiveCounter d = name +:+ ":" +:+ d →
    counted_name (sentMessageDirectiveCounter d) name ["directive"]
| counts_status code name : status_code_counter code = name +:+ ":" +:+ Itoa code →
    counted_name (status_code_counter code) name ["status_code"].

Lemma app_inj_r s t u : s +:+ u = t +:+ u → s = t.
Proof.
  assert (Hlen : ∀ s, String.length (s +:+ u) = String.length s + String.length u).
  { intros s'. induction s' as [|a s' IH]; [done|]. rewrite string_app_cons. cbn. by rewrite IH. }
  revert t. induction s as [|a s IH]; intros [|b t] H; try done.
  - apply (f_equal String.length) in H. rewrite !Hlen in H. cbn in H. lia.
  - apply (f_equal String.length) in H. rewrite !Hlen in H. cbn in H. lia.
  - injection H as -> H. f_equal. by apply IH.
Qed.

(** Each of them is a registered counter with that label. *)
Theorem counters_registered c name labels :
  counted_name c name labels →
  ∃ m, m ∈ process_metrics ∧ m_Name m = name ∧ m_labels m = labels ∧
       (m_Collector m = Counter ∨ m_Collector m = CounterVec labels).
Proof.
  assert (Hfind : ∀ name labels, existsb (λ m, bool_decide (m_Name m = name ∧ m_labels m = labels ∧
      (m_Collector m = Counter ∨ m_Collector m = CounterVec labels))) process_metrics = true →
    ∃ m, m ∈ process_metrics ∧ m_Name m = name ∧ m_labels m = labels ∧
       (m_Collector m = Counter ∨ m_Collector m = CounterVec labels)).
  { intros n l (m&Hm&Hd%bool_decide_eq_true)%existsb_exists. exists m. by apply list_elem_of_In in Hm. }
  intros [c' Hc|code n Hn|d n Hn|code n Hn]; apply Hfind.
  - set_unfold in Hc. destruct_or! Hc; subst c'; vm_compute; reflexivity.
  - assert (n = "cloud_connector_auth_gateway_account_lookup_status_code_counter") as ->; [|vm_compute; reflexivity].
    symmetry. apply (app_inj_r _ _ (":" +:+ Itoa code)). exact Hn.
  - assert (n = "cloud_connector_mqtt_sent_message_directive_count") as ->; [|vm_compute; reflexivity].
    symmetry. apply (app_inj_r _ _ (":" +:+ d)). exact Hn.
  - assert (n = "cloud_connector_http_status_code_counter") as ->; [|vm_compute; reflexivity].
    symmetry. apply (app_inj_r _ _ (":" +:+ Itoa code)). exact Hn.
Qed.
