(* ===== verification/Tools.v ===== *)
(** * The jobs and tools beside the service

    - [startConnectionCount] (cmd/cloud-connector/connection_count.go);
    - the schema migration (cmd/migrate_db), its repair (cmd/stage_db_fixer) and
      the dump of the schema (cmd/db_schema_dumper);
    - the helpers of internal/platform/utils, the texts that
      internal/platform/queue/types.go logs of a configuration, and
      [logBrokerNode] (internal/mqtt/broker_client.go).

    The migrate library, the push gateway, the tables of the schema and the
    resolver of host names are parameters. *)

From S2P Require Import Prelude GoStrings GoNumTime Json Domain Config ConfigLog Repository Pagination Deploy.
From stdpp Require Import options.

(** ** connection_count.go *)

Class PushGateway (W : Type) := {
  (** [push.New(url, job).Collector(counter).Push()], with the counter's value *)
  Push : string → string → Z → M W (option error);
}.
#[global] Hint Mode PushGateway + : typeclass_instances.

Section connection_count.
Context `{!Platform} {W : Type} `{!Lens W Db, !PushGateway W}.

(** [SELECT COUNT( * ) FROM connections] *)
Definition count_query (rows : list Row) : list Z := [Z.of_nat (length rows)].

(** The counter is new in the process, so that its value is what is added. *)
Definition startConnectionCount (cfg : Config) : M W unit :=
  match InitializeDatabaseConnection cfg with
  | inr _ => exit_process "Unable to connect to database:"
  | inl _ =>
      r ← zoom (db_QueryRow count_query);
      match r with
      | inr _ => exit_process "Error Executing the query:"
      | inl count =>
          err ← Push (PrometheusPushGateway cfg) "cloud_connector" (float64_of_int count);
          match err with
          | Some _ => exit_process "Error pushing metric to the Push Gateway:"
          | None => mret tt
          end
      end
  end.

(** What is pushed is the number of connections, and they are only read. *)
Theorem connection_count_pushed cfg w info :
  InitializeDatabaseConnection cfg = inl info → db_fault (lget w) (db_tick (lget w)) = None →
  (Z.of_nat (length (table (lget w))) < 2 ^ 53)%Z →
  startConnectionCount cfg w
  = (err ← Push (PrometheusPushGateway cfg) "cloud_connector" (Z.of_nat (length (table (lget w))));
     match err with
     | Some _ => exit_process "Error pushing metric to the Push Gateway:"
     | None => mret tt
     end) (lset (tick_db (lget w)) w).
Proof.
  intros Hi Hf Hn. unfold startConnectionCount. rewrite Hi. unfold mbind at 1, M_bind at 1, zoom, db_QueryRow.
  rewrite Hf. cbn. by rewrite float64_of_int_exact.
Qed.
End connection_count.

(** ** migrate_db *)

(** golang-migrate: each step of the way to a migration can fail. *)
Class MigrateLib (W : Type) := {
  postgres_WithInstance : M W (option error);
  NewWithDatabaseInstance : string → string → M W (option error);
  migrate_Up : M W (option error);
  migrate_Steps : Z → M W (option error);
  ErrNoChange : error;
}.
#[global] Hint Mode MigrateLib + : typeclass_instances.

Section migrate.
Context `{!Platform} {W : Type} `{!MigrateLib W}.

Definition performDbMigration (direction : string) (cfg : Config) : M W (option error) :=
  match InitializeDatabaseConnection cfg with
  | inr err => mret (Some err)
  | inl _ =>
      err ← postgres_WithInstance;
      match err with
      | Some e => mret (Some e)
      | None =>
          err ← NewWithDatabaseInstance "file://db/migrations" "postgres";
          match err with
          | Some e => mret (Some e)
          | None =>
              err ← (if bool_decide (direction = "up") then r ← migrate_Up; mret (inl r)
                     else if bool_decide (direction = "down") then r ← migrate_Steps (-1); mret (inl r)
                     else mret (inr (ErrText "Invalid operation")));
              match err with
              | inr e => mret (Some e)
              | inl err => if errors_Is err (ErrNoChange (W := W)) then mret None else mret err
              end
          end
      end
  end.

Definition upCmd : Config → M W (option error) := performDbMigration "up".
Definition downCmd : Config → M W (option error) := performDbMigration "down".

(** A migration that finds nothing to do succeeds; any other error is the command's. *)
Lemma migration_outcome cfg info w w1 w2 w3 (r : option error) :
  InitializeDatabaseConnection cfg = inl info →
  postgres_WithInstance w = (Ret None, w1) →
  NewWithDatabaseInstance "file://db/migrations" "postgres" w1 = (Ret None, w2) →
  migrate_Up w2 = (Ret r, w3) →
  upCmd cfg w = (Ret (if errors_Is r (ErrNoChange (W := W)) then None else r), w3).
Proof.
  intros Hi H1 H2 H3. unfold upCmd, performDbMigration. rewrite Hi, (bind_ret _ _ _ _ _ H1), (bind_ret _ _ _ _ _ H2).
  rewrite bool_decide_eq_true_2 by done.
  assert (Hup : (r ← migrate_Up; mret (inl r : option error + error)) w2 = (Ret (inl r), w3)).
  { by rewrite (bind_ret _ _ _ _ _ H3). }
  rewrite (bind_ret _ _ _ _ _ Hup). by destruct (errors_Is r _).
Qed.
End migrate.

(** ** stage_db_fixer, db_schema_dumper *)

(** A row of [information_schema.columns] and one of [schema_migrations]. *)
Record column_info := {
  ci_columnName : string; ci_dataType : string; ci_defaultValue : option string; ci_isNullable : string }.
Record migration_info := { mi_version : Z; mi_dirty : bool }.

(** The tables of the schema, read by a prepared statement; a row may fail to
    scan.  And the standard logger. *)
Class SchemaDb (W : Type) := {
  schema_Prepare : string → M W (option error);
  schema_Columns : M W (list (column_info + error) + error);
  schema_Migrations : M W (list (migration_info + error) + error);
  schema_Exec : string → M W (option error);
  log_Print : string → M W unit;
}.
#[global] Hint Mode SchemaDb + : typeclass_instances.

Section schema.
Context `{!Platform} {W : Type} `{!SchemaDb W}.

Definition fix_statement : string := "update schema_migrations set version = 4, dirty = 'f'".

(** [main] of stage_db_fixer: failures are only logged. *)
Definition stage_db_fixer (cfg : Config) : M W unit :=
  match InitializeDatabaseConnection cfg with
  | inr err => log_Print ("Unable to initialize database connection " +:+ Error err)
  | inl _ =>
      err ← schema_Prepare fix_statement;
      match err with
      | Some e => log_Print ("SQL Prepare failed " +:+ Error e)
      | None =>
          err ← schema_Exec fix_statement;
          match err with
          | Some e => log_Print ("Insert/update failed: " +:+ Error e)
          | None => mret tt
          end
      end
  end.

(** The loop over the rows: a row that does not scan ends it. *)
Fixpoint print_rows {A} (show : A → string) (rows : list (A + error)) : M W unit :=
  match rows with
  | [] => mret tt
  | inr err :: _ => log_Print ("SQL scan failed.  Skipping row. " +:+ Error err)
  | inl row :: rows' => log_Print (show row);; print_rows show rows'
  end.

Definition dump_table {A} (statement title : string) (Query : M W (list (A + error) + error))
    (show : A → string) : M W unit :=
  err ← schema_Prepare statement;
  match err with
  | Some e => log_Print ("SQL Prepare failed " +:+ Error e)
  | None =>
      rows ← Query;
      match rows with
      | inr e => log_Print ("SQL query failed " +:+ Error e)
      | inl rows =>
          log_Print "-----------------";;
          log_Print title;;
          log_Print "-----------------";;
          print_rows show rows
      end
  end.

Definition columns_statement : string :=
  "SELECT column_name, data_type, column_default, is_nullable FROM information_schema.columns"
  +:+ str1 "010" +:+ "        WHERE table_name = 'connections'".

Definition show_column (c : column_info) : string :=
  ci_columnName c +:+ "|" +:+ ci_dataType c +:+ "|" +:+ default "null" (ci_defaultValue c)
  +:+ "|" +:+ ci_isNullable c.
Definition printConnectionsColumns : M W unit :=
  dump_table columns_statement "connections table:" schema_Columns show_column.

Definition show_migration (m : migration_info) : string :=
  Itoa (mi_version m) +:+ "|" +:+ fmt_t (mi_dirty m).
Definition dumpSchemaMigrationsTable : M W unit :=
  dump_table "SELECT version, dirty FROM schema_migrations" "schema_migrations table:" schema_Migrations
    show_migration.

(** [main] of db_schema_dumper *)
Definition db_schema_dumper (cfg : Config) : M W unit :=
  match InitializeDatabaseConnection cfg with
  | inr err => log_Print ("Unable to initialize database connection " +:+ Error err)
  | inl _ => printConnectionsColumns;; dumpSchemaMigrationsTable
  end.
End schema.

(** ** platform/utils *)

Record http_server := {
  hs_Addr : string; hs_ReadTimeout : Z; hs_ReadHeaderTimeout : Z; hs_WriteTimeout : Z }.

(** The server that [StartHTTPServer] starts. *)
Definition http_server_of (addr : string) : http_server := {|
  hs_Addr := addr; hs_ReadTimeout := 10 * second; hs_ReadHeaderTimeout := 2 * second;
  hs_WriteTimeout := 10 * second |}.

Definition http_ErrServerClosed : error := ErrText "http: Server closed".

(** What its goroutine makes of the end of [ListenAndServe]. *)
Definition server_ended {W} (name : string) (err : option error) : M W unit :=
  if bool_decide (err = Some http_ErrServerClosed) then mret tt
  else exit_process (name +:+ " server error").

(** Addresses in the form of [To4]: IPv4 or not. *)
Inductive ip := IPv4 (a b c d : Z) | IPv6 (text : string).
Class HostLookup := { LookupIP : string → list ip }.

Section hosts.
Context `{!Platform}.

(** The hostname, or the empty string when it is unknown. *)
Definition GetHostname : string := match Hostname with inl name => name | inr _ => EmptyString end.

Fixpoint first_ipv4 (addrs : list ip) : option ip :=
  match addrs with
  | [] => None
  | IPv4 a b c d :: _ => Some (IPv4 a b c d)
  | IPv6 _ :: addrs' => first_ipv4 addrs'
  end.
Definition GetIPAddress `{!HostLookup} : option ip := first_ipv4 (LookupIP GetHostname).
End hosts.

(** ** platform/queue/types.go *)

Definition log_line (name text : string) : string := name +:+ ": " +:+ text +:+ str1 "010".

(** [%s] of a [*SaslConfig]: nil is caught by [fmt]. *)
Definition fmt_sasl (c : option SaslConfig) : string :=
  match c with Some c => SaslConfig_String c | None => "<nil>" end.

Definition ProducerConfig_String (c : ProducerConfig) : string :=
  log_line "Brokers" (fmt_strings (pc_Brokers c)) +:+ log_line "SaslConfig" (fmt_sasl (pc_SaslConfig c))
  +:+ log_line "Topic" (pc_Topic c) +:+ log_line "BatchSize" (Itoa (pc_BatchSize c))
  +:+ log_line "BatchBytes" (Itoa (pc_BatchBytes c)) +:+ log_line "Balancer" (pc_Balancer c).

Definition ConsumerConfig_String (c : ConsumerConfig) : string :=
  log_line "Brokers" (fmt_strings (cc_Brokers c)) +:+ log_line "SaslConfig" (fmt_sasl (cc_SaslConfig c))
  +:+ log_line "Topic" (cc_Topic c) +:+ log_line "GroupID" (cc_GroupID c)
  +:+ log_line "ConsumerOffset" (Itoa (cc_ConsumerOffset c)).

(** ** broker_client.go: what is logged of the broker *)

Class Resolver := {
  (** the host of a URL, or [url.Parse]'s error *)
  url_Hostname : string → string + error;
  LookupHost : string → list string + error;
  LookupAddr : string → list string + error;
}.

Definition TrimSuffix (s suffix : string) : string :=
  let n := String.length s - String.length suffix in
  if (String.length suffix <=? String.length s) && bool_decide (String.substring n (String.length suffix) s = suffix)
  then String.substring 0 n s else s.

(** The fields of the entry: the lookups add to them as far as they get. *)
Definition logBrokerNode `{!Resolver} (brokerUrl : string) : gmap string string :=
  let fields : gmap string string := {[ "broker_url" := brokerUrl ]} in
  match url_Hostname brokerUrl with
  | inr _ => fields
  | inl hostname =>
      let fields := <["broker_hostname" := hostname]> fields in
      match LookupHost hostname with
      | inr _ | inl [] => fields
      | inl (ip :: _) =>
          let fields := <["broker_resolved_ip" := ip]> fields in
          match LookupAddr ip with
          | inr _ | inl [] => fields
          | inl (name :: _) => <["broker_node" := TrimSuffix name "."]> fields
          end
      end
  end.
