(* ===== verification/Server.v ===== *)
(** * The HTTP interface of the API server

    [Routes] of the interfaces ([internal/controller/api]) and their order in
    [startCloudConnectorApiServer]: every route with its middlewares, served
    over the [ApiWorld].  The router itself (gorilla/mux), the identity
    middleware and the handlers of other libraries are parameters. *)

From S2P Require Import Prelude GoStrings GoNumTime Json JsonFacts GoUrl Domain Config Topic Protocol MqttProxy Services Repository Locators Pagination HttpApi Middlewares Api ApiSystem.
From stdpp Require Import options.

(** ** Routes *)

Inductive pattern := Path (template : string) | PathPrefix (prefix : string).

Record route (W : Type) := {
  rt_method : option string;   (** [None]: any *)
  rt_pattern : pattern;
  rt_handler : Handler W;
}.
Arguments rt_method {W}.
Arguments rt_pattern {W}.
Arguments rt_handler {W}.

(** gorilla/mux: which route, if any, takes a request, and the variables of its
    path; otherwise the router answers itself (404, 405 or a redirect). *)
Class Mux := {
  mux_match : list (option string * pattern) → string → request → option (nat * gmap string string);
  mux_answer : string → request → M response unit;
}.

(** The handlers of other libraries that answer without the program's help:
    Prometheus' metrics and the profiler; and the file system's [ReadFile]. *)
Class ForeignHandlers := {
  promhttp_Handler : request → M response unit;
  pprof_Handler : request → M response unit;
  ReadFile : string → string + error;
}.

Section routes.
Context {W : Type} `{!Lens W response, !Metrics W, !Translator W, !ConnectorClientProxyFactory W,
  !IdentityMiddleware W, !ForeignHandlers}.
Context (getConnection managementGetConnection : OrgID → ClientID → M W (ConnectorClientState * option error)).
Context (getConnectionsByOrgID : OrgID → Z → Z → M W (option connections * Z * option error)).
Context (getAllConnections : Z → Z → M W (option (gmap AccountID connections) * Z * option error)).
Context (int_of_nan : Z).

(** It writes to the log: see [Logger.logrusAccessLogAdapter]. *)
Definition AccessLoggerMiddleware (next : Handler W) : Handler W := λ r, next r.

(** [PathPrefix(prefix).Subrouter()] with [Use(mws...)]: the first runs first. *)
Definition subrouter (prefix : string) (mws : list (Handler W → Handler W))
    (routes : list (string * string * Handler W)) : list (route W) :=
  (λ '(method, path, h), {| rt_method := Some method; rt_pattern := Path (prefix +:+ path);
                            rt_handler := foldr (λ mw h, mw h) h mws |}) <$> routes.

Definition secured (cfg : Config) (identityAuth : Handler W → Handler W)
    (required : RequiredTenantIdentifier) : list (Handler W → Handler W) :=
  [AccessLoggerMiddleware; RecordHTTPMetrics;
   Authenticate (ServiceToServiceCredentials cfg) identityAuth required].

Definition MessageReceiver_Routes (cfg : Config) : list (route W) :=
  subrouter (UrlBasePath cfg) (secured cfg EnforceIdentity RequireAccount) [
    ("POST", "/v1/message", handleJob getConnection);
    ("POST", "/v1/connection_status", v1_handleConnectionStatus getConnection)].

Definition ConnectionMediatorV2_Routes (cfg : Config) : list (route W) :=
  subrouter (UrlBasePath cfg) (secured cfg EnforceIdentity RequireOrgID) [
    ("POST", "/v2/connections/{id}/message", handleSendMessage getConnection);
    ("GET", "/v2/connections/{id}/status", v2_handleConnectionStatus getConnection);
    ("GET", "/v2/connections", handleConnectionListByOrgId getConnectionsByOrgID int_of_nan)].

Definition ManagementServer_Routes (cfg : Config) : list (route W) :=
  subrouter (UrlBasePath cfg +:+ "/v1/connection")
    (secured cfg (λ next, EnforceIdentity (EnforceTurnpikeAuthentication next)) RequireAccount) [
    ("GET", EmptyString, handleConnectionListing getAllConnections int_of_nan);
    ("GET", "/{id:[0-9]+}", handleConnectionListingByAccount getConnectionsByOrgID int_of_nan);
    ("POST", "/disconnect", handleDisconnect managementGetConnection);
    ("POST", "/reconnect", handleReconnect managementGetConnection);
    ("POST", "/status", mgmt_handleConnectionStatus managementGetConnection);
    ("POST", "/ping", handleConnectionPing managementGetConnection)].

(** spec_handler.go *)
Definition handleApiSpec (specFileName : string) : Handler W := λ _,
  zoom match ReadFile specFileName with
       | inr err => WriteHeader 404
       | inl file =>
           Header_Set "Content-Type" "text/plain; charset=utf-8";;
           WriteHeader 200;;
           Write file
       end.
Definition ApiSpecServer_Routes (cfg : Config) : list (route W) :=
  subrouter (UrlBasePath cfg) [] [("GET", "/openapi.json", handleApiSpec (OpenApiSpecFilePath cfg))].

(** monitoring.go *)
Definition handleLiveness : Handler W := λ _, zoom (WriteHeader 200).
Definition handleReadiness : Handler W := λ _, zoom (WriteHeader 200).
Definition MonitoringServer_Routes (cfg : Config) : list (route W) :=
  subrouter EmptyString [] [
    ("GET", "/metrics", λ r, zoom (promhttp_Handler r));
    ("GET", "/liveness", handleLiveness);
    ("GET", "/readiness", handleReadiness)]
  ++ (if Profile cfg
      then [{| rt_method := None; rt_pattern := PathPrefix "/debug"; rt_handler := λ r, zoom (pprof_Handler r) |}]
      else []).

(** In the order of [startCloudConnectorApiServer]. *)
Definition apiMux (cfg : Config) : list (route W) :=
  ApiSpecServer_Routes cfg ++ MonitoringServer_Routes cfg ++ MessageReceiver_Routes cfg
  ++ ManagementServer_Routes cfg ++ ConnectionMediatorV2_Routes cfg.

Definition with_vars (vars : gmap string string) (r : request) : request := {|
  rq_header := rq_header r; rq_url := rq_url r; rq_vars := vars; rq_body := rq_body r;
  rq_ctx := rq_ctx r |}.

Definition serve `{!Mux} (routes : list (route W)) (method : string) : Handler W := λ r,
  match mux_match ((λ rt, (rt_method rt, rt_pattern rt)) <$> routes) method r with
  | Some (i, vars) =>
      match routes !! i with
      | Some rt => rt_handler rt (with_vars vars r)
      | None => zoom (mux_answer method r)
      end
  | None => zoom (mux_answer method r)
  end.
End routes.

(** The server of [startCloudConnectorApiServer]. *)
Definition api_server `{!ApiDeployment, !IdentityMiddleware ApiWorld, !ForeignHandlers, !Postgres, !Mux}
    (int_of_nan : Z) (method : string) : Handler ApiWorld :=
  serve (apiMux
    (λ org cid, zoom (buildConnectionLookupInstances api_config org cid))
    (λ org cid, zoom (NewSqlGetConnectionByClientID org cid))
    (λ org offset limit, zoom (NewSqlGetConnectionsByOrgID org offset limit))
    (λ offset limit, zoom (NewGetAllConnections offset limit)) int_of_nan api_config) method.

(** ** What the identity middleware does *)

(** It puts the identity of the header into the context, or answers itself. *)
Class IdentityMiddlewareSpec (W : Type) `{!Lens W response, !IdentityMiddleware W} := {
  identity_of : string → option (string * string * string);   (** account, org, type *)
  identity_refusal : request → M response unit;
  EnforceIdentity_spec (next : Handler W) r w :
    EnforceIdentity next r w =
    match identity_of (Header_Get (rq_header r) identityHeader) with
    | Some (account, org, type) =>
        next (with_context {| ctx_principal := ctx_principal (rq_ctx r);
                              ctx_identity := Some (account, org); ctx_identity_type := type |} r) w
    | None => zoom (identity_refusal r) w
    end;
}.

(** How an endpoint's interface authenticates. *)
Definition required_of (ep : endpoint) : RequiredTenantIdentifier :=
  match ep with V2Message => RequireOrgID | _ => RequireAccount end.
Definition behind_turnpike (ep : endpoint) : bool :=
  match ep with MgmtDisconnect | MgmtReconnect | MgmtPing => true | _ => false end.

Section authentication.
Context `{!ApiDeployment, !IdentityMiddleware ApiWorld, !IdentityMiddlewareSpec ApiWorld}.

(** The context a request reaches a handler with, if it gets there. *)
Definition admission (turnpike : bool) (required : RequiredTenantIdentifier) (r : request) : option context :=
  let get := Header_Get (rq_header r) in
  if bool_decide (get identityHeader ≠ EmptyString) then
    match identity_of (get identityHeader) with
    | Some (account, org, type) =>
        if turnpike && bool_decide (type ≠ "Associate") then None
        else Some {| ctx_principal := ctx_principal (rq_ctx r);
                     ctx_identity := Some (account, org); ctx_identity_type := type |}
    | None => None
    end
  else if psk_accepts (ServiceToServiceCredentials api_config) required r
  then Some {| ctx_principal := Some (get PSKAccountHeader, get PSKClientIdHeader, get PSKOrgIdHeader);
               ctx_identity := ctx_identity (rq_ctx r); ctx_identity_type := ctx_identity_type (rq_ctx r) |}
  else None.

(** ** Lemmas *)

(** A run that leaves the connections alone and publishes at most one message,
    one that satisfies [Cond]. *)
Definition emits (Cond : message → Prop) (w w' : ApiWorld) : Prop :=
  ∃ sent, observed w' = (table (aw_db w), published (aw_env w) ++ option_list sent) ∧
    ∀ m, sent = Some m → Cond m.

Lemma emits_quiet Cond {A} (m : M ApiWorld A) w :
  preserves observed m → wp m w (λ _, emits Cond w).
Proof. intros Hm. exists None. rewrite app_nil_r. split; [apply Hm|done]. Qed.

Lemma emits_answer Cond (m : M response unit) w : wp (zoom m) w (λ _, emits Cond w).
Proof. apply emits_quiet, respond_quiet. Qed.

Lemma metrics_emits Cond (h : Handler ApiWorld) r w :
  wp (h r) w (λ _, emits Cond w) → wp (RecordHTTPMetrics h r) w (λ _, emits Cond w).
Proof.
  intros Hh. unfold RecordHTTPMetrics. apply wp_bind. eapply wp_mono; [exact Hh|].
  intros [[]|?|?] w'; [|done..]. intros (sent&Ho&Hc). exists sent. split; [|done].
  rewrite <-Ho. by destruct w'.
Qed.

Lemma secured_emits Cond (turnpike : bool) required (h : Handler ApiWorld) r w (auth : Handler ApiWorld → Handler ApiWorld) :
  auth = (if turnpike then (λ next, EnforceIdentity (EnforceTurnpikeAuthentication next)) else EnforceIdentity) →
  (∀ ctx, admission turnpike required r = Some ctx → wp (h (with_context ctx r)) w (λ _, emits Cond w)) →
  wp (foldr (λ mw h, mw h) h (secured api_config auth required) r) w (λ _, emits Cond w).
Proof.
  intros -> Hh. cbn [foldr secured]. unfold AccessLoggerMiddleware. apply metrics_emits.
  unfold Authenticate, admission in *. case_bool_decide as Hid.
  - rewrite wp_unfold. destruct turnpike; rewrite EnforceIdentity_spec;
      (destruct (identity_of _) as [[[account org] type]|]; [|apply emits_answer]).
    + unfold EnforceTurnpikeAuthentication. cbn [rq_ctx with_context ctx_identity_type].
      case_bool_decide; [apply emits_answer|]. by apply Hh.
    + by apply Hh.
  - rewrite wp_unfold, psk_run. destruct (psk_accepts _ required r); [by apply Hh|apply emits_answer].
Qed.

(** *** The other routes only read *)

Lemma preserves_lookup {A} (m : M Db A) : preserves table m → preserves observed (zoom m : M ApiWorld A).
Proof.
  intros Hm w. unfold zoom. specialize (Hm (aw_db w)). cbn. destruct (m (aw_db w)) as [o db'].
  unfold observed. cbn in *. by rewrite Hm.
Qed.

Lemma preserves_prepare : preserves table db_Prepare.
Proof. done. Qed.
Lemma preserves_query {A} (f : list Row → list A + error) : preserves table (db_Query f).
Proof. intros db. unfold db_Query. by repeat case_match. Qed.
Lemma preserves_query_row {A} (f : list Row → list A) : preserves table (db_QueryRow f).
Proof. intros db. unfold db_QueryRow. by repeat case_match. Qed.
#[local] Hint Resolve preserves_prepare preserves_query preserves_query_row : go.

Lemma preserves_create q org cid : preserves table (createGetConnectionByClientIDImpl q org cid).
Proof. unfold createGetConnectionByClientIDImpl. go_preserves. Qed.
#[local] Hint Resolve preserves_create : go.

Lemma preserves_strict org cid : preserves table (NewSqlGetConnectionByClientID org cid).
Proof. apply preserves_create. Qed.
Lemma preserves_configured cfg org cid : preserves table (buildConnectionLookupInstances cfg org cid).
Proof.
  unfold buildConnectionLookupInstances, NewPermittedTenantSqlGetConnectionByClientID.
  case_bool_decide; [|apply preserves_strict]. go_preserves.
Qed.
Lemma preserves_by_org `{!Postgres} org offset limit :
  preserves table (NewSqlGetConnectionsByOrgID org offset limit).
Proof. unfold NewSqlGetConnectionsByOrgID. go_preserves. Qed.
Lemma preserves_all `{!Postgres} offset limit : preserves table (NewGetAllConnections offset limit).
Proof. unfold NewGetAllConnections. go_preserves. Qed.

Lemma preserves_principal ctx : preserves observed (the_principal (W := ApiWorld) ctx).
Proof. unfold the_principal. go_preserves. Qed.
Lemma preserves_decode {S} (fields : list (field S)) s0 valid body :
  preserves observed (decodeJSON (W := ApiWorld) fields s0 valid body).
Proof.
  intros w. destruct (decodeJSON_cases fields s0 valid body w) as [(s&->&_)|[(e&->&_)|(why&->&_)]]; done.
Qed.
Lemma preserves_translate account : preserves observed (EANToOrgID (W := ApiWorld) account).
Proof. done. Qed.
#[local] Hint Resolve preserves_lookup preserves_strict preserves_configured preserves_by_org preserves_all
  preserves_principal preserves_decode preserves_translate respond_quiet : go.

Lemma preserves_status lookup verify r :
  (∀ org cid, preserves observed (lookup org cid)) → (∀ req c, preserves observed (verify req c)) →
  preserves observed (getConnectionStatus (W := ApiWorld) lookup verify r).
Proof.
  intros Hl Hv. unfold getConnectionStatus, respond, respond_error. go_preserves.
Qed.

(** ** Properties *)

#[local] Set Default Proof Using "All".
Context `{!ForeignHandlers, !Postgres, !Mux} (int_of_nan : Z).
Hypothesis Hprefix : string_mem "%" (tbPrefix (NewTopicBuilder (MqttTopicPrefix api_config))) = false.

(** The routes of the endpoints that talk to clients. *)
Definition endpoint_route (ep : endpoint) : option string * pattern :=
  (Some "POST", Path match ep with
    | V1Message => UrlBasePath api_config +:+ "/v1/message"
    | V2Message => UrlBasePath api_config +:+ "/v2/connections/{id}/message"
    | MgmtDisconnect => (UrlBasePath api_config +:+ "/v1/connection") +:+ "/disconnect"
    | MgmtReconnect => (UrlBasePath api_config +:+ "/v1/connection") +:+ "/reconnect"
    | MgmtPing => (UrlBasePath api_config +:+ "/v1/connection") +:+ "/ping"
    end).

(** A message on the topic of [cid] that the request, come in on [rt], accounts
    for. *)
Definition justified (rt : option string * pattern) (req : request) (w : ApiWorld) (m : message) : Prop :=
  ∃ ep ctx p org cid r, rt = endpoint_route ep ∧
    admission (behind_turnpike ep) (required_of ep) req = Some ctx ∧ GetPrincipal ctx = Some p ∧
    request_target ep req p (aw_translate w) = Some (org, cid) ∧
    r ∈ table (aw_db w) ∧ may_reach ep org cid r ∧ msg_topic m = topic_of ep cid.

Lemma endpoint_emits ep auth req w :
  db_ok (aw_db w) →
  auth = (if behind_turnpike ep then (λ next, EnforceIdentity (EnforceTurnpikeAuthentication next))
          else EnforceIdentity) →
  wp (foldr (λ mw h, mw h) (handler_of ep) (secured api_config auth (required_of ep)) req) w
    (λ _, emits (justified (endpoint_route ep) req w) w).
Proof.
  intros Hok Hauth. apply (secured_emits _ (behind_turnpike ep)); [done|]. intros ctx Hctx.
  eapply wp_mono; [by apply handler_reaches|]. intros o w' (Ht&sent&Hp&Hs).
  exists sent. split; [unfold observed; by rewrite Ht, Hp|]. intros m Hm.
  destruct (Hs m Hm) as (p&org&cid&r&Hpr&Htg&Hr&Hm'&Htop). by exists ep, ctx, p, org, cid, r.
Qed.

Lemma reading_emits Cond (turnpike : bool) required (h : Handler ApiWorld) req w auth :
  auth = (if turnpike then (λ next, EnforceIdentity (EnforceTurnpikeAuthentication next)) else EnforceIdentity) →
  (∀ r, preserves observed (h r)) →
  wp (foldr (λ mw h, mw h) h (secured api_config auth required) req) w (λ _, emits Cond w).
Proof. intros Hauth Hh. apply (secured_emits _ turnpike); [done|]. intros ctx _. by apply emits_quiet. Qed.

Lemma respond_p status p : preserves observed (respond (W := ApiWorld) status p).
Proof. apply respond_quiet. Qed.
Lemma respond_error_p title status d : preserves observed (respond_error (W := ApiWorld) title status d).
Proof. apply respond_quiet. Qed.
Lemma failure_p : preserves observed (writeConnectionFailureResponse (W := ApiWorld)).
Proof. apply respond_quiet. Qed.
#[local] Hint Resolve respond_p respond_error_p failure_p preserves_status : go.

Definition server_routes : list (route ApiWorld) := apiMux
  (λ org cid, zoom (buildConnectionLookupInstances api_config org cid))
  (λ org cid, zoom (NewSqlGetConnectionByClientID org cid))
  (λ org offset limit, zoom (NewSqlGetConnectionsByOrgID org offset limit))
  (λ offset limit, zoom (NewGetAllConnections offset limit)) int_of_nan api_config.

Definition route_of (rt : route ApiWorld) : option string * pattern := (rt_method rt, rt_pattern rt).

Lemma route_emits rt req w :
  db_ok (aw_db w) → rt ∈ server_routes →
  wp (rt_handler rt req) w (λ _, emits (justified (route_of rt) req w) w).
Proof.
  intros Hok. revert rt. apply Forall_forall. unfold server_routes, apiMux.
  rewrite !Forall_app. split_and!.
  - repeat constructor. apply emits_answer.
  - unfold MonitoringServer_Routes. apply Forall_app. split; [|destruct (Profile _)];
      repeat constructor; apply emits_answer.
  - constructor; [apply (endpoint_emits V1Message); done|].
    repeat constructor. apply (reading_emits _ false); [done|]. intros r.
    unfold v1_handleConnectionStatus. go_preserves.
  - constructor; [|constructor; [|constructor; [|constructor; [|constructor; [|constructor; [|constructor]]]]]].
    + apply (reading_emits _ true); [done|]. intros r. unfold handleConnectionListing. go_preserves.
    + apply (reading_emits _ true); [done|]. intros r. unfold handleConnectionListingByAccount. go_preserves.
    + apply (endpoint_emits MgmtDisconnect); done.
    + apply (endpoint_emits MgmtReconnect); done.
    + apply (reading_emits _ true); [done|]. intros r. unfold mgmt_handleConnectionStatus. go_preserves.
    + apply (endpoint_emits MgmtPing); done.
  - constructor; [apply (endpoint_emits V2Message); done|]. repeat constructor.
    + apply (reading_emits _ false); [done|]. intros r. unfold v2_handleConnectionStatus. go_preserves.
    + apply (reading_emits _ false); [done|]. intros r. unfold handleConnectionListByOrgId. go_preserves.
Qed.

(** C12: Isolation of the API server: whatever the request, and whatever the
    database, the broker and the translator answer, serving it leaves the
    connections alone and publishes at most one message.  One is published only
    by a POST to one of the five message and command routes, whose request was
    authenticated as that interface demands (a valid identity header, of an
    associate on the management interface; or the key configured for the client
    id, with the tenant identifier), on the topic of the client the request
    names, and only if that client is registered under the org the request stands
    for (the caller's own on v2, the translation of the caller's own account on
    v1, of the named account on the management interface) or is a satellite and
    the message interfaces are configured for relaxed lookups. *)
Theorem server_isolation method req w :
  db_ok (aw_db w) →
  wp (api_server int_of_nan method req) w (λ _ w',
    table (aw_db w') = table (aw_db w) ∧
    ∃ sent, published (aw_env w') = published (aw_env w) ++ option_list sent ∧
      ∀ m, sent = Some m → ∃ i vars rt,
        mux_match (route_of <$> server_routes) method req = Some (i, vars) ∧
        (route_of <$> server_routes) !! i = Some rt ∧ justified rt (with_vars vars req) w m).
Proof.
  intros Hok. unfold api_server, serve. fold server_routes. fold route_of.
  assert (Hquiet : ∀ m : M response unit, wp (W := ApiWorld) (zoom m) w (λ _ w',
    table (aw_db w') = table (aw_db w) ∧ ∃ sent, published (aw_env w') = published (aw_env w) ++ option_list sent ∧
      ∀ msg, sent = Some msg → False)).
  { intros m. eapply wp_mono; [apply (emits_answer (λ _, False))|]. intros o w' (sent&[= Ht Hp]&Hs).
    split; [done|]. by exists sent. }
  destruct (mux_match _ method req) as [[i vars]|] eqn:Hm.
  2:{ eapply wp_mono; [apply Hquiet|]. intros o w' (Ht&sent&Hp&Hs). split; [done|].
      exists sent. split; [done|]. intros m Hm'. by destruct (Hs m). }
  destruct (server_routes !! i) as [rt|] eqn:Hi.
  2:{ eapply wp_mono; [apply Hquiet|]. intros o w' (Ht&sent&Hp&Hs). split; [done|].
      exists sent. split; [done|]. intros m Hm'. by destruct (Hs m). }
  eapply wp_mono; [apply route_emits; [done|by eapply list_elem_of_lookup_2]|].
  intros o w' (sent&[= Ht Hp]&Hs). split; [done|]. exists sent. split; [done|]. intros m Hm'.
  exists i, vars, (route_of rt). split; [done|]. split; [by rewrite list_lookup_fmap, Hi|]. by apply Hs.
Qed.
End authentication.

(** ** Witnesses *)

(** A router for the examples: templates match segment by segment. *)
Definition match_segment (t s : string) : option (gmap string string) :=
  if bool_decide (t = "{id}") then if bool_decide (s = EmptyString) then None else Some {[ "id" := s ]}
  else if bool_decide (t = s) then Some ∅ else None.
Fixpoint match_segments (ts ss : list string) : option (gmap string string) :=
  match ts, ss with
  | [], [] => Some ∅
  | t :: ts', s :: ss' => m ← match_segment t s; m' ← match_segments ts' ss'; Some (m ∪ m')
  | _, _ => None
  end.
Fixpoint first_match (i : nat) (l : list (option string * pattern)) (method path : string)
    : option (nat * gmap string string) :=
  match l with
  | (Some m, Path t) :: l' =>
      if bool_decide (m = method) then
        match match_segments (Split t "/") (Split path "/") with
        | Some vars => Some (i, vars)
        | None => first_match (S i) l' method path
        end
      else first_match (S i) l' method path
  | _ :: l' => first_match (S i) l' method path
  | [] => None
  end.
#[export] Instance test_mux : Mux := {
  mux_match l method r := first_match 0 l method (u_Path (rq_url r));
  mux_answer _ _ := http_Error "404 page not found" 404 }.

(** An identity middleware for the examples: the header is account/org/type. *)
Definition test_identity_of (s : string) : option (string * string * string) :=
  match Split s "/" with [account; org; type] => Some (account, org, type) | _ => None end.
#[export] Instance test_identity_middleware : IdentityMiddleware ApiWorld := {
  EnforceIdentity next r w :=
    match test_identity_of (Header_Get (rq_header r) identityHeader) with
    | Some (account, org, type) =>
        next (with_context {| ctx_principal := ctx_principal (rq_ctx r);
                              ctx_identity := Some (account, org); ctx_identity_type := type |} r) w
    | None => zoom (http_Error "Bad Request" 400) w
    end }.
#[export] Program Instance test_identity_spec : IdentityMiddlewareSpec ApiWorld := {
  identity_of := test_identity_of; identity_refusal _ := http_Error "Bad Request" 400 }.
Next Obligation. done. Qed.
#[export] Instance test_foreign : ForeignHandlers := {
  promhttp_Handler _ := WriteHeader 200; pprof_Handler _ := WriteHeader 200;
  ReadFile _ := inr (ErrText "no such file") }.

Definition http_request (header : list (string * string)) (path body : string) : request := {|
  rq_header := header; rq_url := {| u_Path := path; u_RawQuery := EmptyString; u_Fragment := EmptyString |};
  rq_vars := ∅; rq_body := body; rq_ctx := empty_context |}.

Definition v2_message_request (identity : string) : request :=
  http_request [("X-Rh-Identity", identity)] (UrlBasePath default_config +:+ "/v2/connections/client-a/message")
    message_body.

(** The owner's message goes out; another org is told there is no connection, and
    a request without credentials that it is not authenticated. *)
Lemma server_isolation_witness :
  let run identity := (api_server (H := test_api) 0 "POST" (v2_message_request identity) api_world).2 in
  msg_topic <$> published (aw_env (run "010101/000001/User")) = ["redhat/insights/client-a/data/in"] ∧
  rs_status (aw_response (run "010101/000002/User")) = Some 404%Z ∧
  rs_status (aw_response (run EmptyString)) = Some 401%Z ∧
  table (aw_db (run "010101/000001/User")) = table (aw_db api_world).
Proof.
  intros run. split; [vm_compute; reflexivity|]. split; [vm_compute; reflexivity|].
  split; [vm_compute; reflexivity|].
  exact (proj1 (server_isolation (H := test_api) 0 eq_refl "POST" (v2_message_request "010101/000001/User")
    api_world api_world_ok)).
Defined.
