(* ===== verification/NonInterference.v ===== *)
(** * What a caller of the v2 interface can learn

    With strict lookups, nothing a caller can observe on the v2 interface (the
    answer, the messages sent, the metrics) depends on the connections of other
    orgs: a two-run property, by a relational reading of the handlers. *)

From S2P Require Import Prelude GoStrings GoNumTime Json JsonFacts GoUrl Domain Config Topic Protocol MqttProxy Services Repository Locators Pagination HttpApi Middlewares Api ApiSystem Server.
From stdpp Require Import options.

(** The connections of an org. *)
Definition org_rows (org : OrgID) (rows : list Row) : list Row := filter (λ r, r_org_id r = org) rows.

Definition agree (org : OrgID) (rows rows' : list Row) : Prop := org_rows org rows = org_rows org rows'.

(** The same world with another table. *)
Definition with_table (rows : list Row) (w : ApiWorld) : ApiWorld := lset (set_table rows (aw_db w)) w.

(** ** A computation that does the same on related tables

    [R] says which tables may be exchanged. *)

Section relational.
Context (R : list Row → list Row → Prop).

Definition db_own {A} (m : M Db A) : Prop := ∀ db rows, R (table db) rows →
  m (set_table rows db) = ((m db).1, set_table rows (m db).2) ∧ table (m db).2 = table db.

Definition own {A} (m : M ApiWorld A) : Prop := ∀ w rows, R (table (aw_db w)) rows →
  m (with_table rows w) = ((m w).1, with_table rows (m w).2) ∧ table (aw_db (m w).2) = table (aw_db w).

Lemma db_own_ret {A} (a : A) : db_own (mret a).
Proof. done. Qed.

Lemma db_own_bind {A B} (m : M Db A) (k : A → M Db B) :
  db_own m → (∀ a, db_own (k a)) → db_own (m ≫= k).
Proof.
  intros Hm Hk db rows Ha. destruct (Hm db rows Ha) as [H1 H2]. unfold mbind, M_bind.
  rewrite H1. destruct (m db) as [[a|?|?] db']; cbn in *; [|done..].
  destruct (Hk a db' rows) as [H3 H4]; [by rewrite H2|]. rewrite H3. by rewrite H4.
Qed.

Lemma db_own_prepare : db_own db_Prepare.
Proof. done. Qed.

Lemma db_own_query {A} (f : list Row → list A + error) :
  (∀ rows rows', R rows rows' → f rows = f rows') → db_own (db_Query f).
Proof.
  intros Hf db rows Ha. unfold db_Query. cbn. destruct (db_fault db (db_tick db)); [done|].
  rewrite (Hf _ _ Ha). by destruct (f rows).
Qed.

Lemma db_own_query_row {A} (f : list Row → list A) :
  (∀ rows rows', R rows rows' → f rows = f rows') → db_own (db_QueryRow f).
Proof.
  intros Hf db rows Ha. unfold db_QueryRow. cbn. destruct (db_fault db (db_tick db)); [done|].
  rewrite (Hf _ _ Ha). by destruct (f rows).
Qed.

Lemma own_ret {A} (a : A) : own (mret a).
Proof. done. Qed.
Lemma own_panic {A} why : own (panic why : M ApiWorld A).
Proof. done. Qed.

Lemma own_bind {A B} (m : M ApiWorld A) (k : A → M ApiWorld B) :
  own m → (∀ a, own (k a)) → own (m ≫= k).
Proof.
  intros Hm Hk w rows Ha. destruct (Hm w rows Ha) as [H1 H2]. unfold mbind, M_bind.
  rewrite H1. destruct (m w) as [[a|?|?] w']; cbn [fst snd] in *; [|done..].
  destruct (Hk a w' rows) as [H3 H4]; [by rewrite H2|]. rewrite H3. by rewrite H4.
Qed.

Lemma own_db {A} (m : M Db A) : db_own m → own (zoom m : M ApiWorld A).
Proof.
  intros Hm w rows Ha. destruct (Hm (aw_db w) rows Ha) as [H1 H2].
  unfold zoom. cbn. rewrite H1. by destruct (m (aw_db w)).
Qed.

Lemma own_env {A} (m : M Env A) : own (zoom m : M ApiWorld A).
Proof. intros w rows Ha. unfold zoom. cbn. by destruct (m (aw_env w)). Qed.
Lemma own_response {A} (m : M response A) : own (zoom m : M ApiWorld A).
Proof. intros w rows Ha. unfold zoom. cbn. by destruct (m (aw_response w)). Qed.

Lemma own_zooms {A} (m : M ApiWorld A) (m' : M Env A) : zooms m m' → own m.
Proof. intros Hz w rows Ha. rewrite !Hz. by apply own_env. Qed.

(** ** The lookups of the v2 interface *)

Lemma filter_own org (P : Row → bool) rows rows' :
  (∀ r, P r = true → r_org_id r = org) → agree org rows rows' →
  filter (λ r, P r) rows = filter (λ r, P r) rows'.
Proof.
  intros HP Ha. assert (Hsub : ∀ l, filter (λ r, P r) l = filter (λ r, P r) (org_rows org l)).
  { intros l. unfold org_rows. rewrite list_filter_filter_l; [done|].
    intros x Hx. apply HP. by apply Is_true_true. }
  by rewrite (Hsub rows), (Hsub rows'), Ha.
Qed.

(** Tables that agree on the connections of an org. *)
Definition within (org : OrgID) : Prop := ∀ rows rows', R rows rows' → agree org rows rows'.

Lemma strict_own org cid : within org → db_own (NewSqlGetConnectionByClientID org cid).
Proof.
  intros HR. unfold NewSqlGetConnectionByClientID, createGetConnectionByClientIDImpl.
  do 2 (case_match; [apply db_own_ret|]).
  apply db_own_bind; [apply db_own_prepare|]. intros [e|]; [apply db_own_ret|].
  apply db_own_bind; [|intros; apply db_own_ret]. apply db_own_query_row.
  intros rows rows' Ha%HR. apply (filter_own org); [|done]. intros r. unfold strictConnectionLookupQuery.
  rewrite !andb_true_iff, !bool_decide_eq_true. naive_solver.
Qed.

Lemma by_org_own `{!Postgres} org offset limit :
  within org → db_own (NewSqlGetConnectionsByOrgID org offset limit).
Proof.
  intros HR. unfold NewSqlGetConnectionsByOrgID. case_match; [apply db_own_ret|].
  apply db_own_bind; [apply db_own_prepare|]. intros [e|]; [apply db_own_ret|].
  apply db_own_bind; [|intros; apply db_own_ret]. apply db_own_query.
  intros rows rows' Ha%HR. unfold select_by_org. unfold agree, org_rows in Ha. by rewrite Ha.
Qed.

(** ** The handlers *)

Lemma own_decode {S} (fields : list (field S)) s0 valid body : own (decodeJSON fields s0 valid body).
Proof.
  unfold decodeJSON. destruct (MaxBytesReader body max_body). case_match; [|apply own_ret].
  repeat case_match; solve [apply own_ret|apply own_panic].
Qed.

Create HintDb own_db discriminated.
#[local] Hint Resolve own_ret own_panic own_db own_env own_response own_decode strict_own by_org_own : own_db.

Lemma own_respond status p : own (respond (W := ApiWorld) status p).
Proof. apply own_response. Qed.
Lemma own_respond_error t status d : own (respond_error (W := ApiWorld) t status d).
Proof. apply own_response. Qed.
Lemma own_failure : own (writeConnectionFailureResponse (W := ApiWorld)).
Proof. apply own_response. Qed.

Lemma own_send cc directive metadata payload :
  own (send_and_respond (proxy_client (W := ApiWorld) cc) directive metadata payload).
Proof.
  unfold send_and_respond. apply own_bind; [eapply own_zooms, zooms_SendMessage|].
  intros [jobID err]. repeat case_match; auto using own_failure, own_respond, own_respond_error, own_panic.
Qed.
#[local] Hint Resolve own_respond own_respond_error own_failure own_send : own_db.

#[local] Set Default Proof Using "All".
Context `{!ApiDeployment, !Postgres} (int_of_nan : Z).
Hypothesis Hstrict : ApiServerConnectionLookupImpl api_config ≠ "relaxed".

Lemma configured_own org cid : within org → db_own (buildConnectionLookupInstances api_config org cid).
Proof.
  unfold buildConnectionLookupInstances. rewrite bool_decide_eq_false_2 by done. apply strict_own.
Qed.
#[local] Hint Resolve configured_own : own_db.

(** The handlers of the v2 interface as the server has them. *)
Definition v2_handlers : list (Handler ApiWorld) :=
  [handleSendMessage (λ org cid, zoom (buildConnectionLookupInstances api_config org cid));
   v2_handleConnectionStatus (λ org cid, zoom (buildConnectionLookupInstances api_config org cid));
   handleConnectionListByOrgId (λ org offset limit, zoom (NewSqlGetConnectionsByOrgID org offset limit)) int_of_nan].

Lemma v2_handler_own h req :
  h ∈ v2_handlers → (∀ p, GetPrincipal (rq_ctx req) = Some p → within (principal_org p)) → own (h req).
Proof.
  intros Hh Hp. assert (Hprincipal : ∀ k : Principal → M ApiWorld unit,
    (∀ p, within (principal_org p) → own (k p)) → own (the_principal (rq_ctx req) ≫= k)).
  { intros k Hk. unfold the_principal. destruct (GetPrincipal (rq_ctx req)) as [p|]; [|done].
    intros w rows Ha. by apply Hk, Ha; apply Hp. }
  unfold v2_handlers in Hh. set_unfold in Hh. destruct Hh as [->|[->|[->|[]]]]; apply Hprincipal; intros p Hin.
  - apply own_bind; [auto with own_db|]. intros [m|e]; [|auto with own_db].
    case_match; [auto with own_db|]. apply own_bind; [auto with own_db|].
    intros [s [e|]]; [auto with own_db|]. unfold CreateProxy, aw_factory, proxy_factory.
    intros w rows Ha. rewrite !bind_ret_l. by apply own_send.
  - apply own_bind; [auto with own_db|]. intros [s [e|]]; [case_match|]; auto with own_db.
  - destruct (getOffsetAndLimitFromQueryParams (rq_url req)) as [[offset limit] [e|]]; [auto with own_db|].
    apply own_bind; [auto with own_db|]. intros [[m total] err].
    apply own_bind; [destruct err|intros _]; auto with own_db.
Qed.

Context `{!IdentityMiddleware ApiWorld, !IdentityMiddlewareSpec ApiWorld}.

Lemma secured_own required (h : Handler ApiWorld) req :
  (∀ ctx, admission false required req = Some ctx → own (h (with_context ctx req))) →
  own (foldr (λ mw h, mw h) h (secured api_config EnforceIdentity required) req).
Proof using IdentityMiddlewareSpec0.
  intros Hh. cbn [foldr secured]. unfold AccessLoggerMiddleware, RecordHTTPMetrics.
  apply own_bind; [|intros _; apply own_bind; [apply own_response|intros; apply own_env]].
  unfold Authenticate, admission in *. intros w rows Ha. case_bool_decide.
  - rewrite !EnforceIdentity_spec. destruct (identity_of _) as [[[account org] type]|].
    + cbn [andb] in Hh. by apply Hh.
    + by apply own_response.
  - rewrite !psk_run. destruct (psk_accepts _ required req); [by apply Hh|by apply own_response].
Qed.
End relational.

(** ** Property *)

Section noninterference.
Context `{!ApiDeployment, !Postgres, !IdentityMiddleware ApiWorld, !IdentityMiddlewareSpec ApiWorld, !Mux}.
Context (int_of_nan : Z).

(** The org a request to the v2 interface acts for. *)
Definition caller_org (req : request) : option OrgID :=
  ctx ← admission false RequireOrgID req; principal_org <$> GetPrincipal ctx.

(** The v2 interface of [startCloudConnectorApiServer]. *)
Definition v2_server (method : string) : Handler ApiWorld :=
  serve (ConnectionMediatorV2_Routes
    (λ org cid, zoom (buildConnectionLookupInstances api_config org cid))
    (λ org offset limit, zoom (NewSqlGetConnectionsByOrgID org offset limit)) int_of_nan api_config) method.

(** C13: Orgs do not interfere: with strict lookups, a request to the v2 interface
    is answered the same, sends the same messages and counts the same, whatever
    the connections of other orgs than the caller's are; a request that is not
    authenticated, whatever any connections are. *)
Theorem v2_noninterference method req w rows :
  ApiServerConnectionLookupImpl api_config ≠ "relaxed" →
  (∀ org, caller_org req = Some org → agree org (table (aw_db w)) rows) →
  let '(o, w1) := v2_server method req w in
  let '(o', w2) := v2_server method req (with_table rows w) in
  o' = o ∧ aw_response w2 = aw_response w1 ∧ aw_env w2 = aw_env w1 ∧
  table (aw_db w1) = table (aw_db w) ∧ table (aw_db w2) = rows.
Proof using All.
  intros Hstrict Ha.
  set (R := λ a b, ∀ org, caller_org req = Some org → agree org a b).
  assert (Hown : own R (v2_server method req)).
  { unfold v2_server, serve. destruct (mux_match _ method req) as [[i vars]|]; [|apply own_response].
    destruct (_ !! i) as [rt|] eqn:Hi; [|apply own_response].
    assert (Hrt : ∃ h, h ∈ v2_handlers int_of_nan ∧
      rt_handler rt = foldr (λ mw h, mw h) h (secured api_config EnforceIdentity RequireOrgID)).
    { unfold v2_handlers. destruct i as [|[|[|i]]]; [..|done]; injection Hi as <-; eexists; (split; [|done]); set_solver. }
    destruct Hrt as (h&Hin&->). apply (secured_own R RequireOrgID h). intros ctx Hctx.
    apply (v2_handler_own R int_of_nan Hstrict); [done|]. intros p Hp a b Hab. apply Hab.
    unfold caller_org. change (admission _ _ (with_vars vars req)) with (admission false RequireOrgID req) in Hctx.
    rewrite Hctx. cbn. change (GetPrincipal ctx = Some p) in Hp. by rewrite Hp. }
  destruct (Hown w rows Ha) as [Hrun Htab]. rewrite Hrun.
  destruct (v2_server method req w) as [o w1]. done.
Qed.
End noninterference.

(** ** Witness: another org's connection comes and goes unnoticed *)

(** The server with the strict lookup; the default is the relaxed one. *)
Definition strict_api : ApiDeployment := {|
  api_config := config_of_options (SetDefault (set_defaults (V := list (string * optval)))
    "API_Server_Connection_Lookup_Impl" (OString "strict")) |}.

Lemma v2_noninterference_witness :
  let req := http_request [("X-Rh-Identity", "010101/000001/User")]
               (UrlBasePath (@api_config strict_api) +:+ "/v2/connections") EmptyString in
  let answer w := rs_body (aw_response (v2_server (H := strict_api) 0 "GET" req w).2) in
  let w' := with_table [api_row] api_world in
  table (aw_db api_world) ≠ table (aw_db w') ∧ answer w' = answer api_world ∧ answer w' ≠ EmptyString.
Proof.
  intros req answer w'. split; [intros He; apply (f_equal length) in He; vm_compute in He; discriminate|].
  split; [|intros He; apply (f_equal String.length) in He; vm_compute in He; discriminate].
  pose proof (v2_noninterference (H := strict_api) 0 "GET" req api_world [api_row]) as Hni.
  unfold answer, w'. destruct (v2_server _ _ req api_world) as [o w1].
  destruct (v2_server _ _ req (with_table _ api_world)) as [o' w2].
  destruct Hni as (_&Hr&_).
  - intros He. vm_compute in He. discriminate.
  - intros org Horg. assert (org = "000001") as -> by (vm_compute in Horg; congruence).
    vm_compute. reflexivity.
  - cbn [snd]. by rewrite Hr.
Defined.
