(* ===== verification/Sources.v ===== *)
(** * Registration with Sources ([internal/controller/sources_recorder.go])

    A lookup by [source_ref], then a bulk creation when nothing was found.  The
    HTTP client is the class [HttpClient]: a reply carries the bytes that could be
    read of its body and whether reading them failed ([makeHttpRequest] cancels
    the request's context before its caller reads the body). *)

From S2P Require Import Prelude GoStrings GoNumTime Json JsonFacts GoUrl Domain Config Protocol.
From stdpp Require Import options.

Record http_request := {
  rq_Method : string;
  rq_URL : string;
  rq_Header : list (string * string);
  rq_Body : option string;
  rq_Timeout : Z;
}.

Record http_reply := {
  reply_StatusCode : Z;
  reply_Body : string;
  reply_ReadFailed : bool;
}.

(** [http.NewRequest] on a URL, and [http.DefaultClient.Do]. *)
Class HttpClient (W : Type) := {
  http_NewRequest : string → option error;
  http_Do : http_request → M W (http_reply + error);
}.
#[global] Hint Mode HttpClient + : typeclass_instances.

Definition decode_reply {S} (fields : list (field S)) (s0 : S) (r : http_reply) : option S :=
  decode_body fields s0 (reply_Body r) (reply_ReadFailed r).

Record sourceEntry := { seSourceRef : string; seSourceName : string; seSourceType : string }.
Record applicationEntry := { aeSourceName : string; aeApplicationType : string }.
Record endpointEntry := { eeSourceName : string; eeClientID : string }.
Record sourcesBulkOperation := {
  Sources : list sourceEntry;
  Applications : list applicationEntry;
  Endpoints : list endpointEntry;
}.

Definition doc_sourceEntry (s : sourceEntry) : jdoc :=
  JObj [("source_ref", jstring (seSourceRef s)); ("name", jstring (seSourceName s));
        ("source_type_name", jstring (seSourceType s))].
Definition doc_applicationEntry (a : applicationEntry) : jdoc :=
  JObj [("source_name", jstring (aeSourceName a));
        ("application_type_name", jstring (aeApplicationType a))].
Definition doc_endpointEntry (e : endpointEntry) : jdoc :=
  JObj [("source_name", jstring (eeSourceName e)); ("receptor_node", jstring (eeClientID e))].
Definition doc_sourcesBulkOperation (b : sourcesBulkOperation) : jdoc :=
  JObj [("sources", JArr (doc_sourceEntry <$> Sources b));
        ("applications", JArr (doc_applicationEntry <$> Applications b));
        ("endpoints", JArr (doc_endpointEntry <$> Endpoints b))].

Record getSourcesResponse := { gsMetadata : value; gsData : list value }.
Definition getSourcesResponse_fields : list (field getSourcesResponse) := [
  ("meta", set_interface (λ x r, {| gsMetadata := x; gsData := gsData r |}));
  ("data", λ d r, match d with
                  | JNull => Some {| gsMetadata := gsMetadata r; gsData := [] |}
                  | JArr ds => if existsb interface_err ds then None
                               else Some {| gsMetadata := gsMetadata r; gsData := interface_of <$> ds |}
                  | _ => None
                  end)].

Definition lookup_failed : error := ErrText "Unable to parse sources GET response".
Definition create_failed : error := ErrText "Unable to create sources".

Section sources.
Context {W : Type} `{!HttpClient W, !UUID W}.

Definition makeHttpRequest (identity : Identity) (requestID method url : string)
    (body : option string) (timeout : Z) : M W (http_reply + error) :=
  match http_NewRequest (W := W) url with
  | Some err => mret (inr err)
  | None =>
      http_Do {|
        rq_Method := method; rq_URL := url;
        rq_Header := [("x-rh-identity", identity); ("Content-Type", "application/json");
                      ("x-rh-insights-request-id", requestID)];
        rq_Body := body; rq_Timeout := timeout |}
  end.

Definition checkForExistingSourcesEntry (cfg : Config) (identity : Identity) (sourceRef : string)
    : M W (bool * option error) :=
  id ← NewRandom;
  match id with
  | inr err => mret (false, Some err)
  | inl requestID =>
      let url := SourcesBaseUrl cfg +:+ "/api/sources/v3.0/sources?source_ref="
                 +:+ QueryEscape sourceRef in
      resp ← makeHttpRequest identity requestID "GET" url None (SourcesHttpClientTimeout cfg);
      match resp with
      | inr err => mret (false, Some err)
      | inl resp =>
          match decode_reply getSourcesResponse_fields
                  {| gsMetadata := VNull; gsData := [] |} resp with
          | None => mret (false, Some lookup_failed)
          | Some r => mret (bool_decide (0 < length (gsData r)), None)
          end
      end
  end.

Definition createSourcesEntry (cfg : Config) (identity : Identity) (clientID : ClientID)
    (sourceRef sourceName sourceType applicationType : string) : M W (option error) :=
  id ← NewRandom;
  match id with
  | inr err => mret (Some err)
  | inl requestID =>
      let source := {| seSourceRef := sourceRef; seSourceName := sourceName;
                       seSourceType := sourceType |} in
      let application := {| aeSourceName := sourceName; aeApplicationType := applicationType |} in
      let endpoint := {| eeSourceName := sourceName; eeClientID := clientID |} in
      let bulkOp := {| Sources := [source]; Applications := [application];
                       Endpoints := [endpoint] |} in
      let jsonBytes := render (doc_sourcesBulkOperation bulkOp) in
      let url := SourcesBaseUrl cfg +:+ "/api/sources/v3.1/bulk_create" in
      resp ← makeHttpRequest identity requestID "POST" url (Some jsonBytes)
               (SourcesHttpClientTimeout cfg);
      match resp with
      | inr err => mret (Some err)
      | inl resp =>
          if bool_decide (reply_StatusCode resp = 400%Z) then mret None
          else if bool_decide (reply_StatusCode resp ≠ 201%Z) then mret (Some create_failed)
          else mret None
      end
  end.

(** An error of the lookup is only logged. *)
Definition Impl_RegisterWithSources (cfg : Config) (identity : Identity) (account : AccountID)
    (orgID : OrgID) (clientID : ClientID)
    (sourceRef sourceName sourceType applicationType : string) : M W (option error) :=
  r ← checkForExistingSourcesEntry cfg identity sourceRef;
  let '(sourceEntryExists, err) := r in
  if sourceEntryExists : bool then mret None
  else createSourcesEntry cfg identity clientID sourceRef sourceName sourceType applicationType.

Definition Fake_RegisterWithSources (identity : Identity) (account : AccountID)
    (orgID : OrgID) (clientID : ClientID)
    (sourceRef sourceName sourceType applicationType : string) : M W (option error) := mret None.

Definition NewSourcesRecorder (impl : string) (cfg : Config) : option (SourcesRecorder W) * option error :=
  if bool_decide (impl = "sources")
  then (Some {| RegisterWithSources := Impl_RegisterWithSources cfg |}, None)
  else if bool_decide (impl = "fake")
  then (Some {| RegisterWithSources := Fake_RegisterWithSources |}, None)
  else (None, Some (ErrText "Invalid SourcesRecorder impl requested")).
End sources.

(** ** A scripted HTTP client, which logs the exchanges *)

Definition exchange : Type := http_request * (http_reply + error).

Record SEnv := {
  exchanges : list exchange;
  s_tick : nat;
  s_reply : nat → http_reply + error;
  s_uuid : nat → string + error;
}.

Definition s_add (l : list exchange) (e : SEnv) : SEnv := {|
  exchanges := exchanges e ++ l; s_tick := S (s_tick e); s_reply := s_reply e; s_uuid := s_uuid e |}.

(** Which URLs [http.NewRequest] rejects is left open. *)
Class UrlCheck := { url_error : string → option error }.

Section instances.
Context {W : Type} `{!Lens W SEnv, !UrlCheck}.
#[export] Instance senv_http : HttpClient W := {
  http_NewRequest := url_error;
  http_Do rq := zoom (λ e, (Ret (s_reply e (s_tick e)), s_add [(rq, s_reply e (s_tick e))] e));
}.
#[export] Instance senv_uuid : UUID W := {
  NewRandom := zoom (λ e, (Ret (s_uuid e (s_tick e)), s_add [] e)) }.
End instances.

#[export] Program Instance senv_id : Lens SEnv SEnv := { lget := id; lset := λ s _, s }.
Solve All Obligations with done.

(** ** Lemmas *)

(** The reply says that an entry exists. *)
Definition reports_entry (a : http_reply + error) : bool :=
  match a with
  | inl r => match decode_reply getSourcesResponse_fields {| gsMetadata := VNull; gsData := [] |} r with
             | Some d => bool_decide (0 < length (gsData d))
             | None => false
             end
  | inr _ => false
  end.

(** The reply means that the entry is there now: created, or refused as a duplicate. *)
Definition accepted (a : http_reply + error) : bool :=
  match a with
  | inl r => bool_decide (reply_StatusCode r = 201%Z) || bool_decide (reply_StatusCode r = 400%Z)
  | inr _ => false
  end.

(** A lookup of [ref] for [identity], as the receiver parses it. *)
Definition is_lookup (cfg : Config) (identity ref : string) (rq : http_request) : Prop :=
  ∃ q, rq_Method rq = "GET" ∧ rq_Body rq = None ∧
    rq_URL rq = SourcesBaseUrl cfg +:+ "/api/sources/v3.0/sources?" +:+ q ∧
    ParseQuery q = [("source_ref", ref)] ∧
    ("x-rh-identity", identity) ∈ rq_Header rq ∧
    rq_Timeout rq = SourcesHttpClientTimeout cfg.

Definition entry_object (fields : list (string * string)) : value :=
  VArray [VObject (list_to_map ((λ kv, (kv.1, VString kv.2)) <$> fields))].

(** A creation of the three entries, as the receiver decodes it. *)
Definition is_create (cfg : Config) (identity cid ref name ty app : string) (rq : http_request) : Prop :=
  ∃ body o, rq_Method rq = "POST" ∧ rq_Body rq = Some body ∧
    rq_URL rq = SourcesBaseUrl cfg +:+ "/api/sources/v3.1/bulk_create" ∧
    ("x-rh-identity", identity) ∈ rq_Header rq ∧
    UnmarshalInterface body = (VObject o, false) ∧
    o !! "sources" = Some (entry_object
      [("source_ref", ref); ("name", name); ("source_type_name", ty)]) ∧
    o !! "applications" = Some (entry_object
      [("source_name", name); ("application_type_name", app)]) ∧
    o !! "endpoints" = Some (entry_object [("source_name", name); ("receptor_node", cid)]).

(** Nothing is sent when no request id can be drawn (the [n]th draw), or when the
    HTTP library refuses the URL. *)
Definition unsendable `{!UrlCheck} (url : string) (e : SEnv) (n : nat) : Prop :=
  (∃ err, s_uuid e n = inr err) ∨ (∃ err, url_error url = Some err).

Definition lookup_url (cfg : Config) (ref : string) : string :=
  SourcesBaseUrl cfg +:+ "/api/sources/v3.0/sources?source_ref=" +:+ QueryEscape ref.
Definition create_url (cfg : Config) : string := SourcesBaseUrl cfg +:+ "/api/sources/v3.1/bulk_create".

(** The map of string members, decoded. *)
Lemma string_members (l : list (string * string)) :
  NoDup l.*1 → Forall (λ kv, unquote kv.1 = kv.1 ∧ utf8_valid kv.2 = true) l →
  interface_of (JObj ((λ kv, (kv.1, jstring kv.2)) <$> l))
  = VObject (list_to_map ((λ kv, (kv.1, VString kv.2)) <$> l)).
Proof.
  intros Hn Hv. cbn. f_equal. apply map_eq. intros k.
  assert (Heq : (λ kv : string * jdoc, (unquote kv.1, interface_of kv.2))
            <$> ((λ kv : string * string, (kv.1, jstring kv.2)) <$> l)
          = (λ kv, (kv.1, VString kv.2)) <$> l).
  { clear Hn. induction Hv as [|[k1 v1] l [Hk Hv1] _ IH]; [done|].
    cbn in *. rewrite Hk, unquote_quote by done. by f_equal. }
  cbn in Heq. rewrite Heq. symmetry. f_equal.
  apply list_to_map_proper; [|by rewrite reverse_Permutation].
  by rewrite <-list_fmap_compose.
Qed.

Lemma senv_get `{!UrlCheck} (e : SEnv) cfg identity id url m body :
  let rq := {| rq_Method := m; rq_URL := url;
    rq_Header := [("x-rh-identity", identity); ("Content-Type", "application/json");
                  ("x-rh-insights-request-id", id)];
    rq_Body := body; rq_Timeout := SourcesHttpClientTimeout cfg |} in
  ∃ a sent e',
    makeHttpRequest (W := SEnv) identity id m url body (SourcesHttpClientTimeout cfg) e = (Ret a, e') ∧
    exchanges e' = exchanges e ++ option_list sent ∧ s_uuid e' = s_uuid e ∧ s_tick e ≤ s_tick e' ∧
    match sent with
    | Some x => x = (rq, a)
    | None => e' = e ∧ ∃ err, a = inr err ∧ url_error url = Some err
    end.
Proof.
  intros rq. unfold makeHttpRequest. cbn. destruct (url_error url) as [err|].
  - exists (inr err), None, e. rewrite app_nil_r. split_and!; eauto.
  - eexists _, (Some (rq, _)), _. split_and!; try done. cbn. lia.
Qed.

Section registration.
Context `{!UrlCheck}.
#[local] Set Default Proof Using "Type*".

Lemma lookup_run cfg identity ref (e : SEnv) :
  ∃ b err sent e', checkForExistingSourcesEntry (W := SEnv) cfg identity ref e = (Ret (b, err), e') ∧
    exchanges e' = exchanges e ++ option_list sent ∧ s_uuid e' = s_uuid e ∧ s_tick e < s_tick e' ∧
    match sent with
    | Some x => is_lookup cfg identity ref x.1 ∧ b = reports_entry x.2
    | None => b = false ∧ unsendable (lookup_url cfg ref) e (s_tick e)
    end.
Proof.
  unfold checkForExistingSourcesEntry.
  destruct (s_uuid e (s_tick e)) as [id|err] eqn:Hid.
  2:{ rewrite (bind_ret _ _ e (inr err) (s_add [] e)) by (cbn; by rewrite Hid).
      eexists _, _, None, _. split; [done|]. split; [done|]. split; [done|]. split; [cbn; lia|].
      split; [done|]. left. eauto. }
  rewrite (bind_ret _ _ e (inl id) (s_add [] e)) by (cbn; by rewrite Hid).
  set (url := SourcesBaseUrl cfg +:+ _).
  destruct (senv_get (s_add [] e) cfg identity id url "GET" None) as (a&sent&e'&Hrun&Hex&Hu&Ht&Hs).
  rewrite (bind_ret _ _ _ _ _ Hrun). cbn [s_add exchanges s_uuid s_tick] in Hex, Hu, Ht. rewrite app_nil_r in Hex.
  assert (Hl : ∀ x, sent = Some x → is_lookup cfg identity ref x.1 ∧ x.2 = a).
  { intros x ->. subst x. split; [|done]. exists ("source_ref" +:+ "=" +:+ QueryEscape ref).
    split_and!; try done; [|by left]. by apply ParseQuery_pair. }
  destruct a as [r|err].
  - destruct sent as [x|]; [|by destruct Hs as (_&?&?&_)]. destruct (Hl x eq_refl) as [Hx Ha].
    destruct (decode_reply getSourcesResponse_fields _ r) as [d|] eqn:Hd;
      eexists _, _, (Some x), _; (split_and!; [done|done|exact Hu|lia|done|]);
      unfold reports_entry; by rewrite Ha, Hd.
  - eexists _, _, sent, _. split_and!; [done|done|exact Hu|lia|].
    destruct sent as [x|]; [|destruct Hs as (_&err'&_&?); split; [done|right; eauto]].
    destruct (Hl x eq_refl) as [Hx Ha]. by rewrite Ha.
Qed.

(** The request [createSourcesEntry] sends. *)
Lemma create_request cfg identity cid ref name ty app id :
  utf8_valid cid = true → utf8_valid ref = true → utf8_valid name = true →
  utf8_valid ty = true → utf8_valid app = true →
  is_create cfg identity cid ref name ty app {|
    rq_Method := "POST"; rq_URL := SourcesBaseUrl cfg +:+ "/api/sources/v3.1/bulk_create";
    rq_Header := [("x-rh-identity", identity); ("Content-Type", "application/json");
                  ("x-rh-insights-request-id", id)];
    rq_Body := Some (render (doc_sourcesBulkOperation {|
      Sources := [{| seSourceRef := ref; seSourceName := name; seSourceType := ty |}];
      Applications := [{| aeSourceName := name; aeApplicationType := app |}];
      Endpoints := [{| eeSourceName := name; eeClientID := cid |}] |}));
    rq_Timeout := SourcesHttpClientTimeout cfg |}.
Proof.
  intros Hcid Href Hname Hty Happ. set (d := doc_sourcesBulkOperation _).
  exists (render d), (object_map [
    ("sources", JArr [doc_sourceEntry {| seSourceRef := ref; seSourceName := name; seSourceType := ty |}]);
    ("applications", JArr [doc_applicationEntry {| aeSourceName := name; aeApplicationType := app |}]);
    ("endpoints", JArr [doc_endpointEntry {| eeSourceName := name; eeClientID := cid |}])]).
  split; [done|]. split; [done|]. split; [done|]. split; [by left|].
  split_and!.
  { unfold UnmarshalInterface. rewrite parse_render.
    - replace (interface_err d) with false by reflexivity. apply interface_of_object.
    - unfold d, doc_sourcesBulkOperation, doc_sourceEntry, doc_applicationEntry,
        doc_endpointEntry, jstring.
      cbn [doc_ok forallb fst snd fmap list_fmap Sources Applications Endpoints].
      rewrite !quote_raw_ok. reflexivity.
    - unfold d. cbn. lia. }
  all: etrans; [eapply object_map_lookup;
    [apply (bool_decide_unpack _); exact I|reflexivity|repeat first [left|right]]|].
  all: f_equal; unfold entry_object; cbn [interface_of fmap list_fmap]; do 2 f_equal.
  all: [> etrans; [apply (string_members [("source_ref", ref); ("name", name); ("source_type_name", ty)])|]
        | etrans; [apply (string_members [("source_name", name); ("application_type_name", app)])|]
        | etrans; [apply (string_members [("source_name", name); ("receptor_node", cid)])|]];
    try done.
  all: first [apply (bool_decide_unpack _); exact I|by repeat constructor].
Qed.

Lemma create_run cfg identity cid ref name ty app (e : SEnv) :
  utf8_valid cid = true → utf8_valid ref = true → utf8_valid name = true →
  utf8_valid ty = true → utf8_valid app = true →
  ∃ o sent e', createSourcesEntry (W := SEnv) cfg identity cid ref name ty app e = (Ret o, e') ∧
    exchanges e' = exchanges e ++ option_list sent ∧
    match sent with
    | Some x => is_create cfg identity cid ref name ty app x.1 ∧ (o = None ↔ accepted x.2 = true)
    | None => o ≠ None ∧ s_tick e' = S (s_tick e) ∧ unsendable (create_url cfg) e (s_tick e)
    end.
Proof.
  intros Hcid Href Hname Hty Happ. unfold createSourcesEntry.
  destruct (s_uuid e (s_tick e)) as [id|err] eqn:Hid.
  2:{ rewrite (bind_ret _ _ e (inr err) (s_add [] e)) by (cbn; by rewrite Hid).
      eexists _, None, _. split_and!; try done. left. eauto. }
  rewrite (bind_ret _ _ e (inl id) (s_add [] e)) by (cbn; by rewrite Hid). cbv zeta.
  set (d := doc_sourcesBulkOperation _). set (url := SourcesBaseUrl cfg +:+ _).
  destruct (senv_get (s_add [] e) cfg identity id url "POST" (Some (render d)))
    as (a&sent&e'&Hrun&Hex&_&_&Hs).
  rewrite (bind_ret _ _ _ _ _ Hrun). cbn [s_add exchanges] in Hex. rewrite app_nil_r in Hex.
  assert (Hl : ∀ x, sent = Some x → is_create cfg identity cid ref name ty app x.1 ∧ x.2 = a).
  { intros x ->. subst x. split; [|done]. by apply create_request. }
  destruct a as [r|err].
  - destruct sent as [x|]; [|by destruct Hs as (_&?&?&_)]. destruct (Hl x eq_refl) as [Hx Ha].
    assert (Hcase : ∃ o, (o = None ↔ accepted x.2 = true) ∧
      (if bool_decide (reply_StatusCode r = 400%Z) then mret None
       else if bool_decide (reply_StatusCode r ≠ 201%Z) then mret (Some create_failed)
       else mret None : M SEnv (option error)) e' = (Ret o, e')).
    { unfold accepted. rewrite Ha. repeat case_bool_decide; eexists; (split; [|done]); naive_solver. }
    destruct Hcase as (o&Ho&Hr). exists o, (Some x), e'. done.
  - exists (Some err), sent, e'. split; [done|]. split; [exact Hex|].
    destruct sent as [x|]; [|destruct Hs as (->&err'&_&?); split_and!; [done|done|right; eauto]].
    destruct (Hl x eq_refl) as [Hx Ha]. split; [done|]. by rewrite Ha.
Qed.

(** C29: Registering with Sources asks once, for exactly the given reference
    (whatever characters it contains), and then posts exactly the given source,
    application and endpoint, once, precisely when the answer did not report an
    entry, even when the lookup failed or was not answered.  Nothing is sent in
    place of either request only when no request id could be drawn for it or the
    HTTP library refused its URL.  Success is reported precisely when the lookup
    found an entry or the creation was answered with 201 or 400. *)
Theorem sources_registration cfg identity account org cid ref name ty app (e : SEnv) :
  utf8_valid cid = true → utf8_valid ref = true → utf8_valid name = true →
  utf8_valid ty = true → utf8_valid app = true →
  ∃ o asked posted e',
    Impl_RegisterWithSources (W := SEnv) cfg identity account org cid ref name ty app e = (Ret o, e') ∧
    exchanges e' = exchanges e ++ option_list asked ++ option_list posted ∧
    (∀ x, asked = Some x → is_lookup cfg identity ref x.1) ∧
    (asked = None → unsendable (lookup_url cfg ref) e (s_tick e)) ∧
    (∀ x, posted = Some x → is_create cfg identity cid ref name ty app x.1) ∧
    let found := match asked with Some x => reports_entry x.2 | None => false end in
    (found = true → posted = None) ∧
    (found = false → posted = None →
     ∃ n, s_tick e < n ∧ s_tick e' = S n ∧ unsendable (create_url cfg) e n) ∧
    (o = None ↔ found = true ∨ ∃ x, posted = Some x ∧ accepted x.2 = true).
Proof.
  intros Hcid Href Hname Hty Happ. unfold Impl_RegisterWithSources.
  destruct (lookup_run cfg identity ref e) as (b&err&asked&e1&Hrun&Hex&Hu&Ht&Hs).
  rewrite (bind_ret _ _ _ _ _ Hrun).
  assert (Hb : b = match asked with Some x => reports_entry x.2 | None => false end)
    by (destruct asked; naive_solver).
  assert (Hasked : (∀ x, asked = Some x → is_lookup cfg identity ref x.1) ∧
    (asked = None → unsendable (lookup_url cfg ref) e (s_tick e))) by (destruct asked; naive_solver).
  destruct Hasked. destruct b.
  - exists None, asked, None, e1. rewrite app_nil_r, <-Hb. split_and!; try done. tauto.
  - destruct (create_run cfg identity cid ref name ty app e1) as (o&posted&e2&Hrun2&Hex2&Hs2);
      [done..|].
    exists o, asked, posted, e2. rewrite Hrun2, Hex2, Hex, <-app_assoc, <-Hb. split_and!; try done.
    + destruct posted; naive_solver.
    + intros _ ->. destruct Hs2 as (_&Ht2&Hun). exists (s_tick e1). split_and!; [done|done|].
      unfold unsendable in *. by rewrite Hu in Hun.
    + destruct posted as [x|]; naive_solver.
Qed.
End registration.

#[local] Instance any_url : UrlCheck := {| url_error _ := None |}.

Lemma sources_registration_witness :
  let e := {| exchanges := []; s_tick := 0;
    s_reply n := inl (if decide (n = 1)
      then {| reply_StatusCode := 200; reply_Body := "{}"; reply_ReadFailed := false |}
      else {| reply_StatusCode := 201; reply_Body := EmptyString; reply_ReadFailed := false |});
    s_uuid _ := inl "6ba7b810-9dad-11d1-80b4-00c04fd430c8" |} in
  ∃ asked posted e',
    Impl_RegisterWithSources (W := SEnv) default_config "aWQ=" "540155" "111000" "client-a"
      "a&b" "n" "t" "catalog" e = (Ret None, e') ∧
    exchanges e' = option_list asked ++ option_list posted ∧ length (exchanges e') = 2 ∧
    (∀ x, asked = Some x → is_lookup default_config "aWQ=" "a&b" x.1).
Proof.
  intros e. destruct (sources_registration default_config "aWQ=" "540155" "111000" "client-a"
    "a&b" "n" "t" "catalog" e) as (o&asked&posted&e'&Hrun&Hex&Hl&_&_&_&_&_);
    [reflexivity|reflexivity|reflexivity|reflexivity|reflexivity|].
  assert (He : Impl_RegisterWithSources (W := SEnv) default_config "aWQ=" "540155" "111000"
    "client-a" "a&b" "n" "t" "catalog" e = (Ret None, e') ∧ length (exchanges e') = 2).
  { pose proof (f_equal fst Hrun) as H1. pose proof (f_equal snd Hrun) as H2. cbn [snd fst] in H1, H2.
    rewrite <-H2. split; [|vm_compute; reflexivity]. rewrite H2, Hrun. f_equal.
    rewrite <-H1. vm_compute. reflexivity. }
  exists asked, posted, e'. split_and!; [apply He|exact Hex|apply He|exact Hl].
Defined.
