(* ===== verification/System.v ===== *)
(** * The consumer process, composed

    The control message handler over the program's own components: the SQL
    registrar ([Repository]), the file based account resolver
    ([AccountResolver]), the inventory recorder ([Inventory]) and the Sources
    client ([Sources]), each on its own part of one [World].  This is the
    composition [startKafkaMessageConsumer] builds; the interfaces' contracts
    ([RegistrarContract], [ServicesFrame], [RegistrarAvailable]) are discharged
    here, so the handler's theorems hold of it. *)

From S2P Require Import Prelude GoStrings GoNumTime Json JsonFacts Domain Config Topic Protocol Repository Locators ControlHandler Identity AccountResolver Inventory MqttIngress KafkaConsumer Sources.
From stdpp Require Import options.

Record World := {
  w_db : Db;
  w_kafka : KEnv;
  w_sources : SEnv;
  w_counted : list string;
}.

#[export] Program Instance world_db : Lens World Db := {
  lget := w_db;
  lset db w := {| w_db := db; w_kafka := w_kafka w; w_sources := w_sources w; w_counted := w_counted w |};
}.
Next Obligation. done. Qed.
Next Obligation. by intros []. Qed.
Next Obligation. done. Qed.

#[export] Program Instance world_kafka : Lens World KEnv := {
  lget := w_kafka;
  lset k w := {| w_db := w_db w; w_kafka := k; w_sources := w_sources w; w_counted := w_counted w |};
}.
Next Obligation. done. Qed.
Next Obligation. by intros []. Qed.
Next Obligation. done. Qed.

#[export] Program Instance world_sources : Lens World SEnv := {
  lget := w_sources;
  lset s w := {| w_db := w_db w; w_kafka := w_kafka w; w_sources := s; w_counted := w_counted w |};
}.
Next Obligation. done. Qed.
Next Obligation. by intros []. Qed.
Next Obligation. done. Qed.

#[export] Instance world_metrics : Metrics World := {
  Inc c w := (Ret tt, {| w_db := w_db w; w_kafka := w_kafka w; w_sources := w_sources w;
                         w_counted := w_counted w ++ [c] |}) }.

(** What the process is configured with. *)
Class Deployment := {
  dep_config : Config;
  dep_accounts : ConfigurableAccountIdResolver;
  dep_recorder : InventoryBasedConnectedClientRecorder;
}.

Section composition.
Context `{!Deployment, !UrlCheck}.

#[export] Instance world_resolver : AccountIdResolver World := {
  MapClientIdToAccountId cid := mret (configurable_MapClientIdToAccountId dep_accounts cid) }.
#[export] Instance world_recorder : ConnectedClientRecorder World := {
  RecordConnectedClient identity c := zoom (inventory_RecordConnectedClient (W := KEnv) dep_recorder identity c) }.
#[export] Instance world_sources_recorder : SourcesRecorder World := {
  RegisterWithSources := Impl_RegisterWithSources dep_config }.
End composition.

(** ** The contracts *)

Section contracts.
Context `{!Postgres, !PostgresLaws, !Deployment, !UrlCheck}.
#[local] Set Default Proof Using "Type*".

Lemma preserves_sources_call identity id method url body timeout :
  preserves w_db (makeHttpRequest (W := World) identity id method url body timeout).
Proof. unfold makeHttpRequest. destruct (http_NewRequest (W := World) url); intros w; done. Qed.

Lemma preserves_sources i a o c r n t ty :
  preserves w_db (Impl_RegisterWithSources (W := World) dep_config i a o c r n t ty).
Proof.
  unfold Impl_RegisterWithSources, checkForExistingSourcesEntry, createSourcesEntry.
  apply preserves_bind.
  { apply preserves_bind; [done|]. intros [id|err]; [|done].
    apply preserves_bind; [apply preserves_sources_call|]. intros [resp|err]; [|done].
    by destruct (decode_reply _ _ resp). }
  intros [[] err]; [done|]. apply preserves_bind; [done|]. intros [id|e]; [|done].
  apply preserves_bind; [apply preserves_sources_call|]. intros [resp|e]; [|done].
  repeat case_bool_decide; done.
Qed.

Lemma preserves_record i c : preserves w_db (RecordConnectedClient (W := World) i c).
Proof. intros w. cbn. unfold zoom. by destruct (inventory_RecordConnectedClient _ _ _ _). Qed.

Lemma frames_preserves {A} (m : M World A) : preserves w_db m → frames m.
Proof.
  intros Hm w Hw. unfold wp. cbn in *. specialize (Hm w).
  change (lget (m w).2) with (w_db (m w).2). by rewrite Hm.
Qed.

#[export] Instance world_frame : ServicesFrame World.
Proof.
  split; intros; try done; apply frames_preserves; [done..|apply preserves_record|apply preserves_sources].
Qed.

(** The recorder does not panic on states whose parts have the expected shapes. *)
Lemma record_returns i c facts dispatchers (w : World) :
  as_object (ccCanonicalFacts c) facts → as_object (ccDispatchers c) dispatchers →
  tags_ok (ccTags c) = true → returns (RecordConnectedClient i c w).1.
Proof.
  intros Hf Hd Ht. cbn. unfold zoom. cbn [lget world_kafka].
  assert (Hr : returns (inventory_RecordConnectedClient (W := KEnv) dep_recorder i c (w_kafka w)).1).
  2:{ by destruct (inventory_RecordConnectedClient _ _ _ _) as [o k]. }
  unfold inventory_RecordConnectedClient.
  rewrite (bind_ret _ _ _ _ _ (should_register c facts dispatchers i (w_kafka w) Hf Hd)).
  destruct (reported c facts dispatchers i) eqn:Hrep; [|done]. cbn [negb].
  assert (ccCanonicalFacts c = VObject facts) as Hfacts.
  { destruct Hf as [|[_ ->]]; [done|]. apply reported_qualifies in Hrep. by destruct Hrep as (_&?&_). }
  rewrite (bind_ret _ _ (w_kafka w) (k_now (w_kafka w) (k_tick (w_kafka w))) (k_step (w_kafka w))) by done.
  rewrite Hfacts. unfold assert_map. cbn [as_map]. rewrite bind_ret_l.
  destruct (AuthenticatedWithCertificate i) as [cert [e|]]; [done|].
  rewrite (bind_ret _ _ _ _ _ (convert_tags_ok _ _ Ht)).
  set (k1 := k_step (w_kafka w)).
  rewrite (bind_ret _ _ k1 (k_uuid k1 (k_tick k1)) (k_step k1)) by done.
  destruct (envelope_doc _ _ _) as [d|]; [|done].
  by destruct (run_producer (ccOrgID c) (render d) (k_step k1)) as (e'&->&_).
Qed.

Lemma http_returns identity id method url body timeout (w : World) :
  returns (makeHttpRequest (W := World) identity id method url body timeout w).1.
Proof. unfold makeHttpRequest. by destruct (http_NewRequest (W := World) url). Qed.

Lemma returns_bind {W A B} (m : M W A) (k : A → M W B) w :
  returns (m w).1 → (∀ a w', returns (k a w').1) → returns ((m ≫= k) w).1.
Proof. unfold mbind, M_bind. by destruct (m w) as [[a|?|?] w']; auto. Qed.

Lemma sources_returns i a o c r n t ty (w : World) :
  returns (RegisterWithSources i a o c r n t ty w).1.
Proof.
  cbn. unfold Impl_RegisterWithSources, checkForExistingSourcesEntry, createSourcesEntry.
  apply returns_bind.
  { apply returns_bind; [done|]. intros [id|e] w1; [|done].
    apply returns_bind; [apply http_returns|]. intros [resp|e] w2; [|done].
    by destruct (decode_reply _ _ resp). }
  intros [[] e] w1; [done|]. apply returns_bind; [done|]. intros [id|e'] w2; [|done].
  apply returns_bind; [apply http_returns|]. intros [resp|e'] w3; [|done].
  repeat case_bool_decide; done.
Qed.

(** The shape that the documentation gives the content of a status message. *)
Definition documented_shape `{!UUIDParse} (content : gmap string value) : bool :=
  shapes_ok content && tags_ok (map_get content tagsKey).

Lemma announcement_recorded `{!UUIDParse} cid msg content i account org (w : World) :
  documented_shape content = true →
  returns (RecordConnectedClient i (online_state cid msg account org content (VObject (facts_of content))) w).1.
Proof.
  unfold documented_shape, shapes_ok. rewrite !andb_true_iff. intros [[_ Hd] Ht].
  apply (record_returns _ _ (facts_of content)
    (match map_get content dispatchersKey with VObject d => d | _ => ∅ end)); [by left| |exact Ht].
  cbn [ccDispatchers online_state]. unfold as_object, map_get, dispatchers_ok in *.
  destruct (content !! dispatchersKey) as [[| | | | |d]|]; try done; cbn; by auto.
Qed.

(** The columns take the state as it is. *)
Definition columns_take (c : ConnectorClientState) : bool :=
  let json v := match Marshal v with
                | Some s => bool_decide (is_Some (jsonb_in s)) | None => false end in
  let text n s := bool_decide (is_Some (varchar_in n s)) in
  fits c && json (ccDispatchers c) && json (ccCanonicalFacts c) && json (ccTags c)
  && text 100 (ccClientID c) && text 40 (LatestMessageID (ccMessageMetadata c))
  && text 20 (ccOrgID c) && text 10 (ccAccount c).

Lemma upsert_succeeds a now rows :
  is_Some (jsonb_in (ua_dispatchers a)) → is_Some (jsonb_in (ua_canonical_facts a)) →
  is_Some (jsonb_in (ua_tags a)) → is_Some (varchar_in 100 (ua_client_id a)) →
  is_Some (varchar_in 40 (ua_message_id a)) → is_Some (varchar_in 20 (ua_org_id a)) →
  is_Some (varchar_in 10 (ua_account a)) →
  ∃ rows', upsert_statement a now rows = inl rows'.
Proof.
  intros [? E1] [? E2] [? E3] [? E4] [? E5] [? E6] [? E7].
  unfold upsert_statement, coerce_columns, jsonb, varchar. rewrite E1, E2, E3, E4, E5, E6, E7.
  destruct (existsb _ rows); by eexists.
Qed.

Definition answers (db : Db) : Prop := ∀ n, db_fault db n = None.

Lemma register_answers c db :
  answers db → columns_take c = true →
  wp (sql_Register c) db (λ o db', answers db' ∧ o = Ret None).
Proof.
  intros Hup. unfold columns_take. rewrite !andb_true_iff.
  intros (((((((_&Hd)&Hf)&Ht)&Hc)&Hm)&Ho)&Ha). unfold sql_Register. apply wp_bind.
  apply (wp_mono _ _ (λ o db', db' = db ∧ ∃ ts, o = Ret ts)).
  { destruct (isTenantlessConnection c); split; eauto. }
  intros o db' [-> [ts ->]]. apply wp_bind. unfold wp at 1, db_Prepare. cbn [fst snd].
  rewrite Hup.
  destruct (Marshal (ccDispatchers c)) as [d|] eqn:Ed; [|done].
  destruct (Marshal (ccCanonicalFacts c)) as [f|] eqn:Ef; [|done].
  destruct (Marshal (ccTags c)) as [t|] eqn:Et; [|done].
  rewrite bool_decide_eq_true in Hd, Hf, Ht, Hc, Hm, Ho, Ha.
  apply wp_bind. unfold wp at 1, db_Exec. cbn [db_fault tick_db db_tick]. rewrite Hup.
  match goal with
  | |- context [upsert_statement ?a ?n ?r] => destruct (upsert_succeeds a n r) as [rows' ->]
  end; done.
Qed.

Lemma unregister_answers cid db :
  answers db → wp (sql_Unregister cid) db (λ o db', answers db' ∧ o = Ret None).
Proof.
  intros Hup. unfold sql_Unregister. apply wp_bind. unfold wp at 1, db_Prepare. cbn [fst snd].
  rewrite Hup. apply wp_bind. unfold wp at 1, db_Exec. cbn [db_fault tick_db db_tick]. by rewrite Hup.
Qed.

Lemma find_answers cid db :
  answers db → wp (sql_FindConnectionByClientID cid) db (λ o db', answers db' ∧
    ∀ s e, o = Ret (s, Some e) → e = NotFoundError).
Proof.
  intros Hup. unfold sql_FindConnectionByClientID. apply wp_bind.
  unfold wp at 1, db_Prepare. cbn [fst snd]. rewrite Hup. apply wp_bind.
  unfold wp at 1, db_QueryRow. cbn [db_fault tick_db db_tick]. rewrite Hup.
  destruct (filter _ _) as [|r l]; cbn; split; try done; by intros s e [= <- <-].
Qed.

#[export, program] Instance world_available : RegistrarAvailable World := {
  up w := answers (w_db w);
  storable c := columns_take c = true;
}.
Next Obligation. intros cid w _ Hup. apply wp_zoom, find_answers, Hup. Qed.
Next Obligation. intros c w _ Hup Hc. apply wp_zoom. by apply register_answers. Qed.
Next Obligation. intros cid w _ Hup. apply wp_zoom, unregister_answers, Hup. Qed.
Next Obligation. done. Qed.
Next Obligation. done. Qed.
Next Obligation.
  intros i c w Hup. refine (eq_ind_r answers Hup _). apply (preserves_record i c w).
Qed.
Next Obligation.
  intros i a o c r n t ty w Hup. refine (eq_ind_r answers Hup _). apply (preserves_sources i a o c r n t ty w).
Qed.
Next Obligation. intros c. unfold columns_take. by rewrite !andb_true_iff; intros (((((((?&_)&_)&_)&_)&_)&_)&_). Qed.
End contracts.

(** C38: A message of the documented shape never makes the consumer panic or exit:
    over the program's own services - the SQL registrar, the file based resolver,
    the inventory recorder and the Sources client - and whatever the database,
    Kafka and Sources answer, the handler returns, for a content whose client_name
    and client_version are strings or absent, whose canonical facts are an object
    (with a string for insights_id) or absent, whose dispatchers are an object
    (with an object of strings for catalog) or absent, and whose tags are not an
    object or one of strings. *)
Theorem wellformed_online_returns `{!Postgres, !PostgresLaws, !Deployment, !UrlCheck, !UUIDParse}
    cid payload msg content (w : World) :
  registrar_inv w → unmarshal_ControlMessage payload = Some msg → Content msg = VObject content →
  documented_shape content = true →
  ∃ err w', HandleControlMessage cid payload w = (Ret err, w').
Proof.
  intros Hw Hm Hc Hshape.
  assert (Hr : returns (HandleControlMessage cid payload w).1).
  { apply (handler_returns cid payload msg content); try done.
    - unfold documented_shape in Hshape. by apply andb_true_iff in Hshape as [? _].
    - intros. by apply announcement_recorded.
    - exact sources_returns. }
  destruct (HandleControlMessage cid payload w) as [[err|?|?] w']; [by exists err, w'|done|done].
Qed.

(** ** A concrete deployment *)

#[export] Instance test_deployment : Deployment := {|
  dep_config := default_config; dep_accounts := test_resolver;
  dep_recorder := {| StaleTimestampOffset := 93600000000000; ReporterName := "cloud-connector" |} |}.
#[export] Instance test_url_check : UrlCheck := {| url_error _ := None |}.
#[export] Instance test_uuid_parse : UUIDParse := {| uuid_Parse_ok s := String.length s =? 36 |}.

Definition test_world (rows : list Row) : World := {|
  w_db := test_db rows; w_kafka := test_kenv;
  w_sources := {| exchanges := []; s_tick := 0;
    s_reply _ := inl {| reply_StatusCode := 201; reply_Body := "{}"; reply_ReadFailed := false |};
    s_uuid _ := inl "6ba7b810-9dad-11d1-80b4-00c04fd430c8" |};
  w_counted := [] |}.

Definition status_doc (id sent : string) (content : jdoc) : jdoc :=
  JObj [("type", text "connection-status"); ("message_id", text id); ("version", jint 1);
        ("sent", text sent); ("content", content)].

Definition online_content : jdoc :=
  JObj [("state", text "online"); ("client_name", text "rhc"); ("client_version", text "1.0");
        ("canonical_facts", JObj [("insights_id", text "not-a-uuid"); ("fqdn", text "host.example")]);
        ("dispatchers", JObj [("rhc-worker-playbook", JObj []); ("catalog", JObj [
           ("ApplicationType", text "a"); ("SrcType", text "t"); ("SourceRef", text "r");
           ("SrcName", text "n")])])].

Definition online_payload : string := render (status_doc "m1" "2024-01-01T00:00:00Z" online_content).
Definition offline_payload : string :=
  render (status_doc "m2" "2024-01-01T00:00:01Z" (JObj [("state", text "offline")])).
(** The canonical facts are a list. *)
Definition bad_facts_payload : string := render (status_doc "m4" "2024-01-01T00:00:03Z"
  (JObj [("state", text "online"); ("canonical_facts", JArr [])])).
(** The content is a list. *)
Definition malformed_payload : string := render (status_doc "m3" "2024-01-01T00:00:02Z" (JArr [])).

Definition test_msg : ControlMessage value :=
  default zero_control_message (unmarshal_ControlMessage online_payload).

Lemma test_world_inv rows :
  NoDup (r_client_id <$> rows) → Forall (λ r, r_message_sent r = 0%Z) rows →
  registrar_inv (test_world rows).
Proof.
  intros Hn Ht. split; [by apply test_db_ok|]. unfold times_ok. eapply Forall_impl; [exact Ht|].
  by intros r ->.
Qed.

Lemma test_admissible msg :
  unmarshal_ControlMessage online_payload = Some msg → admissible_online (W := World) "client-a" msg.
Proof.
  intros Hm. assert (msg = test_msg) as -> by (unfold test_msg; by rewrite Hm).
  intros w i a o err w' E payload facts. injection E as <- <- <- <- <-.
  vm_compute. reflexivity.
Qed.

Lemma HandleControlMessage_effect_witness :
  let w := test_world [test_row "111000" "client-a"; test_row "111000" "client-b"] in
  registrar_inv w ∧
  wp (HandleControlMessage "client-a" online_payload) w (λ o w', registrar_inv w' ∧
    registry w' !! "client-b" = registry w !! "client-b" ∧ only_fatal o ∧
    payload_effect (W := World) "client-a" online_payload (registry w !! "client-a") (registry w' !! "client-a")).
Proof.
  intros w. assert (Hw : registrar_inv w).
  { apply test_world_inv; [apply (bool_decide_unpack _); exact I|by repeat constructor]. }
  split; [exact Hw|].
  destruct (HandleControlMessage_effect "client-a" online_payload w Hw test_admissible)
    as (H1&H2&H3&H4).
  split_and!; [exact H1|by apply H2|exact H3|exact H4].
Defined.

Definition test_w : World := test_world [test_row "111000" "client-a"; test_row "111000" "client-b"].
(** The world after the online message, and after the message that follows. *)
Definition test_w1 : World := (HandleControlMessage "client-a" online_payload test_w).2.
Definition test_w2 : World := (HandleControlMessage "client-a" online_payload test_w1).2.

Lemma test_w_inv : registrar_inv test_w.
Proof. apply test_world_inv; [apply (bool_decide_unpack _); exact I|by repeat constructor]. Qed.

Definition entry_is_some (w : World) (cid : ClientID) : bool := bool_decide (is_Some (registry w !! cid)).

Lemma entry_some w cid : entry_is_some w cid = true → ∃ s, registry w !! cid = Some s.
Proof. unfold entry_is_some. rewrite bool_decide_eq_true. by intros [s Hs]; exists s. Qed.

(** What the registry says of a client's last message. *)
Definition entry_message (w : World) (cid : ClientID) : option (string * time) :=
  (λ s, (LatestMessageID (ccMessageMetadata s), LatestTimestamp (ccMessageMetadata s)))
    <$> registry w !! cid.

Lemma HandleControlMessage_monotone_witness :
  ∃ s s', registry test_w !! "client-a" = Some s ∧ registry test_w1 !! "client-a" = Some s' ∧
    (LatestTimestamp (ccMessageMetadata s) ≤ LatestTimestamp (ccMessageMetadata s'))%Z ∧
    entry_message test_w1 "client-a" = Some ("m1", 1704067200000000000%Z).
Proof.
  destruct (entry_some test_w "client-a") as [s Hs]; [vm_compute; reflexivity|].
  destruct (entry_some test_w1 "client-a") as [s' Hs']; [vm_compute; reflexivity|].
  exists s, s'. split; [exact Hs|]. split; [exact Hs'|]. split; [|vm_compute; reflexivity].
  exact (HandleControlMessage_monotone "client-a" online_payload test_w s _ _ s' test_w_inv
    test_admissible (surjective_pairing _) Hs Hs').
Defined.

Lemma HandleControlMessage_effect_inv (w : World) :
  registrar_inv w → registrar_inv (HandleControlMessage "client-a" online_payload w).2.
Proof.
  intros Hw. refine (deliveries_inv "client-a" online_payload w _ test_admissible Hw _).
  exact (delivered_again _ _ w w w _ _ (delivered_never _ _ _) Hw eq_refl (surjective_pairing _)).
Qed.

Lemma redelivery_harmless_witness :
  entry_message test_w1 "client-a" ≠ entry_message test_w "client-a" ∧
  registry test_w2 = registry test_w1.
Proof.
  assert (Hne : entry_message test_w1 "client-a" ≠ entry_message test_w "client-a").
  { vm_compute. discriminate. }
  split; [exact Hne|].
  refine (proj2 (proj2 (redelivery_harmless "client-a" online_payload test_w test_w1 test_w2 test_w_inv
    test_admissible _ _)) _).
  - exact (delivered_again _ _ test_w test_w test_w _ test_w1 (delivered_never _ _ _) test_w_inv eq_refl
      (surjective_pairing _)).
  - refine (delivered_again _ _ test_w1 test_w1 test_w1 _ test_w2 (delivered_never _ _ _) _ eq_refl
      (surjective_pairing _)).
    apply (HandleControlMessage_effect_inv test_w test_w_inv).
  - intros Heq. apply Hne. unfold entry_message. by rewrite Heq.
Defined.

Lemma malformed_status_panics_witness :
  (∃ why, HandleControlMessage "client-a" malformed_payload test_w
          = (Panic why, (Inc controlMessageReceivedCounter test_w).2)) ∧
  ∃ why w', HandleControlMessage "client-a" bad_facts_payload test_w = (Panic why, w') ∧
    registry w' = registry test_w.
Proof.
  split.
  - refine (proj1 (malformed_status_panics "client-a" malformed_payload
      (default zero_control_message (unmarshal_ControlMessage malformed_payload)) test_w _ _) _).
    + vm_compute. reflexivity.
    + vm_compute. reflexivity.
    + left. vm_compute. reflexivity.
  - refine (proj2 (malformed_status_panics "client-a" bad_facts_payload
      (default zero_control_message (unmarshal_ControlMessage bad_facts_payload)) test_w _ _)
      (default ∅ (as_map (Content (default zero_control_message (unmarshal_ControlMessage bad_facts_payload)))))
      _ _ _ test_w_inv _ _ _).
    + vm_compute. reflexivity.
    + vm_compute. reflexivity.
    + vm_compute. reflexivity.
    + vm_compute. reflexivity.
    + exact I.
    + intros n. reflexivity.
    + vm_compute. reflexivity.
    + intros w. exact I.
Defined.

Definition test_content : gmap string value :=
  default ∅ (as_map (Content test_msg)).

Lemma test_msg_eq : unmarshal_ControlMessage online_payload = Some test_msg.
Proof. vm_compute. reflexivity. Qed.

Lemma test_content_eq : Content test_msg = VObject test_content.
Proof. vm_compute. reflexivity. Qed.

Lemma test_shapes : shapes_ok test_content = true.
Proof. vm_compute. reflexivity. Qed.

Lemma test_resolves (w : World) :
  (MapClientIdToAccountId "client-a" w).1
  = Ret (createIdentityHeader "010101" "000001", "010101", "000001", None).
Proof. vm_compute. reflexivity. Qed.

Lemma test_documented : documented_shape test_content = true.
Proof. vm_compute. reflexivity. Qed.

Lemma test_records i account org (w : World) :
  returns (RecordConnectedClient i
    (online_state "client-a" test_msg account org test_content (VObject (facts_of test_content))) w).1.
Proof. apply announcement_recorded, test_documented. Qed.

Lemma wellformed_online_returns_witness :
  ∃ err w', HandleControlMessage "client-a" online_payload test_w = (Ret err, w').
Proof.
  exact (wellformed_online_returns "client-a" online_payload test_msg test_content test_w test_w_inv
    test_msg_eq test_content_eq test_documented).
Defined.

Lemma connection_status_takes_effect_witness :
  ∃ w', HandleControlMessage "client-a" online_payload test_w = (Ret None, w') ∧
    is_Some (registry w' !! "client-a").
Proof.
  destruct (connection_status_takes_effect "client-a" online_payload test_msg test_content "online"
    test_w (createIdentityHeader "010101" "000001") "010101" "000001" None test_w_inv)
    as (w'&Hrun&Hr).
  - intros n. reflexivity.
  - exact test_msg_eq.
  - vm_compute. reflexivity.
  - exact test_content_eq.
  - vm_compute. reflexivity.
  - exact test_shapes.
  - exact test_resolves.
  - vm_compute. reflexivity.
  - apply test_records.
  - apply sources_returns.
  - exists w'. split; [exact Hrun|]. rewrite Hr.
    rewrite bool_decide_eq_true_2 by reflexivity.
    replace (fresh (registry test_w !! "client-a") test_msg) with true by (vm_compute; reflexivity).
    rewrite lookup_insert_eq. by eexists.
Defined.

Lemma control_message_pipeline_witness :
  let m := {| mqtt_MessageID := 7; mqtt_Topic := "redhat/insights/client-a/control/out";
              mqtt_Payload := online_payload; mqtt_Duplicate := false |} in
  (∃ e' now, written e' = [ingress_message "client-a" m now] ∧
     ControlMessageHandler (W := KEnv) (NewTopicVerifier EmptyString) m test_kenv = (Ret tt, e')) ∧
  handleMessage (NewTopicVerifier EmptyString) (ingress_message "client-a" m 0) test_w
  = HandleControlMessage "client-a" online_payload test_w.
Proof.
  intros m. destruct (control_message_pipeline (W := World) (NewTopicVerifier EmptyString) m
    ControlTopicType "client-a") as [H1 H2].
  - vm_compute. reflexivity.
  - vm_compute. discriminate.
  - split; [|exact (H2 test_w 0%Z)].
    destruct (H1 test_kenv) as (e'&now&Hw&Hrun). exists e', now. split; [exact Hw|exact Hrun].
Defined.
