(* ===== verification/EndToEnd.v ===== *)
(** * From a client's message to the API's answer

    The consumer process of [System] and the API server of [ApiSystem] share the
    database.  A client that comes up publishes the status message of
    [TestClients]; once the consumer has handled it the v2 interface reports the
    client as connected, and after its last will as disconnected. *)

From S2P Require Import Prelude GoStrings GoNumTime TimeFacts Json JsonFacts GoUrl Domain Config Topic Protocol MqttProxy Services Repository Locators ControlHandler Identity TestClients AccountResolver Inventory MqttIngress KafkaConsumer Pagination HttpApi Middlewares Api ApiSystem Sources System.
From stdpp Require Import options.

(** ** What a client makes of the server's status documents *)

(** Members the status decoder does not look at. *)
Definition skipped (key : string) (kv : string * jdoc) : Prop :=
  find_field [(key, set_string (λ x (_ : string), x))] (unquote kv.1) = None.

Lemma decode_skips key kvs s :
  Forall (skipped key) kvs →
  foldl (λ acc kv, default acc (set_key [(key, set_string (λ x _, x))] (Some acc) kv)) s kvs = s.
Proof.
  unfold skipped. induction 1 as [|kv kvs Hkv _ IH]; [done|].
  cbn [foldl]. unfold set_key at 2. cbn [mbind option_bind]. by rewrite Hkv.
Qed.

Lemma members_optional k v n :
  raw_ok k = true → unquote k = k → value_ok v = true → value_depth v ≤ n →
  ∃ kvs l, doc_members (omit_empty_value k v) = Some kvs ∧ members_read kvs l n ∧ Forall (λ kv, kv.1 = k) kvs.
Proof.
  intros Hk Hu Hv Hn. destruct (value_reads _ Hv) as (d&Hd&Hr).
  destruct (decide (v = VNull)) as [->|Hne].
  - exists [], []. split; [done|]. split; [apply members_nil|done].
  - exists [(k, d)], [(k, v)]. split_and!.
    + destruct v; try done; unfold doc_members, omit_empty_value; cbn [fmap list_fmap fst snd opt_all];
        by rewrite Hd.
    + apply members_one; [done..|]. by eapply reads_weaken.
    + by repeat constructor.
Qed.

Lemma doc_members_app l l' kvs kvs' :
  doc_members l = Some kvs → doc_members l' = Some kvs' → doc_members (l ++ l') = Some (kvs ++ kvs').
Proof.
  unfold doc_members. revert kvs. induction l as [|[k v] l IH]; intros kvs; cbn [fmap list_fmap app opt_all].
  - by intros [= <-].
  - cbn [fst snd]. destruct (doc_of true v) as [d|]; cbn [mbind option_bind]; [|done].
    change (list_fmap _ _ ?f l) with (f <$> l). change (list_fmap _ _ ?f (l ++ l')) with (f <$> (l ++ l')).
    destruct (opt_all _) as [ds|] eqn:E; [|done]. cbn. intros [= <-] Hl'. by rewrite (IH ds eq_refl Hl').
Qed.

(** The three JSON values of a status document can be written. *)
Definition presentable (s : ConnectorClientState) : bool :=
  forallb (λ v, json_ok v && (Z.of_nat (value_depth v) <? 9999)%Z) [ccCanonicalFacts s; ccDispatchers s; ccTags s]
  && utf8_valid (ccAccount s) && utf8_valid (ccOrgID s) && utf8_valid (ccClientID s).

Lemma optional_string k s n :
  raw_ok k = true → unquote k = k → utf8_valid s = true →
  ∃ l, members_read (omit_empty_string k s) l n ∧ Forall (λ kv, kv.1 = k) (omit_empty_string k s).
Proof.
  intros Hk Hu Hs. exists (omit_string k s). split; [by apply omit_string_reads|].
  unfold omit_empty_string. case_bool_decide; by repeat constructor.
Qed.

(** The keys of a status document, apart from the status. *)
Definition connection_keys : list string :=
  ["account"; "org_id"; "client_id"; "canonical_facts"; "dispatchers"; "tags"].

Lemma status_members s :
  presentable s = true →
  ∃ kvs l, members_connectionResponseV2 (convertConnectorClientStateToConnectionResponseV2 s) = Some kvs ∧
    (∃ n, members_read kvs l n ∧ (Z.of_nat n < 9999)%Z) ∧ Forall (λ kv, kv.1 ∈ connection_keys) kvs.
Proof.
  unfold presentable, json_ok. cbn [forallb]. rewrite !andb_true_iff, !Z.ltb_lt.
  intros [[[[[[Hf _] Df] [[[Hd _] Dd] [[[Ht _] Dt] _]]] Ha] Ho] Hc].
  set (n := value_depth (ccCanonicalFacts s) `max` (value_depth (ccDispatchers s) `max` value_depth (ccTags s))).
  destruct (members_optional "canonical_facts" (ccCanonicalFacts s) n) as (k1&l1&E1&M1&K1); [done|done|done|lia|].
  destruct (members_optional "dispatchers" (ccDispatchers s) n) as (k2&l2&E2&M2&K2); [done|done|done|lia|].
  destruct (members_optional "tags" (ccTags s) n) as (k3&l3&E3&M3&K3); [done|done|done|lia|].
  destruct (optional_string "account" (ccAccount s) n) as (l4&M4&K4); [done..|].
  destruct (optional_string "org_id" (ccOrgID s) n) as (l5&M5&K5); [done..|].
  destruct (optional_string "client_id" (ccClientID s) n) as (l6&M6&K6); [done..|].
  unfold members_connectionResponseV2. cbn [convertConnectorClientStateToConnectionResponseV2
    cr2_Account cr2_OrgID cr2_ClientID cr2_CanonicalFacts cr2_Dispatchers cr2_Tags].
  rewrite (doc_members_app _ _ _ _ E1 (doc_members_app _ _ _ _ E2 E3)). cbn [mbind option_bind].
  eexists _, (l4 ++ l5 ++ l6 ++ l1 ++ l2 ++ l3). split; [reflexivity|]. split.
  - exists n. split; [|lia]. repeat apply members_app; done.
  - rewrite !Forall_app. split_and!; (eapply Forall_impl; [eassumption|]); intros kv ->; unfold connection_keys; set_solver.
Qed.

Lemma status_decoded status s d :
  presentable s = true → utf8_valid status = true →
  doc_connectionStatusResponseV2 status (convertConnectorClientStateToConnectionResponseV2 s) = Some d →
  decode_one "status" (render d +:+ str1 "010") = status.
Proof.
  intros Hp Hs. destruct (status_members s Hp) as (kvs&l&E&(n&(H1&_&_&H4)&Hn)&HK).
  unfold doc_connectionStatusResponseV2. rewrite E. cbn [mbind option_bind]. intros [= <-].
  unfold decode_one. rewrite DecodeStream_render; [|..|done].
  - cbn [foldl]. erewrite set_key_at by reflexivity. cbn [snd].
    change (set_string (λ x _ : string, x) (jstring status) EmptyString) with (Some (unquote (quote true status))).
    rewrite unquote_quote by done. cbn [default]. apply decode_skips.
    eapply Forall_impl; [exact HK|]. intros [k dd] Hk. unfold skipped. cbn [fst] in *.
    unfold connection_keys in Hk. set_unfold in Hk.
    destruct Hk as [->|[->|[->|[->|[->|[->|[]]]]]]]; vm_compute; reflexivity.
  - cbn [doc_ok forallb fst snd jstring]. rewrite quote_raw_ok. exact H1.
  - cbn [doc_depth foldr fst snd jstring]. lia.
Qed.

(** ** The API's answer *)

Section seen.
Context `{!ApiDeployment}.

(** Asked by a caller of [org] over the database, the v2 interface reports [status] for [cid]. *)
Definition status_seen (org : OrgID) (cid : ClientID) (db : Db) (status : string) : Prop :=
  ∀ req p (w : ApiWorld),
    GetPrincipal (rq_ctx req) = Some p → principal_org p = org → getClientIDFromRequestPath req = cid →
    aw_db w = db → aw_response w = empty_response →
    ∃ w', v2_handleConnectionStatus (lookup_of V2Message) req w = (Ret tt, w') ∧
      table (aw_db w') = table db ∧ rs_status (aw_response w') = Some 200%Z ∧
      decode_one "status" (rs_body (aw_response w')) = status.

Lemma answer_empty status d :
  rs_status (answer_written status d empty_response) = Some status ∧
  rs_body (answer_written status d empty_response) = render d +:+ str1 "010".
Proof. by destruct (answer_fresh status d empty_response eq_refl) as [H1 H2]. Qed.

Lemma seen_connected org cid db r :
  db_ok db → answers db → org ≠ EmptyString → cid ≠ EmptyString →
  r ∈ table db → r_org_id r = org → r_client_id r = cid → presentable (located_state cid r) = true →
  status_seen org cid db "connected".
Proof.
  intros Hok Hup Hone Hcne Hr Ho Hc Hp req p w Hpr Horg Hid Hdb Hrs. unfold v2_handleConnectionStatus, the_principal.
  rewrite Hpr, bind_ret_l, Hid, Horg.
  destruct (lookup_found V2Message org cid w r) as (db'&Hl&Ht); [by rewrite Hdb..|done|done|done|done|].
  rewrite (bind_ret _ _ _ _ _ Hl).
  destruct (status_members _ Hp) as (kvs&l&E&_).
  unfold doc_connectionStatusResponseV2 at 1. rewrite E. cbn [mbind option_bind]. rewrite respond_run.
  eexists. split; [reflexivity|]. cbn [aw_db aw_response lset aw_db_lens aw_response_lens]. rewrite Hrs.
  set (d := JObj _). destruct (answer_empty 200 d) as [-> ->]. split_and!; [by rewrite Ht, Hdb|done|].
  eapply status_decoded; [exact Hp|done|]. unfold doc_connectionStatusResponseV2. by rewrite E.
Qed.

Lemma seen_disconnected org cid db :
  db_ok db → answers db → org ≠ EmptyString → cid ≠ EmptyString →
  registry_of (table db) !! cid = None → status_seen org cid db DISCONNECTED_STATUS.
Proof.
  intros Hok Hup Hone Hcne Hnone req p w Hpr Horg Hid Hdb Hrs. unfold v2_handleConnectionStatus, the_principal.
  rewrite Hpr, bind_ret_l, Hid, Horg.
  destruct (lookup_missing V2Message org cid w) as (db'&Hl&Ht); [by rewrite Hdb..|done|done| |].
  { intros r Hr Hc. apply registry_lookup_None in Hnone. apply Hnone, list_elem_of_fmap. exists r.
    by rewrite <-Hdb. }
  rewrite (bind_ret _ _ _ _ _ Hl), bool_decide_eq_true_2 by done.
  change (doc_connectionStatusResponseV2 _ _) with (Some (JObj [("status", jstring DISCONNECTED_STATUS)])).
  rewrite respond_run.
  eexists. split; [reflexivity|]. cbn [aw_db aw_response lset aw_db_lens aw_response_lens]. rewrite Hrs.
  split_and!; [by rewrite Ht, Hdb|done|]. vm_compute. reflexivity.
Qed.
End seen.

(** ** The client's facts at the server *)

Lemma facts_lookup c k v :
  facts_valid c = true → facts_value c !! k = Some v →
  (∃ s, v = VString s ∧ utf8_valid s = true ∧ utf8_valid k = true) ∨
  (∃ l, v = VArray (VString <$> l) ∧ forallb utf8_valid l = true ∧ utf8_valid k = true ∧ k ≠ "insights_id").
Proof.
  unfold facts_valid, facts_value. rewrite !andb_true_iff. intros Hv Hk%elem_of_list_to_map_2.
  rewrite elem_of_reverse in Hk. unfold facts_members in Hk. rewrite !elem_of_app in Hk.
  assert (Hstr : ∀ k' s, utf8_valid s = true → utf8_valid k' = true → (k, v) ∈ omit_string k' s →
    ∃ s, v = VString s ∧ utf8_valid s = true ∧ utf8_valid k = true).
  { intros k' s Hs Hk'. unfold omit_string. case_bool_decide; [by intros ?%elem_of_nil|].
    intros [= -> ->]%list_elem_of_singleton. by exists s. }
  assert (Hstrs : ∀ k' l, forallb utf8_valid l = true → utf8_valid k' = true → k' ≠ "insights_id" →
    (k, v) ∈ omit_strings k' l →
    ∃ l, v = VArray (VString <$> l) ∧ forallb utf8_valid l = true ∧ utf8_valid k = true ∧ k ≠ "insights_id").
  { intros k' l Hl Hk' Hne. unfold omit_strings. destruct l; [by intros ?%elem_of_nil|].
    intros [= -> ->]%list_elem_of_singleton. by exists (s :: l). }
  destruct Hv as [[[[[[[H1 H2] H3] H4] H5] H6] H7] H8].
  destruct_or! Hk; first [left; eapply Hstr; [| |exact Hk]; (done || reflexivity)|right; eapply Hstrs; [| | |exact Hk]; (done || reflexivity)].
Qed.

Lemma facts_presentable c :
  facts_valid c = true → value_ok (VObject (facts_value c)) = true ∧ value_depth (VObject (facts_value c)) ≤ 2.
Proof.
  intros Hc. split.
  - apply value_ok_object. intros k v Hkv.
    destruct (facts_lookup _ _ _ Hc Hkv) as [(s&->&Hs&Hk)|(l&->&Hl&Hk&_)]; [done|].
    split; [done|]. cbn [value_ok]. rewrite <-list_fmap_compose. clear -Hl.
    induction l as [|s l IH]; [done|]. cbn in Hl |- *. apply andb_true_iff in Hl as [-> Hl]. by apply IH.
  - apply value_depth_object. intros k v Hkv.
    destruct (facts_lookup _ _ _ Hc Hkv) as [(s&->&_)|(l&->&_)]; [cbn; lia|].
    cbn [value_depth]. rewrite <-list_fmap_compose. clear. induction l as [|s l IH]; cbn in *; lia.
Qed.


(** ** What the handler needs of the client's content *)

Definition content_map (m : ControlMessage ConnectionStatusMessageContent) : gmap string value :=
  content_value (Content m).

Lemma insights_id_value c : facts_valid c = true → insights_id_ok (facts_value c) = true.
Proof.
  intros Hc. unfold insights_id_ok. destruct (facts_value c !! "insights_id") as [v|] eqn:Hk; [|done].
  by destruct (facts_lookup _ _ _ Hc Hk) as [(s&->&_)|(l&_&_&_&?)].
Qed.

Section sanitized.
Context `{!UUIDParse}.

Lemma sanitized_presentable f :
  value_ok (VObject f) = true → value_depth (VObject f) ≤ 2 →
  value_ok (VObject (sanitized f)) = true ∧ value_depth (VObject (sanitized f)) ≤ 2.
Proof.
  intros Hok Hd. assert (Hsub : ∀ k v, sanitized f !! k = Some v → f !! k = Some v).
  { intros k v. unfold sanitized. repeat case_match; try done. by intros [_ ?]%lookup_delete_Some. }
  split.
  - rewrite value_ok_object in *. eauto.
  - apply value_depth_object. intros k v Hk%Hsub%value_depth_member. lia.
Qed.
End sanitized.

Lemma tags_value_tags t : tags_ok (value_of_tags t) = true.
Proof.
  destruct t as [m|]; [|done]. cbn [value_of_tags tags_ok]. rewrite forallb_forall.
  intros [k v] Hk%list_elem_of_In%elem_of_map_to_list. rewrite lookup_fmap in Hk.
  destruct (m !! k); [|done]. by injection Hk as <-.
Qed.

Lemma content_parts m :
  content_map m !! "state" = Some (VString (cs_ConnectionState (Content m))) ∧
  string_or_absent (content_map m) "client_name" = true ∧
  string_or_absent (content_map m) "client_version" = true ∧
  map_get (content_map m) dispatchersKey = value_of_dispatchers (cs_Dispatchers (Content m)) ∧
  map_get (content_map m) tagsKey = value_of_tags (cs_Tags (Content m)) ∧
  map_get (content_map m) canonicalFactsKey = VObject (facts_value (cs_CanonicalFacts (Content m))).
Proof. done. Qed.

(** ** The life of a client *)

Section life.
Context `{!Postgres, !PostgresLaws, !Deployment, !UrlCheck, !UUIDParse, !ApiDeployment}.
#[local] Set Default Proof Using "Type*".

(** The state the consumer makes of the client's message. *)
Definition announced (cid : ClientID) (m : ControlMessage ConnectionStatusMessageContent)
    (account : AccountID) (org : OrgID) : ConnectorClientState :=
  online_state cid (understood m) account org (content_map m) (VObject (facts_of (content_map m))).

Lemma announced_facts m :
  message_valid m = true → facts_ok (content_map m) = true ∧
  value_ok (VObject (facts_of (content_map m))) = true ∧ value_depth (VObject (facts_of (content_map m))) ≤ 2.
Proof using Type.
  unfold message_valid, content_valid. rewrite !andb_true_iff.
  intros [_ [[[[[Hf _] _] _] _] _]]. destruct (content_parts m) as (_&_&_&_&_&Hmap).
  unfold facts_ok, facts_of. rewrite Hmap. split; [by apply insights_id_value|].
  by apply sanitized_presentable; apply facts_presentable.
Qed.

Lemma client_announces cid m d payload w identity account org err :
  registrar_inv w → answers (w_db w) →
  message_valid m = true → representable (Sent m) → marshal_status m = Some payload →
  MessageType m = "connection-status" → cs_ConnectionState (Content m) = "online" →
  cs_Dispatchers (Content m) = Some d → dispatchers_ok (content_map m) = true →
  configurable_MapClientIdToAccountId dep_accounts cid = (identity, account, org, err) →
  columns_take (announced cid m account org) = true →
  ∃ w', HandleControlMessage cid payload w = (Ret None, w') ∧ registrar_inv w' ∧ answers (w_db w') ∧
    registry w' = (if fresh (registry w !! cid) (understood m)
                   then <[cid := store_form (registry w !! cid) (announced cid m account org)]> (registry w)
                   else registry w).
Proof.
  intros Hw Hup Hm Hsent Hp Hty Hst Hd Hdok Hres Hcol.
  destruct (status_read m Hm Hsent) as (payload'&Hp'&Hu). rewrite Hp in Hp'. injection Hp' as <-.
  destruct (announced_facts m Hm) as [Hf _].
  destruct (content_parts m) as (Hstate&Hname&Hver&Hmd&Hmt&_).
  eapply (status_progress cid payload (understood m) (content_map m) "online" w); try done.
  { by rewrite Hstate, Hst. }
  intros w1 Hw1 Hup1 Hr1. rewrite bool_decide_eq_true_2 by done. rewrite <-Hr1.
  destruct (fresh (registry w1 !! cid) (understood m)) eqn:Hfr.
  2:{ eapply wp_mono; [by apply stale_progress|]. intros ? w2 (->&?&?&?). by split; [right|split_and!]. }
  eapply wp_mono.
  - eapply (online_progress cid (understood m) (content_map m) w1 identity account org err); try done.
    + intros w2. cbn. by rewrite Hres.
    + intros w2. eapply record_returns; [left; reflexivity| |].
      * cbn [ccDispatchers online_state]. left. by rewrite Hmd, Hd.
      * cbn [ccTags online_state]. rewrite Hmt. apply tags_value_tags.
    + intros. apply sources_returns.
  - intros o w2 (->&Hw2&Hup2&Hr2). split; [by left|]. by split_and!.
Qed.

Lemma client_topic tv cid :
  tvPrefix tv = "redhat" → string_mem "/" cid = false →
  VerifyIncomingTopic tv (controlWriteTopic cid) = (ControlTopicType, cid, None).
Proof using Type.
  intros Htv Hc. apply verify_spec. rewrite Htv. by apply (client_out_topic_split "redhat" ControlTopicType cid).
Qed.

(** What an online message makes of its client's entry. *)
Definition announce (cid : ClientID) (account : AccountID) (org : OrgID) (old : option ConnectorClientState)
    (m : ControlMessage ConnectionStatusMessageContent) : option ConnectorClientState :=
  if fresh old (understood m) then Some (store_form old (announced cid m account org)) else old.

(** A message the consumer can take in. *)
Definition announceable (cid : ClientID) (account : AccountID) (org : OrgID)
    (m : ControlMessage ConnectionStatusMessageContent) : bool :=
  message_valid m && bool_decide (MessageType m = "connection-status")
  && bool_decide (cs_ConnectionState (Content m) = "online") && bool_decide (is_Some (cs_Dispatchers (Content m)))
  && dispatchers_ok (content_map m) && columns_take (announced cid m account org)
  && bool_decide (is_Some (marshal_status m)).

Lemma client_goes_offline cid id now payload w :
  registrar_inv w → answers (w_db w) → utf8_valid id = true → representable now →
  marshal_status (lastWillMsg id now) = Some payload →
  ∃ w', HandleControlMessage cid payload w = (Ret None, w') ∧ registrar_inv w' ∧ answers (w_db w') ∧
    registry w' = delete cid (registry w).
Proof.
  intros Hw Hup Hid Hnow Hp.
  assert (Hm : message_valid (lastWillMsg id now) = true).
  { unfold message_valid. cbn [MessageType MessageID Version Content lastWillMsg]. by rewrite Hid. }
  destruct (status_read _ Hm Hnow) as (payload'&Hp'&Hu). rewrite Hp in Hp'. injection Hp' as <-.
  destruct (content_parts (lastWillMsg id now)) as (Hstate&Hname&Hver&_).
  eapply (status_progress cid payload _ (content_map (lastWillMsg id now)) "offline" w); try done.
  intros w1 Hw1 Hup1 Hr1. rewrite bool_decide_eq_false_2, bool_decide_eq_true_2 by done.
  eapply wp_mono; [by apply offline_progress|]. intros o w2 (->&Hw2&Hup2&Hr2).
  split_and!; [done..|]. by rewrite Hr2, Hr1.
Qed.

(** What the API finds of a client that has announced itself can be presented. *)
Lemma announced_seen cid m account org db old :
  db_ok db → answers db → message_valid m = true → org ≠ EmptyString → cid ≠ EmptyString →
  utf8_valid account = true → utf8_valid org = true → utf8_valid cid = true →
  (∀ s, old = Some s → json_ok (ccCanonicalFacts s) = true ∧ value_depth (ccCanonicalFacts s) ≤ 100) →
  registry_of (table db) !! cid = Some (store_form old (announced cid m account org)) →
  status_seen org cid db "connected".
Proof.
  intros Hok Hup Hm Hone Hcne Ha Ho Hc Hold (r&Hr&Hcid&Hscan)%registry_lookup; [|apply Hok].
  destruct (announced_facts m Hm) as (_&Hf&Hfd). destruct (content_parts m) as (_&_&_&Hmd&Hmt&_).
  unfold message_valid, content_valid in Hm. rewrite !andb_true_iff in Hm.
  destruct Hm as [_ [[[[[_ Hd] Ht] _] _] _]].
  pose proof (dispatchers_depth (cs_Dispatchers (Content m))) as Hdd.
  pose proof (tags_depth (cs_Tags (Content m))) as Htd.
  assert (Hjson : ∀ v n, value_ok v = true → value_depth v ≤ n → n ≤ 100 → json_ok v = true).
  { intros v n Hv Hn H100. unfold json_ok. rewrite Hv. apply Z.leb_le. lia. }
  assert (Hparts : ccAccount (scan_state r) = account ∧ r_org_id r = org ∧
    ccDispatchers (scan_state r) = value_of_dispatchers (cs_Dispatchers (Content m)) ∧
    ccTags (scan_state r) = value_of_tags (cs_Tags (Content m)) ∧
    ccCanonicalFacts (scan_state r) = match old with Some s => ccCanonicalFacts s
                                      | None => VObject (facts_of (content_map m)) end).
  { change (r_org_id r) with (ccOrgID (scan_state r)). rewrite Hscan.
    cbn [store_form announced online_state ccAccount ccOrgID ccDispatchers ccTags ccCanonicalFacts].
    rewrite Hmd, Hmt, !through_json_ok by (eapply Hjson; eauto; lia). by destruct old. }
  destruct Hparts as (Hpa&Hpo&Hpd&Hpt&Hpf).
  apply (seen_connected org cid db r); [done..|].
  unfold presentable. cbn [located_state ccAccount ccOrgID ccClientID ccCanonicalFacts ccDispatchers ccTags forallb].
  change (null_string (r_account r)) with (ccAccount (scan_state r)).
  change (deserializeDispatchers _) with (ccDispatchers (scan_state r)).
  change (deserializeCanonicalFacts _) with (ccCanonicalFacts (scan_state r)).
  change (deserializeTags _) with (ccTags (scan_state r)).
  rewrite Hpa, Hpo, Hpd, Hpt, Hpf, Ha, Ho, Hc.
  assert (Hshow : ∀ v, json_ok v = true → value_depth v ≤ 100 → json_ok v && (Z.of_nat (value_depth v) <? 9999)%Z = true).
  { intros v -> Hv. apply Z.ltb_lt. lia. }
  rewrite !Hshow; [done|..]; try (eapply Hjson; eauto; lia); try lia.
  - destruct old as [s|]; [by apply Hold|]. eapply Hjson; eauto. lia.
  - destruct old as [s|]; [by apply Hold|]. lia.
Qed.

(** C5: The life of a client, from its own messages to what the API says of it.
    While database and broker answer: a client whose certificate names it [cid]
    connects and publishes its status message; once the ingress' Kafka record of
    that message has been handled, a caller of the client's org is told
    "connected" by the v2 status endpoint, in a document the client tools read;
    once the record of its last will has been handled, every such caller is told
    "disconnected".  No other client's entry changes on the way. *)
Theorem client_life_seen_by_api tv cid id cf d tags sent willId willTime on off w identity account org err :
  let m := onlineMsg id cf (Some d) tags sent in
  tvPrefix tv = "redhat" → string_mem "/" cid = false → cid ≠ EmptyString →
  mqtt_Topic on = controlWriteTopic cid → marshal_status m = Some (mqtt_Payload on) →
  mqtt_Topic off = controlWriteTopic cid → marshal_status (lastWillMsg willId willTime) = Some (mqtt_Payload off) →
  message_valid m = true → representable sent → dispatchers_ok (content_map m) = true →
  utf8_valid willId = true → representable willTime →
  configurable_MapClientIdToAccountId dep_accounts cid = (identity, account, org, err) → org ≠ EmptyString →
  utf8_valid account = true → utf8_valid org = true → utf8_valid cid = true →
  columns_take (announced cid m account org) = true →
  registrar_inv w → answers (w_db w) → fresh (registry w !! cid) (understood m) = true →
  (∀ s, registry w !! cid = Some s → json_ok (ccCanonicalFacts s) = true ∧ value_depth (ccCanonicalFacts s) ≤ 100) →
  ∃ w1 w2,
    (∀ now, handleMessage tv (ingress_message cid on now) w = (Ret None, w1)) ∧
    status_seen org cid (w_db w1) "connected" ∧
    (∀ now, handleMessage tv (ingress_message cid off now) w1 = (Ret None, w2)) ∧
    status_seen org cid (w_db w2) "disconnected" ∧
    ∀ cid', cid' ≠ cid → registry w1 !! cid' = registry w !! cid' ∧ registry w2 !! cid' = registry w !! cid'.
Proof.
  intros m Htv Hslash Hcne Hton Hon Htoff Hoff Hm Hsent Hdok Hid Hwill Hres Hone Ha Ho Hc Hcol Hw Hup Hfr Hold.
  destruct (client_announces cid m d (mqtt_Payload on) w identity account org err)
    as (w1&Hrun1&Hw1&Hup1&Hr1); try done. rewrite Hfr in Hr1.
  destruct (client_goes_offline cid willId willTime (mqtt_Payload off) w1) as (w2&Hrun2&Hw2&Hup2&Hr2); try done.
  pose proof (client_topic tv cid Htv Hslash) as Htopic.
  exists w1, w2. split_and!.
  - intros now. rewrite (handle_ingress tv on ControlTopicType cid) by (by rewrite Hton). exact Hrun1.
  - apply (announced_seen cid m account org (w_db w1) (registry w !! cid)); try done; [apply Hw1|].
    change (registry_of (table (w_db w1))) with (registry w1). by rewrite Hr1, lookup_insert_eq.
  - intros now. rewrite (handle_ingress tv off ControlTopicType cid) by (by rewrite Htoff). exact Hrun2.
  - apply seen_disconnected; try done; [apply Hw2|].
    change (registry_of (table (w_db w2))) with (registry w2). by rewrite Hr2, lookup_delete_eq.
  - intros cid' Hne. by rewrite Hr2, lookup_delete_ne, Hr1, lookup_insert_ne.
Qed.

(** The entry [s] says what a message of the client announces. *)
Definition says (cf : CanonicalFacts) (d : Dispatchers) (t : Tags) (id : string) (sent : time)
    (s : ConnectorClientState) : Prop :=
  ccDispatchers s = through_json (value_of_dispatchers d) ∧
  ccTags s = through_json (value_of_tags t) ∧
  ccCanonicalFacts s = through_json (VObject (sanitized (facts_value cf))) ∧
  ccMessageMetadata s = {| LatestMessageID := id; LatestTimestamp := timestamptz_in sent |}.

(** The record of one message of the client is handled between two states. *)
Definition client_step (tv : TopicVerifier) (cid : ClientID) (now : time)
    (m : ControlMessage ConnectionStatusMessageContent) (w w' : World) : Prop :=
  handleMessage tv (ingress_message cid {| mqtt_MessageID := 0; mqtt_Topic := controlWriteTopic cid;
    mqtt_Payload := default EmptyString (marshal_status m); mqtt_Duplicate := false |} now) w = (Ret None, w').

Lemma client_step_ok tv cid account org identity err now m w :
  tvPrefix tv = "redhat" → string_mem "/" cid = false →
  configurable_MapClientIdToAccountId dep_accounts cid = (identity, account, org, err) →
  announceable cid account org m = true ∧ representable (Sent m) → registrar_inv w → answers (w_db w) →
  ∃ w', client_step tv cid now m w w' ∧ registrar_inv w' ∧ answers (w_db w') ∧
    registry w' !! cid = announce cid account org (registry w !! cid) m ∧
    ∀ cid', cid' ≠ cid → registry w' !! cid' = registry w !! cid'.
Proof.
  intros Htv Hslash Hres [Hm Hsent] Hw Hup. unfold announceable in Hm.
  rewrite !andb_true_iff, !bool_decide_eq_true in Hm.
  destruct Hm as [[[[[[Hval Hty] Hst] [d Hd]] Hdok] Hcol] [payload Hp]].
  destruct (client_announces cid m d payload w identity account org err) as (w1&Hrun&Hw1&Hup1&Hr1); try done.
  exists w1. split_and!; [|done|done|..].
  - unfold client_step. rewrite Hp. by rewrite (handle_ingress tv _ ControlTopicType cid) by by apply client_topic.
  - rewrite Hr1. unfold announce. destruct (fresh _ _); [|done]. by rewrite lookup_insert_eq.
  - intros cid' Hne. rewrite Hr1. destruct (fresh _ _); [|done]. by rewrite lookup_insert_ne.
Qed.

(** C27: The script of the test client does what its comments say.  It sends four
    messages after it has connected; when their records are handled one after the
    other, the first announcement is recorded: the client, unknown before, then has
    an entry with the canonical facts, no dispatchers, no tags, and the id and date
    of that message.  The second, ten seconds later, is recorded too ("make sure
    this message is recorded"): the entry then has its dispatchers, tags, id and
    date, and the canonical facts of the first (the statement that updates a row
    leaves them alone; the second carries the same ones).  The third, dated before
    the first, and the fourth, a duplicate of the second with other content, change
    nothing in the registry ("make sure this message is ignored").  No other
    client's entry changes. *)
Theorem test_client_script tv cid account org identity err now cf sent later w m1 m2 m3 m4 :
  (test_messages cf sent later).*2 = [m1; m2; m3; m4] →
  tvPrefix tv = "redhat" → string_mem "/" cid = false →
  configurable_MapClientIdToAccountId dep_accounts cid = (identity, account, org, err) →
  Forall (λ m, announceable cid account org m = true ∧ representable (Sent m)) [m1; m2; m3; m4] →
  (sent + 10 * 1000000000 ≤ later)%Z → (∀ t, (t - 1000 < timestamptz_in t < t + 1000)%Z) →
  registrar_inv w → answers (w_db w) → registry w !! cid = None →
  ∃ w1 w2 w3 w4 s1 s2,
    (client_step tv cid now m1 w w1 ∧ registry w1 = <[cid := s1]> (registry w) ∧
     says cf (Some ∅) (Some ∅) "1234" sent s1) ∧
    (client_step tv cid now m2 w1 w2 ∧ registry w2 = <[cid := s2]> (registry w) ∧
     says cf test_dispatchers (some_map [("key1", "value1"); ("key2", "value2")]) "1235" later s2) ∧
    (client_step tv cid now m3 w2 w3 ∧ registry w3 = registry w2) ∧
    (client_step tv cid now m4 w3 w4 ∧ registry w4 = registry w2).
Proof.
  intros [= <- <- <- <-] Htv Hslash Hres Hms Hlater Hround Hw Hup Hnone.
  pose proof (Hround sent) as Hs. pose proof (Hround later) as Hl.
  rewrite !Forall_cons in Hms. destruct Hms as (Hm1&Hm2&Hm3&Hm4&_).
  destruct (client_step_ok tv cid account org identity err now _ w Htv Hslash Hres Hm1 Hw Hup)
    as (w1&Hrun1&Hw1&Hup1&Hr1&Ho1). rewrite Hnone in Hr1. cbn [announce fresh] in Hr1.
  destruct (client_step_ok tv cid account org identity err now _ w1 Htv Hslash Hres Hm2 Hw1 Hup1)
    as (w2&Hrun2&Hw2&Hup2&Hr2&Ho2). rewrite Hr1 in Hr2. unfold announce in Hr2.
  replace (fresh (Some _) _) with true in Hr2
    by (symmetry; cbn; unfold isDuplicateOrOldMessage, Before; cbn; apply negb_true_iff, orb_false_iff; split;
        [done|apply Z.ltb_ge; lia]).
  destruct (client_step_ok tv cid account org identity err now _ w2 Htv Hslash Hres Hm3 Hw2 Hup2)
    as (w3&Hrun3&Hw3&Hup3&Hr3&Ho3). rewrite Hr2 in Hr3. unfold announce in Hr3.
  replace (fresh (Some _) _) with false in Hr3
    by (symmetry; cbn; unfold isDuplicateOrOldMessage, Before; cbn; apply negb_false_iff, orb_true_iff; right;
        apply Z.ltb_lt; lia).
  destruct (client_step_ok tv cid account org identity err now _ w3 Htv Hslash Hres Hm4 Hw3 Hup3)
    as (w4&Hrun4&_&_&Hr4&Ho4). rewrite Hr3 in Hr4. unfold announce in Hr4.
  replace (fresh (Some _) _) with false in Hr4 by done.
  eexists w1, w2, w3, w4, _, _. split_and!; [exact Hrun1| | |exact Hrun2| | |exact Hrun3| |exact Hrun4|].
  - apply map_eq. intros cid'. destruct (decide (cid' = cid)) as [->|Hne].
    + by rewrite lookup_insert_eq.
    + by rewrite lookup_insert_ne, Ho1.
  - split_and!; done.
  - apply map_eq. intros cid'. destruct (decide (cid' = cid)) as [->|Hne].
    + by rewrite lookup_insert_eq.
    + by rewrite lookup_insert_ne, Ho2, Ho1.
  - split_and!; done.
  - apply map_eq. intros cid'. destruct (decide (cid' = cid)) as [->|Hne]; [by rewrite Hr3, Hr2|by rewrite Ho3].
  - apply map_eq. intros cid'.
    destruct (decide (cid' = cid)) as [->|Hne]; [by rewrite Hr4, Hr2|by rewrite Ho4, Ho3].
Qed.
End life.

(** ** Witness: the sample client registers and leaves *)

Definition mqtt_of (payload : option string) : mqtt_message := {|
  mqtt_MessageID := 7; mqtt_Topic := controlWriteTopic "client-c"; mqtt_Payload := default EmptyString payload;
  mqtt_Duplicate := false |}.
Definition sample_will : ControlMessage ConnectionStatusMessageContent := lastWillMsg "5678" 1704067300000000000.
Definition sample_request : request := {|
  rq_header := []; rq_url := test_url; rq_vars := {[ "id" := "client-c" ]}; rq_body := EmptyString;
  rq_ctx := org_context "000001" |}.

(** The message as the online message that the client builds. *)
Definition sample_facts : CanonicalFacts := cs_CanonicalFacts (Content sample_message).
Definition sample_dispatchers : gmap string Tags := default ∅ test_dispatchers.

Lemma client_life_seen_by_api_witness :
  ∃ w1 w2,
    handleMessage (NewTopicVerifier EmptyString)
      (ingress_message "client-c" (mqtt_of (marshal_status sample_message)) 0) test_w = (Ret None, w1) ∧
    status_seen (H := test_api) "000001" "client-c" (w_db w1) "connected" ∧
    handleMessage (NewTopicVerifier EmptyString)
      (ingress_message "client-c" (mqtt_of (marshal_status sample_will)) 0) w1 = (Ret None, w2) ∧
    ∃ w', v2_handleConnectionStatus (lookup_of (H := test_api) V2Message) sample_request
            (test_apiworld (w_db w2)) = (Ret tt, w') ∧
          decode_one "status" (rs_body (aw_response w')) = "disconnected".
Proof.
  destruct (client_life_seen_by_api (H4 := test_api) (NewTopicVerifier EmptyString) "client-c" "1235" sample_facts sample_dispatchers
    (some_map [("key1", "value1")]) 1704067200123000000 "5678" 1704067300000000000
    (mqtt_of (marshal_status sample_message)) (mqtt_of (marshal_status sample_will)) test_w
    (createIdentityHeader "010101" "000001") "010101" "000001" None) as (w1&w2&H1&H2&H3&H4&_).
  all: lazymatch goal with
       | |- registrar_inv _ => exact test_w_inv
       | |- answers _ => intros n; reflexivity
       | |- representable _ => apply (bool_decide_unpack _); vm_compute; exact I
       | |- _ ≠ _ => discriminate
       | |- ∀ s, _ → _ => intros s Hs; vm_compute in Hs; discriminate
       | |- ∃ _, _ => idtac
       | |- _ => vm_compute; reflexivity
       end.
  exists w1, w2. split; [exact (H1 0%Z)|]. split; [exact H2|]. split; [exact (H3 0%Z)|].
  destruct (H4 sample_request (identityPrincipal "010101" "000001") (test_apiworld (w_db w2)))
    as (w'&Hrun&_&_&Hs); [reflexivity..|].
  exists w'. split; [exact Hrun|exact Hs].
Defined.

(** The facts of the test client: its insights id is two NUL characters. *)
Definition script_facts : CanonicalFacts := {|
  InsightsID := String "000" (str1 "000"); MachineID := InsightsID sample_facts;
  SubscriptionManagerID := EmptyString; SatelliteID := EmptyString; Fqdn := "fred.flintstone.com";
  BiosID := EmptyString; IpAddresses := ["192.168.68.101"]; MacAddresses := ["54:54:45:45:62:26"] |}.

Lemma test_client_script_witness :
  ∃ m1 m2 m3 m4 w1 w2 w3 w4 s1 s2,
    client_step (NewTopicVerifier EmptyString) "client-c" 0 m1 test_w w1 ∧ registry w1 !! "client-c" = Some s1 ∧
    ccDispatchers s1 = VObject ∅ ∧
    client_step (NewTopicVerifier EmptyString) "client-c" 0 m2 w1 w2 ∧ registry w2 !! "client-c" = Some s2 ∧
    ccTags s2 = VObject {[ "key1" := VString "value1"; "key2" := VString "value2" ]} ∧
    client_step (NewTopicVerifier EmptyString) "client-c" 0 m3 w2 w3 ∧
    client_step (NewTopicVerifier EmptyString) "client-c" 0 m4 w3 w4 ∧ registry w4 !! "client-c" = Some s2.
Proof.
  destruct (test_client_script (NewTopicVerifier EmptyString) "client-c" "010101" "000001"
    (createIdentityHeader "010101" "000001") None 0 script_facts 1704067200123000000 1704067210123000000 test_w
    (onlineMsg "1234" script_facts (Some ∅) (Some ∅) 1704067200123000000)
    (onlineMsg "1235" script_facts test_dispatchers (some_map [("key1", "value1"); ("key2", "value2")]) 1704067210123000000)
    (onlineMsg "1233" script_facts (Some ∅) (Some ∅) 1704067190123000000)
    (onlineMsg "1235" script_facts (Some {[ "IGNORE" := some_map [] ]}) (some_map [("IGNORE", "value1")]) 1704067210123000000))
    as (w1&w2&w3&w4&s1&s2&(H1&H2&H3)&(H4&H5&H6)&(H7&H8)&(H9&H10)).
  all: lazymatch goal with
       | |- registrar_inv _ => exact test_w_inv
       | |- answers _ => intros n; reflexivity
       | |- Forall _ _ => repeat (constructor; [split; [vm_compute; reflexivity|apply (bool_decide_unpack _); vm_compute; exact I]|]); constructor
       | |- (_ <= _)%Z => lia
       | |- ∀ t : time, _ => intros t; cbn; pose proof (Z.div_mod t 1000 ltac:(lia)); pose proof (Z.mod_pos_bound t 1000 ltac:(lia)); lia
       | |- ∃ _, _ => idtac
       | |- _ => vm_compute; reflexivity
       end.
  eexists _, _, _, _, w1, w2, w3, w4, s1, s2. split; [exact H1|]. split; [by rewrite H2, lookup_insert_eq|].
  split; [rewrite (proj1 H3); vm_compute; reflexivity|]. split; [exact H4|].
  split; [by rewrite H5, lookup_insert_eq|].
  split; [rewrite (proj1 (proj2 H6)); vm_compute; reflexivity|].
  split; [exact H7|]. split; [exact H9|]. by rewrite H10, H5, lookup_insert_eq.
Defined.
