(* ===== verification/Updaters.v ===== *)
(** * The periodic updaters ([cmd/cloud-connector])

    - [startInventoryStaleTimestampUpdater] (inventory_stale_timestamp_updater.go);
    - [startTenantlessConnectionUpdater] (tenantless_connection_updater.go).

    Each runs one scan of [StaleStore] with a callback over the account resolver,
    the inventory recorder and the statements that record the outcome. *)

From S2P Require Import Prelude GoStrings GoNumTime Json Domain Config Protocol Repository Locators StaleStore.
From stdpp Require Import options.

Section updaters.
Context `{!Postgres} {W : Type} `{!Lens W Db, !AccountIdResolver W, !ConnectedClientRecorder W, !Clock W}.

(** [time.Now().Add(-1 * offset)], the offset an hour short of the staleness. *)
Definition calculateStaleCutoffTime (staleTimeOffset : Z) : M W time :=
  let offset := wrap64 (staleTimeOffset - hour) in
  now ← Now;
  mret (now + wrap64 (-1 * offset))%Z.

(** The callback of the stale timestamp updater. *)
Definition processStaleConnection (rhcClient : ConnectorClientState) : M W (option error) :=
  r ← MapClientIdToAccountId (ccClientID rhcClient);
  let '(identity, _, _, err) := r in
  match err with
  | Some e => zoom (RecordFailedTenantLookup rhcClient);; mret (Some e)
  | None =>
      err ← RecordConnectedClient identity rhcClient;
      match err with
      | Some e => mret (Some e)
      | None => zoom (RecordUpdatedStaleTimestamp rhcClient);; mret None
      end
  end.

Definition startInventoryStaleTimestampUpdater (cfg : Config) : M W unit :=
  tooOldIfBeforeThisTime ← calculateStaleCutoffTime (InventoryStaleTimestampOffset cfg);
  ProcessStaleConnections tooOldIfBeforeThisTime (InventoryStaleTimestampUpdaterChunkSize cfg)
    processStaleConnection;;
  mret tt.

Definition with_account (c : ConnectorClientState) (account : AccountID) (org : OrgID)
    : ConnectorClientState := {|
  ccAccount := account; ccOrgID := org; ccClientID := ccClientID c;
  ccCanonicalFacts := ccCanonicalFacts c; ccDispatchers := ccDispatchers c; ccTags := ccTags c;
  ccMessageMetadata := ccMessageMetadata c; ccTenantLookupTimestamp := ccTenantLookupTimestamp c;
  ccTenantLookupFailureCount := ccTenantLookupFailureCount c |}.

(** The callback of the tenantless connection updater. *)
Definition processTenantlessConnection (rhcClient : ConnectorClientState) : M W (option error) :=
  r ← MapClientIdToAccountId (ccClientID rhcClient);
  let '(_, account, orgId, err) := r in
  match err with
  | Some e => zoom (RecordFailedTenantLookup rhcClient);; mret (Some e)
  | None => zoom (RecordSuccessfulTenantLookup (with_account rhcClient account orgId));; mret None
  end.

Definition startTenantlessConnectionUpdater (cfg : Config) : M W unit :=
  now ← Now;
  let tooOldIfBeforeThisTime := (now + wrap64 (-1 * TenantlessConnectionTimestampOffset cfg))%Z in
  ProcessTenantlessConnections tooOldIfBeforeThisTime (TenantlessConnectionUpdaterChunkSize cfg)
    (TenantlessConnectionMaxLookupFailures cfg) processTenantlessConnection;;
  mret tt.
End updaters.

(** ** Lemmas: a scan changes the rows it hands over, one by one *)

(** [rows'] is [rows] with each row of [sel] changed as [P] says. *)
Definition changed (P : Row → Row → Prop) (sel : list Row) (rows rows' : list Row) : Prop :=
  Forall2 (λ r r', if decide (r_client_id r ∈ r_client_id <$> sel) then P r r' else r' = r) rows rows'.

Section effects.
Context `{!Postgres} {W : Type} `{!Lens W Db}.

Definition keeps_client (P : Row → Row → Prop) : Prop :=
  ∀ r r', P r r' → r_client_id r' = r_client_id r.

Lemma changed_clients P sel rows rows' :
  keeps_client P → changed P sel rows rows' → r_client_id <$> rows' = r_client_id <$> rows.
Proof.
  intros HP. induction 1 as [|r r' l l' Hr _ IH]; [done|]. cbn. rewrite IH. f_equal.
  case_decide; [by apply HP|by subst].
Qed.

Lemma changed_nil P rows rows' : changed P [] rows rows' ↔ rows' = rows.
Proof.
  unfold changed. split.
  - induction 1 as [|r r' l l' Hr _ IH]; [done|]. subst. revert Hr.
    case_decide as Hd; [by apply elem_of_nil in Hd|]. by intros ->.
  - intros ->. apply Forall2_same_length_lookup_2; [done|]. intros i x y ? ?.
    case_decide as Hd; [by apply elem_of_nil in Hd|]. by simplify_eq.
Qed.

(** Some rows first, then others: the first are not touched again. *)
Lemma changed_app P sel1 sel2 rows rows1 rows2 :
  keeps_client P → (∀ cid, cid ∈ r_client_id <$> sel1 → cid ∉ r_client_id <$> sel2) →
  changed P sel1 rows rows1 → changed P sel2 rows1 rows2 → changed P (sel1 ++ sel2) rows rows2.
Proof.
  intros HP Hdis H1 H2. unfold changed in *.
  assert (Hlen : length rows = length rows1) by by eapply Forall2_length.
  apply Forall2_same_length_lookup_2; [by rewrite Hlen; eapply Forall2_length|].
  intros i x z Hx Hz.
  destruct (Forall2_lookup_l _ _ _ _ _ H1 Hx) as (y&Hy&Hxy).
  destruct (Forall2_lookup_l _ _ _ _ _ H2 Hy) as (z'&Hz'&Hyz).
  rewrite Hz in Hz'. injection Hz' as <-. rewrite fmap_app.
  destruct (decide (r_client_id x ∈ r_client_id <$> sel1)) as [Hin|Hin].
  - rewrite decide_True by (apply elem_of_app; by left).
    rewrite (HP _ _ Hxy), decide_False in Hyz by by apply Hdis. by subst.
  - subst y. destruct (decide (r_client_id x ∈ r_client_id <$> sel2)) as [Hs|Hs].
    + rewrite decide_True by (apply elem_of_app; by right). done.
    + rewrite decide_False; [done|]. rewrite elem_of_app. by intros [?|?].
Qed.

Lemma changed_perm P sel sel' rows rows' : sel ≡ₚ sel' → changed P sel rows rows' → changed P sel' rows rows'.
Proof.
  intros Hp Hc. eapply Forall2_impl; [exact Hc|]. cbn. intros x y Hxy.
  destruct (decide (r_client_id x ∈ r_client_id <$> sel')) as [Hd|Hd].
  - rewrite decide_True in Hxy; [done|by rewrite Hp].
  - rewrite decide_False in Hxy; [done|by rewrite Hp].
Qed.

Lemma unchanged (P : Row → Row → Prop) rows r : unique_clients rows → r ∈ rows → P r r → changed P [r] rows rows.
Proof.
  intros Hu Hr HP. unfold changed. apply Forall_Forall2_diag, Forall_forall. intros x Hx.
  case_decide as Hin; [|done]. apply list_elem_of_singleton in Hin.
  assert (x = r) as -> by (apply (row_unique rows); auto). done.
Qed.

(** A healthy database with a given clock. *)
Definition serving (clk : nat → time) (db : Db) : Prop := healthy db ∧ db_clock db = clk.

(** If the callback changes its own row by [P], the loop changes all of them. *)
Lemma process_rows_changed clk (P : Row → Row → Prop) scan process sel (w : W) :
  keeps_client P →
  (∀ r, r ∈ sel → match scan r with
     | None => P r r
     | Some c => ∀ w : W, serving clk (lget w) → unique_clients (table (lget w)) → r ∈ table (lget w) →
         ∃ res w', process c w = (Ret res, w') ∧ serving clk (lget w') ∧
           changed P [r] (table (lget w)) (table (lget w'))
     end) →
  serving clk (lget w) → unique_clients (table (lget w)) → NoDup (r_client_id <$> sel) →
  (∀ r, r ∈ sel → r ∈ table (lget w)) →
  ∃ w', process_rows scan process sel w = (Ret tt, w') ∧ serving clk (lget w') ∧
    changed P sel (table (lget w)) (table (lget w')).
Proof.
  intros HP. revert w. induction sel as [|r sel IH]; intros w Hstep Hh Hu Hnd Hin.
  { exists w. split; [done|]. split; [done|]. by apply changed_nil. }
  cbn in Hnd. apply NoDup_cons in Hnd as [Hn Hnd].
  assert (Hrun : ∃ w1, (match scan r with None => mret tt | Some c => process c;; mret tt end : M W unit) w
    = (Ret tt, w1) ∧ serving clk (lget w1) ∧ changed P [r] (table (lget w)) (table (lget w1))).
  { assert (Hr : r ∈ table (lget w)) by (apply Hin; left).
    specialize (Hstep r ltac:(left)). destruct (scan r) as [c|].
    - destruct (Hstep w Hh Hu Hr) as (res&w1&Hp&Hh1&H1). exists w1. split; [|done].
      unfold mbind, M_bind. by rewrite Hp.
    - exists w. split; [done|]. split; [done|]. by apply unchanged. }
  destruct Hrun as (w1&Hp&Hh1&H1).
  assert (Hu1 : unique_clients (table (lget w1))).
  { unfold unique_clients. by rewrite (changed_clients P [r] _ _ HP H1). }
  destruct (IH w1) as (w2&Hp2&Hh2&H2); [|done..| |].
  { intros r' Hr'. apply Hstep. by right. }
  { intros r' Hr'. assert (Hr0 : r' ∈ table (lget w)) by (apply Hin; by right).
    apply list_elem_of_lookup in Hr0 as [i Hi].
    destruct (Forall2_lookup_l _ _ _ _ _ H1 Hi) as (y&Hy&Hxy). cbn in Hxy.
    rewrite decide_False in Hxy.
    - subst y. by eapply list_elem_of_lookup_2.
    - rewrite list_elem_of_singleton. intros He. apply Hn. rewrite <-He.
      by apply list_elem_of_fmap_2. }
  exists w2. split.
  { unfold process_rows in *. cbn [for_each]. rewrite (bind_ret _ _ _ _ _ Hp). exact Hp2. }
  split; [done|]. apply (changed_app P [r] sel _ (table (lget w1))); [done| |done..].
  intros cid Hcid. cbn in Hcid. by apply list_elem_of_singleton in Hcid as ->.
Qed.

(** A statement on the rows of a client changes its only row. *)
Lemma update_changed (P : Row → Row → Prop) cond f g rows r :
  unique_clients rows → r ∈ rows → f r = inl (g r) → P r (g r) →
  (∀ x, cond x = true → r_client_id x = r_client_id r) → cond r = true →
  ∃ rows', update_where cond f rows = inl rows' ∧ changed P [r] rows rows'.
Proof.
  intros Hu Hr Hf HP Hcond Hc. eexists. split.
  { apply (update_where_map _ _ g). intros x Hx Hcx.
    assert (x = r) as -> by (apply (row_unique rows); auto). done. }
  unfold changed. apply Forall2_fmap_r, Forall_Forall2_diag, Forall_forall. intros x Hx.
  cbn. case_decide as Hin.
  - apply list_elem_of_singleton in Hin.
    assert (x = r) as -> by (apply (row_unique rows); auto). by rewrite Hc.
  - destruct (cond x) eqn:Hcx; [|done]. destruct Hin. apply list_elem_of_singleton. by apply Hcond.
Qed.

(** What a statement makes of a row: its result, or nothing when it fails. *)
Definition statement_step (clk : nat → time) (f : time → Row → Row + error) (r r' : Row) : Prop :=
  ∃ n, r' = match f (clk n) r with inl r1 => r1 | inr _ => r end.

Lemma exec_changed clk cond f db r :
  serving clk db → unique_clients (table db) → r ∈ table db →
  (∀ x, cond x = true → r_client_id x = r_client_id r) → cond r = true →
  ∃ e db', (perr ← db_Prepare;
            match perr with
            | Some err => mret (Some err)
            | None => db_Exec (λ now, update_where cond (f now))
            end) db = (Ret e, db') ∧ serving clk db' ∧
    changed (statement_step clk f) [r] (table db) (table db').
Proof.
  intros [Hh Hclk] Hu Hr Hcond Hc. pose proof Hh as [Hf _].
  unfold mbind, M_bind, db_Prepare. cbn. rewrite Hf. cbn.
  set (n := S (db_tick db)). set (now := db_clock db n).
  destruct (f now r) as [r1|e] eqn:Hfr.
  - destruct (update_changed (statement_step clk f) cond (f now) (λ _, r1) (table db) r)
      as (rows'&Hup&Hch); try done.
    { exists n. subst now. rewrite Hclk in Hfr. by rewrite Hfr. }
    destruct (exec_healthy (λ now, update_where cond (f now)) rows' db Hh Hup)
      as (db'&Hrun&Ht&Hh'&Hclk'&_).
    exists None, db'. rewrite Ht. split; [done|]. split; [|done]. split; [done|]. by rewrite Hclk'.
  - destruct (update_where cond (f now) (table db)) as [rows'|e'] eqn:Hup.
    { destruct (update_where_in _ _ _ _ r Hup) as [r1 Hr1]; [done..|]. by rewrite Hfr in Hr1. }
    exists (Some e'), (tick_db (tick_db db)). split; [|split; [done|]].
    { unfold db_Exec. cbn. rewrite Hf. fold n now. by rewrite Hup. }
    cbn. apply unchanged; [done..|]. exists n. subst now. rewrite Hclk in Hfr. by rewrite Hfr.
Qed.
End effects.

(** ** The services the updaters call *)

(** Each client has one answer, whenever it is asked for; recording a connection
    of a shape the recorder can read returns.  Neither touches the database. *)
Class UpdaterServices (W : Type) `{!Lens W Db, !AccountIdResolver W, !ConnectedClientRecorder W, !Clock W} := {
  answer : ClientID → Identity * AccountID * OrgID * option error;
  resolves cid (w : W) : ∃ w', MapClientIdToAccountId cid w = (Ret (answer cid), w') ∧
    (lget w' : Db) = lget w;
  recordable : ConnectorClientState → Prop;
  records i c (w : W) : recordable c →
    ∃ res w', RecordConnectedClient i c w = (Ret res, w') ∧ (lget w' : Db) = lget w;
  tells_time (w : W) : ∃ t w', Now w = (Ret t, w') ∧ (lget w' : Db) = lget w;
}.

Section services.
Context `{!Postgres} {W : Type} `{!Lens W Db, !AccountIdResolver W, !ConnectedClientRecorder W,
  !Clock W, !UpdaterServices W}.

(** The recorder may answer this for the connection. *)
Definition may_record (identity : Identity) (c : ConnectorClientState) (res : option error) : Prop :=
  ∃ w : W, (RecordConnectedClient identity c w).1 = Ret res.

(** What the stale updater makes of a row: a failed lookup takes its tenant away
    and counts; else it is refreshed when the recorder has taken it, and left when
    the recorder has reported an error. *)
Definition stale_step (clk : nat → time) (r r' : Row) : Prop :=
  match stale_state r, answer (r_client_id r) with
  | None, _ => r' = r
  | Some _, (_, _, _, Some _) => statement_step clk failed_row r r'
  | Some c, (identity, _, _, None) =>
      (may_record identity c None ∧ ∃ n, r' = refreshed_row (clk n) r) ∨
      ((∃ e, may_record identity c (Some e)) ∧ r' = r)
  end.

(** The same of the columns, without the statements. *)
Definition stale_outcome (clk : nat → time) (r r' : Row) : Prop :=
  match r_tenant_lookup_failure_count r, answer (r_client_id r) with
  | None, _ => r' = r
  | Some k, (_, _, _, Some _) =>
      if (k <? int4_max)%Z
      then r_org_id r' = EmptyString ∧ r_account r' = Some EmptyString ∧
           r_tenant_lookup_failure_count r' = Some (k + 1)%Z ∧
           ∃ n, r_tenant_lookup_timestamp r' = Some (clk n)
      else r' = r
  | Some _, (identity, _, _, None) =>
      (r_org_id r' = r_org_id r ∧ r_account r' = r_account r ∧
       r_tenant_lookup_failure_count r' = Some 0%Z ∧ ∃ n, r_stale_timestamp r' = clk n) ∨
      (r' = r ∧ ∃ c e, stale_state r = Some c ∧ may_record identity c (Some e))
  end.

Lemma stale_step_outcome clk r r' : stale_step clk r r' → stale_outcome clk r r'.
Proof.
  unfold stale_step, stale_outcome. destruct (stale_state r) as [c|] eqn:Hst;
    unfold stale_state in Hst; destruct (r_tenant_lookup_failure_count r) as [k|] eqn:Hk; try done.
  destruct (answer (r_client_id r)) as [[[identity ?] ?] [e|]].
  - intros [n ->]. unfold failed_row. rewrite Hk. destruct (k <? int4_max)%Z; [|done].
    split_and!; [done..|by exists n].
  - intros [[_ [n ->]]|[[e He] ->]]; [left|right]; [split_and!; [done..|by exists n]|eauto].
Qed.

(** What the tenantless updater makes of a row: it gets the tenant found, if
    any. *)
Definition tenantless_step (clk : nat → time) (r r' : Row) : Prop :=
  match answer (r_client_id r) with
  | (_, _, _, Some _) => statement_step clk failed_row r r'
  | (_, account, org, None) => statement_step clk (λ _, successful_row org account) r r'
  end.

Lemma failed_client now r r' : failed_row now r = inl r' → r_client_id r' = r_client_id r.
Proof. unfold failed_row. repeat case_match; naive_solver. Qed.

Lemma successful_client org account r r' :
  successful_row org account r = inl r' → r_client_id r' = r_client_id r.
Proof. unfold successful_row. repeat case_match; naive_solver. Qed.

Lemma stale_step_client clk : keeps_client (stale_step clk).
Proof.
  intros r r'. unfold stale_step. destruct (stale_state r); [|by intros ->].
  destruct (answer _) as [[[? ?] ?] [e|]].
  - intros [n ->]. destruct (failed_row _ r) eqn:E; [|done]. by apply failed_client in E.
  - by intros [[_ [n ->]]|[_ ->]].
Qed.

Lemma tenantless_step_client clk : keeps_client (tenantless_step clk).
Proof.
  intros r r'. unfold tenantless_step. destruct (answer _) as [[[? ?] ?] [e|]]; intros [n ->].
  - destruct (failed_row _ r) eqn:E; [|done]. by apply failed_client in E.
  - destruct (successful_row _ _ r) eqn:E; [|done]. by apply successful_client in E.
Qed.

Lemma refresh_changed clk c db r :
  serving clk db → unique_clients (table db) → r ∈ table db →
  ccClientID c = r_client_id r → ccOrgID c = r_org_id r →
  ∃ db', RecordUpdatedStaleTimestamp c db = (Ret tt, db') ∧ serving clk db' ∧
    changed (λ r r', ∃ n, r' = refreshed_row (clk n) r) [r] (table db) (table db').
Proof.
  intros [Hh Hclk] Hu Hr Hc Ho. pose proof Hh as [Hf _].
  unfold RecordUpdatedStaleTimestamp. rewrite Hc, Ho. unfold mbind, M_bind, db_Prepare. cbn. rewrite Hf. cbn.
  set (cond := λ r0, bool_decide (r_org_id r0 = r_org_id r) && bool_decide (r_client_id r0 = r_client_id r)).
  set (now := db_clock db (S (db_tick db))).
  destruct (update_changed (λ r r', ∃ n, r' = refreshed_row (clk n) r) cond
    (λ r0, inl (refreshed_row now r0)) (refreshed_row now) (table db) r) as (rows'&Hup&Hch); try done.
  - exists (S (db_tick db)). subst now. by rewrite Hclk.
  - intros x. unfold cond. rewrite andb_true_iff, !bool_decide_eq_true. by intros [_ ?].
  - unfold cond. by rewrite !bool_decide_eq_true_2.
  - destruct (exec_healthy (λ now, update_where cond (λ r0, inl (refreshed_row now r0))) rows' db Hh Hup)
      as (db'&Hrun&Ht&Hh'&Hclk'&_).
    fold cond. rewrite Hrun. exists db'. rewrite Ht. split; [done|]. split; [|done].
    split; [done|]. by rewrite Hclk'.
Qed.

Lemma changed_impl (P Q : Row → Row → Prop) r rows rows' :
  unique_clients rows → r ∈ rows → (∀ r', P r r' → Q r r') → changed P [r] rows rows' → changed Q [r] rows rows'.
Proof.
  intros Hu Hr HPQ Hch. unfold changed in *. apply Forall2_same_length_lookup_2.
  { by eapply Forall2_length. }
  intros i x y Hx Hy. destruct (Forall2_lookup_l _ _ _ _ _ Hch Hx) as (y'&Hy'&Hxy).
  rewrite Hy in Hy'. injection Hy' as <-. revert Hxy. case_decide as Hin; [|done].
  cbn in Hin. apply list_elem_of_singleton in Hin.
  assert (x = r) as -> by (apply (row_unique rows); [done|by eapply list_elem_of_lookup_2|done..]).
  apply HPQ.
Qed.

Lemma stale_callback clk r c (w : W) :
  stale_state r = Some c → recordable c →
  serving clk (lget w) → unique_clients (table (lget w)) → r ∈ table (lget w) →
  ∃ res w', processStaleConnection c w = (Ret res, w') ∧ serving clk (lget w') ∧
    changed (stale_step clk) [r] (table (lget w)) (table (lget w')).
Proof.
  intros Hst. pose proof Hst as Hc. revert Hc.
  unfold stale_state at 1. destruct (r_tenant_lookup_failure_count r) as [n|]; [|done].
  intros [= <-] Hrec Hs Hu Hr. set (c := Build_ConnectorClientState _ _ _ _ _ _ _ _ _) in *.
  unfold processStaleConnection. destruct (resolves (ccClientID c) w) as (w1&Hres&H1).
  rewrite (bind_ret _ _ _ _ _ Hres). change (ccClientID c) with (r_client_id r).
  destruct (answer (r_client_id r)) as [[[identity account] org] [e|]] eqn:Ha.
  - destruct (exec_changed clk (λ x, bool_decide (r_client_id x = r_client_id r)) failed_row (lget w1) r)
      as (e'&db'&Hx&Hs'&Hch); rewrite ?H1; [done..| |by apply bool_decide_eq_true|].
    { intros x. apply bool_decide_eq_true. }
    eexists (Some e), (lset db' w1). split.
    { assert (Hx' : RecordFailedTenantLookup c (lget w1) = (Ret e', db')) by exact Hx.
      unfold mbind at 1, M_bind at 1, zoom at 1. by rewrite Hx'. }
    rewrite lget_lset. split; [done|]. rewrite <-H1. eapply changed_impl; [..|exact Hch]; rewrite ?H1; [done..|].
    intros r' Hr'. unfold stale_step. by rewrite Hst, Ha.
  - destruct (records identity c w1 Hrec) as (res&w2&Hrun&H2).
    rewrite (bind_ret _ _ _ _ _ Hrun). destruct res as [e|].
    + exists (Some e), w2. rewrite H2, H1. split; [done|]. split; [done|]. apply unchanged; [done..|].
      unfold stale_step. rewrite Hst, Ha. right. split; [|done]. exists e, w1. by rewrite Hrun.
    + destruct (refresh_changed clk c (lget w2) r) as (db'&Hx&Hs'&Hch); rewrite ?H2, ?H1; [done..|].
      eexists None, (lset db' w2). split.
      { unfold mbind at 1, M_bind at 1, zoom at 1. by rewrite Hx. }
      rewrite lget_lset. split; [done|]. rewrite <-H1, <-H2.
      eapply changed_impl; [..|exact Hch]; rewrite ?H2, ?H1; [done..|].
      intros r' Hr'. unfold stale_step. rewrite Hst, Ha. left. split; [|done]. exists w1. by rewrite Hrun.
Qed.

Lemma tenantless_callback clk r c (w : W) :
  tenantless_state r = Some c →
  serving clk (lget w) → unique_clients (table (lget w)) → r ∈ table (lget w) →
  ∃ res w', processTenantlessConnection c w = (Ret res, w') ∧ serving clk (lget w') ∧
    changed (tenantless_step clk) [r] (table (lget w)) (table (lget w')).
Proof.
  unfold tenantless_state. destruct (r_tenant_lookup_timestamp r) as [ts|]; [|done].
  destruct (r_tenant_lookup_failure_count r) as [n|]; [|done].
  intros [= <-] Hs Hu Hr. set (c := Build_ConnectorClientState _ _ _ _ _ _ _ _ _) in *.
  unfold processTenantlessConnection. destruct (resolves (ccClientID c) w) as (w1&Hres&H1).
  rewrite (bind_ret _ _ _ _ _ Hres). change (ccClientID c) with (r_client_id r).
  assert (Hcond : ∀ x, bool_decide (r_client_id x = r_client_id r) = true → r_client_id x = r_client_id r)
    by (intros x; apply bool_decide_eq_true).
  assert (Hself : bool_decide (r_client_id r = r_client_id r) = true) by by apply bool_decide_eq_true.
  destruct (answer (r_client_id r)) as [[[identity account] org] [e|]] eqn:Ha.
  - destruct (exec_changed clk (λ x, bool_decide (r_client_id x = r_client_id r)) failed_row (lget w1) r)
      as (e'&db'&Hx&Hs'&Hch); rewrite ?H1; [done..|].
    eexists (Some e), (lset db' w1). split.
    { assert (Hx' : RecordFailedTenantLookup c (lget w1) = (Ret e', db')) by exact Hx.
      unfold mbind at 1, M_bind at 1, zoom at 1. by rewrite Hx'. }
    rewrite lget_lset. split; [done|]. rewrite <-H1. eapply changed_impl; [..|exact Hch]; rewrite ?H1; [done..|].
    intros r' Hr'. unfold tenantless_step. by rewrite Ha.
  - destruct (exec_changed clk (λ x, bool_decide (r_client_id x = r_client_id r))
      (λ _, successful_row org account) (lget w1) r)
      as (e'&db'&Hx&Hs'&Hch); rewrite ?H1; [done..|].
    eexists None, (lset db' w1). split.
    { assert (Hx' : RecordSuccessfulTenantLookup (with_account c account org) (lget w1) = (Ret e', db')) by exact Hx.
      unfold mbind at 1, M_bind at 1, zoom at 1. by rewrite Hx'. }
    rewrite lget_lset. split; [done|]. rewrite <-H1. eapply changed_impl; [..|exact Hch]; rewrite ?H1; [done..|].
    intros r' Hr'. unfold tenantless_step. by rewrite Ha.
Qed.

Lemma selected_rows (rows sel rest : list Row) (Q : Row → bool) :
  unique_clients rows → sel ++ rest ≡ₚ filter (λ r, Q r) rows →
  NoDup (r_client_id <$> sel) ∧ (∀ r, r ∈ sel → r ∈ rows ∧ Q r = true).
Proof.
  intros Hu Hp. split.
  - assert (Hnd : NoDup (r_client_id <$> (sel ++ rest))).
    { rewrite Hp. eapply sublist_NoDup; [exact Hu|]. apply fmap_sublist, sublist_filter. }
    rewrite fmap_app in Hnd. by apply NoDup_app in Hnd as [? _].
  - intros r Hr. assert (Hin : r ∈ filter (λ r, Q r) rows) by (rewrite <-Hp; apply elem_of_app; by left).
    apply list_elem_of_filter in Hin as [HQ%Is_true_true ?]. done.
Qed.

(** A run of either scan with its callback. *)
Lemma stale_run cutoff (chunk : nat) (w : W) :
  healthy (lget w) → unique_clients (table (lget w)) →
  (∀ r c, r ∈ table (lget w) → stale_state r = Some c → recordable c) →
  ∃ sel rest w', ProcessStaleConnections cutoff (Z.of_nat chunk) processStaleConnection w = (Ret None, w') ∧
    sel ++ rest ≡ₚ filter (λ r, is_stale cutoff r) (table (lget w)) ∧
    length sel = Nat.min chunk (length (filter (λ r, is_stale cutoff r) (table (lget w)))) ∧
    (∀ r r', r ∈ sel → r' ∈ rest → (r_stale_timestamp r ≤ r_stale_timestamp r')%Z) ∧
    serving (db_clock (lget w)) (lget w') ∧
    changed (stale_step (db_clock (lget w))) sel (table (lget w)) (table (lget w')).
Proof.
  intros Hh Hu Hrec.
  destruct (select_chunk older_stale chunk (filter (λ r, is_stale cutoff r) (table (lget w))))
    as (sel&rest&Hsel&Hp&Hl&_&Ho).
  destruct (selected_rows _ _ _ _ Hu Hp) as [Hnd Hin].
  set (w1 := lset (tick_db (tick_db (lget w))) w).
  destruct (process_rows_changed (db_clock (lget w)) (stale_step (db_clock (lget w))) stale_state
    processStaleConnection sel w1) as (w'&Hrun&Hs&Hch); unfold w1; rewrite ?lget_lset.
  - apply stale_step_client.
  - intros r Hr. destruct (stale_state r) as [c|] eqn:Hst.
    + intros w0 ? ? ?. apply stale_callback; [done| |done..]. eapply Hrec; [by apply Hin|done].
    + unfold stale_step. by rewrite Hst.
  - done.
  - done.
  - done.
  - intros r Hr. by apply Hin.
  - unfold w1 in Hch. rewrite lget_lset in Hch. exists sel, rest, w'. split; [|done]. unfold ProcessStaleConnections.
    rewrite (scan_unfold _ _ sel) by done. fold w1. by rewrite (bind_ret _ _ _ _ _ Hrun).
Qed.

Lemma tenantless_run cutoff (chunk : nat) maxFailures (w : W) :
  healthy (lget w) → unique_clients (table (lget w)) →
  ∃ sel rest w', ProcessTenantlessConnections cutoff (Z.of_nat chunk) maxFailures
      processTenantlessConnection w = (Ret None, w') ∧
    sel ++ rest ≡ₚ filter (λ r, is_tenantless cutoff maxFailures r) (table (lget w)) ∧
    length sel = Nat.min chunk (length (filter (λ r, is_tenantless cutoff maxFailures r) (table (lget w)))) ∧
    (∀ r r', r ∈ sel → r' ∈ rest → (lookup_time r ≤ lookup_time r')%Z) ∧
    serving (db_clock (lget w)) (lget w') ∧
    changed (tenantless_step (db_clock (lget w))) sel (table (lget w)) (table (lget w')).
Proof.
  intros Hh Hu.
  destruct (select_chunk older_lookup chunk (filter (λ r, is_tenantless cutoff maxFailures r) (table (lget w))))
    as (sel&rest&Hsel&Hp&Hl&_&Ho).
  destruct (selected_rows _ _ _ _ Hu Hp) as [Hnd Hin].
  set (w1 := lset (tick_db (tick_db (lget w))) w).
  destruct (process_rows_changed (db_clock (lget w)) (tenantless_step (db_clock (lget w))) tenantless_state
    processTenantlessConnection sel w1) as (w'&Hrun&Hs&Hch); unfold w1; rewrite ?lget_lset.
  - apply tenantless_step_client.
  - intros r Hr. destruct (Hin r Hr) as [_ Ht]. unfold is_tenantless in Ht.
    destruct (tenantless_state r) as [c|] eqn:Hst.
    + intros w0 ? ? ?. by apply tenantless_callback.
    + unfold tenantless_state in Hst. destruct (r_tenant_lookup_timestamp r);
        [destruct (r_tenant_lookup_failure_count r); [done|]|]; by rewrite !andb_false_r in Ht.
  - done.
  - done.
  - done.
  - intros r Hr. by apply Hin.
  - unfold w1 in Hch. rewrite lget_lset in Hch. exists sel, rest, w'. split; [|done]. unfold ProcessTenantlessConnections.
    rewrite (scan_unfold _ _ sel) by done. fold w1. by rewrite (bind_ret _ _ _ _ _ Hrun).
Qed.

(** A resolver whose answers fit the columns. *)
Definition answers_fit : Prop := ∀ cid, match answer cid with
  | (_, account, org, None) => varchar 20 org = inl org ∧ varchar 10 account = inl account
  | _ => True
  end.

Definition waiting (cutoff : time) (maxFailures : Z) (rows : list Row) : list Row :=
  filter (λ r, is_tenantless cutoff maxFailures r) rows.

(** A row the updater has handled is not waiting any more, as of any time before. *)
Lemma handled_not_waiting clk cutoff cutoff' maxFailures r r' :
  answers_fit → (maxFailures ≤ int4_max)%Z → (∀ n, (timestamptz_in cutoff ≤ clk n)%Z) →
  is_tenantless cutoff' maxFailures r = true → tenantless_step clk r r' →
  is_tenantless cutoff maxFailures r' = false.
Proof.
  intros Hfit Hmax Hclk Ht. unfold tenantless_step. specialize (Hfit (r_client_id r)).
  destruct (answer (r_client_id r)) as [[[i account] org] [e|]]; intros [n ->].
  - unfold is_tenantless in Ht. rewrite !andb_true_iff in Ht. destruct Ht as [_ Hc].
    unfold failed_row. destruct (r_tenant_lookup_failure_count r) as [k|]; [|done].
    rewrite (proj2 (Z.ltb_lt k int4_max)) by lia.
    unfold is_tenantless. cbn. rewrite (proj2 (Z.ltb_ge _ _) (Hclk n)). by rewrite andb_false_r.
  - unfold successful_row. destruct Hfit as [-> ->]. unfold is_tenantless. cbn. by rewrite andb_false_r.
Qed.

Lemma changed_waiting (P : Row → Row → Prop) (T : Row → bool) sel rows rows' :
  (∀ r r', r ∈ rows → r_client_id r ∈ r_client_id <$> sel → P r r' → T r' = false) →
  changed P sel rows rows' →
  filter (λ r, T r) rows' = filter (λ r, r_client_id r ∉ r_client_id <$> sel) (filter (λ r, T r) rows).
Proof.
  intros HP Hc. unfold changed in Hc. induction Hc as [|r r' l l' Hr _ IH]; [done|].
  specialize (IH (λ x x' Hx, HP x x' (list_elem_of_further _ _ _ Hx))). revert Hr. case_decide as Hd; intros Hr.
  - rewrite filter_cons_False by (rewrite (HP r r'); [by intros []|left|done..]). rewrite IH.
    destruct (T r) eqn:HT.
    + rewrite (filter_cons_True (λ r, T r)) by by rewrite HT. by rewrite filter_cons_False by (by intros []).
    + by rewrite (filter_cons_False (λ r, T r)) by (rewrite HT; by intros []).
  - subst r'. destruct (T r) eqn:HT.
    + rewrite !(filter_cons_True (λ r, T r)) by by rewrite HT. by rewrite filter_cons_True, IH.
    + by rewrite !(filter_cons_False (λ r, T r)) by (rewrite HT; by intros []).
Qed.

(** What a run leaves of the rows that were waiting as of an earlier time. *)
Lemma run_leaves clk cutoff cutoff' maxFailures rows rows' sel rest :
  unique_clients rows → answers_fit → (maxFailures ≤ int4_max)%Z →
  (∀ n, (timestamptz_in cutoff ≤ clk n)%Z) →
  (∀ r, is_tenantless cutoff maxFailures r = true → is_tenantless cutoff' maxFailures r = true) →
  sel ++ rest ≡ₚ waiting cutoff' maxFailures rows → changed (tenantless_step clk) sel rows rows' →
  waiting cutoff maxFailures rows' ≡ₚ filter (λ r, is_tenantless cutoff maxFailures r) rest.
Proof.
  intros Hu Hfit Hmax Hclk Hsub Hp Hc. unfold waiting in *.
  destruct (selected_rows rows sel rest _ Hu Hp) as [_ Hin].
  rewrite (changed_waiting (tenantless_step clk) _ sel rows rows'); [|clear rows' Hc|done].
  - assert (Hq : filter (λ r, is_tenantless cutoff maxFailures r) rows
        ≡ₚ filter (λ r, is_tenantless cutoff maxFailures r) (sel ++ rest)).
    { rewrite Hp, list_filter_filter. erewrite list_filter_iff; [done|]. intros r. split; [|by intros [? _]].
      intros Hr. split; [done|]. apply Is_true_true, Hsub, Is_true_true, Hr. }
    rewrite Hq, filter_app, filter_app, filter_none, filter_all; [done| |].
    + assert (Hnd : NoDup (r_client_id <$> (sel ++ rest))).
      { rewrite Hp. eapply sublist_NoDup; [exact Hu|]. apply fmap_sublist, sublist_filter. }
      rewrite fmap_app in Hnd. apply NoDup_app in Hnd as (_&Hdis&_).
      apply Forall_forall. intros r [_ Hr]%list_elem_of_filter Hcl. apply (Hdis _ Hcl). by apply list_elem_of_fmap_2.
    + apply Forall_forall. intros r [_ Hr]%list_elem_of_filter Hn. by apply Hn, list_elem_of_fmap_2.
  - intros r r' Hr Hcl Hstep. apply list_elem_of_fmap in Hcl as (r0&Heq&Hr0).
    destruct (Hin r0 Hr0) as [Hr0' Ht].
    assert (r = r0) as -> by (apply (row_unique rows); auto). by eapply handled_not_waiting.
Qed.

Lemma waiting_earlier `{!PostgresLaws} cutoff cutoff' maxFailures r :
  (cutoff ≤ cutoff')%Z → is_tenantless cutoff maxFailures r = true → is_tenantless cutoff' maxFailures r = true.
Proof.
  intros Hle%timestamptz_mono. unfold is_tenantless. rewrite !andb_true_iff. intros [[Ho Ht] Hf].
  split_and!; [done| |done]. destruct (r_tenant_lookup_timestamp r); [|done].
  apply Z.ltb_lt. apply Z.ltb_lt in Ht. lia.
Qed.

(** Of the rows waiting as of a later time, those waiting before are the oldest. *)
Lemma waiting_older cutoff cutoff' maxFailures r r' :
  is_tenantless cutoff' maxFailures r = true → is_tenantless cutoff maxFailures r = false →
  is_tenantless cutoff maxFailures r' = true → (lookup_time r' < lookup_time r)%Z.
Proof.
  unfold is_tenantless, lookup_time. rewrite !andb_true_iff. intros [[-> Ht] ->] Hn [[_ Ht'] _].
  destruct (r_tenant_lookup_timestamp r) as [t|]; [|done]. destruct (r_tenant_lookup_timestamp r') as [t'|]; [|done].
  rewrite andb_true_l, andb_true_r in Hn. apply Z.ltb_ge in Hn. apply Z.ltb_lt in Ht'. cbn. lia.
Qed.

(** A run takes those first. *)
Lemma takes_oldest cutoff cutoff' maxFailures (sel rest rows : list Row) :
  (∀ r, is_tenantless cutoff maxFailures r = true → is_tenantless cutoff' maxFailures r = true) →
  sel ++ rest ≡ₚ waiting cutoff' maxFailures rows →
  (∀ r r', r ∈ sel → r' ∈ rest → (lookup_time r ≤ lookup_time r')%Z) →
  Forall (λ r, is_tenantless cutoff maxFailures r) sel ∨
  filter (λ r, is_tenantless cutoff maxFailures r) rest = [].
Proof.
  intros Hsub Hp Ho. destruct (decide (Forall (λ r, is_tenantless cutoff maxFailures r) sel)) as [|Hn]; [by left|right].
  apply not_Forall_Exists, Exists_exists in Hn as (r&Hr&Hno); [|intros ?; apply _].
  apply filter_none, Forall_forall. intros r' Hr' Hyes.
  assert (Hin : r ∈ waiting cutoff' maxFailures rows) by (rewrite <-Hp; apply elem_of_app; by left).
  apply list_elem_of_filter in Hin as [Ht%Is_true_true _].
  pose proof (waiting_older cutoff cutoff' maxFailures r r' Ht) as Hlt.
  apply Is_true_false in Hno. apply Is_true_true in Hyes.
  specialize (Hlt Hno Hyes). specialize (Ho r r' Hr Hr'). lia.
Qed.

(** The cutoff of a run that starts at a time. *)
Definition cutoff_at (cfg : Config) (t : time) : time :=
  (t + wrap64 (-1 * TenantlessConnectionTimestampOffset cfg))%Z.

Lemma updater_run cfg (chunk : nat) t (w w0 : W) :
  healthy (lget w) → unique_clients (table (lget w)) →
  TenantlessConnectionUpdaterChunkSize cfg = Z.of_nat chunk → Now w = (Ret t, w0) →
  let rows := table (lget w) in
  let queue := waiting (cutoff_at cfg t) (TenantlessConnectionMaxLookupFailures cfg) rows in
  ∃ sel rest w', startTenantlessConnectionUpdater cfg w = (Ret tt, w') ∧
    sel ++ rest ≡ₚ queue ∧ length sel = Nat.min chunk (length queue) ∧
    (∀ r r', r ∈ sel → r' ∈ rest → (lookup_time r ≤ lookup_time r')%Z) ∧
    serving (db_clock (lget w)) (lget w') ∧ unique_clients (table (lget w')) ∧
    changed (tenantless_step (db_clock (lget w))) sel rows (table (lget w')).
Proof.
  intros Hh Hu Hchunk Ht rows queue. destruct (tells_time w) as (t'&w1&Ht'&H1).
  rewrite Ht in Ht'. injection Ht' as <- <-.
  destruct (tenantless_run (cutoff_at cfg t) chunk (TenantlessConnectionMaxLookupFailures cfg) w0)
    as (sel&rest&w'&Hrun&Hp&Hl&Ho&Hs&Hch); rewrite ?H1; [done..|]. rewrite H1 in Hp, Hl, Hs, Hch.
  exists sel, rest, w'. split.
  { unfold startTenantlessConnectionUpdater. rewrite (bind_ret _ _ _ _ _ Ht), Hchunk.
    fold (cutoff_at cfg t). by rewrite (bind_ret _ _ _ _ _ Hrun). }
  split_and!; try done. unfold unique_clients.
  by rewrite (changed_clients _ _ _ _ (tenantless_step_client _) Hch).
Qed.

(** Runs of the updater one after the other, with the times at which they start. *)
Inductive updater_runs (cfg : Config) : list time → W → W → Prop :=
| runs_none w : updater_runs cfg [] w w
| runs_next t ts w w0 w1 w2 : Now w = (Ret t, w0) →
    startTenantlessConnectionUpdater cfg w = (Ret tt, w1) →
    updater_runs cfg ts w1 w2 → updater_runs cfg (t :: ts) w w2.

(** What one run, and some runs, may make of a row. *)
Definition once_or_left (clk : nat → time) (r r' : Row) : Prop :=
  r' = r ∨ r_org_id r = EmptyString ∧ tenantless_step clk r r'.
Definition handled_or_left (clk : nat → time) (r r' : Row) : Prop :=
  r' = r ∨ r_org_id r = EmptyString ∧ tc (tenantless_step clk) r r'.

Lemma handled_step clk r1 r2 r3 :
  once_or_left clk r1 r2 → handled_or_left clk r2 r3 → handled_or_left clk r1 r3.
Proof.
  intros [->|[Ho Hs]]; [done|]. intros [->|[_ Ht]]; right; (split; [done|]); [by apply tc_once|by eapply tc_l].
Qed.

Lemma changed_once clk cutoff maxFailures rows rows' sel rest :
  unique_clients rows → sel ++ rest ≡ₚ waiting cutoff maxFailures rows →
  changed (tenantless_step clk) sel rows rows' → Forall2 (once_or_left clk) rows rows'.
Proof.
  intros Hu Hp Hch. destruct (selected_rows rows sel rest _ Hu Hp) as [_ Hin].
  apply Forall2_same_length_lookup_2; [by eapply Forall2_length|]. intros i r r' Hr Hr'.
  destruct (Forall2_lookup_l _ _ _ _ _ Hch Hr) as (y&Hy&Hxy). rewrite Hr' in Hy. injection Hy as <-.
  revert Hxy. case_decide as Hd; [|by left]. intros Hstep. right. split; [|done].
  apply list_elem_of_fmap in Hd as (r0&Heq&Hr0). destruct (Hin r0 Hr0) as [Hr0' Ht].
  assert (r = r0) as -> by (apply (row_unique rows); [done|by eapply list_elem_of_lookup_2|done..]).
  unfold is_tenantless in Ht. rewrite !andb_true_iff, bool_decide_eq_true in Ht. by destruct Ht as [[? _] _].
Qed.

Lemma filter_full {A} (P : A → Prop) `{!∀ x, Decision (P x)} l : length l ≤ length (filter P l) → filter P l = l.
Proof.
  intros Hl. apply filter_all, Forall_forall. intros x Hx.
  destruct (decide (P x)) as [|Hn]; [done|]. pose proof (length_filter_lt P l x Hx Hn). lia.
Qed.

Section queue.
Context `{!PostgresLaws} (cfg : Config) (chunk : nat) (t0 : time) (clk : nat → time).
Hypothesis fits : answers_fit.
Hypothesis few : (TenantlessConnectionMaxLookupFailures cfg ≤ int4_max)%Z.
Hypothesis chunks : TenantlessConnectionUpdaterChunkSize cfg = Z.of_nat chunk.
Hypothesis clocks : ∀ n, (timestamptz_in (cutoff_at cfg t0) ≤ clk n)%Z.

Definition queue (w : W) : list Row :=
  waiting (cutoff_at cfg t0) (TenantlessConnectionMaxLookupFailures cfg) (table (lget w)).

(** A run that starts after [t0] and the rows that were waiting then. *)
Lemma run_on_queue t (w w0 w1 : W) :
  serving clk (lget w) → unique_clients (table (lget w)) → (t0 ≤ t)%Z →
  Now w = (Ret t, w0) → startTenantlessConnectionUpdater cfg w = (Ret tt, w1) →
  ∃ sel rest, serving clk (lget w1) ∧ unique_clients (table (lget w1)) ∧
    Forall2 (once_or_left clk) (table (lget w)) (table (lget w1)) ∧
    length (queue w1) ≤ length (queue w) - chunk ∧
    (chunk ≤ length (queue w) → sel ++ rest ≡ₚ queue w ∧ length sel = chunk ∧ queue w1 ≡ₚ rest ∧
       (∀ r r', r ∈ sel → r' ∈ rest → (lookup_time r ≤ lookup_time r')%Z) ∧
       changed (tenantless_step clk) sel (table (lget w)) (table (lget w1))).
Proof using Type*.
  intros [Hh Hclk] Hu Hle Hnow Hstart.
  destruct (updater_run cfg chunk t w w0 Hh Hu chunks Hnow) as (sel&rest&w'&Hrun&Hp&Hl&Ho&Hs&Hu'&Hch).
  rewrite Hrun in Hstart. injection Hstart as <-. rewrite Hclk in Hs, Hch.
  set (T := λ r, is_tenantless (cutoff_at cfg t0) (TenantlessConnectionMaxLookupFailures cfg) r).
  assert (Hsub : ∀ r, T r = true → is_tenantless (cutoff_at cfg t) (TenantlessConnectionMaxLookupFailures cfg) r = true).
  { intros r. apply waiting_earlier. unfold cutoff_at. lia. }
  pose proof (run_leaves clk _ _ _ _ _ _ _ Hu fits few clocks Hsub Hp Hch) as Hleft.
  change (queue w' ≡ₚ filter (λ r, T r) rest) in Hleft. apply Permutation_length in Hleft as Hleft'.
  assert (Hq : queue w ≡ₚ filter (λ r, T r) sel ++ filter (λ r, T r) rest).
  { rewrite <-filter_app, Hp. unfold queue, waiting. rewrite list_filter_filter.
    erewrite list_filter_iff; [done|]. intros r. split; [|by intros [? _]].
    intros Hr. split; [done|]. apply Is_true_true, Hsub, Is_true_true, Hr. }
  assert (Hlen : length (queue w) = length (filter (λ r, T r) sel) + length (filter (λ r, T r) rest))
    by (by rewrite Hq, length_app).
  assert (Hall : length sel + length rest = length (waiting (cutoff_at cfg t)
    (TenantlessConnectionMaxLookupFailures cfg) (table (lget w)))) by (by rewrite <-Hp, length_app).
  pose proof (length_filter (λ r, T r) sel) as Hle1. pose proof (length_filter (λ r, T r) rest) as Hle2.
  destruct (takes_oldest _ _ _ sel rest _ Hsub Hp Ho) as [Hsel|Hrest].
  - assert (Hf : filter (λ r, T r) sel = sel) by (by apply filter_all). rewrite Hf in Hq, Hlen.
    exists sel, (filter (λ r, T r) rest). split_and!; [done..| |lia|].
    + by eapply changed_once.
    + intros Hc. split_and!; [done|lia|done| |done]. intros r r' Hr [_ Hr']%list_elem_of_filter. by apply Ho.
  - change (filter (λ r, T r) rest = []) in Hrest. rewrite Hrest in Hq, Hlen, Hleft, Hleft'. cbn in Hlen, Hleft'. exists sel, []. split_and!; [done..| |lia|].
    + by eapply changed_once.
    + intros Hc. assert (Hf : filter (λ r, T r) sel = sel).
      { apply filter_full. lia. }
      rewrite Hf in Hq. split_and!; [done|lia|done| |done]. by intros r r' _ ?%elem_of_nil.
Qed.

Lemma runs_take_oldest ts (w w' : W) :
  updater_runs cfg ts w w' → serving clk (lget w) → unique_clients (table (lget w)) → Forall (λ t, (t0 ≤ t)%Z) ts →
  length ts * chunk ≤ length (queue w) →
  ∃ sel rest, sel ++ rest ≡ₚ queue w ∧ length sel = length ts * chunk ∧
    (∀ r r', r ∈ sel → r' ∈ rest → (lookup_time r ≤ lookup_time r')%Z) ∧
    changed (tenantless_step clk) sel (table (lget w)) (table (lget w')).
Proof using Type*.
  intros Hruns. induction Hruns as [w|t ts w w0 w1 w2 Hnow Hrun _ IH]; intros Hs Hu Hts Hlen.
  { exists [], (queue w). split_and!; [done|done| |by apply changed_nil]. by intros r r' ?%elem_of_nil. }
  apply Forall_cons in Hts as [Ht Hts]. cbn [length] in Hlen.
  destruct (run_on_queue t w w0 w1 Hs Hu Ht Hnow Hrun) as (sel1&rest1&Hs1&Hu1&_&_&Htake).
  destruct Htake as (Hp1&Hl1&Hq1&Ho1&Hch1); [lia|].
  assert (Hlq : length (queue w) = chunk + length (queue w1)) by (by rewrite <-Hp1, length_app, Hl1, Hq1).
  destruct (IH Hs1 Hu1 Hts) as (sel2&rest2&Hp2&Hl2&Ho2&Hch2); [lia|].
  assert (Hr1 : sel2 ++ rest2 ≡ₚ rest1) by by rewrite Hp2.
  exists (sel1 ++ sel2), rest2. split_and!.
  - by rewrite <-app_assoc, Hr1.
  - rewrite length_app, Hl1, Hl2. cbn. lia.
  - intros r r' [Hr|Hr]%elem_of_app Hr'; [|by apply Ho2]. apply Ho1; [done|].
    rewrite <-Hr1. apply elem_of_app. by right.
  - eapply changed_app; [apply tenantless_step_client| |exact Hch1|exact Hch2].
    assert (Hnd : NoDup (r_client_id <$> (sel1 ++ rest1))).
    { rewrite Hp1. eapply sublist_NoDup; [exact Hu|]. apply fmap_sublist, sublist_filter. }
    rewrite fmap_app in Hnd. apply NoDup_app in Hnd as (_&Hdis&_). intros cid Hc1 Hc2. apply (Hdis cid Hc1).
    rewrite <-Hr1, fmap_app. apply elem_of_app. by left.
Qed.

Lemma runs_drain ts (w w' : W) :
  updater_runs cfg ts w w' → serving clk (lget w) → unique_clients (table (lget w)) → Forall (λ t, (t0 ≤ t)%Z) ts →
  Forall2 (handled_or_left clk) (table (lget w)) (table (lget w')) ∧
  (length (queue w) ≤ length ts * chunk → queue w' = []).
Proof using Type*.
  intros Hruns. induction Hruns as [w|t ts w w0 w1 w2 Hnow Hrun _ IH]; intros Hs Hu Hts.
  { split; [apply Forall_Forall2_diag, Forall_forall; by left|]. cbn. intros Hl. apply nil_length_inv. lia. }
  apply Forall_cons in Hts as [Ht Hts].
  destruct (run_on_queue t w w0 w1 Hs Hu Ht Hnow Hrun) as (sel&rest&Hs1&Hu1&Hone&Hlen&_).
  destruct (IH Hs1 Hu1 Hts) as [Hmany Hdrain]. split.
  - eapply Forall2_trans; [|exact Hone|exact Hmany]. intros r1 r2 r3. apply handled_step.
  - cbn [length]. intros Hl. apply Hdrain. lia.
Qed.
End queue.

Lemma runs_return cfg chunk k (w : W) :
  healthy (lget w) → unique_clients (table (lget w)) →
  TenantlessConnectionUpdaterChunkSize cfg = Z.of_nat chunk →
  ∃ ts w', length ts = k ∧ updater_runs cfg ts w w'.
Proof using Type*.
  intros Hh Hu Hchunk. revert w Hh Hu. induction k as [|k IH]; intros w Hh Hu.
  { exists [], w. split; [done|constructor]. }
  destruct (tells_time w) as (t&w0&Hnow&_).
  destruct (updater_run cfg chunk t w w0 Hh Hu Hchunk Hnow) as (sel&rest&w1&Hrun&_&_&_&[Hh1 _]&Hu1&_).
  destruct (IH w1 Hh1 Hu1) as (ts&w2&<-&Hruns). exists (t :: ts), w2. split; [done|by econstructor].
Qed.

(** ** Properties *)

(** C21: The tenantless updater drains its queue.  While the database answers, any
    number of its runs return.  Take the rows that are waiting as of a time from
    which on the runs start, each with the cutoff of its own start.  As long as
    the runs have not taken as many rows as were waiting, they have handled exactly
    the oldest of them, a chunk in each run, each exactly once - so no lookup is
    repeated before every row has had one - and no other row has changed.  Once
    they could have taken them all, every one has been handled, at least once (its
    lookup may have failed and be repeated), and none of them is waiting as of that
    time; and a row that has a tenant is never touched.  A handled row has the
    tenant found, or its failure is counted.  This is for a resolver whose answers
    fit the columns (an answer that does not leaves its row waiting), and for clocks
    of which the database's is not behind the first cutoff. *)
Theorem tenantless_updater_drains `{!PostgresLaws} cfg chunk t0 w :
  healthy (lget w) → unique_clients (table (lget w)) → answers_fit →
  (TenantlessConnectionMaxLookupFailures cfg ≤ int4_max)%Z →
  TenantlessConnectionUpdaterChunkSize cfg = Z.of_nat chunk →
  (∀ n, (timestamptz_in (cutoff_at cfg t0) ≤ db_clock (lget w) n)%Z) →
  let queue := waiting (cutoff_at cfg t0) (TenantlessConnectionMaxLookupFailures cfg) in
  let step := tenantless_step (db_clock (lget w)) in
  (∀ k, ∃ ts w', length ts = k ∧ updater_runs cfg ts w w') ∧
  ∀ ts w', updater_runs cfg ts w w' → Forall (λ t, (t0 ≤ t)%Z) ts →
    (length ts * chunk ≤ length (queue (table (lget w))) →
     ∃ sel rest, sel ++ rest ≡ₚ queue (table (lget w)) ∧ length sel = length ts * chunk ∧
       (∀ r r', r ∈ sel → r' ∈ rest → (lookup_time r ≤ lookup_time r')%Z) ∧
       changed step sel (table (lget w)) (table (lget w'))) ∧
    (length (queue (table (lget w))) ≤ length ts * chunk →
     queue (table (lget w')) = [] ∧
     Forall2 (λ r r', (r ∈ queue (table (lget w)) → tc step r r') ∧
                      (r' = r ∨ r_org_id r = EmptyString ∧ tc step r r')) (table (lget w)) (table (lget w'))).
Proof.
  intros Hh Hu Hfit Hmax Hchunk Hclk q step. split; [intros k; by eapply runs_return|].
  intros ts w' Hruns Hts. assert (Hs : serving (db_clock (lget w)) (lget w)) by done. split.
  { intros Hlen. by apply (runs_take_oldest cfg chunk t0 (db_clock (lget w))). }
  destruct (runs_drain cfg chunk t0 (db_clock (lget w)) Hfit Hmax Hchunk Hclk ts w w' Hruns Hs Hu Hts) as [Hall Hdrain].
  intros Hlen. specialize (Hdrain Hlen). split; [exact Hdrain|].
  apply Forall2_same_length_lookup_2; [by eapply Forall2_length|]. intros i r r' Hr Hr'.
  destruct (Forall2_lookup_l _ _ _ _ _ Hall Hr) as (y&Hy&Hxy). rewrite Hr' in Hy. injection Hy as <-.
  split; [|exact Hxy]. intros Hin. destruct Hxy as [->|[_ ?]]; [|done].
  assert (Hw : r ∈ queue cfg t0 w').
  { apply list_elem_of_filter. split; [by apply list_elem_of_filter in Hin as [? _]|by eapply list_elem_of_lookup_2]. }
  rewrite Hdrain in Hw. by apply elem_of_nil in Hw.
Qed.

(** C22: A run of the stale timestamp updater: with its cutoff an hour before the
    staleness, the oldest stale connections, a chunk of them at most, are each
    handled: one whose tenant cannot be looked up loses it, and the failure is
    counted with its time; any other keeps its tenant and gets a new stale
    timestamp, unless the recorder reported an error for it, in which case its row
    stays as it is.  Every other row stays as it is too, and no connection is moved
    to another tenant. *)
Theorem stale_updater_effect cfg (chunk : nat) w cutoff w0 :
  calculateStaleCutoffTime (InventoryStaleTimestampOffset cfg) w = (Ret cutoff, w0) →
  healthy (lget w) → unique_clients (table (lget w)) →
  InventoryStaleTimestampUpdaterChunkSize cfg = Z.of_nat chunk →
  (∀ r c, r ∈ table (lget w) → stale_state r = Some c → recordable c) →
  ∃ sel rest w', startInventoryStaleTimestampUpdater cfg w = (Ret tt, w') ∧
    sel ++ rest ≡ₚ filter (λ r, is_stale cutoff r) (table (lget w)) ∧
    length sel = Nat.min chunk (length (filter (λ r, is_stale cutoff r) (table (lget w)))) ∧
    (∀ r r', r ∈ sel → r' ∈ rest → (r_stale_timestamp r ≤ r_stale_timestamp r')%Z) ∧
    changed (stale_step (db_clock (lget w))) sel (table (lget w)) (table (lget w')) ∧
    changed (stale_outcome (db_clock (lget w))) sel (table (lget w)) (table (lget w')) ∧
    (∀ i r r', table (lget w) !! i = Some r → table (lget w') !! i = Some r' →
       r_org_id r' = r_org_id r ∨ r_org_id r' = EmptyString).
Proof.
  intros Hcut Hh Hu Hchunk Hrec. destruct (tells_time w) as (t&w1&Ht&H1).
  unfold calculateStaleCutoffTime in Hcut. rewrite (bind_ret _ _ _ _ _ Ht) in Hcut.
  injection Hcut as <- <-. set (cutoff := (t + _)%Z).
  destruct (stale_run cutoff chunk w1) as (sel&rest&w'&Hrun&Hp&Hl&Ho&_&Hch); rewrite ?H1; [done..|].
  rewrite H1 in Hp, Hl, Hch. exists sel, rest, w'. split.
  { unfold startInventoryStaleTimestampUpdater, calculateStaleCutoffTime.
    unfold mbind at 1, M_bind at 1. rewrite (bind_ret _ _ _ _ _ Ht). unfold mret at 1, M_ret at 1.
    rewrite Hchunk. fold cutoff. by rewrite (bind_ret _ _ _ _ _ Hrun). }
  do 4 (split; [done|]). split.
  { eapply Forall2_impl; [exact Hch|]. intros r r'. cbn. case_decide; [|done]. apply stale_step_outcome. }
  intros i r r' Hr Hr'.
  destruct (Forall2_lookup_l _ _ _ _ _ Hch Hr) as (y&Hy&Hxy). rewrite Hr' in Hy. injection Hy as <-.
  revert Hxy. case_decide; [|intros ->; by left]. intros Hstep%stale_step_outcome. revert Hstep.
  unfold stale_outcome. destruct (r_tenant_lookup_failure_count r); [|intros ->; by left].
  destruct (answer (r_client_id r)) as [[[? ?] ?] [e|]].
  - destruct (_ <? _)%Z; [intros [? _]; by right|intros ->; by left].
  - intros [(?&_)|[-> _]]; by left.
Qed.

(** C37: A lookup that succeeds without naming an org strands the connection: it
    stays without a tenant, and neither updater ever takes it up again. *)
Theorem empty_org_strands cutoff (chunk : nat) maxFailures w r identity account :
  healthy (lget w) → unique_clients (table (lget w)) → r ∈ waiting cutoff maxFailures (table (lget w)) →
  length (waiting cutoff maxFailures (table (lget w))) ≤ chunk →
  answer (r_client_id r) = (identity, account, EmptyString, None) →
  varchar 20 EmptyString = inl EmptyString → varchar 10 account = inl account →
  ∃ w' r', ProcessTenantlessConnections cutoff (Z.of_nat chunk) maxFailures
      processTenantlessConnection w = (Ret None, w') ∧
    r' ∈ table (lget w') ∧ r_client_id r' = r_client_id r ∧ r_org_id r' = EmptyString ∧
    (∀ cutoff' max', is_tenantless cutoff' max' r' = false) ∧ (∀ cutoff', is_stale cutoff' r' = false).
Proof.
  intros Hh Hu Hr Hlen Ha Hv Hv'.
  destruct (tenantless_run cutoff chunk maxFailures w Hh Hu) as (sel&rest&w1&Hrun&Hp&Hl&_&_&Hch).
  exists w1. fold (waiting cutoff maxFailures (table (lget w))) in Hp, Hl.
  assert (Hrest : rest = []).
  { assert (Heq : length (sel ++ rest) = length (waiting cutoff maxFailures (table (lget w)))) by (by rewrite Hp).
    rewrite length_app in Heq. apply nil_length_inv. lia. }
  subst rest. rewrite app_nil_r in Hp.
  assert (Hsel : r ∈ sel) by by rewrite Hp.
  apply list_elem_of_filter in Hr as [_ Hr]. apply list_elem_of_lookup in Hr as [i Hi].
  destruct (Forall2_lookup_l _ _ _ _ _ Hch Hi) as (r'&Hr'&Hstep). cbn in Hstep.
  rewrite decide_True in Hstep by by apply list_elem_of_fmap_2.
  unfold tenantless_step in Hstep. rewrite Ha in Hstep. destruct Hstep as [n ->].
  unfold successful_row in Hr'. rewrite Hv, Hv' in Hr'. eexists. split; [exact Hrun|].
  split; [by eapply list_elem_of_lookup_2|]. do 2 (split; [done|]).
  split; intros; [unfold is_tenantless; cbn; by rewrite andb_false_r|].
  unfold is_stale. cbn. by rewrite bool_decide_eq_true_2.
Qed.
End services.
