(* ===== verification/Processes.v ===== *)
(** * The processes of the service ([cmd/cloud-connector])

    - [startKafkaMessageConsumer] (kafka_message_consumer.go) and
      [startCloudConnectorApiServer] (api_server.go): what they build from the
      configuration, in which order, and how they end;
    - the periodic updaters from their start, and the commands of [main.go].

    The services are those of the other files, chosen by the configuration.  The
    background loop, the HTTP server and the waiting are the class [Supervisor];
    [MqttConsumer] has the third process, [startMqttMessageConsumer]. *)

From S2P Require Import Prelude GoStrings GoNumTime Json Domain Config Topic Protocol MqttProxy Services Repository Locators StaleStore ControlHandler AccountResolver Inventory MqttIngress KafkaConsumer Sources Pagination HttpApi Middlewares Api ApiSystem Deploy MqttConsumer Tools Server Updaters.
From stdpp Require Import options.

(** ** sync.Once *)

Record Once := { once_done : bool }.

Definition Once_Do {W} `{!Lens W Once} (f : M W unit) : M W unit :=
  once ← zoom get_state;
  if once_done once then mret tt
  else f;; zoom (λ _, (Ret tt, {| once_done := true |})).

(** ** The choices of the configuration *)

Section choices.
Context `{!Platform}.

Inductive recorder_impl :=
| InventoryRecorder (kafkaProducer : WriterConfig) (recorder : InventoryBasedConnectedClientRecorder)
| FakeRecorder.

Definition NewInventoryBasedConnectedClientRecorder (staleTimestampOffset : Z) (reporterName : string)
    : InventoryBasedConnectedClientRecorder :=
  {| StaleTimestampOffset := staleTimestampOffset; ReporterName := reporterName |}.

Definition NewConnectedClientRecorder {W} (impl : string) (cfg : Config) : M W (recorder_impl + error) :=
  if bool_decide (impl = "inventory") then
    kafkaProducer ← StartProducer (recorderKafkaProducerCfg cfg);
    mret match kafkaProducer with
         | inr err => inr err
         | inl p => inl (InventoryRecorder p (NewInventoryBasedConnectedClientRecorder
                      (InventoryStaleTimestampOffset cfg) (InventoryReporterName cfg)))
         end
  else if bool_decide (impl = "fake") then mret (inl FakeRecorder)
  else mret (inr (ErrText "Invalid ConnectedClientRecorder impl requested")).
End choices.

(** The tenant translators of the platform's library. *)
Class TenantidLib (W : Type) := {
  NewTranslator : string → Z → Translator W;
  NewTranslatorMockWithMapping : gmap string (option string) → Translator W;
}.
#[global] Hint Mode TenantidLib + : typeclass_instances.

Definition buildTenantTranslatorInstance {W} `{!TenantidLib W} (cfg : Config) : M W (Translator W) :=
  if bool_decide (TenantTranslatorImpl cfg = "translator-service")
  then mret (NewTranslator (TenantTranslatorURL cfg) (TenantTranslatorTimeout cfg))
  else if bool_decide (TenantTranslatorImpl cfg = "mock") then
    mapping ← buildTenantTranslatorMockMapping (TenantTranslatorMockMapping cfg);
    mret (NewTranslatorMockWithMapping mapping)
  else exit_process ("Invalid tenant translator impl - " +:+ TenantTranslatorImpl cfg).

(** ** Waiting *)

(** What ends the last [select]. *)
Inductive wake := Signalled | FatalProcessing | ConnectionDropped (err : error).

Class Supervisor (W : Type) `{!Platform} := {
  (** the select on [connectedChan]: whether it was notified in time *)
  AwaitConnected : Z → M W bool;
  (** [go consumeMqttMessagesFromKafka(...)], and the cancelling of its context *)
  ConsumeInBackground : ReaderConfig → (kafka_message → M W (option error)) → M W unit;
  CancelConsumer : M W unit;
  (** [utils.StartHTTPServer] with a router, and [utils.ShutdownHTTPServer] *)
  Serve : http_server → (string → Handler W) → M W unit;
  StopServing : Z → M W unit;
  AwaitStop : M W wake;
  (** the LRU of that size can be created *)
  cache_ok : Z → bool;
}.
#[global] Hint Mode Supervisor + - : typeclass_instances.

Section processes.
Context {W : Type} `{!Platform, !Supervisor W, !MqttLink W, !ProcessEvents W, !Metrics W, !Clock W, !Lens W Once}.

(** Reconnecting calls the handler again: only the first time is passed on. *)
Definition notifyOnIntialMqttConnection : M W unit := Once_Do NotifyConnected.

(** The account map is read where the resolver is built. *)
Definition resolver_of_config (cfg : Config) : option resolver_impl * option error :=
  NewAccountIdResolver (ClientIdToAccountIdImpl cfg) cfg
    (Deploy.ReadFile (ClientIdToAccountIdConfigFile cfg)) (cache_ok (W := W)).

(** *** startKafkaMessageConsumer *)

Section kafka_consumer.
Context `{!Postgres, !Lens W Db, !KafkaWriter W, !UUIDv1 W, !HttpClient W, !UUID W, !UUIDParse,
  !AuthGateway W, !XRHIDLib, !LRU W, !Lens W response, !ForeignHandlers, !Mux}.

Definition recorder_with (impl : recorder_impl) : ConnectedClientRecorder W := {|
  RecordConnectedClient := match impl with
                           | InventoryRecorder _ r => inventory_RecordConnectedClient r
                           | FakeRecorder => fake_RecordConnectedClient
                           end |}.

(** [handleMessage] over the services that were chosen. *)
Definition messageProcessor (cfg : Config) (resolver : resolver_impl) (recorder : recorder_impl)
    (sources : SourcesRecorder W) : kafka_message → M W (option error) :=
  let accounts : AccountIdResolver W := {| MapClientIdToAccountId := resolve_with resolver cfg |} in
  let clients : ConnectedClientRecorder W := recorder_with recorder in
  handleMessage (NewTopicVerifier (MqttTopicPrefix cfg)).

(** Its last part: from the connection on. *)
Definition consume_until_stopped (cfg : Config) (mgmtAddr : string) (reader : ReaderConfig)
    (process : kafka_message → M W (option error)) : M W unit :=
  connected ← AwaitConnected (2 * second);
  if negb connected then exit_process "Failed to connect to MQTT broker"
  else
    ConsumeInBackground reader process;;
    Serve (http_server_of mgmtAddr) (serve (MonitoringServer_Routes cfg));;
    why ← AwaitStop;
    (match why with
     | FatalProcessing => mret tt
     | Signalled | ConnectionDropped _ => CancelConsumer
     end);;
    StopServing (HttpShutdownTimeout cfg);;
    Disconnect_link (MqttDisconnectQuiesceTime cfg).

(** The options both processes connect with. *)
Definition service_options (cfg : Config) (brokerOptions : list MqttClientOptionsFunc)
    : list MqttClientOptionsFunc :=
  buildOnConnectionLostMqttOptions cfg (brokerOptions ++ [WithOnConnectHandler notifyOnIntialMqttConnection]).

Definition startKafkaMessageConsumer (cfg : Config) (mgmtAddr : string) : M W unit :=
  match InitializeDatabaseConnection cfg with
  | inr _ => exit_process "Unable to connect to database: "
  | inl _ =>
  match buildBrokerTlsConfigFuncList cfg with
  | inr _ => exit_process "TLS configuration error for MQTT Broker connection"
  | inl tlsConfigFuncs =>
  match NewTlsConfig tlsConfigFuncs with
  | inr _ => exit_process "Unable to configure TLS for MQTT Broker connection"
  | inl tlsConfig =>
  match resolver_of_config cfg with
  | (_, Some _) | (None, _) => exit_process "Failed to create Account ID Resolver"
  | (Some accountResolver, None) =>
      connectedClientRecorder ← NewConnectedClientRecorder (ConnectedClientRecorderImpl cfg) cfg;
      match connectedClientRecorder with
      | inr _ => exit_process "Failed to create Connected Client Recorder"
      | inl connectedClientRecorder =>
      match NewSourcesRecorder (SourcesRecorderImpl cfg) cfg with
      | (_, Some _) | (None, _) => exit_process "Failed to create Sources Recorder"
      | (Some sourcesRecorder, None) =>
          kafkaReader ← StartConsumer (buildRhcMessageKafkaConsumerConfig cfg);
          match kafkaReader with
          | inr _ => exit_process "Unable to start kafka consumer"
          | inl kafkaReader =>
              match buildDefaultMqttBrokerConfigFuncList (Some tlsConfig) cfg with
              | inr _ => exit_process "Unable to configure MQTT Broker connection"
              | inl brokerOptions =>
                  err ← CreateBrokerConnection (MqttBrokerAddress cfg) (service_options cfg brokerOptions);
                  match err with
                  | Some _ => exit_process "Unable to establish MQTT broker connection"
                  | None => consume_until_stopped cfg mgmtAddr kafkaReader
                              (messageProcessor cfg accountResolver connectedClientRecorder sourcesRecorder)
                  end
              end
          end
      end end
  end end end end.
End kafka_consumer.

(** *** startCloudConnectorApiServer *)

Section api_process.
Context `{!Postgres, !Lens W Db, !Lens W response, !MqttClient W, !UUID W, !TenantidLib W, !IdentityMiddleware W,
  !ForeignHandlers, !Mux}.
Context (int_of_nan : Z).

(** The router over everything the configuration asks for. *)
Definition api_router (cfg : Config) (translator : Translator W) : string → Handler W :=
  let factory : ConnectorClientProxyFactory W := proxy_factory cfg (NewTopicBuilder (MqttTopicPrefix cfg)) in
  serve (apiMux
    (λ org cid, zoom (buildConnectionLookupInstances cfg org cid))
    (λ org cid, zoom (NewSqlGetConnectionByClientID org cid))
    (λ org offset limit, zoom (NewSqlGetConnectionsByOrgID org offset limit))
    (λ offset limit, zoom (NewGetAllConnections offset limit)) int_of_nan cfg).

(** Its last part: from the connection on. *)
Definition serve_api_until_stopped (cfg : Config) (mgmtAddr : string) : M W unit :=
  connected ← AwaitConnected (2 * second);
  if negb connected then exit_process "Failed to connect"
  else
    tenantTranslator ← buildTenantTranslatorInstance cfg;
    Serve (http_server_of mgmtAddr) (api_router cfg tenantTranslator);;
    AwaitStop;;
    StopServing (HttpShutdownTimeout cfg);;
    Disconnect_link (MqttDisconnectQuiesceTime cfg).

Definition startCloudConnectorApiServer (cfg : Config) (mgmtAddr : string) : M W unit :=
  match InitializeDatabaseConnection cfg with
  | inr _ => exit_process "Unable to connect to database: "
  | inl _ =>
  match buildBrokerTlsConfigFuncList cfg with
  | inr _ => exit_process "TLS configuration error for MQTT Broker connection"
  | inl tlsConfigFuncs =>
  match NewTlsConfig tlsConfigFuncs with
  | inr _ => exit_process "Unable to configure TLS for MQTT Broker connection"
  | inl tlsConfig =>
  match buildDefaultMqttBrokerConfigFuncList (Some tlsConfig) cfg with
  | inr _ => exit_process "Unable to configure MQTT Broker connection"
  | inl brokerOptions =>
      err ← CreateBrokerConnection (MqttBrokerAddress cfg) (service_options cfg brokerOptions);
      match err with
      | Some _ => exit_process "Unable to establish MQTT Broker connection"
      | None => serve_api_until_stopped cfg mgmtAddr
      end
  end end end end.
End api_process.

(** *** The updaters, from their start *)

(** [kafka.Writer.Close], which flushes what is buffered. *)
Class KafkaWriterClose (W : Type) := { Close_writer : M W (option error) }.
#[global] Hint Mode KafkaWriterClose + : typeclass_instances.

Section updaters.
Context `{!Postgres, !Lens W Db, !KafkaWriter W, !KafkaWriterClose W, !UUIDv1 W, !UUID W, !AuthGateway W, !XRHIDLib, !LRU W}.

(** The recorder is built over the producer without asking [NewConnectedClientRecorder]. *)
Definition stale_timestamp_updater (cfg : Config) : M W unit :=
  match InitializeDatabaseConnection cfg with
  | inr _ => exit_process "Failed to connect to the database"
  | inl _ =>
  match resolver_of_config cfg with
  | (_, Some _) | (None, _) => exit_process "Failed to create Account ID Resolver"
  | (Some accountResolver, None) =>
      kafkaProducer ← StartProducer (updaterKafkaProducerCfg cfg);
      match kafkaProducer with
      | inr _ => exit_process "Unable to start kafka producer"
      | inl _ =>
          let accounts : AccountIdResolver W := {| MapClientIdToAccountId := resolve_with accountResolver cfg |} in
          let clients : ConnectedClientRecorder W := {|
            RecordConnectedClient := inventory_RecordConnectedClient (NewInventoryBasedConnectedClientRecorder
              (InventoryStaleTimestampOffset cfg) (InventoryReporterName cfg)) |} in
          startInventoryStaleTimestampUpdater cfg;;
          err ← Close_writer;
          match err with
          | Some _ => exit_process "Failed to close the kafka writer"
          | None => mret tt
          end
      end
  end end.

Definition tenantless_connection_updater (cfg : Config) : M W unit :=
  match InitializeDatabaseConnection cfg with
  | inr _ => exit_process "Failed to connect to the database"
  | inl _ =>
  match resolver_of_config cfg with
  | (_, Some _) | (None, _) => exit_process "Failed to create Account ID Resolver"
  | (Some accountResolver, None) =>
      let accounts : AccountIdResolver W := {| MapClientIdToAccountId := resolve_with accountResolver cfg |} in
      startTenantlessConnectionUpdater cfg
  end end.
End updaters.

(** *** main.go *)

Record cli_flags := { listenAddr : string; excludeAccounts : string; reportMode : string }.
Definition default_flags : cli_flags := {|
  listenAddr := ":8081"; excludeAccounts := "477931,6089719,540155"; reportMode := "stdout" |}.

(** What the commands run. *)
Inductive job :=
| JobMqttMessageConsumer (addr : string) | JobKafkaMessageConsumer (addr : string) | JobApiServer (addr : string)
| JobInventoryStaleTimestampUpdater | JobTenantlessConnectionUpdater | JobConnectionCount
| JobPendoReport (excluded : string) | JobStdoutReport (excluded : string) | JobNothing.

Definition root_commands : list (string * (cli_flags → job)) := [
  ("mqtt_message_consumer", λ f, JobMqttMessageConsumer (listenAddr f));
  ("inventory_stale_timestamp_updater", λ _, JobInventoryStaleTimestampUpdater);
  ("tenantless_connection_updater", λ _, JobTenantlessConnectionUpdater);
  ("api_server", λ f, JobApiServer (listenAddr f));
  ("kafka_message_consumer", λ f, JobKafkaMessageConsumer (listenAddr f));
  ("connection_count_per_account_reporter", λ f,
     if bool_decide (reportMode f = "pendo") then JobPendoReport (excludeAccounts f)
     else if bool_decide (reportMode f = "stdout") then JobStdoutReport (excludeAccounts f)
     else JobNothing);
  ("publish_connection_count", λ _, JobConnectionCount)].
End processes.

(** ** What its surroundings see of a process *)

Inductive pevent :=
| PConnect (clientID : option string) (reconnects : option bool) (accepted : bool)
| PWaited (connected : bool)
| PWoken (why : wake)
| PConsume (topic group : string)
| PCancel
| PServe (addr : string)
| PStop (timeout : Z)
| PDisconnect (quiesce : Z).

(** The calls that others see return, and each is seen once, with its answer; so is
    what a wait ended with.  Reading the clock is not seen. *)
Class ProcessLaws (W : Type) `{!Platform, !Supervisor W, !MqttLink W, !Clock W} := {
  trace : W → list pevent;
  law_Now w : ∃ t w', Now w = (Ret t, w') ∧ trace w' = trace w;
  law_AwaitConnected z w : ∃ b w', AwaitConnected z w = (Ret b, w') ∧ trace w' = trace w ++ [PWaited b];
  law_AwaitStop w : ∃ why w', AwaitStop w = (Ret why, w') ∧ trace w' = trace w ++ [PWoken why];
  law_Connect opts w : ∃ err w', Connect opts w = (Ret err, w') ∧
    trace w' = trace w ++ [PConnect (latest get_ClientID opts) (latest get_AutoReconnect opts) (bool_decide (err = None))];
  law_Consume reader process w : ∃ w', ConsumeInBackground reader process w = (Ret tt, w') ∧
    trace w' = trace w ++ [PConsume (rd_Topic reader) (rd_GroupID reader)];
  law_Cancel w : ∃ w', CancelConsumer w = (Ret tt, w') ∧ trace w' = trace w ++ [PCancel];
  law_Serve srv router w : ∃ w', Serve srv router w = (Ret tt, w') ∧ trace w' = trace w ++ [PServe (hs_Addr srv)];
  law_Stop z w : ∃ w', StopServing z w = (Ret tt, w') ∧ trace w' = trace w ++ [PStop z];
  law_Disconnect z w : ∃ w', Disconnect_link z w = (Ret tt, w') ∧ trace w' = trace w ++ [PDisconnect z];
}.

Section lifecycle.
Context {W : Type} `{!Platform, !Supervisor W, !MqttLink W, !ProcessEvents W, !Metrics W, !Clock W, !Lens W Once,
  !ProcessLaws W}.

(** The reconnections of the MQTT client notify the process once. *)
Lemma connected_once n (w : W) :
  once_done (lget w) = false →
  (∀ w : W, ∃ w', NotifyConnected w = (Ret tt, w')) →
  for_each (replicate (S n) ()) (λ _, notifyOnIntialMqttConnection) w
  = (NotifyConnected;; zoom (λ _, (Ret tt, {| once_done := true |}))) w.
Proof.
  intros Hfresh Hnot. cbn [replicate for_each].
  assert (Hfirst : notifyOnIntialMqttConnection w
    = (NotifyConnected;; zoom (λ _, (Ret tt, {| once_done := true |}))) w).
  { unfold notifyOnIntialMqttConnection, Once_Do. unfold mbind at 1, M_bind at 1, zoom at 1, get_state.
    by rewrite lset_lget, Hfresh. }
  destruct (Hnot w) as [w1 Hw1].
  set (w2 := lset {| once_done := true |} w1).
  assert (Hrun : (NotifyConnected;; zoom (λ _, (Ret tt, {| once_done := true |}))) w = (Ret tt, w2)).
  { by rewrite (bind_ret _ _ _ _ _ Hw1). }
  rewrite Hrun in *. rewrite (bind_ret _ _ _ _ _ Hfirst).
  induction n as [|n IH]; [done|]. cbn [replicate for_each].
  assert (Hlater : notifyOnIntialMqttConnection w2 = (Ret tt, w2)).
  { unfold notifyOnIntialMqttConnection, Once_Do. unfold mbind, M_bind, zoom, get_state.
    unfold w2. rewrite lget_lset. cbn. by rewrite lset_lset. }
  by rewrite (bind_ret _ _ _ _ _ Hlater).
Qed.

(** [m] ends as [P] allows, given what is seen of it. *)
Definition run {A} (m : M W A) (w : W) (P : outcome A → list pevent → Prop) : Prop :=
  ∃ o w' evs, m w = (o, w') ∧ trace w' = trace w ++ evs ∧ P o evs.

Lemma run_now {A} (m : M W A) w o (P : outcome A → list pevent → Prop) : m w = (o, w) → P o [] → run m w P.
Proof using Type. intros Hm HP. exists o, w, []. by rewrite app_nil_r. Qed.

Lemma run_bind {A B} (m : M W A) (k : A → M W B) w a w1 evs P :
  m w = (Ret a, w1) → trace w1 = trace w ++ evs → run (k a) w1 (λ o evs', P o (evs ++ evs')) → run (m ≫= k) w P.
Proof using Type.
  intros Hm He (o&w'&evs'&Hk&He'&HP). exists o, w', (evs ++ evs').
  by rewrite (bind_ret _ _ _ _ _ Hm), He', He, app_assoc.
Qed.

Lemma run_bind_quiet {A B} (m : M W A) (k : A → M W B) w a w1 P :
  m w = (Ret a, w1) → trace w1 = trace w → run (k a) w1 P → run (m ≫= k) w P.
Proof using Type. intros Hm He Hk. eapply (run_bind _ _ _ _ _ []); [exact Hm|by rewrite app_nil_r|exact Hk]. Qed.

(** kafka-go rejects the configuration of a reader, or of the recorder's writer. *)
Definition kafka_rejects (cfg : Config) : Prop :=
  let rd := buildRhcMessageKafkaConsumerConfig cfg in
  let wr := recorderKafkaProducerCfg cfg in
  is_Some (reader_invalid (cc_Brokers rd) (cc_Topic rd) (cc_GroupID rd) (cc_ConsumerOffset rd)) ∨
  is_Some (writer_invalid (pc_Brokers wr) (pc_Topic wr) (pc_BatchSize wr) (pc_BatchBytes wr)).

Lemma start_consumer_cases c (w : W) :
  (∃ why, StartConsumer c w = (Exit why, w)) ∨
  (∃ why, StartConsumer c w = (Panic why, w) ∧
     reader_invalid (cc_Brokers c) (cc_Topic c) (cc_GroupID c) (cc_ConsumerOffset c) = Some why) ∨
  (∃ e, StartConsumer c w = (Ret (inr e), w)) ∨
  ∃ r, StartConsumer c w = (Ret (inl r), w) ∧ rd_Topic r = cc_Topic c ∧ rd_GroupID r = cc_GroupID c.
Proof using Type.
  assert (Hnew : ∀ d, NewReader (W := W) {|
    rd_Brokers := cc_Brokers c; rd_Topic := cc_Topic c; rd_GroupID := cc_GroupID c;
    rd_StartOffset := cc_ConsumerOffset c; rd_Dialer := d |} w
    = match reader_invalid (cc_Brokers c) (cc_Topic c) (cc_GroupID c) (cc_ConsumerOffset c) with
      | Some why => (Panic why, w)
      | None => (Ret (inl {| rd_Brokers := cc_Brokers c; rd_Topic := cc_Topic c; rd_GroupID := cc_GroupID c;
                             rd_StartOffset := cc_ConsumerOffset c; rd_Dialer := d |}), w)
      end) by (intros d; unfold NewReader; cbn; by case_match).
  unfold StartConsumer, createDialer, createTLSConfig. destruct (cc_SaslConfig c) as [s|].
  - destruct (NewTlsConfig _) as [tls|e]; [|by eauto]. unfold mbind, M_bind, mret, M_ret.
    destruct (createSaslMechanism _ _ _) as [m|e]; [|by eauto 8]. rewrite Hnew. case_match; eauto 10.
  - unfold mbind, M_bind, mret, M_ret. rewrite Hnew. case_match; eauto 10.
Qed.

(** The connection both processes ask for. *)
Definition connects (cfg : Config) (accepted : bool) (e : pevent) : Prop :=
  ∃ cid, buildMqttClientId cfg = inl cid ∧
         e = PConnect (Some cid) (Some (negb (ShutdownOnMqttConnectionLost cfg))) accepted.

Lemma service_connection cfg tls funcs w :
  buildDefaultMqttBrokerConfigFuncList (Some tls) cfg = inl funcs →
  ∃ err w' evs, CreateBrokerConnection (MqttBrokerAddress cfg) (service_options cfg funcs) w = (Ret err, w') ∧
    trace w' = trace w ++ evs ∧
    match err with
    | None => ∃ e, evs = [e] ∧ connects cfg true e
    | Some _ => evs = [] ∨ ∃ e, evs = [e] ∧ connects cfg false e
    end.
Proof.
  intros Hfuncs.
  assert (Hopts : ∃ r w1, NewBrokerOptions (MqttBrokerAddress cfg) (service_options cfg funcs) w = (Ret r, w1) ∧
    trace w1 = trace w ∧ ∀ opts, r = inl opts → ∃ cid, buildMqttClientId cfg = inl cid ∧
      latest get_ClientID opts = Some cid ∧ latest get_AutoReconnect opts = Some (negb (ShutdownOnMqttConnectionLost cfg))).
  { unfold buildDefaultMqttBrokerConfigFuncList in Hfuncs.
    destruct (buildMqttClientId cfg) as [id|] eqn:Hid; [|done].
    unfold service_options, buildOnConnectionLostMqttOptions, NewBrokerOptions.
    destruct (bool_decide (MqttBrokerAuthType cfg = "jwt")) eqn:Hjwt.
    - destruct (buildJwtGenerator cfg id) as [g|] eqn:Hg; [|done]. injection Hfuncs as <-.
      destruct (jwt_answers trace law_Now cfg id g Hg w) as (r&w'&Hrun&Ho&_).
      destruct (ShutdownOnMqttConnectionLost cfg); cbn;
        unfold WithTlsConfig, WithClientID, WithJwtAsHttpHeader, sets, mbind, M_bind, mret, M_ret; rewrite Hrun; cbn;
        (destruct r as [token|e]; eexists _, w'; (split; [reflexivity|]); (split; [done|]); [|done];
         intros opts [= <-]; exists id; done).
    - destruct (bool_decide (MqttBrokerAuthType cfg = "password")); injection Hfuncs as <-;
        (destruct (ShutdownOnMqttConnectionLost cfg); cbn; eexists _, w; (split; [reflexivity|]); (split; [done|]);
         intros opts [= <-]; exists id; done). }
  destruct Hopts as (r&w1&Hrun&Htr&Hopts). unfold CreateBrokerConnection. rewrite (bind_ret _ _ _ _ _ Hrun).
  destruct r as [opts|e].
  - destruct (Hopts opts eq_refl) as (cid&Hid&Hc&Hr). destruct (law_Connect opts w1) as (err&w'&Hconn&Ht).
    assert (He : connects cfg (bool_decide (err = None))
      (PConnect (latest get_ClientID opts) (latest get_AutoReconnect opts) (bool_decide (err = None)))).
    { exists cid. split; [done|]. by rewrite Hc, Hr. }
    eexists err, w', _. split; [exact Hconn|]. rewrite Ht, Htr. split; [done|].
    destruct err; [right|]; by eexists.
  - exists (Some e), w1, []. rewrite app_nil_r. split_and!; [done|done|by left].
Qed.

(** ** Property *)

Section kafka.
Context `{!Postgres, !Lens W Db, !KafkaWriter W, !UUIDv1 W, !HttpClient W, !UUID W, !UUIDParse,
  !AuthGateway W, !XRHIDLib, !LRU W, !Lens W response, !ForeignHandlers, !Mux, !MqttClient W, !TenantidLib W,
  !IdentityMiddleware W}.

(** The process ends before it serves: it has not asked for the connection, was
    refused it, or has not had it in time. *)
Definition no_service (cfg : Config) (evs : list pevent) : Prop :=
  evs = [] ∨ (∃ e, connects cfg false e ∧ evs = [e]) ∨ ∃ e, connects cfg true e ∧ evs = [e; PWaited false].

(** How the Kafka consumer's process runs: it is cancelled when a signal or the
    loss of the connection has ended the wait, and only then. *)
Definition consumer_life (cfg : Config) (addr : string) (o : outcome unit) (evs : list pevent) : Prop :=
  match o with
  | Ret _ => ∃ e why, connects cfg true e ∧
      evs = [e; PWaited true; PConsume (RhcMessageKafkaTopic cfg) (RhcMessageKafkaConsumerGroup cfg); PServe addr;
             PWoken why]
            ++ (match why with
                | FatalProcessing => []
                | Signalled | ConnectionDropped _ => [PCancel]
                end)
            ++ [PStop (HttpShutdownTimeout cfg); PDisconnect (MqttDisconnectQuiesceTime cfg)]
  | Exit _ => no_service cfg evs
  | Panic _ => evs = [] ∧ kafka_rejects cfg
  end.

(** How the API server's process runs; connected, it also exits without a tenant
    translator, and panics on a mock mapping that holds something else than strings. *)
Definition api_life (cfg : Config) (addr : string) (o : outcome unit) (evs : list pevent) : Prop :=
  match o with
  | Ret _ => ∃ e why, connects cfg true e ∧
      evs = [e; PWaited true; PServe addr; PWoken why;
             PStop (HttpShutdownTimeout cfg); PDisconnect (MqttDisconnectQuiesceTime cfg)]
  | Exit _ => no_service cfg evs ∨
      (TenantTranslatorImpl cfg ≠ "translator-service" ∧ TenantTranslatorImpl cfg ≠ "mock" ∧
       ∃ e, connects cfg true e ∧ evs = [e; PWaited true])
  | Panic _ => TenantTranslatorImpl cfg = "mock" ∧
      (∃ k v, TenantTranslatorMockMapping cfg !! k = Some v ∧ as_string v = None) ∧
      ∃ e, connects cfg true e ∧ evs = [e; PWaited true]
  end.

Lemma consume_life cfg addr reader process e (w : W) :
  connects cfg true e → rd_Topic reader = RhcMessageKafkaTopic cfg → rd_GroupID reader = RhcMessageKafkaConsumerGroup cfg →
  run (consume_until_stopped cfg addr reader process) w (λ o evs, consumer_life cfg addr o (e :: evs)).
Proof.
  intros He Ht Hg. unfold consume_until_stopped.
  destruct (law_AwaitConnected (2 * second) w) as (b&w1&R1&T1). eapply run_bind; [exact R1|exact T1|].
  destruct b; cbn [negb]; [|eapply run_now; [reflexivity|]; right; right; eauto].
  destruct (law_Consume reader process w1) as (w2&R2&T2). eapply run_bind; [exact R2|exact T2|].
  destruct (law_Serve (http_server_of addr) (serve (MonitoringServer_Routes cfg)) w2) as (w3&R3&T3).
  eapply run_bind; [exact R3|exact T3|].
  destruct (law_AwaitStop w3) as (why&w4&R4&T4). eapply run_bind; [exact R4|exact T4|].
  eapply (run_bind _ _ w4 tt (match why with FatalProcessing => w4 | _ => (CancelConsumer w4).2 end)
    (match why with FatalProcessing => [] | _ => [PCancel] end)).
  { destruct (law_Cancel w4) as (w5&R5&_). destruct why; by rewrite ?R5. }
  { destruct (law_Cancel w4) as (w5&R5&T5). destruct why; rewrite ?R5, ?app_nil_r; done. }
  set (w5 := match why with FatalProcessing => w4 | _ => _ end).
  destruct (law_Stop (HttpShutdownTimeout cfg) w5) as (w6&R6&T6). eapply run_bind; [exact R6|exact T6|].
  destruct (law_Disconnect (MqttDisconnectQuiesceTime cfg) w6) as (w7&R7&T7).
  eexists _, w7, _. split; [exact R7|]. split; [exact T7|]. exists e, why. split; [done|].
  cbn [app hs_Addr http_server_of]. by rewrite Ht, Hg.
Qed.

Lemma translator_run cfg (w : W) :
  (∃ t, buildTenantTranslatorInstance cfg w = (Ret t, w)) ∨
  (∃ why, buildTenantTranslatorInstance cfg w = (Exit why, w) ∧
     TenantTranslatorImpl cfg ≠ "translator-service" ∧ TenantTranslatorImpl cfg ≠ "mock") ∨
  (∃ why, buildTenantTranslatorInstance cfg w = (Panic why, w) ∧ TenantTranslatorImpl cfg = "mock" ∧
     ∃ k v, TenantTranslatorMockMapping cfg !! k = Some v ∧ as_string v = None).
Proof.
  unfold buildTenantTranslatorInstance. case_bool_decide; [left; by eexists|].
  case_bool_decide; [|right; left; by eexists].
  assert (Hm : (∃ m, buildTenantTranslatorMockMapping (TenantTranslatorMockMapping cfg) w = (Ret m, w)) ∨
    ∃ why, buildTenantTranslatorMockMapping (TenantTranslatorMockMapping cfg) w = (Panic why, w) ∧
      ∃ k v, TenantTranslatorMockMapping cfg !! k = Some v ∧ as_string v = None).
  { unfold buildTenantTranslatorMockMapping.
    assert (Hall : ∀ k v, (k, v) ∈ map_to_list (TenantTranslatorMockMapping cfg) →
      TenantTranslatorMockMapping cfg !! k = Some v) by (intros k v; apply elem_of_map_to_list).
    revert Hall. induction (map_to_list _) as [|[k v] l IH]; intros Hall; [left; by eexists|].
    cbn [mock_mapping]. unfold assert_string, mbind, M_bind. destruct (as_string v) eqn:Hv.
    - cbn. destruct IH as [[m ->]|(why&->&Hx)]; [intros; apply Hall; by right|left; by eexists|right; by eexists].
    - right. eexists. split; [done|]. exists k, v. split; [|done]. apply Hall. by left. }
  destruct Hm as [[m Hm]|(why&Hm&Hx)].
  - left. eexists. by rewrite (bind_ret _ _ _ _ _ Hm).
  - right; right. exists why. by rewrite (bind_panic _ _ _ _ _ Hm).
Qed.

Lemma serve_life int_of_nan cfg addr e (w : W) :
  connects cfg true e →
  run (serve_api_until_stopped int_of_nan cfg addr) w (λ o evs, api_life cfg addr o (e :: evs)).
Proof.
  intros He. unfold serve_api_until_stopped.
  destruct (law_AwaitConnected (2 * second) w) as (b&w1&R1&T1). eapply run_bind; [exact R1|exact T1|].
  destruct b; cbn [negb]; [|eapply run_now; [reflexivity|]; left; right; right; eauto].
  destruct (translator_run cfg w1) as [[t Ht]|[(why&Ht&Hserv&Hmock)|(why&Ht&Hmock&Hv)]].
  2:{ eapply run_now; [by rewrite (bind_exit _ _ _ _ _ Ht)|]. right. split_and!; eauto. }
  2:{ eapply run_now; [by rewrite (bind_panic _ _ _ _ _ Ht)|]. split_and!; eauto. }
  eapply run_bind_quiet; [exact Ht|done|].
  destruct (law_Serve (http_server_of addr) (api_router int_of_nan cfg t) w1) as (w3&R3&T3).
  eapply run_bind; [exact R3|exact T3|].
  destruct (law_AwaitStop w3) as (why&w4&R4&T4). eapply run_bind; [exact R4|exact T4|].
  destruct (law_Stop (HttpShutdownTimeout cfg) w4) as (w6&R6&T6). eapply run_bind; [exact R6|exact T6|].
  destruct (law_Disconnect (MqttDisconnectQuiesceTime cfg) w6) as (w7&R7&T7).
  eexists _, w7, _. split; [exact R7|]. split; [exact T7|]. by exists e, why.
Qed.

Lemma recorder_cases impl cfg (w : W) :
  (∃ why, NewConnectedClientRecorder impl cfg w = (Exit why, w)) ∨
  (∃ why, NewConnectedClientRecorder impl cfg w = (Panic why, w) ∧ kafka_rejects cfg) ∨
  ∃ r, NewConnectedClientRecorder impl cfg w = (Ret r, w).
Proof using Type.
  unfold NewConnectedClientRecorder. case_bool_decide; [|case_bool_decide; right; right; by eexists].
  destruct (start_producer_cases (recorderKafkaProducerCfg cfg) w) as [[why Hp]|[(why&Hp&Hr)|[r Hp]]].
  - left. exists why. by rewrite (bind_exit _ _ _ _ _ Hp).
  - right; left. exists why. rewrite (bind_panic _ _ _ _ _ Hp). split; [done|]. right. by eexists.
  - right; right. eexists. by rewrite (bind_ret _ _ _ _ _ Hp).
Qed.

(** After the connection was asked for, however that ended. *)
Lemma connection_life {A} cfg tls funcs (w : W) (failed : M W A) (m : M W A) (P : outcome A → list pevent → Prop) :
  buildDefaultMqttBrokerConfigFuncList (Some tls) cfg = inl funcs →
  (∃ why, failed = exit_process why ∧ P (Exit why) [] ∧ ∀ e, connects cfg false e → P (Exit why) [e]) →
  (∀ e w', connects cfg true e → run m w' (λ o evs, P o (e :: evs))) →
  run (err ← CreateBrokerConnection (MqttBrokerAddress cfg) (service_options cfg funcs);
       match err with Some _ => failed | None => m end) w P.
Proof.
  intros Hf (why&->&Hnone&Hone) Hm.
  destruct (service_connection cfg tls funcs w Hf) as (err&w'&evs&Hrun&Ht&Hevs).
  eapply run_bind; [exact Hrun|exact Ht|]. destruct err as [x|].
  - eapply run_now; [reflexivity|]. rewrite app_nil_r. destruct Hevs as [->|(e&->&He)]; [done|by apply Hone].
  - destruct Hevs as (e&->&He). by apply Hm.
Qed.

(** What has happened so far allows the process to exit. *)
Ltac early := cbn; unfold no_service; eauto 7.

(** C32: The two service processes run as their surroundings may expect, whatever
    the configuration and whatever happens: each asks the broker at most once,
    under the configured client id, for a connection that reconnects unless it is
    to stop on a lost one, and exits when it is not asked for, is refused or is not
    there in time.  Only when it is there does the consumer fetch, from the
    configured topic and group, and are requests served; at the end requests stop
    being served first and the broker is left last.  In between the consumer is
    told to stop when a signal or the loss of the connection has ended the wait,
    and not when it was the consumer's own fatal error.  Beside that, the consumer
    panics only before anything is seen of it, on a configuration kafka-go
    rejects; the API server, connected, exits when no tenant translator is
    configured and panics on a mock mapping to something else than a string. *)
Theorem service_processes_lifecycle int_of_nan cfg addr (w : W) :
  run (startKafkaMessageConsumer cfg addr) w (consumer_life cfg addr) ∧
  run (startCloudConnectorApiServer int_of_nan cfg addr) w (api_life cfg addr).
Proof.
  split; [unfold startKafkaMessageConsumer|unfold startCloudConnectorApiServer];
    (destruct (InitializeDatabaseConnection cfg) as [info|]; [|eapply run_now; [reflexivity|early]]);
    (destruct (buildBrokerTlsConfigFuncList cfg) as [tfuncs|]; [|eapply run_now; [reflexivity|early]]);
    (destruct (NewTlsConfig tfuncs) as [tls|]; [|eapply run_now; [reflexivity|early]]).
  - destruct (resolver_of_config cfg) as [[resolver|] [e|]]; try (eapply run_now; [reflexivity|early]).
    destruct (recorder_cases (ConnectedClientRecorderImpl cfg) cfg w) as [[why Hr]|[(why&Hr&Hrej)|[[rec|e] Hr]]];
      [eapply run_now; [by rewrite (bind_exit _ _ _ _ _ Hr)|early]
      |eapply run_now; [by rewrite (bind_panic _ _ _ _ _ Hr)|done]|eapply run_bind_quiet; [exact Hr|done|]..];
      [|eapply run_now; [reflexivity|early]].
    destruct (NewSourcesRecorder (SourcesRecorderImpl cfg) cfg) as [[sources|] [e|]];
      try (eapply run_now; [reflexivity|early]).
    destruct (start_consumer_cases (buildRhcMessageKafkaConsumerConfig cfg) w) as [[why Hs]|[(why&Hs&Hrej)|[[e Hs]|(reader&Hs&Ht&Hg)]]];
      [eapply run_now; [by rewrite (bind_exit _ _ _ _ _ Hs)|early]
      |eapply run_now; [by rewrite (bind_panic _ _ _ _ _ Hs)|split; [done|left; by eexists]]|eapply run_bind_quiet; [exact Hs|done|]..];
      [eapply run_now; [reflexivity|early]|].
    destruct (buildDefaultMqttBrokerConfigFuncList (Some tls) cfg) as [funcs|] eqn:Hf;
      [|eapply run_now; [reflexivity|early]].
    eapply connection_life; [exact Hf|eexists; split; [reflexivity|]; split; [early|intros; early]|].
    intros e w' He. by apply consume_life.
  - destruct (buildDefaultMqttBrokerConfigFuncList (Some tls) cfg) as [funcs|] eqn:Hf;
      [|eapply run_now; [reflexivity|early]].
    eapply connection_life; [exact Hf|eexists; split; [reflexivity|]; split; [early|intros; early]|].
    intros e w' He. by apply serve_life.
Qed.
End kafka.
End lifecycle.

(** The router of the API process is the server whose properties [Server] proves. *)
Lemma api_router_is_server `{!ApiDeployment, !IdentityMiddleware ApiWorld, !ForeignHandlers, !Postgres, !Mux}
    int_of_nan method :
  api_router (W := ApiWorld) int_of_nan api_config aw_translator method = api_server int_of_nan method.
Proof. reflexivity. Qed.

(** ** Witness: a scripted environment *)

Record PEnv := { pe_db : Db; pe_response : response; pe_once : Once; pe_trace : list pevent }.
Definition pe_see (ev : pevent) : M PEnv unit := λ e,
  (Ret tt, {| pe_db := pe_db e; pe_response := pe_response e; pe_once := pe_once e; pe_trace := pe_trace e ++ [ev] |}).

#[local] Program Instance pe_db_lens : Lens PEnv Db := {
  lget := pe_db;
  lset x e := {| pe_db := x; pe_response := pe_response e; pe_once := pe_once e; pe_trace := pe_trace e |} }.
Next Obligation. done. Qed.
Next Obligation. by intros []. Qed.
Next Obligation. done. Qed.
#[local] Program Instance pe_response_lens : Lens PEnv response := {
  lget := pe_response;
  lset x e := {| pe_db := pe_db e; pe_response := x; pe_once := pe_once e; pe_trace := pe_trace e |} }.
Next Obligation. done. Qed.
Next Obligation. by intros []. Qed.
Next Obligation. done. Qed.
#[local] Program Instance pe_once_lens : Lens PEnv Once := {
  lget := pe_once;
  lset x e := {| pe_db := pe_db e; pe_response := pe_response e; pe_once := x; pe_trace := pe_trace e |} }.
Next Obligation. done. Qed.
Next Obligation. by intros []. Qed.
Next Obligation. done. Qed.

(** The broker answers; the process is stopped by a signal. *)
#[local] Instance pe_link : MqttLink PEnv := {
  Connect opts := pe_see (PConnect (latest get_ClientID opts) (latest get_AutoReconnect opts) true);; mret None;
  Subscribe _ _ _ := mret None;
  Disconnect_link z := pe_see (PDisconnect z) }.
#[local] Instance pe_supervisor : Supervisor PEnv := {
  AwaitConnected _ := pe_see (PWaited true);; mret true;
  ConsumeInBackground reader _ := pe_see (PConsume (rd_Topic reader) (rd_GroupID reader));
  CancelConsumer := pe_see PCancel;
  Serve srv _ := pe_see (PServe (hs_Addr srv));
  StopServing z := pe_see (PStop z);
  AwaitStop := pe_see (PWoken Signalled);; mret Signalled;
  cache_ok _ := true }.
#[local] Instance pe_clock : Clock PEnv := { Now := mret 0%Z }.
#[local] Instance pe_metrics : Metrics PEnv := { Inc _ := mret tt }.
#[local] Instance pe_events : ProcessEvents PEnv := {
  NotifyConnected := mret tt; NotifyConnectionFailed _ := mret tt; StartHTTPServer _ := mret tt;
  ShutdownHTTPServer _ := mret tt; WaitForSignalOrLostConnection := mret tt; CloseProducer := mret tt;
  FlushLogger := mret tt; Sleep _ := mret tt }.
#[local] Instance pe_writer : KafkaWriter PEnv := { WriteMessages _ := mret None }.
#[local] Instance pe_uuid1 : UUIDv1 PEnv := { NewUUID := mret EmptyString }.
#[local] Instance pe_uuid : UUID PEnv := { NewRandom := mret (inl EmptyString) }.
#[local] Instance pe_http : HttpClient PEnv := {
  http_NewRequest _ := None; http_Do _ := mret (inr (ErrText "connection refused")) }.
#[local] Instance pe_gateway : AuthGateway PEnv := {
  gateway_NewRequest _ := None; gateway_Do _ _ _ := mret (inr (ErrText "connection refused")) }.
#[local] Instance pe_lru : LRU PEnv := { lru_Get _ := mret None; lru_Add _ _ := mret tt }.
#[local] Instance pe_mqtt : MqttClient PEnv := { Publish _ _ _ _ _ := mret TokenTimeout }.
#[local] Instance pe_translator : Translator PEnv := { EANToOrgID _ := mret (EmptyString, None) }.
#[local] Instance pe_tenantid : TenantidLib PEnv := {
  NewTranslator _ _ := pe_translator; NewTranslatorMockWithMapping _ := pe_translator }.
#[local] Instance pe_identity : IdentityMiddleware PEnv := { EnforceIdentity next := next }.
#[local] Instance pe_xrhid : XRHIDLib := {
  XRHID := string; xrhid_Unmarshal := Some; xrhid_Marshal := Some; xrhid_AccountNumber := id;
  xrhid_InternalOrgID := id; xrhid_AuthType := id; xrhid_set_AuthType _ := id }.
#[local] Instance pe_uuid_parse : UUIDParse := {| uuid_Parse_ok _ := true |}.
#[local] Program Instance pe_laws : ProcessLaws PEnv := { trace := pe_trace }.
Solve All Obligations with (intros; eexists; try eexists; split; reflexivity).

Definition service_config : Config := config_of_options
  (foldl (λ v kv, SetDefault v kv.1 (OString kv.2)) (set_defaults (V := list (string * optval))) [
     ("MQTT_Client_Id", "connector-1"); ("Connection_Database_Ssl_Mode", "disable");
     ("Client_Id_To_Account_Id_Impl", "bop"); ("Connected_Client_Recorder_Impl", "fake");
     ("Sources_Recorder_Impl", "fake"); ("Tenant_Translator_Impl", "mock")]).

Lemma service_processes_lifecycle_witness :
  let w := {| pe_db := test_db []; pe_response := empty_response; pe_once := {| once_done := false |};
              pe_trace := [] |} in
  consumer_life service_config ":8081" (startKafkaMessageConsumer service_config ":8081" w).1
    (pe_trace (startKafkaMessageConsumer service_config ":8081" w).2) ∧
  length (pe_trace (startKafkaMessageConsumer service_config ":8081" w).2) = 8 ∧
  pe_trace (startCloudConnectorApiServer 0 service_config ":8081" w).2
  = [PConnect (Some "connector-1") (Some (negb (ShutdownOnMqttConnectionLost service_config))) true;
     PWaited true; PServe ":8081"; PWoken Signalled; PStop (HttpShutdownTimeout service_config); PDisconnect (MqttDisconnectQuiesceTime service_config)].
Proof.
  intros w. split_and!; [|vm_compute; reflexivity..].
  destruct (service_processes_lifecycle 0 service_config ":8081" w) as [(o&w'&evs&Hrun&Ht&Hlife) _].
  rewrite Hrun. cbn [fst snd]. change (trace w') with (pe_trace w') in Ht. rewrite Ht. exact Hlife.
Defined.
