(* ===== verification/Reports.v ===== *)
(** * The account report and the Pendo transmitter

    - [ProcessConnectionCounts], [StartConnectedAccountReport]
      ([internal/connection_repository]: connection_counter.go,
      account_reporter.go);
    - [PendoReporter] and its batches ([internal/pendo_transmitter]);
    - [stdoutConnectionCountProcessor] (cmd/cloud-connector/main.go).

    The query is a text put together from the accounts to leave out; what
    PostgreSQL makes of such a text is the class [SqlText]. *)

From S2P Require Import Prelude GoStrings GoNumTime Json Domain Config Protocol Repository Locators StaleStore Sources Deploy.
From stdpp Require Import options.

(** ** connection_counter.go *)

Definition count_query_text (accountsToExclude : list string) : string :=
  let queryStmt := "SELECT account, COUNT(1) AS connection_count FROM connections" in
  let queryStmt :=
    if bool_decide (0 < length accountsToExclude)
    then " " +:+ queryStmt +:+ " WHERE account NOT IN ('" +:+ Join accountsToExclude "','" +:+ "')"
    else queryStmt in
  " " +:+ queryStmt +:+ " GROUP BY account ORDER BY connection_count DESC".

(** The rows a query text yields: an account, NULL or not, and a count. *)
Class SqlText := { run_count_query : string → list Row → list (option string * Z) + error }.

(** The accounts of the table that are not left out, each with its connections.
    A NULL account is not [NOT IN] anything. *)
Definition account_counts (accountsToExclude : list string) (rows : list Row) : list (AccountID * Z) :=
  (λ a, (a, Z.of_nat (length (filter (λ r, r_account r = Some a) rows))))
    <$> remove_dups (filter (λ a, a ∉ accountsToExclude) (omap r_account rows)).

Definition most_first (x y : AccountID * Z) : Prop := (y.2 ≤ x.2)%Z.
#[export] Instance most_first_dec : RelDecision most_first.
Proof. intros x y. unfold most_first. apply _. Defined.

(** SQL: what the text means when no account breaks out of its quotes. *)
Class SqlTextLaws `{!SqlText} := {
  count_query_means accounts rows :
    accounts ≠ [] → Forall (λ a, string_mem "'" a = false) accounts →
    ∃ res, run_count_query (count_query_text accounts) rows = inl (prod_map Some id <$> res) ∧
      res ≡ₚ account_counts accounts rows ∧ StronglySorted most_first res;
}.

Class Stdout (W : Type) := { Print : string → M W unit }.
#[global] Hint Mode Stdout + : typeclass_instances.

Definition count_line (account : AccountID) (count : Z) : string :=
  account +:+ " - " +:+ Itoa count +:+ str1 "010".

Section report.
Context {W : Type} `{!Lens W Db, !Stdout W, !SqlText, !Platform}.

Definition ProcessConnectionCounts (accountsToExclude : list string)
    (processConnectionCount : AccountID → Z → M W (option error)) : M W (option error) :=
  let queryStmt := count_query_text accountsToExclude in
  perr ← zoom db_Prepare;
  match perr with
  | Some _ => exit_process "SQL Prepare failed"
  | None =>
      res ← zoom (db_Query (run_count_query queryStmt));
      match res with
      | inr _ => exit_process "SQL query failed"
      | inl rows =>
          for_each rows (λ row, match row.1 with
                                | None => mret tt
                                | Some account => processConnectionCount account row.2;; mret tt
                                end);;
          mret None
      end
  end.

Definition StartConnectedAccountReport (cfg : Config) (accountsToExcludeCmdLineArg : string)
    (processorFunc : AccountID → Z → M W (option error)) : M W unit :=
  match InitializeDatabaseConnection cfg with
  | inr _ => exit_process "Failed to connect to the database"
  | inl _ =>
      ProcessConnectionCounts (Split accountsToExcludeCmdLineArg ",") processorFunc;;
      mret tt
  end.

(** main.go *)
Definition stdoutConnectionCountProcessor (account : AccountID) (count : Z) : M W (option error) :=
  Print (count_line account count);;
  mret None.
End report.

(** ** pendo_reporter.go *)

Record accountInfo := { ai_AccountID : AccountID; ai_ConnCount : Z }.
Definition doc_accountInfo (a : accountInfo) : jdoc :=
  JObj [("accountId", jstring (ai_AccountID a));
        ("values", JObj [("connectionCount", jint (ai_ConnCount a))])].

(** The package's variable. *)
Record PendoVars := { accInfo : list accountInfo }.

Section pendo.
Context {W : Type} `{!Lens W Db, !Stdout W, !SqlText, !Platform, !HttpClient W, !Lens W PendoVars}.

Definition get_accInfo : M W (list accountInfo) := v ← zoom get_state; mret (accInfo v).
Definition set_accInfo (l : list accountInfo) : M W unit := zoom (put_state {| accInfo := l |}).

(** [json.Marshal] does not fail on these types; [req] is nil when there is no
    request. *)
Definition pendo_makeRequest (endpoint : string) (timeout : Z) (apiKey : string)
    : M W (string * option error) :=
  info ← get_accInfo;
  let reqBody := render (JArr (doc_accountInfo <$> info)) in
  let url := endpoint +:+ "/metadata/account/custom/value" in
  match http_NewRequest (W := W) url with
  | Some _ => panic "invalid memory address or nil pointer dereference"
  | None =>
      resp ← http_Do {|
        rq_Method := "POST"; rq_URL := url;
        rq_Header := [("content-type", "application/json"); ("x-pendo-integration-key", apiKey)];
        rq_Body := Some reqBody; rq_Timeout := timeout |};
      mret match resp with
           | inr err => (EmptyString, Some err)
           | inl resp =>
               if bool_decide (reply_StatusCode resp ≠ 200%Z) then
                 (EmptyString, Some (ErrText ("Pendo Request Unsuccessful. Status: "
                                              +:+ Itoa (reply_StatusCode resp))))
               else if reply_ReadFailed resp then (EmptyString, Some (ErrText "unexpected EOF"))
               else (reply_Body resp, None)
           end
  end.

(** It logs the answer. *)
Definition requestHandler (cfg : Config) : M W unit :=
  pendo_makeRequest (PendoApiEndpoint cfg) (PendoRequestTimeout cfg) (PendoIntegrationKey cfg);;
  mret tt.

Definition connectionCountProcessor (cfg : Config) (account : AccountID) (count : Z) : M W (option error) :=
  Print (count_line account count);;
  info ← get_accInfo;
  set_accInfo (info ++ [{| ai_AccountID := account; ai_ConnCount := count |}]);;
  info ← get_accInfo;
  (if (PendoRequestSize cfg <=? Z.of_nat (length info))%Z
   then requestHandler cfg;; set_accInfo []
   else mret tt);;
  mret None.

Definition PendoReporter (cfg : Config) (excludeAccounts : string) : M W unit :=
  if bool_decide (PendoIntegrationKey cfg = EmptyString)
  then exit_process "No Pendo Integration key."
  else
    StartConnectedAccountReport cfg excludeAccounts (connectionCountProcessor cfg);;
    info ← get_accInfo;
    if bool_decide (0 < length info) then requestHandler cfg else mret tt.
End pendo.

(** ** A scripted world *)

Record ReportWorld := {
  rw_db : Db; rw_vars : PendoVars; rw_http : SEnv; rw_printed : list string }.
#[export] Program Instance rw_db_lens : Lens ReportWorld Db := {
  lget := rw_db;
  lset x w := {| rw_db := x; rw_vars := rw_vars w; rw_http := rw_http w; rw_printed := rw_printed w |} }.
Next Obligation. done. Qed.
Next Obligation. by intros []. Qed.
Next Obligation. done. Qed.
#[export] Program Instance rw_vars_lens : Lens ReportWorld PendoVars := {
  lget := rw_vars;
  lset x w := {| rw_db := rw_db w; rw_vars := x; rw_http := rw_http w; rw_printed := rw_printed w |} }.
Next Obligation. done. Qed.
Next Obligation. by intros []. Qed.
Next Obligation. done. Qed.
#[export] Program Instance rw_http_lens : Lens ReportWorld SEnv := {
  lget := rw_http;
  lset x w := {| rw_db := rw_db w; rw_vars := rw_vars w; rw_http := x; rw_printed := rw_printed w |} }.
Next Obligation. done. Qed.
Next Obligation. by intros []. Qed.
Next Obligation. done. Qed.
#[export] Instance rw_stdout : Stdout ReportWorld := {
  Print s w := (Ret tt, {| rw_db := rw_db w; rw_vars := rw_vars w; rw_http := rw_http w;
                           rw_printed := rw_printed w ++ [s] |}) }.

(** ** Lemmas: batches *)

Definition requests (w : ReportWorld) : list http_request := (exchanges (rw_http w)).*1.

Definition pendo_url (cfg : Config) : string := PendoApiEndpoint cfg +:+ "/metadata/account/custom/value".

(** The request that reports a batch. *)
Definition pendo_request (cfg : Config) (batch : list accountInfo) : http_request := {|
  rq_Method := "POST"; rq_URL := pendo_url cfg;
  rq_Header := [("content-type", "application/json"); ("x-pendo-integration-key", PendoIntegrationKey cfg)];
  rq_Body := Some (render (JArr (doc_accountInfo <$> batch))); rq_Timeout := PendoRequestTimeout cfg |}.

Definition info_of (c : AccountID * Z) : accountInfo := {| ai_AccountID := c.1; ai_ConnCount := c.2 |}.
Definition line_of (c : AccountID * Z) : string := count_line c.1 c.2.

(** A batch is sent when it has grown to this size. *)
Definition batch_size (cfg : Config) : nat := Z.to_nat (Z.max 1 (PendoRequestSize cfg)).

Section batches.
Context `{!Platform, !SqlText, !UrlCheck} (cfg : Config).
Hypothesis Hurl : url_error (pendo_url cfg) = None.

Lemma requestHandler_run (w : ReportWorld) :
  ∃ w', requestHandler cfg w = (Ret tt, w') ∧ rw_db w' = rw_db w ∧ rw_vars w' = rw_vars w ∧
    rw_printed w' = rw_printed w ∧ requests w' = requests w ++ [pendo_request cfg (accInfo (rw_vars w))].
Proof using Hurl.
  unfold requestHandler, pendo_makeRequest, get_accInfo. unfold mbind, M_bind. cbn.
  fold (pendo_url cfg). rewrite Hurl. eexists. split; [reflexivity|]. cbn.
  split; [done|]. split; [done|]. split; [done|]. unfold requests. cbn. by rewrite fmap_app.
Qed.

Lemma get_run (w : ReportWorld) : get_accInfo w = (Ret (accInfo (rw_vars w)), w).
Proof. by destruct w. Qed.

Lemma batch_full (info : list accountInfo) :
  info ≠ [] → (PendoRequestSize cfg <=? Z.of_nat (length info))%Z = bool_decide (batch_size cfg ≤ length info).
Proof.
  intros Hne. unfold batch_size. destruct info; [done|].
  apply eq_true_iff_eq. rewrite Z.leb_le, bool_decide_eq_true. cbn [length]. lia.
Qed.

Lemma count_run c (w : ReportWorld) :
  let info := accInfo (rw_vars w) ++ [info_of c] in
  ∃ w', connectionCountProcessor cfg c.1 c.2 w = (Ret None, w') ∧ rw_db w' = rw_db w ∧
    rw_printed w' = rw_printed w ++ [line_of c] ∧
    if decide (batch_size cfg ≤ length info)
    then accInfo (rw_vars w') = [] ∧ requests w' = requests w ++ [pendo_request cfg info]
    else accInfo (rw_vars w') = info ∧ requests w' = requests w.
Proof using Hurl.
  intros info. unfold connectionCountProcessor.
  set (w1 := {| rw_db := rw_db w; rw_vars := {| accInfo := info |}; rw_http := rw_http w;
                rw_printed := rw_printed w ++ [line_of c] |}).
  assert (Hw1 : ∀ k : list accountInfo → M ReportWorld (option error),
    (Print (count_line c.1 c.2);; l ← get_accInfo;
     set_accInfo (l ++ [{| ai_AccountID := c.1; ai_ConnCount := c.2 |}]);; l ← get_accInfo; k l) w = k info w1)
    by done.
  rewrite Hw1, batch_full by (by destruct (accInfo (rw_vars w))).
  destruct (decide (batch_size cfg ≤ length info)) as [Hd|Hd].
  - rewrite bool_decide_eq_true_2 by done. destruct (requestHandler_run w1) as (w2&Hrun&Ed&Ev&Ep&Er).
    unfold mbind, M_bind. rewrite Hrun. eexists. split; [reflexivity|]. cbn.
    split; [by rewrite Ed|]. split; [by rewrite Ep|]. split; [done|]. exact Er.
  - rewrite bool_decide_eq_false_2 by done. by exists w1.
Qed.

(** The loop over the counts, with a batch begun: full batches are sent. *)
Lemma counts_run counts (w : ReportWorld) :
  length (accInfo (rw_vars w)) < batch_size cfg →
  ∃ bs w', for_each (prod_map Some id <$> counts) (λ row : option AccountID * Z, match row.1 with
      | None => mret tt
      | Some account => connectionCountProcessor cfg account row.2;; mret tt
      end) w = (Ret tt, w') ∧
    rw_db w' = rw_db w ∧ rw_printed w' = rw_printed w ++ (line_of <$> counts) ∧
    requests w' = requests w ++ (pendo_request cfg <$> bs) ∧
    concat bs ++ accInfo (rw_vars w') = accInfo (rw_vars w) ++ (info_of <$> counts) ∧
    Forall (λ b, length b = batch_size cfg) bs ∧ length (accInfo (rw_vars w')) < batch_size cfg.
Proof using Hurl.
  revert w. induction counts as [|c counts IH]; intros w Hlen.
  { exists [], w. cbn. rewrite !app_nil_r. done. }
  destruct (count_run c w) as (w1&Hrun&Hdb&Hpr&Hstep).
  assert (Hfor : ∀ k : M ReportWorld unit, ((connectionCountProcessor cfg c.1 c.2;; mret tt);; k) w = k w1).
  { intros k. unfold mbind, M_bind. by rewrite Hrun. }
  destruct (decide (batch_size cfg ≤ length (accInfo (rw_vars w) ++ [info_of c]))) as [Hd|Hd];
    destruct Hstep as [Hacc Hreq]; rewrite length_app in Hd; cbn in Hd.
  - destruct (IH w1) as (bs&w2&Hrun2&Hdb2&Hpr2&Hreq2&Hcat&Hall&Hlen2).
    { rewrite Hacc. cbn. unfold batch_size. lia. }
    exists ((accInfo (rw_vars w) ++ [info_of c]) :: bs), w2. split; [|split_and!; [congruence|..]].
    + cbn [fmap list_fmap for_each prod_map fst snd id]. rewrite Hfor. exact Hrun2.
    + by rewrite Hpr2, Hpr, <-app_assoc.
    + by rewrite Hreq2, Hreq, <-app_assoc.
    + rewrite Hacc in Hcat. cbn in Hcat |- *. by rewrite <-!app_assoc, Hcat.
    + constructor; [|done]. rewrite length_app. cbn. lia.
    + done.
  - destruct (IH w1) as (bs&w2&Hrun2&Hdb2&Hpr2&Hreq2&Hcat&Hall&Hlen2).
    { rewrite Hacc, length_app. cbn. lia. }
    exists bs, w2. split; [|split_and!; [congruence|..]].
    + cbn [fmap list_fmap for_each prod_map fst snd id]. rewrite Hfor. exact Hrun2.
    + by rewrite Hpr2, Hpr, <-app_assoc.
    + by rewrite Hreq2, Hreq.
    + rewrite Hcat, Hacc, <-app_assoc. done.
    + done.
    + done.
Qed.

(** ** Properties *)

Context `{!SqlTextLaws}.

(** C33: The Pendo report: the counts of the accounts that are not left out, in
    decreasing order, are each sent exactly once, in consecutive batches of the
    configured size (the last may be smaller, none is empty); what the service
    answers to one batch does not change the others; and the table is only
    read. *)
Theorem pendo_report_batches exclude dsn (w : ReportWorld) :
  PendoIntegrationKey cfg ≠ EmptyString → InitializeDatabaseConnection cfg = inl dsn → healthy (rw_db w) →
  Forall (λ a, string_mem "'" a = false) (Split exclude ",") → accInfo (rw_vars w) = [] →
  ∃ counts bs w', PendoReporter cfg exclude w = (Ret tt, w') ∧ table (rw_db w') = table (rw_db w) ∧
    counts ≡ₚ account_counts (Split exclude ",") (table (rw_db w)) ∧ StronglySorted most_first counts ∧
    requests w' = requests w ++ (pendo_request cfg <$> bs) ∧ concat bs = info_of <$> counts ∧
    (∀ i b, bs !! i = Some b → b ≠ [] ∧ length b ≤ batch_size cfg ∧
       (S i < length bs → length b = batch_size cfg)) ∧
    rw_printed w' = rw_printed w ++ (line_of <$> counts).
Proof using All.
  intros Hkey Hdb [Hf Hc] Hq Hacc.
  destruct (count_query_means (Split exclude ",") (table (rw_db w))) as (counts&Hres&Hperm&Hsort);
    [apply Split_ne|done|].
  set (w1 := lset (tick_db (tick_db (rw_db w))) w : ReportWorld).
  destruct (counts_run counts w1) as (bs&w2&Hrun&Hdb2&Hpr&Hreq&Hcat&Hall&Hlen).
  { cbn. rewrite Hacc. unfold batch_size. cbn. lia. }
  cbn in Hcat. rewrite Hacc in Hcat. cbn in Hcat.
  assert (Hstart : ∀ k : M ReportWorld unit,
    (StartConnectedAccountReport cfg exclude (connectionCountProcessor cfg);; k) w = k w2).
  { intros k. assert (Hproc : ProcessConnectionCounts (Split exclude ",") (connectionCountProcessor cfg) w
      = (Ret None, w2)).
    { unfold ProcessConnectionCounts. rewrite (scan_unfold _ _ (prod_map Some id <$> counts)) by done.
      by rewrite (bind_ret _ _ _ _ _ Hrun). }
    unfold StartConnectedAccountReport. rewrite Hdb. unfold mbind, M_bind. by rewrite Hproc. }
  unfold PendoReporter. rewrite bool_decide_eq_false_2 by done. rewrite Hstart.
  assert (Hbs : ∀ i b, bs !! i = Some b → length b = batch_size cfg).
  { rewrite Forall_lookup in Hall. exact Hall. }
  assert (Hpos : 0 < batch_size cfg) by (unfold batch_size; lia).
  destruct (accInfo (rw_vars w2)) as [|x rest] eqn:Hrest.
  - exists counts, bs, w2. split; [|split_and!; try done].
    + by rewrite (bind_ret _ _ _ _ _ (get_run w2)), Hrest.
    + by rewrite Hdb2.
    + by rewrite app_nil_r in Hcat.
    + intros i b Hb. specialize (Hbs i b Hb). split; [intros ->; cbn in Hbs; lia|]. split; [lia|done].
  - destruct (requestHandler_run w2) as (w3&Hrun3&Hdb3&_&Hpr3&Hreq3). rewrite Hrest in Hreq3.
    exists counts, (bs ++ [x :: rest]), w3. split; [|split_and!; try done].
    + by rewrite (bind_ret _ _ _ _ _ (get_run w2)), Hrest.
    + by rewrite Hdb3, Hdb2.
    + rewrite Hreq3, Hreq, fmap_app, <-app_assoc. done.
    + rewrite concat_app. cbn. by rewrite app_nil_r.
    + intros i b Hb. rewrite length_app. cbn [length]. apply lookup_app_Some in Hb as [Hb|[Hi Hb]].
      * specialize (Hbs i b Hb). split; [intros ->; cbn in Hbs; lia|]. split; [lia|done].
      * apply list_lookup_singleton_Some in Hb as [Hi0 <-]. split; [done|]. split; [lia|]. lia.
    + by rewrite Hpr3.
Qed.
End batches.

(** ** Witness: a reading of the query text *)

(** Every second part of a list. *)
Fixpoint second_parts (l : list string) : list string :=
  match l with
  | _ :: q :: l' => q :: second_parts l'
  | _ => []
  end.

(** The literals of the text: what stands between its quotes. *)
Definition literals (text : string) : list string := second_parts (Split text "'").

#[export] Instance test_sql : SqlText := {
  run_count_query text rows :=
    inl (prod_map Some id <$> merge_sort most_first (account_counts (literals text) rows)) }.

Lemma literals_join accounts before after :
  accounts ≠ [] → Forall (λ a, string_mem "'" a = false) accounts →
  string_mem "'" before = false → string_mem "'" after = false →
  literals (before +:+ String "'" (Join accounts "','" +:+ String "'" after)) = accounts.
Proof.
  intros Hne Hall Hb Ha. unfold literals. rewrite Split_app by done. revert Hne.
  generalize before. clear before Hb. induction Hall as [|a l Hx Hl IH]; intros before Hne; [done|].
  destruct l as [|b l].
  - cbn [Join]. rewrite Split_app by done. rewrite Split_no_sep by done. done.
  - change (Join (a :: b :: l) "','") with (a +:+ "','" +:+ Join (b :: l) "','").
    assert (Hcat : (a +:+ "','" +:+ Join (b :: l) "','") +:+ String "'" after
      = a +:+ String "'" ("," +:+ String "'" (Join (b :: l) "','" +:+ String "'" after))).
    { by rewrite !string_app_assoc. }
    rewrite Hcat, Split_app by done.
    rewrite (Split_app "," (Join (b :: l) "','" +:+ String "'" after) "'") by done.
    cbn [second_parts]. f_equal. by apply (IH ",").
Qed.

#[export] Instance most_first_total : Total most_first.
Proof. intros x y. unfold most_first. lia. Qed.
#[export] Instance most_first_trans : Transitive most_first.
Proof. intros x y z. unfold most_first. lia. Qed.

#[export] Instance test_sql_laws : SqlTextLaws.
Proof.
  split. intros accounts rows Hne Hall. exists (merge_sort most_first (account_counts accounts rows)).
  split; [|split; [apply merge_sort_Permutation|apply StronglySorted_merge_sort; apply _]].
  assert (Hlit : literals (count_query_text accounts) = accounts).
  { unfold count_query_text. rewrite bool_decide_eq_true_2 by (destruct accounts; [by destruct Hne|cbn; lia]).
    rewrite <-(literals_join accounts
      "  SELECT account, COUNT(1) AS connection_count FROM connections WHERE account NOT IN ("
      ") GROUP BY account ORDER BY connection_count DESC") at 2; [|done..].
    f_equal. by rewrite !string_app_assoc. }
  unfold run_count_query, test_sql. by rewrite Hlit.
Qed.

#[export] Instance report_platform : Platform := {|
  ReadFile _ := inr (ErrText "no such file"); Hostname := inl "pod-1"; sql_Open _ _ := None;
  certificate := unit; LoadX509KeyPair _ _ := inl tt; certpool := unit; CertPoolFromPEM _ := tt;
  writer_invalid brokers _ _ _ := if bool_decide (brokers = []) then Some "no brokers" else None;
  reader_invalid brokers _ _ _ := if bool_decide (brokers = []) then Some "no brokers" else None;
  scram_error _ _ _ := None; rsa_key := unit; ParseRSAPrivateKeyFromPEM _ := inl tt;
  SignedString _ _ _ := inl EmptyString |}.
#[local] Instance any_url : UrlCheck := {| url_error _ := None |}.

Definition pendo_config : Config := config_of_options
  (SetDefault (SetDefault (SetDefault (set_defaults (V := list (string * optval)))
     "Pendo_Integration_Key" (OString "key")) "Pendo_Request_Size" (OInt 2))
     "Connection_Database_Impl" (OString "postgres")).

Definition account_row (account client : string) : Row :=
  with_tenant (test_row "111000" client) "111000" account (Some 0%Z) None.

(** The service refuses every batch. *)
Definition report_world : ReportWorld := {|
  rw_db := test_db [account_row "1" "a"; account_row "2" "b"; account_row "2" "c"; account_row "3" "d";
                    account_row "477931" "e"];
  rw_vars := {| accInfo := [] |};
  rw_http := {| exchanges := []; s_tick := 0; s_reply _ := inr (ErrText "refused");
                s_uuid _ := inr (ErrText "none") |};
  rw_printed := [] |}.

Lemma pendo_report_batches_witness :
  ∃ bs w', PendoReporter pendo_config "477931,540155" report_world = (Ret tt, w') ∧
    requests w' = pendo_request pendo_config <$> bs ∧ length bs = 2 ∧
    rw_printed w' = ["2 - 2" +:+ str1 "010"; "3 - 1" +:+ str1 "010"; "1 - 1" +:+ str1 "010"].
Proof.
  assert (Hurl : url_error (pendo_url pendo_config) = None) by reflexivity.
  destruct (pendo_report_batches pendo_config Hurl "477931,540155"
    (default EmptyString (match InitializeDatabaseConnection pendo_config with inl s => Some s | _ => None end))
    report_world)
    as (counts&bs&w'&Hrun&_&_&_&Hreq&Hcat&Hlen&Hpr).
  - intros Hx. vm_compute in Hx. discriminate.
  - vm_compute. reflexivity.
  - split; intros n; reflexivity.
  - repeat constructor.
  - reflexivity.
  - assert (Hout : (rw_printed (PendoReporter pendo_config "477931,540155" report_world).2,
                    length (requests (PendoReporter pendo_config "477931,540155" report_world).2))
      = (["2 - 2" +:+ str1 "010"; "3 - 1" +:+ str1 "010"; "1 - 1" +:+ str1 "010"], 2)) by (vm_compute; reflexivity).
    rewrite Hrun in Hout. cbn [snd] in Hout. injection Hout as Hp Hl.
    exists bs, w'. split; [exact Hrun|]. split; [exact Hreq|]. split; [|exact Hp].
    rewrite Hreq in Hl. cbn in Hl. by rewrite length_fmap in Hl.
Defined.
