(* ===== verification/UpdaterSystem.v ===== *)
(** * The updater processes, composed

    The two periodic updaters of [Updaters] over the program's own components:
    the file based account resolver, the inventory recorder and the table.  The
    interface [UpdaterServices] is discharged here, so the updaters' theorems
    hold of the composition; and the consumer and the updater are put in a row,
    to follow a connection from the message that registers it to the scan that
    takes it up. *)

From S2P Require Import Prelude GoStrings GoNumTime Json JsonFacts Domain Config Protocol Repository Locators StaleStore ControlHandler Identity AccountResolver Inventory Sources System Updaters.
From stdpp Require Import options.

#[export] Instance world_clock : Clock World := { Now := zoom (W := World) (Now (W := KEnv)) }.

(** The parts of a state have the shapes the recorder asserts. *)
Definition well_shaped (c : ConnectorClientState) : bool :=
  bool_decide (is_Some (as_map (ccCanonicalFacts c)))
  && bool_decide (is_Some (as_map (ccDispatchers c))) && tags_ok (ccTags c).

Section composed.
Context `{!Postgres, !Deployment, !UrlCheck}.

Lemma well_shaped_records i c (w : World) :
  well_shaped c = true →
  ∃ res w', RecordConnectedClient i c w = (Ret res, w') ∧ w_db w' = w_db w.
Proof.
  unfold well_shaped. rewrite !andb_true_iff, !bool_decide_eq_true. intros [[[f Hf] [d Hd]] Ht].
  destruct (ccCanonicalFacts c) eqn:Ef; try done. destruct (ccDispatchers c) eqn:Ed; try done.
  pose proof (record_returns i c _ _ w (or_introl Ef) (or_introl Ed) Ht) as Hr.
  pose proof (preserves_record i c w) as Hp.
  destruct (RecordConnectedClient i c w) as [[res|?|?] w']; [|done|done]. by exists res, w'.
Qed.

#[export] Program Instance world_updater_services : UpdaterServices World := {
  answer := configurable_MapClientIdToAccountId dep_accounts;
  recordable c := well_shaped c = true;
}.
Next Obligation. intros cid w. by exists w. Qed.
Next Obligation. intros i c w Hc. by apply well_shaped_records. Qed.
Next Obligation. intros w. by eexists _, _. Qed.

(** ** A connection the recorder cannot read *)

(** [jsonb]'s [?] finds a key of an object as well as an element of an array;
    the recorder's type assertion takes objects only. *)
Lemma record_poison i c l (w : World) :
  i ≠ EmptyString → ccCanonicalFacts c ≠ VNull → ccCanonicalFacts c ≠ VObject ∅ →
  ccDispatchers c = VArray l → ∃ why, RecordConnectedClient i c w = (Panic why, w).
Proof.
  intros Hi Hn Hne Hd. assert (Hp : ∃ why, shouldHostBeRegisteredWithInventory c i (w_kafka w) = (Panic why, w_kafka w)).
  { unfold shouldHostBeRegisteredWithInventory, and_then, or_else, isIdentityValid. rewrite bind_ret_l.
    rewrite bool_decide_eq_true_2 by (destruct i; [done|cbn; lia]).
    unfold doesHostHaveCanonicalFacts, doesHostHaveDispatcher. rewrite Hd.
    destruct (ccCanonicalFacts c) as [| | | | |facts]; try done; try (by eexists).
    unfold mbind, M_bind. cbn. rewrite bool_decide_eq_true_2 by congruence. by eexists. }
  destruct Hp as [why Hp]. exists why. cbn. unfold zoom, inventory_RecordConnectedClient.
  cbn [lget world_kafka]. rewrite (bind_panic _ _ _ _ _ Hp). by destruct w.
Qed.

(** The file based resolver gives an identity with every tenant. *)
Lemma resolved_identity bar cid identity account org :
  configurable_MapClientIdToAccountId bar cid = (identity, account, org, None) → identity ≠ EmptyString.
Proof.
  assert (Hne : ∀ a o, createIdentityHeader a o ≠ EmptyString).
  { intros a o He. pose proof (DecodeString_EncodeToString (identityJson a o)) as Hd.
    unfold createIdentityHeader in He. by rewrite He in Hd. }
  unfold configurable_MapClientIdToAccountId. repeat case_match; intros [= <- _ _]; apply Hne.
Qed.

Lemma for_each_app_run {W A} (l1 l2 : list A) (body : A → M W unit) w w1 :
  for_each l1 body w = (Ret tt, w1) → for_each (l1 ++ l2) body w = for_each l2 body w1.
Proof.
  revert w. induction l1 as [|x l1 IH]; intros w; cbn [for_each app]; [by intros [= <-]|].
  unfold mbind, M_bind. destruct (body x w) as [[[]|?|?] w0]; [apply IH|done|done].
Qed.

Lemma page_sublist {A} offset limit (l l' : list A) : page offset limit l = inl l' → l' `sublist_of` l.
Proof.
  unfold page. repeat case_match; try done. intros [= <-]. etrans; [apply sublist_take|apply sublist_drop].
Qed.

Lemma select_stale_rows cutoff chunk rows sel :
  unique_clients rows → select_stale cutoff chunk rows = inl sel →
  NoDup (r_client_id <$> sel) ∧ ∀ r, r ∈ sel → r ∈ rows ∧ is_stale cutoff r = true.
Proof.
  intros Hu Hsub%page_sublist. split.
  - eapply sublist_NoDup; [|by apply fmap_sublist]. rewrite merge_sort_Permutation.
    eapply sublist_NoDup; [exact Hu|]. apply fmap_sublist, sublist_filter.
  - intros r Hr. assert (Hin : r ∈ filter (λ r, is_stale cutoff r) rows).
    { rewrite <-(merge_sort_Permutation older_stale). by eapply elem_of_sublist. }
    apply list_elem_of_filter in Hin as [HQ%Is_true_true ?]. done.
Qed.

(** C35: A connection whose dispatchers are a JSON array stops the stale timestamp
    updater, wherever it comes in the selection: the scan selects it when the array
    names a worker, like an object with that key, and when its tenant is found and
    it has canonical facts the inventory recorder panics on it.  The connections
    before it in the selection have been handled; its own row and those of all
    connections after it are not touched, so that they stay the oldest. *)
Theorem poison_row_blocks_updater cutoff chunk (w : World) before r rest c l identity account org :
  healthy (w_db w) → unique_clients (table (w_db w)) →
  select_stale cutoff chunk (table (w_db w)) = inl (before ++ r :: rest) →
  (∀ r' c', r' ∈ before → stale_state r' = Some c' → well_shaped c' = true) →
  stale_state r = Some c → ccCanonicalFacts c ≠ VNull → ccDispatchers c = VArray l →
  configurable_MapClientIdToAccountId dep_accounts (ccClientID c) = (identity, account, org, None) →
  ∃ why w', ProcessStaleConnections cutoff chunk processStaleConnection w = (Panic why, w') ∧
    changed (stale_step (db_clock (w_db w))) before (table (w_db w)) (table (w_db w')) ∧
    (∀ r', r' ∈ r :: rest → r' ∈ table (w_db w')).
Proof.
  intros Hh Hu Hsel Hbefore Hst Hf Hd Ha. destruct (select_stale_rows _ _ _ _ Hu Hsel) as [Hnd Hin].
  assert (Hne : ccCanonicalFacts c ≠ VObject ∅).
  { destruct (Hin r) as [_ Hs]; [apply elem_of_app; right; left|]. unfold is_stale in Hs.
    rewrite !andb_true_iff, !negb_true_iff in Hs. destruct Hs as [[[_ Hs] _] _].
    unfold is_empty_object in Hs. apply bool_decide_eq_false in Hs. unfold stale_state in Hst.
    destruct (r_tenant_lookup_failure_count r); [|done]. injection Hst as <-. exact Hs. }
  unfold ProcessStaleConnections. rewrite (scan_unfold _ _ (before ++ r :: rest)) by done.
  set (w1 := lset (tick_db (tick_db (lget w))) w).
  rewrite fmap_app in Hnd. apply NoDup_app in Hnd as (Hnd&Hdis&_).
  destruct (process_rows_changed (db_clock (w_db w)) (stale_step (db_clock (w_db w))) stale_state
    processStaleConnection before w1) as (w2&Hrun&_&Hch); [apply stale_step_client| |done|done|done| |].
  { intros r' Hr'. destruct (stale_state r') as [c'|] eqn:Hst'.
    - intros w0 ? ? ?. apply stale_callback; [done| |done..]. exact (Hbefore r' c' Hr' Hst').
    - unfold stale_step. by rewrite Hst'. }
  { intros r' Hr'. apply Hin. apply elem_of_app. by left. }
  destruct (record_poison identity c l w2 (resolved_identity _ _ _ _ _ Ha) Hf Hne Hd) as [why Hrec].
  exists why, w2. split; [|split; [exact Hch|]].
  - unfold process_rows in *. unfold mbind at 1, M_bind at 1.
    rewrite (for_each_app_run _ _ _ _ _ Hrun). cbn [for_each]. rewrite Hst.
    unfold mbind, M_bind. unfold processStaleConnection at 1, mbind at 1, M_bind at 1.
    cbn [MapClientIdToAccountId world_resolver mret M_ret]. rewrite Ha.
    unfold mbind, M_bind. by rewrite Hrec.
  - intros r' Hr'. destruct (Hin r') as [Ht _]; [apply elem_of_app; by right|].
    apply list_elem_of_lookup in Ht as [i Hi]. destruct (Forall2_lookup_l _ _ _ _ _ Hch Hi) as (y&Hy&Hxy).
    cbn in Hxy. rewrite decide_False in Hxy.
    + subst y. by eapply list_elem_of_lookup_2.
    + intros Hb. apply (Hdis _ Hb). by apply list_elem_of_fmap_2.
Qed.
End composed.

(** ** On concrete tables *)

(** An online message whose dispatchers are a list. *)
Definition poison_payload : string := render (status_doc "m1" "2024-01-01T00:00:00Z"
  (JObj [("state", text "online"); ("canonical_facts", JObj [("fqdn", text "host.example")]);
         ("dispatchers", JArr [text "package-manager"])])).

(** After the first delivery of the message, and after its redelivery. *)
Definition poisoned : outcome (option error) * World :=
  HandleControlMessage "client-a" poison_payload (test_world []).
Definition redelivered : outcome (option error) * World :=
  HandleControlMessage "client-a" poison_payload poisoned.2.

Definition poison_row : Row := default (test_row EmptyString EmptyString) (head (table (w_db redelivered.2))).
Definition poison_state : ConnectorClientState := default zero_state (stale_state poison_row).

Definition panics {A} (o : outcome A) : bool := match o with Panic _ => true | _ => false end.

Definition stale_row (client : string) (age : time) : Row := {|
  r_account := Some "540155"; r_org_id := "111000"; r_client_id := client;
  r_dispatchers := render (JObj [("package-manager", JObj [])]);
  r_canonical_facts := render (JObj [("fqdn", text "host.example")]); r_tags := None;
  r_created_at := 0; r_updated_at := 0; r_stale_timestamp := age;
  r_message_id := Some "m0"; r_message_sent := 0;
  r_tenant_lookup_failure_count := Some 0%Z; r_tenant_lookup_timestamp := None |}.

(** The message makes the consumer panic and is ignored when it comes again, but
    its row is there, and the updater panics on it: an older row has been handled,
    a younger one has not. *)
Definition poison_world : World :=
  test_world [stale_row "client-y" 5000000000000; poison_row; stale_row "client-o" 1].

Lemma poison_row_blocks_updater_witness :
  panics poisoned.1 = true ∧ redelivered.1 = Ret None ∧
  ∃ why w', ProcessStaleConnections 9000000000000 10 processStaleConnection poison_world = (Panic why, w') ∧
    changed (stale_step (W := World) (db_clock (w_db poison_world))) [stale_row "client-o" 1]
      (table (w_db poison_world)) (table (w_db w')) ∧
    ∀ r', r' ∈ [poison_row; stale_row "client-y" 5000000000000] → r' ∈ table (w_db w').
Proof.
  split; [vm_compute; reflexivity|]. split; [vm_compute; reflexivity|].
  destruct (poison_row_blocks_updater 9000000000000 10 poison_world [stale_row "client-o" 1] poison_row
    [stale_row "client-y" 5000000000000] poison_state
    [VString "package-manager"] (createIdentityHeader "010101" "000001") "010101" "000001")
    as (why&w'&H1&H2&H3).
  - split; intros n; vm_compute; reflexivity.
  - apply (bool_decide_unpack _). vm_compute. exact I.
  - vm_compute. reflexivity.
  - intros r' c' ->%list_elem_of_singleton Hst.
    assert (Hc : c' = default zero_state (stale_state (stale_row "client-o" 1))) by (by rewrite Hst).
    subst c'. vm_compute. reflexivity.
  - vm_compute. reflexivity.
  - vm_compute. discriminate.
  - vm_compute. reflexivity.
  - vm_compute. reflexivity.
  - exists why, w'. split; [exact H1|]. split; [exact H2|exact H3].
Defined.

Definition lost_row (client : string) : Row :=
  with_tenant (test_row EmptyString client) EmptyString EmptyString (Some 1%Z) (Some 0%Z).
Definition lost_world : World := test_world [lost_row "client-a"; test_row "111000" "client-b"; lost_row "bad"].

Lemma lost_world_clients : unique_clients (table (lget lost_world)).
Proof. apply (bool_decide_unpack _). vm_compute. exact I. Qed.

Lemma test_answers_fit : answers_fit (W := World).
Proof.
  intros cid. unfold answer, world_updater_services, configurable_MapClientIdToAccountId, dep_accounts,
    test_deployment.
  destruct (clientIdToAccountIdMap test_resolver !! cid) as [x|] eqn:Hx; [|done].
  cbn in Hx. apply lookup_singleton_Some in Hx as [_ <-]. done.
Qed.

(** A chunk of one. *)
Definition lost_config : Config := config_of_options (foldl (λ v kv, SetDefault v kv.1 (OInt kv.2))
  (set_defaults (V := list (string * optval))) [("Tenantless_Connection_Updater_Chunk_Size", 1%Z)]).

Definition lost_time : time := 1805000000000.

(** Two runs. *)
Definition lost_run (w : World) : World := (startTenantlessConnectionUpdater lost_config w).2.
Lemma lost_run_ends w :
  (startTenantlessConnectionUpdater lost_config w).1 = Ret tt →
  startTenantlessConnectionUpdater lost_config w = (Ret tt, lost_run w).
Proof. unfold lost_run. destruct (startTenantlessConnectionUpdater _ _). by intros [= ->]. Qed.
Definition lost_now (w : World) : time := default 0%Z (match (Now (W := World) w).1 with Ret t => Some t | _ => None end).

Lemma tenantless_updater_drains_witness :
  let w' := lost_run (lost_run lost_world) in
  (∃ ts w'', length ts = 5 ∧ updater_runs (W := World) lost_config ts lost_world w'') ∧
  updater_runs (W := World) lost_config [lost_now lost_world; lost_now (lost_run lost_world)] lost_world w' ∧
  waiting (cutoff_at lost_config lost_time) (TenantlessConnectionMaxLookupFailures lost_config)
    (table (w_db w')) = [].
Proof.
  intros w'.
  destruct (tenantless_updater_drains (W := World) lost_config 1 lost_time lost_world) as [Hruns Hdrain].
  - split; intros n; reflexivity.
  - apply lost_world_clients.
  - apply test_answers_fit.
  - vm_compute. discriminate.
  - vm_compute. reflexivity.
  - intros n. change (db_clock (lget lost_world) n) with (Z.of_nat (1000 + n) * 1000000000)%Z.
    assert (Hc : (timestamptz_in (cutoff_at lost_config lost_time) ≤ 5000000000)%Z) by (vm_compute; discriminate).
    lia.
  - split; [exact (Hruns 5)|].
    assert (Hr : updater_runs (W := World) lost_config [lost_now lost_world; lost_now (lost_run lost_world)]
      lost_world w').
    { apply (runs_next _ _ _ lost_world (Now (W := World) lost_world).2 (lost_run lost_world)).
      - reflexivity.
      - apply lost_run_ends. vm_compute. reflexivity.
      - apply (runs_next _ _ _ _ (Now (W := World) (lost_run lost_world)).2 w').
        + vm_compute. reflexivity.
        + apply (lost_run_ends (lost_run lost_world)). vm_compute. reflexivity.
        + apply runs_none. }
    split; [exact Hr|]. refine (proj1 (proj2 (Hdrain _ w' Hr _) _)).
    + repeat constructor; vm_compute; discriminate.
    + vm_compute. lia.
Defined.

(** An account whose lookup succeeds without an org. *)
Definition orgless_deployment : Deployment := {|
  dep_config := default_config;
  dep_accounts := {| clientIdToAccountIdMap := ∅; defaultAccountId := "010101"; defaultOrgId := EmptyString |};
  dep_recorder := dep_recorder |}.

Lemma empty_org_strands_witness :
  ∃ w' r', ProcessTenantlessConnections (W := World) 5000000000 10 3
      (@processTenantlessConnection _ World _ (@world_resolver orgless_deployment)) lost_world = (Ret None, w') ∧
    r' ∈ table (w_db w') ∧ r_client_id r' = "client-a" ∧ ∀ cutoff' max', is_tenantless cutoff' max' r' = false.
Proof.
  destruct (empty_org_strands (W := World) (UpdaterServices0 := @world_updater_services orgless_deployment)
    5000000000 10 3 lost_world (lost_row "client-a")
    (createIdentityHeader "010101" EmptyString) "010101")
    as (w'&r'&H1&H2&H3&_&H4&_).
  - split; intros n; reflexivity.
  - apply lost_world_clients.
  - apply (list_elem_of_lookup_2 _ 0). vm_compute. reflexivity.
  - vm_compute. lia.
  - reflexivity.
  - vm_compute. reflexivity.
  - vm_compute. reflexivity.
  - exists w', r'. split; [exact H1|]. split; [exact H2|]. split; [exact H3|exact H4].
Defined.

Definition stale_world : World := test_world [stale_row "client-a" 1; stale_row "client-b" 2; stale_row "bad" 0].

Definition scannable_well_shaped (r : Row) : bool :=
  match stale_state r with Some c => well_shaped c | None => true end.

Lemma stale_updater_effect_witness :
  ∃ (sel rest : list Row) w', startInventoryStaleTimestampUpdater default_config stale_world = (Ret tt, w') ∧
    length sel = 3 ∧ length rest = 0 ∧
    changed (stale_step (W := World) (db_clock (w_db stale_world))) sel
      (table (w_db stale_world)) (table (w_db w')).
Proof.
  destruct (stale_updater_effect (W := World) default_config
    (Z.to_nat (InventoryStaleTimestampUpdaterChunkSize default_config)) stale_world
    (1600000000000000000 - (InventoryStaleTimestampOffset default_config - hour))%Z
    ((Now (W := World) stale_world).2))
    as (sel&rest&w'&H1&H2&H3&_&H4&_).
  - vm_compute. reflexivity.
  - split; intros n; reflexivity.
  - apply (bool_decide_unpack _). vm_compute. exact I.
  - vm_compute. reflexivity.
  - intros r c Hr Hst. change (well_shaped c = true).
    assert (Hall : forallb scannable_well_shaped (table (w_db stale_world)) = true) by (vm_compute; reflexivity).
    rewrite forallb_forall in Hall. specialize (Hall r). unfold scannable_well_shaped in Hall. rewrite Hst in Hall.
    apply Hall, list_elem_of_In, Hr.
  - exists sel, rest, w'. split; [exact H1|].
    assert (Hsel : length sel = 3) by (rewrite H3; vm_compute; reflexivity).
    apply Permutation_length in H2. rewrite length_app, Hsel in H2.
    split; [exact Hsel|]. split; [|exact H4].
    assert (Hf : length (filter (λ r, is_stale (1600000000000000000 - (InventoryStaleTimestampOffset default_config - hour))%Z r)
      (table (lget stale_world))) = 3) by (vm_compute; reflexivity).
    rewrite Hf in H2. lia.
Defined.
