(* ===== verification/Interleaving.v ===== *)
(** * The processes side by side

    The consumer and the two updaters share the table, and each of them looks
    something up before it writes: the consumer the client's entry and its
    tenant, the updaters the rows to work on and then each one's tenant.  Here
    they are threads that take turns at their calls on the database:

    - [thread], [tstep]: what a thread knows, and its steps, in each of which the
      database may fail or cut a result short ([Db] is any database with the
      table);
    - [pstep]: any number of threads, in any order;
    - [code_runs_are_steps]: the programs of [ControlHandler] and [Updaters] take
      no other steps;
    - [org_provenance], [late_failure_takes_tenant]: what does and does not hold
      of the table whatever the order.

    A statement is one step (the upsert of two consumers for one client is not:
    Kafka hands a client's messages to one consumer). *)

From S2P Require Import Prelude GoStrings GoNumTime Json JsonFacts Domain Config Protocol Repository Locators StaleStore TableTypes ControlHandler Identity AccountResolver Inventory Sources System Updaters UpdaterSystem.
From stdpp Require Import relations.
From stdpp Require Import options.

(** ** Threads *)

Inductive scan := Stale | Tenantless.

(** The statement an updater has decided on. *)
Inductive update :=
| Failed (c : ConnectorClientState)
| Refreshed (c : ConnectorClientState)
| Settled (c : ConnectorClientState).

(** What a thread holds between two calls on the database. *)
Inductive thread :=
| Idle
| Checked (cid : ClientID) (msg : ControlMessage value)
| Registering (c : ConnectorClientState)
| Scanned (k : scan) (queue : list ConnectorClientState)
| Recording (u : update) (k : scan) (queue : list ConnectorClientState).

Section threads.
Context `{!Postgres}.

Definition run_update (u : update) : M Db unit :=
  match u with
  | Failed c => RecordFailedTenantLookup c;; mret tt
  | Refreshed c => RecordUpdatedStaleTimestamp c
  | Settled c => RecordSuccessfulTenantLookup c;; mret tt
  end.

(** What the account resolver may answer for a client: account, org, error. *)
Variable says : ClientID → AccountID → OrgID → option error → Prop.

Inductive tstep : list Row * thread → list Row * thread → Prop :=
| step_check db cid msg :
    result_of (checkForDuplicateOnlineMessage cid msg) db = Ret None →
    tstep (table db, Idle) (table db, Checked cid msg)
| step_lookup rows cid msg account org err content facts :
    says cid account org err → Content msg = VObject content →
    tstep (rows, Checked cid msg) (rows, Registering (online_state cid msg account org content facts))
| step_register db c : tstep (table db, Registering c) (table (state_of (sql_Register c) db), Idle)
| step_unregister db cid : tstep (table db, Idle) (table (state_of (sql_Unregister cid) db), Idle)
| step_scan_stale rows cutoff chunk sel n :
    select_stale cutoff chunk rows = inl sel →
    tstep (rows, Idle) (rows, Scanned Stale (omap stale_state (take n sel)))
| step_scan_tenantless rows cutoff chunk maxFailures sel n :
    select_tenantless cutoff chunk maxFailures rows = inl sel →
    tstep (rows, Idle) (rows, Scanned Tenantless (omap tenantless_state (take n sel)))
| step_fail rows k c q account org err :
    says (ccClientID c) account org (Some err) →
    tstep (rows, Scanned k (c :: q)) (rows, Recording (Failed c) k q)
| step_refresh rows c q account org :
    says (ccClientID c) account org None →
    tstep (rows, Scanned Stale (c :: q)) (rows, Recording (Refreshed c) Stale q)
| step_refuse rows c q account org :
    says (ccClientID c) account org None →
    tstep (rows, Scanned Stale (c :: q)) (rows, Scanned Stale q)
| step_settle rows c q account org :
    says (ccClientID c) account org None →
    tstep (rows, Scanned Tenantless (c :: q))
          (rows, Recording (Settled (with_account c account org)) Tenantless q)
| step_record db u k q : tstep (table db, Recording u k q) (table (state_of (run_update u) db), Scanned k q)
| step_done rows k : tstep (rows, Scanned k []) (rows, Idle).

(** Any thread takes the next step. *)
Inductive pstep : list Row * list thread → list Row * list thread → Prop :=
| step_of rows ts i t rows' t' :
    ts !! i = Some t → tstep (rows, t) (rows', t') → pstep (rows, ts) (rows', <[i:=t']> ts).

(** ** Where an org comes from *)

(** The resolver has named the org for a client whose rows go under that id; both
    texts as their columns keep them. *)
Definition granted (cid : string) (org : string) : Prop :=
  ∃ cid0 account org0 err, says cid0 account org0 err ∧
    (cid = cid0 ∨ varchar_in 100 cid0 = Some cid) ∧ varchar_in 20 org0 = Some org.

Definition row_granted (r : Row) : Prop := r_org_id r = EmptyString ∨ granted (r_client_id r) (r_org_id r).

(** A state about to be written carries what the resolver said. *)
Definition state_said (c : ConnectorClientState) : Prop :=
  ∃ account err, says (ccClientID c) account (ccOrgID c) err.

Definition thread_ok (t : thread) : Prop :=
  match t with
  | Registering c | Recording (Settled c) _ _ => state_said c
  | _ => True
  end.

Lemma varchar_stored n s s' : varchar n s = inl s' → varchar_in n s = Some s'.
Proof. unfold varchar. destruct (varchar_in n s); [|done]. by intros [= ->]. Qed.

Lemma update_granted cond (f : time → Row → Row + error) :
  (∀ now r r', cond r = true → row_granted r → f now r = inl r' → row_granted r') →
  stmt_keeps (Forall row_granted) (λ now, update_where cond (f now)).
Proof using.
  intros Hf now rows rows' Hrows. revert rows'. induction Hrows as [|r rows Hr _ IH]; intros rows' Hrun.
  { injection Hrun as <-. constructor. }
  cbn [update_where] in Hrun. destruct (cond r) eqn:Hc.
  - destruct (f now r) as [r'|] eqn:E, (update_where cond (f now) rows) as [rows1|]; try done.
    injection Hrun as <-. constructor; [by eapply Hf|by apply IH].
  - destruct (update_where cond (f now) rows) as [rows1|]; [|done].
    injection Hrun as <-. constructor; [done|by apply IH].
Qed.

Lemma upsert_granted a account err :
  says (ua_client_id a) account (ua_org_id a) err → stmt_keeps (Forall row_granted) (upsert_statement a).
Proof using.
  intros Hsays now rows rows' Hrows. unfold upsert_statement, coerce_columns.
  destruct (jsonb (ua_dispatchers a)), (jsonb (ua_canonical_facts a)), (jsonb (ua_tags a)); try done.
  destruct (varchar 40 _) as [m|]; [|done]. destruct (varchar 20 _) as [o|] eqn:Eo; [|done].
  destruct (varchar 10 _) as [ac|]; [|done]. apply varchar_stored in Eo.
  destruct (existsb _ rows); [intros [= <-]|].
  - apply Forall_fmap. eapply Forall_impl; [exact Hrows|]. intros r Hr. cbn. case_bool_decide as Hc; [|done].
    right. exists (ua_client_id a), account, (ua_org_id a), err. split_and!; [done|by left|done].
  - destruct (varchar 100 (ua_client_id a)) as [cid|] eqn:Ec; [|done]. intros [= <-].
    apply Forall_app. split; [done|]. constructor; [|done]. right.
    exists (ua_client_id a), account, (ua_org_id a), err. split_and!; [done| |done]. right. by apply varchar_stored.
Qed.
End threads.

(** A row the strict lookup finds, on any table. *)
Lemma strict_found `{!Postgres} org cid db s db' :
  NewSqlGetConnectionByClientID org cid db = (Ret (s, None), db') →
  ∃ r, r ∈ table db ∧ r_org_id r = org ∧ r_client_id r = cid ∧ r_org_id r ≠ EmptyString ∧
       s = located_state cid r.
Proof.
  unfold NewSqlGetConnectionByClientID, createGetConnectionByClientIDImpl, db_Prepare, db_QueryRow, mbind, M_bind.
  destruct (verifyOrgId org); [done|]. destruct (verifyClientId cid); [done|].
  destruct (db_fault db (db_tick db)); [done|]. cbn [db_fault db_tick tick_db table].
  destruct (db_fault db (S (db_tick db))); [done|].
  destruct (filter _ (table db)) as [|r rest] eqn:Hf; intros [= <- _]; [].
  assert (Hr : r ∈ filter (λ r, strictConnectionLookupQuery org cid r) (table db)) by (rewrite Hf; left).
  apply list_elem_of_filter in Hr as [Hq Hr]. unfold strictConnectionLookupQuery in Hq.
  rewrite !andb_True, !bool_decide_spec, negb_True in Hq. destruct Hq as [[Ho Hc] Hne]. exists r.
  split_and!; try done. intros He. apply Hne. by rewrite bool_decide_eq_true_2.
Qed.

Section provenance.
Context `{!Postgres}.
Variable says : ClientID → AccountID → OrgID → option error → Prop.
#[local] Set Default Proof Using "Type*".
#[local] Abbreviation grants := (Forall (row_granted says)).

Lemma register_grants c : state_said says c → keeps grants (sql_Register c).
Proof.
  intros (account&err&Hsays). unfold sql_Register. apply keeps_bind.
  { destruct (isTenantlessConnection c); [|apply keeps_ret]. apply keeps_bind; [apply keeps_app_Now|].
    intros ?. apply keeps_ret. }
  intros ts. apply keeps_bind; [apply keeps_prepare|]. intros [e|]; [apply keeps_ret|].
  destruct (Marshal (ccDispatchers c)); [|apply keeps_ret].
  destruct (Marshal (ccCanonicalFacts c)); [|apply keeps_ret].
  destruct (Marshal (ccTags c)); [|apply keeps_ret].
  apply keeps_bind; [|intros ?; apply keeps_ret]. by eapply keeps_exec, upsert_granted.
Qed.

Lemma unregister_grants cid : keeps grants (sql_Unregister cid).
Proof.
  unfold sql_Unregister. apply keeps_bind; [apply keeps_prepare|]. intros [e|]; [apply keeps_ret|].
  apply keeps_bind; [|intros ?; apply keeps_ret]. apply keeps_exec. intros now rows rows' Hrows [= <-].
  rewrite Forall_forall in *. intros r [_ Hr]%list_elem_of_filter. by apply Hrows.
Qed.

Lemma update_grants u k q : thread_ok says (Recording u k q) → keeps grants (run_update u).
Proof.
  intros Hu. destruct u as [c|c|c]; cbn [run_update].
  - apply keeps_bind; [|intros ?; apply keeps_ret]. unfold RecordFailedTenantLookup.
    apply keeps_bind; [apply keeps_prepare|]. intros [e|]; [apply keeps_ret|].
    apply keeps_exec, (update_granted says _ failed_row). intros now r r' _ _. unfold failed_row.
    repeat case_match; intros [= <-] || done; by left.
  - unfold RecordUpdatedStaleTimestamp. apply keeps_bind; [apply keeps_prepare|].
    intros [e|]; [apply keeps_exit|]. apply keeps_bind; [|intros [e|]; [apply keeps_exit|apply keeps_ret]].
    apply keeps_exec, (update_granted says _ (λ now r, inl (refreshed_row now r))). by intros now r r' _ Hr [= <-].
  - destruct Hu as (account&err&Hsays). apply keeps_bind; [|intros ?; apply keeps_ret].
    unfold RecordSuccessfulTenantLookup. apply keeps_bind; [apply keeps_prepare|].
    intros [e|]; [apply keeps_ret|].
    apply keeps_exec, (update_granted says _ (λ _, successful_row (ccOrgID c) (ccAccount c))).
    intros now r r' Hc%bool_decide_eq_true _. unfold successful_row.
    destruct (varchar 20 _) as [o|] eqn:Eo; [|done]. destruct (varchar 10 _); [|done]. intros [= <-].
    right. exists (ccClientID c), account, (ccOrgID c), err. apply varchar_stored in Eo.
    split_and!; [done| |done]. by left.
Qed.

Lemma tstep_grants rows t rows' t' :
  tstep says (rows, t) (rows', t') → thread_ok says t → grants rows → grants rows' ∧ thread_ok says t'.
Proof.
  inversion 1; subst; intros Ht Hrows; try done.
  - split; [done|]. cbn. by eexists _, _.
  - split; [|done]. by apply register_grants.
  - split; [|done]. by apply unregister_grants.
  - split; [done|]. cbn. by eexists _, _.
  - split; [|done]. by eapply update_grants.
Qed.

Lemma pstep_grants s s' :
  rtc (pstep says) s s' → Forall (thread_ok says) s.2 ∧ grants s.1 → Forall (thread_ok says) s'.2 ∧ grants s'.1.
Proof.
  induction 1 as [|s1 s2 s3 Hstep _ IH]; [done|]. intros [Hts Hrows]. apply IH. clear IH.
  destruct Hstep as [rows ts i t rows' t' Hi Ht]. cbn in *.
  destruct (tstep_grants _ _ _ _ Ht) as [Hrows' Ht']; [by eapply Forall_lookup_1|done|].
  split; [|done]. by apply Forall_insert.
Qed.

(** C7: Where a connection's org comes from.  Consumers and updaters start idle on a
    table in which every org was named by the resolver and take any steps in any
    order, whatever the database does to each call and however old what a thread
    has read is by then: at every moment every row's org is empty or one that the
    resolver has named for that client, and a strict lookup of the API hands a
    connection to an org only if the resolver has named this org for it. *)
Theorem org_provenance rows n rows' ts' :
  Forall (row_granted says) rows →
  rtc (pstep says) (rows, replicate n Idle) (rows', ts') →
  Forall (row_granted says) rows' ∧
  ∀ db org cid s db', table db = rows' →
    NewSqlGetConnectionByClientID org cid db = (Ret (s, None), db') →
    ccOrgID s = org ∧ granted says cid org.
Proof.
  intros Hrows Hrun. destruct (pstep_grants _ _ Hrun) as [_ Hrows']; [|split; [exact Hrows'|]].
  { split; [|done]. by apply Forall_replicate. }
  intros db org cid s db' <- Hlook. cbn in Hrows'.
  destruct (strict_found org cid db s db' Hlook) as (r&Hr&Ho&Hc&Hne&->).
  rewrite Forall_forall in Hrows'. destruct (Hrows' r Hr) as [|Hg]; [by destruct Hne|].
  split; [done|]. by rewrite <-Hc, <-Ho.
Qed.
End provenance.

(** ** The programs are threads *)

Section programs.
Context `{!Postgres, !Deployment, !UrlCheck, !UUIDParse}.
#[local] Set Default Proof Using "Type*".

(** The answers of the deployed resolver. *)
Definition deployed_says (cid : ClientID) (account : AccountID) (org : OrgID) (err : option error) : Prop :=
  ∃ identity, configurable_MapClientIdToAccountId dep_accounts cid = (identity, account, org, err).

Definition db_table (w : World) : list Row := table (w_db w).

(** [m] takes a thread from [t] through its steps; if it returns [a], the thread
    is then at [f a]. *)
Definition threads_to {A} (t : thread) (m : M World A) (f : A → thread) : Prop := ∀ w, ∃ t',
  rtc (tstep deployed_says) (db_table w, t) (db_table (state_of m w), t') ∧
  ∀ a, result_of m w = Ret a → t' = f a.

Lemma threads_ret {A} (a : A) t f : t = f a → threads_to t (mret a) f.
Proof. intros -> w. exists (f a). split; [apply rtc_refl|]. by intros ? [= <-]. Qed.

Lemma threads_bind {A B} t (m : M World A) (k : A → M World B) f g :
  threads_to t m f → (∀ a, threads_to (f a) (k a) g) → threads_to t (m ≫= k) g.
Proof.
  intros Hm Hk w. destruct (Hm w) as (t'&Hrun&Hret). unfold state_of, result_of, mbind, M_bind in *.
  destruct (m w) as [[a|s|s] w']; cbn in *.
  - rewrite (Hret a eq_refl) in Hrun. destruct (Hk a w') as (t2&Hrun2&Hret2). exists t2.
    split; [by etrans|done].
  - exists t'. by split.
  - exists t'. by split.
Qed.

(** Code that does not touch the table leaves the thread where it is. *)
Lemma threads_table {A} t (m : M World A) : preserves db_table m → threads_to t m (λ _, t).
Proof. intros Hm w. exists t. unfold state_of. rewrite Hm. split; [apply rtc_refl|done]. Qed.

Lemma threads_frame {A} t (m : M World A) : preserves w_db m → threads_to t m (λ _, t).
Proof. intros Hm. apply threads_table. intros w. unfold db_table. by rewrite Hm. Qed.

Lemma threads_step {A} t t1 (m : M World A) f :
  (∀ rows, tstep deployed_says (rows, t) (rows, t1)) → threads_to t1 m f → threads_to t m f.
Proof.
  intros Ht Hm w. destruct (Hm w) as (t'&Hrun&Hret). exists t'. split; [|done]. by eapply rtc_l.
Qed.

Lemma threads_call {A} t t1 (m : M Db A) :
  (∀ db, tstep deployed_says (table db, t) (table (state_of m db), t1)) → threads_to t (zoom m : M World A) (λ _, t1).
Proof.
  intros Ht w. exists t1. split; [|done]. apply rtc_once. specialize (Ht (w_db w)).
  unfold state_of, db_table, zoom in *. cbn. by destruct (m (w_db w)).
Qed.

Lemma threads_pure {A} t (m : M World A) : pure_state m → threads_to t m (λ _, t).
Proof. intros Hm. apply threads_frame. intros w. by rewrite Hm. Qed.

(** *** The consumer *)

Lemma check_zooms cid msg :
  zooms (checkForDuplicateOnlineMessage cid msg : M World _) (checkForDuplicateOnlineMessage cid msg : M Db _).
Proof.
  unfold checkForDuplicateOnlineMessage. apply zooms_bind.
  - intros w. cbn. unfold zoom. cbn. by destruct (sql_FindConnectionByClientID cid (w_db w)).
  - intros [s e]. repeat first [apply zooms_ret|case_match].
Qed.

Lemma check_table cid msg (db : Db) : table (state_of (checkForDuplicateOnlineMessage cid msg) db) = table db.
Proof.
  unfold checkForDuplicateOnlineMessage. refine (preserves_bind table _ _ _ _ db).
  - intros db'. cbn. unfold zoom, sql_FindConnectionByClientID, db_Prepare, db_QueryRow, mbind, M_bind. cbn.
    destruct (db_fault db' (db_tick db')); [done|]. cbn. destruct (db_fault db' (S (db_tick db'))); cbn.
    + by destruct (errors_Is_e e ErrNoRows).
    + by destruct (filter _ (table db')).
  - intros [s e]. repeat first [apply preserves_ret|case_match].
Qed.

Lemma check_threads cid msg :
  threads_to Idle (checkForDuplicateOnlineMessage cid msg)
    (λ e, match e with Some _ => Idle | None => Checked cid msg end).
Proof.
  intros w. unfold state_of, result_of. rewrite (check_zooms cid msg w). unfold zoom.
  pose proof (check_table cid msg (w_db w)) as Ht. unfold state_of in Ht.
  pose proof (step_check deployed_says (w_db w) cid msg) as Hs. unfold result_of in Hs.
  change (lget w : Db) with (w_db w).
  destruct (checkForDuplicateOnlineMessage cid msg (w_db w)) as [o db'] eqn:E. cbn in *.
  unfold db_table. cbn. rewrite Ht.
  destruct o as [[e|]|?|?]; [exists Idle; split; [apply rtc_refl|by intros ? [= <-]]
    |exists (Checked cid msg); split; [by apply rtc_once, Hs|by intros ? [= <-]]
    |by exists Idle; split; [apply rtc_refl|]..].
Qed.

Lemma threads_ret_bind {A B} t (a : A) (k : A → M World B) f :
  threads_to t (k a) f → threads_to t (mret a ≫= k) f.
Proof. done. Qed.

Lemma threads_panic_bind {A B} t why (k : A → M World B) f : threads_to t (panic why ≫= k) f.
Proof. intros w. exists t. by split; [apply rtc_refl|]. Qed.

(** What follows the registration does not ask the database. *)
Lemma announced_pure identity c account org cid content :
  preserves w_db (err ← RecordConnectedClient (W := World) identity c;
    match err with
    | Some _ => mret None
    | None => processDispatchers identity account org cid content;; mret (None : option error)
    end).
Proof.
  apply preserves_bind; [apply preserves_record|]. intros [e|]; [done|].
  apply preserves_bind; [|done]. unfold processDispatchers.
  repeat first [apply preserves_ret|apply preserves_sources|apply preserves_assert_map|apply preserves_assert_string
    |apply preserves_bind; [|intros ?]|case_match].
Qed.

Lemma online_threads cid msg : threads_to Idle (handleOnlineMessage cid msg) (λ _, Idle).
Proof.
  unfold handleOnlineMessage. eapply threads_bind; [apply check_threads|].
  intros [e|]; [by apply threads_ret|]. apply threads_ret_bind.
  destruct (configurable_MapClientIdToAccountId dep_accounts cid) as [[[identity account] org] err] eqn:Hr.
  unfold assert_map at 1. destruct (Content msg) as [| | | | |content] eqn:Hc; try apply threads_panic_bind.
  apply threads_ret_bind. eapply threads_bind; [apply threads_pure, pure_sanitize|]. intros facts.
  apply (threads_step _ (Registering (online_state cid msg account org content facts))).
  { intros rows. eapply step_lookup; [by exists identity|done]. }
  eapply threads_bind; [apply threads_call; intros db; apply step_register|].
  intros [e|]; [destruct (errors_As_Fatal (Some e)); by apply threads_ret|].
  apply (threads_frame Idle), announced_pure.
Qed.

Lemma handle_threads cid payload : threads_to Idle (HandleControlMessage cid payload) (λ _, Idle).
Proof.
  unfold HandleControlMessage. eapply threads_bind; [by apply (threads_frame Idle)|]. intros [].
  case_bool_decide; [by apply threads_ret|].
  destruct (unmarshal_ControlMessage payload) as [msg|]; [|by apply threads_ret].
  case_bool_decide; [|by case_bool_decide; apply threads_ret].
  unfold handleConnectionStatusMessage. eapply threads_bind; [apply (threads_frame Idle), preserves_assert_map|].
  intros content. destruct (content !! "state") as [st|]; [|by apply threads_ret].
  assert (Hget : ∀ k, preserves w_db (getStringFromContentPayload (W := World) k content)).
  { intros k. unfold getStringFromContentPayload. repeat first [apply preserves_ret|apply preserves_assert_string
      |apply preserves_bind; [|intros ?]|case_match]. }
  eapply threads_bind; [apply (threads_frame Idle), Hget|intros ?].
  eapply threads_bind; [apply (threads_frame Idle), Hget|intros ?].
  assert (Hfinish : ∀ err, threads_to Idle (if bool_decide (err = Some errDuplicateOrOldMQTTMessage)
    then mret None else mret err : M World (option error)) (λ _, Idle)) by (intros err; case_bool_decide; by apply threads_ret).
  case_bool_decide; [eapply threads_bind; [apply online_threads|apply Hfinish]|].
  case_bool_decide; [|by apply threads_ret]. eapply threads_bind; [|apply Hfinish].
  unfold handleOfflineMessage. eapply threads_bind; [apply threads_call; intros db; apply step_unregister|].
  intros err. destruct (errors_As_Fatal err); by apply threads_ret.
Qed.

(** *** The updaters *)

Lemma record_threads {A} u k q (m : M Db A) :
  (∀ db, table (state_of m db) = table (state_of (run_update u) db)) →
  threads_to (Recording u k q) (zoom m : M World A) (λ _, Scanned k q).
Proof. intros Hm. apply threads_call. intros db. rewrite Hm. apply step_record. Qed.

Lemma then_tt_table {A} (m : M Db A) db : table (state_of m db) = table (state_of (m;; mret tt) db).
Proof. unfold state_of, mbind, M_bind. by destruct (m db) as [[?|?|?] ?]. Qed.

Lemma failed_threads c k q account org e :
  deployed_says (ccClientID c) account org (Some e) →
  threads_to (Scanned k (c :: q)) (zoom (RecordFailedTenantLookup c);; mret (Some e) : M World _) (λ _, Scanned k q).
Proof.
  intros Hsays. apply (threads_step _ (Recording (Failed c) k q)); [intros rows; by eapply step_fail|].
  eapply threads_bind; [apply record_threads, then_tt_table|]. intros ?. by apply threads_ret.
Qed.

Lemma stale_threads c q :
  threads_to (Scanned Stale (c :: q)) (processStaleConnection c) (λ _, Scanned Stale q).
Proof.
  unfold processStaleConnection. apply threads_ret_bind.
  destruct (configurable_MapClientIdToAccountId dep_accounts (ccClientID c)) as [[[identity account] org] [e|]] eqn:Hr.
  { eapply failed_threads. by exists identity. }
  assert (Hsays : deployed_says (ccClientID c) account org None) by by exists identity.
  eapply threads_bind; [apply threads_frame, preserves_record|]. intros [e|].
  - apply (threads_step _ (Scanned Stale q)); [intros rows; by eapply step_refuse|by apply threads_ret].
  - apply (threads_step _ (Recording (Refreshed c) Stale q)); [intros rows; by eapply step_refresh|].
    eapply threads_bind; [by apply record_threads|]. intros ?. by apply threads_ret.
Qed.

Lemma tenantless_threads c q :
  threads_to (Scanned Tenantless (c :: q)) (processTenantlessConnection c) (λ _, Scanned Tenantless q).
Proof.
  unfold processTenantlessConnection. apply threads_ret_bind.
  destruct (configurable_MapClientIdToAccountId dep_accounts (ccClientID c)) as [[[identity account] org] [e|]] eqn:Hr.
  { eapply failed_threads. by exists identity. }
  apply (threads_step _ (Recording (Settled (with_account c account org)) Tenantless q)).
  { intros rows. apply step_settle. by exists identity. }
  eapply threads_bind; [apply record_threads, then_tt_table|]. intros ?. by apply threads_ret.
Qed.

Lemma rows_threads k (scan_state : Row → option ConnectorClientState) process rows :
  (∀ c q, threads_to (Scanned k (c :: q)) (process c) (λ _, Scanned k q)) →
  threads_to (Scanned k (omap scan_state rows)) (process_rows (W := World) scan_state process rows) (λ _, Scanned k []).
Proof.
  intros Hp. induction rows as [|r rows IH]; [by apply threads_ret|]. unfold process_rows. cbn [for_each omap list_omap].
  destruct (scan_state r) as [c|]; (eapply threads_bind; [|intros ?; exact IH]).
  - eapply threads_bind; [apply Hp|]. intros ?. by apply threads_ret.
  - by apply threads_ret.
Qed.

(** A query and the rows it delivers, possibly cut short. *)
Lemma query_threads k (scan_state : Row → option ConnectorClientState) (select : list Row → list Row + error) :
  (∀ rows sel n, select rows = inl sel →
     tstep deployed_says (rows, Idle) (rows, Scanned k (omap scan_state (take n sel)))) →
  threads_to Idle (zoom (db_Query select) : M World _)
    (λ r, match r with inl rows => Scanned k (omap scan_state rows) | inr _ => Idle end).
Proof.
  intros Hstep w. unfold state_of, result_of, zoom, db_table. change (lget w : Db) with (w_db w). unfold db_Query.
  destruct (db_fault (w_db w) (db_tick (w_db w))) as [e|]; cbn [fst snd].
  { exists Idle. split; [apply rtc_refl|by intros ? [= <-]]. }
  destruct (select (table (w_db w))) as [sel|e] eqn:Hsel; cbn [fst snd].
  2:{ exists Idle. split; [apply rtc_refl|by intros ? [= <-]]. }
  set (n := default (length sel) (db_cut (w_db w) (db_tick (w_db w)))).
  assert (Hn : match db_cut (w_db w) (db_tick (w_db w)) with Some n => take n sel | None => sel end = take n sel).
  { unfold n. destruct (db_cut _ _); [done|]. cbn. by rewrite take_ge. }
  rewrite Hn. exists (Scanned k (omap scan_state (take n sel))).
  split; [by apply rtc_once, Hstep|by intros ? [= <-]].
Qed.

Lemma scan_threads k (scan_state : Row → option ConnectorClientState) (select : list Row → list Row + error) process :
  (∀ rows sel n, select rows = inl sel →
     tstep deployed_says (rows, Idle) (rows, Scanned k (omap scan_state (take n sel)))) →
  (∀ c q, threads_to (Scanned k (c :: q)) (process c) (λ _, Scanned k q)) →
  threads_to Idle (perr ← zoom (W := World) db_Prepare;
    match perr with
    | Some _ => exit_process "SQL Prepare failed"
    | None =>
        res ← zoom (db_Query select);
        match res with
        | inr _ => exit_process "SQL query failed"
        | inl rows => process_rows scan_state process rows;; mret (None : option error)
        end
    end) (λ _, Idle).
Proof.
  intros Hstep Hp. assert (Hexit : ∀ why, threads_to Idle (exit_process why : M World (option error)) (λ _, Idle)).
  { intros why w. exists Idle. by split; [apply rtc_refl|]. }
  eapply threads_bind; [by apply (threads_table Idle)|]. intros [e|]; [apply Hexit|].
  eapply threads_bind; [by apply query_threads|]. intros [rows|e]; [|apply Hexit].
  eapply threads_bind; [by apply rows_threads|]. intros ?.
  apply (threads_step _ Idle); [intros rows'; apply step_done|by apply threads_ret].
Qed.

(** C8: The code takes no other steps: a run of the consumer's handler on a message
    and a run of either updater's scan, on any state of the process, is a run of
    an idle thread through the steps of [tstep], whatever fails, and up to the
    point where it panics or exits; when it returns the thread is idle again. *)
Theorem code_runs_are_steps :
  (∀ cid payload, threads_to Idle (HandleControlMessage cid payload) (λ _, Idle)) ∧
  (∀ cutoff chunk, threads_to Idle (ProcessStaleConnections cutoff chunk processStaleConnection) (λ _, Idle)) ∧
  (∀ cutoff chunk maxFailures,
     threads_to Idle (ProcessTenantlessConnections cutoff chunk maxFailures processTenantlessConnection) (λ _, Idle)).
Proof.
  split_and!; intros.
  - apply handle_threads.
  - apply (scan_threads Stale); [|apply stale_threads]. intros. by eapply step_scan_stale.
  - apply (scan_threads Tenantless); [|apply tenantless_threads]. intros. by eapply step_scan_tenantless.
Qed.
End programs.

(** ** A tenant that is lost *)

Section late.
Context `{!Postgres, !PostgresLaws}.
#[local] Set Default Proof Using "Type*".

Definition org_of (rows : list Row) (cid : ClientID) : option OrgID := ccOrgID <$> registry_of rows !! cid.

Lemma upsert_resets a now rows rows' r :
  ua_reset_failure_count a = true → upsert_statement a now rows = inl rows' →
  r ∈ rows' → r_client_id r = ua_client_id a → r_tenant_lookup_failure_count r = Some 0%Z.
Proof using.
  intros Hreset. unfold upsert_statement, coerce_columns.
  destruct (jsonb (ua_dispatchers a)), (jsonb (ua_canonical_facts a)), (jsonb (ua_tags a)); try done.
  destruct (varchar 40 _) as [m|]; [|done]. destruct (varchar 20 _) as [o|]; [|done].
  destruct (varchar 10 _) as [ac|]; [|done]. destruct (existsb _ rows) eqn:Hex.
  - intros [= <-] (r0&->&Hr0)%list_elem_of_fmap. case_bool_decide; [|done]. intros _. cbn. by rewrite Hreset.
  - destruct (varchar 100 _) as [cid|]; [|done]. intros [= <-] Hr Hc.
    apply elem_of_app in Hr as [Hr|Hr%list_elem_of_singleton]; [|by rewrite Hr].
    apply not_true_iff_false in Hex. destruct Hex. apply existsb_client, list_elem_of_fmap. by exists r.
Qed.

Lemma register_resets c db :
  ccOrgID c ≠ EmptyString →
  wp (sql_Register c) db (λ o db', o = Ret None →
    ∀ r, r ∈ table db' → r_client_id r = ccClientID c → r_tenant_lookup_failure_count r = Some 0%Z).
Proof using.
  intros Horg. unfold sql_Register. apply wp_bind.
  assert (Htenant : isTenantlessConnection c = false).
  { unfold isTenantlessConnection. apply bool_decide_eq_false_2. by destruct (ccOrgID c). }
  rewrite Htenant. apply wp_ret. apply wp_bind, wp_Prepare. intros [e|]; [by apply wp_ret|].
  destruct (Marshal (ccDispatchers c)); [|by apply wp_ret].
  destruct (Marshal (ccCanonicalFacts c)); [|by apply wp_ret].
  destruct (Marshal (ccTags c)); [|by apply wp_ret].
  apply wp_bind, wp_Exec.
  - intros e. apply wp_ret. destruct e; try done. by destruct (IsConnectionException _).
  - intros rows Hrows. apply wp_ret. intros _ r Hr Hc. by eapply upsert_resets; [|exact Hrows|exact Hr|exact Hc].
Qed.

Lemma healthy_ok db : healthy db → unique_clients (table db) → db_ok db.
Proof using. intros [Hf _] Hu. split; [done|]. intros n e. by rewrite Hf. Qed.

Lemma register_healthy c db :
  healthy db → unique_clients (table db) → columns_take c = true → ccOrgID c ≠ EmptyString →
  let rows := table (state_of (sql_Register c) db) in
  unique_clients rows ∧ ∃ r, r ∈ rows ∧ r_client_id r = ccClientID c ∧ r_org_id r = ccOrgID c ∧
    r_tenant_lookup_failure_count r = Some 0%Z.
Proof.
  intros Hh Hu Hcol Horg. pose proof (healthy_ok db Hh Hu) as Hok.
  assert (Hfit : fits c = true).
  { revert Hcol. unfold columns_take. rewrite !andb_true_iff. by intros (((((((?&_)&_)&_)&_)&_)&_)&_). }
  pose proof (sql_register_spec c db Hok Hfit) as Hspec.
  pose proof (register_answers c db (proj1 Hh) Hcol) as Hans. pose proof (register_resets c db Horg) as Hres.
  rewrite wp_unfold in Hspec, Hans, Hres. unfold state_of. destruct (sql_Register c db) as [o db1]. cbn in *.
  destruct Hans as [_ ->]. destruct Hspec as [[Hu1 _] Hreg]. split; [done|].
  destruct (proj1 (registry_lookup (table db1) (ccClientID c) (store_form (registry_of (table db) !! ccClientID c) c) Hu1))
    as (r&Hr&Hc&Hs); [by rewrite Hreg, lookup_insert_eq|].
  exists r. split_and!; [done..| |by apply Hres].
  change (r_org_id r) with (ccOrgID (scan_state r)). by rewrite Hs.
Qed.

(** C36: A tenant can be lost: while an updater is about to record that it could not
    find a client's tenant, the consumer registers the client with one.  Both
    statements succeed, in this order, and the client, whose last message has been
    handled, is left without the tenant: the updater's statement looks at the
    client id only.  Its own org no longer finds it. *)
Theorem late_failure_takes_tenant says c c0 k q db1 db2 :
  healthy db1 → unique_clients (table db1) → columns_take c = true → ccOrgID c ≠ EmptyString →
  ccClientID c0 = ccClientID c →
  healthy db2 → table db2 = table (state_of (sql_Register c) db1) →
  ∃ rows,
    rtc (pstep says) (table db1, [Registering c; Recording (Failed c0) k q]) (rows, [Idle; Scanned k q]) ∧
    org_of (table db2) (ccClientID c) = Some (ccOrgID c) ∧ org_of rows (ccClientID c) = Some EmptyString ∧
    ∀ db s db', table db = rows →
      NewSqlGetConnectionByClientID (ccOrgID c) (ccClientID c) db ≠ (Ret (s, None), db').
Proof.
  intros Hh1 Hu1 Hcol Horg Hcid Hh2 Ht2.
  destruct (register_healthy c db1 Hh1 Hu1 Hcol Horg) as (Hu2&r&Hr&Hc&Ho&Hn). rewrite <-Ht2 in Hu2, Hr.
  destruct (failed_once c0 db2 r 0) as (db3&Hrun&_&Hu3&Hr3&_); [done..|congruence|done|done|].
  set (r3 := with_tenant _ _ _ _ _) in Hr3. exists (table db3). split_and!.
  - eapply rtc_l.
    { eapply (step_of _ _ _ 0); [done|]. apply (step_register _ db1). }
    rewrite <-Ht2. cbn. apply rtc_once.
    change [Idle; Scanned k q] with (<[1:=Scanned k q]> [Idle; Recording (Failed c0) k q]).
    apply (step_of _ _ _ 1 (Recording (Failed c0) k q)); [done|].
    replace (table db3) with (table (state_of (run_update (Failed c0)) db2)); [apply step_record|].
    unfold state_of, run_update, mbind, M_bind. by rewrite Hrun.
  - unfold org_of. rewrite (proj2 (registry_lookup _ _ (scan_state r) Hu2)) by by exists r. cbn. by rewrite Ho.
  - unfold org_of. rewrite (proj2 (registry_lookup _ _ (scan_state r3) Hu3)) by by exists r3. done.
  - intros db s db' Hdb Hlook. destruct (strict_found _ _ _ _ _ Hlook) as (r'&Hr'&Ho'&Hc'&_). rewrite Hdb in Hr'.
    assert (r' = r3) as -> by (apply (row_unique (table db3)); [done..|]; by rewrite Hc').
    by rewrite <-Ho' in Horg.
Qed.
End late.

(** ** Witnesses *)

Definition test_says (cid : ClientID) (account : AccountID) (org : OrgID) (err : option error) : Prop :=
  cid = "client-a" ∧ account = "010101" ∧ org = "000001".
Definition test_announced : ConnectorClientState :=
  online_state "client-a" test_msg "010101" "000001" test_content (VObject ∅).
Definition test_registered : Db := state_of (sql_Register test_announced) (test_db []).

Lemma org_provenance_witness :
  Forall (row_granted test_says) (table test_registered) ∧
  (r_org_id <$> table test_registered) = ["000001"] ∧
  ∃ s db', NewSqlGetConnectionByClientID "000001" "client-a" test_registered = (Ret (s, None), db') ∧
           granted test_says "client-a" "000001".
Proof.
  destruct (org_provenance test_says [] 2 (table test_registered)
    (<[0:=Idle]> (<[0:=Registering test_announced]> (<[0:=Checked "client-a" test_msg]> (replicate 2 Idle)))))
    as [H1 H2].
  - constructor.
  - eapply rtc_l. { eapply (step_of _ _ _ 0); [done|]. apply (step_check _ (test_db []) "client-a" test_msg). vm_compute. reflexivity. }
    eapply rtc_l. { eapply (step_of _ _ _ 0); [done|]. eapply (step_lookup _ _ "client-a" test_msg "010101" "000001" None test_content (VObject ∅)); [done|exact test_content_eq]. }
    apply rtc_once. eapply (step_of _ _ _ 0); [done|]. apply (step_register _ (test_db []) test_announced).
  - split; [exact H1|]. split; [vm_compute; reflexivity|].
    destruct (NewSqlGetConnectionByClientID "000001" "client-a" test_registered) as [o db'] eqn:E.
    assert (Ho : ∃ s, o = Ret (s, None)).
    { replace o with (NewSqlGetConnectionByClientID "000001" "client-a" test_registered).1 by (by rewrite E).
      eexists. vm_compute. reflexivity. }
    destruct Ho as [s ->]. exists s, db'. split; [reflexivity|]. by destruct (H2 _ _ _ _ _ eq_refl E).
Defined.

Definition lost_db : Db := test_db [lost_row "client-a"].
Definition lost_state : ConnectorClientState := test_client EmptyString "client-a".
Definition found_db : Db := state_of (sql_Register (test_client "000001" "client-a")) lost_db.

Lemma late_failure_takes_tenant_witness :
  ∃ rows,
    rtc (pstep test_says) (table lost_db, [Registering (test_client "000001" "client-a");
                                           Recording (Failed lost_state) Tenantless []])
        (rows, [Idle; Scanned Tenantless []]) ∧
    org_of (table found_db) "client-a" = Some "000001" ∧ org_of rows "client-a" = Some EmptyString.
Proof.
  destruct (late_failure_takes_tenant test_says (test_client "000001" "client-a") lost_state Tenantless []
    lost_db found_db) as (rows&H1&H2&H3&_).
  - split; intros n; vm_compute; reflexivity.
  - apply (bool_decide_unpack _). vm_compute. exact I.
  - vm_compute. reflexivity.
  - discriminate.
  - reflexivity.
  - split; intros n; vm_compute; reflexivity.
  - reflexivity.
  - exists rows. split; [exact H1|]. split; [exact H2|exact H3].
Defined.
